(* ===== verification/_CoqProject ===== *)
-Q . S2P
Prelude.v
Rounding.v
GoFloat.v
GoStrings.v
Utf8.v
GoStrconv.v
GoFlag.v
GoUrl.v
GoTime.v
GoRat.v
Api.v
Budget.v
Rules.v
Alerts.v
Prometheus.v
GoJson.v
JsonReader.v
GoSha256.v
Kubernetes.v
Instances.v
Meta.v
Storage.v
Workload.v
Monitoring.v
Build.v
Naming.v
Documents.v
Effects.v
Footprint.v
SloStatus.v
Freeze.v
Webhook.v
StorageStatus.v
Controller.v
ControllerCalls.v
ControllerSafety.v
Deletion.v
ControllerStatus.v
Convergence.v
EndToEnd.v
Manager.v
Rbac.v
Isolation.v
Gate.v
Scheme.v
Main.v
Http.v
Telemetry.v
JsonDecode.v
Shortlink.v
ShortlinkHandler.v
Testsvc.v
Serve.v
TestUtils.v
GoMemory.v
DeepCopy.v
