(* ===== verification/Prelude.v ===== *)
(** * Paved: a verification library

    Paved is a Kubernetes controller and validating webhook. A developer writes a ServiceClaim;
    the controller builds a set of objects from it and applies them, keeps an error budget from
    what Prometheus measures, freezes deploys when the budget is spent, and writes all of it in
    the claim's status; the webhook rejects image changes while deploys are frozen. This library
    models the Go code under [src/] and proves what makes it correct.

    ** Parts, files and the code they model

    - The language and its standard library, as far as the program uses them: [Rounding] and
      [GoFloat] (float64 on the Standard Library's SpecFloat, with the rounding lemmas), [GoStrings],
      [Utf8], [GoStrconv], [GoFlag], [GoTime], [GoRat] ([math/big.Rat]), [GoJson] and [JsonReader]
      (writing JSON and reading it back), [JsonDecode] ([json.Decoder] on a request's body), [GoUrl]
      ([net/url]), [GoSha256], [Http] ([http.ServeMux]), [GoMemory] (a heap of cells, slices and
      pointers). A Go string is a sequence of bytes, an error the chain that [errors.Is] walks, [(T, error)] a [result].
      [unicode.IsPrint] beyond ASCII, which [%q] uses, is the parameter [UnicodePrint]; two rules of
      [url.Parse] on hosts, which differ between releases of Go, are the parameter [HostRules].
    - [Api]: the ServiceClaim ([api/v1alpha1/serviceclaim_types.go]) and the CRD's validation.
    - [Budget], [Rules], [Alerts], [Prometheus]: [internal/slo]. Budgets are exact rationals; an
      error ratio, a burn rate and the share left are float64.
    - [Kubernetes]: data and operations of the Kubernetes libraries, which are not in this
      repository. The operations are the methods of classes ([StatusConditions], [ApiErrors],
      [Unstructured], [FinalizerUtil], [Predicates]); the behaviour that is relied on is a class
      of laws for each. [Instances] gives one implementation of all of them and proves its laws.
    - [Meta], [Storage], [Workload], [Monitoring], [Build]: [internal/builders]. One record per
      kind of object with the fields the builders set, one function per builder; [Build] is
      [set.go]. [Naming] judges the set by Kubernetes' rules for names and labels; [Documents]
      reads back the texts inside the objects.
    - [Effects]: handlers as programs. A call to the API server, to Prometheus, to the event
      recorder or to the clock is a constructor of [call]; a [prog] goes on with whatever answer
      comes back; [runs p tr a] says [p] can return [a] after exactly the calls and answers [tr].
      A theorem about every [tr] is one about every cluster, every failure and every concurrent
      writer. [exec] runs a program against one environment, for concrete examples. [Footprint] runs
      two programs against one server, call by call in any schedule.
    - [SloStatus], [Freeze], [StorageStatus], [Controller]: [internal/controller]
      ([slo_status.go], [freeze.go], [storage.go], and [serviceclaim_controller.go], [drift.go],
      [apply.go]). The long [Reconcile] is cut where its comments cut it: [reconcile_live],
      [reconcile_invalid], [reconcile_objects], [reconcile_status]. [ControllerCalls] lists the
      calls each part makes; what holds of those calls holds of every call of every run.
    - [Webhook]: [internal/webhook/v1alpha1/serviceclaim_webhook.go].
    - [Manager]: the cache, the watches and the storage decision of [cmd/main.go] and
      [SetupWithManager]. [Scheme]: the registrations of [addToScheme] and of the program's own API
      group, in order. [Main]: [main] itself, a program that logs the calls it makes and stops
      with an exit code; what the calls return is a parameter ([Runtime]).
    - [Rbac]: the RBAC markers over [Reconcile], and the permissions each call, watch and cached
      kind needs. The names and resources of the kinds are a class ([ApiKinds]) with the documented
      ones as laws. [Isolation]: the object of the API server each call reads or writes, and what a
      claim owns.
    - [Gate]: the webhook's registration (its marker and [SetupServiceClaimWebhookWithManager]) and
      the deploy gate as one step relation: users, the webhook, the store of the API server, and a
      reconciler that makes one call per step, reads any version of the claim its cache may still
      have, and may die.
    - [Shortlink]: the store and the handlers of the example service [services/shortlink], as a
      step relation over concurrent requests. [ShortlinkHandler]: its routes and metrics.
      [Testsvc]: [examples/testsvc]. Both count requests through [Telemetry], where the vectors
      of [client_golang] are a class with laws. [Serve]: [main] and [run] of both servers, a step
      relation of the function, its goroutine, the signal and the clock.
    - [DeepCopy]: [api/v1alpha1/zz_generated.deepcopy.go], on the heap of [GoMemory].
    - [TestUtils]: [test/utils/utils.go].

    The parts meet in the claim. The controller stores its decisions as status conditions
    ([applyStatus]); the next reconcile reads the freeze back ([was_frozen]) and the webhook reads
    it from the stored claim ([ValidateUpdate]). The labels [Build] puts on every object are what
    the cache selects by, what wakes the controller up and what [finalize] checks before it
    deletes.

    ** What the theorems show

    - [EndToEnd]: the error budget gates deploys, from the number Prometheus returned to the
      webhook's verdict on the claim as stored.
    - [Gate]: the whole system refines an abstract gate of an image, a frozen flag and an audit log;
      no override is missing from the log; the freeze moves only on a measurement or after a stale
      read, and there is a run in which a stale read does lift a freeze it should not.
    - [Rbac]: no run makes a call the markers do not allow, and they allow nothing on other kinds.
    - [Isolation]: reconciles of claims of different names never touch the same object, so on a
      server of objects every interleaving of the two is as good as running one after the other;
      claims of the same name in two namespaces collide.
    - [ControllerSafety]: what every run of [Reconcile] can and cannot do: the only deletion, when
      the finalizer is added and released, apply order and counts, and exactly which runs succeed:
      measuring fails open, writes do not.
    - [Deletion]: in a cluster that does its part, a deleted claim goes away, and only after its
      namespace has; the rounds this takes are counted.
    - [Convergence]: a live claim settles: after one reconcile in a cluster nobody else writes to,
      nothing changes any more and nothing is reported. Server-side apply is a class with one law,
      that applying the same again changes nothing; a concrete server satisfies it.
    - [ControllerStatus]: the status written is true of the run that wrote it, and drift Events
      are exactly the drift found.
    - [Freeze]: the freeze conditions over any number of reconciles refine a two-state machine
      with hysteresis ([freeze_step]); it does not flap; readiness is decided exactly.
    - [SloStatus], [Prometheus], [StorageStatus]: the verdicts as functions of the answers, errors
      included.
    - [Budget], [Alerts], [Rules]: budgets and thresholds are exact; the float64 test for an
      exhausted budget agrees with comparing the ratio with the budget; the rules and alerts are
      complete and refer to each other's names; the pattern of good statuses, as an anchored
      regular expression, matches those statuses and no other text.
    - [Build], [Naming], [Manager], [Workload], [Storage]: the set is complete, labelled, without
      duplicates, internally wired, cached and watched; it is well-formed for the API server
      exactly for claims of suitable names and owners; the network policy denies all but the
      documented ingress to every pod of the namespace; replica bounds and bucket names.
    - [Documents]: read by the keys of Grafana's JSON model, the dashboard's text shows four panels
      with the claim's own queries and its exact error budget; the IAM policies read back as what
      was meant, about the claim's own service account and bucket.
    - [Main]: a manager that starts went through every step, with a scheme that knows what it
      watches and one storage decision for the cache, the watches and the reconciler.
    - [DeepCopy]: copies are equal to their original and share no memory with it.
    - [Webhook]: the whole decision, with the Event an override leaves spelled out; single-use
      break-glass, the bound on Event notes.
    - [Shortlink], [ShortlinkHandler]: concurrent adds are atomic: the interleaved server refines
      one in which each add is one step, and shows all that one does; every add returns within
      eleven steps of its own; a link once answered is kept, under any interleaving, and a GET of
      its path redirects to it; a posted JSON object is answered as its fields say, however it is
      laid out; redirects go to http and https URLs only, in normal form, without a byte that
      could break a header; no request but HEAD creates a series.
    - [Testsvc]: the series hold exactly the application requests answered.
    - [Serve]: every schedule of a shutdown is finite; an exit with 0 cut no request off.
    - [TestUtils]: [UncommentCode] undoes commenting, up to the scanner's limit on a line.

    ** Bounds and fuel

    No program here recurses without a structural argument except the scanners that consume text
    ([ParseDuration], the trimming of spaces, digits of a number): their fuel is the length of
    the text or the logarithm of the number, and each round consumes a byte or a digit; the fuel
    of the JSON readers is twice the length of the text, which [read_renders] shows to be enough
    for a text that is JSON, and [scan_fuel] for any text. A decoded body nests at most 10000
    deep and has at most 65536 bytes, as in the code. [add] of the link store has the code's own
    five attempts. Theorems about float64 budgets take an objective of up to 300 bytes: a longer
    one could denote a budget below the smallest normal float64. [SLOWindow] wraps like int64
    and is shown not to up to 106751 days. [truncate] is used only with the limit 1024.

    ** What is not modelled

    Log lines; the HTTP round trip to Prometheus; the Kubernetes API server, its server-side
    apply and the cache (their answers are arbitrary, in [Gate] those of a store that keeps what
    was written, in the last part of [Isolation] those of a store whose calls are about one object
    each, with the clock and Prometheus answering the same throughout); the inside of the manager,
    of the HTTP servers and of the metrics libraries; the headers of answers but [Location], and
    the page of a redirect; tests, manifests and scripts. [JsonDecode] folds a field's name on ASCII
    letters, which for a name without s and k is all that Go folds. Fields of third-party objects
    the code never sets have no field here, and an unstructured object is a JSON tree. *)
From Stdlib Require Import ZArith Lia.
From stdpp Require Export base tactics numbers list strings option gmap.

#[global] Arguments String.append : simpl nomatch.

(** ** Go errors

    A Go [error] is a nil-able interface value. [error] below is a non-nil one: the text it
    prints, and the chain [errors.Is] and [errors.As] walk. [ForeignError] is an error value a
    library outside this repository returned; its tag is the identity of that value. *)
Inductive error :=
  | ErrorString (msg : string)
  | SentinelError (msg : string)
  | WrapError (msg : string) (inner : error)
  | JoinError (first : error) (rest : list error)
  | ForeignError (msg : string) (tag : N).

(** [err.Error()]; [errors.Join] separates its texts with newlines. *)
Definition newline : string := String (Ascii.ascii_of_nat 10) EmptyString.

Fixpoint Error (e : error) : string :=
  match e with
  | ErrorString m | SentinelError m | WrapError m _ | ForeignError m _ => m
  | JoinError e es => fold_left (fun acc e' => acc +:+ newline +:+ Error e') es (Error e)
  end.

(** [errors.Is(e, target)] for a sentinel error variable, named by its text. *)
Fixpoint errorsIs (e : error) (target : string) : bool :=
  match e with
  | SentinelError m => String.eqb m target
  | WrapError _ inner => errorsIs inner target
  | JoinError e es => errorsIs e target || existsb (fun e' => errorsIs e' target) es
  | _ => false
  end.

(** [errors.Join]: nil errors are dropped; nil when none is left. *)
Definition errorsJoin (es : list (option error)) : option error :=
  match omap id es with
  | [] => None
  | e :: rest => Some (JoinError e rest)
  end.

(** ** Results: Go's [(T, error)] where the value is only used when the error is nil. *)
Inductive result (A : Type) :=
  | Ok (a : A)
  | Err (e : error).
Arguments Ok {A} a.
Arguments Err {A} e.

#[export] Instance result_ret : MRet result := @Ok.
#[export] Instance result_bind : MBind result :=
  fun A B f m => match m with Ok a => f a | Err e => Err e end.

Definition is_ok {A} (r : result A) : bool := match r with Ok _ => true | Err _ => false end.

Lemma bind_Ok {A B} (m : result A) (f : A -> result B) b :
  (m ≫= f) = Ok b <-> exists a, m = Ok a /\ f a = Ok b.
Proof. destruct m as [a|e]; split; [eauto| |done|]; intros (a' & H & ?); by simplify_eq. Qed.

Lemma bind_Err {A B} (m : result A) (f : A -> result B) e :
  (m ≫= f) = Err e <-> m = Err e \/ exists a, m = Ok a /\ f a = Err e.
Proof.
  destruct m as [a|e']; split.
  - eauto.
  - intros [?|(a' & H & ?)]; by simplify_eq.
  - intros [= ->]. by left.
  - intros [H|(a' & H & ?)]; by simplify_eq.
Qed.

(** [for _, x := range xs { y, err := f(x); if err != nil { return nil, err }; ys = append(ys, y) }] *)
Fixpoint collect {A B} (f : A -> result B) (xs : list A) : result (list B) :=
  match xs with
  | [] => Ok []
  | x :: xs => y ← f x; ys ← collect f xs; Ok (y :: ys)
  end.

Lemma collect_Ok {A B} (f : A -> result B) xs ys :
  collect f xs = Ok ys <-> Forall2 (fun x y => f x = Ok y) xs ys.
Proof.
  revert ys. induction xs as [|x xs IH]; intros ys; simpl.
  - split; [intros [= <-]; constructor|intros H; by inversion H].
  - rewrite bind_Ok. split.
    + intros (y & Hy & (ys' & Hys & [= <-])%bind_Ok). constructor; [done|by apply IH].
    + intros H. inversion H as [|? y ? ys' Hy Hys]; subst. exists y. split; [done|].
      apply bind_Ok. exists ys'. split; [by apply IH|done].
Qed.

Lemma collect_length {A B} (f : A -> result B) xs ys :
  collect f xs = Ok ys -> length ys = length xs.
Proof. intros H%collect_Ok. by apply Forall2_length in H. Qed.

Lemma collect_total {A B} (f : A -> result B) (g : A -> B) xs :
  (forall x, f x = Ok (g x)) -> collect f xs = Ok (map g xs).
Proof. intros Hf. induction xs as [|x xs IH]; simpl; [done|]. by rewrite Hf, IH. Qed.

Lemma collect_is_ok {A B} (f : A -> result B) xs :
  (forall x, In x xs -> is_ok (f x) = true) -> is_ok (collect f xs) = true.
Proof.
  induction xs as [|x xs IH]; intros Hx; [done|]. simpl.
  pose proof (Hx x (or_introl eq_refl)). destruct (f x); [|done]. simpl.
  assert (is_ok (collect f xs) = true) as IH' by (apply IH; intros; apply Hx; by right).
  by destruct (collect f xs).
Qed.

Lemma Forall2_In_l {A B} (P : A -> B -> Prop) xs ys :
  Forall2 P xs ys -> Forall2 (fun x y => In x xs /\ P x y) xs ys.
Proof.
  induction 1 as [|x y xs ys H _ IH]; constructor; [split; [by left|done]|].
  eapply Forall2_impl; [exact IH|]. intros ? ? [? ?]. split; [by right|done].
Qed.

Lemma forallb_impl {A} (P Q : A -> bool) xs :
  (forall x, P x = true -> Q x = true) -> forallb P xs = true -> forallb Q xs = true.
Proof. intros HPQ. rewrite !forallb_forall. eauto. Qed.

(** ** Tactics *)

(** Case on the first [result] scrutinised by a bind in a hypothesis or the goal. *)
Ltac case_bind :=
  match goal with
  | H : (?m ≫= ?f) = Ok ?b |- _ =>
      let a := fresh "a" in let Ha := fresh "Ha" in
      apply bind_Ok in H as (a & Ha & H); simpl in H
  | |- context [@mbind result _ _ _ ?f ?m] => destruct m eqn:?; simpl
  end.

(** Split a conjunction of booleans that is true. *)
Ltac split_andb :=
  repeat match goal with
  | H : andb _ _ = true |- _ => apply andb_true_iff in H as [? ?]
  | H : negb _ = true |- _ => apply negb_true_iff in H
  end.

(** The facts the components export for [auto]: validity and order of float64 results, and the
    absence of errors. *)
Create HintDb paved.
#[export] Hint Resolve Forall_nil_2 Forall_cons_2 collect_is_ok : paved.

(** The text of a [fmt.Sprintf] call, given as the list of its pieces. *)
Definition Sprintf (parts : list string) : string := foldr String.append EmptyString parts.

(** A Go map literal: later entries overwrite earlier ones. *)
Definition map_of {V} (kvs : list (string * V)) : gmap string V :=
  foldl (fun m kv => <[kv.1 := kv.2]> m) ∅ kvs.
