(* ===== verification/Rounding.v ===== *)
(** * Rounding a fraction to a binary mantissa

    The lemmas on powers of two and on [Z] and [Q] that the float64 theorems rest on: what
    rounding to nearest, ties to even, of a quotient to 53 bits gives, that it is monotone, and
    that it keeps representable numbers. Nothing here is about the program itself. *)
From Stdlib Require Import ZArith QArith Qpower Lqa Lia Bool SpecFloat.
Local Open Scope Z_scope.

Definition prec := 53.
Definition emax := 1024.

Definition inbetween (mrs : shr_record) (N D : Z) : Prop :=
  0 <= shr_m mrs /\
  let rem := N - shr_m mrs * D in
  match shr_r mrs, shr_s mrs with
  | false, false => rem = 0
  | false, true => 0 < 2 * rem < D
  | true, false => 2 * rem = D
  | true, true => D < 2 * rem < 2 * D
  end.

Lemma shr_1_inbetween mrs N D :
  0 < D -> inbetween mrs N D -> inbetween (shr_1 mrs) N (2 * D).
Proof.
  intros HD. destruct mrs as [m r s]. unfold inbetween; cbn -[Z.mul].
  intros [Hm H]. destruct m as [|[p|p|]|p]; try lia; cbn -[Z.mul];
    split; try lia; destruct r, s; cbn -[Z.mul]; lia.
Qed.

Lemma iter_shr_inbetween n : forall mrs N D,
  0 < D -> inbetween mrs N D ->
  inbetween (iter_pos shr_1 n mrs) N (2 ^ Zpos n * D).
Proof.
  induction n as [n IH|n IH|]; intros mrs N D HD H; cbn [iter_pos].
  - replace (2 ^ Zpos n~1 * D) with (2 ^ Zpos n * (2 ^ Zpos n * (2 * D))).
    2: { replace (Zpos n~1) with (Zpos n + Zpos n + 1) by lia.
         rewrite !Z.pow_add_r by lia. ring. }
    pose proof (Z.pow_pos_nonneg 2 (Zpos n)).
    apply IH; [nia|]. apply IH; [lia|]. now apply shr_1_inbetween.
  - replace (2 ^ Zpos n~0 * D) with (2 ^ Zpos n * (2 ^ Zpos n * D)).
    2: { replace (Zpos n~0) with (Zpos n + Zpos n) by lia.
         rewrite !Z.pow_add_r by lia. ring. }
    pose proof (Z.pow_pos_nonneg 2 (Zpos n)).
    apply IH; [nia|]. now apply IH.
  - change (2 ^ 1) with 2. now apply shr_1_inbetween.
Qed.

Lemma shr_inbetween mrs e n N D :
  0 < D -> inbetween mrs N D ->
  inbetween (fst (shr mrs e n)) N (2 ^ (Z.max 0 n) * D) /\ snd (shr mrs e n) = e + Z.max 0 n.
Proof.
  intros HD H. destruct n as [|p|p]; cbn [shr fst snd].
  - rewrite Z.max_id. change (2 ^ 0) with 1. rewrite Z.mul_1_l, Z.add_0_r. auto.
  - rewrite Z.max_r by lia. split; [now apply iter_shr_inbetween|reflexivity].
  - rewrite Z.max_l by lia. change (2 ^ 0) with 1. rewrite Z.mul_1_l, Z.add_0_r. auto.
Qed.

(** digits *)
Lemma digits2_pos_bounds p :
  2 ^ (Zpos (digits2_pos p) - 1) <= Zpos p < 2 ^ Zpos (digits2_pos p).
Proof.
  induction p as [p IH|p IH|]; cbn [digits2_pos]; [| |cbn; lia];
    rewrite Pos2Z.inj_succ; unfold Z.succ; rewrite Z.add_simpl_r;
    rewrite Z.pow_add_r by lia;
    replace (Zpos (digits2_pos p)) with (Zpos (digits2_pos p) - 1 + 1) at 1 by lia;
    rewrite Z.pow_add_r by lia; lia.
Qed.

Lemma Zdigits2_bounds m :
  0 < m -> 2 ^ (Zdigits2 m - 1) <= m < 2 ^ Zdigits2 m.
Proof. destruct m as [|p|p]; try lia. intros _. apply digits2_pos_bounds. Qed.

Lemma Zdigits2_nonneg m : 0 <= Zdigits2 m.
Proof. destruct m; cbn; lia. Qed.

Lemma pow2_lt_inv a b : 0 <= b -> 2 ^ a < 2 ^ b -> a < b.
Proof. intros Hb H. apply (Z.pow_lt_mono_r_iff 2); lia. Qed.

Lemma Zdigits2_unique m d : 0 < m -> 2 ^ (d - 1) <= m < 2 ^ d -> 0 < d -> Zdigits2 m = d.
Proof.
  intros Hm [H1 H2] Hd. destruct (Zdigits2_bounds m Hm) as [H3 H4].
  pose proof (Zdigits2_nonneg m).
  assert (d - 1 < Zdigits2 m) by (apply pow2_lt_inv; lia).
  assert (Zdigits2 m - 1 < d) by (apply pow2_lt_inv; lia). lia.
Qed.

Lemma Zdigits2_le m d : 0 <= d -> 0 <= m < 2 ^ d -> Zdigits2 m <= d.
Proof.
  intros Hd [H1 H2]. destruct (Z.eq_dec m 0) as [->|Hm]; [exact Hd|].
  pose proof (Zdigits2_bounds m ltac:(lia)).
  assert (Zdigits2 m - 1 < d) by (apply pow2_lt_inv; lia). lia.
Qed.
Lemma Zdigits2_ge m d : 0 < d -> 2 ^ (d - 1) <= m -> d <= Zdigits2 m.
Proof.
  intros Hd H. pose proof (Z.pow_pos_nonneg 2 (d-1)).
  pose proof (Zdigits2_bounds m ltac:(lia)). pose proof (Zdigits2_nonneg m).
  assert (d - 1 < Zdigits2 m) by (apply pow2_lt_inv; lia). lia.
Qed.

(** nearest-even *)
Definition nearest_even (R N D : Z) : Prop :=
  0 <= R /\ - D <= 2 * (N - R * D) <= D /\
  (2 * Z.abs (N - R * D) = D -> Z.even R = true).

Lemma round_nearest_even_spec mrs N D :
  0 < D -> inbetween mrs N D ->
  nearest_even (round_nearest_even (shr_m mrs) (loc_of_shr_record mrs)) N D.
Proof.
  intros HD [Hm H]. destruct mrs as [m r s]. unfold nearest_even; cbn -[Z.mul] in *.
  destruct r, s; cbn -[Z.mul] in *; rewrite ?(Z.mul_add_distr_r m 1 D), ?Z.mul_1_l.
  - split; [lia|]. split; [lia|]. intros; lia.
  - destruct (Z.even m) eqn:E; (split; [lia|]); (split; [lia|]); intros _.
    + exact E.
    + rewrite Z.even_add, E. reflexivity.
  - split; [lia|]. split; [lia|]. intros; lia.
  - split; [lia|]. split; [lia|]. intros; lia.
Qed.

Lemma nearest_even_le R N D K : 0 < D -> nearest_even R N D -> N <= K * D -> R <= K.
Proof. intros HD (H1 & H2 & _) H. nia. Qed.
Lemma nearest_even_ge R N D K : 0 < D -> nearest_even R N D -> K * D <= N -> K <= R.
Proof. intros HD (H1 & H2 & _) H. nia. Qed.

Lemma fexp_eq e : fexp prec emax e = Z.max (e - 53) (-1074).
Proof. reflexivity. Qed.

Definition pack (sx : bool) (R e : Z) : spec_float :=
  match R with
  | Zpos m => if e <=? 971 then S754_finite sx m e else S754_infinity sx
  | _ => S754_zero sx
  end.

Definition renorm (sx : bool) (R e : Z) : spec_float :=
  if R =? 2 ^ 53 then pack sx (2 ^ 52) (e + 1) else pack sx R e.

Lemma inbetween_floor mrs N D : 0 < D -> inbetween mrs N D ->
  shr_m mrs * D <= N < (shr_m mrs + 1) * D.
Proof. intros HD [Hm H]. destruct mrs as [m [] []]; cbn -[Z.mul] in *; lia. Qed.

Lemma inbetween_record m l N D : inbetween (shr_record_of_loc m l) N D -> shr_m (shr_record_of_loc m l) = m /\ 0 <= m.
Proof. intros [H _]. destruct l as [|[]]; cbn in *; auto. Qed.

(** A significand of location [mx] is below [2^53] units of the exponent [fexp] chooses for it... *)
Lemma fexp_upper mx ex :
  0 <= mx -> ex <= fexp prec emax (Zdigits2 mx + ex) ->
  mx + 1 <= 2 ^ 53 * 2 ^ (fexp prec emax (Zdigits2 mx + ex) - ex).
Proof.
  intros Hmx Hex. rewrite <- Z.pow_add_r by lia.
  destruct (Z.eq_dec mx 0) as [->|Hz].
  - pose proof (Z.pow_pos_nonneg 2 (53 + (fexp prec emax (Zdigits2 0 + ex) - ex))). lia.
  - pose proof (Zdigits2_bounds mx ltac:(lia)) as [_ Hd].
    pose proof (Z.pow_le_mono_r 2 (Zdigits2 mx) (53 + (fexp prec emax (Zdigits2 mx + ex) - ex))) as Hp.
    rewrite fexp_eq in *. lia.
Qed.

(** ... and at least [2^52] of them, unless the exponent is the least one. *)
Lemma fexp_lower mx ex :
  0 <= mx -> ex <= fexp prec emax (Zdigits2 mx + ex) ->
  fexp prec emax (Zdigits2 mx + ex) = -1074 \/
  2 ^ 52 * 2 ^ (fexp prec emax (Zdigits2 mx + ex) - ex) <= mx.
Proof.
  intros Hmx Hex. destruct (Z.eq_dec (fexp prec emax (Zdigits2 mx + ex)) (-1074)) as [|Hne]; [now left|right].
  assert (He : fexp prec emax (Zdigits2 mx + ex) = Zdigits2 mx + ex - 53) by (rewrite fexp_eq in *; lia).
  assert (Hz : 0 < mx).
  { destruct (Z.eq_dec mx 0) as [->|]; [|lia]. rewrite He in Hex. cbn [Zdigits2] in Hex. lia. }
  pose proof (Zdigits2_bounds mx Hz) as [Hd _]. rewrite He in *.
  rewrite <- Z.pow_add_r by lia.
  replace (52 + (Zdigits2 mx + ex - 53 - ex)) with (Zdigits2 mx - 1) by lia. exact Hd.
Qed.

(** Rounding a significand already of at most 53 bits is renormalisation only. *)
Lemma round_aux_renorm sx R e1 :
  0 <= R <= 2 ^ 53 -> -1074 <= e1 ->
  (let '(mrs, e2) := shr_fexp prec emax R e1 loc_Exact in
   match shr_m mrs with
   | Z0 => S754_zero sx
   | Zpos m => if e2 <=? emax - prec then S754_finite sx m e2 else S754_infinity sx
   | Zneg _ => S754_nan
   end) = renorm sx R e1.
Proof.
  intros [HR0 HR53] Hemin. unfold shr_fexp, renorm. cbn [shr_record_of_loc].
  destruct (Z.eqb_spec R (2 ^ 53)) as [->|Hne].
  - change (Zdigits2 (2 ^ 53)) with 54. rewrite fexp_eq.
    replace (Z.max (54 + e1 - 53) (-1074) - e1) with 1 by lia.
    cbn [shr iter_pos shr_1 shr_m]. reflexivity.
  - assert (Hd : Zdigits2 R <= 53) by (apply Zdigits2_le; lia).
    rewrite fexp_eq.
    destruct (Z.max (Zdigits2 R + e1 - 53) (-1074) - e1) as [|p|p] eqn:Hs; try lia;
      cbn [shr shr_m]; unfold pack; destruct R; try reflexivity; lia.
Qed.

Theorem binary_round_aux_spec sx mx ex lx N D :
  0 < D ->
  inbetween (shr_record_of_loc mx lx) N D ->
  ex <= fexp prec emax (Zdigits2 mx + ex) ->
  let e1 := fexp prec emax (Zdigits2 mx + ex) in
  exists R, nearest_even R N (2 ^ (e1 - ex) * D) /\ R <= 2 ^ 53 /\
    (e1 = -1074 \/ 2 ^ 52 * (2 ^ (e1 - ex) * D) <= N) /\
    N < 2 ^ 53 * (2 ^ (e1 - ex) * D) /\
    binary_round_aux prec emax sx mx ex lx = renorm sx R e1.
Proof.
  intros HD Hin Hex e1.
  destruct (inbetween_record _ _ _ _ Hin) as [Hm0 Hmx].
  pose proof (inbetween_floor _ _ _ HD Hin) as Hfl. rewrite Hm0 in Hfl.
  pose proof (fexp_upper mx ex Hmx Hex) as Hup. pose proof (fexp_lower mx ex Hmx Hex) as Hlow.
  fold e1 in Hup, Hlow.
  assert (Hemin : -1074 <= e1) by (unfold e1; rewrite fexp_eq; lia).
  unfold binary_round_aux. unfold shr_fexp at 1. fold e1.
  pose proof (shr_inbetween (shr_record_of_loc mx lx) ex (e1 - ex) N D HD Hin) as [Hin' He'].
  destruct (shr (shr_record_of_loc mx lx) ex (e1 - ex)) as [mrs' e'].
  cbn [fst snd] in Hin', He'. assert (He1 : ex <= e1) by exact Hex.
  rewrite Z.max_r in Hin', He' by lia.
  replace (ex + (e1 - ex)) with e1 in He' by lia. subst e'.
  set (D' := 2 ^ (e1 - ex) * D) in *.
  assert (HD' : 0 < D') by (pose proof (Z.pow_pos_nonneg 2 (e1 - ex)); nia).
  pose proof (round_nearest_even_spec _ _ _ HD' Hin') as HR.
  exists (round_nearest_even (shr_m mrs') (loc_of_shr_record mrs')).
  assert (HN53 : N < 2 ^ 53 * D') by (unfold D'; nia).
  pose proof (nearest_even_le _ N D' (2 ^ 53) HD' HR ltac:(lia)) as HR53.
  repeat split; try assumption; try apply HR.
  - destruct Hlow as [|Hlow]; [now left|right; unfold D'; nia].
  - apply round_aux_renorm; [|exact Hemin]. split; [apply HR|exact HR53].
Qed.

Local Open Scope Q_scope.
(** [m * 2^e] as a rational. *)
Definition dval (m e : Z) : Q := inject_Z m * Qpower 2 e.

Lemma pow2_Q_pos e : 0 < Qpower 2 e.
Proof. apply Qpower_0_lt. lra. Qed.

Lemma dval_shift m e k : (0 <= k)%Z -> dval m e == dval (m * 2 ^ k) (e - k).
Proof.
  intros Hk. unfold dval. rewrite inject_Z_mult, Zpower_Qpower by exact Hk.
  change (inject_Z 2) with 2. rewrite <- Qmult_assoc, <- Qpower_plus by discriminate.
  replace (k + (e - k))%Z with e by lia. reflexivity.
Qed.

Lemma dval_le_same m1 m2 e : dval m1 e <= dval m2 e <-> (m1 <= m2)%Z.
Proof.
  unfold dval. rewrite (Zle_Qle m1 m2). rewrite !(Qmult_comm _ (Qpower 2 e)).
  apply Qmult_le_l, pow2_Q_pos.
Qed.

Lemma dval_le m1 e1 m2 e2 k : (k <= e1)%Z -> (k <= e2)%Z ->
  (dval m1 e1 <= dval m2 e2 <-> (m1 * 2 ^ (e1 - k) <= m2 * 2 ^ (e2 - k))%Z).
Proof.
  intros H1 H2. rewrite (dval_shift m1 e1 (e1 - k)), (dval_shift m2 e2 (e2 - k)) by lia.
  replace (e1 - (e1 - k))%Z with k by lia. replace (e2 - (e2 - k))%Z with k by lia.
  apply dval_le_same.
Qed.


(** [rounding x R e]: on the grid of multiples of [2^e], [R] is the multiple nearest [x]. *)
Record rounding (x : Q) (R e : Z) : Prop := {
  rounding_nonneg : (0 <= R <= 2 ^ 53)%Z;
  rounding_emin : (-1074 <= e)%Z;
  rounding_near : - dval 1 e <= 2 * (x - dval R e) <= dval 1 e;
  rounding_tie : (2 * (x - dval R e) == dval 1 e \/ 2 * (x - dval R e) == - dval 1 e) -> Z.even R = true;
  rounding_lower : e = (-1074)%Z \/ dval (2 ^ 52) e <= x;
  rounding_upper : x < dval (2 ^ 53) e
}.

Lemma dval_lt_same m1 m2 e : dval m1 e < dval m2 e <-> (m1 < m2)%Z.
Proof.
  pose proof (dval_le_same m2 m1 e) as H. split; intros H1.
  - destruct (Z_lt_le_dec m1 m2) as [|H2]; [assumption|]. apply H in H2. lra.
  - destruct (Qlt_le_dec (dval m1 e) (dval m2 e)) as [|H2]; [assumption|]. apply H in H2. lia.
Qed.

Lemma dval_add m1 m2 e : dval (m1 + m2) e == dval m1 e + dval m2 e.
Proof. unfold dval. rewrite inject_Z_plus. ring. Qed.
Lemma dval_opp m e : dval (- m) e == - dval m e.
Proof. unfold dval. rewrite inject_Z_opp. ring. Qed.
Lemma dval_scale k m e : dval (k * m) e == inject_Z k * dval m e.
Proof. unfold dval. rewrite inject_Z_mult. ring. Qed.
Lemma dval_0 e : dval 0 e == 0.
Proof. unfold dval. ring. Qed.
Lemma dval_pos m e : (0 < m)%Z -> 0 < dval m e.
Proof. intros H. apply (dval_lt_same 0 m e) in H. rewrite dval_0 in H. exact H. Qed.

(** integer facts of one grid, read off rational ones *)
Lemma grid_le (x : Q) (R K e : Z) :
  2 * (dval R e - x) <= dval 1 e -> x <= dval K e -> (R <= K)%Z.
Proof.
  intros H1 H2. destruct (Z_le_gt_dec R K) as [|H3]; [assumption|exfalso].
  assert (H4 : dval (K + 1) e <= dval R e) by (apply dval_le_same; lia).
  rewrite dval_add in H4. pose proof (dval_pos 1 e eq_refl). lra.
Qed.
Lemma grid_ge (x : Q) (R K e : Z) :
  2 * (x - dval R e) <= dval 1 e -> dval K e <= x -> (K <= R)%Z.
Proof.
  intros H1 H2. destruct (Z_le_gt_dec K R) as [|H3]; [assumption|exfalso].
  assert (H4 : dval (R + 1) e <= dval K e) by (apply dval_le_same; lia).
  rewrite dval_add in H4. pose proof (dval_pos 1 e eq_refl). lra.
Qed.

Lemma dval_exp_le m e1 e2 : (0 <= m)%Z -> (e1 <= e2)%Z -> dval m e1 <= dval m e2.
Proof.
  intros Hm He. apply (dval_le m e1 m e2 e1); try lia. rewrite Z.sub_diag.
  pose proof (Z.pow_le_mono_r 2 0 (e2 - e1)). nia.
Qed.

Lemma rounding_le x R e mc ec :
  rounding x R e -> (0 <= mc < 2 ^ 53)%Z -> (-1074 <= ec)%Z ->
  x <= dval mc ec -> dval R e <= dval mc ec.
Proof.
  intros H Hmc Hec Hx. destruct (Z_le_gt_dec e ec) as [Hle|Hgt].
  - assert (Hs : dval mc ec == dval (mc * 2 ^ (ec - e)) e).
    { rewrite (dval_shift mc ec (ec - e)) by lia. 
      replace (ec - (ec - e))%Z with e by lia. reflexivity. }
    rewrite Hs in *. apply dval_le_same. apply (grid_le x _ _ e); [|exact Hx].
    destruct (rounding_near _ _ _ H). lra.
  - exfalso. destruct (rounding_lower _ _ _ H) as [|Hl]; [lia|].
    assert (H1 : dval mc ec < dval (2 ^ 53) ec) by (apply dval_lt_same; lia).
    assert (H2 : dval (2 ^ 53) ec <= dval (2 ^ 53) (e - 1)) by (apply dval_exp_le; lia).
    rewrite (dval_shift (2 ^ 52) e 1) in Hl by lia.
    change (2 ^ 52 * 2 ^ 1)%Z with (2 ^ 53)%Z in Hl. lra.
Qed.

Lemma rounding_ge x R e mc ec :
  rounding x R e -> (0 <= mc < 2 ^ 53)%Z -> (-1074 <= ec)%Z ->
  dval mc ec <= x -> dval mc ec <= dval R e.
Proof.
  intros H Hmc Hec Hx. destruct (Z_le_gt_dec e ec) as [Hle|Hgt].
  - assert (Hs : dval mc ec == dval (mc * 2 ^ (ec - e)) e).
    { rewrite (dval_shift mc ec (ec - e)) by lia. 
      replace (ec - (ec - e))%Z with e by lia. reflexivity. }
    rewrite Hs in *. apply dval_le_same. apply (grid_ge x _ _ e); [|exact Hx].
    destruct (rounding_near _ _ _ H). lra.
  - destruct (rounding_lower _ _ _ H) as [|Hl]; [lia|].
    assert (H1 : dval mc ec < dval (2 ^ 53) ec) by (apply dval_lt_same; lia).
    assert (H2 : dval (2 ^ 53) ec <= dval (2 ^ 53) (e - 1)) by (apply dval_exp_le; lia).
    assert (HR : (2 ^ 52 <= R)%Z).
    { apply (grid_ge x _ _ e); [|exact Hl]. destruct (rounding_near _ _ _ H). lra. }
    apply (dval_le_same _ _ e) in HR.
    rewrite (dval_shift (2 ^ 52) e 1) in HR by lia.
    change (2 ^ 52 * 2 ^ 1)%Z with (2 ^ 53)%Z in HR. lra.
Qed.

Lemma rounding_mono x1 R1 e1 x2 R2 e2 :
  rounding x1 R1 e1 -> rounding x2 R2 e2 -> x1 <= x2 -> dval R1 e1 <= dval R2 e2.
Proof.
  intros H1 H2 Hx. destruct (Z.lt_trichotomy e1 e2) as [Hlt|[->|Hgt]].
  - destruct (rounding_lower _ _ _ H2) as [He|Hl].
    { pose proof (rounding_emin _ _ _ H1). lia. }
    assert (HR : (2 ^ 52 <= R2)%Z).
    { apply (grid_ge x2 _ _ e2); [|exact Hl]. destruct (rounding_near _ _ _ H2). lra. }
    apply (dval_le_same _ _ e2) in HR.
    rewrite (dval_shift (2 ^ 52) e2 1) in HR by lia.
    change (2 ^ 52 * 2 ^ 1)%Z with (2 ^ 53)%Z in HR.
    destruct (rounding_nonneg _ _ _ H1) as [_ Hr1]. apply (dval_le_same _ _ e1) in Hr1.
    pose proof (dval_exp_le (2 ^ 53) e1 (e2 - 1) ltac:(lia) ltac:(lia)). lra.
  - apply dval_le_same. destruct (Z_le_gt_dec R1 R2) as [|Hr]; [assumption|exfalso].
    destruct (rounding_near _ _ _ H1) as [Hn1 Hn1'], (rounding_near _ _ _ H2) as [Hn2 Hn2'].
    assert (H4 : dval (R2 + 1) e2 <= dval R1 e2) by (apply dval_le_same; lia).
    rewrite dval_add in H4.
    assert (H5 : dval R1 e2 == dval (R2 + 1) e2) by (rewrite dval_add; lra).
    assert (R1 = (R2 + 1)%Z).
    { apply Z.le_antisymm; apply (dval_le_same _ _ e2); rewrite H5; apply Qle_refl. }
    assert (Ht1 : Z.even R1 = true) by (apply (rounding_tie _ _ _ H1); rewrite dval_add in H5; right; lra).
    assert (Ht2 : Z.even R2 = true) by (apply (rounding_tie _ _ _ H2); rewrite dval_add in H5; left; lra).
    subst R1. rewrite Z.even_add, Ht2 in Ht1. discriminate.
  - exfalso. destruct (rounding_lower _ _ _ H1) as [He|Hl].
    { pose proof (rounding_emin _ _ _ H2). lia. }
    pose proof (rounding_upper _ _ _ H2) as Hu.
    rewrite (dval_shift (2 ^ 52) e1 1) in Hl by lia.
    change (2 ^ 52 * 2 ^ 1)%Z with (2 ^ 53)%Z in Hl.
    pose proof (dval_exp_le (2 ^ 53) e2 (e1 - 1) ltac:(lia) ltac:(lia)). lra.
Qed.

Lemma nearest_even_rounding N D ex e R :
  (0 < D)%Z -> (ex <= e)%Z -> (-1074 <= e)%Z -> (R <= 2 ^ 53)%Z ->
  nearest_even R N (2 ^ (e - ex) * D) ->
  (e = -1074 \/ 2 ^ 52 * (2 ^ (e - ex) * D) <= N)%Z ->
  (N < 2 ^ 53 * (2 ^ (e - ex) * D))%Z ->
  rounding (dval N ex / inject_Z D) R e.
Proof.
  intros HD Hex He HR53 (HR0 & Hnear & Htie) Hlow Hup.
  set (D' := (2 ^ (e - ex) * D)%Z) in *.
  set (w := Qpower 2 ex / inject_Z D).
  assert (HDq : 0 < inject_Z D) by (change 0 with (inject_Z 0); rewrite <- Zlt_Qlt; exact HD).
  assert (Hw : 0 < w) by (unfold w; apply Qlt_shift_div_l; [exact HDq|]; pose proof (pow2_Q_pos ex); lra).
  assert (Hle : forall a b, (a <= b)%Z <-> inject_Z a * w <= inject_Z b * w).
  { intros a b. rewrite Zle_Qle, !(Qmult_comm _ w). symmetry. now apply Qmult_le_l. }
  assert (Hlt : forall a b, (a < b)%Z <-> inject_Z a * w < inject_Z b * w).
  { intros a b. rewrite Zlt_Qlt, !(Qmult_comm _ w). symmetry. now apply Qmult_lt_l. }
  assert (Hx : dval N ex / inject_Z D == inject_Z N * w) by (unfold dval, w; field; lra).
  assert (Hg : forall K, dval K e == inject_Z (K * D') * w).
  { intros K. rewrite (dval_shift K e (e - ex)) by lia.
    replace (e - (e - ex))%Z with ex by lia. unfold dval, w, D'.
    rewrite !inject_Z_mult. field. lra. }
  assert (Hd : 2 * (inject_Z N * w - inject_Z (R * D') * w) == inject_Z (2 * (N - R * D')) * w).
  { rewrite <- Z.add_opp_r, !inject_Z_mult, inject_Z_plus, inject_Z_opp, inject_Z_mult.
    change (inject_Z 2) with 2. ring. }
  assert (Heq : forall a b, inject_Z a * w == inject_Z b * w -> a = b).
  { intros a b Hab. apply Z.le_antisymm; apply <- Hle; rewrite Hab; apply Qle_refl. }
  assert (Hopp : - (inject_Z (1 * D') * w) == inject_Z (- D') * w).
  { rewrite Z.mul_1_l, inject_Z_opp. ring. }
  constructor; try assumption; try lia.
  - rewrite Hx, !Hg, Hd, Hopp, Z.mul_1_l. split; apply -> Hle; lia.
  - rewrite Hx, !Hg, Hd, Hopp, Z.mul_1_l. intros [H|H]; apply Heq in H; apply Htie; lia.
  - rewrite Hx, Hg. destruct Hlow as [|Hl]; [now left|right; apply -> Hle; exact Hl].
  - rewrite Hx, Hg. apply -> Hlt; exact Hup.
Qed.

Theorem binary_round_aux_rounding sx mx ex lx N D :
  (0 < D)%Z -> inbetween (shr_record_of_loc mx lx) N D ->
  (ex <= fexp prec emax (Zdigits2 mx + ex))%Z ->
  exists R e, rounding (dval N ex / inject_Z D) R e /\
    binary_round_aux prec emax sx mx ex lx = renorm sx R e.
Proof.
  intros HD Hin Hex.
  destruct (binary_round_aux_spec sx mx ex lx N D HD Hin Hex) as (R & HR & HR53 & Hlow & Hup & Heq).
  exists R, (fexp prec emax (Zdigits2 mx + ex)). split; [|exact Heq].
  apply nearest_even_rounding; auto. rewrite fexp_eq. lia.
Qed.

(** Division *)
Lemma new_location_inbetween q r D :
  (0 <= q)%Z -> (0 <= r < D)%Z ->
  inbetween (shr_record_of_loc q (new_location D r)) (q * D + r) D.
Proof.
  intros Hq Hr. unfold new_location. 
  destruct (Z.even D) eqn:HE; unfold new_location_even, new_location_odd;
    destruct (Z.eqb_spec r 0) as [->|Hr0]; try (unfold inbetween; cbn -[Z.mul]; split; lia).
  - destruct (Z.compare_spec (2 * r) D) as [Hc|Hc|Hc];
      unfold inbetween; cbn -[Z.mul]; split; lia.
  - assert (Hodd : (2 * r)%Z <> D).
    { intros <-. rewrite Z.even_mul in HE. discriminate. }
    destruct (Z.compare_spec (2 * r + 1) D) as [Hc|Hc|Hc];
      unfold inbetween; cbn -[Z.mul]; split; lia.
Qed.

Theorem SFdiv_core_rounding sx m1 e1 m2 e2 :
  (0 < m1)%Z -> (0 < m2)%Z ->
  exists R e, rounding (dval m1 e1 / dval m2 e2) R e /\
    (let '(q, e', l) := SFdiv_core_binary prec emax m1 e1 m2 e2 in
     binary_round_aux prec emax sx q e' l) = renorm sx R e.
Proof.
  intros Hm1 Hm2. unfold SFdiv_core_binary.
  set (e' := Z.min _ _). set (s := (e1 - e2 - e')%Z).
  assert (Hs : (0 <= s)%Z) by (unfold s, e'; lia).
  set (m' := match s with Z0 => m1 | Zpos _ => Z.shiftl m1 s | Zneg _ => Z0 end).
  assert (Hm' : m' = (m1 * 2 ^ s)%Z).
  { unfold m'. destruct s as [|p|p]; try lia. now rewrite Z.shiftl_mul_pow2. }
  pose proof (Z_div_mod m' m2 ltac:(lia)) as Hdiv.
  destruct (Z.div_eucl m' m2) as [q r]. destruct Hdiv as [Hqr Hr].
  pose proof (Z.pow_pos_nonneg 2 s ltac:(lia) Hs) as Hp.
  assert (Hq : (0 <= q)%Z) by nia.
  pose proof (new_location_inbetween q r m2 Hq Hr) as Hin.
  replace (q * m2 + r)%Z with m' in Hin by lia.
  assert (Hex : (e' <= fexp prec emax (Zdigits2 q + e'))%Z).
  { assert (Hdq : (Zdigits2 m1 + s - Zdigits2 m2 <= Zdigits2 q)%Z).
    { destruct (Z_le_gt_dec (Zdigits2 m1 + s - Zdigits2 m2) 0) as [|Hgt].
      { pose proof (Zdigits2_nonneg q). lia. }
      apply Zdigits2_ge; [lia|].
      pose proof (Zdigits2_bounds m1 Hm1) as [Hb1 _]. pose proof (Zdigits2_bounds m2 Hm2) as [_ Hb2].
      assert (H1 : (2 ^ (Zdigits2 m1 + s - Zdigits2 m2 - 1) * 2 ^ Zdigits2 m2 <= m')%Z).
      { rewrite <- Z.pow_add_r by (pose proof (Zdigits2_nonneg m2); lia).
        replace (Zdigits2 m1 + s - Zdigits2 m2 - 1 + Zdigits2 m2)%Z with ((Zdigits2 m1 - 1) + s)%Z by lia.
        pose proof (Zdigits2_ge m1 1 ltac:(lia) ltac:(change (2 ^ (1 - 1))%Z with 1%Z; lia)).
        rewrite Z.pow_add_r, Hm' by lia.
        apply Z.mul_le_mono_nonneg_r; lia. }
      destruct (Z_le_gt_dec (2 ^ (Zdigits2 m1 + s - Zdigits2 m2 - 1)) q) as [|Hgt2]; [assumption|].
      exfalso. pose proof (Z.pow_pos_nonneg 2 (Zdigits2 m1 + s - Zdigits2 m2 - 1)). nia. }
    assert (He' : e' = Z.min (Z.max (Zdigits2 m1 + e1 - (Zdigits2 m2 + e2) - 53) (-1074)) (e1 - e2)) by reflexivity.
    unfold s in Hdq. rewrite fexp_eq. clearbody e'. lia. }
  destruct (binary_round_aux_rounding sx q e' (new_location m2 r) m' m2 Hm2 Hin Hex) as (R & e & HR & Heq).
  exists R, e. split; [|exact Heq].
  assert (Hx : dval m' e' / inject_Z m2 == dval m1 e1 / dval m2 e2).
  { rewrite Hm'. assert (Hd := dval_shift m1 (e' + s) s Hs).
    replace (e' + s - s)%Z with e' in Hd by lia. rewrite <- Hd.
    replace (e' + s)%Z with (e1 + - e2)%Z by (unfold s; lia). unfold dval.
    rewrite Qpower_plus, Qpower_opp by discriminate.
    pose proof (pow2_Q_pos e2). assert (~ inject_Z m2 == 0) by (unfold Qeq; cbn; lia).
    field. split; lra. }
  destruct HR as [H1 H2 H3 H4 H5 H6].
  constructor; try assumption; rewrite <- Hx; assumption.
Qed.
