(* ===== verification/GoFloat.v ===== *)
(** * Go's float64

    A [float64] is a [spec_float] of the Standard Library, with its operations at precision 53
    and exponent 1024; subtraction, division and the conversion of a fraction are related to exact
    rational arithmetic here. [max] and [min] are Go's, which order the two zeros and propagate NaN. *)
From Stdlib Require Import ZArith QArith Qpower Qround Lqa Lia Bool SpecFloat.
From S2P Require Import Rounding.
Local Open Scope Z_scope.

Abbreviation float64 := spec_float.

Definition fzero : float64 := S754_zero false.
Definition fone : float64 := S754_finite false 4503599627370496 (-52).

Definition fadd (x y : float64) : float64 := SFadd prec emax x y.
Definition fsub (x y : float64) : float64 := SFsub prec emax x y.
Definition fmul (x y : float64) : float64 := SFmul prec emax x y.
Definition fdiv (x y : float64) : float64 := SFdiv prec emax x y.
Definition fleb (x y : float64) : bool := SFleb x y.
Definition fltb (x y : float64) : bool := SFltb x y.

Definition is_nan (x : float64) : bool := match x with S754_nan => true | _ => false end.
Definition is_inf (x : float64) : bool := match x with S754_infinity _ => true | _ => false end.
Definition is_finite (x : float64) : bool := negb (is_nan x) && negb (is_inf x).
Definition valid (x : float64) : bool := valid_binary prec emax x.

Definition sign_bit (x : float64) : bool :=
  match x with
  | S754_zero s | S754_infinity s | S754_finite s _ _ => s
  | S754_nan => false
  end.

Definition fmin (x y : float64) : float64 :=
  match SFcompare x y with
  | None => S754_nan
  | Some Lt => x
  | Some Gt => y
  | Some Eq => if sign_bit x then x else y
  end.

Definition fmax (x y : float64) : float64 :=
  match SFcompare x y with
  | None => S754_nan
  | Some Lt => y
  | Some Gt => x
  | Some Eq => if sign_bit x then y else x
  end.

(** value of a finite float *)
Definition signed (s : bool) (m : positive) : Z := if s then Zneg m else Zpos m.
Definition fval (x : float64) : Q :=
  match x with
  | S754_finite s m e => dval (signed s m) e
  | _ => 0%Q
  end.

Definition float_of_quot (sx : bool) (num den : positive) : float64 :=
  let '(q, e, l) := SFdiv_core_binary prec emax (Zpos num) 0 (Zpos den) 0 in
  binary_round_aux prec emax sx q e l.

Definition float_of_Z (n : Z) : float64 := binary_normalize prec emax n 0 false.

Lemma valid_bounds s m e :
  valid (S754_finite s m e) = true ->
  (-1074 <= e <= 971) /\ Zpos m < 2 ^ 53 /\ (e = -1074 \/ 2 ^ 52 <= Zpos m).
Proof.
  cbn [valid valid_binary]. unfold bounded, canonical_mantissa.
  rewrite andb_true_iff, Z.eqb_eq, Z.leb_le, fexp_eq.
  intros [H1 H2]. pose proof (digits2_pos_bounds m) as [Hb1 Hb2].
  assert (Hd : Zpos (digits2_pos m) <= 53) by lia.
  split; [change (emax - prec) with 971 in H2; lia|]. split.
  - eapply Z.lt_le_trans; [exact Hb2|]. apply Z.pow_le_mono_r; lia.
  - destruct (Z.eq_dec e (-1074)) as [|Hne]; [now left|right].
    assert (Hd53 : Zpos (digits2_pos m) = 53) by lia. rewrite Hd53 in Hb1. exact Hb1.
Qed.

Lemma bounds_valid s m e :
  -1074 <= e <= 971 -> Zpos m < 2 ^ 53 -> e = -1074 \/ 2 ^ 52 <= Zpos m ->
  valid (S754_finite s m e) = true.
Proof.
  intros H1 H2 H3. cbn [valid valid_binary]. unfold bounded, canonical_mantissa.
  rewrite andb_true_iff, Z.eqb_eq, Z.leb_le, fexp_eq. change (emax - prec) with 971.
  split; [|lia]. pose proof (Zdigits2_le (Zpos m) 53 ltac:(lia) ltac:(lia)) as Hd.
  cbn [Zdigits2] in Hd. destruct H3 as [->|H3]; [lia|].
  pose proof (Zdigits2_ge (Zpos m) 53 ltac:(lia) H3) as Hd2. cbn [Zdigits2] in Hd2. lia.
Qed.

(** comparison *)
Lemma compare_pos m1 e1 m2 e2 s1 s2 :
  valid (S754_finite s1 m1 e1) = true -> valid (S754_finite s2 m2 e2) = true ->
  SFcompare (S754_finite false m1 e1) (S754_finite false m2 e2) =
  Some (dval (Zpos m1) e1 ?= dval (Zpos m2) e2)%Q.
Proof.
  intros H1 H2. apply valid_bounds in H1 as (He1 & Hm1 & Hc1), H2 as (He2 & Hm2 & Hc2).
  assert (Hlt : forall ma ea mb eb, Zpos ma < 2 ^ 53 -> eb = -1074 \/ 2 ^ 52 <= Zpos mb -> -1074 <= ea ->
             ea < eb -> (dval (Zpos ma) ea < dval (Zpos mb) eb)%Q).
  { intros ma ea mb eb Ha [|Hb] Hea Hlt; [lia|].
    assert (G1 : (dval (Zpos ma) ea < dval (2 ^ 53) ea)%Q) by (apply dval_lt_same; lia).
    assert (G2 : (dval (2 ^ 53) ea <= dval (2 ^ 53) (eb - 1))%Q) by (apply dval_exp_le; lia).
    assert (G3 : (dval (2 ^ 52) eb <= dval (Zpos mb) eb)%Q) by (apply dval_le_same; lia).
    rewrite (dval_shift (2 ^ 52) eb 1) in G3 by lia. change (2 ^ 52 * 2 ^ 1) with (2 ^ 53) in G3.
    lra. }
  cbn [SFcompare]. f_equal. symmetry.
  destruct (Z.compare_spec e1 e2) as [->|Hlt1|Hlt1].
  - change (Pos.compare_cont Eq m1 m2) with (Pos.compare m1 m2). 
    destruct (Pos.compare_spec m1 m2) as [->|Hm|Hm].
    + apply Qeq_alt. reflexivity.
    + apply -> Qlt_alt. apply dval_lt_same. lia.
    + apply -> Qgt_alt. apply dval_lt_same. lia.
  - apply -> Qlt_alt. apply Hlt; auto; lia.
  - apply -> Qgt_alt. apply Hlt; auto; lia.
Qed.

Lemma fval_neg m e : (fval (S754_finite true m e) == - dval (Zpos m) e)%Q.
Proof. cbn [fval signed]. change (Zneg m) with (- Zpos m). apply dval_opp. Qed.

Lemma Qcompare_opp a b : (- a ?= - b)%Q = CompOpp (a ?= b)%Q.
Proof.
  destruct (a ?= b)%Q eqn:E; cbn.
  - apply Qeq_alt in E. apply Qeq_alt. now rewrite E.
  - apply Qlt_alt in E. apply -> Qgt_alt. lra.
  - apply Qgt_alt in E. apply -> Qlt_alt. lra.
Qed.

Lemma compare_fval x y :
  valid x = true -> valid y = true -> is_finite x = true -> is_finite y = true ->
  SFcompare x y = Some (fval x ?= fval y)%Q.
Proof.
  intros Hx Hy Fx Fy. 
  destruct x as [sx|sx| |sx mx ex]; try discriminate; destruct y as [sy|sy| |sy my ey]; try discriminate.
  - reflexivity.
  - pose proof (dval_pos (Zpos my) ey ltac:(lia)). cbn [SFcompare]. f_equal. symmetry. destruct sy.
    + apply -> Qgt_alt. rewrite fval_neg. cbn [fval]. lra.
    + apply -> Qlt_alt. exact H.
  - pose proof (dval_pos (Zpos mx) ex ltac:(lia)). cbn [SFcompare]. f_equal. symmetry. destruct sx.
    + apply -> Qlt_alt. rewrite fval_neg. cbn [fval]. lra.
    + apply -> Qgt_alt. exact H.
  - pose proof (dval_pos (Zpos mx) ex ltac:(lia)). pose proof (dval_pos (Zpos my) ey ltac:(lia)).
    pose proof (compare_pos _ _ _ _ _ _ Hx Hy) as Hc. cbn [SFcompare] in Hc |- *.
    injection Hc as Hc. f_equal. destruct sx, sy.
    + rewrite !fval_neg, Qcompare_opp, <- Hc. now destruct (ex ?= ey).
    + symmetry. apply -> Qlt_alt. rewrite fval_neg. cbn [fval signed]. lra.
    + symmetry. apply -> Qgt_alt. rewrite fval_neg. cbn [fval signed]. lra.
    + exact Hc.
Qed.

Lemma fleb_fval x y :
  valid x = true -> valid y = true -> is_finite x = true -> is_finite y = true ->
  fleb x y = true <-> (fval x <= fval y)%Q.
Proof.
  intros. unfold fleb, SFleb. rewrite compare_fval by assumption.
  rewrite Qle_alt. destruct (fval x ?= fval y)%Q; split; congruence.
Qed.

Lemma fltb_fval x y :
  valid x = true -> valid y = true -> is_finite x = true -> is_finite y = true ->
  fltb x y = true <-> (fval x < fval y)%Q.
Proof.
  intros. unfold fltb, SFltb. rewrite compare_fval by assumption.
  rewrite Qlt_alt. destruct (fval x ?= fval y)%Q; split; congruence.
Qed.

(** Packing *)
Lemma renorm_spec sx x R e :
  rounding x R e ->
  valid (renorm sx R e) = true /\
  (renorm sx R e = S754_infinity sx /\ (dval (2 ^ 52) 972 <= dval R e)%Q \/
   is_finite (renorm sx R e) = true /\
   (fval (renorm sx R e) == if sx then - dval R e else dval R e)%Q /\
   (sign_bit (renorm sx R e) = sx)).
Proof.
  intros H. destruct (rounding_nonneg _ _ _ H) as [HR0 HR53].
  pose proof (rounding_emin _ _ _ H) as He.
  assert (Hc : e = -1074 \/ 2 ^ 52 <= R).
  { destruct (rounding_lower _ _ _ H) as [|Hl]; [now left|right].
    apply (grid_ge x _ _ e); [|exact Hl]. destruct (rounding_near _ _ _ H). lra. }
  assert (Hpack : forall R' e', 0 <= R' < 2 ^ 53 -> -1074 <= e' -> e' = -1074 \/ 2 ^ 52 <= R' ->
    (dval R' e' == dval R e)%Q ->
    valid (pack sx R' e') = true /\
    (pack sx R' e' = S754_infinity sx /\ (dval (2 ^ 52) 972 <= dval R e)%Q \/
     is_finite (pack sx R' e') = true /\
     (fval (pack sx R' e') == if sx then - dval R e else dval R e)%Q /\
     sign_bit (pack sx R' e') = sx)).
  { intros R' e' HR' He' Hc' Hde. unfold pack. destruct R' as [|p|p]; try lia.
    - split; [reflexivity|right]. split; [reflexivity|]. split; [|reflexivity].
      rewrite dval_0 in Hde. cbn [fval]. destruct sx; rewrite <- Hde; reflexivity.
    - destruct (Z.leb_spec e' 971).
      + split; [apply bounds_valid; lia|right]. split; [reflexivity|]. split; [|reflexivity].
        destruct sx; rewrite <- Hde; [apply fval_neg|reflexivity].
      + split; [reflexivity|left]. split; [reflexivity|]. rewrite <- Hde.
        destruct Hc' as [|Hc']; [lia|].
        apply Qle_trans with (dval (2 ^ 52) e'); [apply dval_exp_le; lia|now apply dval_le_same]. }
  unfold renorm. destruct (Z.eqb_spec R (2 ^ 53)) as [->|Hne].
  - apply Hpack; try lia. rewrite (dval_shift (2 ^ 52) (e + 1) 1) by lia.
    replace (e + 1 - 1) with e by lia. reflexivity.
  - apply Hpack; try lia. reflexivity.
Qed.

Lemma pos_iter_xO d m : Zpos (Pos.iter xO m d) = Zpos m * 2 ^ Zpos d.
Proof.
  induction d using Pos.peano_ind.
  - cbn [Pos.iter]. change (2 ^ 1) with 2. lia.
  - rewrite Pos.iter_succ, Pos2Z.inj_xO, IHd, Pos2Z.inj_succ, Z.pow_succ_r by lia. lia.
Qed.

Lemma Zdigits2_shift m d : 0 < m -> 0 <= d -> Zdigits2 (m * 2 ^ d) = Zdigits2 m + d.
Proof.
  intros Hm Hd. pose proof (Zdigits2_bounds m Hm) as [H1 H2].
  pose proof (Zdigits2_ge m 1 ltac:(lia) ltac:(change (2 ^ (1 - 1)) with 1; lia)) as H3.
  pose proof (Z.pow_pos_nonneg 2 d ltac:(lia) Hd).
  apply Zdigits2_unique; [nia| |lia]. split.
  - replace (Zdigits2 m + d - 1) with ((Zdigits2 m - 1) + d) by lia.
    rewrite Z.pow_add_r by lia. nia.
  - rewrite Z.pow_add_r by lia. nia.
Qed.

Lemma shl_align_value mx ex e' :
  let '(mz, ez) := shl_align mx ex e' in
  ez = Z.min ex e' /\ Zpos mz = Zpos mx * 2 ^ (ex - ez).
Proof.
  unfold shl_align. destruct (e' - ex) as [|p|p] eqn:E.
  - split; [lia|]. rewrite Z.sub_diag. lia.
  - split; [lia|]. rewrite Z.sub_diag. lia.
  - split; [lia|]. rewrite pos_iter_xO. f_equal. f_equal. lia.
Qed.

Lemma rounding_eq x y R e : (x == y)%Q -> rounding x R e -> rounding y R e.
Proof. intros Hxy []. constructor; try assumption; rewrite <- Hxy; assumption. Qed.

Theorem binary_round_rounding sx mx ex :
  exists R e, rounding (dval (Zpos mx) ex) R e /\ binary_round prec emax sx mx ex = renorm sx R e.
Proof.
  unfold binary_round.
  set (e' := fexp prec emax (Zpos (digits2_pos mx) + ex)).
  pose proof (shl_align_value mx ex e') as Hal.
  destruct (shl_align mx ex e') as [mz ez]. destruct Hal as [Hez Hmz].
  assert (Hd : Zdigits2 (Zpos mz) = Zdigits2 (Zpos mx) + (ex - ez)).
  { rewrite Hmz. apply Zdigits2_shift; lia. }
  assert (Hin : inbetween (shr_record_of_loc (Zpos mz) loc_Exact) (Zpos mz) 1).
  { unfold inbetween. cbn [shr_record_of_loc shr_m shr_r shr_s]. split; lia. }
  assert (Hex : ez <= fexp prec emax (Zdigits2 (Zpos mz) + ez)).
  { rewrite Hd. replace (Zdigits2 (Zpos mx) + (ex - ez) + ez) with (Zdigits2 (Zpos mx) + ex) by lia.
    change (ez <= e'). lia. }
  destruct (binary_round_aux_rounding sx _ ez loc_Exact _ 1 ltac:(lia) Hin Hex) as (R & e & HR & Heq).
  exists R, e. split; [|exact Heq].
  eapply rounding_eq; [|exact HR]. rewrite Hmz.
  rewrite (dval_shift (Zpos mx) ex (ex - ez)) by lia. replace (ex - (ex - ez)) with ez by lia.
  change (inject_Z 1) with 1%Q. field.
Qed.

(** [rounds_to x f]: the float [f] is the correctly rounded value of the rational [x]. *)
Definition rounds_to (x : Q) (sx : bool) (f : float64) : Prop :=
  exists R e, rounding x R e /\ f = renorm sx R e.

#[export] Instance rounds_to_proper : Proper (Qeq ==> eq ==> eq ==> iff) rounds_to.
Proof.
  intros x y Hxy s _ <- f _ <-. split; intros (R & e & HR & ->); exists R, e;
    (split; [|reflexivity]); eapply rounding_eq; try exact HR; [|symmetry]; exact Hxy.
Qed.

Lemma rounds_to_le x f y :
  rounds_to x false f -> valid y = true -> is_finite y = true -> (0 <= fval y)%Q ->
  (x <= fval y)%Q -> is_finite f = true /\ (fval f <= fval y)%Q.
Proof.
  intros (R & e & HR & ->) Hv Hf Hy Hx.
  assert (Hle : (dval R e <= fval y)%Q).
  { destruct y as [s|s| |s m ey]; try discriminate.
    - cbn [fval] in *. rewrite <- (dval_0 0) in Hx |- *.
      apply (rounding_le x R e 0 0); auto; lia.
    - destruct s.
      { rewrite fval_neg in Hy. pose proof (dval_pos (Zpos m) ey ltac:(lia)). lra. }
      apply valid_bounds in Hv. cbn [fval signed] in *. apply (rounding_le x); auto; lia. }
  destruct (renorm_spec false x R e HR) as [_ [[_ Hinf]|(Hfin & Hval & _)]].
  - exfalso.
    assert (Hmax : (fval y < dval (2 ^ 53) 971)%Q).
    { destruct y as [s|s| |s m ey]; try discriminate.
      - cbn [fval]. apply dval_pos. lia.
      - destruct s.
        { rewrite fval_neg in Hy. pose proof (dval_pos (Zpos m) ey ltac:(lia)). lra. }
        apply valid_bounds in Hv. cbn [fval signed].
        apply Qlt_le_trans with (dval (2 ^ 53) ey); [apply dval_lt_same; lia|apply dval_exp_le; lia]. }
    rewrite (dval_shift (2 ^ 52) 972 1) in Hinf by lia. 
    change (2 ^ 52 * 2 ^ 1) with (2 ^ 53) in Hinf. change (972 - 1) with 971 in Hinf. lra.
  - split; [exact Hfin|]. rewrite Hval. exact Hle.
Qed.

Lemma rounds_to_ge x f y :
  rounds_to x false f -> valid y = true -> is_finite y = true -> (0 <= fval y)%Q ->
  (fval y <= x)%Q -> f = S754_infinity false \/ (is_finite f = true /\ fval y <= fval f)%Q.
Proof.
  intros (R & e & HR & ->) Hv Hf Hy Hx.
  destruct (renorm_spec false x R e HR) as [_ [[Hi _]|(Hfin & Hval & _)]]; [now left|right].
  split; [exact Hfin|]. rewrite Hval.
  destruct y as [s|s| |s m ey]; try discriminate.
  - cbn [fval] in *. destruct (rounding_nonneg _ _ _ HR) as [H0 _].
    rewrite <- (dval_0 e). now apply dval_le_same.
  - destruct s.
    { rewrite fval_neg in Hy. pose proof (dval_pos (Zpos m) ey ltac:(lia)). lra. }
    apply valid_bounds in Hv. cbn [fval signed] in *. apply (rounding_ge x); auto; lia.
Qed.

Lemma rounds_to_valid x sx f : rounds_to x sx f -> valid f = true.
Proof. intros (R & e & HR & ->). apply (renorm_spec sx x R e HR). Qed.

Lemma rounds_to_not_nan x sx f : rounds_to x sx f -> is_nan f = false.
Proof.
  intros (R & e & HR & ->).
  destruct (renorm_spec sx x R e HR) as [_ [[-> _]|(Hf & _)]]; [reflexivity|].
  unfold is_finite in Hf. now apply andb_true_iff in Hf as [Hf%negb_true_iff _].
Qed.

#[export] Hint Resolve rounds_to_valid rounds_to_not_nan : paved.

Lemma rounds_to_mono x y f g :
  rounds_to x false f -> rounds_to y false g -> (x <= y)%Q -> fleb f g = true.
Proof.
  intros (R & e & HR & ->) (R' & e' & HR' & ->) Hxy.
  pose proof (rounding_mono _ _ _ _ _ _ HR HR' Hxy) as Hle.
  destruct (renorm_spec false x R e HR) as [V1 D1].
  destruct (renorm_spec false y R' e' HR') as [V2 D2].
  destruct D2 as [[E2 _]|(F2 & Hv2 & S2)].
  - rewrite E2. destruct D1 as [[E1 _]|(F1 & _)]; [now rewrite E1|].
    destruct (renorm false R e) as [| | |]; try discriminate; reflexivity.
  - destruct D1 as [[E1 G1]|(F1 & Hv1 & S1)].
    + exfalso.
      assert (Hmax : (fval (renorm false R' e') < dval (2 ^ 53) 971)%Q).
      { destruct (renorm false R' e') as [s|s| |s m ey]; try discriminate.
        - cbn [fval]. apply dval_pos. lia.
        - cbn [sign_bit] in S2. subst s.
          apply valid_bounds in V2. cbn [fval signed].
          apply Qlt_le_trans with (dval (2 ^ 53) ey); [apply dval_lt_same; lia|apply dval_exp_le; lia]. }
      rewrite Hv2 in Hmax.
      rewrite (dval_shift (2 ^ 52) 972 1) in G1 by lia. 
      change (2 ^ 52 * 2 ^ 1) with (2 ^ 53) in G1. change (972 - 1) with 971 in G1. lra.
    + apply fleb_fval; auto. rewrite Hv1, Hv2. exact Hle.
Qed.

(** Arithmetic *)
Definition fpos (x : float64) : bool :=
  match x with S754_finite false _ _ => valid x | _ => false end.

Lemma fpos_inv x : fpos x = true ->
  valid x = true /\ is_finite x = true /\ (0 < fval x)%Q /\ exists m e, x = S754_finite false m e.
Proof.
  destruct x as [| | |[] m e]; try discriminate. intros H. cbn [fpos] in H.
  repeat split; try assumption; [|eauto]. apply (dval_pos (Zpos m) e). lia.
Qed.

Lemma fone_valid : valid fone = true. Proof. reflexivity. Qed.
Lemma fval_fone : (fval fone == 1)%Q. Proof. reflexivity. Qed.

Lemma fdiv_rounds x y :
  fpos x = true -> fpos y = true -> rounds_to (fval x / fval y) false (fdiv x y).
Proof.
  intros Hx Hy. destruct (fpos_inv _ Hx) as (_ & _ & _ & mx & ex & ->).
  destruct (fpos_inv _ Hy) as (_ & _ & _ & my & ey & ->).
  destruct (SFdiv_core_rounding false (Zpos mx) ex (Zpos my) ey ltac:(lia) ltac:(lia)) as (R & e & HR & Heq).
  exists R, e. split; [exact HR|exact Heq].
Qed.

Lemma float_of_quot_rounds num den :
  rounds_to (Zpos num # den) false (float_of_quot false num den).
Proof.
  destruct (SFdiv_core_rounding false (Zpos num) 0 (Zpos den) 0 ltac:(lia) ltac:(lia)) as (R & e & HR & Heq).
  exists R, e. split; [|exact Heq]. eapply rounding_eq; [|exact HR].
  unfold dval. rewrite (Qmake_Qdiv (Zpos num) den). change (Qpower 2 0) with 1%Q.
  rewrite !Qmult_1_r. reflexivity.
Qed.

(** The largest value below 1. *)
Definition fpred_one : float64 := S754_finite false 9007199254740991 (-53).

Lemma valid_gap x y :
  valid x = true -> is_finite x = true -> fpos y = true -> (0 <= fval x)%Q ->
  (fval x < fval y)%Q -> (fval x <= fval fpred_one * fval y)%Q.
Proof.
  intros Hx Fx Hy H0 Hlt. destruct (fpos_inv _ Hy) as (Vy & _ & Py & my & ey & ->).
  apply valid_bounds in Vy as (He & Hm & Hc). cbn [fval signed] in *.
  assert (Hmul : (dval 9007199254740991 (-53) * dval (Zpos my) ey == dval (9007199254740991 * Zpos my) (ey - 53))%Q).
  { unfold dval. rewrite inject_Z_mult. replace (ey - 53) with (-53 + ey) by lia.
    rewrite Qpower_plus by discriminate. ring. }
  rewrite Hmul. destruct x as [s|s| |s m e]; try discriminate.
  - cbn [fval]. rewrite <- (dval_0 (ey - 53)). apply dval_le_same. lia.
  - destruct s.
    { rewrite fval_neg in H0. pose proof (dval_pos (Zpos m) e ltac:(lia)). lra. }
    apply valid_bounds in Hx as (He' & Hm' & Hc'). cbn [fval signed] in *.
    destruct (Z.lt_trichotomy e ey) as [Hl|[->|Hg]].
    + destruct Hc as [|Hc]; [lia|].
      apply Qle_trans with (dval 9007199254740991 (ey - 1)).
      { apply Qle_trans with (dval 9007199254740991 e); [apply dval_le_same; lia|apply dval_exp_le; lia]. }
      rewrite (dval_shift _ (ey - 1) 52) by lia. replace (ey - 1 - 52) with (ey - 53) by lia.
      apply dval_le_same. nia.
    + apply dval_lt_same in Hlt. rewrite (dval_shift (Zpos m) ey 53) by lia.
      apply dval_le_same. change (2 ^ 53) with 9007199254740992 in *. nia.
    + exfalso. apply Qlt_not_le in Hlt. apply Hlt.
      assert (G : (dval (Zpos my) ey < dval (2 ^ 53) ey)%Q) by (apply dval_lt_same; lia).
      destruct Hc' as [|Hc']; [lia|].
      assert (G2 : (dval (2 ^ 53) ey <= dval (2 ^ 53) (e - 1))%Q) by (apply dval_exp_le; lia).
      assert (G3 : (dval (2 ^ 52) e <= dval (Zpos m) e)%Q) by (apply dval_le_same; lia).
      rewrite (dval_shift (2 ^ 52) e 1) in G3 by lia. change (2 ^ 52 * 2 ^ 1) with (2 ^ 53) in G3. lra.
Qed.

Lemma fleb_false x y :
  valid x = true -> valid y = true -> is_finite x = true -> is_finite y = true ->
  fleb x y = false <-> (fval y < fval x)%Q.
Proof.
  intros Hx Hy Fx Fy. pose proof (fleb_fval x y Hx Hy Fx Fy) as H.
  destruct (fleb x y); split; intros H1; try discriminate; try reflexivity.
  - apply proj1 in H. specialize (H eq_refl). lra.
  - destruct (Qlt_le_dec (fval y) (fval x)) as [|H2]; [assumption|]. apply H in H2. discriminate.
Qed.

(** Comparing a correctly rounded quotient with 1 is comparing the operands: rounding can not
    carry a quotient across 1. *)
Theorem fdiv_ge_one x y :
  fpos x = true -> fpos y = true -> fleb fone (fdiv x y) = fleb y x.
Proof.
  intros Hx Hy. pose proof (fdiv_rounds x y Hx Hy) as HR.
  destruct (fpos_inv _ Hx) as (Vx & Fx & Px & _). destruct (fpos_inv _ Hy) as (Vy & Fy & Py & _).
  destruct (fleb y x) eqn:E.
  - apply fleb_fval in E; auto.
    destruct (rounds_to_ge _ _ fone HR) as [->|[F H]]; try reflexivity; [rewrite fval_fone; lra| |].
    { rewrite fval_fone. apply Qle_shift_div_l; [exact Py|lra]. }
    apply fleb_fval; eauto with paved.
  - apply fleb_false in E; auto.
    pose proof (valid_gap x y Vx Fx Hy ltac:(lra) E) as Hgap.
    destruct (rounds_to_le _ _ fpred_one HR) as [F H]; try reflexivity; [discriminate| |].
    { apply Qle_shift_div_r; [exact Py|exact Hgap]. }
    apply fleb_false; eauto with paved.
    eapply Qle_lt_trans; [exact H|reflexivity].
Qed.

Theorem fdiv_mono x x' y :
  fpos x = true -> fpos x' = true -> fpos y = true ->
  fleb x x' = true -> fleb (fdiv x y) (fdiv x' y) = true.
Proof.
  intros Hx Hx' Hy Hle.
  destruct (fpos_inv _ Hx) as (Vx & Fx & Px & _). destruct (fpos_inv _ Hy) as (Vy & Fy & Py & _).
  destruct (fpos_inv _ Hx') as (Vx' & Fx' & Px' & _).
  apply fleb_fval in Hle; auto.
  eapply rounds_to_mono; [apply fdiv_rounds; auto|apply fdiv_rounds; auto|].
  unfold Qdiv. apply Qmult_le_compat_r; [exact Hle|]. apply Qlt_le_weak, Qinv_lt_0_compat, Py.
Qed.

(** Subtraction *)
Lemma rounds_to_self s m e :
  valid (S754_finite s m e) = true -> rounds_to (dval (Zpos m) e) s (S754_finite s m e).
Proof.
  intros H. apply valid_bounds in H as (He & Hm & Hc).
  exists (Zpos m), e. split.
  - pose proof (dval_pos 1 e ltac:(lia)).
    constructor; try lia; try (split; lra).
    + intros [G|G]; lra.
    + destruct Hc as [|Hc]; [now left|right]. now apply dval_le_same.
    + apply dval_lt_same. lia.
  - unfold renorm, pack. destruct (Z.eqb_spec (Zpos m) (2 ^ 53)); [lia|].
    destruct (Z.leb_spec e 971); [reflexivity|lia].
Qed.

Lemma binary_normalize_rounds d e :
  (d = 0 -> binary_normalize prec emax d e false = fzero) /\
  (0 < d -> rounds_to (dval d e) false (binary_normalize prec emax d e false)) /\
  (d < 0 -> rounds_to (dval (- d) e) true (binary_normalize prec emax d e false)).
Proof.
  destruct d as [|p|p]; cbn [binary_normalize]; repeat split; intros H; try lia; try reflexivity.
  - destruct (binary_round_rounding false p e) as (R & e' & HR & Heq). exists R, e'; auto.
  - destruct (binary_round_rounding true p e) as (R & e' & HR & Heq). exists R, e'; auto.
Qed.

Lemma rounds_to_eq x y s f : (x == y)%Q -> rounds_to x s f -> rounds_to y s f.
Proof. intros H HR. now rewrite <- H. Qed.

Lemma fsub_rounds x y :
  valid x = true -> valid y = true -> is_finite x = true -> is_finite y = true ->
  ((fval x == fval y)%Q -> exists s, fsub x y = S754_zero s) /\
  ((fval y < fval x)%Q -> rounds_to (fval x - fval y) false (fsub x y)) /\
  ((fval x < fval y)%Q -> rounds_to (fval y - fval x) true (fsub x y)).
Proof.
  intros Hx Hy Fx Fy. unfold fsub.
  destruct x as [sx|sx| |sx mx ex]; try discriminate; destruct y as [sy|sy| |sy my ey]; try discriminate.
  - cbn [fval]. split; [|split]; intros H; try lra.
    destruct sx, sy; cbn; eauto.
  - pose proof (dval_pos (Zpos my) ey ltac:(lia)) as Hp. cbn [SFsub].
    assert (Hv : valid (S754_finite (negb sy) my ey) = true) by exact Hy.
    apply rounds_to_self in Hv. destruct sy; [rewrite fval_neg|]; cbn [fval signed negb] in *;
      (split; [|split]; intros H; try lra); (eapply rounds_to_eq; [|exact Hv]); lra.
  - pose proof (dval_pos (Zpos mx) ex ltac:(lia)) as Hp. cbn [SFsub].
    apply rounds_to_self in Hx. destruct sx; [rewrite fval_neg|]; cbn [fval signed] in *;
      (split; [|split]; intros H; try lra); (eapply rounds_to_eq; [|exact Hx]); lra.
  - cbn [SFsub]. set (ez := Z.min ex ey).
    pose proof (shl_align_value mx ex ez) as Ax. pose proof (shl_align_value my ey ez) as Ay.
    destruct (shl_align mx ex ez) as [ax ax'], (shl_align my ey ez) as [ay ay'].
    destruct Ax as [-> Ax], Ay as [-> Ay]. cbn [fst].
    replace (Z.min ex ez) with ez in Ax by lia. replace (Z.min ey ez) with ez in Ay by lia.
    assert (Vx : (fval (S754_finite sx mx ex) == dval (cond_Zopp sx (Zpos ax)) ez)%Q).
    { cbn [fval]. rewrite (dval_shift _ ex (ex - ez)) by lia. replace (ex - (ex - ez)) with ez by lia.
      destruct sx; cbn [signed cond_Zopp]; rewrite Ax; [|reflexivity].
      change (Zneg mx) with (- Zpos mx). rewrite Z.mul_opp_l. reflexivity. }
    assert (Vy : (fval (S754_finite sy my ey) == dval (cond_Zopp sy (Zpos ay)) ez)%Q).
    { cbn [fval]. rewrite (dval_shift _ ey (ey - ez)) by lia. replace (ey - (ey - ez)) with ez by lia.
      destruct sy; cbn [signed cond_Zopp]; rewrite Ay; [|reflexivity].
      change (Zneg my) with (- Zpos my). rewrite Z.mul_opp_l. reflexivity. }
    set (a := cond_Zopp sx (Zpos ax)) in *. set (b := cond_Zopp sy (Zpos ay)) in *.
    destruct (binary_normalize_rounds (a - b) ez) as (H0 & Hp & Hn).
    rewrite Vx, Vy. split; [|split]; intros H.
    + exists false. apply H0. assert (a = b); [|lia].
      apply Z.le_antisymm; apply (dval_le_same _ _ ez); rewrite H; apply Qle_refl.
    + apply dval_lt_same in H. eapply rounds_to_eq; [|apply Hp; lia].
      rewrite <- Z.add_opp_r, dval_add, dval_opp. ring.
    + apply dval_lt_same in H. eapply rounds_to_eq; [|apply Hn; lia].
      replace (- (a - b)) with (b + - a) by lia. rewrite dval_add, dval_opp. ring.
Qed.

Lemma fval_grid x : valid x = true -> is_finite x = true -> exists k, (fval x == dval k (-1074))%Q.
Proof.
  intros V F. destruct x as [s|s| |s m e]; try discriminate.
  - exists 0. cbn [fval]. now rewrite dval_0.
  - apply valid_bounds in V as (He & _). exists (signed s m * 2 ^ (e + 1074)). cbn [fval].
    rewrite (dval_shift _ e (e + 1074)) by lia. replace (e - (e + 1074)) with (-1074) by lia. reflexivity.
Qed.

Lemma rounds_to_negative x f : rounds_to x true f -> fleb f fzero = true.
Proof.
  intros (R & e & HR & ->). destruct (renorm_spec true x R e HR) as [V [[-> _]|(F & Hv & S)]]; [reflexivity|].
  apply fleb_fval; auto. cbn [fval fzero]. rewrite Hv.
  assert (0 <= dval R e)%Q; [|lra]. rewrite <- (dval_0 e). apply dval_le_same.
  apply (rounding_nonneg _ _ _ HR).
Qed.

(** Gradual underflow: a difference is zero or negative exactly when the operands say so. *)
Theorem fsub_le_zero x y :
  valid x = true -> valid y = true -> is_finite x = true -> is_finite y = true ->
  fleb (fsub x y) fzero = fleb x y.
Proof.
  intros Vx Vy Fx Fy. destruct (fsub_rounds x y Vx Vy Fx Fy) as (H0 & Hp & Hn).
  destruct (Q_dec (fval x) (fval y)) as [[Hlt|Hgt]|Heq].
  - rewrite (rounds_to_negative _ _ (Hn Hlt)). symmetry. apply fleb_fval; auto. lra.
  - replace (fleb x y) with false by (symmetry; apply fleb_false; auto).
    specialize (Hp Hgt). 
    assert (Hd : (dval 1 (-1074) <= fval x - fval y)%Q).
    { destruct (fval_grid x Vx Fx) as [k Hk], (fval_grid y Vy Fy) as [l Hl].
      rewrite Hk, Hl in *. apply dval_lt_same in Hgt.
      assert (G : (dval (1 + l) (-1074) <= dval k (-1074))%Q) by (apply dval_le_same; lia).
      rewrite dval_add in G. lra. }
    destruct (rounds_to_ge _ _ (S754_finite false 1 (-1074)) Hp) as [->|[F G]];
      try reflexivity; [apply Qlt_le_weak, (dval_pos 1); lia|exact Hd|].
    apply fleb_false; eauto with paved.
    eapply Qlt_le_trans; [|exact G]. apply (dval_pos 1). lia.
  - destruct (H0 Heq) as [s ->]. symmetry. apply fleb_fval; auto. rewrite Heq. apply Qle_refl.
Qed.

Lemma fsub_le_left x y :
  valid x = true -> valid y = true -> is_finite x = true -> is_finite y = true ->
  (0 <= fval y <= fval x)%Q ->
  is_finite (fsub x y) = true /\ valid (fsub x y) = true /\ (fval (fsub x y) <= fval x)%Q.
Proof.
  intros Vx Vy Fx Fy Hxy. destruct (fsub_rounds x y Vx Vy Fx Fy) as (H0 & Hp & _).
  destruct (Qlt_le_dec (fval y) (fval x)) as [Hlt|Hge].
  - specialize (Hp Hlt). destruct (rounds_to_le _ _ x Hp) as [F G]; auto; try lra.
    repeat split; eauto with paved.
  - destruct (H0 ltac:(lra)) as [s ->]. repeat split; auto. cbn [fval]. lra.
Qed.
