(* ===== verification/GoStrings.v ===== *)
(** * The part of Go's [strings], [strconv] and [unicode/utf8] the program uses

    A Go string is a sequence of bytes, so a Rocq [string] (a sequence of 8-bit [ascii]) is one
    exactly. Numbers and decimal digits first, then searching and trimming, then UTF-8 and the
    quoting behind the [%q] verb. *)
From Stdlib Require Import ZArith Lia Ascii String.
From S2P Require Import Prelude.
Local Open Scope Z_scope.
Local Open Scope stdpp_scope.

Definition byte_of (n : Z) : ascii := ascii_of_N (Z.to_N n).
Definition code (c : ascii) : Z := Z.of_N (N_of_ascii c).
Definition char (n : Z) : string := String (byte_of n) EmptyString.
Definition dquote : string := char 34.

(** [len(s)] *)
Definition len (s : string) : Z := Z.of_nat (String.length s).

Lemma code_bounds c : 0 <= code c < 256.
Proof. unfold code. pose proof (N_ascii_bounded c). lia. Qed.

Lemma code_byte_of n : 0 <= n < 256 -> code (byte_of n) = n.
Proof. intros H. unfold code, byte_of. rewrite N_ascii_embedding by lia. lia. Qed.

Lemma append_nil_r s : s +:+ EmptyString = s.
Proof. induction s as [|c s IH]; simpl; [done|by rewrite IH]. Qed.

Lemma append_assoc s t u : s +:+ (t +:+ u) = (s +:+ t) +:+ u.
Proof. induction s as [|c s IH]; simpl; [done|by rewrite IH]. Qed.

Lemma length_append s t : String.length (s +:+ t) = (String.length s + String.length t)%nat.
Proof. induction s as [|c s IH]; simpl; [done|by rewrite IH]. Qed.

Lemma append_inj_l s t u : s +:+ t = s +:+ u -> t = u.
Proof. induction s as [|c s IH]; simpl; [done|]. intros [= H]. by apply IH. Qed.

Lemma append_inj_r s t u : s +:+ u = t +:+ u -> s = t.
Proof.
  revert t. induction s as [|c s IH]; intros [|d t] H; simpl in *; [done| | |].
  - apply (f_equal String.length) in H. simpl in H. rewrite length_append in H. lia.
  - apply (f_equal String.length) in H. simpl in H. rewrite length_append in H. lia.
  - injection H as -> H. f_equal. by apply IH.
Qed.

(** ** Decimal digits *)

Definition is_digit (c : ascii) : bool := (48 <=? code c) && (code c <=? 57).
Definition digit_char (d : Z) : ascii := byte_of (48 + d).

(** The [k] low decimal digits of [n]. *)
Fixpoint digits_fixed (k : nat) (n : Z) : string :=
  match k with
  | O => EmptyString
  | S k' => digits_fixed k' (n / 10) +:+ String (digit_char (n mod 10)) EmptyString
  end.

(** The number of decimal digits of [n >= 0]; 1 for 0. *)
Fixpoint num_digits_go (fuel : nat) (n : Z) : nat :=
  match fuel with
  | O => 1
  | S fuel' => if n <? 10 then 1%nat else S (num_digits_go fuel' (n / 10))
  end.
Definition num_digits (n : Z) : nat := num_digits_go (S (Z.to_nat (Z.log2 n))) n.

(** Decimal text of a non-negative integer. *)
Definition dec (n : Z) : string := digits_fixed (num_digits n) n.

(** [strconv.Itoa], and [strconv.FormatInt(n, 10)] *)
Definition Itoa (n : Z) : string := if n <? 0 then char 45 +:+ dec (- n) else dec n.

(** The number a digit string denotes, most significant digit first. *)
Fixpoint digits_value (acc : Z) (s : string) : option Z :=
  match s with
  | EmptyString => Some acc
  | String c s' => if is_digit c then digits_value (10 * acc + (code c - 48)) s' else None
  end.

Definition all_digits (s : string) : bool :=
  forallb is_digit (list_ascii_of_string s).

Definition max_int64 : Z := 9223372036854775807.
Definition min_int64 : Z := -9223372036854775808.
Definition int64_wrap (n : Z) : Z := (n + 2 ^ 63) mod 2 ^ 64 - 2 ^ 63.

(** [strconv.Atoi] on a 64-bit platform: an optional sign and decimal digits, in range. *)
Definition Atoi (s : string) : option Z :=
  let parse (neg : bool) (ds : string) :=
    match ds with
    | EmptyString => None
    | _ =>
        match digits_value 0 ds with
        | Some n =>
            let v := if neg then - n else n in
            if (min_int64 <=? v) && (v <=? max_int64) then Some v else None
        | None => None
        end
    end in
  match s with
  | String c s' =>
      if code c =? 43 then parse false s'
      else if code c =? 45 then parse true s'
      else parse false s
  | EmptyString => None
  end.

Lemma is_digit_digit_char d : 0 <= d < 10 -> is_digit (digit_char d) = true.
Proof.
  intros H. unfold is_digit, digit_char. rewrite code_byte_of by lia.
  apply andb_true_iff. split; lia.
Qed.

Lemma code_digit_char d : 0 <= d < 10 -> code (digit_char d) - 48 = d.
Proof. intros H. unfold digit_char. rewrite code_byte_of; lia. Qed.

Lemma digits_value_append acc s t :
  digits_value acc (s +:+ t) = digits_value acc s ≫= fun v => digits_value v t.
Proof. revert acc. induction s as [|c s IH]; intros acc; simpl; [done|]. by destruct (is_digit c). Qed.

Lemma digits_fixed_value k : forall n acc,
  digits_value acc (digits_fixed k n) = Some (acc * 10 ^ Z.of_nat k + n mod 10 ^ Z.of_nat k).
Proof.
  induction k as [|k IH]; intros n acc; simpl.
  - f_equal. rewrite Z.mod_1_r. lia.
  - rewrite digits_value_append, IH. simpl.
    pose proof (Z.mod_pos_bound n 10 ltac:(lia)).
    rewrite is_digit_digit_char, code_digit_char by lia. f_equal.
    rewrite Nat2Z.inj_succ, Z.pow_succ_r by lia.
    rewrite Z.rem_mul_r by lia. lia.
Qed.

Lemma digits_fixed_length k n : String.length (digits_fixed k n) = k.
Proof.
  revert n. induction k as [|k IH]; intros n; [done|].
  cbn [digits_fixed]. rewrite length_append, IH. simpl. lia.
Qed.

Lemma num_digits_go_bound fuel n :
  0 <= n -> n < 2 ^ Z.of_nat fuel -> n < 10 ^ Z.of_nat (num_digits_go fuel n).
Proof.
  revert n. induction fuel as [|fuel IH]; intros n Hn Hf; cbn [num_digits_go].
  - change (2 ^ Z.of_nat 0) with 1 in Hf. change (10 ^ Z.of_nat 1) with 10. lia.
  - destruct (Z.ltb_spec n 10); [by change (10 ^ Z.of_nat 1) with 10|].
    rewrite Nat2Z.inj_succ, Z.pow_succ_r in * by lia.
    pose proof (Z.div_mod n 10 ltac:(lia)). pose proof (Z.mod_pos_bound n 10 ltac:(lia)).
    assert (n / 10 < 10 ^ Z.of_nat (num_digits_go fuel (n / 10))).
    { apply IH; [apply Z.div_pos; lia|]. lia. }
    lia.
Qed.

Lemma num_digits_bound n : 0 <= n -> n < 10 ^ Z.of_nat (num_digits n).
Proof.
  intros H. apply num_digits_go_bound; [done|].
  rewrite Nat2Z.inj_succ, Z2Nat.id by apply Z.log2_nonneg.
  destruct (Z.eq_dec n 0) as [->|]; [by vm_compute|]. apply Z.log2_spec. lia.
Qed.

Lemma num_digits_pos n : (0 < num_digits n)%nat.
Proof. unfold num_digits. cbn [num_digits_go]. destruct (n <? 10); lia. Qed.

Lemma dec_value n acc : 0 <= n ->
  digits_value acc (dec n) = Some (acc * 10 ^ Z.of_nat (num_digits n) + n).
Proof.
  intros H. unfold dec. rewrite digits_fixed_value, Z.mod_small; [done|].
  split; [done|by apply num_digits_bound].
Qed.

Lemma digits_fixed_all_digits k n : all_digits (digits_fixed k n) = true.
Proof.
  assert (Happ : forall s t, all_digits s = true -> all_digits t = true -> all_digits (s +:+ t) = true).
  { unfold all_digits. induction s as [|c s IH]; intros t; simpl; [done|].
    intros [Hc Hs]%andb_true_iff Ht. by rewrite Hc, IH. }
  revert n. induction k as [|k IH]; intros n; [done|]. cbn [digits_fixed]. apply Happ; [done|].
  unfold all_digits. simpl. rewrite is_digit_digit_char; [done|]. apply Z.mod_pos_bound. lia.
Qed.

Lemma dec_all_digits n : all_digits (dec n) = true.
Proof. apply digits_fixed_all_digits. Qed.

Lemma dec_cons n : exists c s, dec n = String c s /\ is_digit c = true.
Proof.
  pose proof (digits_fixed_length (num_digits n) n) as Hl. pose proof (num_digits_pos n).
  pose proof (dec_all_digits n) as Hd. unfold dec in *.
  destruct (digits_fixed (num_digits n) n) as [|c s]; simpl in Hl; [lia|].
  exists c, s. split; [done|]. unfold all_digits in Hd. simpl in Hd. by apply andb_true_iff in Hd as [? _].
Qed.

Lemma is_digit_code c : is_digit c = true -> 48 <= code c <= 57.
Proof. unfold is_digit. intros [? ?]%andb_true_iff. lia. Qed.

(** Round trip: [Atoi] reads back what [Itoa] prints, on every int64. *)
Lemma Atoi_Itoa n : min_int64 <= n <= max_int64 -> Atoi (Itoa n) = Some n.
Proof.
  intros H. unfold Itoa. destruct (Z.ltb_spec n 0).
  - cbn [append char]. unfold Atoi. rewrite !code_byte_of by lia. simpl.
    destruct (dec_cons (- n)) as (c & s & Hs & _).
    pose proof (dec_value (- n) 0 ltac:(lia)) as Hv. rewrite Hs in *. rewrite Hv.
    rewrite Z.mul_0_l, Z.add_0_l, Z.opp_involutive.
    by rewrite (proj2 (Z.leb_le _ _) (proj1 H)), (proj2 (Z.leb_le _ _) (proj2 H)).
  - destruct (dec_cons n) as (c & s & Hs & Hc).
    pose proof (dec_value n 0 ltac:(lia)) as Hv. rewrite Hs in *. unfold Atoi.
    apply is_digit_code in Hc.
    destruct (Z.eqb_spec (code c) 43); [lia|]. destruct (Z.eqb_spec (code c) 45); [lia|].
    rewrite Hv, Z.mul_0_l, Z.add_0_l.
    by rewrite (proj2 (Z.leb_le _ _) (proj1 H)), (proj2 (Z.leb_le _ _) (proj2 H)).
Qed.

(** ** Searching, replacing, trimming, joining *)

Fixpoint drop_bytes (n : nat) (s : string) : string :=
  match n, s with
  | O, _ => s
  | S n', String _ s' => drop_bytes n' s'
  | S _, EmptyString => EmptyString
  end.

Fixpoint take_bytes (n : nat) (s : string) : string :=
  match n, s with
  | O, _ => EmptyString
  | S n', String c s' => String c (take_bytes n' s')
  | S _, EmptyString => EmptyString
  end.

(** [strings.HasPrefix(s, p)] *)
Definition HasPrefix (s p : string) : bool := String.prefix p s.

(** [strings.HasSuffix(s, p)] *)
Definition HasSuffix (s p : string) : bool :=
  (String.length p <=? String.length s)%nat &&
  String.eqb (drop_bytes (String.length s - String.length p) s) p.

(** [strings.TrimSuffix(s, p)] *)
Definition TrimSuffix (s p : string) : string :=
  if HasSuffix s p then take_bytes (String.length s - String.length p) s else s.

(** [strings.Contains(s, sub)] *)
Fixpoint Contains (s sub : string) : bool :=
  HasPrefix s sub || match s with String _ s' => Contains s' sub | EmptyString => false end.

(** [strings.Replace(s, old, new, limit)] for a non-empty [old]; no limit is [None].
    [skip] counts the bytes of a match still to be dropped. *)
Fixpoint replace_go (old new : string) (limit : option nat) (skip : nat) (s : string) : string :=
  match s with
  | EmptyString => EmptyString
  | String c s' =>
      match skip with
      | S skip' => replace_go old new limit skip' s'
      | O =>
          if match limit with Some O => false | _ => HasPrefix s old end
          then new +:+ replace_go old new (option_map Nat.pred limit) (String.length old - 1) s'
          else String c (replace_go old new limit 0 s')
      end
  end.
Definition ReplaceAll (s old new : string) : string := replace_go old new None 0 s.
Definition ReplaceFirst (s old new : string) : string := replace_go old new (Some 1%nat) 0 s.

(** [strings.Split(s, sep)] for a separator of one byte. *)
Fixpoint split_on (sep : ascii) (s : string) : list string :=
  match s with
  | EmptyString => [EmptyString]
  | String c s' =>
      if Ascii.eqb c sep then EmptyString :: split_on sep s'
      else match split_on sep s' with
           | x :: xs => String c x :: xs
           | [] => [String c EmptyString]
           end
  end.

(** [strings.Join(xs, sep)] *)
Fixpoint Join (xs : list string) (sep : string) : string :=
  match xs with
  | [] => EmptyString
  | [x] => x
  | x :: xs' => x +:+ sep +:+ Join xs' sep
  end.

(** [strings.Trim(s, cutset)] for an ASCII [cutset]. *)
Definition in_cutset (cutset : string) (c : ascii) : bool :=
  existsb (Ascii.eqb c) (list_ascii_of_string cutset).
Fixpoint trim_left (cut : ascii -> bool) (s : string) : string :=
  match s with
  | String c s' => if cut c then trim_left cut s' else s
  | EmptyString => s
  end.
Fixpoint trim_right (cut : ascii -> bool) (s : string) : string :=
  match s with
  | String c s' =>
      match trim_right cut s' with
      | EmptyString => if cut c then EmptyString else String c EmptyString
      | t => String c t
      end
  | EmptyString => EmptyString
  end.
Definition Trim (s cutset : string) : string :=
  trim_right (in_cutset cutset) (trim_left (in_cutset cutset) s).

(** [strings.TrimSpace]: the UTF-8 encodings of every rune [unicode.IsSpace] accepts. *)
Definition bytes (bs : list Z) : string := string_of_list_ascii (map byte_of bs).
Definition space_encodings : list string :=
  map bytes ([[9]; [10]; [11]; [12]; [13]; [32]; [0xC2; 0x85]; [0xC2; 0xA0]; [0xE1; 0x9A; 0x80];
             [0xE2; 0x80; 0xA8]; [0xE2; 0x80; 0xA9]; [0xE2; 0x80; 0xAF]; [0xE2; 0x81; 0x9F];
             [0xE3; 0x80; 0x80]] ++
            map (fun k => [0xE2; 0x80; 0x80 + Z.of_nat k]) (seq 0 11))%list.

Fixpoint trim_space_left (fuel : nat) (s : string) : string :=
  match fuel with
  | O => s
  | S fuel' =>
      match List.find (HasPrefix s) space_encodings with
      | Some e => trim_space_left fuel' (drop_bytes (String.length e) s)
      | None => s
      end
  end.
Fixpoint trim_space_right (fuel : nat) (s : string) : string :=
  match fuel with
  | O => s
  | S fuel' =>
      match List.find (HasSuffix s) space_encodings with
      | Some e => trim_space_right fuel' (TrimSuffix s e)
      | None => s
      end
  end.
Definition TrimSpace (s : string) : string :=
  let t := trim_space_left (String.length s) s in trim_space_right (String.length t) t.

(** ** UTF-8 and quoting *)

(** [utf8.RuneStart(b)]: [b & 0xC0 != 0x80] *)
Definition RuneStart (c : ascii) : bool := negb (Z.land (code c) 0xC0 =? 0x80).

Definition RuneError : Z := 0xFFFD.

(** [utf8.DecodeRuneInString]: the rune and its width in bytes. *)
Definition cont (lo hi : Z) (s : string) : option (Z * string) :=
  match s with
  | String c s' => if (lo <=? code c) && (code c <=? hi) then Some (Z.land (code c) 0x3F, s') else None
  | EmptyString => None
  end.

Definition DecodeRune (s : string) : Z * nat :=
  let bad := (RuneError, 1%nat) in
  match s with
  | EmptyString => (RuneError, 0%nat)
  | String c s' =>
      let b := code c in
      if b <? 0x80 then (b, 1%nat)
      else if (0xC2 <=? b) && (b <=? 0xDF) then
        match cont 0x80 0xBF s' with
        | Some (x, _) => (Z.lor (Z.shiftl (Z.land b 0x1F) 6) x, 2%nat)
        | None => bad
        end
      else if (0xE0 <=? b) && (b <=? 0xEF) then
        match cont (if b =? 0xE0 then 0xA0 else 0x80) (if b =? 0xED then 0x9F else 0xBF) s' with
        | Some (x, s'') =>
            match cont 0x80 0xBF s'' with
            | Some (y, _) => (Z.lor (Z.shiftl (Z.land b 0x0F) 12) (Z.lor (Z.shiftl x 6) y), 3%nat)
            | None => bad
            end
        | None => bad
        end
      else if (0xF0 <=? b) && (b <=? 0xF4) then
        match cont (if b =? 0xF0 then 0x90 else 0x80) (if b =? 0xF4 then 0x8F else 0xBF) s' with
        | Some (x, s'') =>
            match cont 0x80 0xBF s'' with
            | Some (y, s''') =>
                match cont 0x80 0xBF s''' with
                | Some (z, _) =>
                    (Z.lor (Z.shiftl (Z.land b 0x07) 18)
                           (Z.lor (Z.shiftl x 12) (Z.lor (Z.shiftl y 6) z)), 4%nat)
                | None => bad
                end
            | None => bad
            end
        | None => bad
        end
      else bad
  end.

(** Lower-case hexadecimal. *)
Definition hex_digit (d : Z) : ascii := if d <? 10 then byte_of (48 + d) else byte_of (87 + d).
Fixpoint hex_fixed (k : nat) (n : Z) : string :=
  match k with
  | O => EmptyString
  | S k' => hex_fixed k' (n / 16) +:+ String (hex_digit (n mod 16)) EmptyString
  end.

(** [strconv.IsPrint] above ASCII is a table of the Unicode standard; it is the one thing about
    text this library is parametric in. *)
Class UnicodePrint := isPrintRune : Z -> bool.

Definition IsPrint `{UnicodePrint} (r : Z) : bool :=
  if r <? 0x80 then (0x20 <=? r) && (r <=? 0x7E) else isPrintRune r.

Definition backslash : string := char 92.

(** [strconv.appendEscapedRune] for the double quote. [raw] is the rune's own encoding. *)
Definition escape_rune `{UnicodePrint} (r : Z) (raw : string) : string :=
  if (r =? 34) || (r =? 92) then backslash +:+ raw
  else if IsPrint r then raw
  else if r =? 7 then backslash +:+ "a"
  else if r =? 8 then backslash +:+ "b"
  else if r =? 12 then backslash +:+ "f"
  else if r =? 10 then backslash +:+ "n"
  else if r =? 13 then backslash +:+ "r"
  else if r =? 9 then backslash +:+ "t"
  else if r =? 11 then backslash +:+ "v"
  else if (r <? 32) || (r =? 0x7F) then backslash +:+ "x" +:+ hex_fixed 2 r
  else if r <? 0x10000 then backslash +:+ "u" +:+ hex_fixed 4 r
  else backslash +:+ "U" +:+ hex_fixed 8 r.

Fixpoint quote_body `{UnicodePrint} (skip : nat) (s : string) : string :=
  match s with
  | EmptyString => EmptyString
  | String c s' =>
      match skip with
      | S skip' => quote_body skip' s'
      | O =>
          let '(r, width) := DecodeRune s in
          if (Nat.eqb width 1 && (r =? RuneError))%bool
          then backslash +:+ "x" +:+ hex_fixed 2 (code c) +:+ quote_body 0 s'
          else escape_rune r (take_bytes width s) +:+ quote_body (width - 1) s'
      end
  end.

(** [strconv.Quote], the [%q] verb on a string. *)
Definition Quote `{UnicodePrint} (s : string) : string := dquote +:+ quote_body 0 s +:+ dquote.

(** Text Go prints between quotes as it is: printable ASCII without quotes and backslashes. *)
Definition plain_char (c : ascii) : bool :=
  (0x20 <=? code c) && (code c <=? 0x7E) && negb (code c =? 34) && negb (code c =? 92).
Definition plain (s : string) : bool := forallb plain_char (list_ascii_of_string s).

Lemma Quote_plain `{UnicodePrint} s : plain s = true -> Quote s = dquote +:+ s +:+ dquote.
Proof.
  intros Hp. unfold Quote. f_equal. f_equal. unfold plain in Hp.
  induction s as [|c s IH]; [done|]. simpl in Hp. apply andb_true_iff in Hp as [Hc Hs].
  unfold plain_char in Hc. split_andb.
  cbn [quote_body DecodeRune].
  assert (Hlt : (code c <? 0x80) = true) by lia. rewrite Hlt.
  assert (Hre : (code c =? RuneError) = false) by (unfold RuneError; lia). rewrite Hre.
  cbn [Nat.eqb andb]. unfold escape_rune, IsPrint. rewrite Hlt.
  assert (H34 : (code c =? 34) = false) by lia. assert (H92 : (code c =? 92) = false) by lia.
  rewrite H34, H92. cbn [orb].
  assert (Hpr : (32 <=? code c) && (code c <=? 126) = true) by lia. rewrite Hpr.
  cbn [take_bytes Nat.sub]. simpl. by rewrite IH.
Qed.

(** *** Lemmas *)

Lemma take_drop_bytes n s : take_bytes n s +:+ drop_bytes n s = s.
Proof. revert s. induction n as [|n IH]; intros [|c s]; simpl; [done..|]. by rewrite IH. Qed.

Lemma drop_append s t : drop_bytes (String.length s) (s +:+ t) = t.
Proof. induction s as [|c s IH]; simpl; done. Qed.

Lemma take_append s t : take_bytes (String.length s) (s +:+ t) = s.
Proof. induction s as [|c s IH]; simpl; [by destruct t|by rewrite IH]. Qed.

Lemma length_take_bytes n s : (n <= String.length s)%nat -> String.length (take_bytes n s) = n.
Proof.
  revert s. induction n as [|n IH]; intros [|c s] H; simpl in *; try lia; rewrite ?IH; lia.
Qed.

Lemma HasPrefix_spec s p : HasPrefix s p = true <-> exists t, s = p +:+ t.
Proof.
  unfold HasPrefix. revert s. induction p as [|c p IH]; intros s; simpl.
  - destruct s; split; eauto.
  - destruct s as [|d s]; simpl; [split; [done|by intros [t ?]]|].
    destruct (ascii_dec c d) as [->|Hne].
    + rewrite IH. split; intros [t H]; exists t; [by rewrite H|]. by injection H.
    + split; [done|]. intros [t H]. injection H. congruence.
Qed.

Lemma HasSuffix_spec s p : HasSuffix s p = true <-> exists t, s = t +:+ p.
Proof.
  unfold HasSuffix. rewrite andb_true_iff, Nat.leb_le, String.eqb_eq. split.
  - intros [Hl Hd]. exists (take_bytes (String.length s - String.length p) s).
    rewrite <- (take_drop_bytes (String.length s - String.length p) s) at 1. by rewrite Hd.
  - intros [t ->]. rewrite length_append. split; [lia|].
    replace (String.length t + String.length p - String.length p)%nat with (String.length t) by lia.
    apply drop_append.
Qed.

Lemma TrimSuffix_append t p : TrimSuffix (t +:+ p) p = t.
Proof.
  unfold TrimSuffix. replace (HasSuffix (t +:+ p) p) with true.
  - rewrite length_append.
    replace (String.length t + String.length p - String.length p)%nat with (String.length t) by lia.
    apply take_append.
  - symmetry. apply HasSuffix_spec. by exists t.
Qed.

Lemma hex_fixed_length k n : String.length (hex_fixed k n) = k.
Proof.
  revert n. induction k as [|k IH]; intros n; [done|].
  cbn [hex_fixed]. rewrite length_append, IH. simpl. lia.
Qed.

Lemma Sprintf_cons x xs : Sprintf (x :: xs) = x +:+ Sprintf xs.
Proof. done. Qed.

Lemma len_append s t : len (s +:+ t) = len s + len t.
Proof. unfold len. rewrite length_append. lia. Qed.

Lemma len_Sprintf xs : len (Sprintf xs) = foldr (fun x n => len x + n) 0 xs.
Proof. induction xs as [|x xs IH]; [done|]. rewrite Sprintf_cons, len_append. cbn [foldr]. by rewrite IH. Qed.

Lemma split_on_none sep s :
  forallb (fun c => negb (Ascii.eqb c sep)) (list_ascii_of_string s) = true -> split_on sep s = [s].
Proof.
  induction s as [|c s IH]; [done|]. cbn. intros [Hc Hs]%andb_true_iff. apply negb_true_iff in Hc.
  by rewrite Hc, IH.
Qed.

(** A [UnicodePrint] for concrete runs: no rune above ASCII is printable. Not an instance. *)
Definition no_rune : UnicodePrint := fun _ => false.
