(* ===== verification/Utf8.v ===== *)
(** * Valid UTF-8, and cutting it between characters

    A text is valid when decoding it rune by rune never yields the error rune of width one. *)
From Stdlib Require Import ZArith Lia Ascii String.
From S2P Require Import Prelude GoStrings.
Local Open Scope Z_scope.
Local Open Scope stdpp_scope.

(** [utf8.ValidString]; [skip] counts the bytes left of the rune being read. *)
Fixpoint valid_utf8_go (skip : nat) (s : string) : bool :=
  match s with
  | EmptyString => Nat.eqb skip 0
  | String c s' =>
      match skip with
      | S k => valid_utf8_go k s'
      | O =>
          let '(r, w) := DecodeRune s in
          if (r =? RuneError) && Nat.eqb w 1 then false else valid_utf8_go (w - 1) s'
      end
  end.
Definition valid_utf8 (s : string) : bool := valid_utf8_go 0 s.

(** [s] starts with [k] continuation bytes. *)
Fixpoint continues (k : nat) (s : string) : Prop :=
  match k, s with
  | O, _ => True
  | S k', String c s' => RuneStart c = false /\ continues k' s'
  | S _, EmptyString => False
  end.

Lemma RuneStart_cont n : 0x80 <= n <= 0xBF -> (Z.land n 0xC0 =? 0x80) = true.
Proof.
  intros Hn. assert (n = 0x80 + (n - 0x80)) as -> by lia. set (m := n - 0x80). assert (0 <= m < 64) as Hm by lia.
  assert (forallb (fun k => Z.land (0x80 + Z.of_nat k) 0xC0 =? 0x80) (seq 0 64) = true) as Hall by (vm_compute; reflexivity).
  rewrite forallb_forall in Hall. specialize (Hall (Z.to_nat m)).
  rewrite Z2Nat.id in Hall by lia. apply Hall. apply in_seq. lia.
Qed.

(** What a successful [cont] read: one continuation byte. *)
Lemma cont_Some lo hi s x rest :
  cont lo hi s = Some (x, rest) -> 0x80 <= lo -> hi <= 0xBF ->
  exists c, s = String c rest /\ RuneStart c = false /\ forall t, cont lo hi (String c t) = Some (x, t).
Proof.
  unfold cont. destruct s as [|c s]; [done|]. destruct ((lo <=? code c) && (code c <=? hi)) eqn:E; [|done].
  intros [= <- <-] Hlo Hhi. exists c. split; [done|]. split; [|intros t; by rewrite E].
  apply andb_true_iff in E as [E1 E2].
  unfold RuneStart. rewrite RuneStart_cont by lia. done.
Qed.

(** Two texts that agree on their first [k] bytes. *)
Definition agree (k : nat) (s t : string) : Prop :=
  (k <= String.length t)%nat /\ take_bytes k s = take_bytes k t.

Lemma agree_cons k c s t : agree (S k) (String c s) t -> exists t', t = String c t' /\ agree k s t'.
Proof.
  intros [Hl E]. destruct t as [|d t]; simpl in *; [lia|]. injection E as <- E. exists t. split; [done|].
  split; [lia|done].
Qed.

Ltac read_cont H :=
  let c := fresh "c" in let Hs := fresh "Hs" in let Hc := fresh "Hc" in
  apply cont_Some in H as (c & -> & Hs & Hc); [|repeat case_match; lia..].

(** A decoded rune is its first byte and [w - 1] continuation bytes, and depends on nothing else. *)
Lemma DecodeRune_width c s r w :
  DecodeRune (String c s) = (r, w) -> (r =? RuneError) && Nat.eqb w 1 = false ->
  exists k, w = S k /\ continues k s /\ forall t, agree k s t -> DecodeRune (String c t) = (r, w).
Proof.
  cbn [DecodeRune]. set (b := code c).
  destruct (b <? 0x80).
  { intros [= <- <-] _. by exists O. }
  destruct ((0xC2 <=? b) && (b <=? 0xDF)).
  { destruct (cont 0x80 0xBF s) as [[x s1]|] eqn:E1; [|by intros [= <- <-]].
    read_cont E1. intros [= <- <-] _. exists 1%nat. split; [done|]. split; [done|].
    intros t (t1 & -> & _)%agree_cons. by rewrite Hc. }
  destruct ((0xE0 <=? b) && (b <=? 0xEF)).
  { destruct (cont (if b =? 0xE0 then _ else _) _ s) as [[x s1]|] eqn:E1; [|by intros [= <- <-]].
    destruct (cont 0x80 0xBF s1) as [[y s2]|] eqn:E2; [|by intros [= <- <-]].
    read_cont E2. read_cont E1. intros [= <- <-] _. exists 2%nat. split; [done|]. split; [done|].
    intros t (t1 & -> & (t2 & -> & _)%agree_cons)%agree_cons. by rewrite Hc0, Hc. }
  destruct ((0xF0 <=? b) && (b <=? 0xF4)); [|by intros [= <- <-]].
  destruct (cont (if b =? 0xF0 then _ else _) _ s) as [[x s1]|] eqn:E1; [|by intros [= <- <-]].
  destruct (cont 0x80 0xBF s1) as [[y s2]|] eqn:E2; [|by intros [= <- <-]].
  destruct (cont 0x80 0xBF s2) as [[z s3]|] eqn:E3; [|by intros [= <- <-]].
  read_cont E3. read_cont E2. read_cont E1. intros [= <- <-] _. exists 3%nat. split; [done|]. split; [done|].
  intros t (t1 & -> & (t2 & -> & (t3 & -> & _)%agree_cons)%agree_cons)%agree_cons. by rewrite Hc1, Hc0, Hc.
Qed.

(** [cut] is at the end of [s] or at the first byte of a rune. *)
Definition boundary (cut : nat) (s : string) : Prop :=
  match drop_bytes cut s with EmptyString => (cut <= String.length s)%nat | String c _ => RuneStart c = true end.

Lemma boundary_continues k cut s : continues k s -> boundary cut s -> (k <= cut)%nat.
Proof.
  unfold boundary. revert k s. induction cut as [|cut IH]; intros [|k] s; simpl; try lia.
  - destruct s as [|c s]; [done|]. intros [H1 _] H2. congruence.
  - destruct s as [|c s]; [done|]. simpl. intros [_ Hk] Hb. apply le_n_S, (IH k s Hk).
    destruct (drop_bytes cut s); [lia|done].
Qed.

Lemma take_bytes_agree k cut s t :
  (k <= cut)%nat -> (cut <= String.length s)%nat -> agree k s (take_bytes cut s +:+ t).
Proof.
  intros Hk Hc. split; [rewrite length_append, length_take_bytes; lia|].
  revert k s Hk Hc. induction cut as [|cut IH]; intros [|k] s Hk Hc; try done; try lia.
  destruct s as [|c s]; [simpl in Hc; lia|]. simpl in *. f_equal. apply IH; lia.
Qed.

(** Cutting valid text at a boundary leaves valid text, and appending to it is appending runes. *)
Lemma valid_utf8_cut cut : forall k s t,
  valid_utf8_go k s = true -> continues k s -> boundary cut s -> (cut <= String.length s)%nat ->
  valid_utf8_go k (take_bytes cut s +:+ t) = valid_utf8 t.
Proof.
  induction cut as [|cut IH]; intros k s t Hv Hk Hb Hl.
  - pose proof (boundary_continues k 0 s Hk Hb). assert (k = O) as -> by lia. by destruct s.
  - destruct s as [|c s]; [simpl in Hl; lia|]. change (take_bytes (S cut) (String c s)) with (String c (take_bytes cut s)).
    assert (boundary cut s) as Hb'.
    { unfold boundary in *. simpl in Hb. destruct (drop_bytes cut s); [simpl in Hl; lia|done]. }
    destruct k as [|k].
    + cbn [valid_utf8_go] in Hv. destruct (DecodeRune (String c s)) as [r w] eqn:E.
      destruct ((r =? RuneError) && Nat.eqb w 1) eqn:Hbad; [done|].
      destruct (DecodeRune_width c s r w E Hbad) as (j & -> & Hj & Hsame).
      pose proof (boundary_continues j cut s Hj Hb') as Hjc. simpl in Hl.
      change (String c (take_bytes cut s) +:+ t) with (String c (take_bytes cut s +:+ t)).
      cbn [valid_utf8_go]. rewrite (Hsame _ (take_bytes_agree j cut s t Hjc ltac:(lia))), Hbad.
      replace (S j - 1)%nat with j in * by lia. apply IH; try done. lia.
    + destruct Hk as [_ Hk]. simpl in *. apply IH; try done. lia.
Qed.

Lemma valid_utf8_truncate cut s t :
  valid_utf8 s = true -> boundary cut s -> (cut <= String.length s)%nat ->
  valid_utf8 (take_bytes cut s +:+ t) = valid_utf8 t.
Proof. intros Hv Hb Hl. by apply valid_utf8_cut. Qed.

(** *** Text made of valid pieces

    The hint database [utf8] proves the texts the builders print valid from the claim's own. *)
Create HintDb utf8 discriminated.

Lemma boundary_end s : boundary (String.length s) s.
Proof. unfold boundary. pose proof (drop_append s EmptyString) as E. rewrite append_nil_r in E. by rewrite E. Qed.

Lemma valid_utf8_append s t : valid_utf8 s = true -> valid_utf8 t = true -> valid_utf8 (s +:+ t) = true.
Proof.
  intros Hs Ht. rewrite <- (take_append s EmptyString), append_nil_r, valid_utf8_truncate by (done || apply boundary_end).
  done.
Qed.

Lemma valid_utf8_Sprintf parts : Forall (fun s => valid_utf8 s = true) parts -> valid_utf8 (Sprintf parts) = true.
Proof. induction 1 as [|s parts Hs _ IH]; [done|]. by apply valid_utf8_append. Qed.

Lemma valid_utf8_Join xs sep :
  Forall (fun s => valid_utf8 s = true) xs -> valid_utf8 sep = true -> valid_utf8 (Join xs sep) = true.
Proof.
  intros Hxs Hs. induction Hxs as [|x xs Hx Hxs IH]; [done|]. destruct xs; [done|].
  change (Join (x :: s :: xs) sep) with (x +:+ sep +:+ Join (s :: xs) sep). by do 2 (apply valid_utf8_append; [done|]).
Qed.

(** ASCII text is valid, byte by byte. *)
Definition ascii_text (s : string) : bool := forallb (fun c => code c <? 0x80) (list_ascii_of_string s).

Lemma valid_utf8_byte c : (code c <? 0x80) = true -> valid_utf8 (String c EmptyString) = true.
Proof. intros Hc. unfold valid_utf8. cbn [valid_utf8_go DecodeRune]. rewrite Hc. by rewrite andb_false_intro1 by (unfold RuneError; lia). Qed.

Lemma ascii_valid s : ascii_text s = true -> valid_utf8 s = true.
Proof.
  unfold ascii_text. induction s as [|c s IH]; [done|]. simpl. intros [Hc Hs]%andb_true_iff.
  apply (valid_utf8_append (String c EmptyString)); [by apply valid_utf8_byte|by apply IH].
Qed.

Lemma digits_ascii s : all_digits s = true -> ascii_text s = true.
Proof.
  apply forallb_impl. intros c Hc%is_digit_code. lia.
Qed.

Lemma ascii_append s t : ascii_text (s +:+ t) = ascii_text s && ascii_text t.
Proof. unfold ascii_text. induction s as [|c s IH]; [done|]. simpl. by rewrite IH, andb_assoc. Qed.

Lemma hex_fixed_ascii k n : ascii_text (hex_fixed k n) = true.
Proof.
  revert n. induction k as [|k IH]; intros n; [done|]. cbn [hex_fixed]. rewrite ascii_append, IH.
  unfold ascii_text, hex_digit. simpl. rewrite andb_true_r. pose proof (Z.mod_pos_bound n 16 ltac:(lia)).
  case_match; rewrite code_byte_of by lia; lia.
Qed.

Lemma take_bytes_ascii n s : ascii_text s = true -> ascii_text (take_bytes n s) = true.
Proof.
  revert s. induction n as [|n IH]; intros [|c s] Hs; try done. unfold ascii_text in *. simpl in *.
  apply andb_true_iff in Hs as [-> Hs]. by rewrite IH.
Qed.

Lemma take_bytes_twice k s : take_bytes k (take_bytes k s) = take_bytes k s.
Proof. revert s. induction k as [|k IH]; intros [|c s]; simpl; [done..|]. by rewrite IH. Qed.

Lemma continues_length k s : continues k s -> (k <= String.length s)%nat.
Proof. revert s. induction k as [|k IH]; intros [|c s]; simpl; try (done || lia). intros [_ Hk%IH]. lia. Qed.

(** A whole rune is valid text. *)
Lemma valid_continues k s : continues k s -> valid_utf8_go k (take_bytes k s) = true.
Proof. revert s. induction k as [|k IH]; intros [|c s]; simpl; try done. intros [_ H]. by apply IH. Qed.

Lemma rune_valid c s r w :
  DecodeRune (String c s) = (r, w) -> (r =? RuneError) && Nat.eqb w 1 = false ->
  valid_utf8 (take_bytes w (String c s)) = true.
Proof.
  intros E Hbad. destruct (DecodeRune_width c s r w E Hbad) as (k & -> & Hk & Hsame).
  change (take_bytes (S k) (String c s)) with (String c (take_bytes k s)). unfold valid_utf8. cbn [valid_utf8_go].
  rewrite (Hsame (take_bytes k s)), Hbad.
  - replace (S k - 1)%nat with k by lia. by apply valid_continues.
  - split; [|by rewrite take_bytes_twice]. by rewrite length_take_bytes by (by apply continues_length).
Qed.

(** Whatever the text, what [%q] prints is valid. *)
Lemma Quote_valid `{UnicodePrint} s : valid_utf8 (Quote s) = true.
Proof.
  unfold Quote. apply valid_utf8_append; [done|]. apply valid_utf8_append; [|done].
  generalize O as k. induction s as [|c s IH]; intros k; [done|]. destruct k as [|k]; [|apply IH].
  cbn [quote_body]. destruct (DecodeRune (String c s)) as [r w] eqn:E. rewrite andb_comm.
  destruct ((r =? RuneError) && Nat.eqb w 1) eqn:Hbad.
  - do 2 (apply valid_utf8_append; [done|]). apply valid_utf8_append; [apply ascii_valid, hex_fixed_ascii|apply IH].
  - apply valid_utf8_append; [|apply IH]. pose proof (rune_valid c s r w E Hbad) as Hr. unfold escape_rune.
    repeat case_match; try done; repeat (apply valid_utf8_append; [done|]); done || apply ascii_valid, hex_fixed_ascii.
Qed.
#[export] Hint Resolve valid_utf8_append valid_utf8_Sprintf valid_utf8_Join ascii_valid hex_fixed_ascii Quote_valid : utf8.
