(* ===== verification/GoStrconv.v ===== *)
(** * Go's [strconv] on float64: formatting and parsing

    [FormatFloat] with the formats the program uses: ['f'] with a fixed precision, ['f'] and ['g']
    with the shortest precision ([-1]); and [ParseFloat]. Everything is computed on the exact
    rational value of the float, so there is no intermediate rounding to account for. *)
From Stdlib Require Import ZArith Lia Ascii String SpecFloat.
From S2P Require Import Prelude Rounding GoFloat GoStrings.
Local Open Scope Z_scope.
Local Open Scope stdpp_scope.

(** [num/den] rounded to the nearest integer, ties to even. *)
Definition div_half_even (num den : Z) : Z :=
  let q := num / den in
  let r := num mod den in
  match (2 * r ?= den) with
  | Lt => q
  | Gt => q + 1
  | Eq => if Z.even q then q else q + 1
  end.

(** The exact value [m * 2^e] as a fraction. *)
Definition exact_num (m : positive) (e : Z) : Z := Zpos m * 2 ^ Z.max e 0.
Definition exact_den (e : Z) : Z := 2 ^ Z.max (- e) 0.

Definition sign_text (s : bool) : string := if s then "-" else EmptyString.

(** [n / 10^places] written with exactly [places] decimals. *)
Definition fixed_text (n : Z) (places : nat) : string :=
  match places with
  | O => dec n
  | S _ => dec (n / 10 ^ Z.of_nat places) +:+ "." +:+ digits_fixed places (n mod 10 ^ Z.of_nat places)
  end.

(** [strconv.FormatFloat(x, 'f', places, 64)] *)
Definition FormatFixed (x : float64) (places : nat) : string :=
  match x with
  | S754_nan => "NaN"
  | S754_infinity false => "+Inf"
  | S754_infinity true => "-Inf"
  | S754_zero s => sign_text s +:+ fixed_text 0 places
  | S754_finite s m e =>
      sign_text s +:+
      fixed_text (div_half_even (exact_num m e * 10 ^ Z.of_nat places) (exact_den e)) places
  end.

(** ** Shortest decimals

    [decimal_point num den] is the [k] with [10^(k-1) <= num/den < 10^k]. *)
Fixpoint count_up (fuel : nat) (num den : Z) : Z :=
  match fuel with
  | O => 0
  | S fuel' => if den <=? num then 1 else count_up fuel' (num * 10) den - 1
  end.
Definition decimal_point (num den : Z) : Z :=
  if den <=? num then Z.of_nat (num_digits (num / den)) else count_up 400 num den.

(** [n * 10^u] for a possibly negative [u], as the nearest float. *)
Definition float_of_decimal (n u : Z) : float64 :=
  match n * 10 ^ Z.max u 0, 10 ^ Z.max (- u) 0 with
  | Zpos num, Zpos den => float_of_quot false num den
  | _, _ => fzero
  end.

(** Drop factors of ten of the digits. *)
Fixpoint strip_zeros (fuel : nat) (n u : Z) : Z * Z :=
  match fuel with
  | O => (n, u)
  | S fuel' => if n mod 10 =? 0 then strip_zeros fuel' (n / 10) (u + 1) else (n, u)
  end.

(** Try [1, 2, ...] significant digits: of the two neighbouring decimals with that many digits,
    one that reads back as [x], the nearer one when both do. *)
Fixpoint shortest_go (fuel digits : nat) (x : float64) (num den k : Z) : Z * Z :=
  let u := k - Z.of_nat digits in
  let snum := num * 10 ^ Z.max (- u) 0 in
  let sden := den * 10 ^ Z.max u 0 in
  let lo := snum / sden in
  let hi := if snum mod sden =? 0 then lo else lo + 1 in
  let oklo := SFeqb (float_of_decimal lo u) x in
  let okhi := SFeqb (float_of_decimal hi u) x in
  let pick := if oklo && okhi then Some (div_half_even snum sden)
              else if oklo then Some lo
              else if okhi then Some hi else None in
  match pick, fuel with
  | Some n, _ => strip_zeros (S digits) n u
  | None, S fuel' => shortest_go fuel' (S digits) x num den k
  | None, O => (div_half_even snum sden, u)
  end.

(** The shortest decimal [n * 10^u] that reads back as the positive float [m * 2^e]. 17 digits
    always do. *)
Definition shortest (m : positive) (e : Z) : Z * Z :=
  let num := exact_num m e in
  let den := exact_den e in
  shortest_go 17 1 (S754_finite false m e) num den (decimal_point num den).

Definition plain_decimal (n u : Z) : string :=
  if 0 <=? u then dec (n * 10 ^ u) else fixed_text n (Z.to_nat (- u)).

(** [strconv.FormatFloat(x, 'f', -1, 64)] *)
Definition FormatShortest (x : float64) : string :=
  match x with
  | S754_nan => "NaN"
  | S754_infinity false => "+Inf"
  | S754_infinity true => "-Inf"
  | S754_zero s => sign_text s +:+ "0"
  | S754_finite s m e => let '(n, u) := shortest m e in sign_text s +:+ plain_decimal n u
  end.

(** The [%g] and [%v] verbs, [strconv.FormatFloat(x, 'g', -1, 64)]: the shortest digits, with an
    exponent when it is below -4 or at least 6. *)
Definition exponent_text (e : Z) : string :=
  let a := Z.abs e in
  (if e <? 0 then "-" else "+") +:+ (if a <? 10 then "0" else EmptyString) +:+ dec a.

Definition scientific (n u : Z) : string :=
  let ds := dec n in
  let e := u + len ds - 1 in
  match ds with
  | String c EmptyString => ds +:+ "e" +:+ exponent_text e
  | String c rest => String c EmptyString +:+ "." +:+ rest +:+ "e" +:+ exponent_text e
  | EmptyString => EmptyString
  end.

Definition FormatG (x : float64) : string :=
  match x with
  | S754_nan => "NaN"
  | S754_infinity false => "+Inf"
  | S754_infinity true => "-Inf"
  | S754_zero s => sign_text s +:+ "0"
  | S754_finite s m e =>
      let '(n, u) := shortest m e in
      let exp := u + len (dec n) - 1 in
      sign_text s +:+ (if (exp <? -4) || (6 <=? exp) then scientific n u else plain_decimal n u)
  end.

(** ** Parsing

    [strconv.ParseFloat(s, 64)]: decimal and hexadecimal floats with underscores where Go allows
    them, and the special values. [None] is any non-nil error, the range error of an overflow
    included. *)
Definition lower (c : ascii) : Z := Z.lor (code c) 32.

Definition hex_value (c : ascii) : option Z :=
  if is_digit c then Some (code c - 48)
  else if (97 <=? lower c) && (lower c <=? 102) then Some (lower c - 87) else None.

Fixpoint common_prefix_fold (s t : string) : nat :=
  match s, t with
  | String c s', String d t' => if lower c =? code d then S (common_prefix_fold s' t') else O
  | _, _ => O
  end.

(** [strconv.special]: the value and how many bytes it took. *)
Definition special (s : string) : option (float64 * nat) :=
  let inf_at (neg : bool) (nsign : nat) (t : string) :=
    let n := common_prefix_fold t "infinity" in
    let n := if (3 <? n)%nat && (n <? 8)%nat then 3%nat else n in
    if Nat.eqb n 3 || Nat.eqb n 8 then Some (S754_infinity neg, nsign + n)%nat else None in
  match s with
  | EmptyString => None
  | String c t =>
      if code c =? 43 then inf_at false 1%nat t
      else if code c =? 45 then inf_at true 1%nat t
      else if lower c =? 105 then inf_at false 0%nat s
      else if lower c =? 110 then
        if Nat.eqb (common_prefix_fold s "nan") 3 then Some (S754_nan, 3%nat) else None
      else None
  end.

(** [strconv.underscoreOK]: underscores only between digits, or between a base prefix and a
    digit. [prev] is the class of the previous byte: [48] a digit,
    [95] an underscore, [94] the start, [33] anything else. *)
Fixpoint underscores_go (hex : bool) (prev : Z) (s : string) : bool :=
  match s with
  | EmptyString => negb (prev =? 95)
  | String c s' =>
      if is_digit c || (hex && (97 <=? lower c) && (lower c <=? 102)) then underscores_go hex 48 s'
      else if code c =? 95 then if prev =? 48 then underscores_go hex 95 s' else false
      else if prev =? 95 then false else underscores_go hex 33 s'
  end.

Definition strip_sign (s : string) : bool * string :=
  match s with
  | String c t => if code c =? 45 then (true, t) else if code c =? 43 then (false, t) else (false, s)
  | EmptyString => (false, s)
  end.

Definition underscoreOK (s : string) : bool :=
  let '(_, t) := strip_sign s in
  match t with
  | String z (String b t') =>
      if (code z =? 48) && ((lower b =? 98) || (lower b =? 111) || (lower b =? 120))
      then underscores_go (lower b =? 120) 48 t'
      else underscores_go false 94 t
  | _ => underscores_go false 94 t
  end.

(** The mantissa loop of [strconv.readFloat]: the digits read as one integer, how many of them
    follow the dot, and what is left. *)
Record mantissa := { mant_value : Z; mant_frac : Z; mant_digits : bool; mant_dot : bool;
                     mant_under : bool; mant_rest : string }.

Fixpoint read_mantissa (hex : bool) (acc frac : Z) (digits dot under : bool) (s : string) : mantissa :=
  let stop := {| mant_value := acc; mant_frac := frac; mant_digits := digits; mant_dot := dot;
                 mant_under := under; mant_rest := s |} in
  match s with
  | EmptyString => stop
  | String c s' =>
      if code c =? 95 then read_mantissa hex acc frac digits dot true s'
      else if code c =? 46 then if dot then stop else read_mantissa hex acc frac digits true under s'
      else
        match (if hex then hex_value c else if is_digit c then Some (code c - 48) else None) with
        | Some d => read_mantissa hex ((if hex then 16 else 10) * acc + d)
                                  (if dot then frac + 1 else frac) true dot under s'
        | None => stop
        end
  end.

(** The exponent digits: once past 10000 further digits are ignored, as in the source. *)
Fixpoint read_exponent (e : Z) (under : bool) (s : string) : Z * bool * string :=
  match s with
  | String c s' =>
      if is_digit c then read_exponent (if e <? 10000 then 10 * e + (code c - 48) else e) under s'
      else if code c =? 95 then read_exponent e true s'
      else (e, under, s)
  | EmptyString => (e, under, s)
  end.

(** [n * base^x], rounded, with the sign put on; [None] for a range error. *)
Definition scale_float (neg hex : bool) (n x : Z) : option float64 :=
  let base := if hex then 2 else 10 in
  match n * base ^ Z.max x 0, base ^ Z.max (- x) 0 with
  | Zpos num, Zpos den =>
      let f := float_of_quot neg num den in
      if is_inf f then None else Some f
  | _, _ => Some (S754_zero neg)
  end.

Definition readFloat (s : string) : option float64 :=
  let '(neg, t) := strip_sign s in
  let '(hex, t) :=
    match t with
    | String z (String x (String _ _ as t')) =>
        if (code z =? 48) && (lower x =? 120) then
          match t with String _ (String _ r) => (true, r) | _ => (false, t) end
        else (false, t)
    | _ => (false, t)
    end in
  let m := read_mantissa hex 0 0 false false false t in
  if negb (mant_digits m) then None
  else
    let finish (e : Z) (under : bool) (rest : string) :=
      match rest with
      | EmptyString =>
          if (mant_under m || under) && negb (underscoreOK s) then None
          else scale_float neg hex (mant_value m) (e - (if hex then 4 else 1) * mant_frac m)
      | _ => None
      end in
    match mant_rest m with
    | String c r =>
        if lower c =? (if hex then 112 else 101) then
          let '(eneg, ds) := strip_sign r in
          match ds with
          | String d _ =>
              if is_digit d then
                let '(e, under, rest) := read_exponent 0 false ds in
                finish (if eneg then - e else e) under rest
              else None
          | EmptyString => None
          end
        else None
    | EmptyString => if hex then None else finish 0 false EmptyString
    end.

Definition ParseFloat (s : string) : option float64 :=
  match special s with
  | Some (f, n) => if Nat.eqb n (String.length s) then Some f else None
  | None => readFloat s
  end.
