(* ===== verification/GoFlag.v ===== *)
(** * Command lines: the [flag] package

    [flag.Parse] on the command line's default set, which exits on an error. A set is a function
    from flag names to the kind of their value. *)
From Stdlib Require Import ZArith Lia Ascii String.
From S2P Require Import Prelude GoStrings GoStrconv.
Local Open Scope Z_scope.
Local Open Scope stdpp_scope.

(** ** Definitions *)

(** [strconv.ParseBool]; [None] is its syntax error. *)
Definition ParseBool (s : string) : option bool :=
  if existsb (String.eqb s) ["1"; "t"; "T"; "true"; "TRUE"; "True"] then Some true
  else if existsb (String.eqb s) ["0"; "f"; "F"; "false"; "FALSE"; "False"] then Some false
  else None.

(** The digits of [strconv.ParseInt(s, 0, 64)] after the sign and the prefix; underscores are
    skipped, and checked apart. *)
Fixpoint parse_digits (base n : Z) (s : string) : option Z :=
  match s with
  | EmptyString => Some n
  | String c s' =>
      if code c =? 95 then parse_digits base n s'
      else
        let d := if is_digit c then code c - 48
                 else if (97 <=? lower c) && (lower c <=? 122) then lower c - 87 else 36 in
        if d <? base then parse_digits base (n * base + d) s' else None
  end.

Definition base_prefix (s : string) : Z * string :=
  match s with
  | String z rest =>
      if code z =? 48 then
        match rest with
        | String b (String _ _ as digits) =>
            if lower b =? 98 then (2, digits) else if lower b =? 111 then (8, digits)
            else if lower b =? 120 then (16, digits) else (8, rest)
        | _ => (8, rest)
        end
      else (10, s)
  | EmptyString => (10, s)
  end.

(** [None] is a syntax or a range error. *)
Definition ParseInt (s : string) : option Z :=
  if String.eqb s "" then None
  else
    let '(neg, t) := strip_sign s in
    if String.eqb t "" then None
    else
      let '(base, digits) := base_prefix t in
      match parse_digits base 0 digits with
      | None => None
      | Some n =>
          if Contains t "_" && negb (underscoreOK t) then None
          else
            let n := if neg : bool then - n else n in
            if (min_int64 <=? n) && (n <=? max_int64) then Some n else None
      end.

(** A flag of the program, or one a library added: whether it is boolean, and what it accepts. *)
Inductive flag_kind :=
  | StringFlag
  | BoolFlag
  | IntFlag
  | LibraryFlag (boolean : bool) (accepts : string -> bool).

Definition is_bool_flag (k : flag_kind) : bool :=
  match k with BoolFlag => true | LibraryFlag b _ => b | _ => false end.

(** [flag.Value.Set] *)
Definition accepts_value (k : flag_kind) (value : string) : bool :=
  match k with
  | StringFlag => true
  | BoolFlag => match ParseBool value with Some _ => true | None => false end
  | IntFlag => match ParseInt value with Some _ => true | None => false end
  | LibraryFlag _ accepts => accepts value
  end.

(** A flag's name and its value, when there is an equals sign after the first byte. *)
Fixpoint cut_equals (s : string) : string * option string :=
  match s with
  | EmptyString => (EmptyString, None)
  | String c s' =>
      if code c =? 61 then (EmptyString, Some s')
      else let '(name, value) := cut_equals s' in (String c name, value)
  end.

(** How parsing ended: the assignments in order and the arguments left, or an exit. *)
Inductive parsed :=
  | Flags (settings : list (string * string)) (args : list string)
  | HelpRequested
  | Malformed.

(** The name in an argument that is a flag; [None] for one that is not, [Some ""] for "--". *)
Definition flag_name (s : string) : option string :=
  match s with
  | String c (String d rest) =>
      if code c =? 45 then if code d =? 45 then Some rest else Some (String d rest) else None
  | _ => None
  end.

(** [FlagSet.Parse]: each round of [parseOne] takes one or two arguments. *)
Fixpoint parse_args (formal : string -> option flag_kind) (settings : list (string * string)) (args : list string) : parsed :=
  match args with
  | [] => Flags settings []
  | s :: rest =>
      match flag_name s with
      | None => Flags settings args
      | Some "" => Flags settings rest
      | Some (String c _ as text) =>
          if (code c =? 45) || (code c =? 61) then Malformed
          else
            let '(name, value) := cut_equals text in
            match formal name with
            | None => if String.eqb name "help" || String.eqb name "h" then HelpRequested else Malformed
            | Some kind =>
                let set value rest :=
                  if accepts_value kind value then parse_args formal (settings ++ [(name, value)]) rest else Malformed in
                match value with
                | Some value => set value rest
                | None =>
                    if is_bool_flag kind then set "true" rest
                    else match rest with
                         | [] => Malformed
                         | value :: rest' =>
                             if accepts_value kind value then parse_args formal (settings ++ [(name, value)]) rest' else Malformed
                         end
                end
            end
      end
  end.

Definition Parse (formal : string -> option flag_kind) (args : list string) : parsed := parse_args formal [] args.

(** A flag's value: its last assignment, or its default. *)
Definition assigned (settings : list (string * string)) (name : string) : option string :=
  List.find (fun kv => String.eqb kv.1 name) (rev settings) ≫= fun kv => Some kv.2.
Definition string_value (settings : list (string * string)) (name default_ : string) : string :=
  default default_ (assigned settings name).
Definition bool_value (settings : list (string * string)) (name : string) (default_ : bool) : bool :=
  default default_ (assigned settings name ≫= ParseBool).
Definition int_value (settings : list (string * string)) (name : string) (default_ : Z) : Z :=
  default default_ (assigned settings name ≫= ParseInt).

(** ** Lemmas *)

(** Every assignment that parsing returns was accepted by its flag. *)
Lemma parse_args_accepted formal : forall args settings settings' rest,
  parse_args formal settings args = Flags settings' rest ->
  Forall (fun kv => exists k, formal kv.1 = Some k /\ accepts_value k kv.2 = true) settings ->
  Forall (fun kv => exists k, formal kv.1 = Some k /\ accepts_value k kv.2 = true) settings'.
Proof.
  intros args. remember (length args) as n eqn:Hn. revert args Hn.
  induction n as [n IH] using lt_wf_ind. intros [|s args] -> settings settings' rest; cbn [parse_args].
  - by intros [= <- <-].
  - intros H Hs. assert (forall name value args', (length args' <= length args)%nat ->
      (exists k, formal name = Some k /\ accepts_value k value = true) ->
      parse_args formal (settings ++ [(name, value)]) args' = Flags settings' rest ->
      Forall (fun kv => exists k, formal kv.1 = Some k /\ accepts_value k kv.2 = true) settings') as Hset.
    { intros name value args' Hl Hk Hp. eapply IH; [|reflexivity|exact Hp|].
      - cbn. lia.
      - apply Forall_app. split; [done|by apply Forall_singleton]. }
    repeat case_match; simplify_eq; try done; (eapply Hset; [|by eauto|eassumption]); cbn; lia.
Qed.
