(* ===== verification/GoUrl.v ===== *)
(** * URLs: the package [net/url]

    [url.Parse], [URL.String] and what they are made of, on bytes. Two rules about hosts changed
    between releases of Go and are a parameter, [HostRules]: which schemes' hosts may have several
    colons, and which bracketed addresses are IP literals. *)
From Stdlib Require Import ZArith Lia Ascii String.
From S2P Require Import Prelude GoStrings GoStrconv.
Local Open Scope Z_scope.
Local Open Scope stdpp_scope.

(** ** Definitions *)

(** [strings.Cut] at a separator of one byte: what is before the first one, and what is after it. *)
Fixpoint cut (sep : ascii) (s : string) : string * option string :=
  match s with
  | EmptyString => (EmptyString, None)
  | String c s' =>
      if Ascii.eqb c sep then (EmptyString, Some s')
      else let '(before, after) := cut sep s' in (String c before, after)
  end.

(** A text around the last [sep] in it ([strings.LastIndex]). *)
Fixpoint cut_last (sep : ascii) (s : string) : option (string * string) :=
  match s with
  | EmptyString => None
  | String c s' =>
      match cut_last sep s' with
      | Some (before, after) => Some (String c before, after)
      | None => if Ascii.eqb c sep then Some (EmptyString, s') else None
      end
  end.

Definition all_bytes (P : ascii -> bool) (s : string) : bool := forallb P (list_ascii_of_string s).
Definition free (sep : ascii) (s : string) : bool := all_bytes (fun c => negb (Ascii.eqb c sep)) s.

Definition is_letter (c : ascii) : bool :=
  ((65 <=? code c) && (code c <=? 90)) || ((97 <=? code c) && (code c <=? 122)).

(** [strings.ToLower] of a scheme, which is ASCII. *)
Fixpoint ToLower (s : string) : string :=
  match s with
  | EmptyString => EmptyString
  | String c s' => String (if (65 <=? code c) && (code c <=? 90) then byte_of (code c + 32) else c) (ToLower s')
  end.

(** *** Escapes *)

Inductive encoding := encodePath | encodeHost | encodeZone | encodeUserPassword | encodeFragment.

Definition in_host (mode : encoding) : bool := match mode with encodeHost | encodeZone => true | _ => false end.

Definition shouldEscape (mode : encoding) (c : ascii) : bool :=
  if is_letter c || is_digit c then false
  else if in_host mode && in_cutset ("!$&'()*+,;=:[]<>" +:+ dquote) c then false
  else if in_cutset "-_.~" c then false
  else if in_cutset "$&+,/:;=?@" c && negb (in_host mode) then
    match mode with
    | encodePath => Ascii.eqb c "?"
    | encodeUserPassword => in_cutset "@/?:" c
    | _ => false
    end
  else negb (match mode with encodeFragment => in_cutset "!()*" c | _ => false end).

(** The bytes that may not be written as an escape: in a host only those outside ASCII and the
    percent sign may. *)
Definition forbidden (mode : encoding) (c : ascii) : bool :=
  match mode with
  | encodeHost => (code c <? 0x80) && negb (Ascii.eqb c "%")
  | encodeZone => negb (Ascii.eqb c "%") && negb (Ascii.eqb c " ") && shouldEscape encodeHost c
  | _ => false
  end.
(** The bytes that may not be written as they are. *)
Definition invalid (mode : encoding) (c : ascii) : bool := in_host mode && (code c <? 0x80) && shouldEscape mode c.

Fixpoint unescape (mode : encoding) (s : string) : option string :=
  match s with
  | EmptyString => Some EmptyString
  | String c s' =>
      if Ascii.eqb c "%" then
        match s' with
        | String h (String l t) =>
            match hex_value h, hex_value l with
            | Some a, Some b =>
                if forbidden mode (byte_of (16 * a + b)) then None else String (byte_of (16 * a + b)) <$> unescape mode t
            | _, _ => None
            end
        | _ => None
        end
      else if invalid mode c then None
      else String c <$> unescape mode s'
  end.

Definition upper_hex (d : Z) : ascii := if d <? 10 then byte_of (48 + d) else byte_of (55 + d).
Definition percent (c : ascii) : string :=
  String "%" (String (upper_hex (code c / 16)) (String (upper_hex (code c mod 16)) EmptyString)).

Fixpoint escape (mode : encoding) (s : string) : string :=
  match s with
  | EmptyString => EmptyString
  | String c s' => (if shouldEscape mode c then percent c else String c EmptyString) +:+ escape mode s'
  end.

Definition validEncoded (mode : encoding) (s : string) : bool :=
  all_bytes (fun c => in_cutset "!$&'()*+,;=:@[]%" c || negb (shouldEscape mode c)) s.

(** *** Parsing *)

Record Userinfo := mkUserinfo { username : string; password : option string }.

Record URL := mkURL {
  Scheme : string;
  Opaque : string;
  User : option Userinfo;
  Host : string;
  Path : string;
  RawPath : string;
  OmitHost : bool;
  ForceQuery : bool;
  RawQuery : string;
  Fragment : string;
  RawFragment : string
}.

Class HostRules := {
  several_colons : string -> bool;          (* by the scheme *)
  ip_literal : string -> string -> bool     (* the host as written, and the address in it, unescaped *)
}.

(** A scheme and the rest; no scheme is an empty one, and [None] an error. *)
Fixpoint find_scheme (s : string) : option (string * string) :=
  match s with
  | EmptyString => None
  | String c s' =>
      if is_letter c || is_digit c || in_cutset "+-." c then '(scheme, rest) ← find_scheme s'; Some (String c scheme, rest)
      else if Ascii.eqb c ":" then Some (EmptyString, s')
      else None
  end.
Definition getScheme (s : string) : option (string * string) :=
  match s with
  | EmptyString => Some (EmptyString, EmptyString)
  | String c _ =>
      if Ascii.eqb c ":" then None
      else if is_letter c then Some (default (EmptyString, s) (find_scheme s))
      else Some (EmptyString, s)
  end.

Definition validUserinfo (s : string) : bool :=
  all_bytes (fun c => is_letter c || is_digit c || in_cutset "-._:~!$&'()*+,;=%@" c) s.

(** [validOptionalPort] of a colon and this. *)
Definition valid_port (s : string) : bool := all_bytes is_digit s.

(** The zone of an address starts at an escaped percent sign. *)
Fixpoint cut_zone (s : string) : string * string :=
  match s with
  | EmptyString => (EmptyString, EmptyString)
  | String c s' => if HasPrefix s "%25" then (EmptyString, s) else let '(a, z) := cut_zone s' in (String c a, z)
  end.

Section hosts.
Context `{HostRules}.

Definition parse_ip_literal (host : string) : option string :=
  '(before, colonPort) ← cut_last "]" host;
  '(_, hostname) ← cut_last "[" before;
  if match colonPort with EmptyString => true | String c port => Ascii.eqb c ":" && valid_port port end then
    let '(address, zone) := cut_zone hostname in
    address ← unescape encodeHost address;
    zone ← unescape encodeZone zone;
    port ← unescape encodeHost colonPort;
    if ip_literal host (address +:+ zone) then Some ("[" +:+ (address +:+ zone) +:+ "]" +:+ port) else None
  else None.

Definition parseHost (scheme host : string) : option string :=
  if negb (free "[" host) then parse_ip_literal host
  else match cut_last ":" host with
       | Some (before, port) =>
           if valid_port port && (free ":" before || several_colons scheme) then unescape encodeHost host else None
       | None => unescape encodeHost host
       end.

Definition parseUserinfo (s : string) : option Userinfo :=
  if validUserinfo s then
    match cut ":" s with
    | (_, None) => name ← unescape encodeUserPassword s; Some (mkUserinfo name None)
    | (name, Some pass) =>
        name ← unescape encodeUserPassword name; pass ← unescape encodeUserPassword pass; Some (mkUserinfo name (Some pass))
    end
  else None.

Definition parseAuthority (scheme authority : string) : option (option Userinfo * string) :=
  match cut_last "@" authority with
  | None => host ← parseHost scheme authority; Some (None, host)
  | Some (userinfo, host) => host ← parseHost scheme host; user ← parseUserinfo userinfo; Some (Some user, host)
  end.

(** A decoded text, with the text as written where that is not how it is encoded. *)
Definition decoded (mode : encoding) (s : string) : option (string * string) :=
  x ← unescape mode s; Some (x, if String.eqb s (escape mode x) then EmptyString else s).

Definition is_control (c : ascii) : bool := (code c <? 0x20) || (code c =? 0x7F).

(** A text and what is after its first [/], that one included. *)
Definition cut_path (s : string) : string * string :=
  match cut "/" s with (a, Some p) => (a, "/" +:+ p) | (a, None) => (a, EmptyString) end.

(** [parse(rawURL, false)] *)
Definition parse (s : string) : option URL :=
  if negb (all_bytes (fun c => negb (is_control c)) s) then None
  else if String.eqb s "*" then Some (mkURL "" "" None "" "*" "" false false "" "" "")
  else
    '(scheme, rest) ← getScheme s;
    let scheme := ToLower scheme in
    let '(rest, query) := cut "?" rest in
    let force := match query with Some EmptyString => true | _ => false end in
    let query := default EmptyString query in
    if negb (HasPrefix rest "/") && negb (String.eqb scheme "") then
      Some (mkURL scheme rest None "" "" "" false force query "" "")
    else if negb (HasPrefix rest "/") && negb (free ":" (fst (cut "/" rest))) then None
    else if (negb (String.eqb scheme "") || negb (HasPrefix rest "///")) && HasPrefix rest "//" then
      let '(authority, path) := cut_path (drop_bytes 2 rest) in
      '(user, host) ← parseAuthority scheme authority;
      '(path, raw) ← decoded encodePath path;
      Some (mkURL scheme "" user host path raw false force query "" "")
    else
      '(path, raw) ← decoded encodePath rest;
      Some (mkURL scheme "" None "" path raw (negb (String.eqb scheme "") && HasPrefix rest "/") force query "" "").

Definition Parse (rawURL : string) : option URL :=
  let '(u, frag) := cut "#" rawURL in
  url ← parse u;
  '(f, raw) ← decoded encodeFragment (default EmptyString frag);
  Some (mkURL (Scheme url) (Opaque url) (User url) (Host url) (Path url) (RawPath url) (OmitHost url)
    (ForceQuery url) (RawQuery url) f raw).
End hosts.

(** *** Writing *)

(** The text as written, if it is a valid encoding of this. *)
Definition as_written (mode : encoding) (x raw : string) : bool :=
  negb (String.eqb raw "") && validEncoded mode raw &&
  match unescape mode raw with Some y => String.eqb y x | None => false end.
Definition EscapedPath (u : URL) : string :=
  if as_written encodePath (Path u) (RawPath u) then RawPath u
  else if String.eqb (Path u) "*" then "*"
  else escape encodePath (Path u).
Definition EscapedFragment (u : URL) : string :=
  if as_written encodeFragment (Fragment u) (RawFragment u) then RawFragment u else escape encodeFragment (Fragment u).

Definition user_text (u : Userinfo) : string :=
  escape encodeUserPassword (username u) +:+
  match password u with Some p => ":" +:+ escape encodeUserPassword p | None => EmptyString end.

Definition URL_String (u : URL) : string :=
  let scheme := if String.eqb (Scheme u) "" then EmptyString else Scheme u +:+ ":" in
  (if negb (String.eqb (Opaque u) "") then scheme +:+ Opaque u
   else
     let no_user := match User u with None => true | _ => false end in
     let authority :=
       if (String.eqb (Scheme u) "" && String.eqb (Host u) "" && no_user) || (OmitHost u && String.eqb (Host u) "" && no_user)
       then EmptyString
       else
         (if String.eqb (Host u) "" && String.eqb (Path u) "" && no_user then EmptyString else "//") +:+
         match User u with Some ui => user_text ui +:+ "@" | None => EmptyString end +:+ escape encodeHost (Host u) in
     let path := EscapedPath u in
     let buf := scheme +:+ authority in
     let buf := buf +:+ (if negb (String.eqb path "") && negb (HasPrefix path "/") && negb (String.eqb (Host u) "") then "/" else EmptyString) in
     let buf := buf +:+ (if String.eqb buf "" && negb (free ":" (fst (cut "/" path))) then "./" else EmptyString) in
     buf +:+ path) +:+
  (if ForceQuery u || negb (String.eqb (RawQuery u) "") then "?" +:+ RawQuery u else EmptyString) +:+
  (if negb (String.eqb (Fragment u) "") then "#" +:+ EscapedFragment u else EmptyString).

(** ** Lemmas *)

(** *** Bytes *)

(** A check on every byte, by computation. *)
Lemma every_byte (P : ascii -> bool) : forallb P (map ascii_of_nat (seq 0 256)) = true -> forall c, P c = true.
Proof.
  intros Hall c. rewrite <- (ascii_nat_embedding c). apply (proj1 (forallb_forall _ _) Hall).
  apply in_map, in_seq. pose proof (nat_ascii_bounded c). lia.
Qed.

Lemma all_bytes_app P s t : all_bytes P (s +:+ t) = all_bytes P s && all_bytes P t.
Proof.
  unfold all_bytes. induction s as [|c s IH]; [done|]. cbn [append list_ascii_of_string forallb].
  by rewrite IH, andb_assoc.
Qed.

Lemma all_bytes_impl (P Q : ascii -> bool) s : (forall c, implb (P c) (Q c) = true) -> all_bytes P s = true -> all_bytes Q s = true.
Proof. intros Hpq. apply forallb_impl. intros c Hc. specialize (Hpq c). by rewrite Hc in Hpq. Qed.

Lemma free_cons sep c s : free sep (String c s) = negb (Ascii.eqb c sep) && free sep s.
Proof. done. Qed.

Lemma free_app sep s t : free sep (s +:+ t) = free sep s && free sep t.
Proof. apply all_bytes_app. Qed.

(** *** Cutting *)

Lemma cut_free sep s : free sep s = true -> cut sep s = (s, None).
Proof.
  induction s as [|c s IH]; [done|]. rewrite free_cons. intros [Hc Hs]%andb_true_iff. cbn [cut].
  apply negb_true_iff in Hc. by rewrite Hc, IH.
Qed.

Lemma cut_at sep s t : free sep s = true -> cut sep (s +:+ String sep t) = (s, Some t).
Proof.
  induction s as [|c s IH]; [intros _; cbn [append cut]; by rewrite Ascii.eqb_refl|].
  rewrite free_cons. intros [Hc Hs]%andb_true_iff. cbn [append cut]. apply negb_true_iff in Hc. by rewrite Hc, IH.
Qed.

Lemma cut_parts sep s a b : cut sep s = (a, b) ->
  free sep a = true /\ s = a +:+ match b with Some t => String sep t | None => EmptyString end.
Proof.
  revert a b. induction s as [|c s IH]; intros a b; cbn [cut]; [by intros [= <- <-]|].
  destruct (Ascii.eqb_spec c sep) as [->|Hne]; [by intros [= <- <-]|]. destruct (cut sep s) as [a' b'].
  intros [= <- <-]. destruct (IH a' b' eq_refl) as [Hf ->]. rewrite free_cons, Hf.
  apply Ascii.eqb_neq in Hne. by rewrite Hne.
Qed.

Lemma cut_last_free sep s : free sep s = true -> cut_last sep s = None.
Proof.
  induction s as [|c s IH]; [done|]. rewrite free_cons. intros [Hc%negb_true_iff Hs]%andb_true_iff. cbn [cut_last]. by rewrite IH, Hc.
Qed.

Lemma cut_last_none sep s : cut_last sep s = None -> free sep s = true.
Proof.
  induction s as [|c s IH]; [done|]. cbn [cut_last]. destruct (cut_last sep s) as [[]|]; [done|].
  rewrite free_cons. destruct (Ascii.eqb c sep); [done|]. intros _. by apply IH.
Qed.

Lemma cut_last_at sep s t : free sep t = true -> cut_last sep (s +:+ String sep t) = Some (s, t).
Proof.
  intros Ht. induction s as [|c s IH]; cbn [append cut_last]; [by rewrite cut_last_free, Ascii.eqb_refl|by rewrite IH].
Qed.

(** *** Escaping and unescaping *)

Lemma escape_cons mode c s :
  escape mode (String c s) = (if shouldEscape mode c then percent c else String c EmptyString) +:+ escape mode s.
Proof. done. Qed.

Lemma escape_app mode s t : escape mode (s +:+ t) = escape mode s +:+ escape mode t.
Proof. induction s as [|c s IH]; [done|]. cbn [append]. by rewrite !escape_cons, IH, append_assoc. Qed.

(** What holds of the bytes each byte is written as holds of an escaped text. *)
Lemma escape_bytes P mode s :
  forallb (fun c => all_bytes P (if shouldEscape mode c then percent c else String c EmptyString)) (map ascii_of_nat (seq 0 256)) = true ->
  all_bytes P (escape mode s) = true.
Proof.
  intros Hall. pose proof (every_byte _ Hall) as Hp. induction s as [|c s IH]; [done|].
  rewrite escape_cons, all_bytes_app. apply andb_true_iff. split; [exact (Hp c)|exact IH].
Qed.

Lemma percent_value c : hex_value (upper_hex (code c / 16)) = Some (code c / 16) /\
  hex_value (upper_hex (code c mod 16)) = Some (code c mod 16) /\ byte_of (16 * (code c / 16) + code c mod 16) = c.
Proof.
  assert ((match hex_value (upper_hex (code c / 16)), hex_value (upper_hex (code c mod 16)) with
           | Some a, Some b => (a =? code c / 16) && (b =? code c mod 16) && Ascii.eqb (byte_of (16 * a + b)) c
           | _, _ => false
           end) = true) as Hc.
  { revert c. apply every_byte. vm_compute. reflexivity. }
  destruct (hex_value _) as [a|]; [|done]. destruct (hex_value _) as [b|]; [|done].
  apply andb_true_iff in Hc as [[->%Z.eqb_eq ->%Z.eqb_eq]%andb_true_iff Hc%Ascii.eqb_eq]. done.
Qed.

Lemma percent_escapes mode : shouldEscape mode "%" = true.
Proof. by destruct mode. Qed.

(** A text none of whose escaped bytes is a forbidden escape is read back. *)
Lemma unescape_escape mode s : all_bytes (fun c => negb (shouldEscape mode c && forbidden mode c)) s = true ->
  unescape mode (escape mode s) = Some s.
Proof.
  induction s as [|c s IH]; [done|]. unfold all_bytes. cbn [list_ascii_of_string forallb].
  intros [Hc%negb_true_iff Hs]%andb_true_iff. rewrite escape_cons. destruct (shouldEscape mode c) eqn:E; cbn [andb] in Hc.
  - destruct (percent_value c) as (Ha & Hb & Hv). cbn [append percent unescape]. change (Ascii.eqb "%" "%") with true. cbv iota.
    rewrite Ha, Hb, Hv, Hc. cbn. by rewrite IH.
  - cbn [append unescape]. destruct (Ascii.eqb_spec c "%") as [->|_]; [by rewrite percent_escapes in E|].
    unfold invalid. rewrite E, andb_false_r, IH by done. done.
Qed.

Lemma unescape_escape_any mode s : in_host mode = false -> unescape mode (escape mode s) = Some s.
Proof.
  intros Hm. apply unescape_escape, forallb_forall. intros c _.
  assert (forbidden mode c = false) as -> by by destruct mode. by rewrite andb_false_r.
Qed.

(** Induction on a text as [unescape] reads it. *)
Lemma unescape_ind mode (P : string -> string -> Prop) :
  P EmptyString EmptyString ->
  (forall h l t a b x, hex_value h = Some a -> hex_value l = Some b -> forbidden mode (byte_of (16 * a + b)) = false ->
     unescape mode t = Some x -> P t x -> P (String "%" (String h (String l t))) (String (byte_of (16 * a + b)) x)) ->
  (forall c s x, c <> "%"%char -> invalid mode c = false -> unescape mode s = Some x -> P s x -> P (String c s) (String c x)) ->
  forall s x, unescape mode s = Some x -> P s x.
Proof.
  intros H0 H1 H2 s. remember (String.length s) as n eqn:Hn. revert s Hn. induction n as [n IH] using lt_wf_ind.
  intros [|c s] -> x; cbn [unescape]; [by intros [= <-]|]. destruct (Ascii.eqb_spec c "%") as [->|Hc].
  - destruct s as [|h [|l t]]; try done. destruct (hex_value h) as [a|] eqn:Ha; [|done]. destruct (hex_value l) as [b|] eqn:Hb; [|done].
    destruct (forbidden mode _) eqn:Hf; [done|]. intros (y & Hy & ->)%fmap_Some. apply H1; try done.
    apply (IH (String.length t)); [cbn; lia|done|done].
  - destruct (invalid mode c) eqn:Hi; [done|]. intros (y & Hy & ->)%fmap_Some. apply H2; try done.
    apply (IH (String.length s)); [cbn; lia|done|done].
Qed.

(** In a host, the escapes that are read are those that are written. *)
Lemma unescape_host s x : unescape encodeHost s = Some x ->
  all_bytes (fun c => negb (shouldEscape encodeHost c && forbidden encodeHost c)) x = true.
Proof.
  apply (unescape_ind encodeHost (fun _ x => all_bytes (fun c => negb (shouldEscape encodeHost c && forbidden encodeHost c)) x = true)); [done| |].
  - intros h l t a b y _ _ Hf _ IH. unfold all_bytes. cbn [list_ascii_of_string forallb]. by rewrite Hf, andb_false_r.
  - intros c t y Hc Hi _ IH. unfold all_bytes. cbn [list_ascii_of_string forallb]. apply andb_true_iff. split; [|exact IH].
    unfold invalid in Hi. cbn [in_host andb] in Hi. unfold forbidden. apply negb_true_iff.
    destruct (code c <? 0x80); [|by rewrite andb_false_r]. cbn [andb] in Hi. by rewrite Hi.
Qed.

(** *** Hosts *)

(** Hexadecimal digits are not colons, and an escape in a host does not stand for one. *)
Lemma hex_colon c a : hex_value c = Some a -> Ascii.eqb c ":" = false.
Proof. intros Hc. by destruct (Ascii.eqb_spec c ":") as [->|]. Qed.

Lemma unescape_cut_last s x : unescape encodeHost s = Some x ->
  match cut_last ":" s with
  | Some (before, port) => exists before' port', cut_last ":" x = Some (before', port') /\ free ":" before' = free ":" before /\
      unescape encodeHost port = Some port'
  | None => cut_last ":" x = None
  end /\ free ":" x = free ":" s.
Proof.
  revert s x. apply unescape_ind; [done| |].
  - intros h l t a b x Ha Hb Hf Hx [IH Hfree].
    assert (Ascii.eqb (byte_of (16 * a + b)) ":" = false) as Hv.
    { destruct (Ascii.eqb_spec (byte_of (16 * a + b)) ":") as [E|]; [|done]. by rewrite E in Hf. }
    cbn [cut_last]. rewrite (hex_colon h a Ha), (hex_colon l b Hb), Hv. change (Ascii.eqb "%" ":") with false. cbv iota. split.
    + destruct (cut_last ":" t) as [[before port]|]; [|by rewrite IH]. destruct IH as (before' & port' & -> & Hb' & Hp').
      exists (String (byte_of (16 * a + b)) before'), port'. split; [done|]. split; [|done].
      rewrite !free_cons, Hv, (hex_colon h a Ha), (hex_colon l b Hb), Hb'. done.
    + by rewrite !free_cons, Hv, (hex_colon h a Ha), (hex_colon l b Hb), Hfree.
  - intros c s x Hc Hi Hx [IH Hfree]. cbn [cut_last]. split; [|by rewrite !free_cons, Hfree].
    destruct (cut_last ":" s) as [[before port]|].
    + destruct IH as (before' & port' & -> & Hb' & Hp'). exists (String c before'), port'. by rewrite !free_cons, Hb'.
    + rewrite IH. destruct (Ascii.eqb c ":"); [|done]. by exists EmptyString, x.
Qed.

Lemma escape_colon x : cut_last ":" (escape encodeHost x) =
  match cut_last ":" x with
  | Some (before, port) => Some (escape encodeHost before, escape encodeHost port)
  | None => None
  end /\ free ":" (escape encodeHost x) = free ":" x.
Proof.
  induction x as [|c x [IH Hfree]]; [done|]. rewrite escape_cons. cbn [cut_last].
  assert (forall c, (Ascii.eqb (upper_hex (code c / 16)) ":" || Ascii.eqb (upper_hex (code c mod 16)) ":") = false) as Hhex.
  { intros d. apply negb_true_iff. revert d. apply every_byte. vm_compute. reflexivity. }
  specialize (Hhex c). apply orb_false_iff in Hhex as [Hh Hl].
  assert (shouldEscape encodeHost c = true -> Ascii.eqb c ":" = false) as Hc by (intros E; by destruct (Ascii.eqb_spec c ":") as [->|]).
  destruct (shouldEscape encodeHost c) eqn:E.
  - specialize (Hc eq_refl). cbn [percent append cut_last]. rewrite IH, Hh, Hl, Hc. change (Ascii.eqb "%" ":") with false. cbv iota.
    rewrite !free_cons, Hh, Hl, Hc, Hfree. change (Ascii.eqb "%" ":") with false. split; [|done].
    destruct (cut_last ":" x) as [[]|]; [|done]. rewrite escape_cons, E. done.
  - cbn [append cut_last]. rewrite IH, !free_cons, Hfree. split; [|done].
    destruct (cut_last ":" x) as [[]|]; [by rewrite escape_cons, E|]. by destruct (Ascii.eqb c ":").
Qed.

Lemma digits_host port : valid_port port = true -> unescape encodeHost port = Some port /\ escape encodeHost port = port.
Proof.
  induction port as [|c port IH]; [done|]. unfold valid_port, all_bytes. cbn [list_ascii_of_string forallb].
  intros [Hc Hp]%andb_true_iff. destruct (IH Hp) as [IHu IHe].
  assert (implb (is_digit c) (negb (Ascii.eqb c "%") && negb (invalid encodeHost c) && negb (shouldEscape encodeHost c)) = true) as Hall.
  { revert c Hc. intros c _. revert c. apply every_byte. vm_compute. reflexivity. }
  rewrite Hc in Hall. cbn [implb] in Hall. apply andb_true_iff in Hall as [[H1%negb_true_iff H2%negb_true_iff]%andb_true_iff H3%negb_true_iff].
  cbn [unescape]. rewrite H1, H2, IHu, escape_cons, H3, IHe. done.
Qed.

(** A bracket is never escaped in a host. *)
Lemma escape_bracket x : free "[" (escape encodeHost x) = free "[" x.
Proof.
  induction x as [|c x IH]; [done|]. rewrite escape_cons, free_app, free_cons, IH. f_equal. revert c.
  assert (forall c, Bool.eqb (free "[" (if shouldEscape encodeHost c then percent c else String c EmptyString)) (negb (Ascii.eqb c "[")) = true)
    as Hall by (apply every_byte; vm_compute; reflexivity).
  intros c. by apply Bool.eqb_prop.
Qed.

Section parsing.
Context `{HostRules}.

(** A host that is not an address in brackets, written and read again. *)
Lemma parseHost_again scheme s host :
  parseHost scheme s = Some host -> free "[" host = true -> parseHost scheme (escape encodeHost host) = Some host.
Proof.
  unfold parseHost. destruct (free "[" s) eqn:Hs; cbn [negb].
  2:{ unfold parse_ip_literal. intros ([x colonPort] & _ & ([y hostname] & _ & Hp)%bind_Some)%bind_Some Hf. exfalso.
      case_match; [|done]. destruct (cut_zone hostname) as [address zone].
      apply bind_Some in Hp as (a & _ & (z & _ & (p & _ & Hp)%bind_Some)%bind_Some). case_match; [|done].
      injection Hp as <-. discriminate Hf. }
  intros Hp Hf.
  assert (unescape encodeHost s = Some host) as Hu by (repeat case_match; done).
  rewrite escape_bracket, Hf. cbn [negb].
  pose proof (unescape_escape encodeHost host (unescape_host _ _ Hu)) as Hagain. rewrite Hagain.
  destruct (unescape_cut_last s host Hu) as [Hcut _]. destruct (escape_colon host) as [-> _].
  destruct (cut_last ":" s) as [[before port]|]; [|by rewrite Hcut].
  destruct Hcut as (before' & port' & -> & Hb & Hport).
  destruct (valid_port port) eqn:Hv; [|done]. destruct (digits_host port Hv) as [Hd He]. rewrite Hd in Hport. injection Hport as <-.
  rewrite He, Hv. destruct (escape_colon before') as [_ ->]. rewrite Hb. by destruct (free ":" before || several_colons scheme).
Qed.

Lemma parseUserinfo_again user : parseUserinfo (user_text user) = Some user.
Proof.
  destruct user as [name pass]. unfold parseUserinfo, user_text. cbn [username password].
  assert (forall x, validUserinfo (escape encodeUserPassword x) = true) as Hvalid
    by (intros x; apply escape_bytes; vm_compute; reflexivity).
  assert (forall x, free ":" (escape encodeUserPassword x) = true) as Hfree
    by (intros x; apply escape_bytes; vm_compute; reflexivity).
  destruct pass as [pass|].
  - assert (validUserinfo (escape encodeUserPassword name +:+ ":" +:+ escape encodeUserPassword pass) = true) as ->.
    { unfold validUserinfo. rewrite !all_bytes_app. fold (validUserinfo (escape encodeUserPassword name)).
      fold (validUserinfo (escape encodeUserPassword pass)). by rewrite !Hvalid. }
    change (":" +:+ ?t) with (String ":" t). rewrite cut_at by done. by rewrite !unescape_escape_any.
  - rewrite append_nil_r, Hvalid, cut_free by done. by rewrite unescape_escape_any.
Qed.

Definition user_part (user : option Userinfo) : string := match user with Some u => user_text u +:+ "@" | None => EmptyString end.

Lemma parseAuthority_again scheme s user host :
  parseAuthority scheme s = Some (user, host) -> free "[" host = true ->
  parseAuthority scheme (user_part user +:+ escape encodeHost host) = Some (user, host).
Proof.
  intros Hp Hf.
  assert (exists t, parseHost scheme t = Some host) as [t Ht].
  { unfold parseAuthority in Hp. destruct (cut_last "@" s) as [[userinfo h]|];
      [apply bind_Some in Hp as (h' & Hh & (u & _ & [= _ <-])%bind_Some)|apply bind_Some in Hp as (h' & Hh & [= _ <-])]; eauto. }
  pose proof (parseHost_again scheme t host Ht Hf) as Hagain.
  assert (free "@" (escape encodeHost host) = true) as Hat by (apply escape_bytes; vm_compute; reflexivity).
  unfold parseAuthority, user_part. destruct user as [user|].
  - rewrite <- append_assoc. change ("@" +:+ ?t) with (String "@" t). rewrite cut_last_at by done.
    by rewrite Hagain, parseUserinfo_again.
  - cbn [append]. rewrite cut_last_free, Hagain by done. done.
Qed.

(** *** Paths and fragments *)

Lemma decoded_again mode x raw : in_host mode = false ->
  let text := if as_written mode x raw then raw else escape mode x in
  exists raw', decoded mode text = Some (x, raw') /\ (if as_written mode x raw' then raw' else escape mode x) = text.
Proof.
  intros Hm. destruct (as_written mode x raw) eqn:E; cbv zeta; unfold decoded.
  - assert (E' := E). unfold as_written in E. apply andb_true_iff in E as [_ Hu]. destruct (unescape mode raw) as [y|]; [|done].
    apply String.eqb_eq in Hu as ->. cbn. destruct (String.eqb_spec raw (escape mode x)) as [->|Hne].
    + by exists EmptyString.
    + exists raw. by rewrite E'.
  - rewrite unescape_escape_any by done. cbn. rewrite String.eqb_refl. by exists EmptyString.
Qed.
End parsing.

(** *** An absolute URL with a host *)

Definition printable (c : ascii) : bool := negb (is_control c).

(** What [Parse] made of the text of such a URL. *)
Record absolute `{HostRules} (u : URL) : Prop := {
  abs_Opaque : Opaque u = EmptyString;
  abs_OmitHost : OmitHost u = false;
  abs_Host : Host u <> EmptyString;
  abs_authority : exists s, parseAuthority (Scheme u) s = Some (User u, Host u);
  abs_path : exists s, (s = EmptyString \/ HasPrefix s "/" = true) /\ decoded encodePath s = Some (Path u, RawPath u);
  abs_query : all_bytes printable (RawQuery u) = true /\ free "#" (RawQuery u) = true /\
    (ForceQuery u = true -> RawQuery u = EmptyString)
}.

Lemma all_bytes_parts P s a b : all_bytes P s = true -> s = a +:+ b -> all_bytes P a = true /\ all_bytes P b = true.
Proof. intros Hs ->. by rewrite all_bytes_app, andb_true_iff in Hs. Qed.

Lemma find_scheme_rest s scheme rest : find_scheme s = Some (scheme, rest) -> s = scheme +:+ ":" +:+ rest.
Proof.
  revert scheme rest. induction s as [|c s IH]; intros scheme rest; [done|]. cbn [find_scheme]. destruct (_ || _).
  - intros ([scheme' rest'] & Hs & [= <- <-])%bind_Some. by rewrite (IH _ _ Hs).
  - destruct (Ascii.eqb_spec c ":") as [->|]; [|done]. by intros [= <- <-].
Qed.

Lemma getScheme_rest s scheme rest : getScheme s = Some (scheme, rest) -> exists before, s = before +:+ rest.
Proof.
  unfold getScheme. destruct s as [|c s]; [intros [= _ <-]; by exists EmptyString|].
  destruct (Ascii.eqb c ":"); [done|]. destruct (is_letter c); [|intros [= _ <-]; by exists EmptyString].
  destruct (find_scheme (String c s)) as [[a b]|] eqn:E; cbn; intros [= <- <-]; [|by exists EmptyString].
  exists (a +:+ ":"). rewrite <- append_assoc. by apply find_scheme_rest.
Qed.

Lemma cut_path_starts s a p : cut_path s = (a, p) -> p = EmptyString \/ HasPrefix p "/" = true.
Proof. unfold cut_path. destruct (cut "/" s) as [a' [q|]]; intros [= <- <-]; [right|by left]. by destruct q. Qed.

Lemma parse_absolute `{HostRules} s u : free "#" s = true -> parse s = Some u -> Scheme u <> EmptyString -> Host u <> EmptyString -> absolute u.
Proof.
  intros Hfree Hp Hscheme Hhost. unfold parse in Hp. destruct (all_bytes _ s) eqn:Hclean; cbn [negb] in Hp; [|done].
  destruct (String.eqb s "*"); [by injection Hp as <-|]. apply bind_Some in Hp as ([scheme rest] & Hs & Hp).
  destruct (getScheme_rest s scheme rest Hs) as (before & Hrest). cbv zeta in Hp.
  destruct (cut "?" rest) as [rest' query] eqn:Hcut. apply cut_parts in Hcut as [_ Hquery].
  assert (all_bytes printable (default EmptyString query) = true /\ free "#" (default EmptyString query) = true) as [Hq1 Hq2].
  { destruct query as [q|]; [|done]. cbn [default from_option]. subst rest s. unfold free in *.
    rewrite !all_bytes_app in Hclean, Hfree. apply andb_true_iff in Hclean as [_ [_ Hc]%andb_true_iff].
    apply andb_true_iff in Hfree as [_ [_ Hf]%andb_true_iff]. unfold all_bytes in *. cbn [list_ascii_of_string forallb] in *.
    apply andb_true_iff in Hc as [_ Hc], Hf as [_ Hf]. done. }
  destruct (negb (HasPrefix rest' "/") && negb (String.eqb (ToLower scheme) "")); [injection Hp as <-; done|].
  destruct (negb (HasPrefix rest' "/") && _); [done|].
  destruct ((negb (String.eqb (ToLower scheme) "") || _) && HasPrefix rest' "//").
  - destruct (cut_path (drop_bytes 2 rest')) as [authority path] eqn:Hpath.
    apply bind_Some in Hp as ([user host] & Ha & ([p raw] & Hd & [= <-])%bind_Some).
    split; cbn in *; try done.
    + by exists authority.
    + exists path. split; [by eapply cut_path_starts|exact Hd].
    + split; [exact Hq1|]. split; [exact Hq2|]. by destruct query as [[|]|].
  - apply bind_Some in Hp as ([p raw] & Hd & [= <-]). done.
Qed.

Lemma Parse_absolute `{HostRules} s u : Parse s = Some u -> Scheme u <> EmptyString -> Host u <> EmptyString -> absolute u.
Proof.
  unfold Parse. destruct (cut "#" s) as [s' frag] eqn:Hcut. apply cut_parts in Hcut as [Hf _].
  intros (v & Hv & ([f raw] & _ & [= <-])%bind_Some)%bind_Some Hs Hh. cbn in Hs, Hh.
  destruct (parse_absolute s' v Hf Hv Hs Hh). by split.
Qed.

(** Its text. *)
Definition query_part (u : URL) : string :=
  if ForceQuery u || negb (String.eqb (RawQuery u) "") then "?" +:+ RawQuery u else EmptyString.
Definition fragment_part (u : URL) : string :=
  if negb (String.eqb (Fragment u) "") then "#" +:+ EscapedFragment u else EmptyString.
Definition authority_part (u : URL) : string := user_part (User u) +:+ escape encodeHost (Host u).

Lemma escape_starts mode x : HasPrefix x "/" = true -> in_host mode = false -> mode <> encodeUserPassword ->
  HasPrefix (escape mode x) "/" = true.
Proof.
  intros (t & ->)%HasPrefix_spec Hm Hu. apply HasPrefix_spec. exists (escape mode t). by destruct mode.
Qed.

Lemma unescape_starts s x : HasPrefix s "/" = true -> unescape encodePath s = Some x -> HasPrefix x "/" = true.
Proof.
  intros (t & ->)%HasPrefix_spec. change ("/" +:+ t) with (String "/" t). cbn [unescape].
  change (Ascii.eqb "/" "%") with false. change (invalid encodePath "/") with false. cbv iota.
  intros (y & _ & ->)%fmap_Some. by destruct y.
Qed.

Lemma absolute_path `{HostRules} u : absolute u ->
  Path u <> "*" /\ (EscapedPath u = EmptyString \/ HasPrefix (EscapedPath u) "/" = true).
Proof.
  intros Hu. destruct (abs_path u Hu) as (s & Hs & (x & Hx & Hd)%bind_Some). injection Hd as Hxp Hraw. subst x.
  destruct Hs as [->|Hs].
  - injection Hx as Hp. rewrite <- Hp in *. split; [done|]. left. unfold EscapedPath. rewrite <- Hp, <- Hraw. reflexivity.
  - pose proof (unescape_starts _ _ Hs Hx) as Hstart. assert (Path u <> "*") as Hstar by (by intros E; rewrite E in Hstart).
    split; [done|]. right. unfold EscapedPath. apply String.eqb_neq in Hstar. rewrite Hstar.
    destruct (as_written _ _ _) eqn:E; [|by apply escape_starts]. rewrite <- Hraw in E |- *.
    by destruct (String.eqb s _).
Qed.

Lemma URL_String_absolute u : Opaque u = EmptyString -> OmitHost u = false -> Host u <> EmptyString ->
  EscapedPath u = EmptyString \/ HasPrefix (EscapedPath u) "/" = true -> Scheme u <> EmptyString ->
  URL_String u = Scheme u +:+ "://" +:+ authority_part u +:+ EscapedPath u +:+ query_part u +:+ fragment_part u.
Proof.
  intros Ho Hom Hh Hpath Hs. unfold URL_String. rewrite Ho, Hom.
  apply String.eqb_neq in Hs as Hs', Hh as Hh'. rewrite Hs', Hh'. cbn [andb orb negb String.eqb].
  assert (negb (String.eqb (EscapedPath u) "") && negb (HasPrefix (EscapedPath u) "/") = false) as ->
    by (destruct Hpath as [->| ->]; [done|by rewrite andb_false_r]).
  rewrite append_nil_r.
  assert (forall t, String.eqb ((Scheme u +:+ ":") +:+ t) "" = false) as -> by (intros t; by destruct (Scheme u)).
  unfold authority_part, user_part, query_part, fragment_part. cbn [andb]. rewrite append_nil_r, <- !append_assoc.
  by change (":" +:+ "//" +:+ ?t) with ("://" +:+ t).
Qed.

(** *** Its text is read back, and written the same *)

Definition path_byte (c : ascii) : bool := printable c && negb (Ascii.eqb c "?") && negb (Ascii.eqb c "#").
Definition authority_byte (c : ascii) : bool := path_byte c && negb (Ascii.eqb c "/").

Lemma authority_bytes u : all_bytes authority_byte (authority_part u) = true.
Proof.
  assert (forall x, all_bytes authority_byte (escape encodeUserPassword x) = true) as Hu
    by (intros x; apply escape_bytes; vm_compute; reflexivity).
  assert (forall x, all_bytes authority_byte (escape encodeHost x) = true) as Hh
    by (intros x; apply escape_bytes; vm_compute; reflexivity).
  unfold authority_part, user_part, user_text. rewrite all_bytes_app, Hh, andb_true_r.
  destruct (User u) as [[name [pass|]]|]; cbn [username password]; rewrite ?all_bytes_app, ?Hu; reflexivity.
Qed.

Lemma written_bytes P mode x raw :
  forallb (fun c => implb (in_cutset "!$&'()*+,;=:@[]%" c || negb (shouldEscape mode c)) (P c) &&
                    all_bytes P (if shouldEscape mode c then percent c else String c EmptyString)) (map ascii_of_nat (seq 0 256)) = true ->
  all_bytes P (if as_written mode x raw then raw else escape mode x) = true.
Proof.
  intros Hall. rewrite forallb_forall in Hall.
  destruct (as_written mode x raw) eqn:E.
  - unfold as_written in E. apply andb_true_iff in E as [[_ Hv]%andb_true_iff _]. revert Hv. apply all_bytes_impl.
    apply every_byte. apply forallb_forall. intros c Hc. by apply Hall, andb_true_iff in Hc as [Hc _].
  - apply escape_bytes. apply forallb_forall. intros c Hc. by apply Hall, andb_true_iff in Hc as [_ Hc].
Qed.

Lemma path_bytes u : all_bytes path_byte (EscapedPath u) = true.
Proof.
  pose proof (written_bytes path_byte encodePath (Path u) (RawPath u) ltac:(vm_compute; reflexivity)) as Hw.
  unfold EscapedPath. destruct (as_written _ _ _); [done|]. by destruct (String.eqb (Path u) "*").
Qed.

Lemma fragment_bytes u : all_bytes printable (EscapedFragment u) = true.
Proof. apply written_bytes. vm_compute. reflexivity. Qed.

Lemma bytes_free (P : ascii -> bool) sep s : P sep = false -> all_bytes P s = true -> free sep s = true.
Proof.
  intros Hsep. apply all_bytes_impl. intros c. destruct (Ascii.eqb_spec c sep) as [->|]; [by rewrite Hsep|]. by destruct (P c).
Qed.

Lemma query_bytes `{HostRules} u : absolute u ->
  all_bytes printable (query_part u) = true /\ free "#" (query_part u) = true.
Proof.
  intros Hu. destruct (abs_query u Hu) as (Hp & Hf & _). unfold query_part. destruct (_ || _); [|done].
  rewrite all_bytes_app, free_app, Hp, Hf. done.
Qed.

Lemma scheme_bytes scheme : In scheme ["http"; "https"] ->
  all_bytes path_byte scheme = true /\ scheme <> EmptyString /\ ToLower scheme = scheme /\
  forall t, getScheme (scheme +:+ "://" +:+ t) = Some (scheme, "//" +:+ t) /\ String.eqb (scheme +:+ t) "*" = false.
Proof. by intros [<-|[<-|[]]]. Qed.

Lemma cut_authority `{HostRules} u : absolute u ->
  cut_path (authority_part u +:+ EscapedPath u) = (authority_part u, EscapedPath u).
Proof.
  intros Hu. assert (free "/" (authority_part u) = true) as Hf by (apply (bytes_free authority_byte); [done|apply authority_bytes]).
  unfold cut_path. destruct (absolute_path u Hu) as [_ [->|(t & ->)%HasPrefix_spec]].
  - by rewrite append_nil_r, cut_free.
  - change ("/" +:+ t) with (String "/" t). by rewrite cut_at.
Qed.

(** The text before the fragment. *)
Lemma parse_again `{HostRules} u : absolute u -> In (Scheme u) ["http"; "https"] -> free "[" (Host u) = true ->
  exists raw, parse (Scheme u +:+ "://" +:+ authority_part u +:+ EscapedPath u +:+ query_part u) =
      Some (mkURL (Scheme u) "" (User u) (Host u) (Path u) raw false (ForceQuery u) (RawQuery u) "" "") /\
    (if as_written encodePath (Path u) raw then raw else escape encodePath (Path u)) = EscapedPath u.
Proof.
  intros Hu Hs Hbracket. destruct (scheme_bytes (Scheme u) Hs) as (Hsb & Hne & Hlow & Hget).
  destruct (absolute_path u Hu) as [Hstar _]. destruct (query_bytes u Hu) as [Hq _].
  assert (EscapedPath u = if as_written encodePath (Path u) (RawPath u) then RawPath u else escape encodePath (Path u)) as Hep.
  { unfold EscapedPath. apply String.eqb_neq in Hstar. by rewrite Hstar. }
  destruct (decoded_again encodePath (Path u) (RawPath u) eq_refl) as (raw & Hdec & Hraw). rewrite <- Hep in Hdec, Hraw.
  exists raw. split; [|exact Hraw]. unfold parse.
  assert (all_bytes printable (Scheme u +:+ "://" +:+ authority_part u +:+ EscapedPath u +:+ query_part u) = true) as Hclean.
  { assert (forall t, all_bytes path_byte t = true -> all_bytes printable t = true) as Hpp
      by (intros t; apply all_bytes_impl, every_byte; vm_compute; reflexivity).
    rewrite !all_bytes_app, Hq, (Hpp _ Hsb), (Hpp _ (path_bytes u)).
    by rewrite (all_bytes_impl authority_byte printable _ ltac:(apply every_byte; vm_compute; reflexivity) (authority_bytes u)). }
  unfold printable in Hclean. rewrite Hclean. cbn [negb]. destruct (Hget (authority_part u +:+ EscapedPath u +:+ query_part u)) as [-> _].
  destruct (Hget ("://" +:+ authority_part u +:+ EscapedPath u +:+ query_part u)) as [_ ->].
  cbn [mbind option_bind]. cbv zeta. rewrite Hlow.
  assert (cut "?" ("//" +:+ authority_part u +:+ EscapedPath u +:+ query_part u) =
          ("//" +:+ authority_part u +:+ EscapedPath u,
           if ForceQuery u || negb (String.eqb (RawQuery u) "") then Some (RawQuery u) else None)) as ->.
  { assert (free "?" ("//" +:+ authority_part u +:+ EscapedPath u) = true) as Hf.
    { rewrite !free_app. rewrite (bytes_free authority_byte "?" (authority_part u) eq_refl (authority_bytes u)).
      by rewrite (bytes_free path_byte "?" (EscapedPath u) eq_refl (path_bytes u)). }
    rewrite (append_assoc (authority_part u)), (append_assoc "//"). unfold query_part. destruct (_ || _).
    - change ("?" +:+ ?t) with (String "?" t). by rewrite cut_at.
    - by rewrite append_nil_r, cut_free. }
  set (rest := authority_part u +:+ EscapedPath u). cbv iota beta.
  change (HasPrefix ("//" +:+ rest) "/") with true. change (HasPrefix ("//" +:+ rest) "//") with (HasPrefix rest "").
  change (drop_bytes 2 ("//" +:+ rest)) with rest. assert (HasPrefix rest "" = true) as -> by by apply HasPrefix_spec; exists rest.
  apply String.eqb_neq in Hne. rewrite Hne. cbn [negb andb orb]. unfold rest at 1. rewrite (cut_authority u Hu).
  destruct (abs_authority u Hu) as (s & Ha). unfold authority_part.
  rewrite (parseAuthority_again (Scheme u) s (User u) (Host u) Ha Hbracket). cbn [mbind option_bind]. rewrite Hdec. cbn [mbind option_bind].
  do 2 f_equal; destruct (abs_query u Hu) as (_ & _ & Hforce); destruct (ForceQuery u); cbn [orb];
    try (by rewrite Hforce); by destruct (RawQuery u).
Qed.

Lemma Parse_again `{HostRules} u : absolute u -> In (Scheme u) ["http"; "https"] -> free "[" (Host u) = true ->
  exists u', Parse (URL_String u) = Some u' /\ Scheme u' = Scheme u /\ Host u' = Host u /\ URL_String u' = URL_String u.
Proof.
  intros Hu Hs Hbracket. destruct (scheme_bytes (Scheme u) Hs) as (Hsb & Hne & _ & _).
  destruct (parse_again u Hu Hs Hbracket) as (raw & Hparse & Hraw).
  destruct (decoded_again encodeFragment (Fragment u) (RawFragment u) eq_refl) as (fraw & Hdec & Hfraw). cbv zeta in Hdec.
  destruct (absolute_path u Hu) as [Hstar _]. apply String.eqb_neq in Hstar as Hstar'.
  set (u' := mkURL (Scheme u) "" (User u) (Host u) (Path u) raw false (ForceQuery u) (RawQuery u) (Fragment u)
               (if String.eqb (Fragment u) "" then EmptyString else fraw)).
  assert (EscapedPath u' = EscapedPath u) as Hep by (rewrite <- Hraw; unfold EscapedPath, u'; cbn [Path RawPath]; by rewrite Hstar').
  assert (query_part u' = query_part u /\ authority_part u' = authority_part u) as [Hq Ha] by done.
  assert (fragment_part u' = fragment_part u) as Hf.
  { unfold fragment_part, EscapedFragment, u'. cbn [Fragment RawFragment]. destruct (String.eqb (Fragment u) ""); [done|].
    cbn [negb]. by rewrite Hfraw. }
  assert (URL_String u' = URL_String u) as Htext.
  { destruct (absolute_path u Hu) as [_ Hpath].
    rewrite (URL_String_absolute u' eq_refl eq_refl (abs_Host u Hu)), (URL_String_absolute u (abs_Opaque u Hu) (abs_OmitHost u Hu) (abs_Host u Hu))
      by (done || by rewrite Hep). by rewrite Hep, Hq, Ha, Hf. }
  exists u'. split; [|done].
  destruct (absolute_path u Hu) as [_ Hpath]. destruct (query_bytes u Hu) as [_ Hqf].
  rewrite (URL_String_absolute u (abs_Opaque u Hu) (abs_OmitHost u Hu) (abs_Host u Hu) Hpath Hne).
  rewrite (append_assoc (EscapedPath u)), (append_assoc (authority_part u)), (append_assoc "://"), (append_assoc (Scheme u)).
  set (text := Scheme u +:+ "://" +:+ authority_part u +:+ EscapedPath u +:+ query_part u) in *.
  assert (free "#" text = true) as Hft.
  { unfold text. rewrite !free_app, Hqf. rewrite (bytes_free authority_byte "#" _ eq_refl (authority_bytes u)).
    rewrite (bytes_free path_byte "#" _ eq_refl (path_bytes u)), (bytes_free path_byte "#" _ eq_refl Hsb). done. }
  unfold Parse, fragment_part, u'. destruct (String.eqb_spec (Fragment u) "") as [E|Hfr]; cbn [negb].
  - rewrite append_nil_r, cut_free, Hparse, E by done. reflexivity.
  - change ("#" +:+ ?t) with (String "#" t). rewrite cut_at, Hparse by done. cbn [mbind option_bind default from_option id].
    unfold EscapedFragment. rewrite Hdec. reflexivity.
Qed.

(** Its bytes, and its scheme whatever follows. *)
Lemma URL_String_bytes `{HostRules} u : absolute u -> In (Scheme u) ["http"; "https"] ->
  exists rest, URL_String u = Scheme u +:+ "://" +:+ rest /\ all_bytes printable rest = true.
Proof.
  intros Hu Hs. destruct (scheme_bytes (Scheme u) Hs) as (_ & Hne & _). destruct (absolute_path u Hu) as [_ Hpath].
  eexists. split; [by apply URL_String_absolute; [apply abs_Opaque|apply abs_OmitHost|apply abs_Host| |]|].
  destruct (query_bytes u Hu) as [Hq _]. rewrite !all_bytes_app, Hq.
  rewrite (all_bytes_impl authority_byte printable _ ltac:(apply every_byte; vm_compute; reflexivity) (authority_bytes u)).
  rewrite (all_bytes_impl path_byte printable _ ltac:(apply every_byte; vm_compute; reflexivity) (path_bytes u)).
  unfold fragment_part. destruct (negb _); [|done]. by rewrite all_bytes_app, fragment_bytes.
Qed.

Lemma Parse_scheme `{HostRules} scheme t u : In scheme ["http"; "https"] -> Parse (scheme +:+ "://" +:+ t) = Some u -> Scheme u = scheme.
Proof.
  intros Hs. destruct (scheme_bytes scheme Hs) as (_ & Hne & Hlow & Hget). unfold Parse.
  assert (cut "#" (scheme +:+ "://" +:+ t) = (scheme +:+ "://" +:+ fst (cut "#" t), snd (cut "#" t))) as ->
    by (destruct Hs as [<-|[<-|[]]]; cbn; by destruct (cut "#" t)).
  intros (v & Hv & ([f raw] & _ & [= <-])%bind_Some)%bind_Some. cbn [Scheme]. revert Hv. unfold parse.
  destruct (negb _); [done|]. destruct (Hget ("://" +:+ fst (cut "#" t))) as [_ ->]. destruct (Hget (fst (cut "#" t))) as [-> _].
  cbn [mbind option_bind]. cbv zeta. rewrite Hlow. apply String.eqb_neq in Hne. rewrite Hne.
  destruct (cut "?" _) as [rest query]. cbn [negb]. destruct (negb (HasPrefix rest "/")); cbn [andb]; [by intros [= <-]|].
  destruct (_ && HasPrefix rest "//").
  - destruct (cut_path _) as [a p]. intros ([user host] & _ & ([x y] & _ & [= <-])%bind_Some)%bind_Some. done.
  - intros ([x y] & _ & [= <-])%bind_Some. done.
Qed.
