(* ===== verification/GoTime.v ===== *)
(** * Go's [time.Duration] and the parts of [math] the program uses

    A [Duration] is an int64 count of nanoseconds. *)
From Stdlib Require Import ZArith Lia Ascii String SpecFloat.
From S2P Require Import Prelude Rounding GoFloat GoStrings GoStrconv.
Local Open Scope Z_scope.
Local Open Scope stdpp_scope.

Definition Microsecond : Z := 1000.
Definition Millisecond : Z := 1000000.
Definition Second : Z := 1000000000.
Definition Minute : Z := 60 * Second.
Definition Hour : Z := 60 * Minute.

(** [d.Seconds()] and [d.Hours()]: Go's integer division truncates towards zero. *)
Definition Seconds (d : Z) : float64 :=
  fadd (float_of_Z (Z.quot d Second)) (fdiv (float_of_Z (Z.rem d Second)) (float_of_Z 1000000000)).
Definition Hours (d : Z) : float64 :=
  fadd (float_of_Z (Z.quot d Hour)) (fdiv (float_of_Z (Z.rem d Hour)) (float_of_Z 3600000000000)).

(** [math.Round]: to the nearest integer, halves away from zero. Zeros, infinities and NaN are
    returned as they are. *)
Definition Round (x : float64) : float64 :=
  match x with
  | S754_finite s m e =>
      if 0 <=? e then x
      else
        match (2 * Zpos m + 2 ^ (- e)) / (2 * 2 ^ (- e)) with
        | Zpos n => binary_round prec emax s n 0
        | _ => S754_zero s
        end
  | _ => x
  end.

(** [uint64(x)] for a non-negative finite [x] below 2^64: truncation. *)
Definition uint64_of_float (x : float64) : Z :=
  match x with
  | S754_finite false m e => exact_num m e / exact_den e
  | _ => 0
  end.

(** ** [time.ParseDuration] *)

Definition unitMap (u : string) : option Z :=
  if String.eqb u "ns" then Some 1
  else if String.eqb u "us" then Some Microsecond
  else if String.eqb u "µs" then Some Microsecond
  else if String.eqb u "μs" then Some Microsecond
  else if String.eqb u "ms" then Some Millisecond
  else if String.eqb u "s" then Some Second
  else if String.eqb u "m" then Some Minute
  else if String.eqb u "h" then Some Hour
  else None.

(** [leadingInt]: the number, and the rest; [None] on overflow of 2^63. *)
Fixpoint leadingInt (x : Z) (s : string) : option (Z * string) :=
  match s with
  | String c s' =>
      if is_digit c then
        if 2 ^ 63 / 10 <? x then None
        else
          let y := x * 10 + (code c - 48) in
          if 2 ^ 63 <? y then None else leadingInt y s'
      else Some (x, s)
  | EmptyString => Some (x, s)
  end.

(** [leadingFraction]: digits past an overflow are read and ignored. *)
Fixpoint leadingFraction (x : Z) (scale : float64) (overflow : bool) (s : string) : Z * float64 * string :=
  match s with
  | String c s' =>
      if is_digit c then
        if overflow then leadingFraction x scale true s'
        else if (2 ^ 63 - 1) / 10 <? x then leadingFraction x scale true s'
        else
          let y := x * 10 + (code c - 48) in
          if 2 ^ 63 <? y then leadingFraction x scale true s'
          else leadingFraction y (fmul scale (float_of_Z 10)) false s'
      else (x, scale, s)
  | EmptyString => (x, scale, s)
  end.

(** The unit: everything up to the next digit or dot. *)
Fixpoint span_unit (s : string) : string * string :=
  match s with
  | String c s' =>
      if (code c =? 46) || is_digit c then (EmptyString, s)
      else let '(u, r) := span_unit s' in (String c u, r)
  | EmptyString => (EmptyString, EmptyString)
  end.

(** [time.quote], for error texts: other bytes than printable ASCII and DEL as hexadecimal. *)
Fixpoint time_quote_body (s : string) : string :=
  match s with
  | EmptyString => EmptyString
  | String c s' =>
      (if (128 <=? code c) || (code c <? 32) then backslash +:+ "x" +:+ hex_fixed 2 (code c)
       else if (code c =? 34) || (code c =? 92) then backslash +:+ String c EmptyString
       else String c EmptyString) +:+ time_quote_body s'
  end.
Definition time_quote (s : string) : string := dquote +:+ time_quote_body s +:+ dquote.

Definition invalid_duration (orig : string) : result Z :=
  Err (ErrorString ("time: invalid duration " +:+ time_quote orig)).

(** The loop over the [number unit] groups. Every round consumes at least a byte, so the length
    of the text is enough fuel. *)
Fixpoint duration_go (fuel : nat) (orig : string) (d : Z) (s : string) : result Z :=
  match s, fuel with
  | EmptyString, _ => Ok d
  | _, O => invalid_duration orig
  | String c0 _, S fuel' =>
      if negb ((code c0 =? 46) || is_digit c0) then invalid_duration orig
      else
        match leadingInt 0 s with
        | None => invalid_duration orig
        | Some (v, s1) =>
            let pre := negb (Nat.eqb (String.length s) (String.length s1)) in
            let '(f, scale, s2, post) :=
              match s1 with
              | String c s1' =>
                  if code c =? 46 then
                    let '(f, scale, s2) := leadingFraction 0 fone false s1' in
                    (f, scale, s2, negb (Nat.eqb (String.length s1') (String.length s2)))
                  else (0, fone, s1, false)
              | EmptyString => (0, fone, s1, false)
              end in
            if negb pre && negb post then invalid_duration orig
            else
              match span_unit s2 with
              | (EmptyString, _) =>
                  Err (ErrorString ("time: missing unit in duration " +:+ time_quote orig))
              | (u, s3) =>
                  match unitMap u with
                  | None =>
                      Err (ErrorString ("time: unknown unit " +:+ time_quote u +:+
                                        " in duration " +:+ time_quote orig))
                  | Some unit =>
                      if 2 ^ 63 / unit <? v then invalid_duration orig
                      else
                        let v := v * unit in
                        let v := if 0 <? f
                                 then v + uint64_of_float (fmul (float_of_Z f) (fdiv (float_of_Z unit) scale))
                                 else v in
                        if 2 ^ 63 <? v then invalid_duration orig
                        else
                          let d := (d + v) mod 2 ^ 64 in
                          if 2 ^ 63 <? d then invalid_duration orig
                          else duration_go fuel' orig d s3
                  end
              end
        end
  end.

Definition ParseDuration (s : string) : result Z :=
  let '(neg, t) := strip_sign s in
  if String.eqb t "0" then Ok 0
  else
    match t with
    | EmptyString => invalid_duration s
    | _ =>
        d ← duration_go (String.length t) s 0 t;
        if neg then Ok (- d)
        else if 2 ^ 63 - 1 <? d then invalid_duration s else Ok d
    end.

(** ** [t.UTC().Format(time.RFC3339)] of a number of seconds since 1970

    The date of a day number, counting from 0000-03-01 in 400-year eras. *)
Definition civil (days : Z) : Z * Z * Z :=
  let z := days + 719468 in
  let era := z / 146097 in
  let doe := z mod 146097 in
  let yoe := (doe - doe / 1460 + doe / 36524 - doe / 146096) / 365 in
  let doy := doe - (365 * yoe + yoe / 4 - yoe / 100) in
  let mp := (5 * doy + 2) / 153 in
  let m := if mp <? 10 then mp + 3 else mp - 9 in
  (yoe + era * 400 + (if m <=? 2 then 1 else 0), m, doy - (153 * mp + 2) / 5 + 1).

Definition FormatRFC3339 (t : Z) : string :=
  let '(y, m, d) := civil (t / 86400) in
  let s := t mod 86400 in
  Sprintf [digits_fixed 4 y; "-"; digits_fixed 2 m; "-"; digits_fixed 2 d; "T";
           digits_fixed 2 (s / 3600); ":"; digits_fixed 2 (s / 60 mod 60); ":"; digits_fixed 2 (s mod 60); "Z"].

Example rfc3339_leap : FormatRFC3339 1709210096 = "2024-02-29T12:34:56Z".
Proof. reflexivity. Qed.
