(* ===== verification/GoRat.v ===== *)
(** * Go's [math/big.Rat]

    A [big.Rat] is an exact fraction in lowest terms; it is modelled by a rational [Q] up to
    [==], which every operation respects. *)
From Stdlib Require Import ZArith QArith Lia Ascii String SpecFloat.
From S2P Require Import Prelude Rounding GoFloat GoStrings GoStrconv.
Local Open Scope Z_scope.
Local Open Scope stdpp_scope.

(** The fraction in lowest terms. *)
Definition rat_num (q : Q) : Z := Qnum (Qred q).
Definition rat_den (q : Q) : positive := Qden (Qred q).

(** ** [Rat.SetString] on plain decimal text

    The program calls it on text [isDecimal] has accepted and on the constants of the burn-rate
    table. Both are digits, optionally a dot and more digits; on those the result is the number
    the text denotes. *)
Fixpoint split_dot (s : string) : string * option string :=
  match s with
  | EmptyString => (EmptyString, None)
  | String c s' =>
      if code c =? 46 then (EmptyString, Some s')
      else let '(a, b) := split_dot s' in (String c a, b)
  end.

Definition SetString (s : string) : option Q :=
  match split_dot s with
  | (ip, None) => match ip with EmptyString => None | _ => v ← digits_value 0 ip; Some (inject_Z v) end
  | (ip, Some fp) =>
      match ip, fp with
      | EmptyString, _ | _, EmptyString => None
      | _, _ =>
          v ← digits_value 0 ip;
          w ← digits_value v fp;
          Some (w # Z.to_pos (10 ^ len fp))%Q
      end
  end.

(** ** [Rat.FloatPrec] and [Rat.FloatString] *)
Fixpoint count_factor (fuel : nat) (f n : Z) : nat :=
  match fuel with
  | O => O
  | S fuel' => if n mod f =? 0 then S (count_factor fuel' f (n / f)) else O
  end.

Definition factors (f : Z) (d : positive) : nat := count_factor (Pos.size_nat d) f (Zpos d).

(** How many decimals the fraction needs, and whether a finite number of them is exact. *)
Definition FloatPrec (q : Q) : nat * bool :=
  let d := rat_den q in
  let p2 := factors 2 d in
  let p5 := factors 5 d in
  (Nat.max p2 p5, Zpos d =? 2 ^ Z.of_nat p2 * 5 ^ Z.of_nat p5).

(** Rounded to [places] decimals, halves away from zero. *)
Definition FloatString (q : Q) (places : nat) : string :=
  let num := rat_num q in
  let den := Zpos (rat_den q) in
  sign_text (num <? 0) +:+
  fixed_text ((2 * Z.abs num * 10 ^ Z.of_nat places + den) / (2 * den)) places.

(** [Rat.Float64]: the nearest float64. *)
Definition Float64 (q : Q) : float64 :=
  match rat_num q with
  | Z0 => fzero
  | Zpos n => float_of_quot false n (rat_den q)
  | Zneg n => float_of_quot true n (rat_den q)
  end.

(** *** Terminating decimals *)

(** [q] is a whole number of [10^-k] for some [k]. *)
Definition terminating (q : Q) : Prop := exists k, 0 <= k /\ (Zpos (rat_den q) | 10 ^ k).

#[export] Instance rat_num_proper : Proper (Qeq ==> eq) rat_num.
Proof. intros p q H. unfold rat_num. by rewrite (Qred_complete _ _ H). Qed.
#[export] Instance rat_den_proper : Proper (Qeq ==> eq) rat_den.
Proof. intros p q H. unfold rat_den. by rewrite (Qred_complete _ _ H). Qed.
#[export] Instance terminating_proper : Proper (Qeq ==> iff) terminating.
Proof. intros p q H. unfold terminating. by rewrite (rat_den_proper p q H). Qed.

Lemma rat_eq q : (rat_num q # rat_den q == q)%Q.
Proof. unfold rat_num, rat_den. destruct (Qred q) eqn:E. cbn. rewrite <- E. apply Qred_correct. Qed.

(** [rat_den q] divides every denominator of [q]. *)
Lemma rat_den_divides n d : (Zpos (rat_den (n # d)) | Zpos d).
Proof.
  unfold rat_den, Qred. pose proof (Z.ggcd_gcd n (Zpos d)) as Hg.
  pose proof (Z.ggcd_correct_divisors n (Zpos d)) as Hd.
  destruct (Z.ggcd n (Zpos d)) as [g [aa bb]]. cbn [fst] in Hg. destruct Hd as [_ Hd].
  cbn [snd Qden]. assert (0 <= g) by (subst g; apply Z.gcd_nonneg).
  assert (0 < bb) by nia. rewrite Z2Pos.id by done. exists g. lia.
Qed.

Lemma terminating_intro n d k : 0 <= k -> (Zpos d | 10 ^ k) -> terminating (n # d).
Proof. intros Hk Hd. exists k. split; [done|]. eapply Z.divide_trans; [apply rat_den_divides|done]. Qed.

Lemma terminating_elim q : terminating q -> exists k n, 0 <= k /\ (q == n # Z.to_pos (10 ^ k))%Q.
Proof.
  intros (k & Hk & m & Hm). exists k, (rat_num q * m). split; [done|].
  pose proof (Z.pow_pos_nonneg 10 k ltac:(lia) Hk) as Hp. rewrite <- (rat_eq q) at 1.
  unfold Qeq; cbn [Qnum Qden]. rewrite Z2Pos.id by done. rewrite Hm. ring.
Qed.

Lemma terminating_plus p q : terminating p -> terminating q -> terminating (p + q).
Proof.
  intros (k & n & Hk & ->)%terminating_elim (l & m & Hl & ->)%terminating_elim. unfold Qplus.
  apply (terminating_intro _ _ (k + l)); [lia|].
  pose proof (Z.pow_pos_nonneg 10 k ltac:(lia) Hk). pose proof (Z.pow_pos_nonneg 10 l ltac:(lia) Hl).
  cbn [Qden]. rewrite Pos2Z.inj_mul, !Z2Pos.id, Z.pow_add_r by lia. apply Z.divide_refl.
Qed.

Lemma terminating_mult p q : terminating p -> terminating q -> terminating (p * q).
Proof.
  intros (k & n & Hk & ->)%terminating_elim (l & m & Hl & ->)%terminating_elim. unfold Qmult.
  apply (terminating_intro _ _ (k + l)); [lia|].
  pose proof (Z.pow_pos_nonneg 10 k ltac:(lia) Hk). pose proof (Z.pow_pos_nonneg 10 l ltac:(lia) Hl).
  cbn [Qden]. rewrite Pos2Z.inj_mul, !Z2Pos.id, Z.pow_add_r by lia. apply Z.divide_refl.
Qed.

Lemma terminating_opp q : terminating q -> terminating (- q).
Proof.
  intros (k & n & Hk & ->)%terminating_elim. unfold Qopp. cbn [Qnum Qden].
  apply (terminating_intro _ _ k); [done|].
  pose proof (Z.pow_pos_nonneg 10 k ltac:(lia) Hk). rewrite Z2Pos.id by done. apply Z.divide_refl.
Qed.

(** *** Text of a terminating decimal *)

Lemma count_factor_spec fuel f n :
  1 < f -> 0 < n -> n < 2 ^ Z.of_nat fuel ->
  exists m, n = f ^ Z.of_nat (count_factor fuel f n) * m /\ 0 < m /\ ~ (f | m).
Proof.
  intros Hf. revert n. induction fuel as [|fuel IH]; intros n Hn Hlt; cbn [count_factor].
  - change (2 ^ Z.of_nat 0) with 1 in Hlt. lia.
  - destruct (Z.eqb_spec (n mod f) 0) as [Hz|Hnz].
    + pose proof (Z.div_mod n f ltac:(lia)) as Hdm. rewrite Hz, Z.add_0_r in Hdm.
      rewrite Nat2Z.inj_succ, Z.pow_succ_r in Hlt by lia.
      destruct (IH (n / f)) as (m & Hm & Hm0 & Hnd); [nia..|].
      exists m. rewrite Nat2Z.inj_succ, Z.pow_succ_r by lia.
      split; [rewrite Hdm at 1; rewrite Hm at 1; ring|done].
    + exists n. change (f ^ Z.of_nat 0) with 1. split; [lia|]. split; [done|].
      intros Hd. apply Hnz. by apply Z.mod_divide; [lia|].
Qed.

Lemma size_nat_bound d : Zpos d < 2 ^ Z.of_nat (Pos.size_nat d).
Proof.
  induction d as [d IH|d IH|]; cbn [Pos.size_nat]; rewrite ?Nat2Z.inj_succ, ?Z.pow_succ_r by lia; lia.
Qed.

Lemma gcd_2_5 p m : p = 2 \/ p = 5 -> ~ (p | m) -> Z.gcd m p = 1.
Proof.
  intros Hp Hn. pose proof (Z.gcd_nonneg m p) as H0.
  destruct (Z.gcd_divide_r m p) as [q Hq]. pose proof (Z.gcd_divide_l m p) as Hl.
  assert (Hg : Z.gcd m p = 1 \/ Z.gcd m p = p); [|destruct Hg as [|Hg]; [done|by rewrite Hg in Hl]].
  set (g := Z.gcd m p) in *. clearbody g.
  assert (g <> 0) by (intros ->; lia).
  assert (g <= p) by (apply Z.divide_pos_le; [lia|by exists q]).
  assert (g = 1 \/ g = 2 \/ g = 3 \/ g = 4 \/ g = 5) as [-> | [-> | [-> | [-> | ->]]]] by lia; lia.
Qed.

(** [FloatPrec] calls a terminating fraction exact, and its precision is enough. *)
Lemma FloatPrec_terminating q :
  terminating q -> exists p m, FloatPrec q = (p, true) /\
    10 ^ Z.of_nat p = Zpos (rat_den q) * m /\ 0 < m.
Proof.
  intros (k & Hk & Hd). unfold FloatPrec. set (d := rat_den q) in *.
  destruct (count_factor_spec (Pos.size_nat d) 2 (Zpos d)) as (m2 & H2 & Hm2 & Hn2);
    [lia|lia|apply size_nat_bound|].
  destruct (count_factor_spec (Pos.size_nat d) 5 (Zpos d)) as (m5 & H5 & Hm5 & Hn5);
    [lia|lia|apply size_nat_bound|].
  fold (factors 2 d) in H2. fold (factors 5 d) in H5.
  set (a := factors 2 d) in *. set (b := factors 5 d) in *.
  assert (Hrel : Z.gcd (5 ^ Z.of_nat b) (2 ^ Z.of_nat a) = 1).
  { apply Z.coprime_pow_l, Z.coprime_pow_r; [lia..|reflexivity]. }
  assert (H5m2 : (5 ^ Z.of_nat b | m2)).
  { apply (Z.gauss _ (2 ^ Z.of_nat a)); [|done]. rewrite <- H2. exists m5. rewrite H5 at 1. ring. }
  destruct H5m2 as [r Hr].
  assert (Hden : Zpos d = 2 ^ Z.of_nat a * 5 ^ Z.of_nat b * r) by (rewrite H2 at 1; rewrite Hr; ring).
  assert (Hr0 : 0 < r) by (pose proof (Z.pow_pos_nonneg 5 (Z.of_nat b)); nia).
  assert (Hr2 : ~ (2 | r)). { intros [x Hx]. apply Hn2. exists (x * 5 ^ Z.of_nat b). rewrite Hr, Hx. ring. }
  assert (Hr5 : ~ (5 | r)).
  { intros [x Hx]. apply Hn5.
    assert (Heq : 5 ^ Z.of_nat b * m5 = 5 ^ Z.of_nat b * (2 ^ Z.of_nat a * r)) by (rewrite <- H5, Hden; ring).
    apply Z.mul_cancel_l in Heq; [|pose proof (Z.pow_pos_nonneg 5 (Z.of_nat b)); lia].
    rewrite Heq, Hx. exists (2 ^ Z.of_nat a * x). ring. }
  assert (Hr10 : Z.gcd r (10 ^ k) = 1).
  { apply Z.coprime_pow_r; [done|]. change 10 with (2 * 5).
    apply Z.coprime_mul_r; apply gcd_2_5; auto. }
  assert (Hr1 : r = 1).
  { assert (H1 : (r | 1)).
    { apply (Z.gauss _ (10 ^ k)); [|done]. rewrite Z.mul_1_r. eapply Z.divide_trans; [|exact Hd].
      rewrite Hden. apply Z.divide_factor_r. }
    apply Z.divide_1_r in H1. lia. }
  subst r. rewrite Z.mul_1_r in Hden.
  exists (Nat.max a b), (2 ^ Z.of_nat (Nat.max a b - a) * 5 ^ Z.of_nat (Nat.max a b - b)).
  split; [by rewrite Hden, Z.eqb_refl|]. split.
  - rewrite Hden. change 10 with (2 * 5). rewrite Z.pow_mul_l.
    assert (Hsplit : forall f n, 2 <= f -> (n <= Nat.max a b)%nat ->
              f ^ Z.of_nat (Nat.max a b) = f ^ Z.of_nat n * f ^ Z.of_nat (Nat.max a b - n)).
    { intros f n Hf Hn. rewrite <- Z.pow_add_r by lia. f_equal. lia. }
    rewrite (Hsplit 2 a), (Hsplit 5 b) by lia. ring.
  - pose proof (Z.pow_pos_nonneg 2 (Z.of_nat (Nat.max a b - a))).
    pose proof (Z.pow_pos_nonneg 5 (Z.of_nat (Nat.max a b - b))). nia.
Qed.

Lemma strip_digit_dot c : is_digit c = true -> (code c =? 46) = false.
Proof. intros H%is_digit_code. lia. Qed.

Lemma split_dot_digits ip fp :
  all_digits ip = true -> split_dot (ip +:+ "." +:+ fp) = (ip, Some fp).
Proof.
  change ("." +:+ fp) with (String "." fp).
  unfold all_digits. induction ip as [|c s IH]; simpl; [done|].
  intros [Hc Hs]%andb_true_iff. by rewrite strip_digit_dot, IH.
Qed.

Lemma split_dot_no_dot s : all_digits s = true -> split_dot s = (s, None).
Proof.
  unfold all_digits. induction s as [|c s IH]; simpl; [done|].
  intros [Hc Hs]%andb_true_iff. by rewrite strip_digit_dot, IH.
Qed.

(** [SetString] reads back what [fixed_text] writes. *)
Lemma SetString_fixed_text n places :
  0 <= n -> exists q, SetString (fixed_text n places) = Some q /\
    (q == n # Z.to_pos (10 ^ Z.of_nat places))%Q.
Proof.
  intros Hn. unfold fixed_text, SetString. destruct places as [|p].
  - rewrite split_dot_no_dot by apply dec_all_digits.
    destruct (dec_cons n) as (c & s & Hs & _). pose proof (dec_value n 0 Hn) as Hv. rewrite Hs in *.
    rewrite Hv. by exists (inject_Z n).
  - set (k := S p). pose proof (Z.pow_pos_nonneg 10 (Z.of_nat k) ltac:(lia) ltac:(lia)) as Hk.
    rewrite split_dot_digits by apply dec_all_digits.
    pose proof (dec_value (n / 10 ^ Z.of_nat k) 0 ltac:(apply Z.div_pos; lia)) as Hv.
    destruct (dec_cons (n / 10 ^ Z.of_nat k)) as (c & s & Hs & _). rewrite Hs in *.
    pose proof (digits_fixed_length k (n mod 10 ^ Z.of_nat k)) as Hl.
    pose proof (digits_fixed_value k (n mod 10 ^ Z.of_nat k)) as Hd.
    destruct (digits_fixed k (n mod 10 ^ Z.of_nat k)) as [|c' s'] eqn:E; [done|].
    rewrite Hv. cbn [mbind option_bind]. rewrite Hd. cbn [mbind option_bind].
    eexists. split; [reflexivity|]. unfold len. rewrite Hl.
    rewrite Z.mul_0_l, Z.add_0_l, Z.mod_mod by lia.
    rewrite (Z.mul_comm (n / _)), <- Z.div_mod by lia. reflexivity.
Qed.

(** Rounding to enough decimals is exact, so the text is read back as the fraction itself. *)
Theorem SetString_FloatString q :
  terminating q -> (0 <= q)%Q ->
  exists q', SetString (FloatString q (FloatPrec q).1) = Some q' /\ (q' == q)%Q.
Proof.
  intros Ht Hq. destruct (FloatPrec_terminating q Ht) as (p & m & -> & Hm & Hm0). cbn [fst].
  assert (Hnum : 0 <= rat_num q).
  { rewrite <- (rat_eq q) in Hq. unfold Qle in Hq. cbn in Hq. lia. }
  unfold FloatString. destruct (Z.ltb_spec (rat_num q) 0); [lia|]. cbn [sign_text append].
  set (d := Zpos (rat_den q)) in *. rewrite Z.abs_eq by done.
  assert (Hn : (2 * rat_num q * 10 ^ Z.of_nat p + d) / (2 * d) = rat_num q * m).
  { rewrite Hm. replace (2 * rat_num q * (d * m) + d) with (d + rat_num q * m * (2 * d)) by ring.
    rewrite Z.div_add, Z.div_small by lia. lia. }
  rewrite Hn.
  destruct (SetString_fixed_text (rat_num q * m) p ltac:(nia)) as (q' & Hs & Heq).
  exists q'. split; [done|]. rewrite Heq. transitivity (rat_num q # rat_den q)%Q; [|apply rat_eq].
  unfold Qeq; cbn [Qnum Qden].
  rewrite Z2Pos.id, Hm by (rewrite Hm; lia). unfold d. ring.
Qed.
