(* ===== verification/Api.v ===== *)
(** * The ServiceClaim API ([api/v1alpha1])

    The claim a developer writes, the status the controller writes back, and the checks the API
    server makes before either program sees a claim: the validation markers of the CRD. *)
From Stdlib Require Import ZArith QArith Lia Ascii String SpecFloat.
From S2P Require Import Prelude Rounding GoFloat GoStrings GoStrconv GoRat.
Local Open Scope Z_scope.
Local Open Scope stdpp_scope.

(** ** Constants *)

Definition ConditionResourcesSynced : string := "ResourcesSynced".
Definition ConditionSLOHealthy : string := "SLOHealthy".
Definition ConditionDeploysFrozen : string := "DeploysFrozen".
Definition ConditionStorageReady : string := "StorageReady".
Definition ConditionReady : string := "Ready".

Definition SLIHTTPAvailability : string := "http-availability".
Definition SLIHTTPLatency : string := "http-latency".

Definition TierPublic : string := "public".
Definition TierInternal : string := "internal".
Definition TierBatch : string := "batch".

Definition GroupVersion : string := "platform.paved.dev/v1alpha1".

(** [metav1.ConditionStatus] is a string type with three named values. *)
Definition ConditionTrue : string := "True".
Definition ConditionFalse : string := "False".
Definition ConditionUnknown : string := "Unknown".

(** ** Spec *)

Record SLISpec := mkSLISpec {
  sli_Type : string;
  GoodStatuses : list Z;         (* []int32 *)
  LatencyThreshold : string
}.

Record SLOSpec := mkSLOSpec {
  Objective : string;
  Window : string
}.

Record ScaleSpec := mkScaleSpec {
  scale_Min : Z;                 (* int32 *)
  scale_Max : Z                  (* int32 *)
}.

Record ServiceClaimSpec := mkServiceClaimSpec {
  Owner : string;
  Image : string;
  Port : Z;                      (* int32 *)
  Tier : string;
  SLI : SLISpec;
  SLO : SLOSpec;
  Scale : ScaleSpec;
  Storage : bool
}.

(** ** Status *)

(** [metav1.Condition]. A time is a number of seconds; the program only stores it. *)
Record Condition := mkCondition {
  cond_Type : string;
  cond_Status : string;
  cond_Reason : string;
  cond_Message : string;
  cond_ObservedGeneration : Z;   (* int64 *)
  cond_LastTransitionTime : Z
}.

Record StorageStatus := mkStorageStatus {
  status_Bucket : string;
  status_RoleARN : string
}.

Record ServiceClaimStatus := mkServiceClaimStatus {
  Conditions : list Condition;
  ErrorBudgetRemaining : string;
  BurnRate1h : string;
  ManagedResources : Z;
  status_ObservedGeneration : Z;
  LastReconcileTime : option Z;
  status_Storage : option StorageStatus
}.

(** The claim with the part of its object metadata the program reads. A zero deletion timestamp
    is [None]. *)
Record ServiceClaim := mkServiceClaim {
  Name : string;
  Namespace : string;
  claim_Labels : gmap string string;
  Annotations : gmap string string;
  Generation : Z;                (* int64 *)
  DeletionTimestamp : option Z;
  Finalizers : list string;
  Spec : ServiceClaimSpec;
  Status : ServiceClaimStatus
}.

Definition empty_status : ServiceClaimStatus := mkServiceClaimStatus [] "" "" 0 0 None None.

#[export] Instance condition_eq_dec : EqDecision Condition.
Proof. solve_decision. Defined.

(** ** What the CRD validates *)

(** [Pattern=`^[0-9]+(\.[0-9]+)?$`] *)
Fixpoint skip_digits (s : string) : bool * string :=
  match s with
  | String c s' => if is_digit c then (true, (skip_digits s').2) else (false, s)
  | EmptyString => (false, s)
  end.

Definition matches_objective_pattern (s : string) : bool :=
  match skip_digits s with
  | (true, EmptyString) => true
  | (true, String c s') =>
      (code c =? 46) && match skip_digits s' with (true, EmptyString) => true | _ => false end
  | (false, _) => false
  end.

(** CEL's [double(self) >= 90.0 && double(self) < 100.0]: [double] of a string is
    [strconv.ParseFloat]. *)
Definition objective_in_range (s : string) : bool :=
  match ParseFloat s with
  | Some f => fleb (float_of_Z 90) f && fltb f (float_of_Z 100)
  | None => false
  end.

Definition one_of (s : string) (xs : list string) : bool := existsb (String.eqb s) xs.

(** Every validation marker of the CRD on a new claim. *)
Definition crd_valid (sc : ServiceClaim) : bool :=
  let sp := Spec sc in
  (1 <=? len (Owner sp)) && (1 <=? len (Image sp)) &&
  (1 <=? Port sp) && (Port sp <=? 65535) &&
  one_of (Tier sp) [TierPublic; TierInternal; TierBatch] &&
  one_of (sli_Type (SLI sp)) [SLIHTTPAvailability; SLIHTTPLatency] &&
  matches_objective_pattern (Objective (SLO sp)) && objective_in_range (Objective (SLO sp)) &&
  one_of (Window (SLO sp)) ["7d"; "28d"; "30d"] &&
  (1 <=? scale_Min (Scale sp)) && (1 <=? scale_Max (Scale sp)) &&
  (negb (Storage sp) || (len (Name sc) <=? 48)).
