(* ===== verification/Budget.v ===== *)
(** * Error budgets ([internal/slo/budget.go])

    An objective such as 99.5 gives an exact budget, 1/200; an error ratio read from Prometheus
    is a float64, and so are the burn rate and the share of the budget left. *)
From Stdlib Require Import ZArith QArith Lqa Lia Ascii String SpecFloat.
From S2P Require Import Prelude Rounding GoFloat GoStrings GoStrconv GoRat Api.
Local Open Scope Z_scope.
Local Open Scope stdpp_scope.

(** ** Definitions *)

(** [isDecimal]: the loop over the text with its three flags. A byte outside ASCII belongs to a
    rune that is neither a digit nor a dot, so going byte by byte changes nothing. *)
Fixpoint isDecimal_go (seenDigit seenDot digitAfterDot : bool) (s : string) : bool :=
  match s with
  | EmptyString => seenDigit && (negb seenDot || digitAfterDot)
  | String r s' =>
      if is_digit r then isDecimal_go true seenDot (if seenDot then true else digitAfterDot) s'
      else if (code r =? 46) && seenDigit && negb seenDot then isDecimal_go seenDigit true digitAfterDot s'
      else false
  end.
Definition isDecimal (s : string) : bool := isDecimal_go false false false s.

Definition ErrorBudget `{UnicodePrint} (objective : string) : result Q :=
  if negb (isDecimal objective) then
    Err (ErrorString ("objective " +:+ Quote objective +:+ " is not a plain decimal number"))
  else
    match SetString objective with
    | None => Err (ErrorString ("objective " +:+ Quote objective +:+ " is not a plain decimal number"))
    | Some percent =>
        if negb (Qle_bool 90 percent) || Qle_bool 100 percent then
          Err (ErrorString ("objective " +:+ Quote objective +:+ " must be at least 90 and less than 100"))
        else
          let target := (percent / 100)%Q in
          Ok (1 - target)%Q
    end.

Record BudgetUse := mkBudgetUse {
  Consumed : float64;
  Remaining : float64
}.

(** [budget] is a pointer: [None] is nil. *)
Definition BurnRate (errorRatio : float64) (budget : option Q) : result float64 :=
  match budget with
  | Some b =>
      if Qle_bool b 0 then
        Err (ErrorString "error budget must be greater than zero; an objective of 100 leaves no budget to spend")
      else if is_nan errorRatio || is_inf errorRatio then
        Err (ErrorString ("error ratio " +:+ FormatG errorRatio +:+ " is not a number"))
      else Ok (fdiv (fmax errorRatio fzero) (Float64 b))
  | None =>
      Err (ErrorString "error budget must be greater than zero; an objective of 100 leaves no budget to spend")
  end.

Definition SpendBudget (errorRatio : float64) (budget : option Q) : result BudgetUse :=
  rate ← BurnRate errorRatio budget;
  Ok {| Consumed := rate; Remaining := fmin (fmax (fsub fone rate) fzero) fone |}.

Definition FormatPercent (fraction : float64) : string :=
  FormatFixed (fmul fraction (float_of_Z 100)) 1 +:+ "%".

Definition FormatBurnRate (rate : float64) : string := FormatFixed rate 2.

Definition Decimal (r : Q) : string :=
  let '(digits, exact) := FloatPrec r in
  FloatString r (if exact then digits else 12%nat).

(** ** Lemmas *)

Lemma isDecimal_after_dot dad s :
  isDecimal_go true true dad s =
  match skip_digits s with (b, EmptyString) => b || dad | _ => false end.
Proof.
  revert dad. induction s as [|c s IH]; intros dad; simpl; [by destruct dad|].
  destruct (is_digit c); simpl.
  - rewrite IH. destruct (skip_digits s) as [b [|]]; simpl; [by rewrite orb_true_r|done].
  - by rewrite andb_false_r.
Qed.

Lemma isDecimal_digits s :
  isDecimal_go true false false s =
  match (skip_digits s).2 with
  | EmptyString => true
  | String c s' => (code c =? 46) && match skip_digits s' with (true, EmptyString) => true | _ => false end
  end.
Proof.
  induction s as [|c s IH]; simpl; [done|].
  destruct (is_digit c); simpl; [exact IH|]. rewrite !andb_true_r.
  destruct (code c =? 46); simpl; [|done]. rewrite isDecimal_after_dot.
  destruct (skip_digits s) as [[] [|]]; done.
Qed.

(** The scanner accepts exactly what the CRD's pattern accepts. *)
Lemma isDecimal_matches s : isDecimal s = matches_objective_pattern s.
Proof.
  unfold isDecimal, matches_objective_pattern. destruct s as [|c s]; simpl; [done|].
  destruct (is_digit c); simpl; [|by rewrite andb_false_r].
  rewrite isDecimal_digits. by destruct (skip_digits s).2.
Qed.

Lemma skip_digits_value s acc :
  (skip_digits s).2 = EmptyString -> exists v, digits_value acc s = Some v.
Proof.
  revert acc. induction s as [|c s IH]; intros acc; simpl; [by eexists|].
  destruct (is_digit c); simpl; [|done]. apply IH.
Qed.

Lemma digits_value_nonneg s acc v : 0 <= acc -> digits_value acc s = Some v -> 0 <= v.
Proof.
  revert acc. induction s as [|c s IH]; intros acc Ha; simpl; [by intros [= <-]|].
  destruct (is_digit c) eqn:Hd; [|done]. apply is_digit_code in Hd. apply IH. lia.
Qed.

(** The shape of accepted text, and the value [SetString] gives it. *)
Lemma isDecimal_shape s :
  isDecimal s = true ->
  exists p, SetString s = Some p /\ (0 <= p)%Q /\ terminating p.
Proof.
  rewrite isDecimal_matches. unfold matches_objective_pattern, SetString.
  assert (Hsd : forall t, match (skip_digits t).2 with
            | EmptyString => split_dot t = (t, None)
            | String c r => (code c =? 46) = true -> exists ip, split_dot t = (ip, Some r) /\ t = ip +:+ String c r /\
                            ((skip_digits t).1 = true -> ip <> EmptyString) /\ (skip_digits ip).2 = EmptyString
            end).
  { induction t as [|c t IH]; simpl; [done|]. destruct (is_digit c) eqn:Hc; simpl.
    - rewrite strip_digit_dot by done. destruct ((skip_digits t).2) as [|d r].
      + by rewrite IH.
      + intros Hd. destruct (IH Hd) as (ip & -> & -> & _ & Hip). exists (String c ip).
        simpl. rewrite Hc. auto.
    - intros ->. exists EmptyString. repeat split. done. }
  specialize (Hsd s). destruct (skip_digits s) as [b rest] eqn:Es. simpl in Hsd.
  destruct b; [|done]. destruct rest as [|c r].
  - intros _. rewrite Hsd. destruct s as [|c s]; [done|].
    destruct (skip_digits_value (String c s) 0) as [v Hv]; [by rewrite Es|].
    rewrite Hv. exists (inject_Z v). pose proof (digits_value_nonneg _ _ _ (Z.le_refl 0) Hv).
    split; [done|]. split; [unfold Qle; simpl; lia|]. apply (terminating_intro v 1 0); [done|by exists 1].
  - destruct (code c =? 46) eqn:Ec; [|done]. simpl.
    destruct (Hsd eq_refl) as (ip & -> & -> & Hne & Hip).
    destruct (skip_digits r) as [br rr] eqn:Er. destruct br; [|done]. destruct rr; [|done]. intros _.
    destruct (skip_digits_value ip 0 Hip) as [v Hv].
    destruct (skip_digits_value r v) as [w Hw]; [by rewrite Er|].
    specialize (Hne eq_refl). destruct ip as [|ci ip]; [done|]. destruct r as [|cr r]; [done|].
    rewrite Hv. cbn [mbind option_bind]. rewrite Hw. cbn [mbind option_bind].
    eexists. split; [reflexivity|].
    pose proof (digits_value_nonneg _ _ _ (Z.le_refl 0) Hv) as Hv0.
    pose proof (digits_value_nonneg _ _ _ Hv0 Hw).
    split; [unfold Qle; simpl; lia|].
    apply (terminating_intro _ _ (len (String cr r))); [unfold len; lia|].
    rewrite Z2Pos.id; [apply Z.divide_refl|]. apply Z.pow_pos_nonneg; unfold len; lia.
Qed.

Lemma terminating_inv_100 : terminating (/ 100).
Proof. apply (terminating_intro 1 100 2); [lia|]. by exists 1. Qed.

Lemma ErrorBudget_inv `{UnicodePrint} s b :
  ErrorBudget s = Ok b ->
  exists p, isDecimal s = true /\ SetString s = Some p /\ (90 <= p)%Q /\ (p < 100)%Q /\
    b = (1 - p / 100)%Q /\ terminating b.
Proof.
  unfold ErrorBudget. destruct (isDecimal s) eqn:Hd; simpl; [|done].
  destruct (isDecimal_shape s Hd) as (p & -> & Hp & Ht).
  destruct (Qle_bool 90 p) eqn:H90; [|done]. destruct (Qle_bool 100 p) eqn:H100; [done|]. simpl.
  intros [= <-]. exists p. apply Qle_bool_iff in H90.
  assert (~ (100 <= p)%Q) by (rewrite <- Qle_bool_iff; congruence).
  repeat split; try done; [lra|].
  unfold Qminus, Qdiv. apply terminating_plus; [by apply (terminating_intro 1 1 0); [|exists 1]|].
  apply terminating_opp, terminating_mult; [done|apply terminating_inv_100].
Qed.

Lemma ErrorBudget_Ok_bounds `{UnicodePrint} s b :
  ErrorBudget s = Ok b -> (0 < b)%Q /\ (b <= 1 # 10)%Q /\ terminating b.
Proof.
  intros (p & _ & _ & H1 & H2 & -> & Ht)%ErrorBudget_inv.
  assert (p / 100 == p * (1 # 100))%Q as E by reflexivity.
  repeat split; [| |done]; rewrite E; lra.
Qed.

(** The text of a terminating fraction reads back as the fraction. *)
Lemma Decimal_exact r :
  terminating r -> (0 <= r)%Q -> exists r', SetString (Decimal r) = Some r' /\ (r' == r)%Q.
Proof.
  intros Ht Hr. pose proof (SetString_FloatString r Ht Hr) as H. unfold Decimal.
  destruct (FloatPrec_terminating r Ht) as (p & m & Hp & _). by rewrite Hp in *.
Qed.

Lemma split_dot_len s ip fp : split_dot s = (ip, Some fp) -> len fp <= len s.
Proof.
  revert ip. induction s as [|c s IH]; intros ip; simpl; [done|]. unfold len in *. simpl.
  destruct (code c =? 46); [intros [= <- <-]; lia|].
  destruct (split_dot s) as [a b]. intros [= <- ->]. specialize (IH a eq_refl). lia.
Qed.

(** A value read from text of length [n] is a whole number of [10^-n]. *)
Lemma SetString_grid s p :
  SetString s = Some p -> exists w, (p == w # Z.to_pos (10 ^ len s))%Q.
Proof.
  assert (forall w n m, 0 <= n <= m -> exists w', (w # Z.to_pos (10 ^ n) == w' # Z.to_pos (10 ^ m))%Q) as Hg.
  { intros w n m Hn. exists (w * 10 ^ (m - n)). unfold Qeq; cbn [Qnum Qden].
    rewrite !Z2Pos.id by (apply Z.pow_pos_nonneg; lia).
    replace m with ((m - n) + n) at 1 by lia. rewrite Z.pow_add_r by lia. ring. }
  assert (0 <= len s) by (unfold len; lia).
  unfold SetString. destruct (split_dot s) as [ip [fp|]] eqn:E.
  - apply split_dot_len in E. destruct ip; [done|]. destruct fp as [|c fp]; [done|].
    destruct (digits_value 0 _); [|done]. cbn [mbind option_bind].
    destruct (digits_value _ _) as [w|]; [|done]. cbn [mbind option_bind]. intros [= <-].
    apply Hg. unfold len in *. simpl in *. lia.
  - destruct ip; [done|]. destruct (digits_value 0 _) as [v|]; [|done].
    cbn [mbind option_bind]. intros [= <-]. apply (Hg v 0). lia.
Qed.

(** The budget of an objective the CRD accepts is at least [10^-(n+2)], [n] the objective's
    length, so its float64 is a positive normal number for any objective of up to 300 bytes. *)
Lemma ErrorBudget_lower `{UnicodePrint} s b :
  ErrorBudget s = Ok b -> (1 # Z.to_pos (10 ^ (len s + 2)) <= b)%Q.
Proof.
  intros (p & _ & (w & Hw)%SetString_grid & _ & Hlt & -> & _)%ErrorBudget_inv.
  assert (0 <= len s) by (unfold len; lia).
  pose proof (Z.pow_pos_nonneg 10 (len s) ltac:(lia) ltac:(done)) as Hp.
  rewrite Hw in *. unfold Qlt in Hlt; cbn [Qnum Qden] in Hlt. rewrite Z2Pos.id in Hlt by done.
  rewrite Z.pow_add_r, Z.mul_comm by lia. rewrite Z2Pos.inj_mul by lia.
  change (Z.to_pos (10 ^ 2)) with 100%positive. set (d := Z.to_pos (10 ^ len s)) in *.
  assert (Zpos d = 10 ^ len s) as Hd by (unfold d; by rewrite Z2Pos.id).
  rewrite <- Hd in *. unfold Qle, Qminus, Qdiv, Qinv, Qmult, Qplus, Qopp; cbn [Qnum Qden]. nia.
Qed.

Lemma Float64_pos (b : Q) : (0 < b)%Q ->
  rounds_to b false (Float64 b).
Proof.
  intros Hb. unfold Float64. rewrite <- (rat_eq b) in Hb at 1.
  destruct (rat_num b) as [|n|n] eqn:E; unfold Qlt in Hb; cbn [Qnum Qden] in Hb; [lia| |lia].
  eapply rounds_to_eq; [|apply float_of_quot_rounds]. rewrite <- E. apply rat_eq.
Qed.

Lemma Float64_fpos (b : Q) :
  (1 # Z.to_pos (10 ^ 302) <= b)%Q -> (b <= 1)%Q -> fpos (Float64 b) = true.
Proof.
  intros Hlo Hhi. assert (0 < b)%Q as Hb.
  { eapply Qlt_le_trans; [|exact Hlo]. reflexivity. }
  pose proof (Float64_pos b Hb) as HR. pose proof (rounds_to_valid _ _ _ HR) as V.
  destruct (rounds_to_le b (Float64 b) fone HR) as [F Hle];
    [reflexivity|reflexivity|cbn; unfold Qle; simpl; lia|by rewrite fval_fone|].
  destruct (rounds_to_ge b (Float64 b) (S754_finite false (2 ^ 52) (-1074)) HR) as [E|[_ Hge]];
    [reflexivity|reflexivity|vm_compute; discriminate| | |].
  - eapply Qle_trans; [|exact Hlo]. vm_compute. discriminate.
  - rewrite E in F. discriminate.
  - assert (0 < fval (Float64 b))%Q as Hp by (eapply Qlt_le_trans; [|exact Hge]; reflexivity).
    destruct (Float64 b) as [| | |[] m e]; try discriminate; [|done].
    exfalso. revert Hp. cbn [fval signed]. change (Zneg m) with (- Zpos m)%Z. rewrite dval_opp.
    pose proof (dval_pos (Zpos m) e ltac:(lia)). lra.
Qed.

Lemma ErrorBudget_fpos `{UnicodePrint} s b :
  ErrorBudget s = Ok b -> len s <= 300 -> fpos (Float64 b) = true.
Proof.
  intros H1 Hl. apply Float64_fpos.
  - eapply Qle_trans; [|exact (ErrorBudget_lower s b H1)].
    unfold Qle; cbn [Qnum Qden]. assert (0 <= len s) by (unfold len; lia).
    rewrite !Z2Pos.id by (apply Z.pow_pos_nonneg; lia). rewrite !Z.mul_1_l.
    apply Z.pow_le_mono_r; lia.
  - destruct (ErrorBudget_Ok_bounds s b H1) as (_ & ? & _). lra.
Qed.

(** *** The share remaining, as a function of the burn rate *)

Definition remaining (rate : float64) : float64 := fmin (fmax (fsub fone rate) fzero) fone.

(** A burn rate: a non-negative float64, infinite when the division overflowed. *)
Definition nonneg (x : float64) : bool :=
  match x with S754_finite s _ _ => negb s && valid x | S754_zero _ | S754_infinity false => true | _ => false end.

Lemma fmax_rest x : fleb x fzero = true -> exists s, fmax x fzero = S754_zero s.
Proof. destruct x as [[]|[]| |[]]; simpl; try discriminate; eauto. Qed.

Lemma fmax_keeps x : is_nan x = false -> fleb x fzero = false -> fmax x fzero = x.
Proof. destruct x as [[]|[]| |[]]; simpl; try discriminate; eauto. Qed.

Lemma nonneg_fleb_finite x : nonneg x = true -> fleb x fone = true ->
  valid x = true /\ is_finite x = true /\ (0 <= fval x <= 1)%Q.
Proof.
  intros Hn Hle. destruct x as [s|[]| |[] m e]; try discriminate.
  - repeat split; unfold Qle; simpl; lia.
  - cbn [nonneg negb andb] in Hn. repeat split; [done| |].
    + pose proof (dval_pos (Zpos m) e ltac:(lia)). cbn [fval signed]. lra.
    + rewrite <- fval_fone. by apply fleb_fval.
Qed.

Lemma nonneg_total x : nonneg x = true -> fleb fone x = false -> fleb x fone = true.
Proof.
  intros Hn Hf. destruct x as [s|[]| |[] m e]; try done. cbn [nonneg negb andb] in Hn.
  apply fleb_false in Hf; try done. apply fleb_fval; try done. lra.
Qed.

(** Spent at rate 1 or more, nothing is left; below it, what is left is [1 - rate] rounded. *)
Lemma remaining_cases rate :
  nonneg rate = true ->
  (fleb fone rate = true /\ exists s, remaining rate = S754_zero s) \/
  (fleb fone rate = false /\ remaining rate = fsub fone rate /\
   fpos (remaining rate) = true /\ (fval (remaining rate) <= 1)%Q).
Proof.
  intros Hn. destruct (fleb fone rate) eqn:Hle.
  - left. split; [done|]. unfold remaining.
    assert (fleb (fsub fone rate) fzero = true) as Hs.
    { destruct rate as [s|[]| |[] m e]; try discriminate; [reflexivity|].
      by rewrite fsub_le_zero. }
    destruct (fmax_rest _ Hs) as [s ->]. exists s. by destruct s.
  - right. split; [done|]. pose proof (nonneg_total _ Hn Hle) as Hle'.
    destruct (nonneg_fleb_finite _ Hn Hle') as (V & F & Hb).
    destruct (fsub_le_left fone rate) as (F' & V' & Hd); try done; [by rewrite fval_fone|].
    pose proof (fsub_le_zero fone rate eq_refl V eq_refl F) as Hz. rewrite Hle in Hz.
    assert (fpos (fsub fone rate) = true) as Hp.
    { apply fleb_false in Hz; try done.
      destruct (fsub fone rate) as [s|s| |[] m e]; try discriminate; [|done].
      exfalso. revert Hz. change (Zneg m) with (- Zpos m)%Z. cbn [fval signed fzero].
      change (Zneg m) with (- Zpos m)%Z. rewrite dval_opp.
      pose proof (dval_pos (Zpos m) e ltac:(lia)). lra. }
    rewrite fval_fone in Hd. assert (remaining rate = fsub fone rate) as ->; [|done].
    unfold remaining. rewrite fmax_keeps by (done || by destruct (fsub fone rate)).
    destruct (fpos_inv _ Hp) as (_ & _ & _ & m & e & E).
    unfold fmin. rewrite compare_fval by done.
    destruct (fval (fsub fone rate) ?= fval fone)%Q eqn:C; [|done|].
    + rewrite E in *. cbn [sign_bit]. apply Qeq_alt in C.
      assert (SFcompare fone (S754_finite false m e) = Some Eq) as Hc.
      { rewrite compare_fval by done. f_equal. by apply Qeq_alt. }
      cbn in Hc. destruct e as [|e|e]; try discriminate.
      destruct (Pos.compare 52 e) eqn:Ce; try discriminate.
      apply Pos.compare_eq in Ce as <-. simpl in Hc.
      destruct (Pos.compare_cont Eq 4503599627370496 m) eqn:Cm; try discriminate.
      apply Pos.compare_eq in Cm as <-. reflexivity.
    + apply Qgt_alt in C. rewrite fval_fone in C. lra.
Qed.

Lemma remaining_mono rate rate' :
  nonneg rate = true -> nonneg rate' = true -> fleb rate rate' = true ->
  fleb (remaining rate') (remaining rate) = true.
Proof.
  intros Hn Hn' Hle.
  destruct (remaining_cases rate' Hn') as [[_ [s' ->]]|(Hr' & E' & P' & _)].
  - destruct (remaining_cases rate Hn) as [[_ [s ->]]|(_ & _ & P & _)]; [by destruct s, s'|].
    destruct (fpos_inv _ P) as (_ & _ & _ & m & e & ->). by destruct s'.
  - pose proof (nonneg_total _ Hn' Hr') as Hr1. destruct (nonneg_fleb_finite _ Hn' Hr1) as (V' & F' & B').
    assert (valid rate = true /\ is_finite rate = true /\ (fval rate <= fval rate')%Q) as (V & F & Hv).
    { destruct rate as [s|[]| |[] m e]; try discriminate.
      - split; [done|]. split; [done|]. cbn [fval]. lra.
      - destruct rate' as [[]|[]| |[] ? ?]; discriminate.
      - cbn [nonneg negb andb] in Hn. repeat split; try done. by apply fleb_fval. }
    apply fleb_false in Hr'; try done. rewrite fval_fone in Hr'.
    destruct (remaining_cases rate Hn) as [[Hr [s ->]]|(_ & E & P & _)].
    + apply fleb_fval in Hr; try done. rewrite fval_fone in Hr. lra.
    + rewrite E, E'.
      destruct (fsub_rounds fone rate eq_refl V eq_refl F) as (_ & HR & _).
      destruct (fsub_rounds fone rate' eq_refl V' eq_refl F') as (_ & HR' & _).
      rewrite fval_fone in HR, HR'. eapply rounds_to_mono; [apply HR'; lra|apply HR; lra|lra].
Qed.

(** *** The burn rate *)

Lemma fdiv_zero s y : fpos y = true -> exists s', fdiv (S754_zero s) y = S754_zero s'.
Proof. intros (_ & _ & _ & m & e & ->)%fpos_inv. by eexists. Qed.

Lemma fmax_zero_cases r :
  valid r = true -> is_finite r = true ->
  (fleb r fzero = true /\ exists s, fmax r fzero = S754_zero s) \/
  (fleb r fzero = false /\ fmax r fzero = r /\ fpos r = true).
Proof.
  intros V F. destruct (fleb r fzero) eqn:E; [left; split; [done|by apply fmax_rest]|right].
  split; [done|]. destruct r as [[]|s| |[] m e]; try discriminate. done.
Qed.

(** The quotient [BurnRate] returns, against a positive budget. *)
Definition rate_of (r y : float64) : float64 := fdiv (fmax r fzero) y.

Lemma rate_nonneg r y :
  valid r = true -> is_finite r = true -> fpos y = true -> nonneg (rate_of r y) = true.
Proof.
  intros V F Hy. unfold rate_of.
  destruct (fmax_zero_cases r V F) as [[_ [s ->]]|(_ & -> & P)].
  - destruct (fdiv_zero s y Hy) as [s' ->]. by destruct s'.
  - pose proof (fdiv_rounds r y P Hy) as HR. pose proof (rounds_to_valid _ _ _ HR) as VV.
    destruct HR as (R & e & HR & E). rewrite E in *.
    destruct (renorm_spec false _ R e HR) as [_ [[-> _]|(Hf & Hv & S)]]; [done|].
    destruct (renorm false R e) as [s|s| |s m e']; try done; cbn in S; subst s.
    unfold nonneg. by rewrite VV.
Qed.

Lemma rate_ge_one r y :
  valid r = true -> is_finite r = true -> fpos y = true -> fleb fone (rate_of r y) = fleb y r.
Proof.
  intros V F Hy. unfold rate_of.
  destruct (fmax_zero_cases r V F) as [[Hr [s ->]]|(_ & -> & P)]; [|by apply fdiv_ge_one].
  destruct (fdiv_zero s y Hy) as [s' ->]. symmetry.
  destruct (fpos_inv _ Hy) as (Vy & Fy & Py & _). apply fleb_fval in Hr; try done.
  cbn [fval fzero] in Hr. transitivity false; [|by destruct s']. apply fleb_false; try done. lra.
Qed.

Lemma rate_mono r r' y :
  valid r = true -> is_finite r = true -> valid r' = true -> is_finite r' = true ->
  fpos y = true -> fleb r r' = true -> fleb (rate_of r y) (rate_of r' y) = true.
Proof.
  intros V F V' F' Hy Hle. pose proof (rate_nonneg r' y V' F' Hy) as Hn. unfold rate_of in *.
  destruct (fmax_zero_cases r V F) as [[Hr [s ->]]|(Hr & -> & P)].
  - destruct (fdiv_zero s y Hy) as [s1 ->]. destruct (fdiv _ y) as [[]|[]| |[] m e]; try done; by destruct s1.
  - destruct (fmax_zero_cases r' V' F') as [[Hr' _]|(_ & -> & P')].
    + apply fleb_fval in Hle, Hr'; try done. apply fleb_false in Hr; try done.
      cbn [fval fzero] in *. lra.
    + by apply fdiv_mono.
Qed.

Lemma is_finite_split r : is_finite r = true <-> is_nan r || is_inf r = false.
Proof. unfold is_finite. destruct (is_nan r), (is_inf r); simpl; split; congruence. Qed.

Lemma BurnRate_Ok_iff r budget rate :
  BurnRate r budget = Ok rate <->
  exists b, budget = Some b /\ (0 < b)%Q /\ is_finite r = true /\ rate = rate_of r (Float64 b).
Proof.
  unfold BurnRate. destruct budget as [b|]; [|split; [done|by intros (? & ? & _)]].
  destruct (Qle_bool b 0) eqn:Hb.
  - apply Qle_bool_iff in Hb. split; [done|]. intros (b' & [= <-] & ? & _). lra.
  - assert (0 < b)%Q by (apply Qnot_le_lt; rewrite <- Qle_bool_iff; congruence).
    pose proof (is_finite_split r) as Hs. destruct (is_nan r || is_inf r); split; try done.
    + intros (? & _ & _ & F & _). by apply Hs in F.
    + intros [= <-]. exists b. repeat split; [done|]. by apply Hs.
    + by intros (b' & [= <-] & _ & _ & ->).
Qed.

Lemma SpendBudget_eq r b :
  (0 < b)%Q -> is_finite r = true ->
  SpendBudget r (Some b) = Ok {| Consumed := rate_of r (Float64 b); Remaining := remaining (rate_of r (Float64 b)) |}.
Proof.
  intros Hb F. unfold SpendBudget.
  assert (BurnRate r (Some b) = Ok (rate_of r (Float64 b))) as -> by (apply BurnRate_Ok_iff; eauto).
  done.
Qed.

(** ** Properties *)

(** C38: [ErrorBudget] accepts exactly the objectives that match the CRD's pattern and whose exact
    value lies in [90, 100); on those it returns 1 - objective/100 with no rounding, a fraction in
    (0, 1/10] with a finite decimal expansion. *)
Theorem ErrorBudget_correct `{UnicodePrint} (objective : string) :
  match ErrorBudget objective with
  | Ok b =>
      matches_objective_pattern objective = true /\
      (exists p, SetString objective = Some p /\ (90 <= p)%Q /\ (p < 100)%Q /\ (b == (100 - p) / 100)%Q) /\
      (0 < b)%Q /\ (b <= 1 # 10)%Q /\ terminating b
  | Err _ =>
      matches_objective_pattern objective = false \/
      exists p, SetString objective = Some p /\ ~ ((90 <= p)%Q /\ (p < 100)%Q)
  end.
Proof.
  destruct (ErrorBudget objective) as [b|e] eqn:E.
  - pose proof (ErrorBudget_inv _ _ E) as (p & Hd & Hs & H1 & H2 & Hb & _).
    split; [by rewrite <- isDecimal_matches|]. split; [|by eapply ErrorBudget_Ok_bounds].
    exists p. repeat split; try done. rewrite Hb. field.
  - rewrite <- isDecimal_matches. revert E. unfold ErrorBudget.
    destruct (isDecimal objective) eqn:Hd; [|by left]. right.
    destruct (isDecimal_shape _ Hd) as (p & Hs & _). rewrite Hs in E. exists p. split; [done|].
    intros [H1 H2]. simpl in E. apply Qle_bool_iff in H1. rewrite H1 in E.
    destruct (Qle_bool 100 p) eqn:H3; [|done]. apply Qle_bool_iff in H3. lra.
Qed.

(** C16: For an objective of up to 300 bytes and a finite error ratio, [SpendBudget] succeeds, what
    remains lies in [0, 1], and nothing remains exactly when the error ratio has reached the
    float64 nearest the budget: rounding in the division and the subtraction never shows an
    exhausted budget as left over, nor a budget with something left as exhausted. *)
Theorem SpendBudget_exhausted `{UnicodePrint} (objective : string) (b : Q) (r : float64) :
  ErrorBudget objective = Ok b -> len objective <= 300 -> valid r = true -> is_finite r = true ->
  exists use, SpendBudget r (Some b) = Ok use /\
    fleb fzero (Remaining use) = true /\ fleb (Remaining use) fone = true /\
    fleb (Remaining use) fzero = fleb (Float64 b) r.
Proof.
  intros Hb Hl V F. pose proof (ErrorBudget_fpos _ _ Hb Hl) as Hf.
  destruct (ErrorBudget_Ok_bounds _ _ Hb) as (Hp & _ & _).
  rewrite SpendBudget_eq by done. eexists. split; [reflexivity|]. cbn [Remaining].
  pose proof (rate_nonneg r _ V F Hf) as Hn. rewrite <- (rate_ge_one r _ V F Hf).
  destruct (remaining_cases _ Hn) as [[-> [s ->]]|(-> & _ & P & Hle)]; [by destruct s|].
  destruct (fpos_inv _ P) as (VV & FF & PP & _). repeat split.
  - apply fleb_fval; try done. cbn [fval fzero]. lra.
  - apply fleb_fval; try done. by rewrite fval_fone.
  - apply fleb_false; try done.
Qed.

#[local] Instance ascii_print : UnicodePrint := fun _ => false.

Lemma SpendBudget_exhausted_witness :
  exists use, SpendBudget (float_of_quot false 1 200) (Some (1 - 99.5 / 100)%Q) = Ok use /\
    fleb fzero (Remaining use) = true /\ fleb (Remaining use) fone = true /\
    fleb (Remaining use) fzero = fleb (Float64 (1 - 99.5 / 100)%Q) (float_of_quot false 1 200).
Proof.
  refine (SpendBudget_exhausted "99.5" (1 - 99.5 / 100)%Q (float_of_quot false 1 200) _ _ _ _); vm_compute; try reflexivity; discriminate.
Defined.

(** More errors never leave more budget: the share [SpendBudget] says remains is antitone in
    the error ratio, and a ratio of at most zero leaves the whole budget. *)
Theorem SpendBudget_antitone `{UnicodePrint} (objective : string) (b : Q) (r r' : float64) :
  ErrorBudget objective = Ok b -> len objective <= 300 ->
  valid r = true -> is_finite r = true -> valid r' = true -> is_finite r' = true -> fleb r r' = true ->
  exists use use', SpendBudget r (Some b) = Ok use /\ SpendBudget r' (Some b) = Ok use' /\
    fleb (Consumed use) (Consumed use') = true /\ fleb (Remaining use') (Remaining use) = true /\
    (fleb r fzero = true -> Remaining use = fone).
Proof.
  intros Hb Hl V F V' F' Hle. pose proof (ErrorBudget_fpos _ _ Hb Hl) as Hf.
  destruct (ErrorBudget_Ok_bounds _ _ Hb) as (Hp & _ & _).
  rewrite !SpendBudget_eq by done. do 2 eexists. split; [reflexivity|]. split; [reflexivity|].
  cbn [Remaining Consumed]. pose proof (rate_mono r r' _ V F V' F' Hf Hle) as Hm. split; [done|].
  split; [apply remaining_mono; try done; by apply rate_nonneg|].
  intros Hz. unfold rate_of. destruct (fmax_rest _ Hz) as [s ->].
  destruct (fdiv_zero s _ Hf) as [s' ->]. by destruct s'.
Qed.

Lemma SpendBudget_antitone_witness :
  exists use use', SpendBudget fzero (Some (1 - 99.5 / 100)%Q) = Ok use /\
    SpendBudget (float_of_quot false 1 400) (Some (1 - 99.5 / 100)%Q) = Ok use' /\
    fleb (Consumed use) (Consumed use') = true /\ fleb (Remaining use') (Remaining use) = true /\
    (fleb fzero fzero = true -> Remaining use = fone).
Proof.
  refine (SpendBudget_antitone "99.5" (1 - 99.5 / 100)%Q fzero (float_of_quot false 1 400) _ _ _ _ _ _ _);
    vm_compute; try reflexivity; discriminate.
Defined.

(** [BurnRate] returns a rate exactly for a positive budget and a ratio that is a finite
    number; a nil or spent-out budget, a NaN and an infinite ratio are errors. The rate is
    max(ratio, 0) over the float64 of the budget. *)
Theorem BurnRate_defined (r : float64) (budget : option Q) (rate : float64) :
  BurnRate r budget = Ok rate <->
  exists b, budget = Some b /\ (0 < b)%Q /\ is_nan r = false /\ is_inf r = false /\
    rate = fdiv (fmax r fzero) (Float64 b).
Proof.
  rewrite BurnRate_Ok_iff. unfold is_finite, rate_of.
  split; intros (b & -> & Hb & F & G); exists b; [split_andb; done|].
  destruct G as [-> ->]. by rewrite F.
Qed.

(** The text a rule shows for the budget reads back as the same fraction: no digit is lost. *)
Theorem budget_text_exact `{UnicodePrint} (objective : string) (b : Q) :
  ErrorBudget objective = Ok b ->
  exists b', SetString (Decimal b) = Some b' /\ (b' == b)%Q.
Proof.
  intros (Hp & _ & Ht)%ErrorBudget_Ok_bounds. apply Decimal_exact; [done|lra].
Qed.

Lemma budget_text_exact_witness :
  Decimal (1 - 99.5 / 100)%Q = "0.005" /\
  exists b', SetString (Decimal (1 - 99.5 / 100)%Q) = Some b' /\ (b' == (1 - 99.5 / 100))%Q.
Proof. split; [reflexivity|]. refine (budget_text_exact "99.5" _ _). reflexivity. Defined.

(** The comment on [ErrorBudget] says it accepts what the CRD accepts. The CRD compares the
    nearest float64, so it lets through an objective just under 90 that [ErrorBudget] refuses. *)
Lemma crd_accepts_more `{UnicodePrint} :
  let s := "89.999999999999999999" in
  matches_objective_pattern s = true /\ objective_in_range s = true /\ is_ok (ErrorBudget s) = false.
Proof. repeat split. Qed.
