(* ===== verification/Rules.v ===== *)
(** * Recording rules ([internal/slo/rules.go])

    The PromQL a claim's SLI turns into: one recording rule per window. The pattern of
    good statuses is read as the regular expression Prometheus takes it for, anchored at both ends
    ([matches], by derivatives, against [denotes]). *)
From Stdlib Require Import ZArith Lia Ascii String SpecFloat.
From S2P Require Import Prelude GoFloat GoStrings GoStrconv GoTime Api.
Local Open Scope Z_scope.
Local Open Scope stdpp_scope.

(** ** Definitions *)

Definition RequestsMetric : string := "http_requests_total".
Definition DurationMetric : string := "http_request_duration_seconds".
Definition LabelService : string := "service".
Definition LabelOwner : string := "owner".
Definition LabelTier : string := "tier".

Definition Windows : list string := ["5m"; "30m"; "1h"; "2h"; "6h"; "1d"; "3d"].

(** The fields of [monitoringv1.Rule] the program sets. *)
Record Rule := mkRule {
  Record_ : string;
  Alert : string;
  Expr : string;
  rule_Labels : gmap string string;
  rule_Annotations : gmap string string
}.

Definition RecordName (sliType window : string) : string :=
  "sli:" +:+ ReplaceAll sliType "-" "_" +:+ ":error_ratio_rate" +:+ window.

Definition RuleLabels (sc : ServiceClaim) : gmap string string :=
  map_of [(LabelService, Name sc); (LabelOwner, Owner (Spec sc)); (LabelTier, Tier (Spec sc))].

Definition goodStatusPattern (statuses : list Z) : result string :=
  match statuses with
  | [] => Err (ErrorString "goodStatuses is empty, so every request would count as an error")
  | _ => Ok (Join (map Itoa statuses) "|")
  end.

Section text.
Context `{UnicodePrint}.

Definition LatencyBucket (threshold : string) : result string :=
  match ParseDuration threshold with
  | Err err =>
      Err (WrapError (Sprintf ["latencyThreshold "; Quote threshold; " is not a duration: "; Error err]) err)
  | Ok d =>
      if d <=? 0 then Err (ErrorString (Sprintf ["latencyThreshold "; Quote threshold; " must be positive"]))
      else
        let le := FormatShortest (Seconds d) in
        Ok (if Contains le "." then le else le +:+ ".0")
  end.

Definition ErrorRatioExpr (sli : SLISpec) (namespace window : string) : result string :=
  let selector := Sprintf ["namespace="; Quote namespace] in
  if String.eqb (sli_Type sli) SLIHTTPAvailability then
    good ← goodStatusPattern (GoodStatuses sli);
    Ok (Sprintf ["(sum(rate("; RequestsMetric; "{"; selector; ",code!~"; Quote good; "}["; window;
                 "])) or vector(0))"; newline; "/"; newline;
                 "sum(rate("; RequestsMetric; "{"; selector; "}["; window; "]))"])
  else if String.eqb (sli_Type sli) SLIHTTPLatency then
    le ← LatencyBucket (LatencyThreshold sli);
    Ok (Sprintf ["1 - ("; newline; "  sum(rate("; DurationMetric; "_bucket{"; selector; ",le="; Quote le;
                 "}["; window; "]))"; newline; "  /"; newline; "  sum(rate("; DurationMetric; "_count{";
                 selector; "}["; window; "]))"; newline; ")"])
  else Err (ErrorString (Sprintf ["unsupported SLI type "; Quote (sli_Type sli)])).

Definition RecordingRules (sc : ServiceClaim) (namespace : string) : result (list Rule) :=
  collect (fun window =>
    expr ← ErrorRatioExpr (SLI (Spec sc)) namespace window;
    Ok {| Record_ := RecordName (sli_Type (SLI (Spec sc))) window;
          Alert := EmptyString;
          Expr := expr;
          rule_Labels := RuleLabels sc;
          rule_Annotations := ∅ |}) Windows.

(** ** Lemmas *)

(** Whether an SLI can be turned into PromQL at all. *)
Definition sli_ok (sli : SLISpec) : bool :=
  if String.eqb (sli_Type sli) SLIHTTPAvailability then
    match GoodStatuses sli with [] => false | _ => true end
  else if String.eqb (sli_Type sli) SLIHTTPLatency then
    match ParseDuration (LatencyThreshold sli) with Ok d => 0 <? d | Err _ => false end
  else false.

Lemma ErrorRatioExpr_ok sli namespace window :
  is_ok (ErrorRatioExpr sli namespace window) = sli_ok sli.
Proof.
  unfold ErrorRatioExpr, sli_ok. destruct (String.eqb _ SLIHTTPAvailability).
  - unfold goodStatusPattern. by destruct (GoodStatuses sli).
  - destruct (String.eqb _ SLIHTTPLatency); [|done]. unfold LatencyBucket.
    destruct (ParseDuration _) as [d|e]; [|done].
    destruct (Z.leb_spec d 0), (Z.ltb_spec 0 d); try lia; done.
Qed.

Lemma ErrorRatioExpr_text sli namespace window window' expr :
  ErrorRatioExpr sli namespace window = Ok expr ->
  exists expr', ErrorRatioExpr sli namespace window' = Ok expr'.
Proof.
  intros E. pose proof (ErrorRatioExpr_ok sli namespace window) as H1. rewrite E in H1.
  pose proof (ErrorRatioExpr_ok sli namespace window') as H2. rewrite <- H1 in H2.
  destruct (ErrorRatioExpr sli namespace window'); [eauto|done].
Qed.

Lemma RecordingRules_Ok_iff sc namespace rules :
  RecordingRules sc namespace = Ok rules <->
  Forall2 (fun w r => exists expr, ErrorRatioExpr (SLI (Spec sc)) namespace w = Ok expr /\
    r = {| Record_ := RecordName (sli_Type (SLI (Spec sc))) w; Alert := EmptyString; Expr := expr;
           rule_Labels := RuleLabels sc; rule_Annotations := ∅ |}) Windows rules.
Proof.
  unfold RecordingRules. rewrite collect_Ok.
  split; intros HF; (eapply Forall2_impl; [exact HF|]); intros w r;
    [intros (expr & H1 & [= H2])%bind_Ok|intros (expr & H1 & H2); apply bind_Ok];
    exists expr; split; congruence.
Qed.

Lemma RecordingRules_names sc namespace rules :
  RecordingRules sc namespace = Ok rules ->
  map Record_ rules = map (RecordName (sli_Type (SLI (Spec sc)))) Windows.
Proof.
  intros E%RecordingRules_Ok_iff. revert E. generalize Windows.
  induction 1 as [|w r ws rs (expr & _ & ->) _ IH]; simpl; congruence.
Qed.

Lemma RecordingRules_fails sc namespace :
  is_ok (RecordingRules sc namespace) = sli_ok (SLI (Spec sc)).
Proof.
  destruct (RecordingRules sc namespace) as [rules|e] eqn:E.
  - apply RecordingRules_Ok_iff in E. inversion E as [|? ? ? ? (expr & Hx & _)]; subst.
    rewrite <- (ErrorRatioExpr_ok _ namespace "5m"). by rewrite Hx.
  - unfold RecordingRules in E. simpl. destruct (sli_ok (SLI (Spec sc))) eqn:Hs; [|done].
    exfalso. revert E. rewrite (collect_total _ (fun w =>
      {| Record_ := RecordName (sli_Type (SLI (Spec sc))) w; Alert := EmptyString;
         Expr := match ErrorRatioExpr (SLI (Spec sc)) namespace w with Ok x => x | Err _ => EmptyString end;
         rule_Labels := RuleLabels sc; rule_Annotations := ∅ |})); [done|].
    intros w. rewrite <- (ErrorRatioExpr_ok _ namespace w) in Hs.
    by destruct (ErrorRatioExpr _ namespace w).
Qed.
End text.

(** *** The regular expressions of a PromQL matcher

    The part of RE2 a status pattern uses: literal characters in sequence, and bars. Prometheus
    anchors a pattern at both ends, so [matches] asks for the whole text. *)
Inductive regex :=
  | RNever
  | REmpty
  | RChar (c : ascii)
  | RSeq (r s : regex)
  | RAlt (r s : regex).

(** A character that stands for itself: none of RE2's [\.+*?()|[]{}^$]. *)
Definition is_literal (c : ascii) : bool :=
  negb (existsb (Ascii.eqb c) (list_ascii_of_string "\.+*?()|[]{}^$")).

(** [r] is what was read since the last bar; a pattern with another metacharacter is not read. *)
Fixpoint parse_from (r : regex) (pattern : string) : option regex :=
  match pattern with
  | EmptyString => Some r
  | String c rest =>
      if Ascii.eqb c "|" then option_map (RAlt r) (parse_from REmpty rest)
      else if is_literal c then parse_from (RSeq r (RChar c)) rest
      else None
  end.
Definition parse_regex (pattern : string) : option regex := parse_from REmpty pattern.

Fixpoint nullable (r : regex) : bool :=
  match r with
  | RNever | RChar _ => false
  | REmpty => true
  | RSeq r s => nullable r && nullable s
  | RAlt r s => nullable r || nullable s
  end.

(** What is left to match after [c]. *)
Fixpoint derive (c : ascii) (r : regex) : regex :=
  match r with
  | RNever | REmpty => RNever
  | RChar d => if Ascii.eqb c d then REmpty else RNever
  | RSeq r s => RAlt (RSeq (derive c r) s) (if nullable r then derive c s else RNever)
  | RAlt r s => RAlt (derive c r) (derive c s)
  end.

Fixpoint matches (r : regex) (text : string) : bool :=
  match text with EmptyString => nullable r | String c rest => matches (derive c r) rest end.

(** The texts a regular expression denotes, and that [matches] decides them. *)
Fixpoint denotes (r : regex) (text : string) : Prop :=
  match r with
  | RNever => False
  | REmpty => text = EmptyString
  | RChar c => text = String c EmptyString
  | RSeq r s => exists u v, text = u +:+ v /\ denotes r u /\ denotes s v
  | RAlt r s => denotes r text \/ denotes s text
  end.

Lemma nullable_denotes r : nullable r = true <-> denotes r EmptyString.
Proof.
  induction r as [| |c|r IHr s IHs|r IHr s IHs]; cbn [nullable denotes]; [done|done|done| |].
  - rewrite andb_true_iff, IHr, IHs. split; [intros []; by exists EmptyString, EmptyString|].
    by intros ([] & [] & E & Hr & Hs).
  - by rewrite orb_true_iff, IHr, IHs.
Qed.

Lemma derive_denotes c r : forall text, denotes (derive c r) text <-> denotes r (String c text).
Proof.
  induction r as [| |d|r IHr s IHs|r IHr s IHs]; intros text; cbn [derive denotes]; [done|done| | |by rewrite IHr, IHs].
  - destruct (Ascii.eqb_spec c d) as [->|Hne]; cbn [denotes]; split; try done; [by intros ->|by intros [= ->]|by intros [= -> _]].
  - split.
    + intros [(u & v & -> & Hu%IHr & Hv)|Hs]; [by exists (String c u), v|].
      destruct (nullable r) eqn:En; [|done]. apply nullable_denotes in En. apply IHs in Hs. by exists EmptyString, (String c text).
    + intros ([|d u] & v & E & Hu & Hv).
      * right. cbn in E. subst v. apply nullable_denotes in Hu as ->. by apply IHs.
      * left. injection E as <- ->. exists u, v. by rewrite IHr.
Qed.

Lemma matches_denotes text : forall r, matches r text = true <-> denotes r text.
Proof. induction text as [|c text IH]; intros r; cbn [matches]; [apply nullable_denotes|]. by rewrite IH, derive_denotes. Qed.

(** *** Patterns of literal texts and bars *)
Definition literal_text (s : string) : bool := forallb is_literal (list_ascii_of_string s).

Lemma literal_not_bar c : is_literal c = true -> Ascii.eqb c "|" = false.
Proof. intros Hc. apply Ascii.eqb_neq. by intros ->. Qed.

(** A literal text is read behind what is there. *)
Lemma parse_literal x rest : literal_text x = true -> forall r, exists r',
  parse_from r (x +:+ rest) = parse_from r' rest /\
  forall text, denotes r' text <-> exists u, text = u +:+ x /\ denotes r u.
Proof.
  unfold literal_text. induction x as [|c x IH]; cbn [list_ascii_of_string forallb].
  - intros _ r. exists r. split; [done|]. intros text. split.
    + intros Ht. exists text. by rewrite append_nil_r.
    + intros (u & -> & Hu). by rewrite append_nil_r.
  - intros [Hc Hx]%andb_true_iff r. destruct (IH Hx (RSeq r (RChar c))) as (r' & E & Hr'). exists r'. split.
    + cbn [String.append parse_from]. by rewrite (literal_not_bar c Hc), Hc.
    + intros text. rewrite Hr'. cbn [denotes]. split.
      * intros (w & -> & u & v & -> & Hu & ->). exists u. by rewrite <- append_assoc.
      * intros (u & -> & Hu). exists (u +:+ String c EmptyString). rewrite <- append_assoc. split; [done|]. by exists u, (String c EmptyString).
Qed.

Lemma parse_Join xs : xs <> [] -> forallb literal_text xs = true ->
  exists r, parse_regex (Join xs "|") = Some r /\ forall text, denotes r text <-> In text xs.
Proof.
  unfold parse_regex. induction xs as [|x xs IH]; [done|]. intros _ [Hx Hxs]%andb_true_iff.
  destruct (parse_literal x (match xs with [] => EmptyString | _ => "|" +:+ Join xs "|" end) Hx REmpty) as (r & E & Hr).
  assert (forall text, denotes r text <-> x = text) as Hr'.
  { intros text. rewrite Hr. cbn [denotes]. split; [by intros (u & -> & ->)|]. intros <-. by exists EmptyString. }
  destruct xs as [|y ys].
  - exists r. rewrite append_nil_r in E. split; [exact E|]. intros text. rewrite Hr'. simpl. tauto.
  - destruct (IH ltac:(done) Hxs) as (r' & E' & Hrest). exists (RAlt r r').
    change (Join (x :: y :: ys) "|") with (x +:+ "|" +:+ Join (y :: ys) "|"). split.
    + rewrite E. cbn [String.append parse_from]. cbn [Ascii.eqb Bool.eqb]. by rewrite E'.
    + intros text. cbn [denotes]. by rewrite Hr', Hrest.
Qed.

Lemma digit_literal c : is_digit c = true -> is_literal c = true.
Proof.
  intros Hd%is_digit_code. unfold is_literal. apply negb_true_iff, not_true_is_false. intros (d & Hin & ->%Ascii.eqb_eq)%existsb_exists.
  assert (forallb (fun d => negb (48 <=? code d) || negb (code d <=? 57)) (list_ascii_of_string "\.+*?()|[]{}^$") = true) as Hall by reflexivity.
  apply (proj1 (forallb_forall _ _) Hall) in Hin. lia.
Qed.

(** A decimal text is digits, behind a minus perhaps. *)
Lemma Itoa_chars (P : ascii -> bool) n :
  P "-"%char = true -> (forall c, is_digit c = true -> P c = true) -> forallb P (list_ascii_of_string (Itoa n)) = true.
Proof.
  intros Hminus Hdigit.
  assert (forall m, forallb P (list_ascii_of_string (dec m)) = true) as Hdec
    by (intros m; eapply forallb_impl; [apply Hdigit|apply dec_all_digits]).
  unfold Itoa. destruct (n <? 0); [|apply Hdec]. cbn [char String.append list_ascii_of_string forallb].
  apply andb_true_iff. split; [exact Hminus|apply Hdec].
Qed.

Lemma Itoa_literal n : literal_text (Itoa n) = true.
Proof. apply Itoa_chars; [done|apply digit_literal]. Qed.

Lemma Itoa_inj n m : Itoa n = Itoa m -> n = m.
Proof.
  assert (Hdec : forall a b, 0 <= a -> 0 <= b -> dec a = dec b -> a = b).
  { intros a b Ha Hb E. pose proof (dec_value a 0 Ha) as H1. pose proof (dec_value b 0 Hb) as H2.
    rewrite E in H1. rewrite H1 in H2. injection H2 as H2. rewrite !Z.mul_0_l in H2. lia. }
  assert (Hsign : forall a b, char 45 +:+ dec a = dec b -> False).
  { intros a b E. destruct (dec_cons b) as (c & s & Hb & Hc). rewrite Hb in E. simpl in E.
    injection E as <- _. discriminate. }
  unfold Itoa. destruct (Z.ltb_spec n 0), (Z.ltb_spec m 0); intros E.
  - apply append_inj_l in E. apply Hdec in E; lia.
  - by apply Hsign in E.
  - by apply eq_sym, Hsign in E.
  - apply Hdec in E; lia.
Qed.

Lemma RecordName_inj sliType w w' : RecordName sliType w = RecordName sliType w' -> w = w'.
Proof. unfold RecordName. by intros ?%append_inj_l%append_inj_l%append_inj_l. Qed.

Lemma NoDup_map_inj {A B} (f : A -> B) xs :
  (forall x y, f x = f y -> x = y) -> NoDup xs -> NoDup (map f xs).
Proof.
  intros Hf. induction 1 as [|x xs Hx _ IH]; simpl; constructor; [|done].
  intros (y & E & Hy)%list_elem_of_fmap. apply Hf in E as <-. done.
Qed.

Lemma plain_Join xs : forallb plain xs = true -> plain (Join xs "|") = true.
Proof.
  assert (forall s t, plain s = true -> plain t = true -> plain (s +:+ t) = true) as Happ.
  { unfold plain. intros s t Hs Ht. induction s as [|c s IH]; [done|]. cbn in Hs |- *. apply andb_true_iff in Hs as [-> Hs]. by apply IH. }
  induction xs as [|x [|y ys] IH]; [done|by intros [? _]%andb_true_iff|]. intros [Hx Hxs]%andb_true_iff.
  change (Join (x :: y :: ys) "|") with (x +:+ "|" +:+ Join (y :: ys) "|"). by repeat apply Happ; [| |apply IH].
Qed.

Lemma codes_plain statuses : plain (Join (map Itoa statuses) "|") = true.
Proof.
  apply plain_Join, forallb_forall. intros x (n & <- & _)%in_map_iff. apply Itoa_chars; [done|].
  intros c Hc%is_digit_code. unfold plain_char. lia.
Qed.

(** C40: The pattern for [code!~], as Prometheus reads it, matches the decimal texts of the good
    statuses and no other text at all, the empty one of a missing label included; it has no character
    that could mean anything else, in the regular expression or in the PromQL string around it. The
    availability ratio counts as bad the requests whose code it does not match, out of all. An empty
    list is refused, by the pattern and by the ratio. *)
Theorem goodStatusPattern_exact `{UnicodePrint} (sli : SLISpec) (namespace window : string) :
  sli_Type sli = "http-availability" ->
  let selector := "namespace=" +:+ Quote namespace in
  match goodStatusPattern (GoodStatuses sli) with
  | Ok good =>
      (exists r, parse_regex good = Some r /\
         forall text, matches r text = true <-> exists status, In status (GoodStatuses sli) /\ text = Itoa status) /\
      ErrorRatioExpr sli namespace window = Ok (Sprintf
        ["(sum(rate(http_requests_total{"; selector; ",code!~"; dquote; good; dquote; "}["; window; "])) or vector(0))"; newline;
         "/"; newline; "sum(rate(http_requests_total{"; selector; "}["; window; "]))"])
  | Err _ => GoodStatuses sli = [] /\ is_ok (ErrorRatioExpr sli namespace window) = false
  end.
Proof.
  intros Ht selector. unfold ErrorRatioExpr. rewrite Ht, String.eqb_refl.
  destruct (goodStatusPattern (GoodStatuses sli)) as [good|e] eqn:E; cbn [mbind result_bind is_ok].
  2:{ split; [|done]. by destruct (GoodStatuses sli). }
  destruct (GoodStatuses sli) as [|status statuses]; [done|]. injection E as <-.
  set (codes := map Itoa (status :: statuses)). split.
  - destruct (parse_Join codes) as (r & Hr & Hd); [done|by apply forallb_forall; intros x (n & <- & _)%in_map_iff; apply Itoa_literal|].
    exists r. split; [exact Hr|]. intros text. rewrite matches_denotes, Hd. unfold codes. rewrite in_map_iff.
    split; intros (n & ? & ?); by exists n.
  - rewrite (Quote_plain (Join codes "|")) by apply codes_plain. unfold selector.
    f_equal. unfold Sprintf. cbn. by rewrite <- !append_assoc.
Qed.

Lemma goodStatusPattern_exact_witness :
  let sli := mkSLISpec "http-availability" [200; 404] "" in
  match goodStatusPattern (GoodStatuses sli) with
  | Ok good => good = "200|404" /\ exists r, parse_regex good = Some r /\ matches r "404" = true /\ ~ matches r EmptyString = true
  | Err _ => False
  end.
Proof.
  intros sli. pose proof (@goodStatusPattern_exact no_rune sli "svc-shortlink" "5m" eq_refl) as [(r & Hr & Hm) _].
  split; [reflexivity|]. exists r. split; [exact Hr|]. split; [apply Hm; exists 404; split; [right; by left|reflexivity]|].
  intros (status & [<-|[<-|[]]] & E)%Hm; discriminate E.
Defined.

(** A claim either gets one recording rule for each window, under pairwise different names of
    one scheme and all with the claim's service, owner and tier, or, when its SLI has no good
    statuses, no positive latency threshold or an unknown type, no rule at all. *)
Theorem RecordingRules_complete `{UnicodePrint} (sc : ServiceClaim) (namespace : string) :
  match RecordingRules sc namespace with
  | Ok rules =>
      sli_ok (SLI (Spec sc)) = true /\
      map Record_ rules = map (RecordName (sli_Type (SLI (Spec sc)))) Windows /\
      NoDup (map Record_ rules) /\
      Forall (fun r => rule_Labels r = RuleLabels sc /\ Alert r = EmptyString) rules /\
      Forall2 (fun w r => ErrorRatioExpr (SLI (Spec sc)) namespace w = Ok (Expr r)) Windows rules
  | Err _ => sli_ok (SLI (Spec sc)) = false
  end.
Proof.
  pose proof (RecordingRules_fails sc namespace) as Hf.
  destruct (RecordingRules sc namespace) as [rules|e] eqn:E; [|done].
  split; [done|]. pose proof (RecordingRules_names _ _ _ E) as Hm. apply RecordingRules_Ok_iff in E.
  split; [done|]. split.
  - rewrite Hm. apply NoDup_map_inj; [apply RecordName_inj|].
    apply (bool_decide_unpack _). vm_compute. constructor.
  - split.
    + clear Hf Hm. revert E. generalize Windows. induction 1 as [|w r ws rs (expr & _ & ->) _ IH]; constructor; auto.
    + eapply Forall2_impl; [exact E|]. by intros w r (expr & Hx & ->).
Qed.
