(* ===== verification/Alerts.v ===== *)
(** * Burn-rate alerts ([internal/slo/alerts.go])

    The four multi-window alerts a claim gets, and the SLO window they and the status use. *)
From Stdlib Require Import ZArith QArith Lqa Lia Ascii String SpecFloat.
From S2P Require Import Prelude GoFloat GoStrings GoStrconv GoTime GoRat Api Budget Rules.
Local Open Scope Z_scope.
Local Open Scope stdpp_scope.

(** ** Definitions *)

Definition AlertName : string := "SLOErrorBudgetBurn".
Definition RunbookURL : string := "https://github.com/singha105/paved/blob/main/docs/runbooks/slo-burn-rate.md".
Definition LabelSeverity : string := "severity".
Definition LabelLongWindow : string := "long_window".
Definition LabelShortWindow : string := "short_window".
Definition SeverityPage : string := "page".
Definition SeverityTicket : string := "ticket".

Record BurnRateAlert := mkBurnRateAlert {
  Severity : string;
  alert_BurnRate : string;
  LongWindow : string;
  ShortWindow : string
}.

Definition BurnRateAlerts : list BurnRateAlert :=
  [mkBurnRateAlert SeverityPage "14.4" "1h" "5m";
   mkBurnRateAlert SeverityPage "6" "6h" "30m";
   mkBurnRateAlert SeverityTicket "3" "1d" "2h";
   mkBurnRateAlert SeverityTicket "1" "3d" "6h"].

Section text.
Context `{UnicodePrint}.

Definition Threshold (a : BurnRateAlert) (budget : Q) : result string :=
  match SetString (alert_BurnRate a) with
  | None => Err (ErrorString (Sprintf ["burn rate "; Quote (alert_BurnRate a); " is not a number"]))
  | Some burnRate => Ok (Decimal (burnRate * budget)%Q)
  end.

Definition Rate (a : BurnRateAlert) : result float64 :=
  let bad := Err (ErrorString (Sprintf ["burn rate "; Quote (alert_BurnRate a); " is not a positive number"])) in
  match ParseFloat (alert_BurnRate a) with
  | None => bad
  | Some rate => if fleb rate fzero then bad else Ok rate
  end.

Definition BudgetLifetime (a : BurnRateAlert) (window : Z) : result string :=
  burnRate ← Rate a;
  let hours := fdiv (Hours window) burnRate in
  if fltb hours (float_of_Z 48) then Ok (FormatShortest (Round hours) +:+ " hours")
  else
    Ok (FormatShortest (fdiv (Round (fmul (fdiv hours (float_of_Z 24)) (float_of_Z 10))) (float_of_Z 10))
        +:+ " days").

(** A [time.Duration] is an int64, and its multiplication wraps. *)
Definition SLOWindow (window : string) : result Z :=
  let bad := Err (ErrorString (Sprintf ["SLO window "; Quote window; " is not a whole number of days such as 28d"])) in
  match Atoi (TrimSuffix window "d") with
  | None => bad
  | Some days =>
      if negb (HasSuffix window "d") || (days <=? 0) then bad
      else Ok (int64_wrap (int64_wrap (days * 24) * Hour))
  end.

(** The body of the loop over the table. *)
Definition alertRule (sc : ServiceClaim) (runbook : string) (budget : Q) (window : Z)
    (alert : BurnRateAlert) : result Rule :=
  threshold ← Threshold alert budget;
  lifetime ← BudgetLifetime alert window;
  let labels := <[LabelShortWindow := ShortWindow alert]>
    (<[LabelLongWindow := LongWindow alert]> (<[LabelSeverity := Severity alert]> (RuleLabels sc))) in
  let sliType := sli_Type (SLI (Spec sc)) in
  Ok {| Record_ := EmptyString;
        Alert := AlertName;
        Expr := Sprintf [RecordName sliType (LongWindow alert); "{service="; Quote (Name sc); "} > "; threshold;
                         newline; "and"; newline;
                         RecordName sliType (ShortWindow alert); "{service="; Quote (Name sc); "} > "; threshold];
        rule_Labels := labels;
        rule_Annotations := map_of
          [("summary", Sprintf [Name sc; " is spending its error budget "; alert_BurnRate alert;
                                "x faster than it can sustain"]);
           ("description", Sprintf ["The error ratio is above "; threshold; " over both the last ";
                                    LongWindow alert; " and the last "; ShortWindow alert; ". At ";
                                    alert_BurnRate alert; "x, the "; Window (SLO (Spec sc));
                                    " error budget of "; Decimal budget; " lasts about "; lifetime; "."]);
           ("owner", Owner (Spec sc));
           ("runbook_url", RunbookURL);
           ("runbook", runbook)] |}.

Definition AlertRules (sc : ServiceClaim) (runbook : string) : result (list Rule) :=
  budget ← ErrorBudget (Objective (SLO (Spec sc)));
  window ← SLOWindow (Window (SLO (Spec sc)));
  collect (alertRule sc runbook budget window) BurnRateAlerts.

(** ** Lemmas *)

Lemma days_no_overflow n :
  0 < n -> n <= 106751 -> int64_wrap (int64_wrap (n * 24) * Hour) = n * 24 * Hour.
Proof.
  intros H1 H2. unfold int64_wrap. change Hour with 3600000000000.
  rewrite (Z.mod_small (n * 24 + _)) by lia. rewrite Z.mod_small by lia. lia.
Qed.

Lemma SLOWindow_Ok_inv window d :
  SLOWindow window = Ok d ->
  exists t days, window = t +:+ "d" /\ Atoi t = Some days /\ 0 < days /\
    d = int64_wrap (int64_wrap (days * 24) * Hour).
Proof.
  unfold SLOWindow. destruct (Atoi _) as [days|] eqn:Ha; [|done].
  destruct (HasSuffix window "d") eqn:Hs; [|done]. simpl.
  destruct (Z.leb_spec days 0); [done|]. intros [= <-].
  apply HasSuffix_spec in Hs as [t ->]. rewrite TrimSuffix_append in Ha. eauto 10.
Qed.

(** The table's burn rates are terminating decimals, so every threshold is exact. *)
Lemma table_burn_rates a :
  In a BurnRateAlerts ->
  exists r, SetString (alert_BurnRate a) = Some r /\ (1 <= r)%Q /\ terminating r /\ is_ok (Rate a) = true.
Proof.
  intros [<-|[<-|[<-|[<-|[]]]]]; (eexists; split; [reflexivity|]; split;
    [vm_compute; discriminate|split; [|reflexivity]]).
  - apply (terminating_intro _ _ 1); [lia|]. exists 1. reflexivity.
  - apply (terminating_intro _ _ 0); [lia|]. exists 1. reflexivity.
  - apply (terminating_intro _ _ 0); [lia|]. exists 1. reflexivity.
  - apply (terminating_intro _ _ 0); [lia|]. exists 1. reflexivity.
Qed.

Lemma Threshold_exact a budget :
  In a BurnRateAlerts -> (0 < budget)%Q -> terminating budget ->
  exists t r q, Threshold a budget = Ok t /\ SetString (alert_BurnRate a) = Some r /\
    SetString t = Some q /\ (q == r * budget)%Q.
Proof.
  intros Ha Hb Ht. destruct (table_burn_rates a Ha) as (r & Hr & H1 & Hrt & _).
  unfold Threshold. rewrite Hr.
  destruct (Decimal_exact (r * budget)) as (q & Hq & E); [by apply terminating_mult|nra|].
  eauto 10.
Qed.

Lemma BudgetLifetime_ok a window : In a BurnRateAlerts -> is_ok (BudgetLifetime a window) = true.
Proof.
  intros Ha. destruct (table_burn_rates a Ha) as (_ & _ & _ & _ & Hr).
  unfold BudgetLifetime. destruct (Rate a) as [r|]; [|done]. simpl. by destruct (fltb _ _).
Qed.

Lemma alertRule_ok sc runbook budget window a :
  In a BurnRateAlerts -> (0 < budget)%Q -> terminating budget ->
  is_ok (alertRule sc runbook budget window a) = true.
Proof.
  intros Ha Hb Ht. destruct (Threshold_exact a budget Ha Hb Ht) as (t & _ & _ & Hth & _).
  unfold alertRule. rewrite Hth. simpl. pose proof (BudgetLifetime_ok a window Ha) as Hl.
  by destruct (BudgetLifetime a window).
Qed.

Lemma AlertRules_ok sc runbook :
  is_ok (AlertRules sc runbook) =
  is_ok (ErrorBudget (Objective (SLO (Spec sc)))) && is_ok (SLOWindow (Window (SLO (Spec sc)))).
Proof.
  unfold AlertRules. destruct (ErrorBudget _) as [b|e] eqn:Hb; [|done].
  destruct (SLOWindow _) as [w|e]; [|done]. cbn [mbind result_bind is_ok andb].
  apply ErrorBudget_Ok_bounds in Hb as (Hp & _ & Ht).
  apply collect_is_ok. intros a Ha. by apply alertRule_ok.
Qed.

Lemma AlertRules_inv sc runbook rules :
  AlertRules sc runbook = Ok rules ->
  exists budget window, ErrorBudget (Objective (SLO (Spec sc))) = Ok budget /\
    SLOWindow (Window (SLO (Spec sc))) = Ok window /\
    Forall2 (fun a r => alertRule sc runbook budget window a = Ok r) BurnRateAlerts rules.
Proof. intros (b & Hb & (w & Hw & Hc)%bind_Ok)%bind_Ok. apply collect_Ok in Hc. eauto. Qed.

Lemma alertRule_inv sc runbook b w a r :
  alertRule sc runbook b w a = Ok r ->
  Alert r = AlertName /\ rule_Labels r !! LabelLongWindow = Some (LongWindow a) /\
  RuleLabels sc ⊆ rule_Labels r /\ rule_Annotations r !! "runbook" = Some runbook /\
  rule_Annotations r !! "owner" = Some (Owner (Spec sc)).
Proof.
  unfold alertRule. intros (t & _ & (l & _ & [= <-])%bind_Ok)%bind_Ok. cbn [Alert rule_Labels rule_Annotations].
  split; [done|]. split; [by rewrite lookup_insert_ne, lookup_insert_eq|]. split; [|by split].
  assert (forall k, k ∈ [LabelShortWindow; LabelLongWindow; LabelSeverity] -> RuleLabels sc !! k = None) as Hk.
  { intros k Hk. rewrite !list_elem_of_In in Hk. by destruct Hk as [<-|[<-|[<-|[]]]]. }
  do 3 (etransitivity; [|apply insert_subseteq; rewrite ?lookup_insert_ne by done; apply Hk; set_solver]).
  done.
Qed.

Lemma recording_covers sc namespace recording a :
  RecordingRules sc namespace = Ok recording -> In a BurnRateAlerts ->
  In (RecordName (sli_Type (SLI (Spec sc))) (LongWindow a)) (map Record_ recording) /\
  In (RecordName (sli_Type (SLI (Spec sc))) (ShortWindow a)) (map Record_ recording).
Proof.
  intros Hr Ha. rewrite (RecordingRules_names _ _ _ Hr).
  destruct Ha as [<-|[<-|[<-|[<-|[]]]]]; split; apply in_map; simpl; auto 10.
Qed.
End text.

(** ** Properties *)

(** C30: Alert rules exist exactly when the objective gives a budget and the window is a number of
    days. There are then four, one for each row of the table; each compares the claim's recorded
    error ratio over the row's long and short window with one text that denotes, exactly,
    burn rate times budget; and both recorded names are among the claim's recording rules. *)
Theorem AlertRules_correct `{UnicodePrint} (sc : ServiceClaim) (runbook namespace : string) :
  match AlertRules sc runbook with
  | Ok rules =>
      exists budget, ErrorBudget (Objective (SLO (Spec sc))) = Ok budget /\
      Forall2 (fun a r => exists t q rate,
        SetString (alert_BurnRate a) = Some rate /\ SetString t = Some q /\ (q == rate * budget)%Q /\
        let long := RecordName (sli_Type (SLI (Spec sc))) (LongWindow a) in
        let short := RecordName (sli_Type (SLI (Spec sc))) (ShortWindow a) in
        Expr r = Sprintf [long; "{service="; Quote (Name sc); "} > "; t; newline; "and"; newline;
                          short; "{service="; Quote (Name sc); "} > "; t] /\
        forall recording, RecordingRules sc namespace = Ok recording ->
          In long (map Record_ recording) /\ In short (map Record_ recording)) BurnRateAlerts rules
  | Err _ => is_ok (ErrorBudget (Objective (SLO (Spec sc)))) = false \/
             is_ok (SLOWindow (Window (SLO (Spec sc)))) = false
  end.
Proof.
  destruct (AlertRules sc runbook) as [rules|e] eqn:E.
  - apply AlertRules_inv in E as (b & w & Hb & _ & HF). exists b. split; [done|].
    destruct (ErrorBudget_Ok_bounds _ _ Hb) as (Hp & _ & Ht).
    eapply Forall2_impl; [exact (Forall2_In_l _ _ _ HF)|].
    intros a r [Ha Har]. destruct (Threshold_exact a b Ha Hp Ht) as (t & rate & q & Hth & Hr & Hq & E).
    unfold alertRule in Har. rewrite Hth in Har. apply bind_Ok in Har as (t' & [= <-] & Har).
    apply bind_Ok in Har as (l & _ & [= <-]). exists t, q, rate. repeat split; try done;
    eapply recording_covers; eauto.
  - pose proof (AlertRules_ok sc runbook) as Ho. rewrite E in Ho. symmetry in Ho.
    by apply andb_false_iff in Ho.
Qed.

(** The four alerts share one name; their labels tell them apart, and all of them carry the
    claim's own service, owner and tier labels and name the claim's runbook. *)
Theorem AlertRules_labels `{UnicodePrint} (sc : ServiceClaim) (runbook : string) :
  match AlertRules sc runbook with
  | Ok rules =>
      length rules = 4%nat /\ NoDup (map rule_Labels rules) /\
      Forall (fun r => Alert r = AlertName /\ RuleLabels sc ⊆ rule_Labels r /\
                       rule_Annotations r !! "runbook" = Some runbook /\
                       rule_Annotations r !! "owner" = Some (Owner (Spec sc))) rules
  | Err _ => True
  end.
Proof.
  destruct (AlertRules sc runbook) as [rules|e] eqn:E; [|done].
  apply AlertRules_inv in E as (b & w & _ & _ & HF). pose proof (Forall2_length _ _ _ HF) as Hl.
  split; [done|]. split.
  - apply (NoDup_fmap_1 (fun m : gmap string string => (m !! LabelLongWindow))).
    assert (map (fun m : gmap string string => (m !! LabelLongWindow)) (map rule_Labels rules) =
            map (fun a => Some (LongWindow a)) BurnRateAlerts) as Hm.
    { clear Hl. revert HF. generalize BurnRateAlerts. induction 1 as [|a r xs rs Ha _ IH]; [done|].
      simpl. rewrite IH. apply alertRule_inv in Ha as (_ & -> & _). done. }
    change (NoDup (map (fun m : gmap string string => (m !! LabelLongWindow)) (map rule_Labels rules))).
    rewrite Hm. apply (bool_decide_unpack _). vm_compute. constructor.
  - clear Hl. revert HF. generalize BurnRateAlerts. induction 1 as [|a r xs rs Ha _ IH]; constructor; [|done].
    apply alertRule_inv in Ha as (? & _ & ? & ? & ?). done.
Qed.

(** [SLOWindow] accepts exactly the texts [<days>d] with a positive number of days that fits
    an int, and up to 106751 days the result is that many times 24 hours with no overflow. *)
Theorem SLOWindow_correct `{UnicodePrint} (window : string) :
  match SLOWindow window with
  | Ok d => exists t days, window = t +:+ "d" /\ Atoi t = Some days /\ 0 < days /\
                           (days <= 106751 -> d = days * 24 * Hour)
  | Err _ => forall t days, window = t +:+ "d" -> Atoi t = Some days -> days <= 0
  end.
Proof.
  destruct (SLOWindow window) as [d|e] eqn:E.
  - apply SLOWindow_Ok_inv in E as (t & days & -> & Ha & Hp & ->). exists t, days.
    repeat split; try done. intros Hd. by apply days_no_overflow.
  - intros t days -> Ha. unfold SLOWindow in E. rewrite TrimSuffix_append, Ha in E.
    assert (HasSuffix (t +:+ "d") "d" = true) as Hs by (apply HasSuffix_spec; eauto).
    rewrite Hs in E. simpl in E. by destruct (Z.leb_spec days 0).
Qed.

(** The lifetimes the alert descriptions name, for each window the CRD allows. *)
Example lifetimes `{UnicodePrint} :
  map (fun w => map (fun a => match SLOWindow w ≫= BudgetLifetime a with Ok t => t | Err _ => EmptyString end)
    BurnRateAlerts) ["7d"; "28d"; "30d"] =
  [["12 hours"; "28 hours"; "2.3 days"; "7 days"];
   ["47 hours"; "4.7 days"; "9.3 days"; "28 days"];
   ["2.1 days"; "5 days"; "10 days"; "30 days"]].
Proof. vm_compute. reflexivity. Qed.
