(* ===== verification/Prometheus.v ===== *)
(** * Reading one number from Prometheus ([internal/slo/prometheus.go])

    [QueryValue] as a function of what the Prometheus client library answered. The library's
    [Query] (an HTTP round trip) is outside the model: its answer is the argument. *)
From Stdlib Require Import ZArith Lia Ascii String SpecFloat.
From S2P Require Import Prelude GoFloat GoStrings Api Rules.
Local Open Scope Z_scope.
Local Open Scope stdpp_scope.

(** ** Definitions *)

Definition no_data : string := "no data".
Definition ErrNoData : error := SentinelError no_data.

(** [model.Value]: a vector of samples, or a value of another type, known by the text its
    [Type()] prints. *)
Inductive Value :=
  | Vector (samples : list float64)
  | OtherValue (type_text : string).

(** What [api.Query] returned: an error, or a value with warnings. *)
Record answer := mkAnswer {
  ans_value : Value;
  ans_warnings : list string
}.

(** The [%v] verb on a [[]string]. *)
Definition list_text (xs : list string) : string := "[" +:+ Join xs " " +:+ "]".

Definition QueryValue (response : result answer) : result float64 :=
  match response with
  | Err err => Err (WrapError (Sprintf ["querying Prometheus: "; Error err]) err)
  | Ok a =>
      match ans_value a with
      | OtherValue t => Err (ErrorString (Sprintf ["query returned a "; t; ", want a vector"]))
      | Vector [] =>
          match ans_warnings a with
          | [] => Err ErrNoData
          | ws => Err (WrapError (Sprintf [Error ErrNoData; " (Prometheus warned: "; list_text ws; ")"]) ErrNoData)
          end
      | Vector [value] => if is_nan value then Err ErrNoData else Ok value
      | Vector vs => Err (ErrorString (Sprintf ["query returned "; Itoa (Z.of_nat (length vs)); " series, want 1"]))
      end
  end.

(** [5 * time.Second], in nanoseconds. *)
Definition QueryTimeout : Z := 5000000000.

(** The client: the API it queries, known by its address and the time limit of its HTTP client,
    and the time limit of a query. *)
Record PrometheusClient := mkPrometheusClient { api_address : string; api_timeout : Z; timeout : Z }.

(** [new_client address limit] is the error [promapi.NewClient] returned, if any. *)
Definition newPrometheusClient `{UnicodePrint} (new_client : string -> Z -> option error) (address : string) (limit : Z)
  : result PrometheusClient :=
  match new_client address limit with
  | Some err => Err (WrapError (Sprintf ["creating Prometheus client for "; Quote address; ": "; Error err]) err)
  | None => Ok (mkPrometheusClient address limit limit)
  end.
Definition NewPrometheusClient `{UnicodePrint} (new_client : string -> Z -> option error) (address : string)
  : result PrometheusClient := newPrometheusClient new_client address QueryTimeout.

(** When a query started at [now] is given up. *)
Definition query_deadline (c : PrometheusClient) (now : Z) : Z := now + timeout c.

(** ** Properties *)

(** A query gives a number exactly when Prometheus answered one sample that is not NaN. The
    error is [ErrNoData] exactly when it answered an empty vector or NaN, with or without
    warnings; an unreachable Prometheus, another type of value or several series are other
    errors, the unreachable one still wrapping its cause. *)
Theorem QueryValue_correct (response : result answer) :
  match QueryValue response with
  | Ok v => is_nan v = false /\ exists ws, response = Ok (mkAnswer (Vector [v]) ws)
  | Err e =>
      match response with
      | Err cause => exists m, e = WrapError m cause
      | Ok a => errorsIs e no_data = true <-> ans_value a = Vector [] \/ exists v, ans_value a = Vector [v] /\ is_nan v = true
      end
  end.
Proof.
  destruct response as [[[[|v [|v' vs]]|t] ws]|e]; simpl.
  - destruct ws; simpl; (split; [by left|done]).
  - destruct (is_nan v) eqn:E; simpl; [|by eauto]. split; [eauto|done].
  - split; [done|]. by intros [?|(w & ? & _)].
  - split; [done|]. by intros [?|(w & ? & _)].
  - eauto.
Qed.
