(* ===== verification/GoJson.v ===== *)
(** * Go's dynamic values and [encoding/json]

    [json] is the shape of a [map[string]any] tree and of what a struct with JSON tags encodes to:
    the content of an unstructured object, an IAM policy document and a Grafana dashboard. An
    object's fields are an association list; for a Go map they are kept in key order, the order
    [encoding/json] writes them in. *)
From Stdlib Require Import ZArith Lia Ascii String.
From S2P Require Import Prelude GoStrings.
Local Open Scope Z_scope.
Local Open Scope stdpp_scope.

Inductive json :=
  | JNull
  | JBool (b : bool)
  | JInt (n : Z)
  | JString (s : string)
  | JArray (xs : list json)
  | JObject (fields : list (string * json)).

(** A field of an object. *)
Definition field (k : string) (fields : list (string * json)) : option json :=
  snd <$> List.find (fun kv => String.eqb k kv.1) fields.

(** [m[k]] on a value that may not be an object. *)
Definition member (k : string) (j : json) : option json :=
  match j with JObject fields => field k fields | _ => None end.

Definition strings (xs : list string) : json := JArray (map JString xs).

(** Insertion into an association list in key order; an equal key is overwritten. *)
Fixpoint insert_sorted {A} (k : string) (v : A) (fields : list (string * A)) : list (string * A) :=
  match fields with
  | [] => [(k, v)]
  | (k', v') :: rest =>
      match String.compare k k' with
      | Lt => (k, v) :: fields
      | Eq => (k, v) :: rest
      | Gt => (k', v') :: insert_sorted k v rest
      end
  end.

(** The entries of a Go map built by assigning these in order, sorted by key. *)
Definition sorted_entries {A} (kvs : list (string * A)) : list (string * A) :=
  foldl (fun acc kv => insert_sorted kv.1 kv.2 acc) [] kvs.
Definition JMap (kvs : list (string * json)) : json := JObject (sorted_entries kvs).
Definition string_map (kvs : list (string * string)) : json :=
  JMap (map (fun kv => (kv.1, JString kv.2)) kvs).

(** A [map[string]string] held as a [gmap]. *)
Definition labels_json (m : gmap string string) : json := string_map (map_to_list m).

(** ** [json.Marshal]

    [appendString] with HTML escaping, which [Marshal] turns on. *)
Definition json_safe (c : ascii) : bool :=
  let n := code c in
  (0x20 <=? n) && negb ((n =? 34) || (n =? 92) || (n =? 60) || (n =? 62) || (n =? 38)).

Definition json_escape (c : ascii) : string :=
  let n := code c in
  if (n =? 34) || (n =? 92) then backslash +:+ String c EmptyString
  else if n =? 8 then backslash +:+ "b"
  else if n =? 12 then backslash +:+ "f"
  else if n =? 10 then backslash +:+ "n"
  else if n =? 13 then backslash +:+ "r"
  else if n =? 9 then backslash +:+ "t"
  else backslash +:+ "u00" +:+ hex_fixed 2 n.

Fixpoint json_body (skip : nat) (s : string) : string :=
  match s with
  | EmptyString => EmptyString
  | String c s' =>
      match skip with
      | S skip' => json_body skip' s'
      | O =>
          if code c <? 0x80 then
            (if json_safe c then String c EmptyString else json_escape c) +:+ json_body 0 s'
          else
            let '(r, width) := DecodeRune s in
            if (r =? RuneError) && Nat.eqb width 1 then backslash +:+ "ufffd" +:+ json_body 0 s'
            else if (r =? 0x2028) || (r =? 0x2029)
            then backslash +:+ "u202" +:+ hex_fixed 1 (Z.land r 0xF) +:+ json_body (width - 1) s'
            else take_bytes width s +:+ json_body (width - 1) s'
      end
  end.
Definition json_string (s : string) : string := dquote +:+ json_body 0 s +:+ dquote.

Definition bool_text (b : bool) : string := if b then "true" else "false".

Fixpoint Marshal (j : json) : string :=
  match j with
  | JNull => "null"
  | JBool b => bool_text b
  | JInt n => Itoa n
  | JString s => json_string s
  | JArray xs => "[" +:+ Join (map Marshal xs) "," +:+ "]"
  | JObject fields =>
      "{" +:+ Join (map (fun kv => json_string kv.1 +:+ ":" +:+ Marshal kv.2) fields) "," +:+ "}"
  end.

(** [json.MarshalIndent(v, "", indent)]: empty arrays and objects stay on one line. *)
Fixpoint repeat_text (n : nat) (s : string) : string :=
  match n with O => EmptyString | S n' => s +:+ repeat_text n' s end.

Fixpoint MarshalIndent_at (depth : nat) (indent : string) (j : json) : string :=
  let sep := newline +:+ repeat_text (S depth) indent in
  let close := newline +:+ repeat_text depth indent in
  match j with
  | JArray ((_ :: _) as xs) =>
      "[" +:+ sep +:+ Join (map (MarshalIndent_at (S depth) indent) xs) ("," +:+ sep) +:+ close +:+ "]"
  | JObject ((_ :: _) as fields) =>
      "{" +:+ sep +:+
      Join (map (fun kv => json_string kv.1 +:+ ": " +:+ MarshalIndent_at (S depth) indent kv.2) fields) ("," +:+ sep)
      +:+ close +:+ "}"
  | _ => Marshal j
  end.
Definition MarshalIndent (j : json) (indent : string) : string := MarshalIndent_at 0 indent j.

(** ** Lemmas *)

Lemma string_compare_refl k : String.compare k k = Eq.
Proof.
  induction k as [|c k IH]; [done|]. simpl. unfold Ascii.compare.
  by rewrite N.compare_refl.
Qed.

Lemma field_insert_eq k v fields : field k (insert_sorted k v fields) = Some v.
Proof.
  unfold field. induction fields as [|[k' v'] rest IH]; simpl; [by rewrite String.eqb_refl|].
  destruct (String.compare k k') eqn:E; simpl; rewrite ?String.eqb_refl; try done.
  destruct (String.eqb_spec k k') as [->|]; [by rewrite string_compare_refl in E|done].
Qed.

Lemma field_insert_ne k k' v fields : k <> k' -> field k (insert_sorted k' v fields) = field k fields.
Proof.
  intros Hk. apply String.eqb_neq in Hk. unfold field. induction fields as [|[k1 v1] rest IH]; simpl; [by rewrite Hk|].
  destruct (String.compare k' k1) eqn:E; simpl; rewrite ?Hk; try done.
  - apply String.compare_eq_iff in E as <-. by rewrite Hk.
  - destruct (String.eqb k k1); [done|exact IH].
Qed.
