(* ===== verification/JsonReader.v ===== *)
(** * Reading JSON back

    A reader of JSON texts whose numbers are integers, and the proof that what [json.Marshal] and
    [json.MarshalIndent] print is read back as the value printed. The texts the builders embed in
    ConfigMaps and IAM roles are for other programs to parse: this is what they are checked with. *)
From Stdlib Require Import ZArith Lia Ascii String.
From S2P Require Import Prelude GoStrings Utf8 GoStrconv GoJson.
Local Open Scope Z_scope.
Local Open Scope stdpp_scope.

(** ** Definitions *)

Definition is_space (c : ascii) : bool :=
  let n := code c in (n =? 32) || (n =? 9) || (n =? 10) || (n =? 13).
Fixpoint skip_space (s : string) : string :=
  match s with
  | String c s' => if is_space c then skip_space s' else s
  | EmptyString => EmptyString
  end.

(** The UTF-8 of a rune of the basic plane. *)
Definition EncodeRune (r : Z) : string :=
  if r <? 0x80 then char r
  else if r <? 0x800 then char (Z.lor 0xC0 (Z.shiftr r 6)) +:+ char (Z.lor 0x80 (Z.land r 0x3F))
  else char (Z.lor 0xE0 (Z.shiftr r 12)) +:+ char (Z.lor 0x80 (Z.land (Z.shiftr r 6) 0x3F)) +:+ char (Z.lor 0x80 (Z.land r 0x3F)).

Definition read_escape (c : ascii) : option string :=
  let n := code c in
  if (n =? 34) || (n =? 92) || (n =? 47) then Some (String c EmptyString)
  else if n =? 98 then Some (char 8)
  else if n =? 102 then Some (char 12)
  else if n =? 110 then Some (char 10)
  else if n =? 114 then Some (char 13)
  else if n =? 116 then Some (char 9)
  else None.

Definition hex4 (a b c d : ascii) : option Z :=
  match hex_value a, hex_value b, hex_value c, hex_value d with
  | Some a, Some b, Some c, Some d => Some (((a * 16 + b) * 16 + c) * 16 + d)
  | _, _, _, _ => None
  end.

(** The rest of a string after its opening quote. A surrogate is not read. *)
Fixpoint read_body (s : string) : option (string * string) :=
  match s with
  | EmptyString => None
  | String c s' =>
      if code c =? 34 then Some (EmptyString, s')
      else if code c =? 92 then
        match s' with
        | EmptyString => None
        | String e t =>
            if code e =? 117 then
              match t with
              | String h1 (String h2 (String h3 (String h4 t'))) =>
                  match hex4 h1 h2 h3 h4 with
                  | Some r =>
                      if (0xD800 <=? r) && (r <=? 0xDFFF) then None
                      else '(x, rest) ← read_body t'; Some (EncodeRune r +:+ x, rest)
                  | None => None
                  end
              | _ => None
              end
            else
              match read_escape e with
              | Some y => '(x, rest) ← read_body t; Some (y +:+ x, rest)
              | None => None
              end
        end
      else if code c <? 0x20 then None
      else '(x, rest) ← read_body s'; Some (String c x, rest)
  end.

(** The digits a text starts with. *)
Fixpoint read_digits (s : string) : string * string :=
  match s with
  | String c s' => if is_digit c then let '(d, rest) := read_digits s' in (String c d, rest) else (EmptyString, s)
  | EmptyString => (EmptyString, EmptyString)
  end.
Definition read_int (s : string) : option (Z * string) :=
  let '(neg, t) := match s with String c s' => if code c =? 45 then (true, s') else (false, s) | EmptyString => (false, s) end in
  match read_digits t with
  | (EmptyString, _) => None
  | (d, rest) => match digits_value 0 d with Some n => Some (if neg : bool then - n else n, rest) | None => None end
  end.

(** A literal, a string, a number, or the start of an array or an object. *)
Definition after (word : string) (s : string) : option string :=
  if HasPrefix s word then Some (drop_bytes (String.length word) s) else None.

Fixpoint read_value (fuel : nat) (s : string) : option (json * string) :=
  match fuel with
  | O => None
  | S fuel =>
      match skip_space s with
      | EmptyString => None
      | String c t as s =>
          if code c =? 34 then '(x, rest) ← read_body t; Some (JString x, rest)
          else if code c =? 91 then
            match skip_space t with
            | String d u as t' =>
                if code d =? 93 then Some (JArray [], u)
                else '(xs, rest) ← read_elements fuel t'; Some (JArray xs, rest)
            | EmptyString => None
            end
          else if code c =? 123 then
            match skip_space t with
            | String d u as t' =>
                if code d =? 125 then Some (JObject [], u)
                else '(fields, rest) ← read_fields fuel t'; Some (JObject fields, rest)
            | EmptyString => None
            end
          else if code c =? 110 then rest ← after "null" s; Some (JNull, rest)
          else if code c =? 116 then rest ← after "true" s; Some (JBool true, rest)
          else if code c =? 102 then rest ← after "false" s; Some (JBool false, rest)
          else '(n, rest) ← read_int s; Some (JInt n, rest)
      end
  end
(** At least one element, up to the bracket that closes the array. *)
with read_elements (fuel : nat) (s : string) : option (list json * string) :=
  match fuel with
  | O => None
  | S fuel =>
      '(x, rest) ← read_value fuel s;
      match skip_space rest with
      | String c t =>
          if code c =? 44 then '(xs, rest) ← read_elements fuel t; Some (x :: xs, rest)
          else if code c =? 93 then Some ([x], t) else None
      | EmptyString => None
      end
  end
with read_fields (fuel : nat) (s : string) : option (list (string * json) * string) :=
  match fuel with
  | O => None
  | S fuel =>
      match skip_space s with
      | String q s' =>
          if code q =? 34 then
            '(k, rest) ← read_body s';
            match skip_space rest with
            | String colon t =>
                if code colon =? 58 then
                  '(v, rest) ← read_value fuel t;
                  match skip_space rest with
                  | String c t =>
                      if code c =? 44 then '(fields, rest) ← read_fields fuel t; Some ((k, v) :: fields, rest)
                      else if code c =? 125 then Some ([(k, v)], t) else None
                  | EmptyString => None
                  end
                else None
            | EmptyString => None
            end
          else None
      | EmptyString => None
      end
  end.

(** A whole text: one value and nothing after it but space. *)
Definition Unmarshal (s : string) : option json :=
  '(j, rest) ← read_value (2 * String.length s + 1) s;
  match skip_space rest with EmptyString => Some j | _ => None end.

(** ** Lemmas *)

(** *** Runes *)

Lemma lor_shiftl_add hi lo n : 0 <= n -> 0 <= lo < 2 ^ n -> Z.lor (Z.shiftl hi n) lo = hi * 2 ^ n + lo.
Proof.
  intros Hn Hlo. rewrite <- Z.shiftl_mul_pow2 by done. symmetry. apply Z.add_nocarry_lor. apply Z.bits_inj'. intros i Hi.
  rewrite Z.land_spec, Z.bits_0. destruct (Z.ltb_spec i n).
  - by rewrite Z.shiftl_spec_low by lia.
  - rewrite <- (Z.mod_small lo (2 ^ n)) by done. by rewrite Z.mod_pow2_bits_high, andb_false_r by lia.
Qed.

Lemma byte_of_code c : byte_of (code c) = c.
Proof. unfold byte_of, code. by rewrite N2Z.id, ascii_N_embedding. Qed.

Lemma land_low n k : 0 <= k -> 0 <= n -> Z.land n (2 ^ k - 1) = n mod 2 ^ k.
Proof. intros Hk Hn. rewrite <- Z.land_ones by done. by rewrite Z.ones_equiv. Qed.

Lemma cont_value lo hi s x rest :
  cont lo hi s = Some (x, rest) -> 0x80 <= lo -> hi <= 0xBF ->
  exists c, s = String c rest /\ code c = 0x80 + x /\ 0 <= x < 64 /\ lo <= 0x80 + x <= hi.
Proof.
  unfold cont. destruct s as [|c s]; [done|]. destruct ((lo <=? code c) && (code c <=? hi)) eqn:E; [|done].
  intros [= <- <-] Hlo Hhi. exists c. apply andb_true_iff in E as [E1 E2].
  change 0x3F with (2 ^ 6 - 1). rewrite land_low by lia. change (2 ^ 6) with 64.
  assert (code c mod 64 = code c - 128) as ->; [|repeat split; lia].
  symmetry. apply (Z.mod_unique _ _ 2); lia.
Qed.

Ltac by_if := match goal with |- context [if ?x then _ else _] => destruct x; lia end.

(** The separators are read back from their escapes. *)
Lemma DecodeRune_separator s r w :
  DecodeRune s = (r, w) -> r = 0x2028 \/ r = 0x2029 -> w = 3%nat /\ take_bytes w s = EncodeRune r.
Proof.
  intros Hd Hr. destruct s as [|c s]; [injection Hd as <- <-; unfold RuneError in Hr; lia|].
  pose proof (code_bounds c) as Hc. cbn [DecodeRune] in Hd. set (b := code c) in *.
  destruct (Z.ltb_spec b 0x80); [injection Hd as <- <-; lia|].
  destruct ((0xC2 <=? b) && (b <=? 0xDF)) eqn:E2.
  { destruct (cont 0x80 0xBF s) as [[x s1]|] eqn:E; [|injection Hd as <- <-; unfold RuneError in Hr; lia].
    apply cont_value in E as (d & -> & _ & Hx & _); [|lia|lia]. injection Hd as <- <-.
    change 0x1F with (2 ^ 5 - 1) in Hr. rewrite land_low, lor_shiftl_add in Hr by lia.
    pose proof (Z.mod_pos_bound b (2 ^ 5)). lia. }
  destruct ((0xE0 <=? b) && (b <=? 0xEF)) eqn:E3.
  { destruct (cont (if b =? 0xE0 then _ else _) _ s) as [[x s1]|] eqn:E; [|injection Hd as <- <-; unfold RuneError in Hr; lia].
    destruct (cont 0x80 0xBF s1) as [[y s2]|] eqn:E'; [|injection Hd as <- <-; unfold RuneError in Hr; lia].
    apply cont_value in E' as (d2 & -> & Hd2 & Hy & _); [|lia|lia].
    apply cont_value in E as (d1 & -> & Hd1 & Hx & _); [|by_if|by_if]. injection Hd as <- <-. split; [done|].
    change 0x0F with (2 ^ 4 - 1) in *. rewrite land_low, (lor_shiftl_add x y), lor_shiftl_add in * by lia.
    assert (b mod 2 ^ 4 = b - 224) as Hb by (symmetry; apply (Z.mod_unique _ _ 14); lia). rewrite Hb in *.
    assert (b = 0xE2 /\ x = 0 /\ (y = 0x28 \/ y = 0x29)) as (Eb & -> & Ey) by lia.
    cbn [take_bytes]. rewrite <- (byte_of_code c), <- (byte_of_code d1), <- (byte_of_code d2), Hd1, Hd2.
    change (code c) with b. rewrite Eb. by destruct Ey as [-> | ->]. }
  destruct ((0xF0 <=? b) && (b <=? 0xF4)) eqn:E4; [|injection Hd as <- <-; unfold RuneError in Hr; lia].
  destruct (cont (if b =? 0xF0 then _ else _) _ s) as [[x s1]|] eqn:E; [|injection Hd as <- <-; unfold RuneError in Hr; lia].
  destruct (cont 0x80 0xBF s1) as [[y s2]|] eqn:E'; [|injection Hd as <- <-; unfold RuneError in Hr; lia].
  destruct (cont 0x80 0xBF s2) as [[z s3]|] eqn:E''; [|injection Hd as <- <-; unfold RuneError in Hr; lia].
  apply cont_value in E'' as (d3 & -> & _ & Hz & _); [|lia|lia].
  apply cont_value in E' as (d2 & -> & _ & Hy & _); [|lia|lia].
  apply cont_value in E as (d1 & -> & _ & Hx & Hlo); [|by_if|by_if]. injection Hd as <- <-.
  change 0x07 with (2 ^ 3 - 1) in Hr. rewrite land_low, (lor_shiftl_add y z), (lor_shiftl_add x), lor_shiftl_add in Hr by lia.
  assert (b mod 2 ^ 3 = b - 240) as Hb by (symmetry; apply (Z.mod_unique _ _ 30); lia). rewrite Hb in Hr.
  destruct (Z.eqb_spec b 0xF0); lia.
Qed.

(** *** Strings *)

Definition high (s : string) : bool := forallb (fun c => 0x80 <=? code c) (list_ascii_of_string s).

Lemma read_high c s : (0x80 <=? code c) = true -> read_body (String c s) = '(x, rest) ← read_body s; Some (String c x, rest).
Proof.
  intros Hc. cbn [read_body]. replace (code c =? 34) with false by lia. replace (code c =? 92) with false by lia.
  by replace (code c <? 0x20) with false by lia.
Qed.

Lemma read_high_all t s x rest :
  high t = true -> read_body s = Some (x, rest) -> read_body (t +:+ s) = Some (t +:+ x, rest).
Proof.
  intros Ht Hs. induction t as [|c t IH]; [done|]. unfold high in Ht. cbn in Ht. apply andb_true_iff in Ht as [Hc Ht].
  change (String c t +:+ s) with (String c (t +:+ s)). rewrite read_high by done. by rewrite (IH Ht).
Qed.

Lemma read_safe c s : json_safe c = true -> read_body (String c s) = '(x, rest) ← read_body s; Some (String c x, rest).
Proof.
  intros Hc. unfold json_safe in Hc. cbn [read_body]. replace (code c =? 34) with false by lia.
  replace (code c =? 92) with false by lia. by replace (code c <? 0x20) with false by lia.
Qed.

Lemma read_escaped c s :
  json_safe c = false -> code c < 0x80 ->
  read_body (json_escape c +:+ s) = '(x, rest) ← read_body s; Some (String c x, rest).
Proof.
  intros Hs Hc. destruct c as [[] [] [] [] [] [] [] []]; try (by exfalso; vm_compute in Hc); try discriminate Hs; reflexivity.
Qed.

(** The rest of a rune is copied, or skipped when the rune was escaped. *)
Lemma json_body_skip k s : json_body k s = json_body 0 (drop_bytes k s).
Proof. revert s. induction k as [|k IH]; intros s; destruct s as [|c s]; try done. apply IH. Qed.

Lemma valid_utf8_skip k s : continues k s -> valid_utf8_go k s = valid_utf8 (drop_bytes k s).
Proof.
  revert s. induction k as [|k IH]; intros s; [by destruct s|]. destruct s as [|c s]; [done|]. intros [_ Hk]. by apply IH.
Qed.

Lemma continues_high k s : continues k s -> high (take_bytes k s) = true /\ (k <= String.length s)%nat.
Proof.
  revert s. induction k as [|k IH]; intros s; [destruct s; cbn; split; (done || lia)|].
  destruct s as [|c s]; [done|]. intros [Hc Hk]. destruct (IH s Hk) as [Hh Hl]. unfold high in *. cbn. rewrite Hh, andb_true_r.
  split; [|lia]. unfold RuneStart in Hc. pose proof (code_bounds c). destruct (Z.leb_spec 0x80 (code c)) as [|Hlt]; [done|].
  apply negb_false_iff, Z.eqb_eq in Hc.
  assert (Z.land (code c) 0xC0 <= 0x40) as Hb; [|lia].
  assert (forallb (fun k => Z.land (Z.of_nat k) 0xC0 <=? 0x40) (seq 0 128) = true) as Hall by (vm_compute; reflexivity).
  rewrite forallb_forall in Hall. specialize (Hall (Z.to_nat (code c))). rewrite Z2Nat.id in Hall by lia.
  apply Z.leb_le, Hall, in_seq. lia.
Qed.

Lemma drop_length k s : (String.length (drop_bytes k s) <= String.length s)%nat.
Proof. revert s. induction k as [|k IH]; intros [|c s]; cbn; [done..|]. specialize (IH s). lia. Qed.

Lemma read_json_body s : forall rest,
  valid_utf8 s = true -> read_body (json_body 0 s +:+ dquote +:+ rest) = Some (s, rest).
Proof.
  remember (String.length s) as n eqn:Hn. revert s Hn.
  induction n as [n IH] using lt_wf_ind. intros [|c s] -> rest Hv; [done|].
  cbn [json_body]. destruct (Z.ltb_spec (code c) 0x80) as [Hc|Hc].
  - assert (valid_utf8 s = true) as Hs.
    { unfold valid_utf8 in Hv. cbn [valid_utf8_go DecodeRune] in Hv. rewrite (proj2 (Z.ltb_lt _ _) Hc) in Hv.
      by destruct ((code c =? RuneError) && Nat.eqb 1 1). }
    specialize (IH (String.length s) ltac:(cbn; lia) s eq_refl rest Hs). rewrite <- append_assoc.
    destruct (json_safe c) eqn:E.
    + change (String c "" +:+ ?t) with (String c t). by rewrite read_safe, IH.
    + by rewrite read_escaped, IH.
  - unfold valid_utf8 in Hv. cbn [valid_utf8_go] in Hv. destruct (DecodeRune (String c s)) as [r w] eqn:E.
    destruct ((r =? RuneError) && Nat.eqb w 1) eqn:Hbad; [done|].
    destruct (DecodeRune_width c s r w E Hbad) as (k & -> & Hk & _). replace (S k - 1)%nat with k in * by lia.
    rewrite (valid_utf8_skip k s Hk) in Hv. rewrite json_body_skip.
    pose proof (drop_length k s). destruct (continues_high k s Hk) as [Hh Hl].
    specialize (IH (String.length (drop_bytes k s)) ltac:(cbn; lia) _ eq_refl rest Hv).
    destruct ((r =? 0x2028) || (r =? 0x2029)) eqn:Hsep.
    + destruct (DecodeRune_separator _ _ _ E) as [Hw He]; [lia|]. injection Hw as ->.
      cbn [take_bytes] in He. rewrite <- !append_assoc.
      assert (String c s = EncodeRune r +:+ drop_bytes 2 s) as ->.
      { rewrite <- He. change (String c s) with (String c "" +:+ s). rewrite <- (take_drop_bytes 2 s) at 1. by rewrite append_assoc. }
      apply orb_true_iff in Hsep as [->%Z.eqb_eq| ->%Z.eqb_eq].
      * change (read_body _) with ('(x, rest) ← read_body (json_body 0 (drop_bytes 2 s) +:+ dquote +:+ rest); Some (EncodeRune 0x2028 +:+ x, rest)).
        by rewrite IH.
      * change (read_body _) with ('(x, rest) ← read_body (json_body 0 (drop_bytes 2 s) +:+ dquote +:+ rest); Some (EncodeRune 0x2029 +:+ x, rest)).
        by rewrite IH.
    + rewrite <- append_assoc. cbn [take_bytes]. change (String c (take_bytes k s) +:+ ?t) with (String c (take_bytes k s +:+ t)).
      rewrite read_high by lia. rewrite (read_high_all _ _ _ _ Hh IH). by rewrite take_drop_bytes.
Qed.

Lemma read_json_string s rest : valid_utf8 s = true -> 
  exists t, json_string s +:+ rest = dquote +:+ t /\ read_body t = Some (s, rest).
Proof.
  intros Hs. eexists. split; [|by apply (read_json_body s rest)]. unfold json_string. by rewrite <- !append_assoc.
Qed.

(** *** Values *)

(** [space w]: only white space. *)
Definition space (w : string) : bool := forallb is_space (list_ascii_of_string w).

(** The texts of a value, with any white space between the tokens of arrays and objects. *)
Inductive renders : json -> string -> Prop :=
  | renders_null : renders JNull "null"
  | renders_bool b : renders (JBool b) (bool_text b)
  | renders_int n : renders (JInt n) (Itoa n)
  | renders_string s : valid_utf8 s = true -> renders (JString s) (json_string s)
  | renders_no_elements : renders (JArray []) "[]"
  | renders_no_fields : renders (JObject []) "{}"
  | renders_array xs t : renders_elements xs t -> renders (JArray xs) ("[" +:+ t)
  | renders_object fields t : renders_fields fields t -> renders (JObject fields) ("{" +:+ t)
with renders_elements : list json -> string -> Prop :=
  | renders_last x t w w' : renders x t -> space w = true -> space w' = true ->
      renders_elements [x] (w +:+ t +:+ w' +:+ "]")
  | renders_more x t w xs ts : renders x t -> space w = true -> renders_elements xs ts ->
      renders_elements (x :: xs) (w +:+ t +:+ "," +:+ ts)
with renders_fields : list (string * json) -> string -> Prop :=
  | renders_last_field k v t w w' w'' : valid_utf8 k = true -> renders v t -> space w = true -> space w' = true -> space w'' = true ->
      renders_fields [(k, v)] (w +:+ json_string k +:+ ":" +:+ w' +:+ t +:+ w'' +:+ "}")
  | renders_more_fields k v t w w' fields ts : valid_utf8 k = true -> renders v t -> space w = true -> space w' = true ->
      renders_fields fields ts ->
      renders_fields ((k, v) :: fields) (w +:+ json_string k +:+ ":" +:+ w' +:+ t +:+ "," +:+ ts).

Scheme renders_mut := Minimality for renders Sort Prop
  with renders_elements_mut := Minimality for renders_elements Sort Prop
  with renders_fields_mut := Minimality for renders_fields Sort Prop.
Combined Scheme renders_ind_all from renders_mut, renders_elements_mut, renders_fields_mut.

Lemma skip_space_app w s : space w = true -> skip_space (w +:+ s) = skip_space s.
Proof.
  induction w as [|c w IH]; [done|]. unfold space. cbn. intros [Hc Hw]%andb_true_iff. rewrite Hc. by apply IH.
Qed.

(** The first byte of a value. *)
Definition starts (t : string) : Prop :=
  exists c u, t = String c u /\ is_space c = false /\ code c <> 93 /\ code c <> 125.

Lemma starts_skip t s : starts t -> skip_space (t +:+ s) = t +:+ s.
Proof. intros (c & u & -> & Hc & _). cbn. by rewrite Hc. Qed.

Lemma Itoa_cons n : exists c u, Itoa n = String c u /\ (c = byte_of 45 \/ is_digit c = true).
Proof.
  unfold Itoa. destruct (n <? 0).
  - exists (byte_of 45), (dec (- n)). by split; [|left].
  - destruct (dec_cons n) as (c & s & -> & Hc). eauto.
Qed.

Lemma starts_byte c u : (c = byte_of 45 \/ is_digit c = true) -> starts (String c u).
Proof.
  intros Hc. exists c, u. split; [done|]. destruct Hc as [->|Hc%is_digit_code]; [by vm_compute|].
  unfold is_space. repeat split; lia.
Qed.

Lemma renders_starts j t : renders j t -> starts t.
Proof.
  destruct 1 as [|[]|n|s Hs| | |xs t _|fields t _]; try (by eexists _, _; split; [reflexivity|]; vm_compute).
  - destruct (Itoa_cons n) as (c & u & -> & Hc). by apply starts_byte.
Qed.

Lemma read_digits_all d rest :
  all_digits d = true -> match rest with String c _ => is_digit c = false | EmptyString => True end ->
  read_digits (d +:+ rest) = (d, rest).
Proof.
  intros Hd Hr. unfold all_digits in Hd. induction d as [|c d IH]; cbn in *.
  - destruct rest as [|c rest]; [done|]. cbn. by rewrite Hr.
  - apply andb_true_iff in Hd as [Hc Hd]. by rewrite Hc, (IH Hd).
Qed.

(** What may follow a number. *)
Definition no_digit (rest : string) : Prop := match rest with String c _ => is_digit c = false | EmptyString => True end.

Lemma read_dec n rest :
  0 <= n -> no_digit rest ->
  exists c d, dec n = String c d /\ is_digit c = true /\ read_digits (dec n +:+ rest) = (String c d, rest) /\
    digits_value 0 (String c d) = Some n.
Proof.
  intros Hn Hr. destruct (dec_cons n) as (c & d & E & Hc). pose proof (dec_value n 0 Hn) as Hv.
  exists c, d. rewrite read_digits_all by (done || apply dec_all_digits). rewrite E in *. by rewrite Hv.
Qed.

Lemma read_int_Itoa n rest : no_digit rest -> read_int (Itoa n +:+ rest) = Some (n, rest).
Proof.
  intros Hr. unfold Itoa. destruct (Z.ltb_spec n 0).
  - destruct (read_dec (- n) rest ltac:(lia) Hr) as (c & d & _ & _ & Hd & Hv). unfold read_int.
    change ((char 45 +:+ dec (- n)) +:+ rest) with (String (byte_of 45) (dec (- n) +:+ rest)).
    cbv iota beta. rewrite (code_byte_of 45), Z.eqb_refl by lia. by rewrite Hd, Hv, Z.opp_involutive.
  - destruct (read_dec n rest ltac:(lia) Hr) as (c & d & E & Hc%is_digit_code & Hd & Hv). unfold read_int.
    rewrite E in *. change (String c d +:+ rest) with (String c (d +:+ rest)) in *.
    cbv iota beta. replace (code c =? 45) with false by lia.
    cbv iota beta. by rewrite Hd, Hv.
Qed.

Lemma skip_space_twice s : skip_space (skip_space s) = skip_space s.
Proof. induction s as [|c s IH]; [done|]. cbn. destruct (is_space c) eqn:E; [done|]. cbn. by rewrite E. Qed.

Lemma read_value_space fuel s : read_value fuel (skip_space s) = read_value fuel s.
Proof. destruct fuel; [done|]. cbn [read_value]. by rewrite skip_space_twice. Qed.
Lemma read_elements_space fuel s : read_elements fuel (skip_space s) = read_elements fuel s.
Proof. destruct fuel; [done|]. cbn [read_elements]. by rewrite read_value_space. Qed.
Lemma read_fields_space fuel s : read_fields fuel (skip_space s) = read_fields fuel s.
Proof. destruct fuel; [done|]. cbn [read_fields]. by rewrite skip_space_twice. Qed.

(** Reading goes past white space. *)
Lemma read_value_app fuel w s : space w = true -> read_value fuel (w +:+ s) = read_value fuel s.
Proof. intros Hw. by rewrite <- read_value_space, (skip_space_app w s Hw), read_value_space. Qed.

(** The first byte of the elements or the fields of a text does not close it. *)
Definition opens (close : Z) (t : string) : Prop :=
  forall rest, exists c u, skip_space (t +:+ rest) = String c u /\ code c <> close.

Lemma renders_elements_opens xs t : renders_elements xs t -> opens 93 t.
Proof.
  intros Ht rest.
  assert (exists w t' u, t = w +:+ t' +:+ u /\ space w = true /\ starts t') as (w & t' & u & -> & Hw & Hs).
  { destruct Ht as [x t w w' Hx Hw _|x t w xs ts Hx Hw _]; [exists w, t, (w' +:+ "]")|exists w, t, ("," +:+ ts)];
      eauto using renders_starts. }
  rewrite <- append_assoc, (skip_space_app w) by done. rewrite <- append_assoc, starts_skip by done.
  destruct Hs as (c & v & -> & _ & Hc & _). by exists c, (v +:+ u +:+ rest).
Qed.

Lemma renders_fields_opens fields t : renders_fields fields t -> opens 125 t.
Proof.
  intros Ht rest. assert (exists w u, t = w +:+ dquote +:+ u /\ space w = true) as (w & u & -> & Hw).
  { destruct Ht as [k v t w w' w'' _ _ Hw _ _|k v t w w' fields ts _ _ Hw _ _]; exists w; unfold json_string;
      rewrite <- ?append_assoc; eauto. }
  rewrite <- append_assoc, (skip_space_app w) by done. by exists (byte_of 34), (u +:+ rest).
Qed.

(** Decides the tests on a byte that is known. *)
Ltac known_byte :=
  cbn [skip_space];
  repeat match goal with
  | |- context [is_space (Ascii ?a ?b ?c ?d ?e ?f ?g ?h)] =>
      let v := eval vm_compute in (is_space (Ascii a b c d e f g h)) in
      change (is_space (Ascii a b c d e f g h)) with v; cbv iota beta
  | |- context [code (Ascii ?a ?b ?c ?d ?e ?f ?g ?h) =? ?n] =>
      let v := eval vm_compute in (code (Ascii a b c d e f g h) =? n) in
      change (code (Ascii a b c d e f g h) =? n) with v; cbv iota beta
  end.

(** One step of [read_value], by the first byte of what it reads. *)
Lemma read_string_value fuel s rest :
  valid_utf8 s = true -> read_value (S fuel) (json_string s +:+ rest) = Some (JString s, rest).
Proof.
  intros Hs. destruct (read_json_string s rest Hs) as (t & -> & Hr).
  change (read_value (S fuel) (dquote +:+ t)) with ('(x, rest) ← read_body t; Some (JString x, rest)). by rewrite Hr.
Qed.

Lemma read_array_value fuel t rest xs :
  opens 93 t -> read_elements fuel (t +:+ rest) = Some (xs, rest) ->
  read_value (S fuel) (("[" +:+ t) +:+ rest) = Some (JArray xs, rest).
Proof.
  intros Ho Hr. destruct (Ho rest) as (c & u & E & Hc). rewrite <- read_elements_space, E in Hr.
  change (("[" +:+ t) +:+ rest) with (String "[" (t +:+ rest)). cbn -[read_elements skip_space]. cbn [skip_space].
  change (is_space "[") with false. cbn -[read_elements skip_space]. rewrite E.
  replace (code c =? 93) with false by lia. by rewrite Hr.
Qed.

Lemma read_object_value fuel t rest fields :
  opens 125 t -> read_fields fuel (t +:+ rest) = Some (fields, rest) ->
  read_value (S fuel) (("{" +:+ t) +:+ rest) = Some (JObject fields, rest).
Proof.
  intros Ho Hr. destruct (Ho rest) as (c & u & E & Hc). rewrite <- read_fields_space, E in Hr.
  change (("{" +:+ t) +:+ rest) with (String "{" (t +:+ rest)). cbn -[read_fields skip_space]. cbn [skip_space].
  change (is_space "{") with false. cbn -[read_fields skip_space]. rewrite E.
  replace (code c =? 125) with false by lia. by rewrite Hr.
Qed.

Lemma read_int_value fuel n rest : no_digit rest -> read_value (S fuel) (Itoa n +:+ rest) = Some (JInt n, rest).
Proof.
  intros Hr. destruct (Itoa_cons n) as (c & u & E & Hc). pose proof (read_int_Itoa n rest Hr) as Hi. rewrite E in *.
  change (String c u +:+ rest) with (String c (u +:+ rest)) in *. cbn [read_value skip_space].
  assert (is_space c = false /\ code c <> 34 /\ code c <> 91 /\ code c <> 123 /\ code c <> 110 /\ code c <> 116 /\ code c <> 102)
    as (Hs & H1 & H2 & H3 & H4 & H5 & H6).
  { destruct Hc as [->|Hc%is_digit_code]; [by vm_compute|]. unfold is_space. repeat split; lia. }
  rewrite Hs. rewrite !(proj2 (Z.eqb_neq _ _)) by done. by rewrite Hi.
Qed.

Lemma read_element_last fuel x t w w' rest :
  read_value fuel (t +:+ w' +:+ "]" +:+ rest) = Some (x, w' +:+ "]" +:+ rest) -> space w = true -> space w' = true ->
  read_elements (S fuel) ((w +:+ t +:+ w' +:+ "]") +:+ rest) = Some ([x], rest).
Proof.
  intros Hx Hw Hw'. cbn [read_elements]. rewrite <- !append_assoc, read_value_app, Hx by done. cbn.
  by rewrite skip_space_app.
Qed.

Lemma no_digit_space w c s : space w = true -> is_digit c = false -> no_digit (w +:+ String c s).
Proof.
  destruct w as [|d w]; [done|]. unfold space. cbn. intros [Hd _]%andb_true_iff _. unfold is_space in Hd. unfold is_digit. lia.
Qed.

Lemma read_field_key fuel w k s :
  valid_utf8 k = true -> space w = true ->
  read_fields (S fuel) (w +:+ json_string k +:+ ":" +:+ s) =
  ('(v, rest) ← read_value fuel s;
   match skip_space rest with
   | String c t =>
       if code c =? 44 then '(fields, rest) ← read_fields fuel t; Some ((k, v) :: fields, rest)
       else if code c =? 125 then Some ([(k, v)], t) else None
   | EmptyString => None
   end).
Proof.
  intros Hk Hw. cbn [read_fields]. rewrite skip_space_app by done.
  destruct (read_json_string k (":" +:+ s) Hk) as (u & -> & Hu).
  change (skip_space (dquote +:+ u)) with (String (byte_of 34) u). cbv iota beta.
  rewrite (code_byte_of 34), Z.eqb_refl by lia. by rewrite Hu.
Qed.

Lemma read_word fuel word rest :
  In word ["null"; "true"; "false"] ->
  read_value (S fuel) (word +:+ rest) =
    Some (if String.eqb word "null" then JNull else JBool (String.eqb word "true"), rest).
Proof.
  intros Hw. assert (after word (word +:+ rest) = Some rest) as Ha.
  { unfold after. by rewrite (proj2 (HasPrefix_spec _ _) (ex_intro _ rest eq_refl)), drop_append. }
  repeat destruct Hw as [<-|Hw]; [| | |done].
  - change (read_value _ _) with (rest' ← after "null" ("null" +:+ rest); Some (JNull, rest')). by rewrite Ha.
  - change (read_value _ _) with (rest' ← after "true" ("true" +:+ rest); Some (JBool true, rest')). by rewrite Ha.
  - change (read_value _ _) with (rest' ← after "false" ("false" +:+ rest); Some (JBool false, rest')). by rewrite Ha.
Qed.

(** A rendered value is read back, with twice as much fuel as it has bytes. *)
Lemma read_renders :
  (forall j t, renders j t -> forall fuel rest, (2 * String.length t <= fuel)%nat -> no_digit rest ->
     read_value fuel (t +:+ rest) = Some (j, rest)) /\
  (forall xs t, renders_elements xs t -> forall fuel rest, (2 * String.length t <= fuel)%nat ->
     read_elements fuel (t +:+ rest) = Some (xs, rest)) /\
  (forall fields t, renders_fields fields t -> forall fuel rest, (2 * String.length t <= fuel)%nat ->
     read_fields fuel (t +:+ rest) = Some (fields, rest)).
Proof.
  apply renders_ind_all.
  - intros [|fuel] rest Hf _; [cbn in Hf; lia|]. by apply (read_word fuel "null"); left.
  - intros b [|fuel] rest Hf _; [by destruct b; cbn in Hf; lia|].
    by destruct b; [apply (read_word fuel "true"); right; left|apply (read_word fuel "false"); right; right; left].
  - intros n [|fuel] rest Hf Hr; [|by apply read_int_value].
    destruct (Itoa_cons n) as (c & u & E & _). rewrite E in Hf. cbn in Hf. lia.
  - intros s Hs [|fuel] rest Hf Hr; [cbn in Hf; lia|by apply read_string_value].
  - intros [|fuel] rest Hf _; [cbn in Hf; lia|done].
  - intros [|fuel] rest Hf _; [cbn in Hf; lia|done].
  - intros xs t Ht IH [|fuel] rest Hf _; [cbn in Hf; lia|].
    apply read_array_value; [by eapply renders_elements_opens|]. apply IH. cbn in Hf. lia.
  - intros fields t Ht IH [|fuel] rest Hf _; [cbn in Hf; lia|].
    apply read_object_value; [by eapply renders_fields_opens|]. apply IH. cbn in Hf. lia.
  - intros x t w w' Hx IH Hw Hw' fuel rest Hf. rewrite !length_append in Hf. cbn in Hf.
    destruct fuel as [|fuel]; [lia|]. apply read_element_last; [|done|done].
    apply IH; [lia|by apply no_digit_space].
  - intros x t w xs ts Hx IHx Hw Hts IHs fuel rest Hf. rewrite !length_append in Hf. cbn in Hf.
    destruct fuel as [|fuel]; [lia|]. cbn [read_elements]. rewrite <- !append_assoc, read_value_app by done.
    rewrite IHx; [|lia|by apply (no_digit_space "")]. cbn -[skip_space is_space code Z.eqb].
    known_byte. by rewrite IHs by lia.
  - intros k v t w w' w'' Hk Hv IH Hw Hw' Hw'' fuel rest Hf. rewrite !length_append in Hf. cbn in Hf.
    destruct fuel as [|fuel]; [lia|]. rewrite <- !append_assoc, read_field_key, read_value_app by done.
    rewrite IH; [|lia|by apply no_digit_space]. cbn. by rewrite skip_space_app.
  - intros k v t w w' fields ts Hk Hv IHv Hw Hw' Hts IHs fuel rest Hf. rewrite !length_append in Hf. cbn in Hf.
    destruct fuel as [|fuel]; [lia|]. rewrite <- !append_assoc, read_field_key, read_value_app by done.
    rewrite IHv; [|lia|by apply (no_digit_space "")]. cbn -[skip_space is_space code Z.eqb].
    known_byte. by rewrite IHs by lia.
Qed.

(** *** What the encoder prints *)

Section json_induction.
Context (P : json -> Prop).
Context (Hnull : P JNull) (Hbool : forall b, P (JBool b)) (Hint : forall n, P (JInt n)) (Hstring : forall s, P (JString s)).
Context (Harray : forall xs, Forall P xs -> P (JArray xs)).
Context (Hobject : forall fields, Forall (fun kv => P kv.2) fields -> P (JObject fields)).

Fixpoint json_induction (j : json) : P j :=
  match j with
  | JNull => Hnull
  | JBool b => Hbool b
  | JInt n => Hint n
  | JString s => Hstring s
  | JArray xs => Harray xs ((fix all xs : Forall P xs :=
      match xs with [] => Forall_nil_2 _ | x :: xs => Forall_cons_2 _ x xs (json_induction x) (all xs) end) xs)
  | JObject fields => Hobject fields ((fix all fields : Forall (fun kv => P kv.2) fields :=
      match fields with
      | [] => Forall_nil_2 _
      | kv :: fields => Forall_cons_2 (fun kv => P kv.2) kv fields (json_induction kv.2) (all fields)
      end) fields)
  end.
End json_induction.

(** Every string of a value, keys included, is valid UTF-8: others are not printed as they are. *)
Fixpoint json_valid (j : json) : bool :=
  match j with
  | JString s => valid_utf8 s
  | JArray xs => forallb json_valid xs
  | JObject fields => forallb (fun kv => valid_utf8 kv.1 && json_valid kv.2) fields
  | _ => true
  end.

Lemma join_elements (print : json -> string) xs w w' :
  Forall (fun x => renders x (print x)) xs -> xs <> [] -> space w = true -> space w' = true ->
  renders_elements xs (w +:+ Join (map print xs) ("," +:+ w) +:+ w' +:+ "]").
Proof.
  intros Hxs Hne Hw Hw'. induction Hxs as [|x xs Hx Hxs IH]; [done|]. destruct xs as [|x' xs].
  - by apply renders_last.
  - specialize (IH ltac:(done)). change (Join (map print (x :: x' :: xs)) ("," +:+ w)) with
      (print x +:+ ("," +:+ w) +:+ Join (map print (x' :: xs)) ("," +:+ w)).
    rewrite <- !append_assoc. by apply renders_more.
Qed.

Lemma join_fields (print : json -> string) fields w w' gap :
  Forall (fun kv => valid_utf8 kv.1 = true /\ renders kv.2 (print kv.2)) fields -> fields <> [] ->
  space w = true -> space w' = true -> space gap = true ->
  renders_fields fields
    (w +:+ Join (map (fun kv => json_string kv.1 +:+ ":" +:+ gap +:+ print kv.2) fields) ("," +:+ w) +:+ w' +:+ "}").
Proof.
  intros Hf Hne Hw Hw' Hg. induction Hf as [|[k v] fields [Hk Hv] Hf IH]; [done|]. destruct fields as [|kv fields].
  - change (Join (map _ [(k, v)]) _) with (json_string k +:+ ":" +:+ gap +:+ print v).
    rewrite <- !append_assoc. by apply renders_last_field.
  - specialize (IH ltac:(done)). change (Join (map ?f ((k, v) :: kv :: fields)) ?sep) with
      ((json_string k +:+ ":" +:+ gap +:+ print v) +:+ sep +:+ Join (map f (kv :: fields)) sep).
    rewrite <- !append_assoc. by apply renders_more_fields.
Qed.

Lemma space_indent n indent : space indent = true -> space (repeat_text n indent) = true.
Proof.
  intros Hi. induction n as [|n IH]; [done|]. unfold space in *. cbn [repeat_text].
  revert Hi. generalize indent at 1 2. intros s. induction s as [|c s IHs]; [done|]. cbn.
  intros [Hc Hs]%andb_true_iff. by rewrite Hc, IHs.
Qed.

Lemma MarshalIndent_renders j : forall depth indent,
  json_valid j = true -> space indent = true -> renders j (MarshalIndent_at depth indent j).
Proof.
  induction j as [|b|n|s|xs IH|fields IH] using json_induction; intros depth indent Hv Hi.
  - apply renders_null.
  - apply renders_bool.
  - apply renders_int.
  - by apply renders_string.
  - destruct xs as [|x xs]; [apply renders_no_elements|].
    assert (forall n, space (newline +:+ repeat_text n indent) = true) as Hs by (intros n; by apply (space_indent n) in Hi).
    change (MarshalIndent_at depth indent (JArray (x :: xs))) with
      ("[" +:+ (newline +:+ repeat_text (S depth) indent) +:+
       Join (map (MarshalIndent_at (S depth) indent) (x :: xs)) ("," +:+ (newline +:+ repeat_text (S depth) indent)) +:+
       (newline +:+ repeat_text depth indent) +:+ "]").
    apply renders_array, join_elements; [|done|apply Hs|apply Hs].
    apply Forall_forall. intros y Hy. apply (proj1 (Forall_forall _ _) IH y Hy); [|done].
    cbn [json_valid] in Hv. apply (proj1 (forallb_forall _ _) Hv). by apply list_elem_of_In.
  - destruct fields as [|kv fields]; [apply renders_no_fields|].
    assert (forall n, space (newline +:+ repeat_text n indent) = true) as Hs by (intros n; by apply (space_indent n) in Hi).
    change (MarshalIndent_at depth indent (JObject (kv :: fields))) with
      ("{" +:+ (newline +:+ repeat_text (S depth) indent) +:+
       Join (map (fun kv => json_string kv.1 +:+ ":" +:+ " " +:+ MarshalIndent_at (S depth) indent kv.2) (kv :: fields))
         ("," +:+ (newline +:+ repeat_text (S depth) indent)) +:+
       (newline +:+ repeat_text depth indent) +:+ "}").
    apply renders_object, join_fields; [|done|apply Hs|apply Hs|done].
    apply Forall_forall. intros y Hy. cbn [json_valid] in Hv.
    pose proof (proj1 (forallb_forall _ _) Hv y (proj1 (list_elem_of_In _ _) Hy)) as [Hk Hj]%andb_true_iff.
    split; [done|]. by apply (proj1 (Forall_forall _ _) IH y Hy).
Qed.

Lemma Marshal_renders j : json_valid j = true -> renders j (Marshal j).
Proof.
  induction j as [|b|n|s|xs IH|fields IH] using json_induction; intros Hv.
  - apply renders_null.
  - apply renders_bool.
  - apply renders_int.
  - by apply renders_string.
  - destruct xs as [|x xs]; [apply renders_no_elements|]. apply renders_array.
    apply (join_elements Marshal (x :: xs) "" ""); [|done..].
    apply Forall_forall. intros y Hy. apply (proj1 (Forall_forall _ _) IH y Hy).
    cbn [json_valid] in Hv. apply (proj1 (forallb_forall _ _) Hv). by apply list_elem_of_In.
  - destruct fields as [|kv fields]; [apply renders_no_fields|]. apply renders_object.
    apply (join_fields Marshal (kv :: fields) "" "" ""); [|done..].
    apply Forall_forall. intros y Hy. cbn [json_valid] in Hv.
    pose proof (proj1 (forallb_forall _ _) Hv y (proj1 (list_elem_of_In _ _) Hy)) as [Hk Hj]%andb_true_iff.
    split; [done|]. by apply (proj1 (Forall_forall _ _) IH y Hy).
Qed.

Lemma Unmarshal_renders j t : renders j t -> Unmarshal t = Some j.
Proof.
  intros Ht. unfold Unmarshal. rewrite <- (append_nil_r t) at 2.
  by rewrite (proj1 read_renders j t Ht) by (done || lia).
Qed.

(** Encoding and reading back. *)
Lemma Unmarshal_Marshal j : json_valid j = true -> Unmarshal (Marshal j) = Some j.
Proof. intros Hv. by apply Unmarshal_renders, Marshal_renders. Qed.
Lemma Unmarshal_MarshalIndent j indent : json_valid j = true -> space indent = true -> Unmarshal (MarshalIndent j indent) = Some j.
Proof. intros Hv Hi. by apply Unmarshal_renders, MarshalIndent_renders. Qed.
