(* ===== verification/GoSha256.v ===== *)
(** * [crypto/sha256] and [encoding/hex]

    SHA-256 on byte strings. A word is a 32-bit number in [Z]; every sum is reduced mod 2^32. *)
From Stdlib Require Import ZArith Lia Ascii String.
From S2P Require Import Prelude GoStrings.
Local Open Scope Z_scope.
Local Open Scope stdpp_scope.

Definition word (n : Z) : Z := n mod 2 ^ 32.
Definition rotr (k n : Z) : Z := Z.lor (Z.shiftr n k) (word (Z.shiftl n (32 - k))).
Definition not32 (n : Z) : Z := Z.lxor n 0xffffffff.

Definition Ch (x y z : Z) : Z := Z.lxor (Z.land x y) (Z.land (not32 x) z).
Definition Maj (x y z : Z) : Z := Z.lxor (Z.lxor (Z.land x y) (Z.land x z)) (Z.land y z).
Definition Sigma0 (x : Z) : Z := Z.lxor (Z.lxor (rotr 2 x) (rotr 13 x)) (rotr 22 x).
Definition Sigma1 (x : Z) : Z := Z.lxor (Z.lxor (rotr 6 x) (rotr 11 x)) (rotr 25 x).
Definition sigma0 (x : Z) : Z := Z.lxor (Z.lxor (rotr 7 x) (rotr 18 x)) (Z.shiftr x 3).
Definition sigma1 (x : Z) : Z := Z.lxor (Z.lxor (rotr 17 x) (rotr 19 x)) (Z.shiftr x 10).

(** The constants of the standard: the first 32 bits of the fractional parts of the cube roots of
    the first 64 primes, and of the square roots of the first eight. [cube_root k n] fixes the root
    bit by bit from bit [k] down. *)
Fixpoint cube_root_from (k : nat) (root n : Z) : Z :=
  let bit := Z.shiftl 1 (Z.of_nat k) in
  let root := if (root + bit) ^ 3 <=? n then root + bit else root in
  match k with O => root | S k' => cube_root_from k' root n end.
Definition is_prime (n : nat) : bool :=
  forallb (fun d => negb (Nat.eqb (Nat.modulo n d) 0)) (seq 2 (n - 2)).
Definition first_primes : list Z := Eval vm_compute in map Z.of_nat (List.filter is_prime (seq 2 310)).

Definition sha_k : list Z :=
  Eval vm_compute in map (fun p => word (cube_root_from 40 0 (p * 2 ^ 96))) first_primes.
Definition sha_init : list Z :=
  Eval vm_compute in map (fun p => word (Z.sqrt (p * 2 ^ 64))) (take 8 first_primes).

(** The message schedule: the last 16 words, newest first, extended one word at a time. *)
Fixpoint schedule (rounds : nat) (recent : list Z) : list Z :=
  match rounds with
  | O => []
  | S rounds' =>
      match recent with
      | [w1; w2; w3; w4; w5; w6; w7; w8; w9; w10; w11; w12; w13; w14; w15; w16] =>
          let w := word (sigma1 w2 + w7 + sigma0 w15 + w16) in
          w :: schedule rounds' [w; w1; w2; w3; w4; w5; w6; w7; w8; w9; w10; w11; w12; w13; w14; w15]
      | _ => []
      end
  end.

Definition round (h : list Z) (kw : Z * Z) : list Z :=
  match h with
  | [a; b; c; d; e; f; g; hh] =>
      let t1 := hh + Sigma1 e + Ch e f g + kw.1 + kw.2 in
      let t2 := Sigma0 a + Maj a b c in
      [word (t1 + t2); a; b; c; word (d + t1); e; f; g]
  | _ => h
  end.

Definition compress (h block : list Z) : list Z :=
  let ws := block ++ schedule 48 (rev block) in
  zip_with (fun x y => word (x + y)) h (foldl round h (zip sha_k ws)).

(** Big-endian words of a list of bytes. *)
Fixpoint be_words (bs : list Z) : list Z :=
  match bs with
  | a :: b :: c :: d :: rest => (((a * 256 + b) * 256 + c) * 256 + d) :: be_words rest
  | _ => []
  end.

(** One byte 0x80, zeros up to 56 mod 64, and the length in bits as eight bytes. *)
Definition be_bytes (k : nat) (n : Z) : list Z :=
  map (fun i => n / 256 ^ Z.of_nat (k - 1 - i) mod 256) (seq 0 k).
Definition padded (bs : list Z) : list Z :=
  let n := Z.of_nat (length bs) in
  bs ++ [0x80] ++ repeat 0 (Z.to_nat ((55 - n) mod 64)) ++ be_bytes 8 (8 * n).

Fixpoint blocks (fuel : nat) (h ws : list Z) : list Z :=
  match fuel with
  | O => h
  | S fuel' => match ws with [] => h | _ => blocks fuel' (compress h (take 16 ws)) (drop 16 ws) end
  end.

(** [sha256.Sum256]: 32 bytes. *)
Definition Sum256 (s : string) : list Z :=
  let ws := be_words (padded (map code (list_ascii_of_string s))) in
  flat_map (be_bytes 4) (blocks (S (length ws / 16)) sha_init ws).

(** [hex.EncodeToString] *)
Definition EncodeToString (bs : list Z) : string := Sprintf (map (hex_fixed 2) bs).

Example sha256_empty : EncodeToString (Sum256 EmptyString) =
  "e3b0c44298fc1c149afbf4c8996fb92427ae41e4649b934ca495991b7852b855".
Proof. vm_compute. reflexivity. Qed.

Example sha256_abc : EncodeToString (Sum256 "abc") =
  "ba7816bf8f01cfea414140de5dae2223b00361a396177a9cb410ff61f20015ad".
Proof. vm_compute. reflexivity. Qed.

(** ** Lemmas *)

Lemma schedule_length rounds recent : length recent = 16%nat -> length (schedule rounds recent) = rounds.
Proof.
  revert recent. induction rounds as [|r IH]; intros recent Hl; [done|].
  do 16 (destruct recent as [|? recent]; [done|]). destruct recent; [|done].
  simpl. by rewrite IH.
Qed.

Lemma foldl_round_length h kws : length h = 8%nat -> length (foldl round h kws) = 8%nat.
Proof.
  revert h. induction kws as [|kw kws IH]; intros h Hh; [done|]. apply IH.
  do 8 (destruct h as [|? h]; [done|]). by destruct h.
Qed.

Lemma compress_length h block : length h = 8%nat -> length (compress h block) = 8%nat.
Proof. intros Hh. unfold compress. rewrite length_zip_with, foldl_round_length; lia. Qed.

Lemma blocks_length fuel h ws : length h = 8%nat -> length (blocks fuel h ws) = 8%nat.
Proof.
  revert h ws. induction fuel as [|fuel IH]; intros h [|w ws] Hh; simpl; try done.
  by apply IH, compress_length.
Qed.

Lemma Sum256_length s : length (Sum256 s) = 32%nat.
Proof.
  unfold Sum256. set (ws := be_words _).
  pose proof (blocks_length (S (length ws / 16)) sha_init ws eq_refl) as H.
  destruct (blocks _ _ _) as [|? l]; [done|].
  do 7 (destruct l as [|? l]; [done|]). by destruct l.
Qed.

Lemma EncodeToString_length bs : len (EncodeToString bs) = 2 * Z.of_nat (length bs).
Proof.
  unfold EncodeToString, len. induction bs as [|b bs IH]; [done|].
  change (Sprintf (map (hex_fixed 2) (b :: bs))) with (hex_fixed 2 b +:+ Sprintf (map (hex_fixed 2) bs)).
  rewrite length_append, hex_fixed_length. simpl length. lia.
Qed.
