(* ===== verification/Kubernetes.v ===== *)
(** * What the program uses of the Kubernetes libraries

    Client-go, apimachinery and controller-runtime are not part of this repository. Their data
    (object metadata, managed fields, group-version-kinds) is written out here; their functions
    are the operations of three classes, each with the behaviour the program relies on as a class
    of laws. Nothing else in the library assumes anything about them. *)
From Stdlib Require Import ZArith Lia Ascii String.
From S2P Require Import Prelude GoStrings GoJson Api.
Local Open Scope Z_scope.
Local Open Scope stdpp_scope.

(** ** Data *)

Record NamespacedName := mkNamespacedName { nn_Namespace : string; nn_Name : string }.

#[export] Instance NamespacedName_eq_dec : EqDecision NamespacedName.
Proof. solve_decision. Defined.

Record GroupVersionKind := mkGVK { gvk_Group : string; gvk_Version : string; gvk_Kind : string }.

(** The part of [metav1.ObjectMeta] the builders set. *)
Record ObjectMeta := mkObjectMeta {
  meta_Name : string;
  meta_Namespace : string;
  meta_Labels : gmap string string
}.

(** An entry of [metadata.managedFields]; the time is a pointer, and the fields are the raw bytes
    of a pointer to [FieldsV1]. *)
Record ManagedFieldsEntry := mkManagedFieldsEntry {
  Manager : string;
  Operation : string;
  Subresource : string;
  entry_Time : option Z;
  FieldsV1 : option string
}.

Definition ManagedFieldsOperationApply : string := "Apply".

(** A namespace as read from the API server. *)
Record LiveNamespace := mkLiveNamespace {
  ns_Name : string;
  ns_Labels : gmap string string;
  ns_DeletionTimestamp : option Z
}.

(** The part of an Argo Rollout's metadata and status the controller reads. *)
Record LiveRollout := mkLiveRollout {
  ro_Generation : Z;
  ro_ObservedGeneration : string;
  ro_Phase : string;
  ro_Message : string
}.
Definition empty_rollout : LiveRollout := mkLiveRollout 0 "" "" "".
Definition RolloutPhaseHealthy : string := "Healthy".
Definition RolloutPhaseDegraded : string := "Degraded".

(** ** Status conditions ([k8s.io/apimachinery/pkg/api/meta])

    [SetStatusCondition cs c now]: [now] is the clock it stamps a changed status with. *)
Class StatusConditions := {
  FindStatusCondition : list Condition -> string -> option Condition;
  IsStatusConditionTrue : list Condition -> string -> bool;
  SetStatusCondition : list Condition -> Condition -> Z -> list Condition
}.

(** Setting a condition makes it the one of its type that is found, with the status, reason,
    message and generation set, and leaves the others alone; a condition is true when the one of
    its type says so; nothing is found in an empty list. *)
Class StatusConditionsLaws `{StatusConditions} : Prop := {
  find_set_same cs c now : exists c', FindStatusCondition (SetStatusCondition cs c now) (cond_Type c) = Some c' /\
    cond_Type c' = cond_Type c /\ cond_Status c' = cond_Status c /\ cond_Reason c' = cond_Reason c /\
    cond_Message c' = cond_Message c /\ cond_ObservedGeneration c' = cond_ObservedGeneration c;
  IsStatusConditionTrue_spec cs t : IsStatusConditionTrue cs t =
    match FindStatusCondition cs t with Some c => String.eqb (cond_Status c) ConditionTrue | None => false end;
  find_set_other cs c now t : t <> cond_Type c ->
    FindStatusCondition (SetStatusCondition cs c now) t = FindStatusCondition cs t;
  find_nil t : FindStatusCondition [] t = None
}.

(** ** API errors ([k8s.io/apimachinery/pkg/api/errors], [controller-runtime/pkg/client]) *)
Class ApiErrors := {
  IsNotFound : error -> bool;
  IgnoreNotFound : error -> option error
}.

(** [IsNotFound] looks through wrapping errors; [IgnoreNotFound] turns a NotFound into nil. *)
Class ApiErrorsLaws `{ApiErrors} : Prop := {
  IsNotFound_wrap m e : IsNotFound (WrapError m e) = IsNotFound e;
  IsNotFound_plain m : IsNotFound (ErrorString m) = false;
  IgnoreNotFound_spec e : IgnoreNotFound e = if IsNotFound e then None else Some e
}.

(** ** Unstructured objects ([unstructured.Unstructured], [runtime.DefaultUnstructuredConverter])

    The content is a [json] object. [ackCondition] is declared in the program, so the converter
    that reads a list of them is an operation of the class of the file that uses it. *)
Class Unstructured := {
  SetGroupVersionKind : json -> GroupVersionKind -> json;
  SetName : json -> string -> json;
  SetNamespace : json -> string -> json;
  SetLabels : json -> gmap string string -> json;
  SetAnnotations : json -> gmap string string -> json;
  GetKind : json -> string;
  GVK : json -> GroupVersionKind;
  GetName : json -> string;
  GetNamespace : json -> string;
  GetLabels : json -> gmap string string;
  GetManagedFields : json -> list ManagedFieldsEntry;
  RemoveNestedField : json -> list string -> json;
  NestedMap : json -> string -> result (option json);
  TimeEqual : option Z -> option Z -> bool;
  key_text : NamespacedName -> string;
  gvk_text : GroupVersionKind -> string
}.

(** [u.Object[k] = v] on the content's top level. *)
Definition set_field (k : string) (v : json) (u : json) : json :=
  match u with JObject fields => JObject (insert_sorted k v fields) | _ => u end.

(** Accessors read back what was set, and setting another part of the object changes nothing. *)
Class UnstructuredLaws `{Unstructured} : Prop := {
  GetKind_GVK u : GetKind u = gvk_Kind (GVK u);
  GVK_SetGroupVersionKind fields g : GVK (SetGroupVersionKind (JObject fields) g) = g;
  GVK_SetName u n : GVK (SetName u n) = GVK u;
  GVK_SetNamespace u n : GVK (SetNamespace u n) = GVK u;
  GVK_SetLabels u l : GVK (SetLabels u l) = GVK u;
  GVK_SetAnnotations u a : GVK (SetAnnotations u a) = GVK u;
  GVK_spec u v : GVK (set_field "spec" v u) = GVK u;
  GetName_SetName u n : GetName (SetName u n) = n;
  GetName_SetNamespace u n : GetName (SetNamespace u n) = GetName u;
  GetName_SetLabels u l : GetName (SetLabels u l) = GetName u;
  GetName_SetAnnotations u a : GetName (SetAnnotations u a) = GetName u;
  GetName_spec u v : GetName (set_field "spec" v u) = GetName u;
  GetNamespace_SetNamespace u n : GetNamespace (SetNamespace u n) = n;
  GetNamespace_SetLabels u l : GetNamespace (SetLabels u l) = GetNamespace u;
  GetNamespace_SetAnnotations u a : GetNamespace (SetAnnotations u a) = GetNamespace u;
  GetNamespace_spec u v : GetNamespace (set_field "spec" v u) = GetNamespace u;
  GetLabels_SetLabels u l : GetLabels (SetLabels u l) = l;
  GetLabels_SetAnnotations u a : GetLabels (SetAnnotations u a) = GetLabels u;
  GetLabels_spec u v : GetLabels (set_field "spec" v u) = GetLabels u;
  TimeEqual_spec s t : TimeEqual s t = true <-> s = t
}.

(** ** Finalizers ([controllerutil.ContainsFinalizer]) and event predicates ([predicate]) *)
Class FinalizerUtil := ContainsFinalizer : list string -> string -> bool.
Class FinalizerUtilLaws `{FinalizerUtil} : Prop :=
  ContainsFinalizer_spec fs f : ContainsFinalizer fs f = true <-> In f fs.

(** The update side of [GenerationChangedPredicate], [LabelChangedPredicate] and
    [AnnotationChangedPredicate]: the old object, then the new one. *)
Class Predicates := {
  GenerationChanged : ServiceClaim -> ServiceClaim -> bool;
  LabelChanged : ServiceClaim -> ServiceClaim -> bool;
  AnnotationChanged : ServiceClaim -> ServiceClaim -> bool
}.
Class PredicatesLaws `{Predicates} : Prop := {
  GenerationChanged_spec old new : GenerationChanged old new = false <-> Generation old = Generation new;
  LabelChanged_spec old new : LabelChanged old new = false <-> claim_Labels old = claim_Labels new;
  AnnotationChanged_spec old new : AnnotationChanged old new = false <-> Annotations old = Annotations new
}.
