(* ===== verification/Instances.v ===== *)
(** * A concrete instance of every class of [Kubernetes.v]

    The library's theorems hold for any implementation of the classes that satisfies their laws.
    This file gives one, on plain data, and proves the laws of it: they can be satisfied, and
    theorems that assume them can be evaluated on concrete inputs. *)
From Stdlib Require Import ZArith Lia Ascii String.
From S2P Require Import Prelude GoStrings GoJson Api Kubernetes.
Local Open Scope Z_scope.
Local Open Scope stdpp_scope.

(** ** Status conditions *)

Definition has_type (t : string) (c : Condition) : bool := String.eqb t (cond_Type c).

Definition find_condition (cs : list Condition) (t : string) : option Condition := List.find (has_type t) cs.

Fixpoint set_condition (cs : list Condition) (c : Condition) (now : Z) : list Condition :=
  match cs with
  | [] => [mkCondition (cond_Type c) (cond_Status c) (cond_Reason c) (cond_Message c) (cond_ObservedGeneration c) now]
  | old :: rest =>
      if has_type (cond_Type c) old then
        mkCondition (cond_Type c) (cond_Status c) (cond_Reason c) (cond_Message c) (cond_ObservedGeneration c)
          (if String.eqb (cond_Status old) (cond_Status c) then cond_LastTransitionTime old else now) :: rest
      else old :: set_condition rest c now
  end.

#[export] Instance list_conditions : StatusConditions :=
  { FindStatusCondition := find_condition;
    IsStatusConditionTrue := fun cs t =>
      match find_condition cs t with Some c => String.eqb (cond_Status c) ConditionTrue | None => false end;
    SetStatusCondition := set_condition }.

#[export] Instance list_conditions_laws : StatusConditionsLaws.
Proof.
  split; simpl.
  - intros cs c now. induction cs as [|old rest IH]; simpl; unfold has_type.
    + simpl. rewrite String.eqb_refl. by eexists.
    + fold (has_type (cond_Type c) old). destruct (has_type (cond_Type c) old) eqn:E; simpl.
      * unfold has_type. simpl. rewrite String.eqb_refl. by eexists.
      * rewrite E. exact IH.
  - done.
  - intros cs c now t Ht. induction cs as [|old rest IH]; simpl; unfold has_type.
    + simpl. by rewrite (proj2 (String.eqb_neq t (cond_Type c)) Ht).
    + fold (has_type (cond_Type c) old) (has_type t old). destruct (has_type (cond_Type c) old) eqn:E; simpl.
      * unfold has_type in *. simpl. apply String.eqb_eq in E as <-.
        by rewrite (proj2 (String.eqb_neq t (cond_Type c)) Ht).
      * destruct (has_type t old); [done|exact IH].
  - done.
Qed.

(** ** API errors: a NotFound is a foreign error with the tag 404 *)

Fixpoint is_not_found (e : error) : bool :=
  match e with
  | ForeignError _ tag => N.eqb tag 404
  | WrapError _ inner => is_not_found inner
  | JoinError e es => is_not_found e || existsb is_not_found es
  | _ => false
  end.

#[export] Instance tagged_errors : ApiErrors :=
  { IsNotFound := is_not_found; IgnoreNotFound := fun e => if is_not_found e then None else Some e }.

#[export] Instance tagged_errors_laws : ApiErrorsLaws.
Proof. by split. Qed.

(** ** Unstructured content *)

(** [content[k] = v], making the content an object when it is not. *)
Definition put (k : string) (v : json) (u : json) : json :=
  match u with JObject fields => JObject (insert_sorted k v fields) | _ => JObject [(k, v)] end.
Definition get_or_null (k : string) (u : json) : json := default JNull (member k u).
Definition get_text (k : string) (u : json) : string :=
  match member k u with Some (JString s) => s | _ => EmptyString end.

Definition put_meta (k : string) (v : json) (u : json) : json := put "metadata" (put k v (get_or_null "metadata" u)) u.

Definition entries_json (m : gmap string string) : json :=
  JObject (map (fun kv => (kv.1, JString kv.2)) (map_to_list m)).
Definition text_entry (kv : string * json) : option (string * string) :=
  match kv.2 with JString s => Some (kv.1, s) | _ => None end.
Definition json_entries (j : json) : gmap string string :=
  match j with JObject fields => list_to_map (omap text_entry fields) | _ => ∅ end.

Definition entry_of_json (j : json) : ManagedFieldsEntry :=
  mkManagedFieldsEntry (get_text "manager" j) (get_text "operation" j) (get_text "subresource" j)
    (match member "time" j with Some (JInt n) => Some n | _ => None end)
    (match member "fieldsV1" j with Some (JString s) => Some s | _ => None end).

Definition remove_field (k : string) (u : json) : json :=
  match u with
  | JObject fields => JObject (List.filter (fun kv => negb (String.eqb k kv.1)) fields)
  | _ => u
  end.
Fixpoint remove_path (path : list string) (u : json) : json :=
  match path with
  | [] => u
  | [k] => remove_field k u
  | k :: rest => match member k u with Some v => put k (remove_path rest v) u | None => u end
  end.

(** An [apiVersion] is a version, or a group and a version around a slash. *)
Fixpoint split_slash (s : string) : option (string * string) :=
  match s with
  | EmptyString => None
  | String c rest =>
      if Ascii.eqb "/"%char c then Some (EmptyString, rest)
      else match split_slash rest with Some (g, v) => Some (String c g, v) | None => None end
  end.
Definition parse_gvk (api_version kind : string) : GroupVersionKind :=
  match split_slash api_version with Some (g, v) => mkGVK g v kind | None => mkGVK "" api_version kind end.

(** Objects made here keep the group and the version apart, so that any pair reads back. *)
#[export] Instance json_content : Unstructured := {
  SetGroupVersionKind := fun u g =>
    set_field "apiVersion" (JString (gvk_Group g)) (set_field "kind" (JString (gvk_Kind g))
      (set_field "version" (JString (gvk_Version g)) u));
  SetName := fun u n => put_meta "name" (JString n) u;
  SetNamespace := fun u n => put_meta "namespace" (JString n) u;
  SetLabels := fun u l => put_meta "labels" (entries_json l) u;
  SetAnnotations := fun u a => put_meta "annotations" (entries_json a) u;
  GetKind := get_text "kind";
  GVK := fun u =>
    match member "version" u with
    | Some (JString v) => mkGVK (get_text "apiVersion" u) v (get_text "kind" u)
    | _ => parse_gvk (get_text "apiVersion" u) (get_text "kind" u)
    end;
  GetName := fun u => get_text "name" (get_or_null "metadata" u);
  GetNamespace := fun u => get_text "namespace" (get_or_null "metadata" u);
  GetLabels := fun u => json_entries (get_or_null "labels" (get_or_null "metadata" u));
  GetManagedFields := fun u =>
    match member "managedFields" (get_or_null "metadata" u) with
    | Some (JArray es) => map entry_of_json es
    | _ => []
    end;
  RemoveNestedField := fun u path => remove_path path u;
  NestedMap := fun u k =>
    match member k u with
    | None => Ok None
    | Some (JObject _ as v) => Ok (Some v)
    | Some _ => Err (ErrorString "accessor error: not a map")
    end;
  TimeEqual := fun s t => bool_decide (s = t);
  key_text := fun k => Sprintf [nn_Namespace k; "/"; nn_Name k];
  gvk_text := fun g => Sprintf [gvk_Group g; "/"; gvk_Version g; ", Kind="; gvk_Kind g]
}.

Lemma member_put_eq k v u : member k (put k v u) = Some v.
Proof. destruct u; simpl; rewrite ?field_insert_eq; unfold field; simpl; rewrite ?String.eqb_refl; done. Qed.

Lemma member_put_ne k k' v u : k <> k' -> member k (put k' v u) = member k u.
Proof.
  intros Hk. destruct u; simpl; try by (unfold field; simpl; rewrite (proj2 (String.eqb_neq k k') Hk)).
  by apply field_insert_ne.
Qed.

Lemma member_set_field_ne k k' v u : k <> k' -> member k (set_field k' v u) = member k u.
Proof. intros Hk. destruct u; try done. simpl. by apply field_insert_ne. Qed.

Lemma omap_text_entry l : omap text_entry (map (fun kv => (kv.1, JString kv.2)) l) = l.
Proof. induction l as [|[k v] l IH]; [done|]. cbn. f_equal. exact IH. Qed.

Lemma json_entries_entries m : json_entries (entries_json m) = m.
Proof. unfold json_entries, entries_json. rewrite omap_text_entry. apply list_to_map_to_list. Qed.

Lemma put_meta_read k v u : member k (get_or_null "metadata" (put_meta k v u)) = Some v.
Proof. unfold put_meta, get_or_null at 1. rewrite member_put_eq. apply member_put_eq. Qed.

Lemma put_meta_other k k' v u :
  k <> k' -> member k (get_or_null "metadata" (put_meta k' v u)) = member k (get_or_null "metadata" u).
Proof. intros Hk. unfold put_meta, get_or_null at 1. rewrite member_put_eq. by apply member_put_ne. Qed.

Lemma put_meta_top k k' v u : k <> "metadata" -> member k (put_meta k' v u) = member k u.
Proof. apply member_put_ne. Qed.

Lemma spec_meta v u : get_or_null "metadata" (set_field "spec" v u) = get_or_null "metadata" u.
Proof. unfold get_or_null. by rewrite member_set_field_ne. Qed.

Lemma spec_top k v u : k <> "spec" -> member k (set_field "spec" v u) = member k u.
Proof. apply member_set_field_ne. Qed.

Lemma parse_gvk_kind v kind : gvk_Kind (parse_gvk v kind) = kind.
Proof. unfold parse_gvk. by destruct (split_slash v) as [[g w]|]. Qed.

Ltac read_back :=
  unfold get_text; rewrite ?spec_meta;
  repeat first [rewrite put_meta_read | rewrite put_meta_other by discriminate
               | rewrite put_meta_top by discriminate | rewrite spec_top by discriminate];
  reflexivity.

#[export] Instance json_content_laws : UnstructuredLaws.
Proof.
  split; intros; cbn [GetKind GVK GetName GetNamespace GetLabels SetName SetNamespace SetLabels SetAnnotations
    SetGroupVersionKind TimeEqual gvk_Kind json_content]; try read_back.
  - destruct (member "version" u) as [[]|]; by rewrite ?parse_gvk_kind.
  - unfold get_text, set_field, member. rewrite !(field_insert_ne "version"), !field_insert_eq by discriminate.
    rewrite !(field_insert_ne "kind"), !field_insert_eq by discriminate. by destruct g.
  - unfold get_or_null at 1. rewrite put_meta_read. apply json_entries_entries.
  - unfold get_or_null at 1. by rewrite put_meta_other.
  - apply bool_decide_eq_true.
Qed.

Lemma member_remove k k' u : k <> k' -> member k (remove_field k' u) = member k u.
Proof.
  intros Hk. destruct u as [| | | | |fields]; try done. cbn [remove_field member]. unfold field. f_equal.
  induction fields as [|[k1 v1] fields IH]; [done|]. cbn [List.filter fst]. destruct (String.eqb_spec k' k1) as [<-|Hne]; cbn [negb].
  - rewrite IH. cbn [List.find fst]. by rewrite (proj2 (String.eqb_neq k k') Hk).
  - cbn [List.find fst]. by destruct (String.eqb k k1).
Qed.

Lemma remove_spec u path k : k <> "spec" -> member k (remove_path ("spec" :: "template" :: path) u) = member k u.
Proof. intros Hk. cbn [remove_path]. destruct (member "spec" u); [|done]. by apply member_put_ne. Qed.

Lemma remove_created u : 
  (forall k, k <> "metadata" -> member k (remove_path ["metadata"; "creationTimestamp"] u) = member k u) /\
  (forall k, k <> "creationTimestamp" ->
     get_text k (get_or_null "metadata" (remove_path ["metadata"; "creationTimestamp"] u)) = get_text k (get_or_null "metadata" u)).
Proof.
  cbn [remove_path]. destruct (member "metadata" u) as [m|] eqn:E; [|done]. split; intros k Hk; [by apply member_put_ne|].
  unfold get_text, get_or_null. rewrite member_put_eq, E. unfold default, id. by rewrite member_remove.
Qed.

(** The fields [toApplyObject] removes are no part of what identifies an object. *)
Lemma removed_identity u path :
  path ∈ [["metadata"; "creationTimestamp"]; ["spec"; "template"; "metadata"; "creationTimestamp"]; ["status"]] ->
  GVK (RemoveNestedField u path) = GVK u /\ GetName (RemoveNestedField u path) = GetName u /\
  GetNamespace (RemoveNestedField u path) = GetNamespace u.
Proof.
  rewrite !elem_of_cons. unfold RemoveNestedField, GVK, GetName, GetNamespace, json_content.
  intros [->|[->|[->|[]%elem_of_nil]]].
  - destruct (remove_created u) as [Htop Hmeta]. split; [|by rewrite !Hmeta]. unfold get_text. by rewrite !Htop.
  - unfold get_text, get_or_null. by rewrite !remove_spec by done.
  - cbn [remove_path]. unfold get_text, get_or_null. by rewrite !member_remove by done.
Qed.

(** ** Finalizers and predicates *)

#[export] Instance list_finalizers : FinalizerUtil := fun fs f => existsb (String.eqb f) fs.

#[export] Instance list_finalizers_laws : FinalizerUtilLaws.
Proof.
  intros fs f. unfold ContainsFinalizer, list_finalizers. rewrite existsb_exists. split.
  - by intros (x & Hx & <-%String.eqb_eq).
  - intros Hf. exists f. by rewrite String.eqb_refl.
Qed.

#[export] Instance field_predicates : Predicates := {
  GenerationChanged := fun old new => negb (Generation old =? Generation new);
  LabelChanged := fun old new => bool_decide (claim_Labels old <> claim_Labels new);
  AnnotationChanged := fun old new => bool_decide (Annotations old <> Annotations new)
}.

#[export] Instance field_predicates_laws : PredicatesLaws.
Proof.
  split; intros old new; simpl; [by rewrite negb_false_iff, Z.eqb_eq| |];
    rewrite bool_decide_eq_false; (split; [apply dec_stable|intros E Hne; by apply Hne]).
Qed.
