(* ===== verification/Meta.v ===== *)
(** * Names and labels of managed objects ([internal/builders/builders.go])

    Every managed object carries the claim's labels; two of them lead back to the claim. *)
From Stdlib Require Import ZArith Lia Ascii String.
From S2P Require Import Prelude GoStrings GoJson Api Kubernetes.
Local Open Scope Z_scope.
Local Open Scope stdpp_scope.

Definition LabelName : string := "app.kubernetes.io/name".
Definition LabelManagedBy : string := "app.kubernetes.io/managed-by".
Definition LabelClaim : string := "paved.dev/claim".
Definition LabelClaimNamespace : string := "paved.dev/claim-namespace".
Definition LabelOwner : string := "paved.dev/owner".
Definition ManagedBy : string := "paved".
Definition PortName : string := "http".
Definition ServicePort : Z := 80.
Definition namespacePrefix : string := "svc-".

Definition NamespaceName (sc : ServiceClaim) : string := namespacePrefix +:+ Name sc.
Definition RunbookName (sc : ServiceClaim) : string := Name sc +:+ "-runbook".

Definition Labels (sc : ServiceClaim) : gmap string string :=
  map_of [(LabelName, Name sc);
          (LabelManagedBy, ManagedBy);
          (LabelClaim, Name sc);
          (LabelClaimNamespace, Namespace sc);
          (LabelOwner, Owner (Spec sc))].

Definition SelectorLabels (sc : ServiceClaim) : gmap string string := map_of [(LabelName, Name sc)].

Definition objectMeta (sc : ServiceClaim) (name : string) : ObjectMeta :=
  {| meta_Name := name; meta_Namespace := NamespaceName sc; meta_Labels := Labels sc |}.

(** [metav1.TypeMeta] *)
Record TypeMeta := mkTypeMeta { APIVersion : string; Kind : string }.

(** ** Namespace and ServiceAccount ([namespace.go], [serviceaccount.go]) *)

Record NamespaceObject := mkNamespace { namespace_TypeMeta : TypeMeta; namespace_Meta : ObjectMeta }.

Definition BuildNamespace (sc : ServiceClaim) : NamespaceObject :=
  {| namespace_TypeMeta := mkTypeMeta "v1" "Namespace";
     namespace_Meta := {| meta_Name := NamespaceName sc; meta_Namespace := ""; meta_Labels := Labels sc |} |}.

Record ServiceAccount := mkServiceAccount { sa_TypeMeta : TypeMeta; sa_Meta : ObjectMeta }.

Definition BuildServiceAccount (sc : ServiceClaim) : ServiceAccount :=
  {| sa_TypeMeta := mkTypeMeta "v1" "ServiceAccount"; sa_Meta := objectMeta sc (Name sc) |}.

(** ** Lemmas *)

Lemma NamespaceName_inj sc sc' : NamespaceName sc = NamespaceName sc' -> Name sc = Name sc'.
Proof. apply append_inj_l. Qed.

Lemma Labels_claim sc : Labels sc !! LabelClaim = Some (Name sc).
Proof. reflexivity. Qed.
Lemma Labels_claim_namespace sc : Labels sc !! LabelClaimNamespace = Some (Namespace sc).
Proof. reflexivity. Qed.
Lemma Labels_name sc : Labels sc !! LabelName = Some (Name sc).
Proof. reflexivity. Qed.

Lemma SelectorLabels_subseteq sc : SelectorLabels sc ⊆ Labels sc.
Proof.
  apply map_subseteq_spec. intros k v. unfold SelectorLabels, map_of. simpl.
  intros [[<- <-]|[_ H]]%lookup_insert_Some; [apply Labels_name|]. by rewrite lookup_empty in H.
Qed.
