(* ===== verification/Storage.v ===== *)
(** * Storage of a claim ([internal/builders/storage.go])

    A claim that asks for storage gets an S3 bucket and an IAM role: two ACK objects, built as
    unstructured content, and an AWS identity for its pods. *)
From Stdlib Require Import ZArith Lia Ascii String.
From S2P Require Import Prelude GoStrings GoJson GoSha256 Api Kubernetes Meta.
Local Open Scope Z_scope.
Local Open Scope stdpp_scope.

(** ** Definitions *)

Definition storagePrefix : string := "paved-".
Definition storageRolePath : string := "/paved/workloads/".
Definition storagePolicyName : string := "bucket-access".
Definition storageSessionSeconds : Z := 3600.
Definition bucketHashLength : nat := 8.
Definition policyVersion : string := "2012-10-17".
Definition policyAllow : string := "Allow".
Definition iamARNPrefix : string := "arn:aws:iam::".
Definition MaxStorageClaimNameLength : Z := 63 - len storagePrefix - 1 - Z.of_nat bucketHashLength.
Definition ackAdoptionPolicyAnnotation : string := "services.k8s.aws/adoption-policy".
Definition ackDeletionPolicyAnnotation : string := "services.k8s.aws/deletion-policy".
Definition ackAdoptOrCreate : string := "adopt-or-create".
Definition ackRetain : string := "retain".
Definition awsTokenAudience : string := "sts.amazonaws.com".
Definition awsTokenVolume : string := "aws-token".
Definition awsTokenDir : string := "/var/run/secrets/paved.dev/aws".
Definition awsTokenFile : string := "token".
Definition awsTokenSeconds : Z := 3600.
Definition EnvStorageBucket : string := "PAVED_STORAGE_BUCKET".
Definition usEast1 : string := "us-east-1".

Definition RoleGVK : GroupVersionKind := mkGVK "iam.services.k8s.aws" "v1alpha1" "Role".
Definition BucketGVK : GroupVersionKind := mkGVK "s3.services.k8s.aws" "v1alpha1" "Bucket".

Record StorageConfig := mkStorageConfig {
  AccountID : string;
  Region : string;
  Issuer : string;
  PermissionsBoundaryARN : string
}.

(** [error] of [Validate]; [None] is nil. *)
Definition Validate `{UnicodePrint} (c : StorageConfig) : option error :=
  if negb (len (AccountID c) =? 12) || negb (String.eqb (Trim (AccountID c) "0123456789") "") then
    Some (ErrorString (Sprintf ["AWS account ID "; Quote (AccountID c); " is not 12 digits"]))
  else if String.eqb (Region c) ""
       || negb (String.eqb (Trim (Region c) "abcdefghijklmnopqrstuvwxyz0123456789-") "") then
    Some (ErrorString (Sprintf ["AWS region "; Quote (Region c); " is not a region name"]))
  else if String.eqb (Issuer c) "" || Contains (Issuer c) "://" || HasSuffix (Issuer c) "/" then
    Some (ErrorString (Sprintf ["OIDC issuer "; Quote (Issuer c);
                                " must be a host and optional path, with no scheme or trailing slash"]))
  else if negb (HasPrefix (PermissionsBoundaryARN c) (iamARNPrefix +:+ AccountID c +:+ ":policy/")) then
    Some (ErrorString (Sprintf ["permissions boundary "; Quote (PermissionsBoundaryARN c);
                                " is not a policy ARN in account "; AccountID c]))
  else None.

(** [storage != nil] guards every use of the settings; the builders below take them when they
    are there. *)
Definition HasStorage (sc : ServiceClaim) (storage : option StorageConfig) : option StorageConfig :=
  if Storage (Spec sc) then storage else None.

Definition StorageBucketName (sc : ServiceClaim) (storage : StorageConfig) : string :=
  let sum := Sum256 (Sprintf [AccountID storage; "/"; Region storage; "/"; Namespace sc; "/"; Name sc]) in
  Sprintf [storagePrefix; Name sc; "-"; take_bytes bucketHashLength (EncodeToString sum)].

Definition StorageRoleName (sc : ServiceClaim) : string := storagePrefix +:+ Name sc.

Definition StorageRoleARN (sc : ServiceClaim) (storage : StorageConfig) : string :=
  Sprintf [iamARNPrefix; AccountID storage; ":role"; storageRolePath; StorageRoleName sc].

Definition serviceAccountSubject (sc : ServiceClaim) : string :=
  Sprintf ["system:serviceaccount:"; NamespaceName sc; ":"; Name sc].

(** *** IAM policy documents *)

Record policyStatement := mkPolicyStatement {
  Effect : string;
  Principal : list (string * string);
  Action : list string;
  Resource : list string;
  policy_Condition : list (string * list (string * string))
}.

Record policyDocument := mkPolicyDocument {
  Version : string;
  Statement : list policyStatement
}.

(** The [omitempty] fields are left out when empty; [encoding/json] sorts the maps' keys. *)
Definition statement_json (s : policyStatement) : json :=
  JObject (
    [("Effect", JString (Effect s))] ++
    match Principal s with [] => [] | p => [("Principal", string_map p)] end ++
    [("Action", strings (Action s))] ++
    match Resource s with [] => [] | r => [("Resource", strings r)] end ++
    match policy_Condition s with
    | [] => []
    | c => [("Condition", JMap (map (fun kv => (kv.1, string_map kv.2)) c))]
    end).
Definition policy_json (p : policyDocument) : json :=
  JObject [("Version", JString (Version p)); ("Statement", JArray (map statement_json (Statement p)))].

Definition trust_policy (sc : ServiceClaim) (storage : StorageConfig) : policyDocument :=
  {| Version := policyVersion;
     Statement := [
       {| Effect := policyAllow;
          Principal := [("Federated", Sprintf [iamARNPrefix; AccountID storage; ":oidc-provider/"; Issuer storage])];
          Action := ["sts:AssumeRoleWithWebIdentity"];
          Resource := [];
          policy_Condition := [("StringEquals",
            [(Issuer storage +:+ ":aud", awsTokenAudience);
             (Issuer storage +:+ ":sub", serviceAccountSubject sc)])] |}] |}.

Definition access_policy (sc : ServiceClaim) (storage : StorageConfig) : policyDocument :=
  let bucketARN := "arn:aws:s3:::" +:+ StorageBucketName sc storage in
  {| Version := policyVersion;
     Statement := [
       {| Effect := policyAllow; Principal := []; Action := ["s3:GetBucketLocation"; "s3:ListBucket"];
          Resource := [bucketARN]; policy_Condition := [] |};
       {| Effect := policyAllow; Principal := []; Action := ["s3:DeleteObject"; "s3:GetObject"; "s3:PutObject"];
          Resource := [bucketARN +:+ "/*"]; policy_Condition := [] |}] |}.

Definition storageTags (sc : ServiceClaim) : json :=
  JArray [JMap [("key", JString LabelClaim); ("value", JString (Name sc))];
          JMap [("key", JString LabelClaimNamespace); ("value", JString (Namespace sc))]].

Section objects.
Context `{Unstructured}.

Definition newUnstructured (gvk : GroupVersionKind) : json := SetGroupVersionKind (JObject []) gvk.

Definition StorageTypes : list json := [newUnstructured RoleGVK; newUnstructured BucketGVK].

Definition newStorageObject (sc : ServiceClaim) (gvk : GroupVersionKind) (annotations : gmap string string) : json :=
  SetAnnotations (SetLabels (SetNamespace (SetName (newUnstructured gvk) (Name sc)) (NamespaceName sc)) (Labels sc))
    annotations.

(** [json.Marshal] of strings, lists and maps of strings has no error to return. *)
Definition BuildStorageRole (sc : ServiceClaim) (storage : StorageConfig) : result json :=
  let trust := Marshal (policy_json (trust_policy sc storage)) in
  let access := Marshal (policy_json (access_policy sc storage)) in
  let role := newStorageObject sc RoleGVK (map_of [(ackAdoptionPolicyAnnotation, ackAdoptOrCreate)]) in
  Ok (set_field "spec" (JMap
    [("name", JString (StorageRoleName sc));
     ("path", JString storageRolePath);
     ("description", JString (Sprintf ["Storage access for ServiceClaim "; Namespace sc; "/"; Name sc;
                                       ", managed by paved"]));
     ("assumeRolePolicyDocument", JString trust);
     ("inlinePolicies", JMap [(storagePolicyName, JString access)]);
     ("permissionsBoundary", JString (PermissionsBoundaryARN storage));
     ("maxSessionDuration", JInt storageSessionSeconds);
     ("tags", storageTags sc)]) role).

Definition BuildStorageBucket (sc : ServiceClaim) (storage : StorageConfig) : json :=
  let spec := JMap
    ([("name", JString (StorageBucketName sc storage));
      ("publicAccessBlock", JMap
        [("blockPublicACLs", JBool true);
         ("blockPublicPolicy", JBool true);
         ("ignorePublicACLs", JBool true);
         ("restrictPublicBuckets", JBool true)]);
      ("tagging", JMap [("tagSet", storageTags sc)])] ++
     if negb (String.eqb (Region storage) usEast1)
     then [("createBucketConfiguration", JMap [("locationConstraint", JString (Region storage))])]
     else []) in
  let bucket := newStorageObject sc BucketGVK
    (map_of [(ackAdoptionPolicyAnnotation, ackAdoptOrCreate); (ackDeletionPolicyAnnotation, ackRetain)]) in
  set_field "spec" spec bucket.
End objects.

(** ** Lemmas *)

Lemma GVK_new `{UnstructuredLaws} g : GVK (newUnstructured g) = g.
Proof. apply GVK_SetGroupVersionKind. Qed.

Lemma take_bytes_len n s : Z.of_nat n <= len s -> len (take_bytes n s) = Z.of_nat n.
Proof. unfold len. intros Hn. rewrite length_take_bytes; lia. Qed.

Lemma StorageBucketName_len sc storage : len (StorageBucketName sc storage) = len (Name sc) + 15.
Proof.
  unfold StorageBucketName. rewrite len_Sprintf. cbn [foldr]. rewrite take_bytes_len.
  - change (len storagePrefix) with 6. change (len "-") with 1. unfold bucketHashLength. lia.
  - rewrite EncodeToString_length, Sum256_length. unfold bucketHashLength. lia.
Qed.

(** Trimming decimal digits off both ends leaves nothing exactly when every byte is a digit. *)
Lemma trim_left_empty cut s :
  trim_left cut s = EmptyString -> forallb cut (list_ascii_of_string s) = true.
Proof. induction s as [|c s IH]; simpl; [done|]. by destruct (cut c) eqn:E. Qed.

Lemma trim_right_empty cut s :
  trim_right cut s = EmptyString -> forallb cut (list_ascii_of_string s) = true.
Proof.
  induction s as [|c s IH]; simpl; [done|].
  destruct (trim_right cut s); [|done]. destruct (cut c); [auto|done].
Qed.

Lemma trim_left_suffix cut s :
  exists p, s = p +:+ trim_left cut s /\ forallb cut (list_ascii_of_string p) = true.
Proof.
  induction s as [|c s (p & E & Hp)]; simpl; [by exists EmptyString|].
  destruct (cut c) eqn:Hc; [|by exists EmptyString].
  exists (String c p). simpl. rewrite Hc. by rewrite <- E.
Qed.

Lemma forallb_append cut s t :
  forallb cut (list_ascii_of_string (s +:+ t)) =
  forallb cut (list_ascii_of_string s) && forallb cut (list_ascii_of_string t).
Proof. induction s as [|c s IH]; simpl; [done|]. by rewrite IH, andb_assoc. Qed.

Lemma Trim_empty_iff s cutset :
  Trim s cutset = EmptyString <-> forallb (in_cutset cutset) (list_ascii_of_string s) = true.
Proof.
  unfold Trim. set (cut := in_cutset cutset). split.
  - intros Hr%trim_right_empty. destruct (trim_left_suffix cut s) as (p & E & Hp).
    rewrite E at 1. by rewrite forallb_append, Hp, Hr.
  - induction s as [|c s IH]; simpl; [done|]. by intros [-> Hs]%andb_true_iff; auto.
Qed.

Definition decimal_digits : string := "0123456789".
Definition region_chars : string := "abcdefghijklmnopqrstuvwxyz0123456789-".
Definition only (cutset s : string) : bool := forallb (in_cutset cutset) (list_ascii_of_string s).

Lemma Trim_eqb_only s cutset : String.eqb (Trim s cutset) "" = only cutset s.
Proof.
  apply eq_true_iff_eq. by rewrite String.eqb_eq, Trim_empty_iff.
Qed.

(** ** Properties *)

(** A bucket name has 15 bytes besides the claim's name, so it stays within S3's 63 exactly
    when the claim's name has at most [MaxStorageClaimNameLength], which is the 48 the CRD
    enforces on a claim with storage. *)
Theorem bucket_name_fits (sc : ServiceClaim) (storage : StorageConfig) :
  (len (StorageBucketName sc storage) <= 63 <-> len (Name sc) <= MaxStorageClaimNameLength) /\
  (crd_valid sc = true -> Storage (Spec sc) = true -> len (StorageBucketName sc storage) <= 63).
Proof.
  rewrite StorageBucketName_len. change MaxStorageClaimNameLength with 48. split; [lia|].
  intros Hv Hs. unfold crd_valid in Hv. rewrite Hs in Hv. split_andb. simpl in *. lia.
Qed.

Definition sample_claim : ServiceClaim :=
  mkServiceClaim "shortlink" "team-a" ∅ ∅ 1 None []
    (mkServiceClaimSpec "team-a" "img:1" 8080 TierPublic
       (mkSLISpec SLIHTTPAvailability [200; 204; 301] "") (mkSLOSpec "99.5" "28d") (mkScaleSpec 1 5) true)
    empty_status.
Definition sample_storage : StorageConfig :=
  mkStorageConfig "123456789012" "eu-west-2" "oidc.example.com/id" "arn:aws:iam::123456789012:policy/paved".

Lemma bucket_name_fits_witness : len (StorageBucketName sample_claim sample_storage) <= 63.
Proof. apply (bucket_name_fits sample_claim sample_storage); vm_compute; reflexivity. Defined.

(** [Validate] accepts exactly an account of 12 decimal digits, a non-empty region of lower
    case letters, digits and dashes, an issuer with no scheme and no trailing slash, and a
    boundary that is a policy of that account: trimming both ends leaves nothing only when every
    byte is in the set. *)
Theorem Validate_correct `{UnicodePrint} (c : StorageConfig) :
  Validate c = None <->
  len (AccountID c) = 12 /\ only decimal_digits (AccountID c) = true /\
  Region c <> "" /\ only region_chars (Region c) = true /\
  Issuer c <> "" /\ Contains (Issuer c) "://" = false /\ HasSuffix (Issuer c) "/" = false /\
  exists policy, PermissionsBoundaryARN c = (iamARNPrefix +:+ AccountID c +:+ ":policy/") +:+ policy.
Proof.
  unfold Validate. rewrite !Trim_eqb_only. fold decimal_digits region_chars.
  rewrite <- HasPrefix_spec.
  destruct (Z.eqb_spec (len (AccountID c)) 12) as [->|]; simpl; [|split; [done|by intros [? _]]].
  destruct (only decimal_digits (AccountID c)); simpl; [|split; [done|by intros (_ & ? & _)]].
  destruct (String.eqb_spec (Region c) ""); simpl; [split; [done|by intros (_ & _ & ? & _)]|].
  destruct (only region_chars (Region c)); simpl; [|split; [done|by intros (_ & _ & _ & ? & _)]].
  destruct (String.eqb_spec (Issuer c) ""); simpl; [split; [done|by intros (_ & _ & _ & _ & ? & _)]|].
  destruct (Contains (Issuer c) "://"); simpl; [split; [done|by intros (_ & _ & _ & _ & _ & ? & _)]|].
  destruct (HasSuffix (Issuer c) "/"); simpl; [split; [done|by intros (_ & _ & _ & _ & _ & _ & ? & _)]|].
  destruct (HasPrefix _ _); simpl; split; try done. by intros (_ & _ & _ & _ & _ & _ & _ & ?).
Qed.
