(* ===== verification/Workload.v ===== *)
(** * The workload of a claim ([rollout.go], [service.go], [hpa.go], [pdb.go], [ingress.go],
      [networkpolicy.go], [servicemonitor.go] and [analysistemplate.go] of [internal/builders])

    The Kubernetes structs are records of the fields the builders set; a pointer is an [option].
    What a NetworkPolicy means is Kubernetes' documented reading of its fields: the pods its selector
    and types isolate ([isolates]), and the traffic its rules let through to them ([admits]). *)
From Stdlib Require Import ZArith Lia Ascii String.
From S2P Require Import Prelude GoStrings GoJson Api Rules Kubernetes Meta Storage.
Local Open Scope Z_scope.
Local Open Scope stdpp_scope.

(** ** Structs *)

Inductive IntOrString := FromInt32 (n : Z) | FromString (s : string).

Inductive Quantity := NewMilliQuantity (value : Z) (format : string) | NewQuantity (value : Z) (format : string).
Definition DecimalSI : string := "DecimalSI".
Definition BinarySI : string := "BinarySI".

Record Probe := mkProbe {
  probe_Path : string;
  probe_Port : IntOrString;
  InitialDelaySeconds : Z;
  PeriodSeconds : Z;
  FailureThreshold : Z
}.

Record SecurityContext := mkSecurityContext {
  AllowPrivilegeEscalation : option bool;
  ReadOnlyRootFilesystem : option bool;
  Drop_ : list string
}.

Record VolumeMount := mkVolumeMount { mount_Name : string; MountPath : string; ReadOnly : bool }.

Record ContainerPort := mkContainerPort { port_Name : string; port_ContainerPort : Z; port_Protocol : string }.

Record ResourceRequirements := mkResourceRequirements {
  Requests : gmap string Quantity;
  Limits : gmap string Quantity
}.

Record Container := mkContainer {
  container_Name : string;
  container_Image : string;
  container_Ports : list ContainerPort;
  Resources : ResourceRequirements;
  container_SecurityContext : option SecurityContext;
  ReadinessProbe : option Probe;
  LivenessProbe : option Probe;
  VolumeMounts : list VolumeMount;
  Env : list (string * string)
}.

(** A volume that projects one service-account token. *)
Record Volume := mkVolume {
  volume_Name : string;
  token_Audience : string;
  token_ExpirationSeconds : option Z;
  token_Path : string
}.

Record PodSecurityContext := mkPodSecurityContext {
  RunAsNonRoot : option bool;
  RunAsUser : option Z;
  SeccompProfile : option string
}.

Record PodSpec := mkPodSpec {
  ServiceAccountName : string;
  pod_SecurityContext : option PodSecurityContext;
  Containers : list Container;
  Volumes : list Volume
}.

(** A [CanaryStep] sets one of its two pointers. *)
Inductive CanaryStep := SetWeight (percent : Z) | Pause (duration : IntOrString).

Record RolloutAnalysisBackground := mkRolloutAnalysisBackground {
  Templates : list string;
  StartingStep : option Z
}.

Record CanaryStrategy := mkCanaryStrategy {
  Steps : list CanaryStep;
  Analysis : option RolloutAnalysisBackground
}.

Record RolloutObject := mkRollout {
  rollout_TypeMeta : TypeMeta;
  rollout_Meta : ObjectMeta;
  rollout_Selector : gmap string string;
  template_Labels : gmap string string;
  template_Spec : PodSpec;
  Canary : CanaryStrategy;
  Replicas : option Z
}.

(** ** Rollout ([rollout.go]) *)

Definition containerName : string := "app".
Definition rolloutKind : string := "Rollout".
Definition rolloutsVersion : string := "argoproj.io/v1alpha1".
Definition runAsUser : Z := 65532.
Definition readinessPath : string := "/readyz".
Definition livenessPath : string := "/healthz".
Definition probePeriodSeconds : Z := 10.
Definition probeFailureThreshold : Z := 3.
Definition livenessInitialDelaySeconds : Z := 10.
Definition canaryPause : string := "2m".
Definition analysisStartingStep : Z := 1.
Definition publicMinReplicas : Z := 2.
Definition mebibyte : Z := Z.shiftl 1 20.
Definition ProtocolTCP : string := "TCP".

Definition CanaryAnalysisName (sc : ServiceClaim) : string := Name sc +:+ "-canary".
Definition HasCanaryAnalysis (sc : ServiceClaim) : bool := negb (String.eqb (Tier (Spec sc)) TierBatch).

Definition MinReplicas (sc : ServiceClaim) : Z :=
  if String.eqb (Tier (Spec sc)) TierPublic then Z.max (scale_Min (Scale (Spec sc))) publicMinReplicas
  else if String.eqb (Tier (Spec sc)) TierInternal then scale_Min (Scale (Spec sc))
  else 1.

Definition HasAutoscaling (sc : ServiceClaim) : bool :=
  String.eqb (Tier (Spec sc)) TierPublic || String.eqb (Tier (Spec sc)) TierInternal.

Definition canaryAnalysis (sc : ServiceClaim) : RolloutAnalysisBackground :=
  {| Templates := [CanaryAnalysisName sc]; StartingStep := Some analysisStartingStep |}.

Definition canarySteps : list CanaryStep :=
  let pause := Pause (FromString canaryPause) in
  [SetWeight 20; pause; SetWeight 50; pause; SetWeight 100].

Definition containerResources : ResourceRequirements :=
  {| Requests := map_of [("cpu", NewMilliQuantity 50 DecimalSI); ("memory", NewQuantity (64 * mebibyte) BinarySI)];
     Limits := map_of [("cpu", NewMilliQuantity 250 DecimalSI); ("memory", NewQuantity (128 * mebibyte) BinarySI)] |}.

Definition httpProbe (path : string) (initialDelaySeconds : Z) : Probe :=
  {| probe_Path := path;
     probe_Port := FromString PortName;
     InitialDelaySeconds := initialDelaySeconds;
     PeriodSeconds := probePeriodSeconds;
     FailureThreshold := probeFailureThreshold |}.

(** [withStorageIdentity] of [storage.go]: the loop appends to every container. *)
Definition withStorageIdentity (spec : PodSpec) (sc : ServiceClaim) (storage : StorageConfig) : PodSpec :=
  {| ServiceAccountName := ServiceAccountName spec;
     pod_SecurityContext := pod_SecurityContext spec;
     Containers := map (fun c =>
       {| container_Name := container_Name c;
          container_Image := container_Image c;
          container_Ports := container_Ports c;
          Resources := Resources c;
          container_SecurityContext := container_SecurityContext c;
          ReadinessProbe := ReadinessProbe c;
          LivenessProbe := LivenessProbe c;
          VolumeMounts := VolumeMounts c ++ [mkVolumeMount awsTokenVolume awsTokenDir true];
          Env := Env c ++
            [("AWS_ROLE_ARN", StorageRoleARN sc storage);
             ("AWS_WEB_IDENTITY_TOKEN_FILE", Sprintf [awsTokenDir; "/"; awsTokenFile]);
             ("AWS_REGION", Region storage);
             ("AWS_DEFAULT_REGION", Region storage);
             (EnvStorageBucket, StorageBucketName sc storage)] |}) (Containers spec);
     Volumes := Volumes spec ++
       [{| volume_Name := awsTokenVolume;
           token_Audience := awsTokenAudience;
           token_ExpirationSeconds := Some awsTokenSeconds;
           token_Path := awsTokenFile |}] |}.

Definition podSpec (sc : ServiceClaim) (storage : option StorageConfig) : PodSpec :=
  let spec :=
    {| ServiceAccountName := Name sc;
       pod_SecurityContext := Some {| RunAsNonRoot := Some true; RunAsUser := Some runAsUser;
                                      SeccompProfile := Some "RuntimeDefault" |};
       Containers :=
         [{| container_Name := containerName;
             container_Image := Image (Spec sc);
             container_Ports := [mkContainerPort PortName (Port (Spec sc)) ProtocolTCP];
             Resources := containerResources;
             container_SecurityContext := Some {| AllowPrivilegeEscalation := Some false;
                                                  ReadOnlyRootFilesystem := Some true;
                                                  Drop_ := ["ALL"] |};
             ReadinessProbe := Some (httpProbe readinessPath 0);
             LivenessProbe := Some (httpProbe livenessPath livenessInitialDelaySeconds);
             VolumeMounts := [];
             Env := [] |}];
       Volumes := [] |} in
  match HasStorage sc storage with
  | Some config => withStorageIdentity spec sc config
  | None => spec
  end.

Definition BuildRollout (sc : ServiceClaim) (storage : option StorageConfig) : RolloutObject :=
  {| rollout_TypeMeta := mkTypeMeta rolloutsVersion rolloutKind;
     rollout_Meta := objectMeta sc (Name sc);
     rollout_Selector := SelectorLabels sc;
     template_Labels := Labels sc;
     template_Spec := podSpec sc storage;
     Canary := {| Steps := canarySteps;
                  Analysis := if HasCanaryAnalysis sc then Some (canaryAnalysis sc) else None |};
     Replicas := if negb (HasAutoscaling sc) then Some (MinReplicas sc) else None |}.

(** ** Service, PodDisruptionBudget ([service.go], [pdb.go]) *)

Record ServiceObject := mkService {
  service_TypeMeta : TypeMeta;
  service_Meta : ObjectMeta;
  service_Type : string;
  service_Selector : gmap string string;
  service_Ports : list (string * string * Z * IntOrString)   (* name, protocol, port, target port *)
}.

Definition BuildService (sc : ServiceClaim) : ServiceObject :=
  {| service_TypeMeta := mkTypeMeta "v1" "Service";
     service_Meta := objectMeta sc (Name sc);
     service_Type := "ClusterIP";
     service_Selector := SelectorLabels sc;
     service_Ports := [(PortName, ProtocolTCP, ServicePort, FromString PortName)] |}.

Record PodDisruptionBudget := mkPDB {
  pdb_TypeMeta : TypeMeta;
  pdb_Meta : ObjectMeta;
  MaxUnavailable : option IntOrString;
  pdb_Selector : gmap string string
}.

Definition BuildPodDisruptionBudget (sc : ServiceClaim) : PodDisruptionBudget :=
  {| pdb_TypeMeta := mkTypeMeta "policy/v1" "PodDisruptionBudget";
     pdb_Meta := objectMeta sc (Name sc);
     MaxUnavailable := Some (FromInt32 1);
     pdb_Selector := SelectorLabels sc |}.

(** ** HorizontalPodAutoscaler ([hpa.go]) *)

Definition cpuTargetUtilization : Z := 70.

Record HorizontalPodAutoscaler := mkHPA {
  hpa_TypeMeta : TypeMeta;
  hpa_Meta : ObjectMeta;
  ScaleTargetRef : string * string * string;     (* API version, kind, name *)
  hpa_MinReplicas : option Z;
  hpa_MaxReplicas : Z;
  hpa_Metrics : list (string * string * string * option Z)  (* type, resource, target type, utilization *)
}.

Definition BuildHPA (sc : ServiceClaim) : HorizontalPodAutoscaler :=
  let minReplicas := MinReplicas sc in
  {| hpa_TypeMeta := mkTypeMeta "autoscaling/v2" "HorizontalPodAutoscaler";
     hpa_Meta := objectMeta sc (Name sc);
     ScaleTargetRef := (rolloutsVersion, rolloutKind, Name sc);
     hpa_MinReplicas := Some minReplicas;
     hpa_MaxReplicas := Z.max (scale_Max (Scale (Spec sc))) minReplicas;
     hpa_Metrics := [("Resource", "cpu", "Utilization", Some cpuTargetUtilization)] |}.

(** ** Ingress ([ingress.go]) *)

Definition IngressClassName : string := "traefik".
Definition ingressHostSuffix : string := ".localhost".
Definition IngressHost (sc : ServiceClaim) : string := Name sc +:+ ingressHostSuffix.

Record HTTPIngressPath := mkHTTPIngressPath {
  path_Path : string;
  path_Type : option string;
  backend_Service : string;
  backend_Port : string
}.

Record Ingress := mkIngress {
  ingress_TypeMeta : TypeMeta;
  ingress_Meta : ObjectMeta;
  ingress_Class : option string;
  ingress_Rules : list (string * list HTTPIngressPath)      (* host, paths *)
}.

Definition BuildIngress (sc : ServiceClaim) : Ingress :=
  {| ingress_TypeMeta := mkTypeMeta "networking.k8s.io/v1" "Ingress";
     ingress_Meta := objectMeta sc (Name sc);
     ingress_Class := Some IngressClassName;
     ingress_Rules := [(IngressHost sc,
       [{| path_Path := "/"; path_Type := Some "Prefix";
           backend_Service := Name sc; backend_Port := PortName |}])] |}.

(** ** NetworkPolicy ([networkpolicy.go]) *)

Definition IngressNamespace : string := "traefik".
Definition MonitoringNamespace : string := "monitoring".
Definition PlatformNamespace : string := "platform-system".
Definition namespaceNameLabel : string := "kubernetes.io/metadata.name".

(** A [LabelSelector] of match labels only; the empty one matches everything. *)
Record NetworkPolicyPeer := mkPeer {
  PodSelector : option (gmap string string);
  NamespaceSelector : option (gmap string string)
}.

Record NetworkPolicyPort := mkPolicyPort { policy_Protocol : option string; policy_Port : option IntOrString }.

Record NetworkPolicyIngressRule := mkIngressRule {
  From_ : list NetworkPolicyPeer;
  Ports : list NetworkPolicyPort
}.

Record NetworkPolicy := mkNetworkPolicy {
  np_TypeMeta : TypeMeta;
  np_Meta : ObjectMeta;
  np_PodSelector : gmap string string;
  PolicyTypes : list string;
  np_Ingress : list NetworkPolicyIngressRule
}.

Definition namespacePeer (namespace : string) : NetworkPolicyPeer :=
  {| PodSelector := None; NamespaceSelector := Some (map_of [(namespaceNameLabel, namespace)]) |}.

Definition servicePortOnly (sc : ServiceClaim) : list NetworkPolicyPort :=
  [{| policy_Protocol := Some ProtocolTCP; policy_Port := Some (FromInt32 (Port (Spec sc))) |}].

Definition BuildNetworkPolicy (sc : ServiceClaim) : NetworkPolicy :=
  let tier := Tier (Spec sc) in
  let rules := [{| From_ := [namespacePeer MonitoringNamespace]; Ports := servicePortOnly sc |}] in
  let rules := rules ++
    if String.eqb tier TierPublic || String.eqb tier TierInternal
    then [{| From_ := [{| PodSelector := Some ∅; NamespaceSelector := None |}; namespacePeer PlatformNamespace];
             Ports := [] |}]
    else [] in
  let rules := rules ++
    if String.eqb tier TierPublic
    then [{| From_ := [namespacePeer IngressNamespace]; Ports := servicePortOnly sc |}]
    else [] in
  {| np_TypeMeta := mkTypeMeta "networking.k8s.io/v1" "NetworkPolicy";
     np_Meta := objectMeta sc (Name sc);
     np_PodSelector := ∅;
     PolicyTypes := ["Ingress"];
     np_Ingress := rules |}.

(** ** ServiceMonitor ([servicemonitor.go]) *)

Definition metricsPath : string := "/metrics".
Definition scrapeInterval : string := "30s".
Definition monitoringVersion : string := "monitoring.coreos.com/v1".

Record ServiceMonitor := mkServiceMonitor {
  sm_TypeMeta : TypeMeta;
  sm_Meta : ObjectMeta;
  sm_Selector : gmap string string;
  Endpoints : list (string * string * string)      (* port, path, interval *)
}.

Definition BuildServiceMonitor (sc : ServiceClaim) : ServiceMonitor :=
  {| sm_TypeMeta := mkTypeMeta monitoringVersion "ServiceMonitor";
     sm_Meta := objectMeta sc (Name sc);
     sm_Selector := SelectorLabels sc;
     Endpoints := [(PortName, metricsPath, scrapeInterval)] |}.

(** ** AnalysisTemplate ([analysistemplate.go]) *)

Definition analysisTemplateKind : string := "AnalysisTemplate".
Definition CanaryMetric : string := "sli-error-ratio".
Definition canaryErrorRatioLimit : string := "0.05".
Definition canaryWindow : string := "5m".
Definition canaryInterval : string := "30s".
Definition DefaultPrometheusURL : string := "http://kps-kube-prometheus-stack-prometheus.monitoring.svc:9090".

Record AnalysisMetric := mkAnalysisMetric {
  metric_Name : string;
  metric_Interval : string;
  FailureCondition : string;
  FailureLimit : option IntOrString;
  prometheus_Address : string;
  prometheus_Query : string
}.

Record AnalysisTemplate := mkAnalysisTemplate {
  at_TypeMeta : TypeMeta;
  at_Meta : ObjectMeta;
  at_Metrics : list AnalysisMetric
}.

Definition BuildAnalysisTemplate `{UnicodePrint} (sc : ServiceClaim) : AnalysisTemplate :=
  let query := Sprintf [RecordName (sli_Type (SLI (Spec sc))) canaryWindow; "{"; LabelService; "=";
                        Quote (Name sc); "}"] in
  {| at_TypeMeta := mkTypeMeta rolloutsVersion analysisTemplateKind;
     at_Meta := objectMeta sc (CanaryAnalysisName sc);
     at_Metrics :=
       [{| metric_Name := CanaryMetric;
           metric_Interval := canaryInterval;
           FailureCondition := Sprintf ["len(result) > 0 && result[0] > "; canaryErrorRatioLimit];
           FailureLimit := Some (FromInt32 0);
           prometheus_Address := DefaultPrometheusURL;
           prometheus_Query := query |}] |}.

(** ** What a NetworkPolicy allows

    The documented meaning of the object, as far as the program uses it. A policy selects pods of its
    own namespace by their labels, and isolates the selected ones in the directions of its policy
    types. Whatever goes to a pod that is not isolated is allowed; traffic to an isolated pod is
    allowed when some ingress rule has a peer that matches its source and either no ports or one that
    matches its destination. *)
Record Pod := mkPod { pod_Namespace : string; pod_PodLabels : gmap string string }.

Record Source := mkSource {
  src_Namespace : string;
  src_NamespaceLabels : gmap string string;
  src_PodLabels : gmap string string
}.

Definition selects (selector labels : gmap string string) : bool := bool_decide (selector ⊆ labels).

Definition peer_matches (own_namespace : string) (src : Source) (p : NetworkPolicyPeer) : bool :=
  match NamespaceSelector p, PodSelector p with
  | Some ns, None => selects ns (src_NamespaceLabels src)
  | None, Some pods => String.eqb (src_Namespace src) own_namespace && selects pods (src_PodLabels src)
  | Some ns, Some pods => selects ns (src_NamespaceLabels src) && selects pods (src_PodLabels src)
  | None, None => false
  end.

Definition port_matches (protocol : string) (port : Z) (p : NetworkPolicyPort) : bool :=
  match policy_Protocol p with Some pr => String.eqb protocol pr | None => true end &&
  match policy_Port p with Some (FromInt32 n) => port =? n | Some (FromString _) => false | None => true end.

Definition admits (np : NetworkPolicy) (src : Source) (protocol : string) (port : Z) : bool :=
  existsb (fun rule =>
    existsb (peer_matches (meta_Namespace (np_Meta np)) src) (From_ rule) &&
    (match Ports rule with [] => true | ps => existsb (port_matches protocol port) ps end)) (np_Ingress np).

Definition isolates (np : NetworkPolicy) (direction : string) (pod : Pod) : bool :=
  existsb (String.eqb direction) (PolicyTypes np) &&
  String.eqb (pod_Namespace pod) (meta_Namespace (np_Meta np)) && selects (np_PodSelector np) (pod_PodLabels pod).

Definition allows_ingress (np : NetworkPolicy) (src : Source) (pod : Pod) (protocol : string) (port : Z) : bool :=
  negb (isolates np "Ingress" pod) || admits np src protocol port.

(** The objects built here have no egress rules, so a pod isolated for egress could send nothing. *)
Definition allows_egress (np : NetworkPolicy) (pod : Pod) : bool := negb (isolates np "Egress" pod).

(** ** Lemmas *)

Lemma selects_empty labels : selects ∅ labels = true.
Proof. apply bool_decide_eq_true. apply map_empty_subseteq. Qed.

Lemma selects_one k v labels : selects (map_of [(k, v)]) labels = true <-> labels !! k = Some v.
Proof.
  unfold selects, map_of. simpl. rewrite bool_decide_eq_true, map_subseteq_spec. split.
  - intros Hs. apply Hs. apply lookup_insert_eq.
  - intros Hl j x [[<- <-]|[_ Hx]]%lookup_insert_Some; [done|]. by rewrite lookup_empty in Hx.
Qed.

Lemma namespacePeer_matches own src ns :
  src_NamespaceLabels src !! namespaceNameLabel = Some (src_Namespace src) ->
  peer_matches own src (namespacePeer ns) = String.eqb (src_Namespace src) ns.
Proof.
  intros Hl. apply eq_true_iff_eq. unfold peer_matches, namespacePeer. cbn [NamespaceSelector PodSelector].
  rewrite selects_one, Hl, String.eqb_eq. naive_solver.
Qed.

(** What the rules admit. *)
Lemma NetworkPolicy_rules (sc : ServiceClaim) (src : Source) (protocol : string) (port : Z) :
  src_NamespaceLabels src !! namespaceNameLabel = Some (src_Namespace src) ->
  let service_port := protocol = ProtocolTCP /\ port = Port (Spec sc) in
  let inside := Tier (Spec sc) = TierPublic \/ Tier (Spec sc) = TierInternal in
  admits (BuildNetworkPolicy sc) src protocol port = true <->
  (src_Namespace src = MonitoringNamespace /\ service_port) \/
  (inside /\ (src_Namespace src = NamespaceName sc \/ src_Namespace src = PlatformNamespace)) \/
  (Tier (Spec sc) = TierPublic /\ src_Namespace src = IngressNamespace /\ service_port).
Proof.
  intros Hl service_port inside.
  assert (forall ns, peer_matches (NamespaceName sc) src (namespacePeer ns) &&
            port_matches protocol port {| policy_Protocol := Some ProtocolTCP; policy_Port := Some (FromInt32 (Port (Spec sc))) |}
            = true <-> src_Namespace src = ns /\ service_port) as Hport.
  { intros ns. rewrite namespacePeer_matches by done. unfold service_port, port_matches. simpl.
    rewrite !andb_true_iff, !String.eqb_eq, Z.eqb_eq. done. }
  assert ((peer_matches (NamespaceName sc) src {| PodSelector := Some ∅; NamespaceSelector := None |}
           || peer_matches (NamespaceName sc) src (namespacePeer PlatformNamespace)) && true = true <->
          src_Namespace src = NamespaceName sc \/ src_Namespace src = PlatformNamespace) as Hinside.
  { rewrite namespacePeer_matches by done. unfold peer_matches. cbn [NamespaceSelector PodSelector]. rewrite selects_empty.
    rewrite !andb_true_r, orb_true_iff, !String.eqb_eq. done. }
  unfold admits, BuildNetworkPolicy, inside.
  cbn [np_Ingress np_Meta meta_Namespace objectMeta].
  rewrite !existsb_app, !orb_true_iff. cbn [existsb From_ Ports servicePortOnly].
  rewrite !orb_false_r, Hport. clearbody service_port.
  destruct (String.eqb_spec (Tier (Spec sc)) TierPublic) as [Hp|Hp];
    destruct (String.eqb_spec (Tier (Spec sc)) TierInternal) as [Hi|Hi]; cbn [orb existsb From_ Ports servicePortOnly];
    rewrite ?orb_false_r, ?Hport, ?Hinside; clear Hport Hinside Hl; set (X := _ = MonitoringNamespace);
    set (Y := _ = NamespaceName sc); set (Z := _ = PlatformNamespace); set (W := _ = IngressNamespace);
    clearbody X Y Z W; clear -Hp Hi; intuition discriminate.
Qed.

(** ** Properties *)

(** The floor of a tier holds: public claims run at least two pods and at least scale.min,
    internal claims scale.min, others one; and the HPA's minimum never exceeds its maximum,
    whatever the claim says, with both in int32 when the claim's are. *)
Theorem HPA_bounds (sc : ServiceClaim) :
  let m := MinReplicas sc in
  hpa_MinReplicas (BuildHPA sc) = Some m /\ m <= hpa_MaxReplicas (BuildHPA sc) /\
  scale_Max (Scale (Spec sc)) <= hpa_MaxReplicas (BuildHPA sc) /\
  (Tier (Spec sc) = TierPublic -> 2 <= m /\ scale_Min (Scale (Spec sc)) <= m) /\
  (Tier (Spec sc) = TierInternal -> m = scale_Min (Scale (Spec sc))) /\
  (Tier (Spec sc) = TierBatch -> m = 1) /\
  (- 2 ^ 31 <= scale_Min (Scale (Spec sc)) < 2 ^ 31 -> - 2 ^ 31 <= scale_Max (Scale (Spec sc)) < 2 ^ 31 ->
   - 2 ^ 31 <= m < 2 ^ 31 /\ - 2 ^ 31 <= hpa_MaxReplicas (BuildHPA sc) < 2 ^ 31).
Proof.
  cbn [BuildHPA hpa_MinReplicas hpa_MaxReplicas]. unfold MinReplicas, publicMinReplicas.
  split; [done|]. split; [lia|]. split; [lia|].
  split; [intros ->; simpl; lia|]. split; [by intros ->|]. split; [by intros ->|].
  destruct (String.eqb (Tier (Spec sc)) TierPublic), (String.eqb (Tier (Spec sc)) TierInternal); lia.
Qed.

Lemma HPA_bounds_witness :
  2 <= MinReplicas sample_claim /\ hpa_MaxReplicas (BuildHPA sample_claim) = 5.
Proof.
  split; [|reflexivity]. destruct (HPA_bounds sample_claim) as (_ & _ & _ & H & _). exact (proj1 (H eq_refl)).
Defined.

(** C39: The NetworkPolicy is a deny-by-default for every pod of the claim's namespace, whatever its labels.
    Such a pod is reached exactly by the documented traffic: Prometheus to the service port in every
    tier; pods of the same namespace and of the platform namespace, on any port, for public and
    internal claims; the ingress controller to the service port for public ones. What the pods send
    is not restricted, and pods of other namespaces are not affected. Kubernetes labels every
    namespace with its own name. *)
Theorem NetworkPolicy_admits (sc : ServiceClaim) (storage : option StorageConfig) (src : Source) (pod : Pod)
    (protocol : string) (port : Z) :
  src_NamespaceLabels src !! "kubernetes.io/metadata.name" = Some (src_Namespace src) ->
  let np := BuildNetworkPolicy sc in
  let service_port := protocol = "TCP" /\ port = Port (Spec sc) in
  let inside := Tier (Spec sc) = TierPublic \/ Tier (Spec sc) = TierInternal in
  meta_Namespace (np_Meta np) = meta_Namespace (rollout_Meta (BuildRollout sc storage)) /\
  allows_egress np pod = true /\
  (pod_Namespace pod <> NamespaceName sc -> allows_ingress np src pod protocol port = true) /\
  (pod_Namespace pod = NamespaceName sc ->
   allows_ingress np src pod protocol port = true <->
   (src_Namespace src = "monitoring" /\ service_port) \/
   (inside /\ (src_Namespace src = NamespaceName sc \/ src_Namespace src = "platform-system")) \/
   (Tier (Spec sc) = TierPublic /\ src_Namespace src = "traefik" /\ service_port)).
Proof.
  intros Hl np service_port inside. split; [done|]. split; [done|].
  unfold allows_ingress, isolates, np. cbn [BuildNetworkPolicy PolicyTypes np_Meta meta_Namespace objectMeta np_PodSelector].
  rewrite selects_empty. split.
  - intros Hns. by rewrite (proj2 (String.eqb_neq _ _) Hns).
  - intros ->. rewrite String.eqb_refl. exact (NetworkPolicy_rules sc src protocol port Hl).
Qed.

Lemma NetworkPolicy_admits_witness :
  let np := BuildNetworkPolicy sample_claim in
  let from namespace := mkSource namespace (map_of [("kubernetes.io/metadata.name", namespace)]) ∅ in
  let pod := mkPod "svc-shortlink" (map_of [("app", "anything")]) in
  allows_ingress np (from "platform-system") pod "TCP" 443 = true /\ ~ allows_ingress np (from "default") pod "TCP" 8080 = true.
Proof.
  intros np from pod. split.
  - apply (NetworkPolicy_admits sample_claim None (from "platform-system") pod "TCP" 443); [reflexivity..|]. right. left. split; [by left|by right].
  - intros Ha. apply (NetworkPolicy_admits sample_claim None (from "default") pod "TCP" 8080) in Ha; [|reflexivity..].
    destruct Ha as [[E _]|[[_ [E|E]]|[_ [E _]]]]; discriminate E.
Defined.
