(* ===== verification/Monitoring.v ===== *)
(** * Monitoring objects of a claim ([prometheusrule.go], [dashboard.go], [runbook.go] of
      [internal/builders])

    The rules, the Grafana dashboard and the runbook are all generated from the same SLI and SLO. *)
From Stdlib Require Import ZArith QArith Lia Ascii String SpecFloat.
From S2P Require Import Prelude GoFloat GoStrings GoStrconv GoTime GoRat GoJson GoSha256 Api Budget Rules Alerts.
From S2P Require Import Kubernetes Meta Workload.
Local Open Scope Z_scope.
Local Open Scope stdpp_scope.

Record ConfigMap := mkConfigMap {
  cm_TypeMeta : TypeMeta;
  cm_Meta : ObjectMeta;
  Data : gmap string string
}.

(** ** PrometheusRule *)

Record RuleGroup := mkRuleGroup { group_Name : string; Rules : list Rule }.

Record PrometheusRule := mkPrometheusRule {
  pr_TypeMeta : TypeMeta;
  pr_Meta : ObjectMeta;
  Groups : list RuleGroup
}.

Definition SLIRuleGroupName (sc : ServiceClaim) : string := Name sc +:+ ".sli".
Definition AlertRuleGroupName (sc : ServiceClaim) : string := Name sc +:+ ".slo-alerts".

(** ** Dashboard structs *)

Record grafanaDatasource := mkDatasource { datasource_Type : string; datasource_UID : string }.

Record grafanaTarget := mkTarget {
  RefID : string;
  target_Expr : string;
  LegendFormat : string;
  target_Datasource : grafanaDatasource
}.

Record grafanaGridPos := mkGridPos { grid_H : Z; grid_W : Z; grid_X : Z; grid_Y : Z }.

Record grafanaPanel := mkPanel {
  panel_ID : Z;
  panel_Type : string;
  panel_Title : string;
  panel_Description : string;
  GridPos : grafanaGridPos;
  panel_Datasource : grafanaDatasource;
  panel_Unit : string;            (* fieldConfig.defaults.unit; the overrides are always empty *)
  Targets : list grafanaTarget
}.

Record grafanaDashboard := mkDashboard {
  UID : string;
  Title : string;
  Tags : list string;
  Time : string * string;
  Refresh : string;
  Panels : list grafanaPanel
}.

Definition DashboardLabel : string := "grafana_dashboard".
Definition dashboardLabelValue : string := "1".
Definition prometheusDatasourceUID : string := "prometheus".
Definition PanelRequestRate : string := "Request rate".
Definition PanelErrorRatio : string := "Error ratio vs objective".
Definition PanelLatency : string := "Latency p50 / p95 / p99".
Definition PanelBudgetLeft : string := "Error budget remaining".
Definition dashboardTagPaved : string := "paved".
Definition dashboardTimeRange : string := "now-6h".

Definition prometheusDatasource : grafanaDatasource := mkDatasource "prometheus" prometheusDatasourceUID.
Definition gridPos (x y : Z) : grafanaGridPos := {| grid_H := 8; grid_W := 12; grid_X := x; grid_Y := y |}.
Definition target (refID expr legend : string) : grafanaTarget := mkTarget refID expr legend prometheusDatasource.
Definition panel (id : Z) (kind title unit : string) (pos : grafanaGridPos) (description : string)
    (targets : list grafanaTarget) : grafanaPanel :=
  mkPanel id kind title description pos prometheusDatasource unit targets.

(** [sum[:8]]: 8 bytes of the hash, 16 hexadecimal digits. *)
Definition DashboardUID (sc : ServiceClaim) : string :=
  "paved-" +:+ EncodeToString (take 8 (Sum256 (Sprintf [Namespace sc; "/"; Name sc]))).

(** The JSON the struct tags give. *)
Definition datasource_json (d : grafanaDatasource) : json :=
  JObject [("type", JString (datasource_Type d)); ("uid", JString (datasource_UID d))].
Definition target_json (t : grafanaTarget) : json :=
  JObject [("refId", JString (RefID t)); ("expr", JString (target_Expr t));
           ("legendFormat", JString (LegendFormat t)); ("datasource", datasource_json (target_Datasource t))].
Definition panel_json (p : grafanaPanel) : json :=
  JObject [("id", JInt (panel_ID p)); ("type", JString (panel_Type p)); ("title", JString (panel_Title p));
           ("description", JString (panel_Description p));
           ("gridPos", JObject [("h", JInt (grid_H (GridPos p))); ("w", JInt (grid_W (GridPos p)));
                                ("x", JInt (grid_X (GridPos p))); ("y", JInt (grid_Y (GridPos p)))]);
           ("datasource", datasource_json (panel_Datasource p));
           ("fieldConfig", JObject [("defaults", JObject [("unit", JString (panel_Unit p))]); ("overrides", JArray [])]);
           ("targets", JArray (map target_json (Targets p)))].
Definition dashboard_json (d : grafanaDashboard) : json :=
  JObject [("uid", JString (UID d)); ("title", JString (Title d)); ("tags", strings (Tags d));
           ("time", JObject [("from", JString (Time d).1); ("to", JString (Time d).2)]);
           ("refresh", JString (Refresh d)); ("panels", JArray (map panel_json (Panels d)))].

Definition RunbookKey : string := "runbook.md".

Section text.
Context `{UnicodePrint}.

Definition BuildPrometheusRule (sc : ServiceClaim) : result PrometheusRule :=
  let namespace := NamespaceName sc in
  match RecordingRules sc namespace with
  | Err err => Err (WrapError (Sprintf ["building SLI recording rules: "; Error err]) err)
  | Ok records =>
      match AlertRules sc (Sprintf [namespace; "/"; RunbookName sc]) with
      | Err err => Err (WrapError (Sprintf ["building burn-rate alerts: "; Error err]) err)
      | Ok alerts =>
          Ok {| pr_TypeMeta := mkTypeMeta monitoringVersion "PrometheusRule";
                pr_Meta := objectMeta sc (Name sc);
                Groups := [mkRuleGroup (SLIRuleGroupName sc) records; mkRuleGroup (AlertRuleGroupName sc) alerts] |}
      end
  end.

Definition dashboardModel (sc : ServiceClaim) : result grafanaDashboard :=
  let namespace := NamespaceName sc in
  budget ← ErrorBudget (Objective (SLO (Spec sc)));
  let budgetText := Decimal budget in
  windowRatio ← ErrorRatioExpr (SLI (Spec sc)) namespace (Window (SLO (Spec sc)));
  let requests := Sprintf [RequestsMetric; "{namespace="; Quote namespace; "}"] in
  let buckets := Sprintf ["sum by (le) (rate("; DurationMetric; "_bucket{namespace="; Quote namespace;
                          "}[$__rate_interval]))"] in
  let record window := Sprintf [RecordName (sli_Type (SLI (Spec sc))) window; "{service="; Quote (Name sc); "}"] in
  let latencyTargets :=
    [target "A" (Sprintf ["histogram_quantile(0.5, "; buckets; ")"]) "p50";
     target "B" (Sprintf ["histogram_quantile(0.95, "; buckets; ")"]) "p95";
     target "C" (Sprintf ["histogram_quantile(0.99, "; buckets; ")"]) "p99"] in
  latencyTargets ←
    (if String.eqb (sli_Type (SLI (Spec sc))) SLIHTTPLatency then
       match ParseDuration (LatencyThreshold (SLI (Spec sc))) with
       | Err err =>
           Err (WrapError (Sprintf ["latencyThreshold "; Quote (LatencyThreshold (SLI (Spec sc)));
                                    " is not a duration: "; Error err]) err)
       | Ok threshold =>
           Ok (latencyTargets ++ [target "D" (Sprintf ["vector("; FormatG (Seconds threshold); ")"]) "SLO threshold"])
       end
     else Ok latencyTargets);
  Ok {| UID := DashboardUID sc;
        Title := Name sc;
        Tags := [dashboardTagPaved; Tier (Spec sc)];
        Time := (dashboardTimeRange, "now");
        Refresh := "30s";
        Panels :=
          [panel 1 "timeseries" PanelRequestRate "reqps" (gridPos 0 0)
             "Requests per second, by status code."
             [target "A" (Sprintf ["sum by (code) (rate("; requests; "[$__rate_interval]))"]) "{{code}}"];
           panel 2 "timeseries" PanelErrorRatio "percentunit" (gridPos 12 0)
             (Sprintf ["Share of bad requests. Above the budget line ("; budgetText;
                       "), the service is spending its error budget faster than its ";
                       Objective (SLO (Spec sc)); "% objective allows."])
             [target "A" (record "5m") "error ratio, 5m";
              target "B" (record "1h") "error ratio, 1h";
              target "C" (Sprintf ["vector("; budgetText; ")"]) "error budget"];
           panel 3 "timeseries" PanelLatency "s" (gridPos 0 8)
             "Request latency percentiles." latencyTargets;
           panel 4 "stat" PanelBudgetLeft "percentunit" (gridPos 12 8)
             (Sprintf ["Share of the "; Window (SLO (Spec sc));
                       " error budget still unspent. Prometheus keeps 10 days of data by default, so a longer ";
                       "window only counts what it still has."])
             [target "A" (Sprintf ["1 - (("; windowRatio; ") / "; budgetText; ")"]) "remaining"]] |}.

(** [json.MarshalIndent] of these structs has no error to return. *)
Definition BuildDashboard (sc : ServiceClaim) : result ConfigMap :=
  model ← dashboardModel sc;
  let content := MarshalIndent (dashboard_json model) "  " in
  let dashboardLabels := <[DashboardLabel := dashboardLabelValue]> (Labels sc) in
  Ok {| cm_TypeMeta := mkTypeMeta "v1" "ConfigMap";
        cm_Meta := {| meta_Name := Name sc +:+ "-dashboard";
                      meta_Namespace := NamespaceName sc;
                      meta_Labels := dashboardLabels |};
        Data := map_of [(Name sc +:+ ".json", content)] |}.

(** ** Runbook *)

Definition badRequestDefinition (sli : SLISpec) : result string :=
  if String.eqb (sli_Type sli) SLIHTTPAvailability then
    match GoodStatuses sli with
    | [] => Err (ErrorString "goodStatuses is empty")
    | statuses => Ok (Sprintf ["A request is bad when its status code is not one of ";
                               Join (map Itoa statuses) ", "; "."])
    end
  else if String.eqb (sli_Type sli) SLIHTTPLatency then
    _ ← LatencyBucket (LatencyThreshold sli);
    Ok (Sprintf ["A request is bad when it takes longer than "; LatencyThreshold sli; "."])
  else Err (ErrorString (Sprintf ["unsupported SLI type "; Quote (sli_Type sli)])).

(** A row of the runbook's table of alerts: the body of the loop. *)
Definition runbookRow (budget : Q) (window : Z) (alert : BurnRateAlert) : result string :=
  threshold ← Threshold alert budget;
  lifetime ← BudgetLifetime alert window;
  Ok (Sprintf ["| "; Severity alert; " | "; LongWindow alert; " and "; ShortWindow alert; " | "; threshold; " (";
               alert_BurnRate alert; "x) | about "; lifetime; " |"]).

Definition runbookText (sc : ServiceClaim) : result string :=
  budget ← ErrorBudget (Objective (SLO (Spec sc)));
  window ← SLOWindow (Window (SLO (Spec sc)));
  badRequest ← badRequestDefinition (SLI (Spec sc));
  let namespace := NamespaceName sc in
  let budgetPercent := Decimal (budget * 100)%Q in
  let lines :=
    ["# Runbook: " +:+ Name sc;
     "";
     "## What this service is";
     "";
     Sprintf [Name sc; " is a "; Tier (Spec sc); " service onboarded through paved. It runs `"; Image (Spec sc);
              "` in the namespace `"; namespace; "`."];
     "";
     Sprintf ["- **SLI:** "; sli_Type (SLI (Spec sc)); ". "; badRequest];
     Sprintf ["- **SLO:** "; Objective (SLO (Spec sc)); "% of requests are good over "; Window (SLO (Spec sc));
              ", so the error budget is "; Decimal budget; " ("; budgetPercent; "% of requests)."];
     "";
     "## Who owns it";
     "";
     Sprintf ["**"; Owner (Spec sc); "** owns this service. Everything in `"; namespace;
              "` is generated from the ServiceClaim `"; Namespace sc; "/"; Name sc;
              "`, so change it there rather than in the namespace."];
     "";
     "## What each alert means";
     "";
     Sprintf ["Every alert is `"; AlertName; "` with `service="; dquote; Name sc; dquote;
              "`; its `severity` and window labels say which one fired."];
     "";
     Sprintf ["| Severity | Windows | Fires above error ratio | At that rate the "; Window (SLO (Spec sc));
              " budget lasts |"];
     "|---|---|---|---|"] in
  rows ← collect (runbookRow budget window) BurnRateAlerts;
  let lines := lines ++ rows ++
    ["";
     Sprintf ["A **page** means users are affected now and the budget runs out within days: respond immediately. ";
              "A **ticket** means a slower burn that will still use up the budget before the window ends: ";
              "handle it during working hours."];
     "";
     "## First three debugging steps";
     "";
     Sprintf ["1. **Check whether a deploy is involved.** Compare the claim's image with the Rollout: ";
              "`kubectl get serviceclaim "; Name sc; " -n "; Namespace sc; " -o jsonpath='{.spec.image}'` and ";
              "`kubectl get rollout "; Name sc; " -n "; namespace; "`."];
     Sprintf ["2. **Find when the burn started** on the Grafana dashboard `"; Name sc;
              "` (tag `paved`): the error ratio against its budget line, and request rate by status code."];
     Sprintf ["3. **Read recent logs:** `kubectl logs -n "; namespace; " -l "; LabelName; "="; Name sc;
              " --since=1h --tail=200`. If the burn began with an image change, set `spec.image` in the ";
              "ServiceClaim back to the previous version."];
     "";
     "General guidance for these alerts: " +:+ RunbookURL] in
  Ok (Join lines newline +:+ newline).

Definition BuildRunbook (sc : ServiceClaim) : result ConfigMap :=
  match runbookText sc with
  | Err err => Err (WrapError (Sprintf ["building runbook: "; Error err]) err)
  | Ok text =>
      Ok {| cm_TypeMeta := mkTypeMeta "v1" "ConfigMap";
            cm_Meta := objectMeta sc (RunbookName sc);
            Data := map_of [(RunbookKey, text)] |}
  end.

(** ** Lemmas

    The three builders fail on the same claims: their inputs are the same SLI and SLO. *)
Definition slo_ok (sc : ServiceClaim) : bool :=
  sli_ok (SLI (Spec sc)) && is_ok (ErrorBudget (Objective (SLO (Spec sc)))) && is_ok (SLOWindow (Window (SLO (Spec sc)))).

Lemma badRequestDefinition_ok sli : is_ok (badRequestDefinition sli) = sli_ok sli.
Proof.
  unfold badRequestDefinition, sli_ok. destruct (String.eqb _ SLIHTTPAvailability); [by destruct (GoodStatuses sli)|].
  destruct (String.eqb _ SLIHTTPLatency); [|done]. unfold LatencyBucket.
  destruct (ParseDuration _) as [d|e]; [|done].
  destruct (Z.leb_spec d 0), (Z.ltb_spec 0 d); try lia; done.
Qed.

Lemma BuildPrometheusRule_ok sc : is_ok (BuildPrometheusRule sc) = slo_ok sc.
Proof.
  unfold BuildPrometheusRule, slo_ok. rewrite <- (RecordingRules_fails sc (NamespaceName sc)).
  destruct (RecordingRules sc _) as [records|e]; [|done]. rewrite <- andb_assoc.
  rewrite <- (AlertRules_ok sc (Sprintf [NamespaceName sc; "/"; RunbookName sc])).
  by destruct (AlertRules sc _).
Qed.

Lemma dashboardModel_ok sc :
  is_ok (dashboardModel sc) = sli_ok (SLI (Spec sc)) && is_ok (ErrorBudget (Objective (SLO (Spec sc)))).
Proof.
  unfold dashboardModel. destruct (ErrorBudget _) as [b|e]; [|by rewrite andb_false_r].
  rewrite andb_true_r, <- (ErrorRatioExpr_ok _ (NamespaceName sc) (Window (SLO (Spec sc)))).
  cbn [mbind result_bind]. destruct (ErrorRatioExpr _ _ _) as [x|e] eqn:E; [|done]. cbn [mbind result_bind].
  destruct (String.eqb (sli_Type (SLI (Spec sc))) SLIHTTPLatency) eqn:Hl; [|done].
  pose proof (ErrorRatioExpr_ok (SLI (Spec sc)) (NamespaceName sc) (Window (SLO (Spec sc)))) as Hs.
  rewrite E in Hs. unfold sli_ok in Hs. apply String.eqb_eq in Hl. rewrite Hl in Hs. simpl in Hs.
  by destruct (ParseDuration _).
Qed.

Lemma runbookRow_ok budget window a :
  In a BurnRateAlerts -> (0 < budget)%Q -> terminating budget -> is_ok (runbookRow budget window a) = true.
Proof.
  intros Ha Hb Ht. destruct (Threshold_exact a budget Ha Hb Ht) as (t & _ & _ & Hth & _).
  unfold runbookRow. rewrite Hth. cbn [mbind result_bind]. pose proof (BudgetLifetime_ok a window Ha) as Hl.
  by destruct (BudgetLifetime a window).
Qed.

Lemma runbookText_ok sc : is_ok (runbookText sc) = slo_ok sc.
Proof.
  unfold runbookText, slo_ok. rewrite <- badRequestDefinition_ok.
  destruct (ErrorBudget _) as [b|e] eqn:Hb; [|by rewrite andb_false_r].
  destruct (SLOWindow _) as [w|e]; [|by rewrite andb_false_r]. rewrite !andb_true_r. cbn [mbind result_bind].
  destruct (badRequestDefinition _); [|done]. cbn [mbind result_bind is_ok].
  apply ErrorBudget_Ok_bounds in Hb as (Hp & _ & Ht).
  pose proof (collect_is_ok (runbookRow b w) BurnRateAlerts) as Hc.
  assert (is_ok (collect (runbookRow b w) BurnRateAlerts) = true) as Hc' by (apply Hc; intros; by apply runbookRow_ok).
  by destruct (collect (runbookRow b w) BurnRateAlerts).
Qed.
End text.
