(* ===== verification/Build.v ===== *)
(** * Every object a claim requires ([internal/builders/set.go])

    [Build] composes the builders; the theorems are about the set it returns as a whole. *)
From Stdlib Require Import ZArith QArith Lia Ascii String.
From S2P Require Import Prelude GoStrings GoJson Api Budget Rules Alerts Kubernetes Instances Meta Storage Workload.
From S2P Require Import Monitoring.
Local Open Scope Z_scope.
Local Open Scope stdpp_scope.

(** ** Definitions *)

(** [client.Object]: one of the kinds the builders return. *)
Inductive Object :=
  | ONamespace (o : NamespaceObject)
  | OServiceAccount (o : ServiceAccount)
  | OUnstructured (u : json)
  | OAnalysisTemplate (o : AnalysisTemplate)
  | ORollout (o : RolloutObject)
  | ONetworkPolicy (o : NetworkPolicy)
  | OPrometheusRule (o : PrometheusRule)
  | OServiceMonitor (o : ServiceMonitor)
  | OConfigMap (o : ConfigMap)
  | OService (o : ServiceObject)
  | OHPA (o : HorizontalPodAutoscaler)
  | OPodDisruptionBudget (o : PodDisruptionBudget)
  | OIngress (o : Ingress).

(** The metadata accessors every [client.Object] has. *)
Definition object_meta `{Unstructured} (obj : Object) : ObjectMeta :=
  match obj with
  | ONamespace o => namespace_Meta o
  | OServiceAccount o => sa_Meta o
  | OUnstructured u => mkObjectMeta (GetName u) (GetNamespace u) (GetLabels u)
  | OAnalysisTemplate o => at_Meta o
  | ORollout o => rollout_Meta o
  | ONetworkPolicy o => np_Meta o
  | OPrometheusRule o => pr_Meta o
  | OServiceMonitor o => sm_Meta o
  | OConfigMap o => cm_Meta o
  | OService o => service_Meta o
  | OHPA o => hpa_Meta o
  | OPodDisruptionBudget o => pdb_Meta o
  | OIngress o => ingress_Meta o
  end.

Definition ObjectKeyFromObject `{Unstructured} (obj : Object) : NamespacedName :=
  mkNamespacedName (meta_Namespace (object_meta obj)) (meta_Name (object_meta obj)).

(** The Go type of a typed object: the constructor. *)
Inductive object_kind :=
  | KNamespace | KServiceAccount | KUnstructured | KAnalysisTemplate | KRollout | KNetworkPolicy
  | KPrometheusRule | KServiceMonitor | KConfigMap | KService | KHPA | KPodDisruptionBudget | KIngress.

#[export] Instance object_kind_eq_dec : EqDecision object_kind.
Proof. solve_decision. Defined.

Definition kind_of (obj : Object) : object_kind :=
  match obj with
  | ONamespace _ => KNamespace | OServiceAccount _ => KServiceAccount | OUnstructured _ => KUnstructured
  | OAnalysisTemplate _ => KAnalysisTemplate | ORollout _ => KRollout | ONetworkPolicy _ => KNetworkPolicy
  | OPrometheusRule _ => KPrometheusRule | OServiceMonitor _ => KServiceMonitor | OConfigMap _ => KConfigMap
  | OService _ => KService | OHPA _ => KHPA | OPodDisruptionBudget _ => KPodDisruptionBudget
  | OIngress _ => KIngress
  end.

(** The kinds of the empty objects [ManagedTypes] returns. *)
Definition ManagedTypes : list object_kind :=
  [KNamespace; KServiceAccount; KRollout; KAnalysisTemplate; KNetworkPolicy; KPrometheusRule;
   KServiceMonitor; KConfigMap; KService; KHPA; KPodDisruptionBudget; KIngress].

Section build.
Context `{UnicodePrint, Unstructured}.

Definition Build (sc : ServiceClaim) (storage : option StorageConfig) : result (list Object) :=
  rule ← BuildPrometheusRule sc;
  dashboard ← BuildDashboard sc;
  runbook ← BuildRunbook sc;
  let objects := [ONamespace (BuildNamespace sc); OServiceAccount (BuildServiceAccount sc)] in
  objects ←
    match HasStorage sc storage with
    | Some config =>
        role ← BuildStorageRole sc config;
        Ok (objects ++ [OUnstructured role; OUnstructured (BuildStorageBucket sc config)])
    | None => Ok objects
    end;
  let objects := objects ++ if HasCanaryAnalysis sc then [OAnalysisTemplate (BuildAnalysisTemplate sc)] else [] in
  let objects := objects ++
    [ORollout (BuildRollout sc storage);
     ONetworkPolicy (BuildNetworkPolicy sc);
     OPrometheusRule rule;
     OServiceMonitor (BuildServiceMonitor sc);
     OConfigMap dashboard;
     OConfigMap runbook] in
  let objects := objects ++
    if HasAutoscaling sc
    then [OService (BuildService sc); OHPA (BuildHPA sc); OPodDisruptionBudget (BuildPodDisruptionBudget sc)]
    else [] in
  let objects := objects ++
    if String.eqb (Tier (Spec sc)) TierPublic then [OIngress (BuildIngress sc)] else [] in
  Ok objects.

(** ** Lemmas *)

(** The set, written out: everything but the three fallible builders is a function of the claim. *)
Definition object_set (sc : ServiceClaim) (storage : option StorageConfig)
    (rule : PrometheusRule) (dashboard runbook : ConfigMap) : list Object :=
  [ONamespace (BuildNamespace sc); OServiceAccount (BuildServiceAccount sc)] ++
  (match HasStorage sc storage with
   | Some config => match BuildStorageRole sc config with
                    | Ok role => [OUnstructured role; OUnstructured (BuildStorageBucket sc config)]
                    | Err _ => []
                    end
   | None => []
   end) ++
  (if HasCanaryAnalysis sc then [OAnalysisTemplate (BuildAnalysisTemplate sc)] else []) ++
  [ORollout (BuildRollout sc storage); ONetworkPolicy (BuildNetworkPolicy sc); OPrometheusRule rule;
   OServiceMonitor (BuildServiceMonitor sc); OConfigMap dashboard; OConfigMap runbook] ++
  (if HasAutoscaling sc
   then [OService (BuildService sc); OHPA (BuildHPA sc); OPodDisruptionBudget (BuildPodDisruptionBudget sc)]
   else []) ++
  (if String.eqb (Tier (Spec sc)) TierPublic then [OIngress (BuildIngress sc)] else []).

Lemma BuildDashboard_ok sc :
  is_ok (BuildDashboard sc) = sli_ok (SLI (Spec sc)) && is_ok (ErrorBudget (Objective (SLO (Spec sc)))).
Proof. rewrite <- dashboardModel_ok. unfold BuildDashboard. by destruct (dashboardModel sc). Qed.

Lemma BuildRunbook_ok sc : is_ok (BuildRunbook sc) = slo_ok sc.
Proof. rewrite <- runbookText_ok. unfold BuildRunbook. by destruct (runbookText sc). Qed.

Lemma Build_inv sc storage objects :
  Build sc storage = Ok objects ->
  exists rule dashboard runbook, BuildPrometheusRule sc = Ok rule /\ BuildDashboard sc = Ok dashboard /\
    BuildRunbook sc = Ok runbook /\ objects = object_set sc storage rule dashboard runbook.
Proof.
  unfold Build. intros (rule & Hr & (dashboard & Hd & (runbook & Hb & E)%bind_Ok)%bind_Ok)%bind_Ok.
  exists rule, dashboard, runbook. repeat split; try done. apply bind_Ok in E as (os & Hos & [= <-]).
  unfold object_set. destruct (HasStorage sc storage) as [config|].
  - apply bind_Ok in Hos as (role & -> & [= <-]). by rewrite <- !app_assoc.
  - injection Hos as <-. by rewrite <- !app_assoc.
Qed.

Lemma Build_ok sc storage : is_ok (Build sc storage) = slo_ok sc.
Proof.
  unfold Build. rewrite <- BuildPrometheusRule_ok.
  destruct (BuildPrometheusRule sc) as [rule|] eqn:Hr; [|done]. cbn [mbind result_bind is_ok].
  pose proof (BuildPrometheusRule_ok sc) as Hs. rewrite Hr in Hs. cbn [is_ok] in Hs. symmetry in Hs.
  pose proof (BuildRunbook_ok sc) as Hb. rewrite Hs in Hb.
  unfold slo_ok in Hs. apply andb_true_iff in Hs as [Hs _].
  pose proof (BuildDashboard_ok sc) as Hd. rewrite Hs in Hd.
  destruct (BuildDashboard sc); [|done]. destruct (BuildRunbook sc); [|done]. cbn [mbind result_bind is_ok].
  by destruct (HasStorage sc storage).
Qed.

(** What identifies an object to the API server: its Go type or group-version-kind, and its key. *)
Definition identity (obj : Object) : object_kind * GroupVersionKind * NamespacedName :=
  (kind_of obj, match obj with OUnstructured u => GVK u | _ => mkGVK "" "" "" end, ObjectKeyFromObject obj).

Lemma BuildPrometheusRule_meta sc rule : BuildPrometheusRule sc = Ok rule -> pr_Meta rule = objectMeta sc (Name sc).
Proof.
  unfold BuildPrometheusRule. destruct (RecordingRules _ _); [|done]. by destruct (AlertRules _ _); intros [= <-].
Qed.

Lemma BuildDashboard_meta sc cm : BuildDashboard sc = Ok cm ->
  cm_Meta cm = mkObjectMeta (Name sc +:+ "-dashboard") (NamespaceName sc) (<[DashboardLabel := dashboardLabelValue]> (Labels sc)).
Proof. unfold BuildDashboard. by intros (m & _ & [= <-])%bind_Ok. Qed.

Lemma BuildRunbook_meta sc cm : BuildRunbook sc = Ok cm -> cm_Meta cm = objectMeta sc (RunbookName sc).
Proof. unfold BuildRunbook. by destruct (runbookText sc); intros [= <-]. Qed.

Context `{!UnstructuredLaws}.

Lemma storage_object_meta sc gvk annotations spec :
  object_meta (OUnstructured (set_field "spec" spec (newStorageObject sc gvk annotations))) = objectMeta sc (Name sc).
Proof.
  unfold newStorageObject, object_meta, objectMeta.
  by rewrite GetName_spec, GetName_SetAnnotations, GetName_SetLabels, GetName_SetNamespace, GetName_SetName,
    GetNamespace_spec, GetNamespace_SetAnnotations, GetNamespace_SetLabels, GetNamespace_SetNamespace,
    GetLabels_spec, GetLabels_SetAnnotations, GetLabels_SetLabels.
Qed.

Lemma storage_object_gvk sc gvk annotations spec :
  GVK (set_field "spec" spec (newStorageObject sc gvk annotations)) = gvk.
Proof.
  unfold newStorageObject.
  by rewrite GVK_spec, GVK_SetAnnotations, GVK_SetLabels, GVK_SetNamespace, GVK_SetName, GVK_new.
Qed.

(** Metadata of every object of the set: the identities, in order. *)
Definition expected_meta (sc : ServiceClaim) (obj : Object) : ObjectMeta :=
  match kind_of obj with
  | KNamespace => mkObjectMeta (NamespaceName sc) "" (Labels sc)
  | KAnalysisTemplate => objectMeta sc (CanaryAnalysisName sc)
  | KConfigMap => object_meta obj
  | _ => objectMeta sc (Name sc)
  end.

Lemma object_set_meta sc storage rule dashboard runbook :
  BuildPrometheusRule sc = Ok rule -> BuildDashboard sc = Ok dashboard -> BuildRunbook sc = Ok runbook ->
  Forall (fun obj => object_meta obj = expected_meta sc obj) (object_set sc storage rule dashboard runbook).
Proof.
  intros Hr%BuildPrometheusRule_meta _ _. unfold object_set.
  repeat (apply Forall_app; split); repeat apply Forall_cons_2; try apply Forall_nil_2; try done.
  - destruct (HasStorage sc storage) as [config|]; [|constructor]. cbn [BuildStorageRole].
    repeat constructor; apply storage_object_meta.
  - by destruct (HasCanaryAnalysis sc); repeat constructor.
  - by destruct (HasAutoscaling sc); repeat constructor.
  - by destruct (String.eqb _ _); repeat constructor.
Qed.
End build.

Lemma expected_meta_labels `{UnicodePrint, Unstructured} sc obj dashboard runbook :
  BuildDashboard sc = Ok dashboard -> BuildRunbook sc = Ok runbook ->
  object_meta obj = expected_meta sc obj ->
  (forall cm, obj = OConfigMap cm -> cm = dashboard \/ cm = runbook) ->
  Labels sc ⊆ meta_Labels (object_meta obj) /\
  (meta_Namespace (object_meta obj) = NamespaceName sc \/ kind_of obj = KNamespace).
Proof.
  intros Hd%BuildDashboard_meta Hb%BuildRunbook_meta E Hcm.
  destruct obj; try (rewrite E; split; [done|by (left + right)]).
  simpl. destruct (Hcm o eq_refl) as [->| ->]; [rewrite Hd|rewrite Hb]; (split; [|by left]); [|done].
  simpl. by apply insert_subseteq.
Qed.

Lemma object_set_configmaps `{UnicodePrint, Unstructured} sc storage rule dashboard runbook cm :
  In (OConfigMap cm) (object_set sc storage rule dashboard runbook) -> cm = dashboard \/ cm = runbook.
Proof.
  assert (Forall (fun obj => obj = OConfigMap cm -> cm = dashboard \/ cm = runbook)
    (object_set sc storage rule dashboard runbook)) as Hf; [|rewrite List.Forall_forall in Hf; intros Hin; by apply (Hf _ Hin)].
  unfold object_set. repeat (apply Forall_app; split); repeat apply Forall_cons_2; try apply Forall_nil_2; try by intros [=].
  - destruct (HasStorage sc storage); [destruct (BuildStorageRole _ _)|]; repeat (apply Forall_cons_2; [by intros [=]|]); apply Forall_nil_2.
  - destruct (HasCanaryAnalysis sc); repeat (apply Forall_cons_2; [by intros [=]|]); apply Forall_nil_2.
  - intros [=]. by left.
  - intros [=]. by right.
  - destruct (HasAutoscaling sc); repeat (apply Forall_cons_2; [by intros [=]|]); apply Forall_nil_2.
  - destruct (String.eqb _ _); repeat (apply Forall_cons_2; [by intros [=]|]); apply Forall_nil_2.
Qed.

Section nodup.
Context `{UnicodePrint, UnstructuredLaws}.

Lemma ack_identities_differ sc config role :
  BuildStorageRole sc config = Ok role -> identity (OUnstructured role) <> identity (OUnstructured (BuildStorageBucket sc config)).
Proof. intros [= <-]. unfold identity, BuildStorageBucket. rewrite !storage_object_gvk. intros [= ]. Qed.

Lemma configmap_identities_differ sc dashboard runbook :
  BuildDashboard sc = Ok dashboard -> BuildRunbook sc = Ok runbook ->
  identity (OConfigMap dashboard) <> identity (OConfigMap runbook).
Proof.
  intros Hd%BuildDashboard_meta Hb%BuildRunbook_meta. unfold identity, ObjectKeyFromObject. simpl. rewrite Hd, Hb.
  simpl. intros [= E]. by apply append_inj_l in E.
Qed.

(** Objects of different kinds are different; only the two pairs above share a kind. *)
Definition distinct (x y : Object) : Prop := kind_of x <> kind_of y \/ identity x <> identity y.

Lemma NoDup_distinct x xs :
  Forall (distinct x) xs -> NoDup (map identity xs) -> NoDup (map identity (x :: xs)).
Proof.
  intros Hx Hxs. simpl. constructor; [|done]. intros (y & E & Hy)%list_elem_of_fmap.
  rewrite Forall_forall in Hx. destruct (Hx y Hy) as [Hk|Hi]; [|done].
  apply Hk. by injection E.
Qed.

Lemma object_set_NoDup sc storage rule dashboard runbook :
  BuildDashboard sc = Ok dashboard -> BuildRunbook sc = Ok runbook ->
  NoDup (map identity (object_set sc storage rule dashboard runbook)).
Proof.
  intros Hd Hb. pose proof (configmap_identities_differ sc dashboard runbook Hd Hb) as Hcm.
  unfold object_set.
  assert (Hack : forall config role, BuildStorageRole sc config = Ok role ->
    distinct (OUnstructured role) (OUnstructured (BuildStorageBucket sc config)))
    by (intros; right; by apply ack_identities_differ).
  assert (Hmaps : distinct (OConfigMap dashboard) (OConfigMap runbook)) by by right.
  clear Hcm Hd Hb.
  destruct (HasStorage sc storage) as [config|]; [destruct (BuildStorageRole sc config) as [role|] eqn:E|];
    [specialize (Hack config role E)| |]; try clear E;
    destruct (HasCanaryAnalysis sc), (HasAutoscaling sc), (String.eqb (Tier (Spec sc)) TierPublic); cbn [app];
    repeat (apply NoDup_distinct; [repeat first [apply Forall_nil_2 | apply Forall_cons_2;
      [first [left; discriminate | assumption]|]]|]); apply NoDup_nil_2.
Qed.
End nodup.

Lemma Build_labels `{UnicodePrint, UnstructuredLaws} sc storage objects :
  Build sc storage = Ok objects ->
  Forall (fun obj => Labels sc ⊆ meta_Labels (object_meta obj) /\
                     (meta_Namespace (object_meta obj) = NamespaceName sc \/ kind_of obj = KNamespace)) objects.
Proof.
  intros (rule & dashboard & runbook & Hr & Hd & Hb & ->)%Build_inv.
  pose proof (object_set_meta sc storage rule dashboard runbook Hr Hd Hb) as Hm.
  rewrite List.Forall_forall in *. intros obj Hin.
  eapply expected_meta_labels; [done|done|by apply Hm|]. intros cm ->. by eapply object_set_configmaps.
Qed.

(** The identities of the set depend on the claim's name, tier and storage only. *)
Lemma object_set_identities `{UnicodePrint, UnstructuredLaws} sc sc' storage rule rule' dashboard dashboard' runbook runbook' :
  Name sc = Name sc' -> Tier (Spec sc) = Tier (Spec sc') -> Storage (Spec sc) = Storage (Spec sc') ->
  BuildPrometheusRule sc = Ok rule -> BuildDashboard sc = Ok dashboard -> BuildRunbook sc = Ok runbook ->
  BuildPrometheusRule sc' = Ok rule' -> BuildDashboard sc' = Ok dashboard' -> BuildRunbook sc' = Ok runbook' ->
  map identity (object_set sc storage rule dashboard runbook) =
  map identity (object_set sc' storage rule' dashboard' runbook').
Proof.
  intros Hn Ht Hs Hr%BuildPrometheusRule_meta Hd%BuildDashboard_meta Hb%BuildRunbook_meta
    Hr'%BuildPrometheusRule_meta Hd'%BuildDashboard_meta Hb'%BuildRunbook_meta.
  assert (NamespaceName sc = NamespaceName sc') as Hns by (unfold NamespaceName; by rewrite Hn).
  assert (forall gvk annotations annotations' spec spec',
    identity (OUnstructured (set_field "spec" spec (newStorageObject sc gvk annotations))) =
    identity (OUnstructured (set_field "spec" spec' (newStorageObject sc' gvk annotations')))) as Hack.
  { intros. unfold identity, ObjectKeyFromObject. rewrite !storage_object_gvk, !storage_object_meta. simpl. by rewrite Hn, Hns. }
  assert (forall o o', kind_of o = kind_of o' -> kind_of o <> KUnstructured ->
    meta_Name (object_meta o) = meta_Name (object_meta o') ->
    meta_Namespace (object_meta o) = meta_Namespace (object_meta o') -> identity o = identity o') as Hid.
  { intros o o' Hk Hu E1 E2. unfold identity, ObjectKeyFromObject. rewrite Hk, E1, E2. by destruct o, o'. }
  unfold object_set, HasStorage, HasCanaryAnalysis, HasAutoscaling. rewrite !map_app, Ht, Hs.
  repeat apply (f_equal2 (@app _)); cbn [map].
  - repeat apply (f_equal2 cons); [| |done]; apply Hid; simpl; congruence.
  - destruct (Storage (Spec sc')), storage; [|done|done|done]. cbn [BuildStorageRole map].
    repeat apply (f_equal2 cons); [| |done]; apply Hack.
  - destruct (negb (String.eqb (Tier (Spec sc')) TierBatch)); [|done]. cbn [map]. repeat apply (f_equal2 cons); [|done]. apply Hid; simpl; try done.
    unfold CanaryAnalysisName. by rewrite Hn.
  - repeat apply (f_equal2 cons); [| | | | | |done]; apply Hid; try done;
      cbn [object_meta]; rewrite ?Hr, ?Hr', ?Hd, ?Hd', ?Hb, ?Hb'; simpl; unfold RunbookName; by rewrite ?Hn, ?Hns.
  - destruct (String.eqb (Tier (Spec sc')) TierPublic || String.eqb (Tier (Spec sc')) TierInternal); [|done]. cbn [map]. repeat apply (f_equal2 cons); [| | |done]; apply Hid; simpl; congruence.
  - destruct (String.eqb (Tier (Spec sc')) TierPublic); [|done]. cbn [map]. repeat apply (f_equal2 cons); [|done]; apply Hid; simpl; congruence.
Qed.

(** ** Properties *)

(** C24: [Build] succeeds exactly when the SLI has good statuses or a positive threshold, the
    objective gives a budget and the window is a number of days; the Namespace then comes first,
    and the number of objects is the documented one: 13 for public, 12 for internal and 8 for
    batch, and 2 more with storage on a linked cluster. *)
Theorem Build_complete `{UnicodePrint, Unstructured} (sc : ServiceClaim) (storage : option StorageConfig) :
  match Build sc storage with
  | Ok objects =>
      slo_ok sc = true /\ (exists rest, objects = ONamespace (BuildNamespace sc) :: rest) /\
      let extra := match HasStorage sc storage with Some _ => 2%nat | None => O end in
      (Tier (Spec sc) = TierPublic -> length objects = 13 + extra)%nat /\
      (Tier (Spec sc) = TierInternal -> length objects = 12 + extra)%nat /\
      (Tier (Spec sc) = TierBatch -> length objects = 8 + extra)%nat
  | Err _ => slo_ok sc = false
  end.
Proof.
  pose proof (Build_ok sc storage) as Hok. destruct (Build sc storage) as [objects|e] eqn:E; [|done].
  apply Build_inv in E as (rule & dashboard & runbook & _ & _ & _ & ->).
  split; [done|]. split; [by eexists|]. unfold object_set, HasCanaryAnalysis, HasAutoscaling.
  repeat split; intros ->; destruct (HasStorage sc storage); reflexivity.
Qed.

(** The claims the three tiers are tried on. *)
Definition with_tier (t : string) : ServiceClaim :=
  let sp := Spec sample_claim in
  mkServiceClaim "shortlink" "team-a" ∅ ∅ 1 None []
    (mkServiceClaimSpec (Owner sp) (Image sp) (Port sp) t (SLI sp) (SLO sp) (Scale sp) (Storage sp)) empty_status.


Lemma sample_builds : is_ok (@Build no_rune _ (with_tier TierPublic) (Some sample_storage)) = true.
Proof. vm_compute. reflexivity. Qed.

Lemma Build_complete_witness :
  match @Build no_rune _ (with_tier TierPublic) (Some sample_storage) with
  | Ok objects => length objects = 15%nat
  | Err _ => False
  end.
Proof.
  pose proof (@Build_complete no_rune _ (with_tier TierPublic) (Some sample_storage)) as H.
  destruct (Build (with_tier TierPublic) (Some sample_storage)) as [objects|e].
  - destruct H as (_ & _ & H & _). exact (H eq_refl).
  - vm_compute in H. discriminate H.
Defined.

(** C19: Every object [Build] returns carries the claim's labels, and so leads back to it, and
    lies in the claim's own namespace, the Namespace itself excepted; no two objects of the set
    are the same object to the API server, so none overwrites another. *)
Theorem Build_labelled `{UnicodePrint, UnstructuredLaws} (sc : ServiceClaim) (storage : option StorageConfig)
    (objects : list Object) :
  Build sc storage = Ok objects ->
  Forall (fun obj => Labels sc ⊆ meta_Labels (object_meta obj) /\
                     (meta_Namespace (object_meta obj) = NamespaceName sc \/ kind_of obj = KNamespace)) objects /\
  NoDup (map identity objects).
Proof.
  intros HB. split; [by eapply Build_labels|].
  apply Build_inv in HB as (rule & dashboard & runbook & _ & Hd & Hb & ->). by apply object_set_NoDup.
Qed.

Lemma Build_labelled_witness :
  exists objects, @Build no_rune _ (with_tier TierPublic) (Some sample_storage) = Ok objects /\
    NoDup (map identity objects).
Proof.
  destruct (@Build no_rune _ (with_tier TierPublic) (Some sample_storage)) as [objects|e] eqn:E.
  - exists objects. split; [done|]. exact (proj2 (@Build_labelled no_rune _ _ _ _ _ E)).
  - pose proof sample_builds as Hb. rewrite E in Hb. discriminate Hb.
Defined.

Lemma in_set_split `{UnicodePrint, Unstructured} sc storage rule dashboard runbook obj :
  In obj (object_set sc storage rule dashboard runbook) ->
  match obj with
  | OService o => o = BuildService sc /\ HasAutoscaling sc = true
  | OHPA o => o = BuildHPA sc /\ HasAutoscaling sc = true
  | OPodDisruptionBudget o => o = BuildPodDisruptionBudget sc /\ HasAutoscaling sc = true
  | OServiceMonitor o => o = BuildServiceMonitor sc
  | OIngress o => o = BuildIngress sc /\ Tier (Spec sc) = TierPublic
  | ORollout o => o = BuildRollout sc storage
  | OAnalysisTemplate o => o = BuildAnalysisTemplate sc /\ HasCanaryAnalysis sc = true
  | _ => True
  end.
Proof.
  revert obj. apply List.Forall_forall. unfold object_set.
  repeat (apply Forall_app; split); repeat apply Forall_cons_2; try apply Forall_nil_2; try done.
  - destruct (HasStorage sc storage); [destruct (BuildStorageRole _ _)|]; repeat constructor.
  - destruct (HasCanaryAnalysis sc) eqn:E; repeat constructor.
  - destruct (HasAutoscaling sc) eqn:E; repeat constructor.
  - destruct (String.eqb_spec (Tier (Spec sc)) TierPublic); repeat constructor. done.
Qed.

Lemma set_members `{UnicodePrint, Unstructured} sc storage rule dashboard runbook :
  let objects := object_set sc storage rule dashboard runbook in
  In (ORollout (BuildRollout sc storage)) objects /\ In (OServiceAccount (BuildServiceAccount sc)) objects /\
  (HasCanaryAnalysis sc = true -> In (OAnalysisTemplate (BuildAnalysisTemplate sc)) objects) /\
  (HasAutoscaling sc = true -> In (OService (BuildService sc)) objects /\ In (OHPA (BuildHPA sc)) objects).
Proof.
  intros objects. unfold objects, object_set.
  repeat split; intros; rewrite ?H1; rewrite !in_app_iff; cbn [In]; tauto.
Qed.

Lemma pod_ports sc storage :
  exists c, In c (Containers (podSpec sc storage)) /\
    In (mkContainerPort PortName (Port (Spec sc)) ProtocolTCP) (container_Ports c).
Proof. unfold podSpec. destruct (HasStorage sc storage); simpl; eexists; (split; [by left|simpl; by left]). Qed.

(** C23: The objects fit together. There is one Rollout; its pods run as the ServiceAccount of the
    set and carry every selector's labels; its canary analysis names the set's AnalysisTemplate,
    unless the claim is batch; the HPA scales exactly this Rollout, and only then does the
    Rollout leave its replica count open; the Service targets a port a container names, and the
    Ingress a port of the set's Service. *)
Theorem Build_wired `{UnicodePrint, Unstructured} (sc : ServiceClaim) (storage : option StorageConfig)
    (objects : list Object) :
  Build sc storage = Ok objects ->
  exists r, In (ORollout r) objects /\
    (forall r', In (ORollout r') objects -> r' = r) /\
    (exists sa, In (OServiceAccount sa) objects /\ meta_Name (sa_Meta sa) = ServiceAccountName (template_Spec r)) /\
    rollout_Selector r ⊆ template_Labels r /\
    match Analysis (Canary r) with
    | Some a => exists t, In (OAnalysisTemplate t) objects /\ Templates a = [meta_Name (at_Meta t)]
    | None => Tier (Spec sc) = TierBatch
    end /\
    (Replicas r = None <-> exists h, In (OHPA h) objects) /\
    (forall h, In (OHPA h) objects -> ScaleTargetRef h =
      (APIVersion (rollout_TypeMeta r), Kind (rollout_TypeMeta r), meta_Name (rollout_Meta r))) /\
    (forall s, In (OService s) objects -> service_Selector s ⊆ template_Labels r /\
      Forall (fun p => exists c, In c (Containers (template_Spec r)) /\
        In (p.2) (map (fun cp => FromString (port_Name cp)) (container_Ports c))) (service_Ports s)) /\
    (forall i, In (OIngress i) objects -> Forall (fun rule => Forall (fun path =>
      exists s, In (OService s) objects /\ meta_Name (service_Meta s) = backend_Service path /\
        In (backend_Port path) (map (fun p => p.1.1.1) (service_Ports s))) rule.2) (ingress_Rules i)) /\
    (forall p, In (OPodDisruptionBudget p) objects -> pdb_Selector p ⊆ template_Labels r).
Proof.
  intros (rule & dashboard & runbook & _ & _ & _ & ->)%Build_inv.
  pose proof (in_set_split sc storage rule dashboard runbook) as Hin.
  destruct (set_members sc storage rule dashboard runbook) as (Hrollout & Hsa & Hcanary & Hauto).
  set (objects := object_set _ _ _ _ _) in *. clearbody objects. exists (BuildRollout sc storage).
  split; [done|]. split; [intros r' Hr; by apply Hin in Hr|].
  split; [exists (BuildServiceAccount sc); split; [done|]|].
  { simpl. unfold podSpec. by destruct (HasStorage sc storage). }
  split; [apply SelectorLabels_subseteq|]. split.
  { cbn [Analysis Canary BuildRollout]. destruct (HasCanaryAnalysis sc) eqn:E; [by eauto|].
    unfold HasCanaryAnalysis in E. apply negb_false_iff in E. by apply String.eqb_eq. }
  split.
  { cbn [Replicas BuildRollout]. destruct (HasAutoscaling sc) eqn:E; simpl; split; try done.
    - intros _. exists (BuildHPA sc). by apply Hauto.
    - intros (h & Hh). apply Hin in Hh as [_ Hh]. congruence. }
  split; [by intros h [-> _]%Hin|].
  split.
  { intros s [-> _]%Hin. split; [apply SelectorLabels_subseteq|]. repeat constructor. simpl.
    destruct (pod_ports sc storage) as (c & Hc & Hp). exists c. split; [done|].
    by apply (in_map (fun cp => FromString (port_Name cp))) in Hp. }
  split; [|by intros p [-> _]%Hin; apply SelectorLabels_subseteq].
  intros i [-> Hpub]%Hin. repeat constructor. exists (BuildService sc). simpl. split; [|by auto].
  apply Hauto. unfold HasAutoscaling. by rewrite Hpub.
Qed.

Lemma Build_wired_witness :
  exists objects r, @Build no_rune _ (with_tier TierPublic) (Some sample_storage) = Ok objects /\
    In (ORollout r) objects /\ rollout_Selector r ⊆ template_Labels r.
Proof.
  destruct (@Build no_rune _ (with_tier TierPublic) (Some sample_storage)) as [objects|e] eqn:E.
  - destruct (@Build_wired no_rune _ _ _ _ E) as (r & Hr & _ & _ & Hs & _). exists objects, r. auto.
  - pose proof sample_builds as Hb. rewrite E in Hb. discriminate Hb.
Defined.

(** Every kind [Build] returns is one the controller watches: typed kinds through [ManagedTypes],
    ACK kinds through [StorageTypes]. *)
Lemma Build_watched `{UnicodePrint, UnstructuredLaws} sc storage objects :
  Build sc storage = Ok objects ->
  Forall (fun obj => kind_of obj ∈ ManagedTypes \/
    (kind_of obj = KUnstructured /\ (identity obj).1.2 ∈ map GVK StorageTypes)) objects.
Proof.
  intros (rule & dashboard & runbook & _ & _ & _ & ->)%Build_inv. unfold object_set.
  assert (forall k, bool_decide (k ∈ ManagedTypes) = true -> k ∈ ManagedTypes) as Hk
    by (intros k Hk; by apply bool_decide_eq_true in Hk).
  repeat (apply Forall_app; split); repeat apply Forall_cons_2; try apply Forall_nil_2; try (left; by apply Hk).
  - destruct (HasStorage sc storage); [|constructor]. cbn [BuildStorageRole].
    repeat apply Forall_cons_2; try apply Forall_nil_2; right; split; try done;
      unfold identity, BuildStorageBucket, StorageTypes; cbn [fst snd map]; rewrite storage_object_gvk, !GVK_new;
      rewrite !elem_of_cons; auto.
  - destruct (HasCanaryAnalysis sc); repeat apply Forall_cons_2; try apply Forall_nil_2; left; by apply Hk.
  - destruct (HasAutoscaling sc); repeat apply Forall_cons_2; try apply Forall_nil_2; left; by apply Hk.
  - destruct (String.eqb _ _); repeat apply Forall_cons_2; try apply Forall_nil_2; left; by apply Hk.
Qed.

(** A claim's objects are named after the claim's name alone. Two claims of the same name, tier
    and storage in different namespaces [Build] sets that are, object for object, the same to the
    API server, with labels that say each set is its own claim's: each reconcile applies over the
    other's objects, and the deploy freeze, the alerts and the namespace are shared. *)
Theorem same_name_claims_collide `{UnicodePrint, UnstructuredLaws} (sc sc' : ServiceClaim)
    (storage : option StorageConfig) (objects objects' : list Object) :
  Name sc = Name sc' -> Tier (Spec sc) = Tier (Spec sc') -> Storage (Spec sc) = Storage (Spec sc') ->
  Namespace sc <> Namespace sc' ->
  Build sc storage = Ok objects -> Build sc' storage = Ok objects' ->
  map identity objects = map identity objects' /\
  Labels sc !! LabelClaimNamespace <> Labels sc' !! LabelClaimNamespace.
Proof.
  intros Hn Ht Hs Hns (rule & dashboard & runbook & Hr & Hd & Hb & ->)%Build_inv
    (rule' & dashboard' & runbook' & Hr' & Hd' & Hb' & ->)%Build_inv.
  split; [by apply object_set_identities|]. rewrite !Labels_claim_namespace. congruence.
Qed.

(** The sample claim, in another namespace. *)
Definition other_team : ServiceClaim :=
  let c := sample_claim in
  mkServiceClaim (Name c) "team-b" (claim_Labels c) (Annotations c) (Generation c) (DeletionTimestamp c) (Finalizers c)
    (Spec c) (Status c).

Lemma same_name_claims_collide_witness :
  Labels sample_claim !! LabelClaimNamespace <> Labels other_team !! LabelClaimNamespace.
Proof.
  assert (is_ok (@Build no_rune _ sample_claim None) = true) as H1 by (vm_compute; reflexivity).
  assert (is_ok (@Build no_rune _ other_team None) = true) as H2 by (vm_compute; reflexivity).
  destruct (@Build no_rune _ sample_claim None) as [objects|] eqn:E1; [|discriminate H1].
  destruct (@Build no_rune _ other_team None) as [objects'|] eqn:E2; [|discriminate H2].
  exact (proj2 (@same_name_claims_collide no_rune _ _ sample_claim other_team None objects objects'
    eq_refl eq_refl eq_refl ltac:(discriminate) E1 E2)).
Defined.
