(* ===== verification/Naming.v ===== *)
(** * Which claims have objects an API server takes

    An API server rejects an object whose name, namespace or labels are malformed, and a rejected
    object stops the apply of the whole set. The rules are those of Kubernetes' documentation,
    "Object Names and IDs" and "Labels and Selectors"; here they are boolean functions, and the set
    [Build] returns is judged by them. *)
From Stdlib Require Import ZArith Lia Ascii String.
From S2P Require Import Prelude GoStrings GoJson Api Kubernetes Instances Meta Storage Workload Monitoring Build.
Local Open Scope Z_scope.
Local Open Scope stdpp_scope.

(** ** The rules *)

Definition is_lower (c : ascii) : bool := (97 <=? code c) && (code c <=? 122).
Definition is_upper (c : ascii) : bool := (65 <=? code c) && (code c <=? 90).

Definition name_edge (c : ascii) : bool := is_lower c || is_digit c.
Definition name_char (c : ascii) : bool := name_edge c || (code c =? 45).
Definition value_edge (c : ascii) : bool := is_lower c || is_upper c || is_digit c.
Definition value_char (c : ascii) : bool := value_edge c || (code c =? 45) || (code c =? 46) || (code c =? 95).

(** [inner] characters that start and end with an [edge] one; NUL is neither. *)
Definition word (edge inner : ascii -> bool) (s : string) : bool :=
  let cs := list_ascii_of_string s in
  forallb inner cs && edge (List.hd Ascii.zero cs) && edge (List.last cs Ascii.zero).

(** RFC 1123 labels and subdomains, RFC 1035 labels, and the values of labels. *)
Definition dns_label (s : string) : bool := (len s <=? 63) && word name_edge name_char s.
Definition dns_subdomain (s : string) : bool :=
  (len s <=? 253) && forallb (word name_edge name_char) (split_on (byte_of 46) s).
Definition starts_with_letter (s : string) : bool := match s with String c _ => is_lower c | EmptyString => false end.
Definition dns_1035_label (s : string) : bool := dns_label s && starts_with_letter s.
Definition label_value (s : string) : bool :=
  String.eqb s EmptyString || ((len s <=? 63) && word value_edge value_char s).

(** Namespaces are named by labels, Services by labels that start with a letter, the other kinds by
    subdomains. *)
Definition name_ok (k : object_kind) (name : string) : bool :=
  match k with KNamespace => dns_label name | KService => dns_1035_label name | _ => dns_subdomain name end.

Definition meta_ok (k : object_kind) (m : ObjectMeta) : Prop :=
  name_ok k (meta_Name m) = true /\
  (meta_Namespace m = EmptyString \/ dns_label (meta_Namespace m) = true) /\
  map_Forall (fun _ v => label_value v = true) (meta_Labels m).

Definition admissible `{Unstructured} (obj : Object) : Prop := meta_ok (kind_of obj) (object_meta obj).

Definition has_dot (s : string) : bool := existsb (fun c => code c =? 46) (list_ascii_of_string s).

(** ** Lemmas *)

Lemma last_app {A} (xs ys : list A) d : ys <> [] -> List.last (xs ++ ys) d = List.last ys d.
Proof.
  intros Hys. induction xs as [|x xs IH]; [done|]. rewrite <- IH. cbn [app List.last].
  by destruct xs, ys.
Qed.

Lemma list_ascii_app s t : list_ascii_of_string (s +:+ t) = list_ascii_of_string s ++ list_ascii_of_string t.
Proof. induction s as [|c s IH]; [done|]. simpl. by rewrite IH. Qed.

(** A word after a prefix, and before a suffix. *)
Lemma word_prefix edge inner s t :
  forallb inner (list_ascii_of_string s) = true -> edge (List.hd Ascii.zero (list_ascii_of_string s)) = true ->
  edge Ascii.zero = false -> word edge inner t = true -> word edge inner (s +:+ t) = true.
Proof.
  unfold word. intros Hs Hh Hz [[Ht _]%andb_true_iff Hl]%andb_true_iff. rewrite list_ascii_app, forallb_app, Hs, Ht.
  rewrite last_app, Hl by (intros E; rewrite E in Hl; simpl in Hl; congruence).
  destruct (list_ascii_of_string s); [simpl in Hh; congruence|]. simpl in *. by rewrite Hh.
Qed.

Lemma word_suffix edge inner s t :
  word edge inner s = true -> edge Ascii.zero = false ->
  forallb inner (list_ascii_of_string t) = true -> edge (List.last (list_ascii_of_string t) Ascii.zero) = true ->
  word edge inner (s +:+ t) = true.
Proof.
  unfold word. intros [[Hs Hh]%andb_true_iff _]%andb_true_iff Hz Ht Hl. rewrite list_ascii_app, forallb_app, Hs, Ht.
  rewrite last_app, Hl by (intros E; rewrite E in Hl; simpl in Hl; congruence).
  destruct (list_ascii_of_string s); [simpl in Hh; congruence|]. simpl in *. by rewrite Hh.
Qed.

Lemma word_no_dot s : word name_edge name_char s = true -> has_dot s = false.
Proof.
  unfold word, has_dot. intros [[Hs _]%andb_true_iff _]%andb_true_iff. apply not_true_iff_false.
  intros (c & Hin & Hc)%existsb_exists. rewrite forallb_forall in Hs. specialize (Hs c Hin).
  unfold name_char, name_edge, is_lower, is_digit in Hs. lia.
Qed.

Lemma no_dot_split s : has_dot s = false -> split_on (byte_of 46) s = [s].
Proof.
  intros Hd. apply split_on_none. apply forallb_forall. intros c Hin. apply negb_true_iff.
  destruct (Ascii.eqb_spec c (byte_of 46)) as [->|]; [|done]. exfalso. unfold has_dot in Hd.
  apply not_true_iff_false in Hd. apply Hd, existsb_exists. by exists (byte_of 46).
Qed.

(** A subdomain without dots is one word. *)
Lemma subdomain_word s : has_dot s = false -> dns_subdomain s = (len s <=? 253) && word name_edge name_char s.
Proof. intros Hd. unfold dns_subdomain. rewrite no_dot_split by done. simpl. by rewrite andb_true_r. Qed.

Lemma word_subdomain s : word name_edge name_char s = true -> len s <= 253 -> dns_subdomain s = true.
Proof. intros Hw Hl. rewrite subdomain_word, Hw by by apply word_no_dot. lia. Qed.

Lemma label_word s : dns_label s = true -> word name_edge name_char s = true /\ len s <= 63.
Proof. unfold dns_label. intros [Hl Hw]%andb_true_iff. split; [done|lia]. Qed.

Lemma name_word_value s : word name_edge name_char s = true -> len s <= 63 -> label_value s = true.
Proof.
  intros Hw Hl. unfold label_value. apply orb_true_iff. right. apply andb_true_iff. split; [lia|].
  unfold word in *. apply andb_true_iff in Hw as [[Hs Hh]%andb_true_iff Hz].
  assert (forall c, name_edge c = true -> value_edge c = true) as He.
  { unfold name_edge, value_edge. intros c. destruct (is_lower c), (is_digit c), (is_upper c); done. }
  rewrite (He _ Hh), (He _ Hz), !andb_true_r. revert Hs. apply forallb_impl. intros c. unfold name_char, value_char.
  intros [Hc%He | Hc]%orb_true_iff; rewrite Hc; [done|]. by rewrite orb_true_r.
Qed.

(** The namespace's name is a label exactly when the claim's is one of at most 59 bytes. *)
Lemma NamespaceName_label sc :
  dns_subdomain (Name sc) = true ->
  dns_label (NamespaceName sc) = negb (has_dot (Name sc)) && (len (Name sc) <=? 59).
Proof.
  intros Hname. unfold dns_label, NamespaceName. rewrite len_append. change (len namespacePrefix) with 4.
  destruct (has_dot (Name sc)) eqn:Hd; cbn [negb andb].
  - apply andb_false_intro2, not_true_iff_false. intros Hw%word_no_dot. unfold has_dot in *.
    by rewrite list_ascii_app, existsb_app, Hd, orb_true_r in Hw.
  - rewrite subdomain_word in Hname by done. apply andb_true_iff in Hname as [_ Hw].
    rewrite word_prefix by done. rewrite andb_true_r. apply eq_true_iff_eq. rewrite !Z.leb_le. lia.
Qed.

(** *** The claim's labels *)

Definition claim_names_ok (sc : ServiceClaim) : bool :=
  negb (has_dot (Name sc)) && (len (Name sc) <=? 59) && label_value (Owner (Spec sc)) &&
  (negb (HasAutoscaling sc) || starts_with_letter (Name sc)).

Section naming.
Context `{UnicodePrint, UnstructuredLaws}.
Variable sc : ServiceClaim.
Hypotheses (Hname : dns_subdomain (Name sc) = true) (Hns : dns_label (Namespace sc) = true).

Lemma Labels_ok :
  label_value (Name sc) = true -> label_value (Owner (Spec sc)) = true ->
  map_Forall (fun _ v => label_value v = true) (Labels sc).
Proof.
  intros Hn Ho. unfold Labels, map_of. cbn [foldl fst snd].
  pose proof (label_word _ Hns) as [Hw Hl]. pose proof (name_word_value _ Hw Hl).
  repeat (apply map_Forall_insert_2; [assumption || reflexivity|]). apply map_Forall_empty.
Qed.

Lemma Labels_owner : Labels sc !! LabelOwner = Some (Owner (Spec sc)).
Proof. reflexivity. Qed.

Lemma expected_meta_ok dashboard runbook obj :
  claim_names_ok sc = true ->
  BuildDashboard sc = Ok dashboard -> BuildRunbook sc = Ok runbook ->
  object_meta obj = expected_meta sc obj ->
  (forall cm, obj = OConfigMap cm -> cm = dashboard \/ cm = runbook) ->
  (forall o, obj = OService o -> HasAutoscaling sc = true) ->
  admissible obj.
Proof.
  unfold claim_names_ok. intros Hok Hd%BuildDashboard_meta Hb%BuildRunbook_meta E Hcm Hservice.
  apply andb_true_iff in Hok as [[[Hdot%negb_true_iff Hlen%Z.leb_le]%andb_true_iff Howner]%andb_true_iff Hletter].
  pose proof Hname as Hw. rewrite subdomain_word in Hw by done. apply andb_true_iff in Hw as [_ Hw].
  assert (label_value (Name sc) = true) as Hn by (apply name_word_value; [done|lia]).
  pose proof (Labels_ok Hn Howner) as Hlabels.
  assert (dns_label (NamespaceName sc) = true) as Hnamespace by (rewrite NamespaceName_label, Hdot by done; by apply Z.leb_le).
  assert (dns_subdomain (Name sc) = true) as Hsub by done.
  assert (forall suffix, forallb name_char (list_ascii_of_string suffix) = true ->
    name_edge (List.last (list_ascii_of_string suffix) Ascii.zero) = true -> len suffix <= 10 ->
    dns_subdomain (Name sc +:+ suffix) = true) as Hsuffix.
  { intros suffix Hs Hl Hle. apply word_subdomain; [by apply word_suffix|]. rewrite len_append. lia. }
  assert (forall k name, name_ok k name = true -> meta_ok k (mkObjectMeta name (NamespaceName sc) (Labels sc))) as Hmeta.
  { intros k name Hk. split; [done|]. split; [by right|done]. }
  unfold admissible. destruct obj; try (rewrite E; apply Hmeta; done).
  - rewrite E. split; [done|]. split; [by left|done].
  - rewrite E. apply Hmeta. by apply Hsuffix.
  - destruct (Hcm o eq_refl) as [-> | ->]; cbn [kind_of object_meta]; [rewrite Hd|rewrite Hb; apply Hmeta; by apply Hsuffix].
    split; [by apply Hsuffix|]. split; [by right|]. cbn [meta_Labels]. by apply map_Forall_insert_2.
  - rewrite E. apply Hmeta. rewrite (Hservice o eq_refl) in Hletter. cbn [name_ok kind_of].
    unfold dns_1035_label, dns_label. rewrite Hw. apply andb_true_iff. split; [lia|done].
Qed.
End naming.

(** C20: The typing of the set. For a claim the API server can store, whose name is a subdomain and
    whose namespace is a label, every object [Build] returns is one the API server takes, names,
    namespaces and labels all well-formed, exactly when the claim's name is a label of at most 59
    bytes that starts with a letter where there is a Service to name, and its owner is the value of
    a label. The CRD asks for none of this of a claim without storage: one whose owner has a space,
    or whose name has a dot, is admitted, and its objects are then rejected. *)
Theorem Build_admissible `{UnicodePrint, UnstructuredLaws} (sc : ServiceClaim) (storage : option StorageConfig)
    (objects : list Object)
    (Hname : dns_subdomain (Name sc) = true) (Hns : dns_label (Namespace sc) = true)
    (HB : Build sc storage = Ok objects) :
  Forall admissible objects <->
  has_dot (Name sc) = false /\ len (Name sc) <= 59 /\ label_value (Owner (Spec sc)) = true /\
  (Tier (Spec sc) = TierPublic \/ Tier (Spec sc) = TierInternal -> starts_with_letter (Name sc) = true).
Proof.
  assert (HasAutoscaling sc = true <-> Tier (Spec sc) = TierPublic \/ Tier (Spec sc) = TierInternal) as Htier.
  { unfold HasAutoscaling. by rewrite orb_true_iff, !String.eqb_eq. }
  apply Build_inv in HB as (rule & dashboard & runbook & Hr & Hd & Hb & ->). split.
  - intros Hall. rewrite List.Forall_forall in Hall.
    destruct (Hall (ONamespace (BuildNamespace sc)) ltac:(left; reflexivity)) as (Hn & _ & Hl).
    cbn [name_ok kind_of object_meta BuildNamespace namespace_Meta meta_Name meta_Labels] in Hn, Hl.
    rewrite NamespaceName_label in Hn by done. apply andb_true_iff in Hn as [Hdot%negb_true_iff Hlen].
    split; [done|]. split; [lia|]. split; [exact (Hl LabelOwner _ (Labels_owner sc))|]. rewrite <- Htier. intros Hs.
    destruct (set_members sc storage rule dashboard runbook) as (_ & _ & _ & Hm).
    destruct (Hall _ (proj1 (Hm Hs))) as (Hservice & _). by apply andb_true_iff in Hservice as [_ ?].
  - intros (Hdot & Hlen & Howner & Hletter). pose proof (object_set_meta sc storage rule dashboard runbook Hr Hd Hb) as Hm.
    rewrite List.Forall_forall in *. intros obj Hin. eapply expected_meta_ok; try done.
    + unfold claim_names_ok. rewrite Hdot, Howner. rewrite <- Htier in Hletter.
      destruct (HasAutoscaling sc); [rewrite Hletter by done|]; simpl; rewrite ?andb_true_r; lia.
    + by apply Hm.
    + intros cm ->. by eapply object_set_configmaps.
    + intros o ->. exact (proj2 (in_set_split _ _ _ _ _ _ Hin)).
Qed.

Definition with_owner (owner : string) : ServiceClaim :=
  let sp := Spec sample_claim in
  mkServiceClaim "shortlink" "team-a" ∅ ∅ 1 None []
    (mkServiceClaimSpec owner (Image sp) (Port sp) (Tier sp) (SLI sp) (SLO sp) (Scale sp) false) empty_status.

Lemma Build_admissible_witness :
  crd_valid (with_owner "Team A") = true /\
  (exists objects, @Build no_rune _ (with_owner "team-a") None = Ok objects /\ Forall admissible objects) /\
  exists objects, @Build no_rune _ (with_owner "Team A") None = Ok objects /\ ~ Forall admissible objects.
Proof.
  split; [vm_compute; reflexivity|]. split.
  - assert (is_ok (@Build no_rune _ (with_owner "team-a") None) = true) as Hok by (vm_compute; reflexivity).
    destruct (@Build no_rune _ (with_owner "team-a") None) as [objects|] eqn:E; [|discriminate Hok].
    exists objects. split; [reflexivity|].
    apply (@Build_admissible no_rune _ _ (with_owner "team-a") None objects eq_refl eq_refl E).
    repeat split; vm_compute; congruence.
  - assert (is_ok (@Build no_rune _ (with_owner "Team A") None) = true) as Hok by (vm_compute; reflexivity).
    destruct (@Build no_rune _ (with_owner "Team A") None) as [objects|] eqn:E; [|discriminate Hok].
    exists objects. split; [reflexivity|]. intros Hall.
    apply (@Build_admissible no_rune _ _ (with_owner "Team A") None objects eq_refl eq_refl E) in Hall.
    destruct Hall as (_ & _ & Ho & _). vm_compute in Ho. discriminate Ho.
Defined.
