(* ===== verification/Documents.v ===== *)
(** * The documents inside the objects read back

    Three of the objects a claim turns into carry a document as text: the dashboard's ConfigMap its
    Grafana model, the ACK Role its trust and access policies. Grafana and IAM parse them with
    their own readers; here the text is read by [JsonReader], whatever the claim's strings hold,
    quotes, backslashes and newlines included, as long as they are valid UTF-8, which is what an
    API server stores. What it means is then read off by the keys Grafana and IAM document
    ([read_dashboard], [at_path]), which are written a second time here: a key the builders
    misspell is not found. *)
From Stdlib Require Import ZArith QArith Lia Ascii String SpecFloat.
From S2P Require Import Prelude GoFloat GoStrings Utf8 GoStrconv GoTime GoRat GoJson JsonReader GoSha256 Api.
From S2P Require Import Budget Rules Kubernetes Instances Meta Storage Workload Monitoring Build.
Local Open Scope Z_scope.
Local Open Scope stdpp_scope.

(** ** What the formatting functions print is valid text *)

Lemma dec_ascii n : ascii_text (dec n) = true.
Proof. apply digits_ascii, dec_all_digits. Qed.

Lemma fixed_text_ascii n places : ascii_text (fixed_text n places) = true.
Proof.
  destruct places; [apply dec_ascii|]. cbn [fixed_text]. rewrite !ascii_append, dec_ascii.
  by rewrite (digits_ascii (digits_fixed _ _)) by apply digits_fixed_all_digits.
Qed.

Lemma plain_decimal_ascii n u : ascii_text (plain_decimal n u) = true.
Proof. unfold plain_decimal. case_match; [apply dec_ascii|apply fixed_text_ascii]. Qed.

Lemma sign_text_ascii s : ascii_text (sign_text s) = true.
Proof. by destruct s. Qed.

Lemma Itoa_ascii n : ascii_text (Itoa n) = true.
Proof. unfold Itoa. case_match; rewrite ?ascii_append, dec_ascii; done. Qed.

Lemma scientific_ascii n u : ascii_text (scientific n u) = true.
Proof.
  unfold scientific. pose proof (dec_ascii n) as Hd. destruct (dec n) as [|c rest]; [done|].
  assert (forall e, ascii_text (exponent_text e) = true) as He.
  { intros e. unfold exponent_text. rewrite !ascii_append, dec_ascii. by do 2 case_match. }
  assert (ascii_text (String c EmptyString) = true /\ ascii_text rest = true) as [Hc Hr].
  { apply andb_true_iff. by rewrite <- ascii_append. }
  destruct rest as [|c' rest]; rewrite !ascii_append, He; [by rewrite Hd|]. by rewrite Hc, Hr.
Qed.

Lemma FormatG_ascii x : ascii_text (FormatG x) = true.
Proof.
  destruct x as [s|s| |s m e]; [by destruct s..|done|]. cbn [FormatG]. destruct (shortest m e) as [n u].
  rewrite ascii_append, sign_text_ascii. case_match; [apply scientific_ascii|apply plain_decimal_ascii].
Qed.

Lemma FloatString_ascii q places : ascii_text (FloatString q places) = true.
Proof. unfold FloatString. rewrite ascii_append, sign_text_ascii. apply fixed_text_ascii. Qed.

Lemma Decimal_ascii q : ascii_text (Decimal q) = true.
Proof. unfold Decimal. destruct (FloatPrec q). apply FloatString_ascii. Qed.

Lemma EncodeToString_ascii bs : ascii_text (EncodeToString bs) = true.
Proof.
  unfold EncodeToString. induction bs as [|b bs IH]; [done|]. cbn [map]. rewrite Sprintf_cons, ascii_append, IH.
  by rewrite hex_fixed_ascii.
Qed.
#[local] Hint Resolve Itoa_ascii FormatG_ascii Decimal_ascii EncodeToString_ascii take_bytes_ascii : utf8.

(** [injection] would also compute the texts. *)
Lemma Ok_inj {A} (x y : A) : Ok x = Ok y -> x = y.
Proof. congruence. Qed.

(** Text put together from valid pieces. *)
Ltac utf8 :=
  repeat match goal with
    | |- valid_utf8 (Sprintf _) = true => apply valid_utf8_Sprintf
    | |- valid_utf8 (_ +:+ _) = true => apply valid_utf8_append
    | |- Forall _ _ => constructor
  end; try assumption; try reflexivity; auto with utf8.

Ltac each := repeat first [apply List.Forall_nil | apply List.Forall_cons].

(** ** The policies of the Role *)
Section policies.
Variables (sc : ServiceClaim) (storage : StorageConfig).
Hypotheses (Hname : valid_utf8 (Name sc) = true)
  (Haccount : valid_utf8 (AccountID storage) = true) (Hissuer : valid_utf8 (Issuer storage) = true).

Lemma NamespaceName_valid : valid_utf8 (NamespaceName sc) = true.
Proof. unfold NamespaceName. by utf8. Qed.

Lemma insert_sorted_valid k v (fields : list (string * json)) :
  valid_utf8 k = true -> json_valid v = true ->
  forallb (fun kv => valid_utf8 kv.1 && json_valid kv.2) fields = true ->
  forallb (fun kv => valid_utf8 kv.1 && json_valid kv.2) (insert_sorted k v fields) = true.
Proof.
  intros Hk Hv. induction fields as [|[k' v'] rest IH]; simpl; [by rewrite Hk, Hv|].
  intros Hr. destruct (String.compare k k'); simpl; rewrite ?Hk, ?Hv; simpl; [by apply andb_true_iff in Hr as [_ ->]|done|].
  apply andb_true_iff in Hr as [-> Hr]. by apply IH.
Qed.

Lemma JMap_valid kvs :
  Forall (fun kv => valid_utf8 kv.1 = true /\ json_valid kv.2 = true) kvs -> json_valid (JMap kvs) = true.
Proof.
  intros Hkvs. unfold JMap, sorted_entries. cbn [json_valid].
  enough (forall acc, forallb (fun kv => valid_utf8 kv.1 && json_valid kv.2) acc = true ->
    forallb (fun kv => valid_utf8 kv.1 && json_valid kv.2)
      (foldl (fun acc kv => insert_sorted kv.1 kv.2 acc) acc kvs) = true) as He by by apply He.
  induction Hkvs as [|[k v] kvs [Hk Hv] _ IH]; intros acc Hacc; [done|]. apply IH. by apply insert_sorted_valid.
Qed.

Lemma trust_policy_valid : json_valid (policy_json (trust_policy sc storage)) = true.
Proof.
  pose proof NamespaceName_valid as Hns.
  assert (valid_utf8 (Sprintf [iamARNPrefix; AccountID storage; ":oidc-provider/"; Issuer storage]) = true) as Hp by utf8.
  assert (valid_utf8 (serviceAccountSubject sc) = true) as Hs by (unfold serviceAccountSubject; utf8).
  assert (json_valid (JMap [("StringEquals", JMap [(Issuer storage +:+ ":aud", JString awsTokenAudience);
    (Issuer storage +:+ ":sub", JString (serviceAccountSubject sc))])]) = true) as Hc.
  { apply JMap_valid. repeat constructor. apply JMap_valid. repeat constructor; simpl; utf8. }
  unfold policy_json, trust_policy, statement_json, string_map.
  cbn -[JMap valid_utf8 Sprintf serviceAccountSubject String.append]. rewrite Hc, andb_true_r.
  assert (json_valid (JMap [("Federated", JString (Sprintf [iamARNPrefix; AccountID storage; ":oidc-provider/";
    Issuer storage]))]) = true) as -> by (apply JMap_valid; by repeat constructor).
  reflexivity.
Qed.

Lemma StorageBucketName_valid : valid_utf8 (StorageBucketName sc storage) = true.
Proof. unfold StorageBucketName. by utf8. Qed.

Lemma access_policy_valid : json_valid (policy_json (access_policy sc storage)) = true.
Proof.
  pose proof StorageBucketName_valid as Hb.
  assert (valid_utf8 ("arn:aws:s3:::" +:+ StorageBucketName sc storage) = true) as Ha by by utf8.
  assert (valid_utf8 (("arn:aws:s3:::" +:+ StorageBucketName sc storage) +:+ "/*") = true) as Ho by by utf8.
  unfold access_policy, policy_json, statement_json. cbn -[valid_utf8 StorageBucketName String.append].
  by rewrite Ha, Ho.
Qed.
End policies.

(** ** The dashboard's model *)
Section dashboard.
Context `{UnicodePrint}.

Lemma goodStatusPattern_ascii statuses good : goodStatusPattern statuses = Ok good -> valid_utf8 good = true.
Proof.
  unfold goodStatusPattern. destruct statuses as [|n ns]; [done|]. intros <-%Ok_inj. apply valid_utf8_Join; [|done].
  apply Forall_forall. intros x (k & -> & _)%list_elem_of_fmap. auto with utf8.
Qed.

Lemma ErrorRatioExpr_valid sli namespace window text :
  valid_utf8 window = true -> ErrorRatioExpr sli namespace window = Ok text -> valid_utf8 text = true.
Proof.
  intros Hw. unfold ErrorRatioExpr. case_match.
  - destruct (goodStatusPattern _) as [good|e] eqn:Eg; [|done]. intros <-%Ok_inj.
    apply goodStatusPattern_ascii in Eg. by utf8.
  - case_match; [|done]. destruct (LatencyBucket _) as [le|e]; [|done]. intros <-%Ok_inj. by utf8.
Qed.

Lemma RecordName_valid sli namespace window text record :
  ErrorRatioExpr sli namespace window = Ok text -> ascii_text record = true ->
  valid_utf8 (RecordName (sli_Type sli) record) = true.
Proof.
  unfold ErrorRatioExpr. intros E Hr. destruct (String.eqb_spec (sli_Type sli) SLIHTTPAvailability) as [->|_].
  - unfold RecordName. by utf8.
  - destruct (String.eqb_spec (sli_Type sli) SLIHTTPLatency) as [->|_]; [|done]. unfold RecordName. by utf8.
Qed.

Lemma target_is_valid refID expr legend :
  valid_utf8 refID = true -> valid_utf8 expr = true -> valid_utf8 legend = true ->
  json_valid (target_json (target refID expr legend)) = true.
Proof. intros Hr He Hl. cbn -[valid_utf8]. by rewrite Hr, He, Hl. Qed.

Lemma panel_is_valid id kind title unit pos description targets :
  valid_utf8 kind = true -> valid_utf8 title = true -> valid_utf8 unit = true -> valid_utf8 description = true ->
  Forall (fun t => json_valid (target_json t) = true) targets ->
  json_valid (panel_json (panel id kind title unit pos description targets)) = true.
Proof.
  intros Hk Ht Hu Hd Hts. cbn -[valid_utf8]. rewrite Hk, Ht, Hu, Hd.
  assert (forallb json_valid (map target_json targets) = true) as ->; [|reflexivity].
  apply forallb_forall. intros j (t & <- & Hin)%in_map_iff. apply (proj1 (Forall_forall _ _) Hts). by apply list_elem_of_In.
Qed.

Lemma DashboardUID_valid sc : valid_utf8 (DashboardUID sc) = true.
Proof. unfold DashboardUID. utf8. Qed.

Lemma dashboard_is_valid d :
  Forall (fun s => valid_utf8 s = true) ([UID d; Title d; (Time d).1; (Time d).2; Refresh d] ++ Tags d) ->
  Forall (fun p => json_valid (panel_json p) = true) (Panels d) -> json_valid (dashboard_json d) = true.
Proof.
  intros [Hs Htags]%Forall_app Hps. repeat (apply Forall_cons in Hs as [? Hs]).
  assert (forallb json_valid (map JString (Tags d)) = true) as Ht.
  { apply forallb_forall. intros j (t & <- & Hin)%in_map_iff. apply (proj1 (Forall_forall _ _) Htags). by apply list_elem_of_In. }
  assert (forallb json_valid (map panel_json (Panels d)) = true) as Hp.
  { apply forallb_forall. intros j (t & <- & Hin)%in_map_iff. apply (proj1 (Forall_forall _ _) Hps). by apply list_elem_of_In. }
  unfold dashboard_json, strings. cbn -[valid_utf8 panel_json]. rewrite Ht, Hp.
  repeat match goal with H : valid_utf8 ?x = true |- context [valid_utf8 ?x] => rewrite H end. reflexivity.
Qed.

Lemma dashboardModel_valid sc model :
  valid_utf8 (Name sc) = true -> valid_utf8 (Tier (Spec sc)) = true ->
  valid_utf8 (Objective (SLO (Spec sc))) = true -> valid_utf8 (Window (SLO (Spec sc))) = true ->
  dashboardModel sc = Ok model -> json_valid (dashboard_json model) = true.
Proof.
  intros Hname Htier Hobj Hwin. unfold dashboardModel.
  destruct (ErrorBudget _) as [budget|e]; [|done]. cbn [mbind result_bind].
  destruct (ErrorRatioExpr _ _ _) as [expr|e] eqn:Ee; [|done]. cbn [mbind result_bind].
  pose proof (fun w => RecordName_valid _ _ _ _ w Ee) as Hrec. apply ErrorRatioExpr_valid in Ee; [|done].
  set (latency := if String.eqb _ _ then _ else _). 
  assert (forall ts, latency = Ok ts -> Forall (fun t => json_valid (target_json t) = true) ts) as Hlat.
  { subst latency. intros ts. repeat case_match; try done; intros <-%Ok_inj; each;
      try done; apply target_is_valid; utf8. }
  destruct latency as [ts|e]; [|done]. specialize (Hlat ts eq_refl). cbn [mbind result_bind]. intros <-%Ok_inj.
  apply dashboard_is_valid; each; try done.
  - apply DashboardUID_valid.
  - apply panel_is_valid; try done. each. apply target_is_valid; utf8.
  - apply panel_is_valid; try done; [by utf8|].
    each; apply target_is_valid; utf8; by apply Hrec.
  - by apply panel_is_valid.
  - apply panel_is_valid; try done; [by utf8|]. each.
    apply target_is_valid; by utf8.
Qed.
End dashboard.

(** ** The properties *)

(** [j] at a path of keys. *)
Fixpoint at_path (path : list string) (j : json) : option json :=
  match path with [] => Some j | k :: rest => v ← member k j; at_path rest v end.

(** The document the text at a path of an object holds. *)
Definition document_at (path : list string) (u : json) : option json :=
  match at_path path u with Some (JString text) => Unmarshal text | _ => None end.

(** *** Reading a dashboard, by the keys Grafana's JSON model documents *)
Definition text_at (k : string) (j : json) : option string := match member k j with Some (JString s) => Some s | _ => None end.
Definition number_at (k : string) (j : json) : option Z := match member k j with Some (JInt n) => Some n | _ => None end.
Definition list_at {A} (read : json -> option A) (k : string) (j : json) : option (list A) :=
  match member k j with Some (JArray js) => mapM read js | _ => None end.
Definition read_text (j : json) : option string := match j with JString s => Some s | _ => None end.

Definition read_datasource (j : json) : option grafanaDatasource :=
  type ← text_at "type" j; uid ← text_at "uid" j; Some (mkDatasource type uid).
Definition read_target (j : json) : option grafanaTarget :=
  refId ← text_at "refId" j; expr ← text_at "expr" j; legend ← text_at "legendFormat" j;
  datasource ← member "datasource" j ≫= read_datasource; Some (mkTarget refId expr legend datasource).
Definition read_position (j : json) : option grafanaGridPos :=
  h ← number_at "h" j; w ← number_at "w" j; x ← number_at "x" j; y ← number_at "y" j; Some (mkGridPos h w x y).
Definition read_panel (j : json) : option grafanaPanel :=
  id ← number_at "id" j; type ← text_at "type" j; title ← text_at "title" j; description ← text_at "description" j;
  position ← member "gridPos" j ≫= read_position; datasource ← member "datasource" j ≫= read_datasource;
  unit ← at_path ["fieldConfig"; "defaults"; "unit"] j ≫= read_text;
  targets ← list_at read_target "targets" j;
  Some (mkPanel id type title description position datasource unit targets).
Definition read_dashboard (j : json) : option grafanaDashboard :=
  uid ← text_at "uid" j; title ← text_at "title" j; tags ← list_at read_text "tags" j;
  from ← at_path ["time"; "from"] j ≫= read_text; to ← at_path ["time"; "to"] j ≫= read_text;
  refresh ← text_at "refresh" j; panels ← list_at read_panel "panels" j;
  Some (mkDashboard uid title tags (from, to) refresh panels).

Lemma mapM_written {A} (read : json -> option A) (write : A -> json) xs :
  (forall x, read (write x) = Some x) -> mapM read (map write xs) = Some xs.
Proof. intros Hread. induction xs as [|x xs IH]; [done|]. cbn. rewrite Hread. cbn. by rewrite IH. Qed.

Lemma read_target_written t : read_target (target_json t) = Some t.
Proof. by destruct t as [? ? ? []]. Qed.

Lemma read_panel_written p : read_panel (panel_json p) = Some p.
Proof.
  destruct p as [? ? ? ? [] [] ? targets]. unfold read_panel, list_at. cbn.
  by rewrite (mapM_written read_target target_json targets read_target_written).
Qed.

Lemma read_dashboard_written d : read_dashboard (dashboard_json d) = Some d.
Proof.
  destruct d as [? ? tags [] ? panels]. unfold read_dashboard, list_at. cbn.
  rewrite (mapM_written read_text JString tags (fun _ => eq_refl)). cbn.
  by rewrite (mapM_written read_panel panel_json panels read_panel_written).
Qed.

(** What a panel shows: its id, kind, title and unit, its place (x, y, w, h), and each query with
    the letter it is referred to by and its legend. *)
Definition shown (p : grafanaPanel) :=
  (panel_ID p, panel_Type p, panel_Title p, panel_Unit p,
   (grid_X (GridPos p), grid_Y (GridPos p), grid_W (GridPos p), grid_H (GridPos p)),
   map (fun t => (RefID t, target_Expr t, LegendFormat t)) (Targets p)).

(** A panel and its queries read the Prometheus datasource kube-prometheus-stack provides. *)
Definition reads_prometheus (p : grafanaPanel) : Prop :=
  Forall (fun d => d = mkDatasource "prometheus" "prometheus") (panel_Datasource p :: map target_Datasource (Targets p)).

(** The queries of the four panels. *)
Definition expected_panels `{UnicodePrint} (sc : ServiceClaim) (budget ratio : string) :=
  let ns := Quote ("svc-" +:+ Name sc) in
  let recorded window := Sprintf [RecordName (sli_Type (SLI (Spec sc))) window; "{service="; Quote (Name sc); "}"] in
  let quantile q := Sprintf ["histogram_quantile("; q; ", sum by (le) (rate(http_request_duration_seconds_bucket{namespace="; ns;
                             "}[$__rate_interval])))"] in
  [(1, "timeseries", "Request rate", "reqps", (0, 0, 12, 8),
    [("A", Sprintf ["sum by (code) (rate(http_requests_total{namespace="; ns; "}[$__rate_interval]))"], "{{code}}")]);
   (2, "timeseries", "Error ratio vs objective", "percentunit", (12, 0, 12, 8),
    [("A", recorded "5m", "error ratio, 5m"); ("B", recorded "1h", "error ratio, 1h");
     ("C", Sprintf ["vector("; budget; ")"], "error budget")]);
   (3, "timeseries", "Latency p50 / p95 / p99", "s", (0, 8, 12, 8),
    [("A", quantile "0.5", "p50"); ("B", quantile "0.95", "p95"); ("C", quantile "0.99", "p99")] ++
    (if String.eqb (sli_Type (SLI (Spec sc))) "http-latency" then
       match ParseDuration (LatencyThreshold (SLI (Spec sc))) with
       | Ok threshold => [("D", Sprintf ["vector("; FormatG (Seconds threshold); ")"], "SLO threshold")]
       | Err _ => []
       end
     else []));
   (4, "stat", "Error budget remaining", "percentunit", (12, 8, 12, 8),
    [("A", Sprintf ["1 - (("; ratio; ") / "; budget; ")"], "remaining")])].

Lemma dashboardModel_shows `{UnicodePrint} sc d : dashboardModel sc = Ok d ->
  exists budget ratio, ErrorBudget (Objective (SLO (Spec sc))) = Ok budget /\
    ErrorRatioExpr (SLI (Spec sc)) (NamespaceName sc) (Window (SLO (Spec sc))) = Ok ratio /\
    map shown (Panels d) = expected_panels sc (Decimal budget) ratio /\ Forall reads_prometheus (Panels d) /\
    UID d = DashboardUID sc /\ Title d = Name sc /\ Tags d = ["paved"; Tier (Spec sc)] /\ Time d = ("now-6h", "now") /\ Refresh d = "30s".
Proof.
  unfold dashboardModel. intros (budget & Hbudget & (ratio & Hratio & (latency & Hl & <-%Ok_inj)%bind_Ok)%bind_Ok)%bind_Ok.
  exists budget, ratio. split; [exact Hbudget|]. split; [exact Hratio|].
  unfold expected_panels. change SLIHTTPLatency with "http-latency" in Hl.
  destruct (String.eqb (sli_Type (SLI (Spec sc))) "http-latency"); [destruct (ParseDuration _) as [threshold|e]; [|done]|];
    apply Ok_inj in Hl as <-; (split; [|split; [by repeat constructor|done]]);
    unfold NamespaceName, Sprintf; cbn -[Quote RecordName Decimal FormatG]; by rewrite <- ?append_assoc.
Qed.

(** The service and name of the series the error-ratio panel reads are those of a recording rule. *)
Lemma recorded_by_rule `{UnicodePrint} sc namespace window : sli_ok (SLI (Spec sc)) = true -> In window Windows ->
  exists rules rule, RecordingRules sc namespace = Ok rules /\ In rule rules /\
    Record_ rule = RecordName (sli_Type (SLI (Spec sc))) window /\ rule_Labels rule !! "service" = Some (Name sc).
Proof.
  intros Hok Hw. pose proof (RecordingRules_fails sc namespace) as Hf. rewrite Hok in Hf.
  destruct (RecordingRules sc namespace) as [rules|e] eqn:E; [|done]. exists rules.
  pose proof (proj1 (RecordingRules_Ok_iff sc namespace rules) E) as HF.
  apply list_elem_of_In, list_elem_of_lookup_1 in Hw as (i & Hi).
  destruct (Forall2_lookup_l _ _ _ _ _ HF Hi) as (rule & Hrule & expr & _ & ->). eexists. split; [done|].
  split; [eapply list_elem_of_In, list_elem_of_lookup_2, Hrule|].
  split; [done|]. by cbn; simplify_map_eq.
Qed.

(** C37: The dashboard ConfigMap is one Grafana's sidecar loads, and what Grafana finds in it, under the keys
    of its JSON model and whatever the claim's strings, is the claim's dashboard: under its own UID,
    which fits 40 characters, four panels that do not overlap, all on the Prometheus datasource. The
    rate and the latencies are of the claim's own namespace; the error ratios are series the claim's
    recording rules record, with the claim's service label; the budget line is exactly 1 minus the
    objective, and the share left is one minus the window's error ratio over that budget. *)
Theorem dashboard_reads_back `{UnicodePrint} (sc : ServiceClaim) (cm : ConfigMap)
  (Hname : valid_utf8 (Name sc) = true) (Htier : valid_utf8 (Tier (Spec sc)) = true)
  (Hobjective : valid_utf8 (Objective (SLO (Spec sc))) = true) (Hwindow : valid_utf8 (Window (SLO (Spec sc))) = true)
  (Hcm : BuildDashboard sc = Ok cm) :
  exists text doc d budget ratio,
    Data cm = {[ Name sc +:+ ".json" := text ]} /\ meta_Labels (cm_Meta cm) !! "grafana_dashboard" = Some "1" /\
    Unmarshal text = Some doc /\ read_dashboard doc = Some d /\
    UID d = "paved-" +:+ EncodeToString (take 8 (Sum256 (Namespace sc +:+ "/" +:+ Name sc))) /\ len (UID d) = 22 /\
    Title d = Name sc /\ Tags d = ["paved"; Tier (Spec sc)] /\ Time d = ("now-6h", "now") /\ Refresh d = "30s" /\
    Forall reads_prometheus (Panels d) /\ map shown (Panels d) = expected_panels sc budget ratio /\
    (exists p b, SetString (Objective (SLO (Spec sc))) = Some p /\ SetString budget = Some b /\ (b == 1 - p / 100)%Q) /\
    ErrorRatioExpr (SLI (Spec sc)) ("svc-" +:+ Name sc) (Window (SLO (Spec sc))) = Ok ratio /\
    Forall (fun window => exists rules rule, RecordingRules sc ("svc-" +:+ Name sc) = Ok rules /\ In rule rules /\
      Record_ rule = RecordName (sli_Type (SLI (Spec sc))) window /\ rule_Labels rule !! "service" = Some (Name sc)) ["5m"; "1h"].
Proof.
  unfold BuildDashboard in Hcm. destruct (dashboardModel sc) as [d|e] eqn:Em; [|done]. apply Ok_inj in Hcm as <-.
  destruct (dashboardModel_shows sc d Em) as (budget & ratio & Hb & Hr & Hshown & Hds & Huid & Htitle & Htags & Htime & Hrefresh).
  exists (MarshalIndent (dashboard_json d) "  "), (dashboard_json d), d, (Decimal budget), ratio.
  split; [done|]. split; [by cbn; rewrite lookup_insert_eq|].
  split; [apply Unmarshal_MarshalIndent; [by apply (dashboardModel_valid sc)|done]|]. split; [apply read_dashboard_written|].
  rewrite Huid. split; [unfold DashboardUID, Sprintf; cbn -[Sum256]; by rewrite append_nil_r|].
  split; [unfold DashboardUID; by rewrite len_append, EncodeToString_length, length_take, Sum256_length|].
  do 6 (split; [done|]). split; [|split; [exact Hr|]].
  - destruct (ErrorBudget_inv _ _ Hb) as (p & _ & Hp & _ & _ & E & _). destruct (ErrorBudget_Ok_bounds _ _ Hb) as (Hpos & _ & Ht).
    destruct (Decimal_exact budget Ht (Qlt_le_weak _ _ Hpos)) as (b & Hs & Eb). exists p, b. split; [exact Hp|]. split; [exact Hs|].
    by rewrite Eb, E.
  - assert (sli_ok (SLI (Spec sc)) = true) as Hok by (rewrite <- (ErrorRatioExpr_ok _ (NamespaceName sc) (Window (SLO (Spec sc)))); by rewrite Hr).
    repeat constructor; apply recorded_by_rule; try done; cbn; tauto.
Qed.

(** A name with a quote, a backslash and a newline. *)
Definition awkward_claim : ServiceClaim :=
  mkServiceClaim ("a" +:+ dquote +:+ backslash +:+ newline +:+ "<b>") "team-a" ∅ ∅ 1 None []
    (mkServiceClaimSpec "team-a" "img:1" 8080 TierPublic
       (mkSLISpec SLIHTTPLatency [] "300ms") (mkSLOSpec "99.5" "28d") (mkScaleSpec 1 5) true)
    empty_status.

Lemma dashboard_reads_back_witness :
  match @BuildDashboard no_rune awkward_claim with
  | Ok cm => exists text doc d, Data cm = {[ Name awkward_claim +:+ ".json" := text ]} /\ Unmarshal text = Some doc /\
               read_dashboard doc = Some d /\ map panel_Title (Panels d) =
                 ["Request rate"; "Error ratio vs objective"; "Latency p50 / p95 / p99"; "Error budget remaining"]
  | Err _ => False
  end.
Proof.
  assert (is_ok (@BuildDashboard no_rune awkward_claim) = true) as H by (vm_compute; reflexivity).
  destruct (@BuildDashboard no_rune awkward_claim) as [cm|e] eqn:E; [|discriminate H].
  destruct (@dashboard_reads_back no_rune awkward_claim cm) as (text & doc & d & budget & ratio & Hdata & _ & Hdoc & Hd &
    _ & _ & _ & _ & _ & _ & _ & Hshown & _); [vm_compute; reflexivity..|exact E|].
  exists text, doc, d. split; [exact Hdata|]. split; [exact Hdoc|]. split; [exact Hd|].
  apply (f_equal (map (fun s => s.1.1.1.2))) in Hshown. rewrite map_map in Hshown. exact Hshown.
Defined.

Lemma spec_at k rest v fields :
  at_path ("spec" :: k :: rest) (set_field "spec" v (JObject fields)) = at_path (k :: rest) v.
Proof. cbn [at_path set_field member]. by rewrite field_insert_eq. Qed.

Lemma at_key k v rest : at_path (k :: rest) (JMap [(k, v)]) = at_path rest v.
Proof. cbn. unfold field. cbn. by rewrite String.eqb_refl. Qed.

Lemma string_map_first k v k' v' :
  k <> k' -> at_path [k] (string_map [(k, v); (k', v')]) = Some (JString v).
Proof.
  intros Hk. change (at_path [k] (JObject (insert_sorted k' (JString v') [(k, JString v)])) = Some (JString v)).
  cbn [at_path member]. rewrite field_insert_ne by done. unfold field. cbn. by rewrite String.eqb_refl.
Qed.

Lemma string_map_second k v k' v' : at_path [k'] (string_map [(k, v); (k', v')]) = Some (JString v').
Proof.
  change (at_path [k'] (JObject (insert_sorted k' (JString v') [(k, JString v)])) = Some (JString v')).
  cbn [at_path member]. by rewrite field_insert_eq.
Qed.

(** C27: the ACK objects of a claim's storage say what they mean to. The two policy texts of the Role
    read back as the policies built; read as such, the trust policy lets in, by the issuer's
    [aud] and [sub] claims, tokens for AWS of the service account built in the claim's namespace
    alone, and every statement of the access policy is about the bucket the Bucket object names,
    or the objects in it. The one thing assumed of unstructured objects is that they are maps. *)
Theorem policies_read_back `{Unstructured} (sc : ServiceClaim) (storage : StorageConfig) (role : json)
  (Hmap : exists fields, newStorageObject sc RoleGVK (map_of [(ackAdoptionPolicyAnnotation, ackAdoptOrCreate)]) =
            JObject fields)
  (Hbucket_map : exists fields, newStorageObject sc BucketGVK
     (map_of [(ackAdoptionPolicyAnnotation, ackAdoptOrCreate); (ackDeletionPolicyAnnotation, ackRetain)]) = JObject fields)
  (Hname : valid_utf8 (Name sc) = true) (Haccount : valid_utf8 (AccountID storage) = true)
  (Hissuer : valid_utf8 (Issuer storage) = true) (Hrole : BuildStorageRole sc storage = Ok role) :
  exists trust access bucket,
    document_at ["spec"; "assumeRolePolicyDocument"] role = Some trust /\
    document_at ["spec"; "inlinePolicies"; storagePolicyName] role = Some access /\
    at_path ["spec"; "name"] (BuildStorageBucket sc storage) = Some (JString bucket) /\
    trust = policy_json (trust_policy sc storage) /\ access = policy_json (access_policy sc storage) /\
    exists principal condition,
      at_path ["Statement"] trust = Some (JArray [JObject
        [("Effect", JString "Allow"); ("Principal", principal);
         ("Action", strings ["sts:AssumeRoleWithWebIdentity"]); ("Condition", condition)]]) /\
      at_path ["StringEquals"; Issuer storage +:+ ":aud"] condition = Some (JString "sts.amazonaws.com") /\
      at_path ["StringEquals"; Issuer storage +:+ ":sub"] condition =
        Some (JString (Sprintf ["system:serviceaccount:"; meta_Namespace (sa_Meta (BuildServiceAccount sc)); ":";
                                meta_Name (sa_Meta (BuildServiceAccount sc))])) /\
      at_path ["Statement"] access = Some (JArray
        [JObject [("Effect", JString "Allow"); ("Action", strings ["s3:GetBucketLocation"; "s3:ListBucket"]);
                  ("Resource", strings ["arn:aws:s3:::" +:+ bucket])];
         JObject [("Effect", JString "Allow"); ("Action", strings ["s3:DeleteObject"; "s3:GetObject"; "s3:PutObject"]);
                  ("Resource", strings [("arn:aws:s3:::" +:+ bucket) +:+ "/*"])]]).
Proof.
  destruct Hmap as (fields & Hf). destruct Hbucket_map as (bfields & Hbf).
  pose proof (Unmarshal_Marshal _ (trust_policy_valid sc storage Hname Haccount Hissuer)) as Ht.
  pose proof (Unmarshal_Marshal _ (access_policy_valid sc storage Hname)) as Ha.
  exists (policy_json (trust_policy sc storage)), (policy_json (access_policy sc storage)), (StorageBucketName sc storage).
  unfold BuildStorageRole in Hrole. apply Ok_inj in Hrole as <-. unfold BuildStorageBucket. rewrite Hf, Hbf.
  unfold document_at. rewrite !spec_at. split; [exact Ht|]. split; [exact Ha|].
  split; [by destruct (negb _)|]. do 2 (split; [done|]).
  exists (string_map [("Federated", Sprintf [iamARNPrefix; AccountID storage; ":oidc-provider/"; Issuer storage])]),
    (JMap [("StringEquals", string_map [(Issuer storage +:+ ":aud", awsTokenAudience);
                                        (Issuer storage +:+ ":sub", serviceAccountSubject sc)])]).
  split; [reflexivity|]. rewrite !at_key.
  split; [apply string_map_first; by intros ?%append_inj_l|]. split; [apply string_map_second|reflexivity].
Qed.

Lemma policies_read_back_witness :
  let role := match @BuildStorageRole json_content sample_claim sample_storage with Ok role => role | Err _ => JNull end in
  document_at ["spec"; "assumeRolePolicyDocument"] role = Some (policy_json (trust_policy sample_claim sample_storage)).
Proof.
  intros role.
  destruct (@policies_read_back json_content sample_claim sample_storage role) as (t & a & b & Ht & _ & _ & -> & _);
    [eexists; vm_compute; reflexivity|eexists; vm_compute; reflexivity|vm_compute; reflexivity..|exact Ht].
Defined.
