(* ===== verification/Effects.v ===== *)
(** * Programs that talk to the cluster

    The controller's handlers call the API server, Prometheus, the event recorder and the clock.
    A [prog] is a handler with those calls made explicit: a finite tree that, at a call, goes on
    with whatever answer comes back. [runs p tr a] says that [p] can return [a] after exactly the
    calls and answers of [tr]; since the answers are arbitrary, a theorem about every [tr] holds
    in every environment, whatever fails and whatever other writers do. [exec] runs a program
    against one environment. Log lines are left out. *)
From Stdlib Require Import ZArith Lia Ascii String.
From S2P Require Import Prelude GoFloat GoStrings GoJson Api Kubernetes.
Local Open Scope Z_scope.
Local Open Scope stdpp_scope.

(** [r.Client], which reads through a cache, and [r.APIReader], which does not. *)
Inductive Reader := CachedClient | APIReader.

(** The event types of [corev1]. *)
Definition EventTypeNormal : string := "Normal".
Definition EventTypeWarning : string := "Warning".

(** The type of a call is the type of its answer. *)
Inductive call : Type -> Type :=
  | GetClaim (key : NamespacedName) : call (result ServiceClaim)
  | GetNamespaceObject (name : string) : call (result LiveNamespace)
  | GetRollout (reader : Reader) (key : NamespacedName) : call (result LiveRollout)
  | GetUnstructured (reader : Reader) (gvk : GroupVersionKind) (key : NamespacedName) : call (result json)
  | Apply (u : json) : call (result json)
  | ApplyStatus (u : json) : call (option error)
  | DeleteNamespace (ns : LiveNamespace) : call (option error)
  | Query (query : string) : call (result float64)
  | Eventf (claim : ServiceClaim) (etype reason action note : string) : call unit
  | Now : call Z.

Inductive prog (A : Type) : Type :=
  | Ret (a : A)
  | Call {X : Type} (c : call X) (k : X -> prog A).
Arguments Ret {A} a.
Arguments Call {A X} c k.

Fixpoint prog_bind {A B} (f : A -> prog B) (p : prog A) : prog B :=
  match p with
  | Ret a => f a
  | Call c k => Call c (fun x => prog_bind f (k x))
  end.

#[export] Instance prog_ret : MRet prog := @Ret.
#[export] Instance prog_mbind : MBind prog := @prog_bind.

Definition do_call {X} (c : call X) : prog X := Call c Ret.

(** ** Traces *)

Inductive event :=
  | Ev {X : Type} (c : call X) (answer : X).

Fixpoint runs {A} (p : prog A) (tr : list event) (a : A) : Prop :=
  match p with
  | Ret a' => tr = [] /\ a = a'
  | Call c k => exists x tr', tr = Ev c x :: tr' /\ runs (k x) tr' a
  end.

Lemma runs_bind {A B} (p : prog A) (f : A -> prog B) tr b :
  runs (p ≫= f) tr b <-> exists tr1 tr2 a, tr = tr1 ++ tr2 /\ runs p tr1 a /\ runs (f a) tr2 b.
Proof.
  unfold mbind, prog_mbind. revert tr. induction p as [a|X c k IH]; intros tr; simpl.
  - split.
    + intros Hr. by exists [], tr, a.
    + by intros (tr1 & tr2 & a' & -> & [-> ->] & Hr).
  - split.
    + intros (x & tr' & -> & (tr1 & tr2 & a & -> & H1 & H2)%IH). exists (Ev c x :: tr1), tr2, a. split; [done|].
      split; [by eauto|done].
    + intros (tr1 & tr2 & a & -> & (x & tr' & -> & H1) & H2). exists x, (tr' ++ tr2). split; [done|].
      apply IH. eauto 10.
Qed.

Lemma runs_do_call {X} (c : call X) tr x : runs (do_call c) tr x <-> tr = [Ev c x].
Proof. simpl. split; [by intros (x' & tr' & -> & -> & ->)|intros ->; eauto]. Qed.

(** ** Running a program in an environment with state [S] *)

Definition env (S : Type) : Type := forall X, call X -> S -> X * S.

Fixpoint exec {A S} (h : env S) (p : prog A) (s : S) : list event * A * S :=
  match p with
  | Ret a => ([], a, s)
  | Call c k =>
      let '(x, s') := h _ c s in
      let '(tr, a, s'') := exec h (k x) s' in
      (Ev c x :: tr, a, s'')
  end.

(** Every program returns in every environment, and what it did is one of its traces. *)
Lemma exec_runs {A S} (h : env S) (p : prog A) s :
  let '(tr, a, _) := exec h p s in runs p tr a.
Proof.
  revert s. induction p as [a|X c k IH]; intros s; simpl; [done|].
  destruct (h X c s) as [x s'] eqn:E. specialize (IH x s').
  destruct (exec h (k x) s') as [[tr a] s'']. simpl. eauto.
Qed.

(** ** Reading traces *)

Definition deleted (e : event) : option LiveNamespace :=
  match e with Ev (DeleteNamespace ns) _ => Some ns | _ => None end.
Definition applied (e : event) : option json :=
  match e with Ev (Apply u) _ => Some u | _ => None end.
Definition queried (e : event) : option string :=
  match e with Ev (Query q) _ => Some q | _ => None end.
Definition recorded (e : event) : option string :=
  match e with Ev (Eventf _ _ _ _ note) _ => Some note | _ => None end.
Definition status_applied (e : event) : option json :=
  match e with Ev (ApplyStatus u) _ => Some u | _ => None end.

(** The answers to reads. *)
Definition claim_answer (e : event) : option (result ServiceClaim) :=
  match e with
  | @Ev X c answer =>
      match c in call X' return X' -> option (result ServiceClaim) with GetClaim _ => Some | _ => fun _ => None end answer
  end.
Definition namespace_answer (e : event) : option (result LiveNamespace) :=
  match e with
  | @Ev X c answer =>
      match c in call X' return X' -> option (result LiveNamespace) with
      | GetNamespaceObject _ => Some | _ => fun _ => None end answer
  end.
Definition query_answer (e : event) : option (result float64) :=
  match e with
  | @Ev X c answer =>
      match c in call X' return X' -> option (result float64) with Query _ => Some | _ => fun _ => None end answer
  end.

(** A call that only reads. *)
Definition is_read (e : event) : bool :=
  match e with
  | Ev (Apply _) _ | Ev (ApplyStatus _) _ | Ev (DeleteNamespace _) _ | Ev (Eventf _ _ _ _ _) _ => false
  | _ => true
  end.

(** Opens a run of a program that starts with a call or a return. *)
Ltac open_run H := cbn [runs mbind prog_mbind prog_bind do_call] in H.

(** A program every call of which satisfies a test, in every trace. *)
Definition every {A} (P : event -> bool) (p : prog A) : Prop := forall tr a, runs p tr a -> forallb P tr = true.

Lemma every_ret {A} P (a : A) : every P (Ret a).
Proof. by intros tr b [-> _]. Qed.

Lemma every_call {A X} P (c : call X) (k : X -> prog A) :
  (forall x, P (Ev c x) = true) -> (forall x, every P (k x)) -> every P (Call c k).
Proof.
  intros Hc Hk tr a (x & tr' & -> & Hr). change (P (Ev c x) && forallb P tr' = true).
  by rewrite Hc, (Hk x tr' a Hr).
Qed.

Lemma every_bind {A B} P (p : prog A) (f : A -> prog B) :
  every P p -> (forall a, every P (f a)) -> every P (p ≫= f).
Proof.
  intros Hp Hf tr b (tr1 & tr2 & a & -> & H1 & H2)%runs_bind. rewrite forallb_app.
  apply andb_true_iff. split; [by apply (Hp tr1 a)|by apply (Hf a tr2 b)].
Qed.

Lemma every_do_call {X} P (c : call X) : (forall x, P (Ev c x) = true) -> every P (do_call c).
Proof. intros Hc. apply every_call; [done|]. intros x. apply every_ret. Qed.

Lemma every_impl {A} (P Q : event -> bool) (p : prog A) :
  (forall e, P e = true -> Q e = true) -> every P p -> every Q p.
Proof.
  intros HPQ Hp tr a Hr. specialize (Hp tr a Hr). apply forallb_forall. intros e He.
  apply HPQ. by apply (proj1 (forallb_forall P tr) Hp).
Qed.

Lemma every_In {A} P (p : prog A) tr a e : every P p -> runs p tr a -> In e tr -> P e = true.
Proof. intros Hp Hr He. by apply (proj1 (forallb_forall P tr) (Hp tr a Hr)). Qed.

(** Goes through the binds, the calls and the branches of a program. *)
Ltac every_step :=
  match goal with
  | |- every _ (Ret _) => apply every_ret
  | |- every _ (do_call _) => apply every_do_call; intros ?
  | |- every _ (_ ≫= _) => apply every_bind; [|intros ?]
  | |- every _ (match ?x with _ => _ end) => destruct x
  | |- every _ (let '(_, _) := ?x in _) => destruct x
  end.

(** A program that only reads. *)
Definition read_only {A} (p : prog A) : Prop := every is_read p.
