(* ===== verification/Footprint.v ===== *)
(** * Programs with disjoint footprints

    Two programs of [Effects] that run against one server, interleaved call by call. On a server where
    a call reads and writes one object only, programs that keep to objects of their own do not
    notice each other: every schedule gives both the same answers and leaves the same state. *)
From S2P Require Import Prelude Effects.
Local Open Scope stdpp_scope.

(** ** Definitions *)

(** Both programs run to their end: the schedule says whose call is next, [true] for the first's;
    what is left when it ends runs in order. *)
Fixpoint interleave {A B S} (h : env S) (schedule : list bool) (p : prog A) (q : prog B) (s : S)
  : (list event * A) * (list event * B) * S :=
  match schedule with
  | [] =>
      let '(tr, a, s) := exec h p s in
      let '(tr', b, s) := exec h q s in
      ((tr, a), (tr', b), s)
  | true :: rest =>
      match p with
      | Ret _ => interleave h rest p q s
      | Call c k =>
          let '(x, s) := h _ c s in
          let '((tr, a), second, s) := interleave h rest (k x) q s in
          ((Ev c x :: tr, a), second, s)
      end
  | false :: rest =>
      match q with
      | Ret _ => interleave h rest p q s
      | Call c k =>
          let '(x, s) := h _ c s in
          let '(first, (tr', b), s) := interleave h rest p (k x) s in
          (first, (Ev c x :: tr', b), s)
      end
  end.

(** A server of objects: a call that names a key answers from the object there and replaces it; any
    other call answers by itself. *)
Record local_server (O : Type) := mkLocalServer {
  at_key : forall X, call X -> option O -> X * option O;
  elsewhere : forall X, call X -> X
}.
Arguments at_key {O}.
Arguments elsewhere {O}.

Section footprint.
Context {K O : Type} `{Countable K} (touch : forall X, call X -> option K).

Definition local_env (server : local_server O) : env (gmap K O) := fun X c s =>
  match touch X c with
  | Some key => let '(x, o) := at_key server X c (s !! key) in (x, partial_alter (fun _ => o) key s)
  | None => (elsewhere server X c, s)
  end.

Definition inside (own : K -> Prop) (e : event) : Prop :=
  match e with @Ev X c _ => match touch X c with Some key => own key | None => True end end.

(** With answers that are [ok], a program's calls are about its own keys. *)
Definition confined {A} (ok : event -> bool) (own : K -> Prop) (p : prog A) : Prop :=
  forall tr a, runs p tr a -> forallb ok tr = true -> Forall (inside own) tr.

Definition honest (ok : event -> bool) (server : local_server O) : Prop :=
  forall X (c : call X) s, ok (Ev c (local_env server X c s).1) = true.

(** ** Lemmas *)
Section honest.
Context (ok : event -> bool) (server : local_server O) (Hhonest : honest ok server).

Lemma exec_ok {A} (p : prog A) : forall s, forallb ok (exec (local_env server) p s).1.1 = true.
Proof.
  induction p as [a|X c k IH]; intros s; [done|]. cbn [exec].
  pose proof (Hhonest X c s) as Hc. destruct (local_env server X c s) as [x s'].
  specialize (IH x s'). destruct (exec (local_env server) (k x) s') as [[tr a] s'']. cbn in *. by rewrite Hc, IH.
Qed.

(** A program that is confined makes a call of its own and goes on confined. *)
Lemma confined_call {A X} own (c : call X) (k : X -> prog A) s :
  confined ok own (Call c k) ->
  match touch X c with Some key => own key | None => True end /\ confined ok own (k (local_env server X c s).1).
Proof.
  intros Hconf. pose proof (Hhonest X c s) as Hc. set (x := (local_env server X c s).1) in *. split.
  - pose proof (exec_runs (local_env server) (k x) s) as Hr. pose proof (exec_ok (k x) s) as Hok.
    destruct (exec (local_env server) (k x) s) as [[tr a] s']. cbn in Hok.
    assert (Forall (inside own) (Ev c x :: tr)) as Hall by (eapply (Hconf (Ev c x :: tr) a); [by exists x, tr|cbn; by rewrite Hc]).
    by inversion Hall.
  - intros tr a Hr Hok. assert (Forall (inside own) (Ev c x :: tr)) as Hall
      by (eapply (Hconf (Ev c x :: tr) a); [by exists x, tr|cbn; by rewrite Hc]).
    by inversion Hall.
Qed.

(** Two calls on different keys do not notice each other's order. *)
Definition apart {X Y} (c : call X) (d : call Y) : Prop :=
  match touch X c, touch Y d with Some key, Some key' => key <> key' | _, _ => True end.

Lemma calls_commute {X Y} (c : call X) (d : call Y) s : apart c d ->
  (local_env server Y d (local_env server X c s).2).1 = (local_env server Y d s).1 /\
  (local_env server Y d (local_env server X c s).2).2 = (local_env server X c (local_env server Y d s).2).2 /\
  (local_env server X c (local_env server Y d s).2).1 = (local_env server X c s).1.
Proof.
  unfold apart, local_env. destruct (touch X c) as [key|], (touch Y d) as [key'|]; try done.
  intros Hne. destruct (at_key server X c (s !! key)) as [x o] eqn:Ec, (at_key server Y d (s !! key')) as [y o'] eqn:Ed.
  cbn [fst snd]. rewrite !lookup_partial_alter_ne by done. rewrite Ec, Ed. cbn [fst snd]. split; [done|]. split; [|done].
  by apply partial_alter_partial_alter_ne.
Qed.

(** A call outside a program's keys commutes with all of it. *)
Lemma exec_commutes {A Y} own (p : prog A) (d : call Y) :
  match touch Y d with Some key => ~ own key | None => True end -> forall s, confined ok own p ->
  (exec (local_env server) p (local_env server Y d s).2).1 = (exec (local_env server) p s).1 /\
  (exec (local_env server) p (local_env server Y d s).2).2 = (local_env server Y d (exec (local_env server) p s).2).2 /\
  (local_env server Y d (exec (local_env server) p s).2).1 = (local_env server Y d s).1.
Proof.
  intros Hd. induction p as [a|X c k IH]; intros s Hconf; [done|]. cbn [exec].
  destruct (confined_call _ c k s Hconf) as [Hc Hk].
  assert (apart d c) as Hapart by (unfold apart; destruct (touch Y d), (touch X c); try done; intros ->; done).
  destruct (calls_commute d c s Hapart) as (Hx & Hs & Hy).
  destruct (local_env server X c s) as [x s1] eqn:E1. cbn [fst snd] in *.
  destruct (local_env server X c (local_env server Y d s).2) as [x' s2] eqn:E2. cbn [fst snd] in *. subst x' s2.
  destruct (IH x s1 Hk) as (Ht & Hf & Ha).
  destruct (exec (local_env server) (k x) s1) as [[tr a] s3], (exec (local_env server) (k x) (local_env server Y d s1).2) as [[tr' a'] s3'].
  cbn [fst snd] in *. injection Ht as -> ->. rewrite Ha. auto.
Qed.

(** Every schedule is the one that runs the first program before the second. *)
Lemma interleave_sequential {A B} own own' schedule : (forall key, own key -> own' key -> False) ->
  forall (p : prog A) (q : prog B) s, confined ok own p -> confined ok own' q ->
  interleave (local_env server) schedule p q s = interleave (local_env server) [] p q s.
Proof.
  intros Hdisjoint. induction schedule as [|[] rest IH]; intros p q s Hp Hq; [done| |].
  - destruct p as [a|X c k]; [by rewrite <- (IH (Ret a) q s Hp Hq)|]. cbn [interleave exec].
    destruct (confined_call _ c k s Hp) as [_ Hk]. destruct (local_env server X c s) as [x s1]. cbn [fst] in Hk.
    rewrite (IH (k x) q s1 Hk Hq). cbn [interleave].
    destruct (exec (local_env server) (k x) s1) as [[tr a] s2]. by destruct (exec (local_env server) q s2) as [[tr' b] s3].
  - destruct q as [b|X c k]; [by rewrite <- (IH p (Ret b) s Hp Hq)|]. cbn [interleave exec].
    destruct (confined_call _ c k s Hq) as [Hc Hk].
    assert (match touch X c with Some key => ~ own key | None => True end) as Hout
      by (destruct (touch X c) as [key|]; [intros Ho; by eapply Hdisjoint|done]).
    destruct (exec_commutes own p c Hout s Hp) as (Ht & Hs & Hx).
    destruct (local_env server X c s) as [x s1]. cbn [fst snd] in *.
    rewrite (IH p (k x) s1 Hp Hk). cbn [interleave].
    destruct (exec (local_env server) p s1) as [[tr a] s2], (exec (local_env server) p s) as [[tr0 a0] s0].
    cbn [fst snd] in *. injection Ht as -> ->. subst s2.
    destruct (local_env server X c s0) as [x0 s3]. cbn [fst snd] in *. subst x0.
    by destruct (exec (local_env server) (k x) s3) as [[tr' b] s4].
Qed.
End honest.
End footprint.
