(* ===== verification/SloStatus.v ===== *)
(** * The SLO of a claim, measured ([internal/controller/slo_status.go])

    One reconcile reads two numbers from Prometheus and turns them into the SLOHealthy condition. *)
From Stdlib Require Import ZArith QArith Lqa Lia Ascii String SpecFloat.
From S2P Require Import Prelude GoFloat GoStrings GoStrconv GoRat GoJson Api Budget Rules Alerts Prometheus.
From S2P Require Import Kubernetes Meta Storage Effects.
Local Open Scope Z_scope.
Local Open Scope stdpp_scope.

(** ** Definitions *)

Definition ReasonWithinBudget : string := "WithinBudget".
Definition ReasonBudgetExhausted : string := "BudgetExhausted".
Definition ReasonFastBurn : string := "FastBurn".
Definition ReasonNoTraffic : string := "NoTraffic".
Definition ReasonPrometheusUnavailable : string := "PrometheusUnavailable".
Definition ReasonUnusableData : string := "UnusableData".
Definition ReasonInvalidSpec : string := "InvalidSpec".

(** [time.Minute], in nanoseconds. *)
Definition sloRefreshInterval : Z := 60 * 1000000000.
Definition burnRateWindow : string := "1h".

Record sloReport := mkSloReport {
  rep_condition : Condition;
  measured : bool;
  remaining_ : float64;
  budgetRemaining : string;
  burnRate1h : string
}.

(** [setCondition]: the closure that fills in the report's condition. The transition time is the
    zero [metav1.Time] until the condition is stored. *)
Definition slo_condition (claim : ServiceClaim) (status reason message : string) : Condition :=
  {| cond_Type := ConditionSLOHealthy; cond_Status := status; cond_Reason := reason; cond_Message := message;
     cond_ObservedGeneration := Generation claim; cond_LastTransitionTime := 0 |}.

Section evaluate.
Context `{UnicodePrint}.

(** Before anything is measured. *)
Definition unmeasured (claim : ServiceClaim) (reason message : string) : sloReport :=
  {| rep_condition := slo_condition claim ConditionUnknown reason message;
     measured := false; remaining_ := fzero; budgetRemaining := ""; burnRate1h := "" |}.

(** The decision once the error ratio over the SLO window is known: the part of [evaluateSLO]
    from [SpendBudget] on. [hour] is the recorded ratio over the last hour, if there was one. *)
Definition measured_report (claim : ServiceClaim) (fastBurn : float64) (budget : Q)
    (windowRatio : float64) (hour : option float64) : sloReport :=
  let window := Window (SLO (Spec claim)) in
  match SpendBudget windowRatio (Some budget) with
  | Err err => unmeasured claim ReasonUnusableData (Error err)
  | Ok use =>
      let report status reason message burn1h :=
        {| rep_condition := slo_condition claim status reason message;
           measured := true;
           remaining_ := Remaining use;
           budgetRemaining := FormatPercent (Remaining use);
           burnRate1h := burn1h |} in
      let decide_ (burn1h : option (float64 * string)) :=
        let text := match burn1h with Some (_, t) => t | None => "" end in
        if fleb (Remaining use) fzero then
          report ConditionFalse ReasonBudgetExhausted
            (Sprintf ["The "; window; " error budget is used up: "; FormatFixed (Consumed use) 2; "x of it spent"]) text
        else
          match burn1h with
          | Some (burnRate, _) =>
              if fleb fastBurn burnRate then
                report ConditionFalse ReasonFastBurn
                  (Sprintf ["The last hour burned the error budget at "; text; "x, at or above the ";
                            FormatG fastBurn; "x page threshold"]) text
              else
                report ConditionTrue ReasonWithinBudget
                  (Sprintf [FormatPercent (Remaining use); " of the "; window; " error budget left; 1h burn rate ";
                            text; "x"]) text
          | None =>
              report ConditionTrue ReasonWithinBudget
                (Sprintf [FormatPercent (Remaining use); " of the "; window;
                          " error budget left; no requests in the last hour"]) text
          end in
      match hour with
      | None => decide_ None
      | Some hourRatio =>
          match BurnRate hourRatio (Some budget) with
          | Err err => report ConditionUnknown ReasonUnusableData (Error err) ""
          | Ok burnRate => decide_ (Some (burnRate, FormatBurnRate burnRate))
          end
      end
  end.

Definition windowQuery (claim : ServiceClaim) : result string :=
  ErrorRatioExpr (SLI (Spec claim)) (NamespaceName claim) (Window (SLO (Spec claim))).
Definition hourQuery (claim : ServiceClaim) : string :=
  Sprintf [RecordName (sli_Type (SLI (Spec claim))) burnRateWindow; "{"; LabelService; "="; Quote (Name claim); "}"].

(** [err != nil && !errors.Is(err, slo.ErrNoData)] *)
Definition unreadable (answer : result float64) : option error :=
  match answer with
  | Err err => if errorsIs err no_data then None else Some err
  | Ok _ => None
  end.
Definition value (answer : result float64) : option float64 :=
  match answer with Ok v => Some v | Err _ => None end.

(** [configured] is false when the reconciler has no Prometheus client. *)
Definition evaluateSLO (configured : bool) (claim : ServiceClaim) : prog sloReport :=
  let window := Window (SLO (Spec claim)) in
  if negb configured then Ret (unmeasured claim ReasonPrometheusUnavailable "No Prometheus client is configured")
  else
    match ErrorBudget (Objective (SLO (Spec claim))) with
    | Err err => Ret (unmeasured claim ReasonInvalidSpec (Error err))
    | Ok budget =>
    match Rate (nth 0 BurnRateAlerts (mkBurnRateAlert "" "" "" "")) with
    | Err err => Ret (unmeasured claim ReasonInvalidSpec (Error err))
    | Ok fastBurn =>
    match windowQuery claim with
    | Err err => Ret (unmeasured claim ReasonInvalidSpec (Error err))
    | Ok query =>
        windowAnswer ← do_call (Query query);
        match unreadable windowAnswer with
        | Some err =>
            Ret (unmeasured claim ReasonPrometheusUnavailable
              (Sprintf ["Could not read the "; window; " error ratio: "; Error err]))
        | None =>
            hourAnswer ← do_call (Query (hourQuery claim));
            match unreadable hourAnswer with
            | Some err =>
                Ret (unmeasured claim ReasonPrometheusUnavailable
                  (Sprintf ["Could not read the "; burnRateWindow; " burn rate: "; Error err]))
            | None =>
                match value windowAnswer with
                | None =>
                    Ret (unmeasured claim ReasonNoTraffic
                      (Sprintf ["No requests in the last "; window; ", so there is no error ratio to measure"]))
                | Some windowRatio => Ret (measured_report claim fastBurn budget windowRatio (value hourAnswer))
                end
            end
        end
    end end end.

(** ** Lemmas *)

(** The alert table's fastest page rate, 14.4, as the float64 [ParseFloat] gives. *)
Definition page_rate : float64 := float_of_quot false 144 10.

Lemma fast_burn_rate : Rate (nth 0 BurnRateAlerts (mkBurnRateAlert "" "" "" "")) = Ok page_rate.
Proof. vm_compute. reflexivity. Qed.

Definition status_text_ok (s : string) : bool := one_of s [ConditionTrue; ConditionFalse; ConditionUnknown].

Lemma measured_report_cases claim fastBurn budget r hour :
  let rep := measured_report claim fastBurn budget r hour in
  (exists m, rep = unmeasured claim ReasonUnusableData m) \/
  (measured rep = true /\ budgetRemaining rep = FormatPercent (remaining_ rep) /\
   exists use, SpendBudget r (Some budget) = Ok use /\ remaining_ rep = Remaining use).
Proof.
  unfold measured_report. destruct (SpendBudget r (Some budget)) as [use|e]; [right|left; by eexists].
  destruct hour as [h|]; [destruct (BurnRate h (Some budget)) as [burn|e]|];
    [destruct (fleb (Remaining use) fzero); [|destruct (fleb fastBurn burn)]|
    |destruct (fleb (Remaining use) fzero)]; simpl; eauto.
Qed.

Lemma evaluateSLO_runs configured claim tr rep :
  runs (evaluateSLO configured claim) tr rep ->
  (tr = [] /\ exists reason m, rep = unmeasured claim reason m) \/
  (exists budget query w, ErrorBudget (Objective (SLO (Spec claim))) = Ok budget /\ windowQuery claim = Ok query /\
    ((exists err, unreadable w = Some err /\ tr = [Ev (Query query) w] /\
       rep = unmeasured claim ReasonPrometheusUnavailable
         (Sprintf ["Could not read the "; Window (SLO (Spec claim)); " error ratio: "; Error err])) \/
     (exists h, unreadable w = None /\ tr = [Ev (Query query) w; Ev (Query (hourQuery claim)) h] /\
       ((exists err m, unreadable h = Some err /\ rep = unmeasured claim ReasonPrometheusUnavailable m) \/
        (exists m, unreadable h = None /\ value w = None /\ rep = unmeasured claim ReasonNoTraffic m) \/
        (exists r, unreadable h = None /\ value w = Some r /\
          rep = measured_report claim page_rate budget r (value h)))))).
Proof.
  unfold evaluateSLO. destruct configured; cbn [negb]; [|intros [-> ->]; left; by eauto].
  destruct (ErrorBudget _) as [budget|e]; [|intros [-> ->]; left; by eauto].
  rewrite fast_burn_rate.
  destruct (windowQuery claim) as [query|e]; [|intros [-> ->]; left; by eauto].
  intros Hr. right. exists budget, query. open_run Hr.
  destruct Hr as (w & tr' & -> & Hr). exists w. split; [done|]. split; [done|].
  destruct (unreadable w) as [err|] eqn:Hw.
  - left. destruct Hr as [-> ->]. eauto.
  - right. destruct Hr as (h & tr & -> & Hr). exists h. split; [done|].
    destruct (unreadable h) as [err|] eqn:Hh; [destruct Hr as [-> ->]; split; [done|]; left; eauto|].
    destruct (value w) as [r|] eqn:Hv; destruct Hr as [-> ->]; (split; [done|]); right; [right|left]; eauto.
Qed.

Lemma evaluateSLO_answered claim budget query w h r :
  ErrorBudget (Objective (SLO (Spec claim))) = Ok budget -> windowQuery claim = Ok query ->
  value w = Some r -> unreadable h = None ->
  runs (evaluateSLO true claim) [Ev (Query query) w; Ev (Query (hourQuery claim)) h]
    (measured_report claim page_rate budget r (value h)).
Proof.
  intros Hb Hq Hw Hh. unfold evaluateSLO. cbn [negb]. rewrite Hb, fast_burn_rate, Hq.
  cbn [runs mbind prog_mbind prog_bind do_call]. exists w. eexists. split; [done|].
  destruct w as [r'|]; [|done]. injection Hw as ->. exists h. eexists. split; [done|].
  by rewrite Hh.
Qed.

Lemma evaluateSLO_every P configured claim :
  (forall q x, P (Ev (Query q) x) = true) -> every P (evaluateSLO configured claim).
Proof. intros Hquery. unfold evaluateSLO. by repeat every_step. Qed.

Lemma evaluateSLO_read_only configured claim : read_only (evaluateSLO configured claim).
Proof. by apply evaluateSLO_every. Qed.
End evaluate.

(** ** Properties *)

(** A query whose answer is an error other than [ErrNoData]. *)
Definition failed_query (e : event) : bool :=
  match query_answer e with
  | Some a => match unreadable a with Some _ => true | None => false end
  | None => false
  end.

(** C21: Evaluating the SLO fails open, whatever Prometheus answers. It only reads, asks at most
    two queries, and asks none after one that failed. When the budget was not measured the
    condition is Unknown and both status texts are empty; a failed query always means not
    measured; and the condition is False only on a ratio Prometheus did return. *)
Theorem evaluateSLO_fails_open `{UnicodePrint} (configured : bool) (claim : ServiceClaim) (tr : list event)
    (rep : sloReport) :
  runs (evaluateSLO configured claim) tr rep ->
  (length tr <= 2)%nat /\ forallb is_read tr = true /\
  (forall e rest, tr = e :: rest -> failed_query e = true -> rest = []) /\
  (existsb failed_query tr = true -> measured rep = false) /\
  (measured rep = false -> cond_Status (rep_condition rep) = ConditionUnknown /\
     budgetRemaining rep = "" /\ burnRate1h rep = "") /\
  (cond_Status (rep_condition rep) = ConditionFalse ->
     exists q r hour, tr = [Ev (Query q) (Ok r); hour] /\ measured rep = true).
Proof.
  intros Hr. pose proof (evaluateSLO_read_only _ _ _ _ Hr) as Hread.
  apply evaluateSLO_runs in Hr as [(-> & reason & m & ->)|(b & q & w & _ & _ &
    [(err & Hw & -> & ->)|(h & Hw & -> & Hcases)])]; (split; [simpl; lia|]; split; [done|]).
  - repeat split; done.
  - repeat split; try done. by intros e rest [= <- <-].
  - split; [intros e rest [= <- <-]; unfold failed_query; cbn; by rewrite Hw|].
    destruct Hcases as [(err & m & Hh & ->)|[(m & Hh & Hv & ->)|(r & Hh & Hv & ->)]]; [done|done|].
    split; [unfold failed_query; cbn; by rewrite Hw, Hh|].
    destruct (measured_report_cases claim page_rate b r (value h)) as [(m & ->)|(-> & _)]; [done|].
    split; [done|]. intros _. destruct w as [r'|e]; [|done]. eauto.
Qed.

(** Prometheus answering both queries for the sample claim: half the budget spent. *)
Definition sample_query : string :=
  match @windowQuery no_rune sample_claim with Ok q => q | Err _ => "" end.
Definition half_spent : result float64 := Ok (float_of_quot false 1 400).
Definition sample_trace : list event :=
  [Ev (Query sample_query) half_spent; Ev (Query (@hourQuery no_rune sample_claim)) half_spent].
Definition sample_report : sloReport :=
  measured_report sample_claim page_rate (1 - 99.5 / 100)%Q (float_of_quot false 1 400)
    (Some (float_of_quot false 1 400)).

Lemma sample_runs : runs (@evaluateSLO no_rune true sample_claim) sample_trace sample_report.
Proof. apply (@evaluateSLO_answered no_rune); [reflexivity|vm_compute; reflexivity|reflexivity|reflexivity]. Qed.

Lemma evaluateSLO_fails_open_witness : (length sample_trace <= 2)%nat /\ forallb is_read sample_trace = true.
Proof. destruct (@evaluateSLO_fails_open no_rune _ _ _ _ sample_runs) as (H1 & H2 & _). auto. Defined.

(** C22: The verdict when Prometheus answered both queries with finite ratios: False for an
    exhausted budget exactly when the ratio over the window has reached the float64 of the
    budget, else False for a fast burn exactly when the last hour burned at 14.4 times the
    sustainable rate or more, else True. *)
Theorem evaluateSLO_verdict `{UnicodePrint} (claim : ServiceClaim) (budget : Q) (query : string) (r h : float64)
    (rep : sloReport) :
  ErrorBudget (Objective (SLO (Spec claim))) = Ok budget -> len (Objective (SLO (Spec claim))) <= 300 ->
  valid r = true -> is_finite r = true -> is_finite h = true ->
  runs (evaluateSLO true claim) [Ev (Query query) (Ok r); Ev (Query (hourQuery claim)) (Ok h)] rep ->
  measured rep = true /\
  (cond_Status (rep_condition rep), cond_Reason (rep_condition rep)) =
    if fleb (Float64 budget) r then (ConditionFalse, ReasonBudgetExhausted)
    else if fleb page_rate (fdiv (fmax h fzero) (Float64 budget)) then (ConditionFalse, ReasonFastBurn)
    else (ConditionTrue, ReasonWithinBudget).
Proof.
  intros Hb Hl V F Fh [(Ht & _)|(b & q & w & Hb' & _ & [(e & _ & Ht & _)|(h' & Hw & Ht & Hc)])]%evaluateSLO_runs;
    [done|done|]. rewrite Hb in Hb'. injection Hb' as <-.
  apply (f_equal (map query_answer)) in Ht. cbn in Ht. injection Ht as <- <-.
  destruct Hc as [(e & m & Hh & _)|[(m & _ & Hv & _)|(r' & _ & [= <-] & ->)]]; [done|done|].
  pose proof (ErrorBudget_fpos _ _ Hb Hl) as Hf. destruct (ErrorBudget_Ok_bounds _ _ Hb) as (Hp & _ & _).
  unfold measured_report. rewrite SpendBudget_eq by done. cbn [value Remaining].
  assert (BurnRate h (Some budget) = Ok (rate_of h (Float64 budget))) as -> by (apply BurnRate_Ok_iff; eauto).
  rewrite <- (rate_ge_one r _ V F Hf). pose proof (rate_nonneg r _ V F Hf) as Hn.
  change (fdiv (fmax h fzero) (Float64 budget)) with (rate_of h (Float64 budget)).
  destruct (remaining_cases _ Hn) as [[-> [s ->]]|(-> & _ & P & _)]; [by destruct s|].
  destruct (fpos_inv _ P) as (VV & FF & PP & _).
  assert (fleb (remaining (rate_of r (Float64 budget))) fzero = false) as -> by by apply fleb_false.
  by destruct (fleb page_rate _).
Qed.

Lemma evaluateSLO_verdict_witness :
  measured sample_report = true /\
  (cond_Status (rep_condition sample_report), cond_Reason (rep_condition sample_report)) =
  (ConditionTrue, ReasonWithinBudget).
Proof.
  refine (@evaluateSLO_verdict no_rune sample_claim (1 - 99.5 / 100)%Q sample_query (float_of_quot false 1 400)
    (float_of_quot false 1 400) sample_report _ _ _ _ _ sample_runs); vm_compute; try reflexivity; discriminate.
Defined.
