(* ===== verification/Freeze.v ===== *)
(** * Deploy freeze and readiness ([internal/controller/freeze.go])

    DeploysFrozen is a two-state machine with hysteresis whose state is kept in the claim's own
    conditions; Ready summarises the managed resources, the storage and the Rollout. *)
From Stdlib Require Import ZArith QArith Lqa Lia Ascii String SpecFloat.
From S2P Require Import Prelude GoFloat GoStrings GoStrconv GoRat GoJson Api Budget Kubernetes Instances Storage.
From S2P Require Import SloStatus.
Local Open Scope Z_scope.
Local Open Scope stdpp_scope.

(** ** Definitions *)

Definition ReasonBudgetRecovering : string := "BudgetRecovering".
Definition ReasonBudgetUnknown : string := "BudgetUnknown".
Definition ReasonRolloutHealthy : string := "RolloutHealthy".
Definition ReasonRolloutProgressing : string := "RolloutProgressing".
Definition ReasonRolloutDegraded : string := "RolloutDegraded".
Definition ReasonRolloutNotFound : string := "RolloutNotFound".
Definition ReasonRolloutUnreadable : string := "RolloutUnreadable".

(** The constant 0.05 as a float64. *)
Definition UnfreezeBudget : float64 := float_of_quot false 5 100.

Definition condition_of (claim : ServiceClaim) (type status reason message : string) : Condition :=
  {| cond_Type := type; cond_Status := status; cond_Reason := reason; cond_Message := message;
     cond_ObservedGeneration := Generation claim; cond_LastTransitionTime := 0 |}.

Section freeze.
Context `{StatusConditions}.

(** [previous != nil && previous.Status == metav1.ConditionTrue] *)
Definition was_frozen (claim : ServiceClaim) : bool :=
  match FindStatusCondition (Conditions (Status claim)) ConditionDeploysFrozen with
  | Some previous => String.eqb (cond_Status previous) ConditionTrue
  | None => false
  end.

Definition freezeCondition (claim : ServiceClaim) (report : sloReport) : Condition :=
  let window := Window (SLO (Spec claim)) in
  let wasFrozen := was_frozen claim in
  let unfreezeAt := FormatPercent UnfreezeBudget in
  let condition := condition_of claim ConditionDeploysFrozen in
  let why := cond_Reason (rep_condition report) in
  if negb (measured report) && wasFrozen then
    condition ConditionTrue ReasonBudgetUnknown
      (Sprintf ["The error budget can't be measured ("; why; "), so deploys stay frozen until it can"])
  else if negb (measured report) then
    condition ConditionFalse ReasonBudgetUnknown
      (Sprintf ["The error budget can't be measured ("; why; "); deploys are not frozen"])
  else if fleb (remaining_ report) fzero then
    condition ConditionTrue ReasonBudgetExhausted
      (Sprintf ["No "; window; " error budget left; image changes are rejected until "; unfreezeAt; " of it is back"])
  else if wasFrozen && fltb (remaining_ report) UnfreezeBudget then
    condition ConditionTrue ReasonBudgetRecovering
      (Sprintf [budgetRemaining report; " of the "; window; " error budget is back; image changes stay frozen until ";
                unfreezeAt])
  else
    condition ConditionFalse ReasonWithinBudget
      (Sprintf [budgetRemaining report; " of the "; window; " error budget left"]).
End freeze.

Definition rolloutPhaseMessage (rollout : LiveRollout) : string :=
  let phase := if String.eqb (ro_Phase rollout) "" then "not reporting a phase yet" else ro_Phase rollout in
  if String.eqb (ro_Message rollout) "" then "The Rollout is " +:+ phase
  else Sprintf ["The Rollout is "; phase; ": "; ro_Message rollout].

Definition readyCondition `{ApiErrors} (claim : ServiceClaim) (synced : Condition) (storage : option Condition)
    (rollout : LiveRollout) (getErr : option error) : Condition :=
  let condition := condition_of claim ConditionReady in
  let not_synced := negb (String.eqb (cond_Status synced) ConditionTrue) in
  let unready_storage :=
    match storage with
    | Some s => if negb (String.eqb (cond_Status s) ConditionTrue) then Some s else None
    | None => None
    end in
  if not_synced then
    condition ConditionFalse (cond_Reason synced) ("The managed resources are not all applied: " +:+ cond_Message synced)
  else
    match unready_storage with
    | Some s =>
        condition (if String.eqb (cond_Status s) ConditionUnknown then ConditionUnknown else ConditionFalse)
          (cond_Reason s) ("The claim's storage is not ready: " +:+ cond_Message s)
    | None =>
        match getErr with
        | Some err =>
            if IsNotFound err then condition ConditionFalse ReasonRolloutNotFound "The Rollout does not exist yet"
            else condition ConditionUnknown ReasonRolloutUnreadable (Error err)
        | None =>
            if negb (String.eqb (ro_ObservedGeneration rollout) (Itoa (ro_Generation rollout))) then
              condition ConditionFalse ReasonRolloutProgressing
                (Sprintf ["Argo Rollouts has not yet observed generation "; Itoa (ro_Generation rollout); " of the Rollout"])
            else if String.eqb (ro_Phase rollout) RolloutPhaseHealthy then
              condition ConditionTrue ReasonRolloutHealthy "The Rollout is healthy"
            else if String.eqb (ro_Phase rollout) RolloutPhaseDegraded then
              condition ConditionFalse ReasonRolloutDegraded (rolloutPhaseMessage rollout)
            else condition ConditionFalse ReasonRolloutProgressing (rolloutPhaseMessage rollout)
        end
    end.

(** ** The freeze as a state machine

    The specification: a state, and one measurement per reconcile, [None] when the budget could
    not be measured. *)
Inductive freeze_step : bool -> option float64 -> bool -> Prop :=
  | step_unmeasured frozen : freeze_step frozen None frozen
  | step_exhausted frozen r : fleb r fzero = true -> freeze_step frozen (Some r) true
  | step_recovering r : fleb r fzero = false -> fltb r UnfreezeBudget = true -> freeze_step true (Some r) true
  | step_recovered r : fleb r fzero = false -> fltb r UnfreezeBudget = false -> freeze_step true (Some r) false
  | step_within r : fleb r fzero = false -> freeze_step false (Some r) false.

Definition measurement (report : sloReport) : option float64 :=
  if measured report then Some (remaining_ report) else None.

(** Several reconciles: the states after each. *)
Inductive freeze_run : bool -> list (option float64) -> list bool -> Prop :=
  | run_nil frozen : freeze_run frozen [] []
  | run_cons frozen m frozen' ms states :
      freeze_step frozen m frozen' -> freeze_run frozen' ms states -> freeze_run frozen (m :: ms) (frozen' :: states).

(** The claim as the next reconcile reads it: the new condition stored in its status. *)
Definition with_conditions (claim : ServiceClaim) (cs : list Condition) : ServiceClaim :=
  let st := Status claim in
  mkServiceClaim (Name claim) (Namespace claim) (claim_Labels claim) (Annotations claim) (Generation claim)
    (DeletionTimestamp claim) (Finalizers claim) (Spec claim)
    (mkServiceClaimStatus cs (ErrorBudgetRemaining st) (BurnRate1h st) (ManagedResources st)
       (status_ObservedGeneration st) (LastReconcileTime st) (status_Storage st)).

Section store.
Context `{StatusConditions}.

Definition store_freeze (claim : ServiceClaim) (report : sloReport) (now : Z) : ServiceClaim :=
  with_conditions claim
    (SetStatusCondition (Conditions (Status claim)) (freezeCondition claim report) now).

Fixpoint frozen_states (claim : ServiceClaim) (reports : list (sloReport * Z)) : list bool :=
  match reports with
  | [] => []
  | (report, now) :: rest =>
      let claim' := store_freeze claim report now in
      was_frozen claim' :: frozen_states claim' rest
  end.

(** ** Lemmas *)

Lemma freezeCondition_type claim report :
  cond_Type (freezeCondition claim report) = ConditionDeploysFrozen.
Proof. unfold freezeCondition. by repeat case_match. Qed.

Lemma freezeCondition_status claim report :
  cond_Status (freezeCondition claim report) = ConditionTrue \/
  cond_Status (freezeCondition claim report) = ConditionFalse.
Proof. unfold freezeCondition. repeat case_match; auto. Qed.

Lemma freezeCondition_step claim report :
  freeze_step (was_frozen claim) (measurement report)
    (String.eqb (cond_Status (freezeCondition claim report)) ConditionTrue).
Proof.
  unfold freezeCondition, measurement. destruct (measured report); cbn [negb andb].
  - destruct (fleb (remaining_ report) fzero) eqn:E; [by constructor|].
    destruct (was_frozen claim); cbn [andb]; [|by constructor].
    destruct (fltb (remaining_ report) UnfreezeBudget) eqn:E'; by constructor.
  - destruct (was_frozen claim); constructor.
Qed.

Lemma freeze_step_deterministic frozen m s s' : freeze_step frozen m s -> freeze_step frozen m s' -> s = s'.
Proof. intros H1 H2. inversion H1; inversion H2; congruence. Qed.

Context `{!StatusConditionsLaws}.

Lemma was_frozen_store claim report now :
  was_frozen (store_freeze claim report now) =
  String.eqb (cond_Status (freezeCondition claim report)) ConditionTrue.
Proof.
  unfold was_frozen, store_freeze. cbn [Status with_conditions Conditions].
  destruct (find_set_same (Conditions (Status claim)) (freezeCondition claim report) now) as (c & Hc & _ & Hs & _).
  rewrite freezeCondition_type in Hc. by rewrite Hc, Hs.
Qed.

Lemma frozen_states_run claim reports :
  freeze_run (was_frozen claim) (map (fun rn => measurement rn.1) reports) (frozen_states claim reports).
Proof.
  revert claim. induction reports as [|[report now] rest IH]; intros claim; simpl; constructor; [|apply IH].
  rewrite was_frozen_store. apply freezeCondition_step.
Qed.
End store.

(** Unfreezing takes a measured 5%; freezing takes a measured zero. *)
Lemma freeze_step_change frozen m frozen' :
  freeze_step frozen m frozen' -> frozen <> frozen' ->
  exists r, m = Some r /\ (if frozen' then fleb r fzero = true else fltb r UnfreezeBudget = false /\ fleb r fzero = false).
Proof. intros Hs Hne. inversion Hs; subst; try done; eexists; (split; [done|]); try destruct frozen; done. Qed.

Lemma freeze_run_stays ms states :
  freeze_run true ms states ->
  Forall (fun m => match m with Some r => fltb r UnfreezeBudget = true \/ fleb r fzero = true | None => True end) ms ->
  Forall (eq true) states.
Proof.
  remember true as frozen eqn:Ef. intros Hr. induction Hr as [|frozen m frozen' ms states Hs Hr IH]; intros Hf; [constructor|].
  subst frozen. inversion Hf as [|? ? Hm Hms]; subst.
  assert (frozen' = true) as ->.
  { inversion Hs; subst; try done. by destruct Hm; congruence. }
  constructor; [done|]. by apply IH.
Qed.

(** The last five branches of [readyCondition], on the Rollout alone. *)
Ltac rollout_branches :=
  match goal with
  | |- context [match ?g with Some err => if IsNotFound err then _ else _ | None => _ end] => 
      destruct g as [err|]; [destruct (IsNotFound err) eqn:?|]
  end;
  repeat match goal with
  | |- context [negb (String.eqb ?a ?b)] => destruct (String.eqb_spec a b); cbn [negb]
  | |- context [if String.eqb ?a ?b then _ else _] => destruct (String.eqb_spec a b)
  end; cbn [cond_Status condition_of].

Lemma readyCondition_True_iff `{ApiErrors} claim synced storage rollout getErr :
  cond_Status (readyCondition claim synced storage rollout getErr) = ConditionTrue <->
  cond_Status synced = ConditionTrue /\
  (forall s, storage = Some s -> cond_Status s = ConditionTrue) /\
  getErr = None /\ ro_ObservedGeneration rollout = Itoa (ro_Generation rollout) /\
  ro_Phase rollout = RolloutPhaseHealthy.
Proof.
  unfold readyCondition.
  destruct (String.eqb_spec (cond_Status synced) ConditionTrue) as [->|Hs]; cbn [negb]; [|split; [done|by intros [? _]]].
  assert (forall b : bool, (if b then ConditionUnknown else ConditionFalse) <> ConditionTrue) as Hb by by intros [].
  destruct storage as [s|].
  - destruct (String.eqb_spec (cond_Status s) ConditionTrue) as [Hst|Hst]; cbn [negb].
    + assert (forall s', Some s = Some s' -> cond_Status s' = ConditionTrue) by by intros s' [= <-].
      rollout_branches; (split; [try discriminate|intros (_ & _ & ? & ? & ?)]; done).
    + split; [intros E; by apply Hb in E|]. intros (_ & Hall & _). by destruct (Hst (Hall s eq_refl)).
  - rollout_branches; (split; [try discriminate|intros (_ & _ & ? & ? & ?)]; done).
Qed.

Lemma readyCondition_Unknown `{ApiErrors} claim synced storage rollout getErr :
  cond_Status (readyCondition claim synced storage rollout getErr) = ConditionUnknown ->
  (exists s, storage = Some s /\ cond_Status s = ConditionUnknown) \/
  (exists err, getErr = Some err /\ IsNotFound err = false).
Proof.
  unfold readyCondition.
  destruct (negb (String.eqb (cond_Status synced) ConditionTrue)); [done|].
  destruct storage as [s|].
  - destruct (negb (String.eqb (cond_Status s) ConditionTrue)).
    + destruct (String.eqb_spec (cond_Status s) ConditionUnknown); [by eauto|done].
    + rollout_branches; try done. intros _. right. eauto.
  - rollout_branches; try done. intros _. right. eauto.
Qed.

(** ** Properties *)

(** C12: The deploy freeze is the hysteresis machine of the specification. Storing each reconcile's
    DeploysFrozen condition and reading it back on the next one, the states over any sequence of
    reports are a run of [freeze_step]: frozen at zero budget, unfrozen only by a measured share
    of at least 5%, and unchanged while the budget cannot be measured. *)
Theorem freeze_refines `{StatusConditionsLaws} (claim : ServiceClaim) (reports : list (sloReport * Z)) :
  freeze_run (was_frozen claim) (map (fun rn => measurement rn.1) reports) (frozen_states claim reports).
Proof. apply frozen_states_run. Qed.

Definition report_with (r : float64) : sloReport :=
  mkSloReport (slo_condition sample_claim ConditionTrue ReasonWithinBudget "") true r (FormatPercent r) "".
Definition sample_reports : list (sloReport * Z) :=
  [(report_with fzero, 1); (report_with (float_of_quot false 3 100), 2); (report_with (float_of_quot false 5 100), 3);
   (report_with (float_of_quot false 3 100), 4)].

Lemma freeze_refines_witness :
  frozen_states sample_claim sample_reports = [true; true; false; false] /\
  freeze_run (was_frozen sample_claim) (map (fun rn => measurement rn.1) sample_reports)
    (frozen_states sample_claim sample_reports).
Proof. split; [vm_compute; reflexivity|]. exact (freeze_refines sample_claim sample_reports). Defined.

(** No flapping: from a frozen claim, as long as every budget that is measured is below 5%,
    whatever it is and however often it cannot be measured, the claim stays frozen. *)
Theorem freeze_no_flapping `{StatusConditionsLaws} (claim : ServiceClaim) (reports : list (sloReport * Z)) :
  was_frozen claim = true ->
  Forall (fun rn => measured rn.1 = true -> fltb (remaining_ rn.1) UnfreezeBudget = true \/ fleb (remaining_ rn.1) fzero = true) reports ->
  Forall (eq true) (frozen_states claim reports).
Proof.
  intros Hw Hf. pose proof (frozen_states_run claim reports) as Hr. rewrite Hw in Hr.
  eapply freeze_run_stays; [exact Hr|]. apply Forall_map. eapply Forall_impl; [exact Hf|].
  intros rn. unfold measurement. destruct (measured rn.1); auto.
Qed.

Lemma freeze_no_flapping_witness :
  let claim := store_freeze sample_claim (report_with fzero) 0 in
  Forall (eq true) (frozen_states claim [(report_with (float_of_quot false 3 100), 2); (report_with fzero, 3)]).
Proof.
  intros claim. apply freeze_no_flapping; [vm_compute; reflexivity|].
  repeat constructor; intros _; vm_compute; auto.
Defined.

(** Ready is True exactly when every managed resource is applied, the storage, if any, is
    ready, and Argo Rollouts reports the Rollout, read without error, healthy at the generation
    the API server has. Otherwise its status and reason are those of the first of these that
    fails, and it is Unknown only when the storage is or when the Rollout could not be read. *)
Theorem readyCondition_true `{ApiErrors} (claim : ServiceClaim) (synced : Condition) (storage : option Condition)
    (rollout : LiveRollout) (getErr : option error) :
  let c := readyCondition claim synced storage rollout getErr in
  let storage_ok := forall s, storage = Some s -> cond_Status s = ConditionTrue in
  (cond_Status c = ConditionTrue <->
     cond_Status synced = ConditionTrue /\ storage_ok /\ getErr = None /\
     ro_ObservedGeneration rollout = Itoa (ro_Generation rollout) /\ ro_Phase rollout = RolloutPhaseHealthy) /\
  (cond_Status synced <> ConditionTrue -> (cond_Status c, cond_Reason c) = (ConditionFalse, cond_Reason synced)) /\
  (forall s, cond_Status synced = ConditionTrue -> storage = Some s -> cond_Status s <> ConditionTrue ->
     (cond_Status c, cond_Reason c) =
     (if String.eqb (cond_Status s) ConditionUnknown then ConditionUnknown else ConditionFalse, cond_Reason s)) /\
  (forall err, cond_Status synced = ConditionTrue -> storage_ok -> getErr = Some err ->
     (cond_Status c, cond_Reason c) =
     if IsNotFound err then (ConditionFalse, ReasonRolloutNotFound) else (ConditionUnknown, ReasonRolloutUnreadable)) /\
  (cond_Status c = ConditionUnknown ->
     (exists s, storage = Some s /\ cond_Status s = ConditionUnknown) \/
     (exists err, getErr = Some err /\ IsNotFound err = false)).
Proof.
  intros c storage_ok. unfold storage_ok. split; [apply readyCondition_True_iff|]. split.
  { intros Hs. apply String.eqb_neq in Hs. unfold c, readyCondition. by rewrite Hs. }
  split.
  { intros s Hs -> Hst. apply String.eqb_neq in Hst. unfold c, readyCondition. rewrite Hs, Hst. done. }
  split; [|apply readyCondition_Unknown].
  intros err Hs Hst ->. unfold c, readyCondition. rewrite Hs. cbn [negb String.eqb].
  destruct storage as [s|]; [rewrite (Hst s eq_refl)|]; by destruct (IsNotFound err).
Qed.
