(* ===== verification/Webhook.v ===== *)
(** * The validating webhook ([internal/webhook/v1alpha1/serviceclaim_webhook.go])

    It rejects image changes while a claim's deploys are frozen, unless the update sets a fresh
    break-glass reason, which is audited in an Event. *)
From Stdlib Require Import ZArith Lia Ascii String SpecFloat.
From S2P Require Import Prelude GoFloat GoStrings GoStrconv GoJson Utf8 Api Kubernetes Instances Storage Effects.
From S2P Require Import Freeze.
Local Open Scope Z_scope.
Local Open Scope stdpp_scope.

(** ** Definitions *)

Definition BreakGlassAnnotation : string := "paved.dev/break-glass".
Definition ReasonBreakGlassUsed : string := "BreakGlassUsed".
Definition eventNoteLimit : Z := 1024.

Record DeploysFrozenError := mkDeploysFrozenError {
  frozen_Claim : string;
  frozen_Window : string;
  frozen_Budget : string;
  frozen_BurnRate : string
}.

Definition DeploysFrozenError_text (e : DeploysFrozenError) : string :=
  Sprintf ["deploys frozen: "; frozen_Claim e; " has "; frozen_Budget e; " error budget remaining in a ";
           frozen_Window e; " window (burn rate "; frozen_BurnRate e; "). Override with annotation ";
           BreakGlassAnnotation; "="; dquote; "<reason>"; dquote; " — this is audited."].

(** The admission request in the context: the user, and the dry-run flag, a pointer. *)
Record AdmissionRequest := mkAdmissionRequest { Username : string; DryRun : option bool }.

(** [req.DryRun != nil && *req.DryRun] *)
Definition dry_run (req : AdmissionRequest) : bool := match DryRun req with Some b => b | None => false end.

(** [(admission.Warnings, error)], the error being a [DeploysFrozenError] or another one. *)
Inductive verdict :=
  | Allowed (warnings : list string)
  | Frozen (e : DeploysFrozenError)
  | Failed (e : error).

Definition admits_update (v : verdict) : bool := match v with Allowed _ => true | _ => false end.

(** [m[k]] of a Go map of strings: the empty string when absent. *)
Definition map_get (k : string) (m : gmap string string) : string := default "" (m !! k).

Definition breakGlassReason (oldClaim newClaim : ServiceClaim) : option string :=
  let value := map_get BreakGlassAnnotation (Annotations newClaim) in
  let reason := TrimSpace value in
  if String.eqb reason "" || String.eqb value (map_get BreakGlassAnnotation (Annotations oldClaim)) then None
  else Some reason.

Definition budgetForMessage (recorded : string) : string :=
  if String.eqb recorded "" then "unknown" else ReplaceFirst recorded ".0%" "%".

Definition burnRateForMessage (recorded : string) : string :=
  match ParseFloat recorded with
  | None => "unknown"
  | Some rate => FormatFixed rate 1 +:+ "x"
  end.

(** [for cut > 0 && !utf8.RuneStart(s[cut]) { cut-- }] *)
Fixpoint back_to_rune_start (s : string) (cut : nat) : nat :=
  match cut with
  | O => O
  | S cut' =>
      match String.get cut s with
      | Some c => if RuneStart c then cut else back_to_rune_start s cut'
      | None => cut
      end
  end.

Definition ellipsis : string := "…".

(** [limit - len(ellipsis)] is taken as a natural number: Go panics on a negative slice bound, and
    the only limit used is 1024. *)
Definition truncate (s : string) (limit : Z) : string :=
  if len s <=? limit then s
  else take_bytes (back_to_rune_start s (Z.to_nat (limit - len ellipsis))) s +:+ ellipsis.

Definition ValidateCreate (claim : ServiceClaim) : prog verdict := Ret (Allowed []).
Definition ValidateDelete (claim : ServiceClaim) : prog verdict := Ret (Allowed []).

(** [request] is what [admission.RequestFromContext] returned. [recorder] is whether there is an
    event recorder. *)
Definition ValidateUpdate `{StatusConditions} (recorder : bool) (request : result AdmissionRequest)
    (oldClaim newClaim : ServiceClaim) : prog verdict :=
  let frozen := IsStatusConditionTrue (Conditions (Status oldClaim)) ConditionDeploysFrozen in
  if negb frozen || String.eqb (Image (Spec oldClaim)) (Image (Spec newClaim)) then Ret (Allowed [])
  else
    match breakGlassReason oldClaim newClaim with
    | None =>
        Ret (Frozen {| frozen_Claim := Name oldClaim;
                       frozen_Window := Window (SLO (Spec oldClaim));
                       frozen_Budget := budgetForMessage (ErrorBudgetRemaining (Status oldClaim));
                       frozen_BurnRate := burnRateForMessage (BurnRate1h (Status oldClaim)) |})
    | Some reason =>
        match request with
        | Err err =>
            Ret (Failed (WrapError (Sprintf ["reading the admission request to audit break-glass: "; Error err]) err))
        | Ok req =>
            let dryRun := dry_run req in
            _ ← (if recorder && negb dryRun then
                   let note := Sprintf [Username req; " changed the image from "; Image (Spec oldClaim); " to ";
                                        Image (Spec newClaim); " during a deploy freeze: "; reason] in
                   do_call (Eventf newClaim EventTypeWarning ReasonBreakGlassUsed "UpdateImage" (truncate note eventNoteLimit))
                 else Ret tt);
            Ret (Allowed [Sprintf ["deploys are frozen: this image change was let through by "; BreakGlassAnnotation;
                                    " and recorded in a "; ReasonBreakGlassUsed; " Event"]])
        end
    end.

(** ** Lemmas *)

Lemma get_drop_bytes n s : String.get n s = match drop_bytes n s with String c _ => Some c | EmptyString => None end.
Proof. revert s. induction n as [|n IH]; intros [|c s]; simpl; done. Qed.

Lemma drop_bytes_nonempty n s : (n < String.length s)%nat -> exists c t, drop_bytes n s = String c t.
Proof.
  revert s. induction n as [|n IH]; intros [|c s] Hl; simpl in *; try lia; [by eexists; eexists|].
  apply IH. lia.
Qed.

Lemma back_to_rune_start_le s cut : (back_to_rune_start s cut <= cut)%nat.
Proof.
  induction cut as [|cut IH]; [done|]. cbn [back_to_rune_start].
  destruct (String.get (S cut) s) as [c|]; [|lia]. destruct (RuneStart c); lia.
Qed.

Lemma back_to_rune_start_boundary s cut :
  (cut < String.length s)%nat ->
  back_to_rune_start s cut = O \/ boundary (back_to_rune_start s cut) s.
Proof.
  induction cut as [|cut IH]; intros Hl; [by left|]. cbn [back_to_rune_start].
  rewrite get_drop_bytes. destruct (drop_bytes_nonempty (S cut) s Hl) as (c & t & E). rewrite E.
  destruct (RuneStart c) eqn:Hc; [right; unfold boundary; by rewrite E|]. apply IH. lia.
Qed.

Lemma truncate_len s limit : len ellipsis <= limit -> len (truncate s limit) <= limit.
Proof.
  intros Hl. unfold truncate. destruct (Z.leb_spec (len s) limit); [done|].
  pose proof (back_to_rune_start_le s (Z.to_nat (limit - len ellipsis))) as Hc. unfold len in *.
  rewrite length_append, length_take_bytes; lia.
Qed.

Lemma truncate_valid s limit :
  len ellipsis <= limit -> valid_utf8 s = true -> valid_utf8 (truncate s limit) = true.
Proof.
  intros Hl Hv. unfold truncate. destruct (Z.leb_spec (len s) limit); [done|].
  set (cut := Z.to_nat (limit - len ellipsis)).
  assert (cut < String.length s)%nat as Hcut by (unfold cut, len in *; lia).
  pose proof (back_to_rune_start_le s cut) as Hle.
  destruct (back_to_rune_start_boundary s cut Hcut) as [->|Hb]; [by destruct s|].
  rewrite valid_utf8_truncate by (done || lia). done.
Qed.

(** What an update asks for during a freeze. *)
Definition changes_image (oldClaim newClaim : ServiceClaim) : bool :=
  negb (String.eqb (Image (Spec oldClaim)) (Image (Spec newClaim))).

Lemma ValidateUpdate_runs `{StatusConditions} recorder request oldClaim newClaim tr v :
  runs (ValidateUpdate recorder request oldClaim newClaim) tr v ->
  let frozen := IsStatusConditionTrue (Conditions (Status oldClaim)) ConditionDeploysFrozen in
  (tr = [] /\ v = Allowed [] /\ frozen && changes_image oldClaim newClaim = false) \/
  (frozen && changes_image oldClaim newClaim = true /\
   ((tr = [] /\ breakGlassReason oldClaim newClaim = None /\ exists e, v = Frozen e) \/
    (exists reason, breakGlassReason oldClaim newClaim = Some reason /\
      ((exists err e, request = Err err /\ tr = [] /\ v = Failed e) \/
       (exists req w, request = Ok req /\ v = Allowed [w] /\
         (if recorder && negb (dry_run req)
          then exists u note, tr = [Ev (Eventf newClaim EventTypeWarning ReasonBreakGlassUsed "UpdateImage" (truncate note eventNoteLimit)) u]
          else tr = [])))))).
Proof.
  intros Hr frozen. unfold ValidateUpdate in Hr. fold frozen in Hr. unfold changes_image.
  destruct frozen, (String.eqb (Image (Spec oldClaim)) (Image (Spec newClaim))); cbn [negb orb andb] in *;
    try (destruct Hr as [-> ->]; by left).
  right. split; [done|]. destruct (breakGlassReason oldClaim newClaim) as [reason|]; [right|destruct Hr as [-> ->]; left; eauto].
  exists reason. split; [done|]. destruct request as [req|err]; [right|destruct Hr as [-> ->]; left; eauto 10].
  exists req. destruct (recorder && negb (dry_run req)).
  - destruct Hr as (u & tr' & -> & [-> ->]). eexists. split; [done|]. split; [done|].
    eauto.
  - destruct Hr as [-> ->]. eexists. split; [done|]. done.
Qed.

(** ** Properties *)

(** An Event note never exceeds the 1024 bytes Kubernetes accepts, whatever the user, the
    images and the reason are, and a note that is valid UTF-8 stays valid: the cut never splits a
    character. *)
Theorem note_fits (note : string) :
  len (truncate note eventNoteLimit) <= eventNoteLimit /\
  (valid_utf8 note = true -> valid_utf8 (truncate note eventNoteLimit) = true) /\
  (len note <= eventNoteLimit -> truncate note eventNoteLimit = note).
Proof.
  split; [by apply truncate_len|]. split; [by apply truncate_valid|].
  unfold truncate. intros Hl. by destruct (Z.leb_spec (len note) eventNoteLimit); [|lia].
Qed.

(** What counts as a fresh reason. *)
Lemma breakGlassReason_spec oldClaim newClaim :
  let value claim := default "" (Annotations claim !! BreakGlassAnnotation) in
  let fresh := TrimSpace (value newClaim) <> "" /\ value newClaim <> value oldClaim in
  match breakGlassReason oldClaim newClaim with
  | Some reason => reason = TrimSpace (value newClaim) /\ fresh
  | None => ~ fresh
  end.
Proof.
  unfold breakGlassReason, map_get. cbv zeta.
  destruct (String.eqb_spec (TrimSpace (default "" (Annotations newClaim !! BreakGlassAnnotation))) "") as [E|E]; cbn [orb].
  - by intros [? _].
  - destruct (String.eqb_spec (default "" (Annotations newClaim !! BreakGlassAnnotation))
      (default "" (Annotations oldClaim !! BreakGlassAnnotation))); [by intros [_ ?]|done].
Qed.

(** C15: The whole decision on an update. One that leaves the image alone, or finds the stored claim
    unfrozen, is admitted silently. During a freeze an image change needs a break-glass reason that
    is not blank and not the one already stored: without it the update is rejected with the stored
    claim's numbers, and nothing is recorded. With it, a request that cannot be read, and so names no
    user, fails; any other is admitted with a warning, and audited: exactly one Warning Event
    BreakGlassUsed on the claim as updated, whose note names the user, both images and the reason and
    is whole when it fits the 1024 bytes of a note, unless it is a dry run or there is no recorder. *)
Theorem ValidateUpdate_decision `{StatusConditions} (recorder : bool) (request : result AdmissionRequest)
    (oldClaim newClaim : ServiceClaim) (tr : list event) (v : verdict) :
  runs (ValidateUpdate recorder request oldClaim newClaim) tr v ->
  let value claim := default "" (Annotations claim !! "paved.dev/break-glass") in
  let reason := TrimSpace (value newClaim) in
  let fresh := reason <> "" /\ value newClaim <> value oldClaim in
  let gated := IsStatusConditionTrue (Conditions (Status oldClaim)) "DeploysFrozen" = true /\
               Image (Spec oldClaim) <> Image (Spec newClaim) in
  ((exists e, v = Frozen e) <-> gated /\ ~ fresh) /\
  (~ gated -> v = Allowed [] /\ tr = []) /\
  (gated -> ~ fresh -> tr = [] /\
     v = Frozen (mkDeploysFrozenError (Name oldClaim) (Window (SLO (Spec oldClaim)))
                   (budgetForMessage (ErrorBudgetRemaining (Status oldClaim))) (burnRateForMessage (BurnRate1h (Status oldClaim))))) /\
  (gated -> fresh ->
     match request with
     | Err _ => tr = [] /\ exists e, v = Failed e
     | Ok req =>
         let full := Sprintf [Username req; " changed the image from "; Image (Spec oldClaim); " to "; Image (Spec newClaim);
                              " during a deploy freeze: "; reason] in
         let note := truncate full 1024 in
         (exists warning, v = Allowed [warning]) /\
         tr = (if recorder && negb (dry_run req)
               then [Ev (Eventf newClaim "Warning" "BreakGlassUsed" "UpdateImage" note) tt] else []) /\
         len note <= 1024 /\ (len full <= 1024 -> note = full)
     end).
Proof.
  intros Hr value reason fresh gated. unfold ValidateUpdate in Hr. pose proof (breakGlassReason_spec oldClaim newClaim) as Hb.
  assert (IsStatusConditionTrue (Conditions (Status oldClaim)) ConditionDeploysFrozen = true /\
    String.eqb (Image (Spec oldClaim)) (Image (Spec newClaim)) = false <-> gated) as Hg
    by (unfold gated; by rewrite String.eqb_neq).
  revert Hg Hr. clearbody gated. destruct (IsStatusConditionTrue _ _), (String.eqb _ _); cbn [negb orb];
    try (intros Hg [-> ->]; assert (~ gated) as Hn by (intros []%Hg; done);
         split; [by split; [intros []|intros []]|]; split; [done|]; by split).
  intros Hg. assert gated as Hgated by by apply Hg. clear Hg.
  destruct (breakGlassReason oldClaim newClaim) as [given|].
  - destruct Hb as [-> Hfresh]. change (fresh) in Hfresh. destruct request as [req|err].
    + pose proof (note_fits (Sprintf [Username req; " changed the image from "; Image (Spec oldClaim); " to ";
        Image (Spec newClaim); " during a deploy freeze: "; reason])) as (Hlen & _ & Hwhole).
      intros Hr. assert (exists warning, v = Allowed [warning]) as Hv
        by (destruct (recorder && _); [destruct Hr as (u & tr' & _ & [_ ->])|destruct Hr as [_ ->]]; eauto).
      split; [split; [by destruct Hv as [w ->]; intros []|by intros [_ []]]|]. split; [done|]. split; [done|]. intros _ _. split; [done|].
      split; [|by split]. destruct (recorder && _); [destruct Hr as ([] & tr' & -> & [-> _]); done|by destruct Hr].
    + intros [-> ->]. split; [split; [by intros []|by intros [_ []]]|]. split; [done|]. split; [done|]. eauto.
  - intros [-> ->]. split; [split; [done|by eauto]|]. split; [done|]. split; done.
Qed.

Definition frozen_claim : ServiceClaim :=
  with_conditions sample_claim [condition_of sample_claim ConditionDeploysFrozen ConditionTrue "BudgetExhausted" ""].
Definition with_image (claim : ServiceClaim) (image : string) (reason : string) : ServiceClaim :=
  let sp := Spec claim in
  mkServiceClaim (Name claim) (Namespace claim) (claim_Labels claim) {[BreakGlassAnnotation := reason]}
    (Generation claim) (DeletionTimestamp claim) (Finalizers claim)
    (mkServiceClaimSpec (Owner sp) image (Port sp) (Tier sp) (SLI sp) (SLO sp) (Scale sp) (Storage sp)) (Status claim).

(** A blank reason does not count; a new one does, and is audited. *)
Lemma ValidateUpdate_decision_witness :
  let request := Ok (mkAdmissionRequest "kim" None) in
  let update := with_image frozen_claim "img:2" in
  (forall tr v, runs (ValidateUpdate true request frozen_claim (update " ")) tr v -> tr = []) /\
  runs (ValidateUpdate true request frozen_claim (update "incident 7"))
    [Ev (Eventf (update "incident 7") "Warning" "BreakGlassUsed" "UpdateImage"
       "kim changed the image from img:1 to img:2 during a deploy freeze: incident 7") tt]
    (Allowed ["deploys are frozen: this image change was let through by paved.dev/break-glass and recorded in a BreakGlassUsed Event"]).
Proof.
  intros request update. split.
  - intros tr v Hr. apply (ValidateUpdate_decision true request frozen_claim (update " ") tr v Hr);
      [split; [reflexivity|vm_compute; discriminate]|]. intros [Hreason _]. by apply Hreason.
  - assert (exists tr v, runs (ValidateUpdate true request frozen_claim (update "incident 7")) tr v) as (tr & v & Hr).
    { do 2 eexists. exists tt. eexists. split; [reflexivity|]. split; reflexivity. }
    pose proof (ValidateUpdate_decision true request frozen_claim (update "incident 7") tr v Hr) as (_ & _ & _ & Hd).
    destruct Hd as (_ & Htr & _); [split; [reflexivity|vm_compute; discriminate]|split; vm_compute; discriminate|].
    assert (v = Allowed ["deploys are frozen: this image change was let through by paved.dev/break-glass and recorded in a BreakGlassUsed Event"]) as Hv.
    { by destruct Hr as (u & tr' & _ & [_ ->]). }
    rewrite Htr, Hv in Hr. exact Hr.
Defined.

(** A break-glass reason is good for one update. Once an update carrying it is stored, a later
    image change under the same annotation is rejected for as long as the deploys stay frozen; and
    a blank reason is none. *)
Theorem break_glass_single_use `{StatusConditions} (recorder : bool) (request : result AdmissionRequest)
    (stored next : ServiceClaim) (tr : list event) (v : verdict) :
  IsStatusConditionTrue (Conditions (Status stored)) ConditionDeploysFrozen = true ->
  changes_image stored next = true ->
  map_get BreakGlassAnnotation (Annotations next) = map_get BreakGlassAnnotation (Annotations stored) \/
  TrimSpace (map_get BreakGlassAnnotation (Annotations next)) = "" ->
  runs (ValidateUpdate recorder request stored next) tr v -> (exists e, v = Frozen e) /\ tr = [].
Proof.
  intros Hf Hi Ha Hr%ValidateUpdate_runs. cbv zeta in Hr. rewrite Hf, Hi in Hr.
  assert (breakGlassReason stored next = None) as Hb.
  { unfold breakGlassReason. destruct Ha as [->| ->]; [by rewrite String.eqb_refl, orb_true_r|done]. }
  destruct Hr as [(_ & _ & ?)|(_ & [(-> & _ & ?)|(reason & Hsome & _)])]; [done|done|congruence].
Qed.

Lemma break_glass_single_use_witness :
  (exists e, Frozen (mkDeploysFrozenError "shortlink" "28d" "unknown" "unknown") = Frozen e) /\ @nil event = [].
Proof.
  apply (break_glass_single_use true (Ok (mkAdmissionRequest "kim" None)) (with_image frozen_claim "img:2" "incident 7")
    (with_image frozen_claim "img:3" "incident 7")); [reflexivity|reflexivity|left; reflexivity|].
  vm_compute. split; reflexivity.
Defined.

Fixpoint repeat_string (n : nat) (s : string) : string :=
  match n with O => EmptyString | S n' => s +:+ repeat_string n' s end.

Lemma note_fits_witness :
  let note := repeat_string 600 "é" in
  len (truncate note eventNoteLimit) = 1023 /\ valid_utf8 (truncate note eventNoteLimit) = true.
Proof.
  intros note. split; [vm_compute; reflexivity|].
  apply (note_fits note). vm_compute. reflexivity.
Defined.
