(* ===== verification/StorageStatus.v ===== *)
(** * Whether a claim's storage exists ([internal/controller/storage.go])

    The link to AWS is read from the environment at start-up; each reconcile reads the claim's two
    ACK objects and reports on them. *)
From Stdlib Require Import ZArith Lia Ascii String.
From S2P Require Import Prelude GoStrings GoJson Api Kubernetes Instances Meta Storage Effects SloStatus Freeze.
Local Open Scope Z_scope.
Local Open Scope stdpp_scope.

(** ** Definitions *)

Definition EnvAWSAccountID : string := "PAVED_AWS_ACCOUNT_ID".
Definition EnvAWSRegion : string := "PAVED_AWS_REGION".
Definition EnvAWSOIDCIssuer : string := "PAVED_AWS_OIDC_ISSUER".
Definition EnvAWSPermissionsBoundaryARN : string := "PAVED_AWS_PERMISSIONS_BOUNDARY_ARN".

Definition ReasonStorageProvisioned : string := "Provisioned".
Definition ReasonStorageProvisioning : string := "Provisioning".
Definition ReasonStorageFailed : string := "ProvisioningFailed".
Definition ReasonStorageUnavailable : string := "StorageUnavailable".
Definition ReasonStorageUnreadable : string := "StorageUnreadable".

Definition ackResourceSynced : string := "ACK.ResourceSynced".
Definition ackTerminal : string := "ACK.Terminal".
Definition ackRecoverable : string := "ACK.Recoverable".
Definition ackTrue : string := "True".

Definition StorageConfigFromEnv `{UnicodePrint} (getenv : string -> string) : result (option StorageConfig) :=
  let storage := {| AccountID := getenv EnvAWSAccountID;
                    Region := getenv EnvAWSRegion;
                    Issuer := getenv EnvAWSOIDCIssuer;
                    PermissionsBoundaryARN := getenv EnvAWSPermissionsBoundaryARN |} in
  let values := [AccountID storage; Region storage; Issuer storage; PermissionsBoundaryARN storage] in
  let set_ := length (List.filter (fun value => negb (String.eqb value "")) values) in
  if Nat.eqb set_ 0 then Ok None
  else if Nat.eqb set_ (length values) then
    match Validate storage with
    | Some err => Err (WrapError (Sprintf ["invalid AWS storage settings: "; Error err]) err)
    | None => Ok (Some storage)
    end
  else Err (ErrorString (Sprintf ["set all of "; EnvAWSAccountID; ", "; EnvAWSRegion; ", "; EnvAWSOIDCIssuer; " and ";
                                  EnvAWSPermissionsBoundaryARN; ", or none of them"])).

(** The part of an ACK condition the program reads. *)
Record ackCondition := mkAckCondition { ack_Type : string; ack_Status : string; ack_Message : string }.
Definition zero_ack : ackCondition := mkAckCondition "" "" "".

(** [runtime.DefaultUnstructuredConverter.FromUnstructured] into a struct with a list of these. *)
Class AckConverter := FromUnstructured : json -> result (list ackCondition).

(** [mapper.RESTMapping(gk, version)]: nil, or an error. *)
Class RESTMapper := RESTMapping : GroupVersionKind -> option error.

Definition ackStatusField : string := "status".

Definition firstError (errs : list (option error)) : option error :=
  match omap id errs with [] => None | e :: _ => Some e end.
Definition firstNonEmpty (values : list string) : string :=
  default "" (List.find (fun v => negb (String.eqb v "")) values).

Record storageReport := mkStorageReport {
  storage_condition : option Condition;
  storage_status : option StorageStatus
}.

Record observedACKObject := mkObserved {
  obs_kind : string;
  obs_object : option json;
  obs_err : option error
}.

Section ack.
Context `{Unstructured}.

Definition objectRef (u : json) : string :=
  if String.eqb (GetNamespace u) "" then GetName u else Sprintf [GetNamespace u; "/"; GetName u].

Definition ServesStorageKinds `{RESTMapper} : option error :=
  firstError (map (fun obj =>
    let gvk := GVK obj in
    match RESTMapping gvk with
    | Some err => Some (WrapError (Sprintf ["the API server doesn't serve "; gvk_text gvk; ": "; Error err]) err)
    | None => None
    end) StorageTypes).

(** The map is by type; of two conditions of one type the later one is kept. *)
Definition ackConditions `{AckConverter} (obj : option json) : result (gmap string ackCondition) :=
  match obj with
  | None => Ok ∅
  | Some u =>
      match NestedMap u ackStatusField with
      | Err err => Err (WrapError (Sprintf ["status of "; GetKind u; " "; objectRef u; ": "; Error err]) err)
      | Ok None => Ok ∅
      | Ok (Some raw) =>
          match FromUnstructured raw with
          | Err err => Err (WrapError (Sprintf ["conditions of "; GetKind u; " "; objectRef u; ": "; Error err]) err)
          | Ok cs => Ok (map_of (map (fun c => (ack_Type c, c)) cs))
          end
      end
  end.

Context `{AckConverter, ApiErrors}.

(** A missing key of the map reads as the zero condition. *)
Definition ack_get (conditions : gmap string ackCondition) (t : string) : ackCondition :=
  default zero_ack (conditions !! t).

(** One round of the loop of [storageCondition]: a verdict that ends it, or [None]. *)
Definition ack_verdict (claim : ServiceClaim) (o : observedACKObject) : option Condition :=
  let condition := condition_of claim ConditionStorageReady in
  if match obs_err o with Some err => IsNotFound err | None => false end then
    Some (condition ConditionFalse ReasonStorageProvisioning (Sprintf ["The ACK "; obs_kind o; " does not exist yet"]))
  else
    let read := ackConditions (obs_object o) in
    match firstError [obs_err o; match read with Err err => Some err | Ok _ => None end], read with
    | Some err, _ =>
        Some (condition ConditionUnknown ReasonStorageUnreadable
          (Sprintf ["Reading the ACK "; obs_kind o; ": "; Error err]))
    | None, Err _ => None
    | None, Ok conditions =>
        let terminal := ack_get conditions ackTerminal in
        let synced := ack_get conditions ackResourceSynced in
        if String.eqb (ack_Status terminal) ackTrue then
          Some (condition ConditionFalse ReasonStorageFailed
            (Sprintf ["ACK can't create the "; obs_kind o; " in AWS: "; ack_Message terminal]))
        else if negb (String.eqb (ack_Status synced) ackTrue) then
          let message := Sprintf ["ACK has not synced the "; obs_kind o; " with AWS yet"] in
          let detail := firstNonEmpty [ack_Message (ack_get conditions ackRecoverable); ack_Message synced] in
          Some (condition ConditionFalse ReasonStorageProvisioning
            (if String.eqb detail "" then message else Sprintf [message; ": "; detail]))
        else None
    end.

Fixpoint storageCondition (claim : ServiceClaim) (observed : list observedACKObject) : Condition :=
  match observed with
  | [] => condition_of claim ConditionStorageReady ConditionTrue ReasonStorageProvisioned
            "ACK has created the claim's role and bucket in AWS"
  | o :: rest =>
      match ack_verdict claim o with
      | Some condition => condition
      | None => storageCondition claim rest
      end
  end.

(** The loop over the kinds: an object that could not be read keeps the kind it was asked for. *)
Fixpoint observeACK (reader : Reader) (key : NamespacedName) (kinds : list json) : prog (list observedACKObject) :=
  match kinds with
  | [] => Ret []
  | kind :: rest =>
      answer ← do_call (GetUnstructured reader (GVK kind) key);
      let obj := match answer with Ok u => u | Err _ => newUnstructured (GVK kind) end in
      let o := {| obs_kind := GetKind obj;
                  obs_object := Some obj;
                  obs_err := match answer with Ok _ => None | Err err => Some err end |} in
      os ← observeACK reader key rest;
      Ret (o :: os)
  end.

(** [api_reader] is whether the reconciler has an APIReader; [storage] is its link to AWS. *)
Definition evaluateStorage (api_reader : bool) (storage : option StorageConfig) (claim : ServiceClaim)
  : prog storageReport :=
  if negb (Storage (Spec claim)) then Ret (mkStorageReport None None)
  else
    match storage with
    | None =>
        Ret {| storage_condition := Some (condition_of claim ConditionStorageReady ConditionFalse ReasonStorageUnavailable
                 "This cluster isn't linked to an AWS account, so the claim's bucket and role can't be created");
               storage_status := None |}
    | Some config =>
        let reader := if api_reader then APIReader else CachedClient in
        let key := mkNamespacedName (NamespaceName claim) (Name claim) in
        observed ← observeACK reader key StorageTypes;
        Ret {| storage_condition := Some (storageCondition claim observed);
               storage_status := Some {| status_Bucket := StorageBucketName claim config;
                                         status_RoleARN := StorageRoleARN claim config |} |}
    end.

(** ** Lemmas *)

(** ACK reports the object synced and has not given up on it. *)
Definition ack_synced (o : observedACKObject) : Prop :=
  obs_err o = None /\ exists conditions, ackConditions (obs_object o) = Ok conditions /\
    ack_Status (ack_get conditions ackTerminal) <> ackTrue /\
    ack_Status (ack_get conditions ackResourceSynced) = ackTrue.

Lemma ack_verdict_None claim o : ack_verdict claim o = None <-> ack_synced o.
Proof.
  unfold ack_verdict, ack_synced. destruct (obs_err o) as [err|].
  - destruct (IsNotFound err); (split; [done|by intros [? _]]).
  - destruct (ackConditions (obs_object o)) as [cs|e]; cbn [firstError]; simpl.
    + destruct (String.eqb_spec (ack_Status (ack_get cs ackTerminal)) ackTrue); simpl.
      * split; [done|]. by intros (_ & cs' & [= <-] & ? & _).
      * destruct (String.eqb_spec (ack_Status (ack_get cs ackResourceSynced)) ackTrue); simpl.
        -- split; [|done]. intros _. eauto 10.
        -- split; [done|]. by intros (_ & cs' & [= <-] & _ & ?).
    + split; [done|]. by intros (_ & cs' & ? & _).
Qed.

Lemma ack_verdict_status claim o c :
  ack_verdict claim o = Some c ->
  cond_Status c = ConditionFalse \/
  (cond_Status c = ConditionUnknown /\ cond_Reason c = ReasonStorageUnreadable /\
   (forall err, obs_err o = Some err -> IsNotFound err = false)).
Proof.
  unfold ack_verdict. destruct (obs_err o) as [err|].
  - destruct (IsNotFound err) eqn:E; [by intros [= <-]; left|]. intros [= <-]. right.
    repeat split. by intros ? [= <-].
  - destruct (ackConditions (obs_object o)) as [cs|e]; cbn [firstError]; simpl.
    + destruct (String.eqb _ ackTrue); [by intros [= <-]; left|].
      destruct (negb _); [by intros [= <-]; left|done].
    + intros [= <-]. right. by repeat split.
Qed.

(** Its calls are reads of the ACK kinds under the claim's key. *)
Lemma evaluateStorage_every P api_reader storage claim :
  (forall reader kind x, In kind StorageTypes ->
     P (Ev (GetUnstructured reader (GVK kind) (mkNamespacedName (NamespaceName claim) (Name claim))) x) = true) ->
  every P (evaluateStorage api_reader storage claim).
Proof.
  unfold evaluateStorage. generalize StorageTypes. intros kinds Hkinds. repeat every_step.
  induction kinds as [|kind kinds IH]; [apply every_ret|]. cbn [observeACK].
  every_step; [every_step; apply Hkinds; by left|]. every_step; [|apply every_ret].
  apply IH. intros reader kind' x Hin. apply Hkinds. by right.
Qed.

Lemma evaluateStorage_read_only api_reader storage claim : read_only (evaluateStorage api_reader storage claim).
Proof. by apply evaluateStorage_every. Qed.
End ack.

Lemma storageCondition_true `{Unstructured, AckConverter, ApiErrors} claim observed :
  cond_Status (storageCondition claim observed) = ConditionTrue <-> Forall ack_synced observed.
Proof.
  induction observed as [|o rest IH]; simpl; [split; [constructor|done]|].
  rewrite Forall_cons, <- (ack_verdict_None claim o). destruct (ack_verdict claim o) as [c|] eqn:E.
  - split; [|by intros [? _]]. intros Hc. by destruct (ack_verdict_status claim o c E) as [Hs|[Hs _]]; rewrite Hs in Hc.
  - rewrite IH. tauto.
Qed.

Lemma storageCondition_unknown `{Unstructured, AckConverter, ApiErrors} claim observed :
  cond_Status (storageCondition claim observed) = ConditionUnknown ->
  cond_Reason (storageCondition claim observed) = ReasonStorageUnreadable.
Proof.
  induction observed as [|o rest IH]; simpl; [done|].
  destruct (ack_verdict claim o) as [c|] eqn:E; [|exact IH].
  by destruct (ack_verdict_status claim o c E) as [Hs|(_ & Hr & _)]; [rewrite Hs|].
Qed.

Definition observed_of `{Unstructured} (kind : json) (answer : result json) : observedACKObject :=
  let obj := match answer with Ok u => u | Err _ => newUnstructured (GVK kind) end in
  {| obs_kind := GetKind obj; obs_object := Some obj;
     obs_err := match answer with Ok _ => None | Err err => Some err end |}.

(** ** Properties *)

(** The link to AWS is all or nothing: no variable set means no link, all four set and valid
    means a link made of exactly their values, and anything else is an error. *)
Theorem StorageConfigFromEnv_all_or_nothing `{UnicodePrint} (getenv : string -> string) :
  let names := [EnvAWSAccountID; EnvAWSRegion; EnvAWSOIDCIssuer; EnvAWSPermissionsBoundaryARN] in
  match StorageConfigFromEnv getenv with
  | Ok None => forall name, In name names -> getenv name = ""
  | Ok (Some c) => (forall name, In name names -> getenv name <> "") /\ Validate c = None /\
      [AccountID c; Region c; Issuer c; PermissionsBoundaryARN c] = map getenv names
  | Err _ => (exists name, In name names /\ getenv name <> "") /\
      ((exists name, In name names /\ getenv name = "") \/
       exists c, [AccountID c; Region c; Issuer c; PermissionsBoundaryARN c] = map getenv names /\ Validate c <> None)
  end.
Proof.
  cbv zeta. unfold StorageConfigFromEnv. cbn [List.filter AccountID Region Issuer PermissionsBoundaryARN].
  destruct (String.eqb_spec (getenv EnvAWSAccountID) "") as [E1|E1];
    destruct (String.eqb_spec (getenv EnvAWSRegion) "") as [E2|E2];
    destruct (String.eqb_spec (getenv EnvAWSOIDCIssuer) "") as [E3|E3];
    destruct (String.eqb_spec (getenv EnvAWSPermissionsBoundaryARN) "") as [E4|E4]; cbn [negb length Nat.eqb];
    try (split; [eexists; split; [|eassumption]|left; eexists; split; [|eassumption]]; simpl; tauto).
  - intros name [<-|[<-|[<-|[<-|[]]]]]; done.
  - destruct (Validate _) eqn:E.
    + split; [exists EnvAWSAccountID; split; [by left|done]|]. right. eexists. split; [|rewrite E; done]. done.
    + split; [by intros name [<-|[<-|[<-|[<-|[]]]]]|]. done.
Qed.

(** StorageReady is absent exactly for a claim without storage. On a linked cluster it comes
    from reading the Role and then the Bucket of the claim, nothing else, and is True exactly when
    both were read and ACK reports both synced and neither terminal; it is Unknown only with
    reason StorageUnreadable. On a cluster that is not linked it is False and nothing is read. *)
Theorem evaluateStorage_ready `{Unstructured, AckConverter, ApiErrors} (api_reader : bool)
    (storage : option StorageConfig) (claim : ServiceClaim) (tr : list event) (rep : storageReport) :
  runs (evaluateStorage api_reader storage claim) tr rep ->
  (storage_condition rep = None <-> Storage (Spec claim) = false) /\
  match HasStorage claim storage with
  | None => tr = [] /\ (forall c, storage_condition rep = Some c -> cond_Status c = ConditionFalse)
  | Some _ =>
      let read gvk answer := Ev (GetUnstructured (if api_reader then APIReader else CachedClient) gvk
                                   (mkNamespacedName (NamespaceName claim) (Name claim))) answer in
      exists role bucket c,
        tr = [read (GVK (newUnstructured RoleGVK)) role; read (GVK (newUnstructured BucketGVK)) bucket] /\
        storage_condition rep = Some c /\
        (cond_Status c = ConditionTrue <->
           ack_synced (observed_of (newUnstructured RoleGVK) role) /\
           ack_synced (observed_of (newUnstructured BucketGVK) bucket)) /\
        (cond_Status c = ConditionUnknown -> cond_Reason c = ReasonStorageUnreadable)
  end.
Proof.
  unfold evaluateStorage, HasStorage. destruct (Storage (Spec claim)); cbn [negb].
  - destruct storage as [config|]; [|intros [-> ->]; repeat split; try done; by intros c [= <-]].
    intros Hr. cbn [observeACK StorageTypes runs mbind prog_mbind prog_bind do_call] in Hr.
    destruct Hr as (role & tr1 & -> & bucket & tr2 & -> & -> & ->). cbn [storage_condition].
    split; [done|]. exists role, bucket. eexists. split; [done|]. split; [done|].
    split; [|apply storageCondition_unknown].
    rewrite storageCondition_true, !Forall_cons, Forall_nil. unfold observed_of. tauto.
  - intros [-> ->]. repeat split; done.
Qed.

#[local] Instance all_synced : AckConverter := fun _ => Ok [mkAckCondition ackResourceSynced ackTrue ""].

Lemma evaluateStorage_ready_witness :
  let u := JObject [("kind", JString "Role"); ("status", JObject [])] in
  exists tr rep c, runs (evaluateStorage true (Some sample_storage) sample_claim) tr rep /\
    storage_condition rep = Some c /\ (storage_condition rep = None <-> Storage (Spec sample_claim) = false).
Proof.
  intros u. do 3 eexists. split; [|split].
  - cbn [runs evaluateStorage negb Storage Spec sample_claim observeACK StorageTypes mbind prog_mbind prog_bind do_call].
    exists (Ok u). eexists. split; [reflexivity|]. exists (Ok u). eexists. split; [reflexivity|]. split; reflexivity.
  - reflexivity.
  - refine (proj1 (evaluateStorage_ready true (Some sample_storage) sample_claim
      [Ev (GetUnstructured APIReader (GVK (newUnstructured RoleGVK)) (mkNamespacedName "svc-shortlink" "shortlink")) (Ok u);
       Ev (GetUnstructured APIReader (GVK (newUnstructured BucketGVK)) (mkNamespacedName "svc-shortlink" "shortlink")) (Ok u)]
      _ _)).
    exists (Ok u). eexists. split; [reflexivity|]. exists (Ok u). eexists. split; [reflexivity|]. split; reflexivity.
Defined.
