(* ===== verification/Controller.v ===== *)
(** * The reconciler ([internal/controller/apply.go], [drift.go], [serviceclaim_controller.go])

    [Reconcile] and everything it calls, as programs over the calls of [Effects.v]. *)
From Stdlib Require Import ZArith Lia Ascii String.
From S2P Require Import Prelude GoFloat GoStrings GoTime GoJson Api Kubernetes Meta Storage Workload Build Effects.
From S2P Require Import SloStatus Freeze StorageStatus.
Local Open Scope Z_scope.
Local Open Scope stdpp_scope.

(** ** Definitions *)

Definition FieldOwner : string := "paved-controller".
Definition Finalizer : string := "paved.dev/finalizer".
Definition ReasonApplied : string := "Applied".
Definition ReasonApplyFailed : string := "ApplyFailed".
Definition claimKind : string := "ServiceClaim".
Definition namespaceDeletionPoll : Z := 5 * 1000000000.
Definition ReasonDriftCorrected : string := "DriftCorrected".
Definition eventActionReconcile : string := "Reconcile".

(** The reconciler's fields: which of its optional parts are there. *)
Record Reconciler := mkReconciler {
  r_Prometheus : bool;
  r_APIReader : bool;
  r_Recorder : bool;
  r_Storage : option StorageConfig
}.

(** [ctrl.Result] and the error [Reconcile] returns. *)
Record outcome := mkOutcome { RequeueAfter : Z; out_err : option error }.

(** [runtime.DefaultUnstructuredConverter.ToUnstructured] on a builder's object and on a condition,
    and the text of an object's Go type. *)
Class ObjectConverter := {
  ToUnstructured : Object -> result json;
  ConditionToUnstructured : Condition -> result json;
  type_text : Object -> string
}.

Record correction := mkCorrection { corr_kind : string; corr_ref : string; recreated : bool }.

(** *** Ownership ([drift.go]) *)

Section ownership.
Context `{Unstructured}.

Definition controllerOwnership (u : json) : option ManagedFieldsEntry :=
  List.find (fun entry => String.eqb (Manager entry) FieldOwner &&
                          String.eqb (Operation entry) ManagedFieldsOperationApply &&
                          String.eqb (Subresource entry) "") (GetManagedFields u).

Definition sameOwnership (before after : option ManagedFieldsEntry) : bool :=
  match before, after with
  | None, None => true
  | None, Some _ | Some _, None => false
  | Some b, Some a =>
      TimeEqual (entry_Time b) (entry_Time a) &&
      String.eqb (default "" (FieldsV1 b)) (default "" (FieldsV1 a))
  end.

Definition inSyncAtGeneration `{StatusConditions} (claim : ServiceClaim) : bool :=
  match FindStatusCondition (Conditions (Status claim)) ConditionResourcesSynced with
  | Some synced => String.eqb (cond_Status synced) ConditionTrue && (cond_ObservedGeneration synced =? Generation claim)
  | None => false
  end.

(** The drift a claim's Events report. Log lines are left out. *)
Definition correction_text (c : correction) : string :=
  Sprintf [if recreated c then "Recreated" else "Reverted changes to"; " "; corr_kind c; " "; corr_ref c].

Fixpoint reportDrift (recorder : bool) (claim : ServiceClaim) (corrections : list correction) : prog unit :=
  match corrections with
  | [] => Ret tt
  | c :: rest =>
      _ ← (if recorder then do_call (Eventf claim EventTypeNormal ReasonDriftCorrected eventActionReconcile (correction_text c)) else Ret tt);
      reportDrift recorder claim rest
  end.

Definition key_of (u : json) : NamespacedName := mkNamespacedName (GetNamespace u) (GetName u).

Definition liveOwnership `{ApiErrors} (api_reader : bool) (u : json)
  : prog (result (option ManagedFieldsEntry * bool)) :=
  if negb api_reader then Ret (Ok (None, true))
  else
    live ← do_call (GetUnstructured APIReader (GVK u) (key_of u));
    match live with
    | Err err =>
        if IsNotFound err then Ret (Ok (None, false))
        else Ret (Err (WrapError (Sprintf ["reading "; GetKind u; " "; objectRef u; ": "; Error err]) err))
    | Ok live => Ret (Ok (controllerOwnership live, true))
    end.

(** *** Applying objects *)

Definition toApplyObject `{ObjectConverter} (obj : Object) : result json :=
  match ToUnstructured obj with
  | Err err => Err (WrapError (Sprintf ["converting "; type_text obj; " "; key_text (ObjectKeyFromObject obj);
                                        " to unstructured: "; Error err]) err)
  | Ok content =>
      let content := RemoveNestedField content ["metadata"; "creationTimestamp"] in
      let content := RemoveNestedField content ["spec"; "template"; "metadata"; "creationTimestamp"] in
      Ok (RemoveNestedField content ["status"])
  end.

(** The loop: [i] objects are applied already. *)
Fixpoint applyObjects_from `{ApiErrors, ObjectConverter} (api_reader : bool) (i : nat) (corrections : list correction)
    (objects : list Object) : prog (nat * list correction * option error) :=
  match objects with
  | [] => Ret (i, corrections, None)
  | obj :: rest =>
      match toApplyObject obj with
      | Err err => Ret (i, corrections, Some err)
      | Ok u =>
          ownership ← liveOwnership api_reader u;
          match ownership with
          | Err err => Ret (i, corrections, Some err)
          | Ok (before, existed) =>
              response ← do_call (Apply u);
              match response with
              | Err err =>
                  Ret (i, corrections, Some (WrapError (Sprintf ["applying "; GetKind u; " ";
                                                           key_text (ObjectKeyFromObject obj); ": "; Error err]) err))
              | Ok u =>
                  let corrections :=
                    if api_reader && (negb existed || negb (sameOwnership before (controllerOwnership u)))
                    then corrections ++ [mkCorrection (GetKind u) (objectRef u) (negb existed)]
                    else corrections in
                  applyObjects_from api_reader (S i) corrections rest
              end
          end
      end
  end.

Definition applyObjects `{ApiErrors, ObjectConverter} (api_reader : bool) (objects : list Object) :=
  applyObjects_from api_reader 0 [] objects.

(** *** The finalizer *)

Definition claim_key_text (claim : ServiceClaim) : string :=
  key_text (mkNamespacedName (Namespace claim) (Name claim)).

Definition claim_body (claim : ServiceClaim) (extra_metadata rest : list (string * json)) : json :=
  JMap ([("apiVersion", JString GroupVersion); ("kind", JString claimKind);
         ("metadata", JMap ([("name", JString (Name claim)); ("namespace", JString (Namespace claim))] ++ extra_metadata))]
        ++ rest).

Definition applyFinalizer (claim : ServiceClaim) (present : bool) : prog (option error) :=
  let u := claim_body claim (if present then [("finalizers", JArray [JString Finalizer])] else []) [] in
  response ← do_call (Apply u);
  match response with
  | Err err => Ret (Some (WrapError (Sprintf ["setting finalizer present="; bool_text present; " on ServiceClaim ";
                                              claim_key_text claim; ": "; Error err]) err))
  | Ok _ => Ret None
  end.

Definition belongsTo (labels : gmap string string) (claim : ServiceClaim) : bool :=
  String.eqb (default "" (labels !! LabelClaim)) (Name claim) &&
  String.eqb (default "" (labels !! LabelClaimNamespace)) (Namespace claim).

Definition fail (err : error) : prog outcome := Ret (mkOutcome 0 (Some err)).
Definition done_ : prog outcome := Ret (mkOutcome 0 None).

Definition finalize `{ApiErrors, FinalizerUtil} (claim : ServiceClaim) : prog outcome :=
  if negb (ContainsFinalizer (Finalizers claim) Finalizer) then done_
  else
    answer ← do_call (GetNamespaceObject (NamespaceName claim));
    match answer with
    | Err err =>
        if IsNotFound err then
          failed ← applyFinalizer claim false;
          match failed with Some err => fail err | None => done_ end
        else fail (WrapError (Sprintf ["getting namespace "; NamespaceName claim; ": "; Error err]) err)
    | Ok ns =>
        if negb (belongsTo (ns_Labels ns) claim) then
          failed ← applyFinalizer claim false;
          Ret (mkOutcome 0 failed)
        else
          deletion ←
            (match ns_DeletionTimestamp ns with
             | None => do_call (DeleteNamespace ns)
             | Some _ => Ret None
             end);
          match deletion with
          | Some err =>
              match IgnoreNotFound err with
              | Some _ => fail (WrapError (Sprintf ["deleting namespace "; ns_Name ns; ": "; Error err]) err)
              | None => Ret (mkOutcome namespaceDeletionPoll None)
              end
          | None => Ret (mkOutcome namespaceDeletionPoll None)
          end
    end.

(** *** Status *)

Fixpoint set_conditions `{StatusConditions} (conditions : list Condition) (set : list Condition)
  : prog (list Condition) :=
  match set with
  | [] => Ret conditions
  | condition :: rest =>
      now ← do_call Now;
      set_conditions (SetStatusCondition conditions condition now) rest
  end.

Definition optional_text (k v : string) : list (string * json) := if String.eqb v "" then [] else [(k, JString v)].

(** The body of the status write, with the conditions already converted: a field that is left out
    is cleared by the API server. *)
Definition status_body (claim : ServiceClaim) (managed : nat) (report : sloReport) (storage : option StorageStatus)
    (conds : list json) (now : Z) : json :=
  let status := JMap
    ([("conditions", JArray conds); ("observedGeneration", JInt (Generation claim));
      ("lastReconcileTime", JString (FormatRFC3339 now))] ++
     (if (0 <? managed)%nat then [("managedResources", JInt (Z.of_nat managed))] else []) ++
     optional_text "errorBudgetRemaining" (budgetRemaining report) ++
     optional_text "burnRate1h" (burnRate1h report) ++
     match storage with
     | Some s => [("storage", JMap [("bucket", JString (status_Bucket s)); ("roleARN", JString (status_RoleARN s))])]
     | None => []
     end) in
  claim_body claim [] [("status", status)].

Definition applyStatus `{UnicodePrint, StatusConditions, ObjectConverter} (claim : ServiceClaim) (managed : nat) (report : sloReport)
    (storage : option StorageStatus) (set : list Condition) : prog (option error) :=
  conditions ← set_conditions (Conditions (Status claim)) set;
  match collect (fun c => match ConditionToUnstructured c with
                          | Err err => Err (WrapError (Sprintf ["converting condition "; Quote (cond_Type c); ": ";
                                                                Error err]) err)
                          | Ok j => Ok j
                          end) conditions with
  | Err err => Ret (Some err)
  | Ok conds =>
      now ← do_call Now;
      failed ← do_call (ApplyStatus (status_body claim managed report storage conds now));
      match failed with
      | Some err => Ret (Some (WrapError (Sprintf ["applying status to ServiceClaim "; claim_key_text claim; ": "; Error err]) err))
      | None => Ret None
      end
  end.

(** *** Reconcile *)

Context `{UnicodePrint, StatusConditions, ApiErrors, FinalizerUtil, ObjectConverter, AckConverter}.

(** The spec passed API validation but cannot become resources. *)
Definition reconcile_invalid (claim : ServiceClaim) (err : error) : prog outcome :=
  let invalid := condition_of claim ConditionResourcesSynced ConditionFalse ReasonInvalidSpec (Error err) in
  let report := unmeasured claim ReasonInvalidSpec "The SLO can't be evaluated until the spec is valid" in
  failed ← applyStatus claim 0 report None
    [invalid; rep_condition report; freezeCondition claim report; readyCondition claim invalid None empty_rollout None];
  Ret (mkOutcome 0 failed).

(** After the objects are applied: measure, decide, write the status. *)
Definition reconcile_status (r : Reconciler) (claim : ServiceClaim) (total applied : nat) (applyErr : option error)
  : prog outcome :=
  let progress := Sprintf ["Applied "; Itoa (Z.of_nat applied); " of "; Itoa (Z.of_nat total); " managed resources"] in
  let synced :=
    match applyErr with
    | None => condition_of claim ConditionResourcesSynced ConditionTrue ReasonApplied progress
    | Some err => condition_of claim ConditionResourcesSynced ConditionFalse ReasonApplyFailed
                    (Sprintf [progress; ": "; Error err])
    end in
  report ← evaluateSLO (r_Prometheus r) claim;
  let frozen := freezeCondition claim report in
  storage ← evaluateStorage (r_APIReader r) (r_Storage r) claim;
  read ←
    (match applyErr with
     | None =>
         let reader := if r_APIReader r then APIReader else CachedClient in
         let key := mkNamespacedName (NamespaceName claim) (Name claim) in
         answer ← do_call (GetRollout reader key);
         match answer with
         | Ok rollout => Ret (rollout, None)
         | Err err => Ret (empty_rollout,
                           Some (WrapError (Sprintf ["getting Rollout "; key_text key; ": "; Error err]) err))
         end
     | Some _ => Ret (empty_rollout, None)
     end);
  let rollout := fst read in
  let rolloutErr := snd read in
  let ready := readyCondition claim synced (storage_condition storage) rollout rolloutErr in
  let rolloutErr := match rolloutErr with
                    | Some err => if IsNotFound err then None else Some err
                    | None => None
                    end in
  let conditions := [synced; rep_condition report; frozen] ++
                    match storage_condition storage with Some c => [c] | None => [] end ++ [ready] in
  failed ← applyStatus claim applied report (storage_status storage) conditions;
  match failed with
  | Some err => Ret (mkOutcome 0 (errorsJoin [applyErr; rolloutErr; Some err]))
  | None =>
      match errorsJoin [applyErr; rolloutErr] with
      | Some err => fail err
      | None => Ret (mkOutcome sloRefreshInterval None)
      end
  end.

Definition reconcile_objects (r : Reconciler) (claim : ServiceClaim) (objects : list Object) : prog outcome :=
  let wasInSync := inSyncAtGeneration claim in
  result ← applyObjects (r_APIReader r) objects;
  let '(applied, corrections, applyErr) := result in
  _ ← (if wasInSync then reportDrift (r_Recorder r) claim corrections else Ret tt);
  reconcile_status r claim (length objects) applied applyErr.

Definition reconcile_live (r : Reconciler) (claim : ServiceClaim) : prog outcome :=
  match Build claim (r_Storage r) with
  | Err err => reconcile_invalid claim err
  | Ok objects => reconcile_objects r claim objects
  end.

Definition Reconcile (r : Reconciler) (req : NamespacedName) : prog outcome :=
  answer ← do_call (GetClaim req);
  match answer with
  | Err err =>
      if IsNotFound err then done_
      else fail (WrapError (Sprintf ["getting ServiceClaim "; key_text req; ": "; Error err]) err)
  | Ok claim =>
      match DeletionTimestamp claim with
      | Some _ => finalize claim
      | None =>
          failed ←
            (if negb (ContainsFinalizer (Finalizers claim) Finalizer) then applyFinalizer claim true else Ret None);
          match failed with
          | Some err => fail err
          | None => reconcile_live r claim
          end
      end
  end.
End ownership.

(** *** Events to requests *)

Definition claimChanged `{Predicates} (old new : ServiceClaim) : bool :=
  GenerationChanged old new || LabelChanged old new || AnnotationChanged old new ||
  match DeletionTimestamp new with Some _ => true | None => false end.

Definition claimForObject (labels : gmap string string) : list NamespacedName :=
  let name := default "" (labels !! LabelClaim) in
  let namespace := default "" (labels !! LabelClaimNamespace) in
  if String.eqb name "" || String.eqb namespace "" then [] else [mkNamespacedName namespace name].
