(* ===== verification/ControllerCalls.v ===== *)
(** * The calls of the reconciler

    Which calls each part of [Reconcile] makes, once: a test that holds of the calls named here holds
    of every call of every run. What the reconciler never deletes, never applies, is allowed to do or
    keeps its hands off are such tests, each proved by going through the calls and not through the
    handlers. *)
From Stdlib Require Import ZArith Lia Ascii String.
From S2P Require Import Prelude GoStrings GoJson Api Kubernetes Meta Storage Build Effects SloStatus Freeze StorageStatus.
From S2P Require Import Controller.
Local Open Scope Z_scope.
Local Open Scope stdpp_scope.

Section calls.
Context `{Unstructured, UnicodePrint, StatusConditions, ApiErrors, FinalizerUtil, ObjectConverter, AckConverter}.
Context (P : event -> bool).

(** ** The calls, part by part *)

(** Measuring and writing the status. *)
Record status_calls (claim : ServiceClaim) : Prop := {
  on_now x : P (Ev Now x) = true;
  on_query q x : P (Ev (Query q) x) = true;
  on_ack reader kind x : In kind StorageTypes ->
    P (Ev (GetUnstructured reader (GVK kind) (mkNamespacedName (NamespaceName claim) (Name claim))) x) = true;
  on_rollout reader x : P (Ev (GetRollout reader (mkNamespacedName (NamespaceName claim) (Name claim))) x) = true;
  on_status managed report storage js now x :
    P (Ev (ApplyStatus (status_body claim managed report storage js now)) x) = true
}.

(** The read before an apply, and the apply. *)
Definition apply_calls (u : json) : Prop :=
  (forall x, P (Ev (GetUnstructured APIReader (GVK u) (key_of u)) x) = true) /\ forall x, P (Ev (Apply u) x) = true.

Definition drift_calls (claim : ServiceClaim) : Prop := forall (c : correction) x,
  P (Ev (Eventf claim EventTypeNormal ReasonDriftCorrected eventActionReconcile (correction_text c)) x) = true.

(** A live claim. *)
Record live_calls (storage : option StorageConfig) (claim : ServiceClaim) : Prop := {
  live_status :> status_calls claim;
  on_drift : drift_calls claim;
  on_managed objects obj u :
    Build claim storage = Ok objects -> In obj objects -> toApplyObject obj = Ok u -> apply_calls u
}.

Definition finalizer_calls (claim : ServiceClaim) : Prop := forall (present : bool) x,
  P (Ev (Apply (claim_body claim (if present then [("finalizers", JArray [JString Finalizer])] else []) [])) x) = true.

(** A whole reconcile, whatever claim is read. *)
Record all_calls (r : Reconciler) (req : NamespacedName) : Prop := {
  on_claim x : P (Ev (GetClaim req) x) = true;
  on_live claim : live_calls (r_Storage r) claim;
  on_finalizer claim : finalizer_calls claim;
  on_namespace claim x : P (Ev (GetNamespaceObject (NamespaceName claim)) x) = true;
  on_delete ns x : P (Ev (DeleteNamespace ns) x) = true
}.

(** ** They are all of them *)

Lemma set_conditions_every conditions set :
  (forall x, P (Ev Now x) = true) -> every P (set_conditions conditions set).
Proof.
  intros Hnow. revert conditions. induction set as [|c set IH]; intros conditions; [apply every_ret|].
  cbn [set_conditions]. every_step; [by every_step|apply IH].
Qed.

Lemma applyStatus_every claim managed report storage set :
  status_calls claim -> every P (applyStatus claim managed report storage set).
Proof.
  intros []. unfold applyStatus. every_step; [by apply set_conditions_every|]. by repeat every_step.
Qed.

Lemma applyFinalizer_every claim present : finalizer_calls claim -> every P (applyFinalizer claim present).
Proof. intros Hf. unfold applyFinalizer. every_step; [by every_step|]. by repeat every_step. Qed.

Lemma applyObjects_every api_reader i corrections objects :
  (forall obj u, In obj objects -> toApplyObject obj = Ok u -> apply_calls u) ->
  every P (applyObjects_from api_reader i corrections objects).
Proof.
  revert i corrections. induction objects as [|obj rest IH]; intros i corrections Hcalls; [apply every_ret|].
  cbn [applyObjects_from]. destruct (toApplyObject obj) as [u|] eqn:Hu; [|apply every_ret].
  destruct (Hcalls obj u (or_introl eq_refl) Hu) as [Hget Happly].
  every_step; [unfold liveOwnership; by repeat every_step|].
  every_step; [|apply every_ret]. every_step. every_step; [by every_step|]. every_step; [|apply every_ret].
  apply IH. intros obj' u' Hin. apply Hcalls. by right.
Qed.

Lemma reportDrift_every recorder claim corrections : drift_calls claim -> every P (reportDrift recorder claim corrections).
Proof.
  intros Hevent. induction corrections as [|c rest IH]; [apply every_ret|]. cbn [reportDrift].
  every_step; [by repeat every_step|exact IH].
Qed.

Lemma reconcile_status_every r claim total applied applyErr :
  status_calls claim -> every P (reconcile_status r claim total applied applyErr).
Proof.
  intros Hs. pose proof Hs as []. unfold reconcile_status. every_step; [by apply evaluateSLO_every|].
  every_step; [by apply evaluateStorage_every|]. every_step; [by repeat every_step|].
  every_step; [by apply applyStatus_every|]. unfold fail. by repeat every_step.
Qed.

Lemma reconcile_live_every r claim : live_calls (r_Storage r) claim -> every P (reconcile_live r claim).
Proof.
  intros [Hs Hdrift Hmanaged]. unfold reconcile_live. destruct (Build claim (r_Storage r)) as [objects|err] eqn:HB.
  - unfold reconcile_objects, applyObjects. every_step; [apply applyObjects_every; eauto|].
    destruct a as [[applied corrections] applyErr]. every_step; [|by apply reconcile_status_every].
    every_step; [by apply reportDrift_every|apply every_ret].
  - unfold reconcile_invalid. every_step; [by apply applyStatus_every|apply every_ret].
Qed.

Lemma finalize_every claim :
  finalizer_calls claim -> (forall x, P (Ev (GetNamespaceObject (NamespaceName claim)) x) = true) ->
  (forall ns x, P (Ev (DeleteNamespace ns) x) = true) -> every P (finalize claim).
Proof.
  intros Hf Hns Hdelete. pose proof (fun present => applyFinalizer_every claim present Hf) as Happly.
  unfold finalize, fail, done_. repeat (apply Happly || every_step); done.
Qed.

Lemma Reconcile_every r req : all_calls r req -> every P (Reconcile r req).
Proof.
  intros [Hclaim Hlive Hf Hns Hdelete]. unfold Reconcile, fail, done_.
  every_step; [by every_step|]. destruct a as [claim|err]; [|by repeat every_step].
  every_step; [by apply finalize_every|].
  every_step; [every_step; [by apply applyFinalizer_every|apply every_ret]|].
  every_step; [apply every_ret|by apply reconcile_live_every].
Qed.
End calls.
