(* ===== verification/ControllerSafety.v ===== *)
(** * What the reconciler can and cannot do

    Theorems about every run of [Reconcile]: in whatever state the cluster is, whoever else
    writes to it, and whichever calls fail. *)
From Stdlib Require Import ZArith QArith Lia Ascii String SpecFloat.
From S2P Require Import Prelude GoFloat GoStrings GoJson Api Kubernetes Instances Meta Storage Workload Monitoring.
From S2P Require Import Build Effects SloStatus Freeze StorageStatus Controller ControllerCalls.
Local Open Scope Z_scope.
Local Open Scope stdpp_scope.

(** ** Lemmas *)

(** Calls that delete nothing. *)
Definition keeps (e : event) : bool := match deleted e with Some _ => false | None => true end.

(** Calls that are not an apply of an object or of the claim's own metadata. *)
Definition no_apply (e : event) : bool := match applied e with Some _ => false | None => true end.

Section runs.
Context `{Unstructured, UnicodePrint, StatusConditions, ApiErrors, FinalizerUtil, ObjectConverter, AckConverter}.

Lemma reconcile_live_keeps r claim : every keeps (reconcile_live r claim).
Proof. by apply reconcile_live_every. Qed.

(** What finalizing a claim can do, call by call. *)
Lemma finalize_runs claim tr out :
  runs (finalize claim) tr out ->
  (tr = [] /\ ContainsFinalizer (Finalizers claim) Finalizer = false) \/
  (ContainsFinalizer (Finalizers claim) Finalizer = true /\ exists answer,
    let first := Ev (GetNamespaceObject (NamespaceName claim)) answer in
    let body := claim_body claim [] [] in
    (tr = [first] /\ (exists err, answer = Err err /\ IsNotFound err = false)) \/
    (exists response, tr = [first; Ev (Apply body) response] /\
      ((exists err, answer = Err err /\ IsNotFound err = true) \/
       (exists ns, answer = Ok ns /\ belongsTo (ns_Labels ns) claim = false))) \/
    (exists ns, answer = Ok ns /\ belongsTo (ns_Labels ns) claim = true /\
      ((tr = [first] /\ ns_DeletionTimestamp ns <> None) \/
       (exists a, tr = [first; Ev (DeleteNamespace ns) a] /\ ns_DeletionTimestamp ns = None)))).
Proof.
  unfold finalize. destruct (ContainsFinalizer (Finalizers claim) Finalizer); cbn [negb]; [|intros [-> _]; by left].
  intros (answer & tr1 & -> & Hr). right. split; [done|]. exists answer. cbv zeta.
  open_run Hr. destruct answer as [ns|err].
  - destruct (belongsTo (ns_Labels ns) claim) eqn:Hb; cbn [negb] in Hr.
    + right. right. exists ns. split; [done|]. split; [done|]. destruct (ns_DeletionTimestamp ns) as [t|].
      * left. by destruct Hr as [-> _].
      * right. open_run Hr. destruct Hr as (a & tr2 & -> & Hr). exists a. split; [|done].
        open_run Hr. destruct a as [e|]; [destruct (IgnoreNotFound e)|]; by destruct Hr as [-> _].
    + right. left. open_run Hr. destruct Hr as (response & tr2 & -> & Hr). exists response.
      assert (tr2 = []) as -> by (open_run Hr; destruct response; by destruct Hr as [-> _]).
      eauto 10.
  - destruct (IsNotFound err) eqn:Hn.
    + right. left. open_run Hr. destruct Hr as (response & tr2 & -> & Hr). exists response.
      assert (tr2 = []) as -> by (open_run Hr; destruct response; by destruct Hr as [-> _]).
      eauto 10.
    + left. destruct Hr as [-> _]. eauto.
Qed.

(** The runs of [Reconcile], by what the first read returned. *)
Lemma Reconcile_runs r req tr out :
  runs (Reconcile r req) tr out ->
  exists answer rest, tr = Ev (GetClaim req) answer :: rest /\
    ((exists err, answer = Err err /\ rest = []) \/
     (exists claim, answer = Ok claim /\ DeletionTimestamp claim <> None /\ runs (finalize claim) rest out) \/
     (exists claim, answer = Ok claim /\ DeletionTimestamp claim = None /\
       ((ContainsFinalizer (Finalizers claim) Finalizer = true /\ runs (reconcile_live r claim) rest out) \/
        (ContainsFinalizer (Finalizers claim) Finalizer = false /\ exists response rest',
          rest = Ev (Apply (claim_body claim [("finalizers", JArray [JString Finalizer])] [])) response :: rest' /\
          match response with
          | Ok _ => runs (reconcile_live r claim) rest' out
          | Err _ => rest' = [] /\ out_err out <> None
          end)))).
Proof.
  unfold Reconcile. intros (answer & rest & -> & Hr). exists answer, rest. split; [done|].
  open_run Hr. destruct answer as [claim|err].
  - right. destruct (DeletionTimestamp claim) as [t|] eqn:Hd; [left; exists claim; by rewrite Hd|right].
    exists claim. split; [done|]. split; [done|].
    destruct (ContainsFinalizer (Finalizers claim) Finalizer); cbn [negb] in Hr; [by left|right].
    split; [done|]. apply runs_bind in Hr as (tr1 & tr2 & failed & -> & Hfin & Hlive).
    destruct Hfin as (response & tr3 & -> & Hfin). exists response, (tr3 ++ tr2). split; [done|].
    open_run Hfin. destruct response; destruct Hfin as [-> ->]; [done|]. by destruct Hlive as [-> ->].
  - left. exists err. split; [done|]. destruct (IsNotFound err); by destruct Hr as [-> _].
Qed.

Lemma Reconcile_deleted r req claim rest out :
  DeletionTimestamp claim <> None ->
  runs (Reconcile r req) (Ev (GetClaim req) (Ok claim) :: rest) out -> runs (finalize claim) rest out.
Proof.
  intros Hd (answer & rest' & E & Hcases)%Reconcile_runs.
  pose proof (f_equal (fun tr => match tr with e :: _ => claim_answer e | [] => None end) E) as Ea.
  pose proof (f_equal (fun tr => match tr with _ :: t => t | [] => [] end) E) as Er. cbn in Ea, Er.
  injection Ea as <-. subst rest'.
  destruct Hcases as [(err & ? & _)|[(claim' & [= <-] & _ & Hfin)|(claim' & [= <-] & Hn & _)]]; done.
Qed.

Lemma finalize_progress claim rest out :
  runs (finalize claim) rest out ->
  forall ns, In (Ev (GetNamespaceObject (NamespaceName claim)) (Ok ns)) rest -> belongsTo (ns_Labels ns) claim = true ->
  RequeueAfter out = namespaceDeletionPoll \/ out_err out <> None.
Proof.
  unfold finalize. destruct (ContainsFinalizer (Finalizers claim) Finalizer); cbn [negb]; [|by intros [-> _]].
  intros (answer & tr1 & -> & Hr) ns. open_run Hr. destruct answer as [ns'|err].
  - destruct (belongsTo (ns_Labels ns') claim) eqn:Hb'; cbn [negb] in Hr; intros Hin Hb.
    + apply runs_bind in Hr as (tr2 & tr3 & deletion & -> & _ & Hr).
      destruct deletion as [e|]; [destruct (IgnoreNotFound e)|]; destruct Hr as [_ ->]; auto.
    + exfalso. destruct Hin as [E|Hin]; [apply (f_equal namespace_answer) in E; injection E as ->; congruence|].
      open_run Hr. destruct Hr as (resp & tr2 & -> & Hr). destruct Hin as [E|Hin]; [by apply (f_equal namespace_answer) in E|].
      open_run Hr. destruct resp; destruct Hr as [-> _]; done.
  - intros [E|Hin]; [by apply (f_equal namespace_answer) in E|]. exfalso.
    destruct (IsNotFound err); [|by destruct Hr as [-> _]].
    open_run Hr. destruct Hr as (resp & tr2 & -> & Hr). destruct Hin as [E|Hin]; [by apply (f_equal namespace_answer) in E|].
    open_run Hr. destruct resp; destruct Hr as [-> _]; done.
Qed.

(** *** Applying objects in order *)

Definition apply_ok (e : event) : bool :=
  match e with
  | @Ev X c answer =>
      match c in call X' return X' -> bool with
      | Apply _ => fun a => is_ok a
      | _ => fun _ => false
      end answer
  end.

Definition applied_ok (tr : list event) : nat := length (List.filter apply_ok tr).

Lemma liveOwnership_applies api_reader u tr a :
  runs (liveOwnership api_reader u) tr a -> omap applied tr = [] /\ List.filter apply_ok tr = [] /\
    (api_reader = false -> tr = [] /\ a = Ok (None, true)).
Proof.
  unfold liveOwnership. destruct api_reader; cbn [negb]; [|by intros [-> ->]].
  intros Hr. open_run Hr. destruct Hr as (live & tr' & -> & Hr).
  destruct live as [live|err]; [|destruct (IsNotFound err)]; by destruct Hr as [-> _].
Qed.

(** The applies are those of the first objects, in order, each answered Ok but perhaps the last;
    the count is of the answers that were, and an error leaves later objects untouched. *)
Lemma applyObjects_runs api_reader objects : forall i cs tr n cs' err,
  runs (applyObjects_from api_reader i cs objects) tr (n, cs', err) ->
  let bodies := omap applied tr in
  (length bodies <= length objects)%nat /\
  Forall2 (fun obj u => toApplyObject obj = Ok u) (take (length bodies) objects) bodies /\
  n = (i + applied_ok tr)%nat /\
  (applied_ok tr <= length bodies <= S (applied_ok tr))%nat /\
  match err with
  | None => applied_ok tr = length objects /\ length bodies = length objects
  | Some _ => (applied_ok tr < length objects)%nat
  end /\
  (api_reader = false -> cs' = cs).
Proof.
  induction objects as [|obj rest IH]; intros i cs tr n cs' err Hr; cbn [applyObjects_from] in Hr.
  - destruct Hr as [-> [= -> -> ->]]. unfold applied_ok. simpl. repeat split; try done; try (by constructor); lia.
  - destruct (toApplyObject obj) as [u|e] eqn:Hu.
    2:{ destruct Hr as [-> [= -> -> ->]]. unfold applied_ok. simpl. repeat split; try done; try (by constructor); lia. }
    apply runs_bind in Hr as (tr1 & tr2 & own & -> & Hown & Hr).
    destruct (liveOwnership_applies _ _ _ _ Hown) as (Ha1 & Hf1 & Hapi). cbv zeta.
    unfold applied_ok. rewrite omap_app, List.filter_app, Ha1, Hf1. cbn [app].
    destruct own as [[before existed]|e].
    2:{ destruct Hr as [-> [= -> -> ->]]. simpl. repeat split; try done; try (by constructor); lia. }
    open_run Hr. destruct Hr as (response & tr3 & -> & Hr). destruct response as [u'|e].
    2:{ destruct Hr as [-> [= -> -> ->]]. simpl. repeat split; try done; try lia. by repeat constructor. }
    apply IH in Hr. cbv zeta in Hr. unfold applied_ok in Hr.
    change (omap applied (Ev (Apply u) (Ok u') :: tr3)) with (u :: omap applied tr3).
    change (List.filter apply_ok (Ev (Apply u) (Ok u') :: tr3)) with (Ev (Apply u) (Ok u') :: List.filter apply_ok tr3).
    cbn [length take]. destruct Hr as (Hl & HF & -> & Hc & He & Hcs).
    split; [lia|]. split; [by constructor|]. split; [lia|]. split; [lia|].
    split; [destruct err; lia|]. intros ->. destruct (Hapi eq_refl) as [_ [= -> ->]]. by apply Hcs.
Qed.

(** *** The outcome *)

Lemma errorsJoin_None es : errorsJoin es = None <-> Forall (eq None) es.
Proof.
  induction es as [|[e|] es IH]; [split; [constructor|done]| |].
  - split; [done|]. intros Hf. by inversion Hf.
  - change (errorsJoin (None :: es)) with (errorsJoin es). rewrite IH, Forall_cons. tauto.
Qed.

Lemma reportDrift_no_apply recorder claim corrections : every no_apply (reportDrift recorder claim corrections).
Proof. by apply reportDrift_every. Qed.

Lemma reconcile_status_no_apply r claim total applied applyErr :
  every no_apply (reconcile_status r claim total applied applyErr).
Proof. by apply reconcile_status_every. Qed.

Lemma applied_ok_app tr1 tr2 : applied_ok (tr1 ++ tr2) = (applied_ok tr1 + applied_ok tr2)%nat.
Proof. unfold applied_ok. by rewrite List.filter_app, length_app. Qed.

Lemma applied_ok_none tr : forallb no_apply tr = true -> applied_ok tr = O.
Proof.
  unfold applied_ok. induction tr as [|e tr IH]; simpl; [done|]. intros [He Ht]%andb_true_iff.
  destruct e as [X c a]. destruct c; try (by apply IH). discriminate He.
Qed.

Lemma no_apply_applied tr : forallb no_apply tr = true -> omap applied tr = [].
Proof.
  induction tr as [|e tr IH]; [done|]. simpl. unfold no_apply at 1. intros [He Ht]%andb_true_iff.
  cbn. destruct (applied e); [done|by apply IH].
Qed.

(** The status write and the Rollout read: what can make [reconcile_status] fail. *)
Definition status_failed (e : event) : bool :=
  match e with
  | @Ev X c answer =>
      match c in call X' return X' -> bool with
      | ApplyStatus _ => fun a => match a with Some _ => true | None => false end
      | _ => fun _ => false
      end answer
  end.

Definition rollout_failed (e : event) : bool :=
  match e with
  | @Ev X c answer =>
      match c in call X' return X' -> bool with
      | GetRollout _ _ => fun a => match a with Err err => negb (IsNotFound err) | Ok _ => false end
      | _ => fun _ => false
      end answer
  end.

Lemma applyStatus_runs claim managed report storage set tr failed :
  runs (applyStatus claim managed report storage set) tr failed ->
  failed = None <-> exists u, In (Ev (ApplyStatus u) None) tr.
Proof.
  unfold applyStatus. intros (tr1 & tr2 & cs & -> & Hset & Hr)%runs_bind.
  assert (forall u x, In (Ev (ApplyStatus u) x) tr1 -> False) as Hno.
  { intros u x Hin. pose proof (every_In _ _ _ _ _ (set_conditions_every is_read _ _ (fun _ => eq_refl)) Hset Hin) as Hp. done. }
  destruct (collect _ cs) as [conds|err].
  2:{ destruct Hr as [-> ->]. split; [done|]. intros [u [Hin|[]]%in_app_iff]. by destruct (Hno u None). }
  open_run Hr. destruct Hr as (now & tr3 & -> & answer & tr4 & -> & Hr).
  destruct answer as [err|]; destruct Hr as [-> ->]; split; try done.
  - intros [u [Hin|[E|[E|[]]]]%in_app_iff]; [by destruct (Hno u None)|done|].
    by apply (f_equal status_failed) in E.
  - intros _. eexists. apply in_app_iff. right. right. by left.
Qed.

(** A call that does not make a reconcile fail; applies are counted apart. *)
Definition settles (e : event) : bool := negb (status_failed e) && negb (rollout_failed e).

Lemma applyStatus_settles claim managed report storage set tr failed :
  (forall c, is_ok (ConditionToUnstructured c) = true) ->
  runs (applyStatus claim managed report storage set) tr failed ->
  forallb settles tr = match failed with Some _ => false | None => true end.
Proof.
  unfold applyStatus. intros Hok (tr1 & tr2 & cs & -> & Hset & Hr)%runs_bind.
  rewrite forallb_app, (set_conditions_every settles _ _ (fun _ => eq_refl) _ _ Hset).
  match type of Hr with context [collect ?f cs] => assert (is_ok (collect f cs) = true) as Hc end.
  { apply collect_is_ok. intros c _. specialize (Hok c). by destruct (ConditionToUnstructured c). }
  destruct (collect _ cs) as [conds|err]; [|done].
  open_run Hr. destruct Hr as (now & tr3 & -> & answer & tr4 & -> & Hr).
  destruct answer as [err|]; by destruct Hr as [-> ->].
Qed.

(** Which runs of [reconcile_status] succeed: those after whole applies in which nothing failed. *)
Lemma reconcile_status_outcome r claim total applied applyErr tr out :
  (forall err text, IsNotFound (WrapError text err) = IsNotFound err) ->
  (forall c, is_ok (ConditionToUnstructured c) = true) ->
  runs (reconcile_status r claim total applied applyErr) tr out ->
  if match applyErr with None => forallb settles tr | Some _ => false end
  then out = mkOutcome sloRefreshInterval None /\ exists u, In (Ev (ApplyStatus u) None) tr
  else RequeueAfter out = 0 /\ out_err out <> None.
Proof.
  intros Hwrap Hok Hr. unfold reconcile_status in Hr.
  apply runs_bind in Hr as (t1 & t2 & report & -> & Hslo & Hr). apply runs_bind in Hr as (t3 & t4 & storage & -> & Hsto & Hr).
  apply runs_bind in Hr as (t5 & t6 & [rollout rolloutErr] & -> & Hro & Hr).
  apply runs_bind in Hr as (t7 & t8 & failed & -> & Hst & Hr). cbn [fst snd] in Hr.
  pose proof (applyStatus_settles _ _ _ _ _ _ _ Hok Hst) as Hs. pose proof (applyStatus_runs _ _ _ _ _ _ _ Hst) as Hu.
  assert (t8 = []) as -> by (destruct failed; [by destruct Hr as [-> _]|destruct (errorsJoin _); by destruct Hr as [-> _]]).
  rewrite !forallb_app, (evaluateSLO_every settles _ _ (fun _ _ => eq_refl) _ _ Hslo),
    (evaluateStorage_every settles _ _ _ (fun _ _ _ _ => eq_refl) _ _ Hsto), Hs. cbn [forallb andb].
  assert (match applyErr with None => forallb settles t5 = match rolloutErr with Some err => IsNotFound err | None => true end
          | Some _ => True end) as Ht5.
  { destruct applyErr; [done|]. open_run Hro. destruct Hro as (answer & t9 & -> & Hro).
    destruct answer as [ro|err]; destruct Hro as [-> [= -> ->]]; [done|]. rewrite Hwrap. cbn.
    by rewrite negb_involutive, !andb_true_r. }
  destruct applyErr as [e|]; [by destruct failed; destruct Hr as [_ ->]|]. rewrite Ht5. clear Ht5 Hro.
  destruct failed as [e|]; cbn [andb].
  - rewrite andb_false_r. destruct Hr as [_ ->]. by destruct rolloutErr as [e'|]; [destruct (IsNotFound e')|].
  - destruct rolloutErr as [e'|]; [destruct (IsNotFound e')|]; destruct Hr as [_ ->]; cbn [andb]; [|done|];
      (split; [done|]); destruct (proj1 Hu eq_refl) as [u Hin]; exists u; rewrite !in_app_iff; tauto.
Qed.

(** The same of all of a live claim's reconcile; its own applies are those of [applyObjects]. *)
Lemma reconcile_objects_outcome r claim objects tr out :
  (forall err text, IsNotFound (WrapError text err) = IsNotFound err) ->
  (forall c, is_ok (ConditionToUnstructured c) = true) ->
  runs (reconcile_objects r claim objects) tr out ->
  if (applied_ok tr =? length objects)%nat && forallb settles tr
  then out = mkOutcome sloRefreshInterval None /\ exists u, In (Ev (ApplyStatus u) None) tr
  else RequeueAfter out = 0 /\ out_err out <> None.
Proof.
  intros Hwrap Hok. unfold reconcile_objects.
  intros (tr1 & tr2 & [[n cs] applyErr] & -> & Hap & (tr3 & tr4 & [] & -> & Hdrift & Hr)%runs_bind)%runs_bind.
  pose proof (applyObjects_runs _ _ _ _ _ _ _ _ Hap) as (_ & _ & _ & _ & He & _).
  assert (forallb settles tr1 = true) as Hs1 by (by eapply applyObjects_every).
  assert (forallb no_apply tr3 = true /\ forallb settles tr3 = true) as [Hz3%applied_ok_none Hs3].
  { destruct (inSyncAtGeneration claim); [split; by eapply reportDrift_every|by destruct Hdrift as [-> _]]. }
  assert (applied_ok tr4 = O) as Hz4 by (apply applied_ok_none; by eapply reconcile_status_no_apply).
  rewrite !applied_ok_app, Hz3, Hz4, !forallb_app, Hs1, Hs3, !Nat.add_0_r. cbn [andb].
  apply reconcile_status_outcome in Hr; [|done|done]. destruct applyErr as [e|].
  - by rewrite (proj2 (Nat.eqb_neq _ _)) by lia.
  - rewrite (proj2 (Nat.eqb_eq _ _)) by lia. cbn [andb]. destruct (forallb settles tr4); [|done].
    destruct Hr as [-> [u Hu]]. split; [done|]. exists u. rewrite !in_app_iff. tauto.
Qed.

Lemma reconcile_invalid_outcome claim err tr out :
  runs (reconcile_invalid claim err) tr out ->
  omap applied tr = [] /\ RequeueAfter out = 0 /\ (out_err out = None <-> exists u, In (Ev (ApplyStatus u) None) tr).
Proof.
  unfold reconcile_invalid. intros (tr1 & tr2 & failed & -> & Hst & [-> ->])%runs_bind. rewrite app_nil_r.
  split; [|split; [done|by eapply applyStatus_runs]].
  by eapply no_apply_applied, applyStatus_every.
Qed.
End runs.

(** *** Concrete converters, for concrete runs *)
Definition plain_object `{Unstructured} (obj : Object) : json :=
  let m := object_meta obj in
  SetLabels (SetNamespace (SetName (newUnstructured (mkGVK "" "v1" "Object")) (meta_Name m)) (meta_Namespace m)) (meta_Labels m).

#[local] Instance plain_converter : ObjectConverter := {
  ToUnstructured := fun obj => Ok (plain_object obj);
  ConditionToUnstructured := fun c => Ok (JMap [("type", JString (cond_Type c)); ("status", JString (cond_Status c))]);
  type_text := fun _ => "*v1.Object"
}.
#[local] Instance no_conditions : AckConverter := fun _ => Ok [].
#[local] Instance plain_print : UnicodePrint := no_rune.

Definition not_found : error := ForeignError "not found" 404.
Definition deleted_claim : ServiceClaim :=
  let c := sample_claim in
  mkServiceClaim (Name c) (Namespace c) (claim_Labels c) (Annotations c) (Generation c) (Some 7) [Finalizer] (Spec c) (Status c).
Definition claim_req : NamespacedName := mkNamespacedName "team-a" "shortlink".
Definition own_namespace : LiveNamespace := mkLiveNamespace "svc-shortlink" (Labels sample_claim) None.
Definition all_parts : Reconciler := mkReconciler true true true (Some sample_storage).

(** A cluster in which every call is answered: applies return what was sent, nothing is recorded
    in Prometheus, every read finds an empty object. *)
Definition quiet_cluster : env unit := fun X c s =>
  (match c in call X' return X' with
   | GetClaim _ => Ok sample_claim
   | GetNamespaceObject _ => Ok own_namespace
   | GetRollout _ _ => Ok (mkLiveRollout 1 "1" RolloutPhaseHealthy "")
   | GetUnstructured _ _ _ => Ok (JObject [])
   | Apply u => Ok u
   | ApplyStatus _ => None
   | DeleteNamespace _ => None
   | Query _ => Err (SentinelError "no data")
   | Eventf _ _ _ _ _ => tt
   | Now => 0
   end, s).

(** ** Properties *)

(** C5: The only thing the reconciler ever deletes is a namespace, and only this way: the claim it
    was asked about is being deleted and holds the finalizer, the namespace it just read under the
    claim's namespace name carries that claim's labels and is not being deleted already. It
    deletes at most once per run, as its last call. *)
Theorem namespace_deletion_safe
  `{Unstructured, UnicodePrint, StatusConditions, ApiErrors, FinalizerUtil, ObjectConverter, AckConverter}
  (r : Reconciler) (req : NamespacedName) (tr : list event) (out : outcome) (e : event) (ns : LiveNamespace) :
  runs (Reconcile r req) tr out -> In e tr -> deleted e = Some ns ->
  exists claim a,
    tr = [Ev (GetClaim req) (Ok claim); Ev (GetNamespaceObject (NamespaceName claim)) (Ok ns); Ev (DeleteNamespace ns) a] /\
    DeletionTimestamp claim <> None /\ ContainsFinalizer (Finalizers claim) Finalizer = true /\
    belongsTo (ns_Labels ns) claim = true /\ ns_DeletionTimestamp ns = None.
Proof.
  intros Hr Hin He.
  assert (forall r' claim tr' out', runs (reconcile_live r' claim) tr' out' -> In e tr' -> False) as Hlive.
  { intros r' claim tr' out' Hr' Hin'. pose proof (every_In _ _ _ _ _ (reconcile_live_keeps r' claim) Hr' Hin') as Hk.
    unfold keeps in Hk. by rewrite He in Hk. }
  apply Reconcile_runs in Hr as (answer & rest & -> & Hcases).
  destruct Hin as [<-|Hin]; [done|].
  destruct Hcases as [(err & -> & ->)|[(claim & -> & Hd & Hfin)|(claim & -> & Hd & Hcases)]]; [done| |].
  - exists claim. apply finalize_runs in Hfin as [[-> _]|(Hf & ans & [(-> & _)|[(resp & -> & _)|(ns' & -> & Hb & [[-> _]|(a & -> & Hts)])]])].
    + done.
    + destruct Hin as [<-|[]]. done.
    + destruct Hin as [<-|[<-|[]]]; done.
    + destruct Hin as [<-|[]]. done.
    + destruct Hin as [<-|[<-|[]]]; [done|]. injection He as ->. by exists a.
  - exfalso. destruct Hcases as [[_ Hl]|(_ & resp & rest' & -> & Hl)]; [by eapply Hlive|].
    destruct Hin as [<-|Hin]; [done|]. destruct resp; [by eapply Hlive|]. by destruct Hl as [-> _].
Qed.

Lemma namespace_deletion_safe_witness :
  belongsTo (ns_Labels own_namespace) deleted_claim = true /\ ns_DeletionTimestamp own_namespace = None.
Proof.
  assert (runs (Reconcile all_parts claim_req)
    [Ev (GetClaim claim_req) (Ok deleted_claim); Ev (GetNamespaceObject "svc-shortlink") (Ok own_namespace);
     Ev (DeleteNamespace own_namespace) None] (mkOutcome namespaceDeletionPoll None)) as Hr.
  { exists (Ok deleted_claim). eexists. split; [reflexivity|]. exists (Ok own_namespace). eexists. split; [reflexivity|].
    exists None. eexists. split; [reflexivity|]. split; reflexivity. }
  destruct (namespace_deletion_safe _ _ _ _ _ own_namespace Hr (or_intror (or_intror (or_introl eq_refl))) eq_refl)
    as (claim & a & E & _ & _ & Hb & Hts).
  split; [reflexivity|exact Hts].
Defined.

(** C6: The finalizer is released only when the namespace is gone or is not the claim's. For a
    claim being deleted, every apply is of the claim's bare metadata, and it comes right after
    reading that there is no such namespace or that its labels name another claim. A claim whose
    namespace still exists keeps its finalizer and is looked at again, after five seconds or
    because of an error. *)
Theorem finalizer_released_safely
  `{Unstructured, UnicodePrint, StatusConditions, ApiErrors, FinalizerUtil, ObjectConverter, AckConverter}
  (r : Reconciler) (req : NamespacedName) (claim : ServiceClaim) (rest : list event) (out : outcome) :
  DeletionTimestamp claim <> None ->
  runs (Reconcile r req) (Ev (GetClaim req) (Ok claim) :: rest) out ->
  (forall e u, In e rest -> applied e = Some u ->
     u = claim_body claim [] [] /\
     exists answer, rest = [Ev (GetNamespaceObject (NamespaceName claim)) answer; e] /\
       ((exists err, answer = Err err /\ IsNotFound err = true) \/
        (exists ns, answer = Ok ns /\ belongsTo (ns_Labels ns) claim = false))) /\
  (forall ns, In (Ev (GetNamespaceObject (NamespaceName claim)) (Ok ns)) rest -> belongsTo (ns_Labels ns) claim = true ->
     RequeueAfter out = namespaceDeletionPoll \/ out_err out <> None).
Proof.
  intros Hd Hr. pose proof (Reconcile_deleted _ _ _ _ _ Hd Hr) as Hfin. clear Hr.
  pose proof (finalize_progress _ _ _ Hfin) as Hprog.
  apply finalize_runs in Hfin as [[-> _]|(_ & ans & [(-> & err & -> & Hn)|[(resp & -> & Hwhy)|(ns' & -> & Hb & Hns)]])].
  - by split.
  - split; [by intros e u [<-|[]]|]. intros ns [E|[]]. by apply (f_equal namespace_answer) in E.
  - split; [|].
    + intros e u [<-|[<-|[]]]; [done|]. intros [= <-]. split; [done|]. by exists ans.
    + intros ns [E|[E|[]]] Hb; [|by apply (f_equal namespace_answer) in E].
      apply (f_equal namespace_answer) in E. injection E as ->.
      destruct Hwhy as [(err & ? & _)|(ns' & [= <-] & Hb')]; congruence.
  - split.
    + intros e u Hin. destruct Hns as [[-> _]|(a & -> & _)]; [by destruct Hin as [<-|[]]|].
      by destruct Hin as [<-|[<-|[]]].
    + intros ns Hin Hbns. by eapply Hprog.
Qed.

Lemma finalizer_released_safely_witness :
  exists answer, [Ev (GetNamespaceObject "svc-shortlink") (Err not_found); Ev (Apply (claim_body deleted_claim [] [])) (Ok JNull)] =
    [Ev (GetNamespaceObject (NamespaceName deleted_claim)) answer; Ev (Apply (claim_body deleted_claim [] [])) (Ok JNull)].
Proof.
  assert (runs (Reconcile all_parts claim_req)
    [Ev (GetClaim claim_req) (Ok deleted_claim); Ev (GetNamespaceObject "svc-shortlink") (Err not_found);
     Ev (Apply (claim_body deleted_claim [] [])) (Ok JNull)] (mkOutcome 0 None)) as Hr.
  { exists (Ok deleted_claim). eexists. split; [reflexivity|]. exists (Err not_found). eexists. split; [reflexivity|].
    exists (Ok JNull). eexists. split; [reflexivity|]. split; reflexivity. }
  destruct (finalizer_released_safely all_parts claim_req deleted_claim _ _ ltac:(discriminate) Hr) as [Hrel _].
  destruct (Hrel _ _ (or_intror (or_introl eq_refl)) eq_refl) as (_ & answer & E & _).
  exists answer. exact E.
Defined.

(** No managed object is ever applied for a claim that does not hold the finalizer. For a live
    claim without it, the first call after reading the claim applies the claim's metadata with the
    finalizer; if that fails nothing else is called and the error is returned. A claim that does
    not exist, or cannot be read, causes no other call. *)
Theorem finalizer_before_objects
  `{Unstructured, UnicodePrint, StatusConditions, ApiErrors, FinalizerUtil, ObjectConverter, AckConverter}
  (r : Reconciler) (req : NamespacedName) (tr : list event) (out : outcome) :
  runs (Reconcile r req) tr out ->
  exists answer rest, tr = Ev (GetClaim req) answer :: rest /\
    match answer with
    | Err _ => rest = []
    | Ok claim =>
        DeletionTimestamp claim = None -> ContainsFinalizer (Finalizers claim) Finalizer = false ->
        exists response rest',
          rest = Ev (Apply (claim_body claim [("finalizers", JArray [JString Finalizer])] [])) response :: rest' /\
          (forall err, response = Err err -> rest' = [] /\ out_err out <> None)
    end.
Proof.
  intros (answer & rest & -> & Hcases)%Reconcile_runs. exists answer, rest. split; [done|].
  destruct Hcases as [(err & -> & ->)|[(claim & -> & Hd & _)|(claim & -> & _ & Hcases)]]; [done|done|].
  intros _ Hf. destruct Hcases as [[Hf' _]|(_ & resp & rest' & -> & Hl)]; [congruence|].
  exists resp, rest'. split; [done|]. by intros err ->.
Qed.

Lemma finalizer_before_objects_witness :
  exists response rest',
    [Ev (Apply (claim_body sample_claim [("finalizers", JArray [JString Finalizer])] [])) (Err not_found)] =
    Ev (Apply (claim_body sample_claim [("finalizers", JArray [JString Finalizer])] [])) response :: rest'.
Proof.
  assert (runs (Reconcile all_parts claim_req)
    [Ev (GetClaim claim_req) (Ok sample_claim);
     Ev (Apply (claim_body sample_claim [("finalizers", JArray [JString Finalizer])] [])) (Err not_found)]
    (mkOutcome 0 (Some (WrapError (Sprintf ["setting finalizer present=true on ServiceClaim ";
       claim_key_text sample_claim; ": "; Error not_found]) not_found)))) as Hr.
  { exists (Ok sample_claim). eexists. split; [reflexivity|]. exists (Err not_found). eexists. split; [reflexivity|].
    split; reflexivity. }
  destruct (finalizer_before_objects _ _ _ _ Hr) as (answer & rest & E & Hm).
  pose proof (f_equal (fun tr => match tr with e :: _ => claim_answer e | [] => None end) E) as Ea.
  pose proof (f_equal (fun tr => match tr with _ :: t => t | [] => [] end) E) as Er. cbn in Ea, Er.
  injection Ea as <-. destruct (Hm eq_refl eq_refl) as (resp & rest' & E' & _).
  exists resp, rest'. rewrite Er. exact E'.
Defined.

(** C14: [applyObjects] applies the objects in the order [Build] gave them, each at most once, and
    stops at the first failure: what it applied is a prefix of them, the count it returns is that
    of the applies that succeeded, no error means all of them did, and after an error no later
    object is touched. Without an APIReader it reports no drift. *)
Theorem applyObjects_in_order `{Unstructured, ApiErrors, ObjectConverter}
  (api_reader : bool) (objects : list Object) (tr : list event) (n : nat) (corrections : list correction)
  (err : option error) :
  runs (applyObjects api_reader objects) tr (n, corrections, err) ->
  let bodies := omap applied tr in
  Forall2 (fun obj u => toApplyObject obj = Ok u) (take (length bodies) objects) bodies /\
  n = applied_ok tr /\ (n <= length bodies <= S n)%nat /\
  match err with
  | None => n = length objects /\ length bodies = length objects
  | Some _ => (n < length objects)%nat
  end /\
  (api_reader = false -> corrections = []).
Proof.
  intros Hr. pose proof (applyObjects_runs api_reader objects 0 [] tr n corrections err Hr) as H'. cbv zeta in *.
  destruct H' as (_ & HF & -> & Hc & He & Hcs). by rewrite Nat.add_0_l.
Qed.

Lemma applyObjects_in_order_witness :
  let obj := ONamespace (BuildNamespace sample_claim) in
  exists u, toApplyObject obj = Ok u /\
    Forall2 (fun obj u => toApplyObject obj = Ok u) [obj] (omap applied [Ev (Apply u) (Ok u)]).
Proof.
  intros obj. destruct (toApplyObject obj) as [u|e] eqn:E; [|discriminate E]. exists u. split; [reflexivity|].
  assert (runs (applyObjects false [obj]) [Ev (Apply u) (Ok u)] (1%nat, [], None)) as Hr.
  { unfold applyObjects, applyObjects_from. rewrite E. exists (Ok u). eexists. split; [reflexivity|]. split; reflexivity. }
  exact (proj1 (applyObjects_in_order false [obj] _ _ _ _ Hr)).
Defined.

(** A reconcile that returns no error has applied every object [Build] returned and written
    the status, and asks to run again in a minute; so a failed apply or a failed status write is
    always an error, which controller-runtime retries. *)
Theorem reconcile_success_means_applied
  `{Unstructured, UnicodePrint, StatusConditions, ApiErrors, FinalizerUtil, ObjectConverter, AckConverter}
  (r : Reconciler) (claim : ServiceClaim) (objects : list Object) (tr : list event) (out : outcome) :
  Build claim (r_Storage r) = Ok objects -> runs (reconcile_live r claim) tr out -> out_err out = None ->
  applied_ok tr = length objects /\ (exists u, In (Ev (ApplyStatus u) None) tr) /\ RequeueAfter out = sloRefreshInterval.
Proof.
  intros HB Hr Ho. unfold reconcile_live in Hr. rewrite HB in Hr. unfold reconcile_objects in Hr.
  apply runs_bind in Hr as (tr1 & tr2 & [[n cs] applyErr] & -> & Hap & Hr).
  apply runs_bind in Hr as (tr3 & tr4 & [] & -> & Hdrift & Hr).
  pose proof (applyObjects_runs _ _ _ _ _ _ _ _ Hap) as (_ & _ & -> & _ & He & _).
  assert (applied_ok tr3 = O) as Hz3.
  { apply applied_ok_none. destruct (inSyncAtGeneration claim); [by eapply reportDrift_no_apply|by destruct Hdrift as [-> _]]. }
  assert (applied_ok tr4 = O) as Hz4 by (apply applied_ok_none; by eapply reconcile_status_no_apply).
  rewrite !applied_ok_app, Hz3, Hz4.
  unfold reconcile_status in Hr.
  apply runs_bind in Hr as (t1 & t2 & report & -> & _ & Hr). apply runs_bind in Hr as (t3 & t4 & storage & -> & _ & Hr).
  apply runs_bind in Hr as (t5 & t6 & [rollout rolloutErr] & -> & _ & Hr).
  apply runs_bind in Hr as (t7 & t8 & failed & -> & Hst & Hr).
  destruct failed as [e|]; [destruct Hr as [_ ->]; destruct applyErr, rolloutErr as [e'|]; try done; simpl in Ho; by destruct (IsNotFound e')|].
  destruct (errorsJoin _) as [e|] eqn:Ej; [by destruct Hr as [_ ->]|]. destruct Hr as [_ ->].
  apply errorsJoin_None in Ej. inversion Ej as [|? ? Ha _]; subst.
  split; [lia|]. split; [|done].
  destruct (proj1 (applyStatus_runs _ _ _ _ _ _ _ Hst) eq_refl) as [u Hu]. exists u. rewrite !in_app_iff. tauto.
Qed.

Lemma reconcile_success_means_applied_witness :
  let '(tr, out, _) := exec quiet_cluster (reconcile_live all_parts sample_claim) tt in
  RequeueAfter out = sloRefreshInterval.
Proof.
  pose proof (exec_runs quiet_cluster (reconcile_live all_parts sample_claim) tt) as Hr.
  assert (out_err (exec quiet_cluster (reconcile_live all_parts sample_claim) tt).1.2 = None) as Ho by (vm_compute; reflexivity).
  assert (is_ok (Build sample_claim (r_Storage all_parts)) = true) as Hb by (vm_compute; reflexivity).
  destruct (Build sample_claim (r_Storage all_parts)) as [objects|e] eqn:E; [|discriminate Hb].
  destruct (exec quiet_cluster (reconcile_live all_parts sample_claim) tt) as [[tr out] s].
  exact (proj2 (proj2 (reconcile_success_means_applied _ _ _ _ _ E Hr Ho))).
Defined.

(** Measuring fails open. Once every object is applied, the reconcile succeeds whatever
    Prometheus answers and whatever reading the ACK objects returns, as long as the Rollout is
    read or does not exist yet and the status write is accepted. *)
Theorem reconcile_fails_open
  `{Unstructured, UnicodePrint, StatusConditions, ApiErrorsLaws, FinalizerUtil, ObjectConverter, AckConverter}
  (r : Reconciler) (claim : ServiceClaim) (total applied : nat) (tr : list event) (out : outcome) :
  (forall c, is_ok (ConditionToUnstructured c) = true) ->
  runs (reconcile_status r claim total applied None) tr out ->
  forallb (fun e => negb (status_failed e) && negb (rollout_failed e)) tr = true ->
  out = mkOutcome sloRefreshInterval None.
Proof.
  intros Hok Hr Hf. apply reconcile_status_outcome in Hr; [|by intros; apply IsNotFound_wrap|done].
  fold settles in Hf. change (forallb settles tr = true) in Hf. rewrite Hf in Hr. by destruct Hr.
Qed.

Lemma reconcile_fails_open_witness :
  let '(tr, out, _) := exec quiet_cluster (reconcile_status all_parts sample_claim 15 15 None) tt in
  out = mkOutcome sloRefreshInterval None.
Proof.
  pose proof (exec_runs quiet_cluster (reconcile_status all_parts sample_claim 15 15 None) tt) as Hr.
  assert (forallb (fun e => negb (status_failed e) && negb (rollout_failed e))
    (exec quiet_cluster (reconcile_status all_parts sample_claim 15 15 None) tt).1.1 = true) as Hf by (vm_compute; reflexivity).
  destruct (exec quiet_cluster (reconcile_status all_parts sample_claim 15 15 None) tt) as [[tr out] s].
  exact (reconcile_fails_open all_parts sample_claim 15 15 tr out (fun _ => eq_refl) Hr Hf).
Defined.

(** C17: Whether a reconcile of a live claim succeeds is decided by its writes and its Rollout read alone,
    whatever Prometheus answers and whatever reading the ACK objects returns. When the spec builds,
    the run succeeds, asks to run again in a minute and has written the status exactly when every
    object [Build] returned was applied, no status write was rejected and the Rollout was read or
    does not exist; in every other case it returns an error, which is retried with a back-off. When
    the spec does not build, nothing is applied and the run fails only if the status write does. *)
Theorem reconcile_outcome
  `{Unstructured, UnicodePrint, StatusConditions, ApiErrorsLaws, FinalizerUtil, ObjectConverter, AckConverter}
  (r : Reconciler) (claim : ServiceClaim) (tr : list event) (out : outcome) :
  (forall c, is_ok (ConditionToUnstructured c) = true) ->
  runs (reconcile_live r claim) tr out ->
  match Build claim (r_Storage r) with
  | Ok objects =>
      if (applied_ok tr =? length objects)%nat && forallb settles tr
      then out = mkOutcome sloRefreshInterval None /\ exists u, In (Ev (ApplyStatus u) None) tr
      else RequeueAfter out = 0 /\ out_err out <> None
  | Err _ =>
      omap applied tr = [] /\ RequeueAfter out = 0 /\
      (out_err out = None <-> exists u, In (Ev (ApplyStatus u) None) tr)
  end.
Proof.
  intros Hok Hr. unfold reconcile_live in Hr. destruct (Build claim (r_Storage r)) as [objects|err].
  - by apply reconcile_objects_outcome in Hr; [|by intros; apply IsNotFound_wrap|].
  - by apply reconcile_invalid_outcome in Hr.
Qed.

(** A cluster that rejects every apply. *)
Definition rejecting_cluster : env unit := fun X c s =>
  match c in call X' return X' * unit with
  | Apply _ => (Err not_found, s)
  | c => quiet_cluster _ c s
  end.

Lemma reconcile_outcome_witness :
  out_err (exec quiet_cluster (reconcile_live all_parts sample_claim) tt).1.2 = None /\
  out_err (exec rejecting_cluster (reconcile_live all_parts sample_claim) tt).1.2 <> None.
Proof.
  assert (is_ok (Build sample_claim (r_Storage all_parts)) = true) as Hb by (vm_compute; reflexivity).
  assert (match Build sample_claim (r_Storage all_parts) with
          | Ok objects =>
              (applied_ok (exec quiet_cluster (reconcile_live all_parts sample_claim) tt).1.1 =? length objects)%nat &&
              forallb settles (exec quiet_cluster (reconcile_live all_parts sample_claim) tt).1.1 = true /\
              (applied_ok (exec rejecting_cluster (reconcile_live all_parts sample_claim) tt).1.1 =? length objects)%nat = false
          | Err _ => False end) as Hc by (vm_compute; split; reflexivity).
  pose proof (exec_runs quiet_cluster (reconcile_live all_parts sample_claim) tt) as Hq.
  pose proof (exec_runs rejecting_cluster (reconcile_live all_parts sample_claim) tt) as Hr.
  destruct (exec quiet_cluster (reconcile_live all_parts sample_claim) tt) as [[tr out] s].
  destruct (exec rejecting_cluster (reconcile_live all_parts sample_claim) tt) as [[tr' out'] s'].
  pose proof (reconcile_outcome all_parts sample_claim tr out (fun _ => eq_refl) Hq) as Q.
  pose proof (reconcile_outcome all_parts sample_claim tr' out' (fun _ => eq_refl) Hr) as R.
  destruct (Build sample_claim (r_Storage all_parts)) as [objects|e]; [|discriminate Hb].
  cbn [fst snd] in *. destruct Hc as [Hc1 Hc2]. rewrite Hc1 in Q. rewrite Hc2 in R.
  split; [by destruct Q as [-> _]|exact (proj2 R)].
Defined.

(** The labels every managed object carries lead back to exactly its claim: an object's event
    is mapped to the claim that built it, an object without the labels to none, and a namespace
    belongs to a claim exactly when it was built for that name and namespace. *)
Theorem labels_lead_back (sc sc' : ServiceClaim) :
  (Name sc <> "" -> Namespace sc <> "" -> claimForObject (Labels sc) = [mkNamespacedName (Namespace sc) (Name sc)]) /\
  claimForObject ∅ = [] /\
  (belongsTo (Labels sc) sc' = true <-> Name sc = Name sc' /\ Namespace sc = Namespace sc').
Proof.
  split; [|split; [done|]].
  - intros Hn Hns. unfold claimForObject. rewrite Labels_claim, Labels_claim_namespace. cbn [from_option id].
    by rewrite (proj2 (String.eqb_neq _ _) Hn), (proj2 (String.eqb_neq _ _) Hns).
  - unfold belongsTo. rewrite Labels_claim, Labels_claim_namespace. cbn [from_option id].
    by rewrite andb_true_iff, !String.eqb_eq.
Qed.

Lemma labels_lead_back_witness : claimForObject (Labels sample_claim) = [claim_req].
Proof. apply (labels_lead_back sample_claim sample_claim); discriminate. Defined.

(** The controller's own status writes do not wake it up: an update of a claim that is not
    being deleted and keeps its generation, labels and annotations is dropped, and any other
    update is admitted. *)
Theorem claimChanged_drops_status `{PredicatesLaws} (old new : ServiceClaim) :
  claimChanged old new = false <->
  Generation old = Generation new /\ claim_Labels old = claim_Labels new /\ Annotations old = Annotations new /\
  DeletionTimestamp new = None.
Proof.
  unfold claimChanged. rewrite !orb_false_iff, GenerationChanged_spec, LabelChanged_spec, AnnotationChanged_spec.
  destruct (DeletionTimestamp new); split; intuition discriminate.
Qed.

Lemma claimChanged_drops_status_witness :
  claimChanged sample_claim (with_conditions sample_claim [condition_of sample_claim ConditionReady ConditionTrue "" ""]) = false.
Proof. apply claimChanged_drops_status. repeat split. Defined.
