(* ===== verification/Deletion.v ===== *)
(** * A deleted claim goes away

    [finalize] in a cluster that does its part: the API server marks a deleted namespace, takes
    some time to empty it, and removes a deleted claim once no finalizer is left on it. *)
From Stdlib Require Import ZArith Lia Ascii String.
From S2P Require Import Prelude GoFloat GoStrings GoJson Api Kubernetes Instances Meta Storage Workload Build.
From S2P Require Import Effects SloStatus Freeze StorageStatus Controller ControllerSafety.
Local Open Scope Z_scope.
Local Open Scope stdpp_scope.

(** ** Definitions *)

(** The claim, its namespace, and how many more reads will still find the namespace once it is
    being deleted. *)
Record world := mkWorld {
  w_claim : option ServiceClaim;
  w_namespace : option LiveNamespace;
  w_left : nat
}.

Definition mark_deleted (ns : LiveNamespace) : LiveNamespace :=
  mkLiveNamespace (ns_Name ns) (ns_Labels ns) (Some 1).

(** An apply of the claim's metadata without a finalizer gives the controller's up. *)
Definition gives_up_finalizer (u : json) : bool :=
  match member "metadata" u with
  | Some m => match member "finalizers" m with None => true | Some _ => false end
  | None => false
  end.

Definition read_namespace (gone : error) (w : world) : result LiveNamespace * world :=
  match w_namespace w with
  | None => (Err gone, w)
  | Some ns =>
      match ns_DeletionTimestamp ns, w_left w with
      | None, _ => (Ok ns, w)
      | Some _, S k => (Ok ns, mkWorld (w_claim w) (Some ns) k)
      | Some _, O => (Err gone, mkWorld (w_claim w) None O)
      end
  end.

(** The cluster, for the calls finalizing makes; it answers the others with [gone]. *)
Definition api_server (gone : error) : env world := fun X c w =>
  match c in call X' return X' * world with
  | GetClaim _ => (match w_claim w with Some claim => Ok claim | None => Err gone end, w)
  | GetNamespaceObject _ => read_namespace gone w
  | DeleteNamespace ns => (None, mkWorld (w_claim w) (Some (mark_deleted ns)) (w_left w))
  | Apply u => (Ok u, if gives_up_finalizer u then mkWorld None (w_namespace w) (w_left w) else w)
  | GetRollout _ _ => (Err gone, w)
  | GetUnstructured _ _ _ => (Err gone, w)
  | ApplyStatus _ => (None, w)
  | Query _ => (Err gone, w)
  | Eventf _ _ _ _ _ => (tt, w)
  | Now => (0, w)
  end.

Section deletion.
Context `{Unstructured, UnicodePrint, StatusConditions, ApiErrors, FinalizerUtil, ObjectConverter, AckConverter}.
Context (gone : error) (r : Reconciler) (req : NamespacedName).

(** One reconcile of the claim: its outcome, and the world after it. *)
Definition round (w : world) : outcome * world :=
  let '(_, out, w') := exec (api_server gone) (Reconcile r req) w in (out, w').

(** The worlds after so many reconciles. *)
Fixpoint rounds (n : nat) (w : world) : world :=
  match n with O => w | S n' => rounds n' (round w).2 end.

(** ** Lemmas *)

Context (claim : ServiceClaim).
Context (Hdeleted : DeletionTimestamp claim <> None) (Hgone : IsNotFound gone = true).
Context (Hfin : ContainsFinalizer (Finalizers claim) Finalizer = true).

Lemma round_finalizes ns left :
  round (mkWorld (Some claim) ns left) =
  let '(_, out, w') := exec (api_server gone) (finalize claim) (mkWorld (Some claim) ns left) in (out, w').
Proof.
  unfold round, Reconcile. cbn [exec mbind prog_mbind prog_bind do_call api_server w_claim].
  destruct (DeletionTimestamp claim) as [t|]; [|by destruct Hdeleted].
  by destruct (exec (api_server gone) (finalize claim) _) as [[tr out] w'].
Qed.

Lemma round_marks ns left :
  belongsTo (ns_Labels ns) claim = true -> ns_DeletionTimestamp ns = None ->
  round (mkWorld (Some claim) (Some ns) left) =
  (mkOutcome namespaceDeletionPoll None, mkWorld (Some claim) (Some (mark_deleted ns)) left).
Proof.
  intros Hb Ht. rewrite round_finalizes. unfold finalize. rewrite Hfin.
  cbn [exec mbind prog_mbind prog_bind do_call api_server read_namespace w_namespace negb]. rewrite Ht.
  cbn [fst snd]. rewrite Hb. cbn [negb exec mbind prog_mbind prog_bind do_call api_server]. rewrite Ht. done.
Qed.

Lemma round_waits ns t left :
  belongsTo (ns_Labels ns) claim = true -> ns_DeletionTimestamp ns = Some t ->
  round (mkWorld (Some claim) (Some ns) (S left)) =
  (mkOutcome namespaceDeletionPoll None, mkWorld (Some claim) (Some ns) left).
Proof.
  intros Hb Ht. rewrite round_finalizes. unfold finalize. rewrite Hfin.
  cbn [exec mbind prog_mbind prog_bind do_call api_server read_namespace w_namespace negb w_left]. rewrite Ht.
  cbn [fst snd w_claim]. rewrite Hb. cbn [negb exec mbind prog_mbind prog_bind do_call api_server]. rewrite Ht. done.
Qed.

Lemma round_releases ns t :
  ns_DeletionTimestamp ns = Some t ->
  round (mkWorld (Some claim) (Some ns) 0) = (mkOutcome 0 None, mkWorld None None 0).
Proof.
  intros Ht. rewrite round_finalizes. unfold finalize. rewrite Hfin.
  cbn [exec mbind prog_mbind prog_bind do_call api_server read_namespace w_namespace negb w_left]. rewrite Ht.
  cbn [fst snd w_claim]. rewrite Hgone. reflexivity.
Qed.

Lemma rounds_waiting left : forall ns t n,
  belongsTo (ns_Labels ns) claim = true -> ns_DeletionTimestamp ns = Some t -> (n <= left)%nat ->
  rounds n (mkWorld (Some claim) (Some ns) left) = mkWorld (Some claim) (Some ns) (left - n).
Proof.
  induction left as [|left IH]; intros ns t n Hb Ht Hn; [replace n with O by lia; done|].
  destruct n as [|n]; [done|]. cbn [rounds]. rewrite (round_waits ns t left Hb Ht). cbn [snd].
  rewrite (IH ns t n Hb Ht) by lia. done.
Qed.

Lemma rounds_plus n m w : rounds (n + m) w = rounds m (rounds n w).
Proof. revert w. induction n as [|n IH]; intros w; [done|]. apply IH. Qed.
End deletion.

(** ** Properties *)

(** C7: A deleted claim goes away, and not before its namespace does. In a cluster that needs
    [left] more reads before a namespace being deleted is gone, the finalizer is held, and the
    reconcile asks to run again in five seconds without an error, in each of the [left + 1] rounds
    in which the namespace still exists; the next round releases the finalizer, and the claim and
    its namespace are gone. *)
Theorem deletion_completes
  `{Unstructured, UnicodePrint, StatusConditions, ApiErrors, FinalizerUtil, ObjectConverter, AckConverter}
  (gone : error) (r : Reconciler) (req : NamespacedName) (claim : ServiceClaim) (ns : LiveNamespace) (left : nat) :
  IsNotFound gone = true -> DeletionTimestamp claim <> None ->
  ContainsFinalizer (Finalizers claim) Finalizer = true ->
  belongsTo (ns_Labels ns) claim = true -> ns_DeletionTimestamp ns = None ->
  let start := mkWorld (Some claim) (Some ns) left in
  (forall n, (n <= left)%nat ->
     w_claim (rounds gone r req n start) = Some claim /\ w_namespace (rounds gone r req n start) <> None /\
     (round gone r req (rounds gone r req n start)).1 = mkOutcome namespaceDeletionPoll None) /\
  rounds gone r req (left + 2) start = mkWorld None None 0.
Proof.
  intros Hg Hd Hf Hb Ht start.
  set (marked := mkWorld (Some claim) (Some (mark_deleted ns)) left).
  assert (round gone r req start = (mkOutcome namespaceDeletionPoll None, marked)) as Hfirst by (by apply round_marks).
  assert (forall n, (n <= left)%nat ->
    rounds gone r req n marked = mkWorld (Some claim) (Some (mark_deleted ns)) (left - n)) as Hwait
    by (intros n Hn; by apply (rounds_waiting gone r req claim Hd Hf left (mark_deleted ns) 1 n)).
  split.
  - intros [|n] Hn; cbn [rounds]; rewrite ?Hfirst; [done|]. cbn [snd]. rewrite Hwait by lia. split; [done|]. split; [done|].
    replace (left - n)%nat with (S (left - S n)) by lia.
    by rewrite (round_waits gone r req claim Hd Hf (mark_deleted ns) 1).
  - replace (left + 2)%nat with (S (left + 1)) by lia. cbn [rounds]. rewrite Hfirst. cbn [snd].
    rewrite rounds_plus, Hwait by lia. rewrite Nat.sub_diag. cbn [rounds].
    by rewrite (round_releases gone r req claim Hd Hg Hf (mark_deleted ns) 1).
Qed.

#[local] Existing Instance plain_converter.
#[local] Existing Instance no_conditions.
#[local] Existing Instance plain_print.

Lemma deletion_completes_witness :
  rounds not_found all_parts claim_req 5 (mkWorld (Some deleted_claim) (Some own_namespace) 3) = mkWorld None None 0.
Proof.
  refine (proj2 (deletion_completes not_found all_parts claim_req deleted_claim own_namespace 3 _ _ _ _ _));
    [reflexivity|discriminate|vm_compute; reflexivity|vm_compute; reflexivity|reflexivity].
Defined.
