(* ===== verification/ControllerStatus.v ===== *)
(** * What a reconcile writes down

    The conditions of the status write against what the reconcile did: which objects it applied,
    what Prometheus answered, what the Rollout said; and the drift Events against the ownership
    it read. *)
From Stdlib Require Import ZArith QArith Lia Ascii String SpecFloat.
From S2P Require Import Prelude GoFloat GoStrings GoJson Api Kubernetes Instances Meta Storage Workload Monitoring.
From S2P Require Import Build Effects SloStatus Freeze StorageStatus Controller ControllerCalls ControllerSafety.
Local Open Scope Z_scope.
Local Open Scope stdpp_scope.

(** ** Lemmas *)

(** Calls that ask Prometheus nothing. *)
Definition no_query (e : event) : bool := match query_answer e with Some _ => false | None => true end.

Lemma is_write_no_query (e : event) : is_read e = false -> no_query e = true.
Proof. by destruct e as [X []]. Qed.

Lemma no_query_answers tr : forallb no_query tr = true -> omap query_answer tr = [].
Proof.
  induction tr as [|e tr IH]; [done|]. simpl. unfold no_query at 1. intros [He Ht]%andb_true_iff.
  cbn. destruct (query_answer e); [done|by apply IH].
Qed.

(** [c] is what [conds] says of its type; the transition time is the API's own. *)
Definition says `{StatusConditions} (conds : list Condition) (c : Condition) : Prop :=
  exists c', FindStatusCondition conds (cond_Type c) = Some c' /\ cond_Status c' = cond_Status c /\
    cond_Reason c' = cond_Reason c /\ cond_Message c' = cond_Message c /\
    cond_ObservedGeneration c' = cond_ObservedGeneration c.

Lemma says_true `{StatusConditionsLaws} conds c :
  says conds c -> IsStatusConditionTrue conds (cond_Type c) = String.eqb (cond_Status c) ConditionTrue.
Proof. intros (c' & Hf & Hs & _). by rewrite IsStatusConditionTrue_spec, Hf, Hs. Qed.

Lemma set_conditions_says `{StatusConditionsLaws} set : forall cs tr conds,
  NoDup (map cond_Type set) -> runs (set_conditions cs set) tr conds ->
  Forall (says conds) set /\
  (forall t, t ∉ map cond_Type set -> FindStatusCondition conds t = FindStatusCondition cs t).
Proof.
  induction set as [|c set IH]; intros cs tr conds Hnd Hr; cbn [set_conditions] in Hr.
  - destruct Hr as [-> ->]. by split.
  - inversion Hnd as [|? ? Hc Hnd']; subst. destruct Hr as (now & tr' & -> & Hr).
    destruct (IH _ _ _ Hnd' Hr) as [Hset Hother]. split.
    + constructor; [|done]. destruct (find_set_same cs c now) as (c' & Hf & _ & Hrest).
      exists c'. split; [|exact Hrest]. by rewrite Hother.
    + intros t Ht. cbn [map] in Ht. apply not_elem_of_cons in Ht as [Hne Ht].
      rewrite (Hother t Ht). by apply find_set_other.
Qed.

(** *** The types of the conditions *)

Lemma measured_report_type `{UnicodePrint} claim fastBurn budget r hour :
  cond_Type (rep_condition (measured_report claim fastBurn budget r hour)) = ConditionSLOHealthy.
Proof.
  unfold measured_report. destruct (Budget.SpendBudget r (Some budget)) as [use|e]; [|done].
  destruct hour as [h|]; [destruct (Budget.BurnRate h (Some budget)) as [burn|e]|];
    [destruct (fleb (Budget.Remaining use) fzero); [|destruct (fleb fastBurn burn)]|
    |destruct (fleb (Budget.Remaining use) fzero)]; done.
Qed.

Lemma evaluateSLO_type `{UnicodePrint} configured claim tr rep :
  runs (evaluateSLO configured claim) tr rep -> cond_Type (rep_condition rep) = ConditionSLOHealthy.
Proof.
  intros [(_ & reason & m & ->)|(b & q & w & _ & _ & [(e & _ & _ & ->)|(h & _ & _ & Hc)])]%evaluateSLO_runs; [done|done|].
  destruct Hc as [(e & m & _ & ->)|[(m & _ & _ & ->)|(r & _ & _ & ->)]]; [done|done|apply measured_report_type].
Qed.

Lemma storageCondition_type `{Unstructured, AckConverter, ApiErrors} claim observed :
  cond_Type (storageCondition claim observed) = ConditionStorageReady.
Proof.
  induction observed as [|o rest IH]; [done|]. cbn [storageCondition].
  destruct (ack_verdict claim o) as [c|] eqn:E; [|exact IH]. revert E. unfold ack_verdict.
  destruct (match obs_err o with Some err => IsNotFound err | None => false end); [by intros [= <-]|].
  destruct (ackConditions (obs_object o)) as [cs|e]; destruct (firstError _); try by intros [= <-].
  destruct (String.eqb _ ackTrue); [by intros [= <-]|]. by destruct (negb _); intros [= <-].
Qed.

Lemma evaluateStorage_type `{Unstructured, AckConverter, ApiErrors} api_reader storage claim tr rep c :
  runs (evaluateStorage api_reader storage claim) tr rep -> storage_condition rep = Some c ->
  cond_Type c = ConditionStorageReady.
Proof.
  unfold evaluateStorage. destruct (negb (Storage (Spec claim))); [by intros [_ ->]|].
  destruct storage as [config|]; [|by intros [_ ->] [= <-]].
  intros (tr1 & tr2 & observed & _ & _ & [_ ->])%runs_bind [= <-]. apply storageCondition_type.
Qed.

Lemma readyCondition_type `{ApiErrors} claim synced storage rollout getErr :
  cond_Type (readyCondition claim synced storage rollout getErr) = ConditionReady.
Proof.
  unfold readyCondition. destruct (negb _); [done|].
  destruct (match storage with Some s => if negb (String.eqb (cond_Status s) ConditionTrue) then Some s else None | None => None end);
    [done|]. destruct getErr as [err|]; [by destruct (IsNotFound err)|].
  destruct (negb _); [done|]. destruct (String.eqb _ RolloutPhaseHealthy); [done|]. by destruct (String.eqb _ RolloutPhaseDegraded).
Qed.

(** *** The status write *)

Definition synced_condition (claim : ServiceClaim) (total applied : nat) (applyErr : option error) : Condition :=
  let progress := Sprintf ["Applied "; Itoa (Z.of_nat applied); " of "; Itoa (Z.of_nat total); " managed resources"] in
  match applyErr with
  | None => condition_of claim ConditionResourcesSynced ConditionTrue ReasonApplied progress
  | Some err => condition_of claim ConditionResourcesSynced ConditionFalse ReasonApplyFailed
                  (Sprintf [progress; ": "; Error err])
  end.

Section status.
Context `{Unstructured, UnicodePrint, StatusConditionsLaws, ApiErrors, FinalizerUtil, ObjectConverter, AckConverter}.

Lemma applyStatus_writes claim managed report storage set tr failed :
  runs (applyStatus claim managed report storage set) tr failed ->
  exists sub conds, runs (set_conditions (Conditions (Status claim)) set) sub conds /\ omap query_answer tr = [] /\
    forall e u, In e tr -> status_applied e = Some u ->
      exists js now, Forall2 (fun c j => ConditionToUnstructured c = Ok j) conds js /\
        u = status_body claim managed report storage js now.
Proof.
  unfold applyStatus. intros (tr1 & tr2 & conds & -> & Hset & Hr)%runs_bind. exists tr1, conds. split; [done|].
  assert (omap query_answer tr1 = [] /\ forall e u, In e tr1 -> status_applied e = Some u -> False) as [Hq1 Hno].
  { clear Hr. revert tr1 Hset. generalize (Conditions (Status claim)).
    induction set as [|c set IH]; intros cs tr1 Hset; cbn [set_conditions] in Hset; [destruct Hset as [-> _]; split; [done|]; by intros ? ? []|].
    destruct Hset as (now & tr3 & -> & Hset). apply IH in Hset as [Hq Hno]. split; [exact Hq|].
    intros e u [<-|Hin]; [done|by apply Hno]. }
  rewrite omap_app, Hq1.
  destruct (collect _ conds) as [js|err] eqn:Hc.
  2:{ destruct Hr as [-> _]. split; [done|]. intros e u Hin Hu. rewrite app_nil_r in Hin. by destruct (Hno e u). }
  open_run Hr. destruct Hr as (now & tr3 & -> & answer & tr4 & -> & Hr).
  assert (tr4 = []) as -> by (destruct answer; by destruct Hr as [-> _]). split; [done|].
  intros e u Hin Hu. apply in_app_iff in Hin as [Hin|[<-|[<-|[]]]]; [by destruct (Hno e u)|done|].
  injection Hu as <-. exists js, now. split; [|done].
  apply collect_Ok in Hc. eapply Forall2_impl; [exact Hc|]. intros c j. simpl. by destruct (ConditionToUnstructured c).
Qed.

Lemma evaluateStorage_no_query api_reader storage claim : every no_query (evaluateStorage api_reader storage claim).
Proof. by apply evaluateStorage_every. Qed.

Lemma status_applied_not_read tr e u : forallb is_read tr = true -> status_applied e = Some u -> In e tr -> False.
Proof. intros Hf He Hin. apply (proj1 (forallb_forall _ _) Hf) in Hin. by destruct e as [X []]. Qed.

(** The types of the conditions a reconcile sets are pairwise different. *)
Lemma reconcile_types_NoDup claim synced report storage ready :
  cond_Type synced = ConditionResourcesSynced -> cond_Type (rep_condition report) = ConditionSLOHealthy ->
  (forall c, storage = Some c -> cond_Type c = ConditionStorageReady) -> cond_Type ready = ConditionReady ->
  NoDup (map cond_Type ([synced; rep_condition report; freezeCondition claim report] ++
                        match storage with Some c => [c] | None => [] end ++ [ready])).
Proof.
  intros E1 E2 E3 E4. destruct storage as [c|]; cbn [map app]; rewrite E1, E2, E4, freezeCondition_type;
    rewrite ?(E3 c eq_refl); by apply (bool_decide_unpack _).
Qed.

(** Everything [reconcile_status] writes comes from one evaluation of the SLO, one of the storage
    and one read of the Rollout, all in the same run. *)
Lemma reconcile_status_writes r claim total applied applyErr tr out :
  runs (reconcile_status r claim total applied applyErr) tr out ->
  exists slo rest report storage rollout rolloutErr conds,
    tr = slo ++ rest /\ runs (evaluateSLO (r_Prometheus r) claim) slo report /\ omap query_answer rest = [] /\
    (applyErr = None -> rolloutErr = None -> exists reader,
       In (Ev (GetRollout reader (mkNamespacedName (NamespaceName claim) (Name claim))) (Ok rollout)) rest) /\
    Forall (says conds) [synced_condition claim total applied applyErr; rep_condition report; freezeCondition claim report;
      readyCondition claim (synced_condition claim total applied applyErr) (storage_condition storage) rollout rolloutErr] /\
    forall e u, In e tr -> status_applied e = Some u ->
      exists js now, Forall2 (fun c j => ConditionToUnstructured c = Ok j) conds js /\
        u = status_body claim applied report (storage_status storage) js now.
Proof.
  unfold reconcile_status. intros (slo & t2 & report & -> & Hslo & Hr)%runs_bind.
  apply runs_bind in Hr as (t3 & t4 & storage & -> & Hsto & Hr).
  apply runs_bind in Hr as (t5 & t6 & [rollout rolloutErr] & -> & Hro & Hr).
  apply runs_bind in Hr as (t7 & t8 & failed & -> & Hst & Hr). cbn [fst snd] in *.
  apply applyStatus_writes in Hst as (sub & conds & Hset & Hq7 & Hw).
  exists slo, (t3 ++ t5 ++ t7 ++ t8), report, storage, rollout, rolloutErr, conds.
  assert (t8 = []) as -> by (destruct failed; [by destruct Hr as [-> _]|destruct (errorsJoin _); by destruct Hr as [-> _]]).
  split; [done|]. split; [done|].
  pose proof (evaluateSLO_read_only _ _ _ _ Hslo) as Hro_slo. pose proof (evaluateStorage_read_only _ _ _ _ _ Hsto) as Hro_sto.
  split.
  { rewrite !omap_app, Hq7, (no_query_answers t3) by (by eapply evaluateStorage_no_query).
    destruct applyErr; [by destruct Hro as [-> _]|]. open_run Hro. destruct Hro as (a & t & -> & Hro).
    destruct a; by destruct Hro as [-> _]. }
  split.
  { intros -> ->. open_run Hro. destruct Hro as (a & t & -> & Hro). eexists.
    destruct a as [ro|err]; destruct Hro as [-> [= ->]]. apply in_app_iff. right. by left. }
  split.
  { apply set_conditions_says in Hset as [Hs _].
    - cbn [app] in Hs. rewrite !Forall_cons in Hs. destruct Hs as (Hs1 & Hs2 & Hs3 & Hs).
      apply Forall_app in Hs as [_ Hready]. rewrite !Forall_cons. rewrite Forall_singleton in Hready. auto.
    - apply reconcile_types_NoDup; [by destruct applyErr|by eapply evaluateSLO_type|
        |apply readyCondition_type].
      intros c. by eapply evaluateStorage_type. }
  intros e u Hin Hu. rewrite app_nil_r, !in_app_iff in Hin.
  destruct Hin as [Hin|[Hin|[Hin|Hin]]]; [| | |by eapply Hw]; exfalso; eapply status_applied_not_read; try exact Hin; try exact Hu.
  - done.
  - by eapply evaluateStorage_read_only.
  - destruct applyErr; [by destruct Hro as [-> _]|]. open_run Hro. destruct Hro as (a & t & -> & Hro).
    destruct a; by destruct Hro as [-> _].
Qed.

(** Neither a query nor a status write: what applying objects and reporting drift do. *)
Definition works (e : event) : bool :=
  no_query e && match status_applied e with Some _ => false | None => true end.

Lemma applyObjects_works api_reader i corrections objects :
  every works (applyObjects_from api_reader i corrections objects).
Proof. by apply applyObjects_every. Qed.

Lemma reportDrift_works recorder claim corrections : every works (reportDrift recorder claim corrections).
Proof. by apply reportDrift_every. Qed.

Lemma works_queries tr : forallb works tr = true -> omap query_answer tr = [].
Proof.
  intros Hw. apply no_query_answers, forallb_forall. intros e He. apply (proj1 (forallb_forall _ _) Hw) in He.
  unfold works in He. by apply andb_true_iff in He as [? _].
Qed.

Lemma works_no_status tr e u : forallb works tr = true -> In e tr -> status_applied e = Some u -> False.
Proof.
  intros Hw He Hu. apply (proj1 (forallb_forall _ _) Hw) in He. unfold works in He. rewrite Hu in He.
  by apply andb_true_iff in He as [_ ?].
Qed.

Lemma reconcile_live_writes r claim objects tr out :
  Build claim (r_Storage r) = Ok objects -> runs (reconcile_live r claim) tr out ->
  exists pre slo post report storage rollout rolloutErr conds applyErr,
    let synced := synced_condition claim (length objects) (applied_ok tr) applyErr in
    tr = pre ++ slo ++ post /\ runs (evaluateSLO (r_Prometheus r) claim) slo report /\
    (forall e u, In e (pre ++ slo) -> status_applied e = Some u -> False) /\
    omap query_answer tr = omap query_answer slo /\
    (applyErr = None <-> applied_ok tr = length objects) /\
    (applyErr = None -> rolloutErr = None -> exists reader,
       In (Ev (GetRollout reader (mkNamespacedName (NamespaceName claim) (Name claim))) (Ok rollout)) tr) /\
    Forall (says conds) [synced; rep_condition report; freezeCondition claim report;
      readyCondition claim synced (storage_condition storage) rollout rolloutErr] /\
    forall e u, In e tr -> status_applied e = Some u ->
      exists js now, Forall2 (fun c j => ConditionToUnstructured c = Ok j) conds js /\
        u = status_body claim (applied_ok tr) report (storage_status storage) js now.
Proof.
  intros HB. unfold reconcile_live. rewrite HB. unfold reconcile_objects.
  intros (tr1 & tr2 & [[n cs] applyErr] & -> & Hap & (tr3 & tr4 & [] & -> & Hdrift & Hst)%runs_bind)%runs_bind.
  pose proof (applyObjects_runs _ _ _ _ _ _ _ _ Hap) as (_ & _ & Hn & _ & He & _). cbn [Nat.add] in Hn. subst n.
  pose proof (applyObjects_works _ _ _ _ _ _ Hap) as Hw1.
  assert (forallb works tr3 = true) as Hw3.
  { destruct (inSyncAtGeneration claim); [by eapply reportDrift_works|by destruct Hdrift as [-> _]]. }
  assert (applied_ok tr3 = O) as Hz3.
  { apply applied_ok_none. destruct (inSyncAtGeneration claim); [by eapply reportDrift_no_apply|by destruct Hdrift as [-> _]]. }
  assert (applied_ok tr4 = O) as Hz4 by (apply applied_ok_none; by eapply reconcile_status_no_apply).
  assert (applied_ok (tr1 ++ tr3 ++ tr4) = applied_ok tr1) as Hz by (rewrite !applied_ok_app; lia). rewrite Hz.
  apply reconcile_status_writes in Hst as (slo & rest & report & storage & rollout & rolloutErr & conds & -> & Hslo & Hq &
    Hro & Hsays & Hwrites).
  exists (tr1 ++ tr3), slo, rest, report, storage, rollout, rolloutErr, conds, applyErr. cbv zeta.
  split; [by rewrite <- !app_assoc|]. split; [done|]. split.
  { intros e u [Hin|Hin]%in_app_iff; [by apply (works_no_status (tr1 ++ tr3) e u); [rewrite forallb_app, Hw1, Hw3|]|].
    intros Hu. by apply (status_applied_not_read slo e u); [eapply evaluateSLO_read_only|..]. }
  split; [by rewrite !omap_app, (works_queries tr1), (works_queries tr3), Hq, app_nil_r by done|].
  split; [destruct applyErr; split; try done; destruct He; lia|].
  split; [intros Ha Hr; destruct (Hro Ha Hr) as [reader Hin]; exists reader; rewrite !in_app_iff; tauto|].
  split; [done|]. intros e u Hin Hu. rewrite app_assoc, in_app_iff in Hin.
  destruct Hin as [Hin|Hin]; [|by eapply Hwrites].
  exfalso. apply (works_no_status (tr1 ++ tr3) e u); [by rewrite forallb_app, Hw1, Hw3|done|done].
Qed.
End status.

(** ** Properties *)

(** C13: The status a reconcile writes is true of that reconcile. ResourcesSynced is True exactly
    when every object was applied in this run, and the count is that of the applies that
    succeeded; Ready is True only if in addition the Rollout, read in this run, is healthy at its
    current generation; SLOHealthy and DeploysFrozen are those of the SLO evaluation of this run,
    the freeze moving by one step of its machine. *)
Theorem status_is_honest
  `{Unstructured, UnicodePrint, StatusConditionsLaws, ApiErrors, FinalizerUtil, ObjectConverter, AckConverter}
  (r : Reconciler) (claim : ServiceClaim) (objects : list Object) (tr : list event) (out : outcome) (e : event) (u : json) :
  Build claim (r_Storage r) = Ok objects -> runs (reconcile_live r claim) tr out ->
  In e tr -> status_applied e = Some u ->
  exists conds js now report storage pre slo post,
    Forall2 (fun c j => ConditionToUnstructured c = Ok j) conds js /\
    u = status_body claim (applied_ok tr) report storage js now /\
    tr = pre ++ slo ++ post /\ runs (evaluateSLO (r_Prometheus r) claim) slo report /\
    (IsStatusConditionTrue conds ConditionResourcesSynced = true <-> applied_ok tr = length objects) /\
    (IsStatusConditionTrue conds ConditionReady = true ->
       applied_ok tr = length objects /\ exists reader rollout,
         In (Ev (GetRollout reader (mkNamespacedName (NamespaceName claim) (Name claim))) (Ok rollout)) tr /\
         ro_ObservedGeneration rollout = Itoa (ro_Generation rollout) /\ ro_Phase rollout = RolloutPhaseHealthy) /\
    says conds (rep_condition report) /\
    freeze_step (was_frozen claim) (measurement report) (IsStatusConditionTrue conds ConditionDeploysFrozen).
Proof.
  intros HB Hr Hin Hu. apply (reconcile_live_writes _ _ _ _ _ HB) in Hr as (pre & slo & post & report & storage & rollout &
    rolloutErr & conds & applyErr & Htr & Hslo & _ & _ & Hok & Hro & Hsays & Hw).
  destruct (Hw e u Hin Hu) as (js & now & Hjs & ->).
  rewrite !Forall_cons in Hsays. destruct Hsays as (Hsync & Hrep & Hfrz & Hready & _).
  exists conds, js, now, report, (storage_status storage), pre, slo, post.
  split; [done|]. split; [done|]. split; [done|]. split; [done|].
  pose proof (says_true _ _ Hsync) as Es. pose proof (says_true _ _ Hready) as Er. pose proof (says_true _ _ Hfrz) as Ef.
  rewrite readyCondition_type in Er. rewrite freezeCondition_type in Ef.
  assert (cond_Type (synced_condition claim (length objects) (applied_ok tr) applyErr) = ConditionResourcesSynced) as Ts by by destruct applyErr.
  rewrite Ts in Es. split; [rewrite Es, <- Hok; by destruct applyErr|].
  split; [|split; [done|rewrite Ef; apply freezeCondition_step]].
  rewrite Er. intros (Hs & _ & Hre & Hg & Hp)%String.eqb_eq%readyCondition_True_iff.
  assert (applyErr = None) as Ha by by destruct applyErr. split; [by apply Hok|].
  destruct (Hro Ha Hre) as [reader Hread]. by exists reader, rollout.
Qed.

#[local] Existing Instance plain_converter.
#[local] Existing Instance no_conditions.
#[local] Existing Instance plain_print.

(** In the quiet cluster every object is applied, so the status written says so. *)
Lemma status_is_honest_witness :
  exists conds, IsStatusConditionTrue conds ConditionResourcesSynced = true.
Proof.
  pose proof (exec_runs quiet_cluster (reconcile_live all_parts sample_claim) tt) as Hr.
  assert (existsb (fun e => match status_applied e with Some _ => true | None => false end)
    (exec quiet_cluster (reconcile_live all_parts sample_claim) tt).1.1 = true) as Hw by (vm_compute; reflexivity).
  assert (match Build sample_claim (r_Storage all_parts) with
          | Ok os => Nat.eqb (applied_ok (exec quiet_cluster (reconcile_live all_parts sample_claim) tt).1.1) (length os)
          | Err _ => false end = true) as Hn by (vm_compute; reflexivity).
  destruct (Build sample_claim (r_Storage all_parts)) as [objects|e] eqn:E; [|discriminate Hn].
  destruct (exec quiet_cluster (reconcile_live all_parts sample_claim) tt) as [[tr out] s].
  apply existsb_exists in Hw as (e & Hin & Hu). destruct (status_applied e) as [u|] eqn:Eu; [|discriminate Hu].
  destruct (status_is_honest all_parts sample_claim objects tr out e u E Hr Hin Eu)
    as (conds & js & now & report & storage & pre & slo & post & _ & _ & _ & _ & Hs & _).
  exists conds. apply Hs. apply Nat.eqb_eq. exact Hn.
Defined.

(** *** Drift *)

(** The answers of the reads past the cache, and of the applies. *)
Definition live_answer (e : event) : option (result json) :=
  match e with
  | @Ev X c answer =>
      match c in call X' return X' -> option (result json) with
      | GetUnstructured APIReader _ _ => Some | _ => fun _ => None end answer
  end.
Definition apply_answer (e : event) : option (result json) :=
  match e with
  | @Ev X c answer =>
      match c in call X' return X' -> option (result json) with Apply _ => Some | _ => fun _ => None end answer
  end.

Section drift.
Context `{Unstructured, ApiErrors, ObjectConverter}.

(** What counts as drift between a read and the apply that follows it: the object was not there,
    or the controller's ownership entry is not the same after the apply. *)
Definition drift_between (live : result json) (after : json) : list correction :=
  match live with
  | Err _ => [mkCorrection (GetKind after) (objectRef after) true]
  | Ok v => if sameOwnership (controllerOwnership v) (controllerOwnership after) then []
            else [mkCorrection (GetKind after) (objectRef after) false]
  end.

(** The drift of a trace: that of each read directly followed by an apply that succeeded. *)
Fixpoint drift_of (tr : list event) : list correction :=
  match tr with
  | e :: rest =>
      match live_answer e, apply_answer <$> head rest with
      | Some live, Some (Some (Ok after)) => drift_between live after
      | _, _ => []
      end ++ drift_of rest
  | [] => []
  end.

Lemma liveOwnership_runs api_reader u tr a :
  runs (liveOwnership api_reader u) tr a ->
  if api_reader then
    exists live, tr = [Ev (GetUnstructured APIReader (GVK u) (key_of u)) live] /\
      match live with
      | Ok v => a = Ok (controllerOwnership v, true)
      | Err er => if IsNotFound er then a = Ok (None, false) else is_ok a = false
      end
  else tr = [] /\ a = Ok (None, true).
Proof.
  unfold liveOwnership. destruct api_reader; cbn [negb]; [|by intros [-> ->]].
  intros Hr. open_run Hr. destruct Hr as (live & tr' & -> & Hr).
  exists live. destruct live as [v|er]; [|destruct (IsNotFound er)]; by destruct Hr as [-> ->].
Qed.

Lemma applyObjects_drift api_reader objects : forall i cs tr n cs' err,
  runs (applyObjects_from api_reader i cs objects) tr (n, cs', err) -> cs' = cs ++ drift_of tr.
Proof.
  induction objects as [|obj rest IH]; intros i cs tr n cs' err Hr; cbn [applyObjects_from] in Hr;
    [destruct Hr as [-> [= _ -> _]]; by rewrite app_nil_r|].
  destruct (toApplyObject obj) as [u|e]; [|destruct Hr as [-> [= _ -> _]]; by rewrite app_nil_r].
  apply runs_bind in Hr as (tr1 & tr2 & own & -> & Hown%liveOwnership_runs & Hr). destruct api_reader.
  - destruct Hown as (live & -> & Hlive).
    destruct own as [[before existed]|e]; [|destruct Hr as [-> [= _ -> _]]; by rewrite app_nil_r].
    open_run Hr. destruct Hr as (response & tr3 & -> & Hr).
    destruct response as [u'|e]; [|destruct Hr as [-> [= _ -> _]]; by rewrite app_nil_r].
    apply IH in Hr as ->. cbn [app drift_of live_answer head fmap option_fmap option_map apply_answer].
    destruct live as [v|er]; [|destruct (IsNotFound er) eqn:Hn; [|done]]; injection Hlive as -> ->;
      cbn [drift_between andb negb orb]; [|by rewrite <- app_assoc].
    destruct (sameOwnership _ _); cbn [negb]; [done|by rewrite <- app_assoc].
  - destruct Hown as [-> ->]. open_run Hr. destruct Hr as (response & tr3 & -> & Hr).
    destruct response as [u'|e]; [|destruct Hr as [-> [= _ -> _]]; by rewrite app_nil_r].
    by apply IH in Hr as ->.
Qed.
End drift.

Lemma reportDrift_notes claim corrections recorder tr :
  runs (reportDrift recorder claim corrections) tr tt ->
  omap recorded tr = if recorder then map correction_text corrections else [].
Proof.
  revert tr. induction corrections as [|c rest IH]; intros tr; cbn [reportDrift]; [by intros [-> _]; destruct recorder|].
  intros (tr1 & tr2 & x & -> & Hc & Hr)%runs_bind. rewrite omap_app, (IH _ Hr).
  destruct recorder; [|by destruct Hc as [-> _]]. by apply runs_do_call in Hc as ->.
Qed.

(** Calls that record no Event. *)
Definition silent (e : event) : bool := match recorded e with Some _ => false | None => true end.

Lemma silent_notes tr : forallb silent tr = true -> omap recorded tr = [].
Proof.
  induction tr as [|e tr IH]; [done|]. simpl. unfold silent at 1. intros [He Ht]%andb_true_iff.
  cbn. destruct (recorded e); [done|by apply IH].
Qed.

Section silence.
Context `{Unstructured, UnicodePrint, StatusConditions, ApiErrors, FinalizerUtil, ObjectConverter, AckConverter}.

Lemma applyObjects_silent api_reader i corrections objects :
  every silent (applyObjects_from api_reader i corrections objects).
Proof. by apply applyObjects_every. Qed.

Lemma reconcile_status_silent r claim total applied applyErr :
  every silent (reconcile_status r claim total applied applyErr).
Proof. by apply reconcile_status_every. Qed.
End silence.

(** C18: Drift Events tell the truth and the whole truth. A reconcile records Events only for a
    claim whose objects were in sync at this generation when it started, and then exactly one for
    each object it found missing or whose ownership entry its apply changed, in apply order,
    naming it. Without an APIReader or a recorder it records none. *)
Theorem drift_reported
  `{Unstructured, UnicodePrint, StatusConditions, ApiErrors, FinalizerUtil, ObjectConverter, AckConverter}
  (r : Reconciler) (claim : ServiceClaim) (objects : list Object) (tr : list event) (out : outcome) :
  Build claim (r_Storage r) = Ok objects -> runs (reconcile_live r claim) tr out ->
  exists applies rest, tr = applies ++ rest /\ omap applied rest = [] /\
    omap recorded tr =
      (if inSyncAtGeneration claim && r_Recorder r then map correction_text (drift_of applies) else []) /\
    (r_APIReader r = false -> drift_of applies = []).
Proof.
  intros HB. unfold reconcile_live. rewrite HB. unfold reconcile_objects.
  intros (tr1 & tr2 & [[n cs] applyErr] & -> & Hap & (tr3 & tr4 & [] & -> & Hdrift & Hst)%runs_bind)%runs_bind.
  exists tr1, (tr3 ++ tr4). split; [done|].
  assert (forallb no_apply (tr3 ++ tr4) = true) as Hna.
  { rewrite forallb_app, andb_true_iff. split; [|by eapply reconcile_status_no_apply].
    destruct (inSyncAtGeneration claim); [by eapply reportDrift_no_apply|by destruct Hdrift as [-> _]]. }
  split; [by apply no_apply_applied|].
  pose proof (applyObjects_drift _ _ _ _ _ _ _ _ Hap) as ->. cbn [app] in *.
  split.
  - rewrite !omap_app, (silent_notes tr1 (applyObjects_silent _ _ _ _ _ _ Hap)),
      (silent_notes tr4 (reconcile_status_silent _ _ _ _ _ _ _ Hst)).
    cbn [app]. rewrite app_nil_r. destruct (inSyncAtGeneration claim); cbn [andb]; [by apply reportDrift_notes in Hdrift|].
    by destruct Hdrift as [-> _].
  - intros Hno. pose proof (applyObjects_runs _ _ _ _ _ _ _ _ Hap) as (_ & _ & _ & _ & _ & Hcs). by rewrite (Hcs Hno).
Qed.

(** A cluster someone emptied: no object is there. *)
Definition emptied_cluster : env unit := fun X c s =>
  match c in call X' return X' * unit with
  | GetUnstructured _ _ _ => (Err not_found, s)
  | c => quiet_cluster _ c s
  end.
Definition synced_claim : ServiceClaim :=
  with_conditions sample_claim
    [condition_of sample_claim ConditionResourcesSynced ConditionTrue ReasonApplied "Applied 15 of 15 managed resources"].

(** Fifteen objects recreated, fifteen Events. *)
Lemma drift_reported_witness : exists applies, length (drift_of applies) = 15%nat.
Proof.
  pose proof (exec_runs emptied_cluster (reconcile_live all_parts synced_claim) tt) as Hr.
  assert (length (omap recorded (exec emptied_cluster (reconcile_live all_parts synced_claim) tt).1.1) = 15%nat) as Hn
    by (vm_compute; reflexivity).
  assert (is_ok (Build synced_claim (r_Storage all_parts)) = true) as Hb by (vm_compute; reflexivity).
  destruct (Build synced_claim (r_Storage all_parts)) as [objects|e] eqn:E; [|discriminate Hb].
  destruct (exec emptied_cluster (reconcile_live all_parts synced_claim) tt) as [[tr out] s].
  destruct (drift_reported all_parts synced_claim objects tr out E Hr) as (applies & rest & _ & _ & Hrec & _).
  exists applies. cbn [fst snd] in Hn. rewrite Hrec in Hn.
  assert (inSyncAtGeneration synced_claim && r_Recorder all_parts = true) as Hs by (vm_compute; reflexivity).
  rewrite Hs, length_map in Hn. exact Hn.
Defined.
