(* ===== verification/Convergence.v ===== *)
(** * A live claim settles

    [Reconcile] run over and over in a cluster that does its part and in which nobody else writes:
    the API server applies what it is sent and keeps it, Prometheus and the Rollout answer. *)
From Stdlib Require Import ZArith Lia Ascii String.
From S2P Require Import Prelude GoFloat GoStrings GoJson Api Kubernetes Instances Meta Storage Workload Build.
From S2P Require Import Effects SloStatus Freeze StorageStatus Controller ControllerSafety ControllerStatus.
Local Open Scope Z_scope.
Local Open Scope stdpp_scope.

(** ** Definitions *)

#[export] Instance NamespacedName_countable : Countable NamespacedName.
Proof.
  apply (inj_countable' (fun k => (nn_Namespace k, nn_Name k)) (fun p => mkNamespacedName p.1 p.2)). by intros [].
Defined.
#[export] Instance GroupVersionKind_eq_dec : EqDecision GroupVersionKind.
Proof. solve_decision. Defined.
#[export] Instance GroupVersionKind_countable : Countable GroupVersionKind.
Proof.
  apply (inj_countable' (fun g => (gvk_Group g, gvk_Version g, gvk_Kind g)) (fun p => mkGVK p.1.1 p.1.2 p.2)). by intros [].
Defined.

(** What an API server knows an object by. *)
Definition apply_id `{Unstructured} (u : json) : GroupVersionKind * NamespacedName := (GVK u, key_of u).

(** [ToUnstructured] fails on none of the builders' objects and keeps what identifies one; a Go
    type is of one kind, and no typed object of an ACK kind. Removing a field that is not part of
    its identity leaves an object what it is. *)
Class ObjectConverterLaws `{Unstructured, ObjectConverter} (type_gvk : object_kind -> GroupVersionKind) : Prop := {
  ToUnstructured_ok obj : is_ok (ToUnstructured obj) = true;
  ToUnstructured_id obj u : ToUnstructured obj = Ok u ->
    apply_id u = (match obj with OUnstructured v => GVK v | _ => type_gvk (kind_of obj) end, ObjectKeyFromObject obj);
  RemoveNestedField_id u path :
    path ∈ [["metadata"; "creationTimestamp"]; ["spec"; "template"; "metadata"; "creationTimestamp"]; ["status"]] ->
    apply_id (RemoveNestedField u path) = apply_id u;
  type_gvk_inj k k' : k <> KUnstructured -> k' <> KUnstructured -> type_gvk k = type_gvk k' -> k = k';
  type_gvk_not_ack k : k <> KUnstructured -> type_gvk k ∉ map GVK StorageTypes;
  ConditionToUnstructured_ok c : is_ok (ConditionToUnstructured c) = true
}.

(** The claim, and the live objects of the API server. *)
Record cluster := mkCluster {
  cl_claim : ServiceClaim;
  cl_live : gmap (GroupVersionKind * NamespacedName) json
}.

(** Server-side apply, as its documentation has it: [server_apply live u] is the object after
    applying [u] over [live]; applying the same again changes nothing, the managed fields and
    their times included. The conditions of a status write are stored as they were sent. *)
Class ApiServer := {
  server_apply : option json -> json -> json;
  stored_conditions : json -> list Condition;
  missing : error
}.
Class ApiServerLaws `{ApiServer, Unstructured, ObjectConverter, ApiErrors} : Prop := {
  server_apply_again live u : server_apply (Some (server_apply live u)) u = server_apply live u;
  stored_conditions_sent claim managed report storage conds js now :
    Forall2 (fun c j => ConditionToUnstructured c = Ok j) conds js ->
    stored_conditions (status_body claim managed report storage js now) = conds;
  missing_not_found : IsNotFound missing = true
}.

Section cluster.
Context `{Unstructured, ApiServer}.

(** The cluster at the time [now], with what Prometheus and the Rollout say. *)
Definition server (prometheus : string -> result float64) (rollout : LiveRollout) (now : Z) : env cluster := fun X c w =>
  match c in call X' return X' * cluster with
  | GetClaim _ => (Ok (cl_claim w), w)
  | GetNamespaceObject _ => (Err missing, w)
  | GetRollout _ _ => (Ok rollout, w)
  | GetUnstructured _ gvk key => (match cl_live w !! (gvk, key) with Some u => Ok u | None => Err missing end, w)
  | Apply u =>
      let u' := server_apply (cl_live w !! apply_id u) u in
      (Ok u', mkCluster (cl_claim w) (<[apply_id u := u']> (cl_live w)))
  | ApplyStatus u => (None, mkCluster (with_conditions (cl_claim w) (stored_conditions u)) (cl_live w))
  | DeleteNamespace _ => (None, w)
  | Query q => (prometheus q, w)
  | Eventf _ _ _ _ _ => (tt, w)
  | Now => (now, w)
  end.

(** What applying the bodies one by one leaves, and that it would change nothing. *)
Definition apply_all (us : list json) (live : gmap (GroupVersionKind * NamespacedName) json) :=
  foldl (fun live u => <[apply_id u := server_apply (live !! apply_id u) u]> live) live us.
Definition as_applied (live : gmap (GroupVersionKind * NamespacedName) json) (u : json) : Prop :=
  exists l, live !! apply_id u = Some l /\ server_apply (Some l) u = l.
End cluster.

(** ** Lemmas *)

Lemma exec_bind {A B S} (h : env S) (p : prog A) (f : A -> prog B) s :
  exec h (p ≫= f) s =
  let '(tr1, a, s1) := exec h p s in let '(tr2, b, s2) := exec h (f a) s1 in (tr1 ++ tr2, b, s2).
Proof.
  unfold mbind, prog_mbind. revert s. induction p as [a|X c k IH]; intros s; simpl.
  - by destruct (exec h (f a) s) as [[tr b] s'].
  - destruct (h X c s) as [x s'] eqn:E. rewrite IH. destruct (exec h (k x) s') as [[tr1 a] s1].
    by destruct (exec h (f a) s1) as [[tr2 b] s2].
Qed.

(** Keys that tell apart, among values that satisfy [P], at least what other keys tell apart. *)
Lemma finer_keys {A B C} (P : A -> Prop) (key : A -> B) (other : A -> C) :
  (forall a a', P a -> P a' -> other a <> other a' -> key a <> key a') ->
  forall values, Forall P values -> NoDup (map other values) -> NoDup (map key values).
Proof.
  intros Hfiner values Hall. induction Hall as [|a values Ha Hvalues IH]; cbn [map]; [constructor|].
  rewrite !NoDup_cons. intros [Hnew Hrest]. split; [|by apply IH].
  intros (a' & Hkey & Hin)%list_elem_of_fmap. revert Hkey. apply Hfiner; [done|by eapply Forall_forall|].
  intros Heq. apply Hnew. rewrite Heq. by apply list_elem_of_fmap_2.
Qed.

(** A program that only asks Prometheus and reads objects and the Rollout. *)
Definition asks (e : event) : bool :=
  match e with Ev (Query _) _ | Ev (GetUnstructured _ _ _) _ | Ev (GetRollout _ _) _ => true | _ => false end.

Lemma asks_records tr : forallb asks tr = true -> omap recorded tr = [].
Proof.
  induction tr as [|e tr IH]; [done|]. simpl. intros [He Ht]%andb_true_iff. rewrite <- (IH Ht).
  by destruct e as [X []].
Qed.

Lemma exec_asks `{Unstructured, ApiServer} prometheus rollout {A} (p : prog A) live :
  every asks p ->
  exists tr a, omap recorded tr = [] /\
    forall now claim, exec (server prometheus rollout now) p (mkCluster claim live) = (tr, a, mkCluster claim live).
Proof.
  intros Hp.
  enough (exists tr a, forall now claim,
    exec (server prometheus rollout now) p (mkCluster claim live) = (tr, a, mkCluster claim live)) as (tr & a & Ha).
  { exists tr, a. split; [|done]. apply asks_records, (Hp tr a).
    pose proof (exec_runs (server prometheus rollout 0) p (mkCluster sample_claim live)) as Hr. by rewrite Ha in Hr. }
  induction p as [a|X c k IH]; [by exists [], a|].
  assert (forall x, every asks (k x)) as Hk.
  { intros x tr a Hr. specialize (Hp (Ev c x :: tr) a ltac:(by exists x, tr)). by apply andb_true_iff in Hp as [_ ?]. }
  assert (forall x, asks (Ev c x) = true) as Hc.
  { intros x. pose proof (exec_runs (server prometheus rollout 0) (k x) (mkCluster sample_claim live)) as Hr.
    destruct (exec _ (k x) _) as [[tr a] s]. specialize (Hp (Ev c x :: tr) a ltac:(by exists x, tr)).
    by apply andb_true_iff in Hp as [? _]. }
  destruct c; try (by specialize (Hc (Err missing))); try (by specialize (Hc None)); try (by specialize (Hc tt)); try (by specialize (Hc 0)).
  - destruct (IH (Ok rollout) (Hk _)) as (tr & a & Ha). do 2 eexists. intros now claim. cbn [exec server]. by rewrite Ha.
  - destruct (IH (match live !! (gvk, key) with Some u => Ok u | None => Err missing end) (Hk _)) as (tr & a & Ha).
    do 2 eexists. intros now claim. cbn [exec server cl_live]. by rewrite Ha.
  - destruct (IH (prometheus query) (Hk _)) as (tr & a & Ha). do 2 eexists. intros now claim. cbn [exec server]. by rewrite Ha.
Qed.

(** *** Applying *)
Section applying.
Context `{UnstructuredLaws, ApiErrors, ObjectConverter, !ApiServer, !ApiServerLaws}.
Context (prometheus : string -> result float64) (rollout : LiveRollout).

Lemma sameOwnership_refl o : sameOwnership o o = true.
Proof.
  destruct o as [e|]; [|done]. cbn [sameOwnership]. apply andb_true_iff. split; [by apply TimeEqual_spec|].
  apply String.eqb_refl.
Qed.

Lemma apply_as_applied us live : Forall (as_applied live) us -> apply_all us live = live.
Proof.
  induction 1 as [|u us (l & Hl & Hu) _ IH]; [done|]. cbn [apply_all foldl]. rewrite Hl, Hu, insert_id by done. exact IH.
Qed.

Lemma apply_all_other us : forall live k, k ∉ map apply_id us -> apply_all us live !! k = live !! k.
Proof.
  induction us as [|u us IH]; intros live k Hk; [done|]. cbn [map] in Hk. apply not_elem_of_cons in Hk as [Hne Hk].
  cbn [apply_all foldl]. etransitivity; [by apply IH|]. by apply lookup_insert_ne.
Qed.

Lemma apply_all_applied us : forall live, NoDup (map apply_id us) -> Forall (as_applied (apply_all us live)) us.
Proof.
  induction us as [|u us IH]; intros live Hnd; [constructor|]. inversion Hnd as [|? ? Hu Hus]; subst. constructor; [|by apply IH].
  exists (server_apply (live !! apply_id u) u). split; [|apply server_apply_again].
  cbn [apply_all foldl]. etransitivity; [by apply apply_all_other|]. apply lookup_insert_eq.
Qed.

(** One object: what the drift check sees, and the apply. *)
Lemma exec_applyObjects now claim objects us : Forall2 (fun obj u => toApplyObject obj = Ok u) objects us ->
  forall i found live, exists tr found',
    exec (server prometheus rollout now) (applyObjects_from true i found objects) (mkCluster claim live) =
      (tr, ((i + length objects)%nat, found', None), mkCluster claim (apply_all us live)) /\
    omap recorded tr = [] /\ (Forall (as_applied live) us -> found' = found).
Proof.
  induction 1 as [|obj u objects us Hu _ IH]; intros i found live.
  - exists [], found. cbn [applyObjects_from exec length apply_all foldl]. by rewrite Nat.add_0_r.
  - cbn [applyObjects_from]. rewrite Hu. unfold liveOwnership. cbn [negb]. rewrite !exec_bind. cbn [exec do_call server cl_live cl_claim].
    change (GVK u, key_of u) with (apply_id u).
    assert (exists before existed, exec (server prometheus rollout now)
      (match match live !! apply_id u with Some l => Ok l | None => Err missing end with
       | Err err => if IsNotFound err then Ret (Ok (None, false))
                    else Ret (Err (WrapError (Sprintf ["reading "; GetKind u; " "; objectRef u; ": "; Error err]) err))
       | Ok live => Ret (Ok (controllerOwnership live, true))
       end) (mkCluster claim live) = ([], Ok (before, existed), mkCluster claim live) /\
      (forall l, live !! apply_id u = Some l -> before = controllerOwnership l /\ existed = true)) as (before & existed & E & Hl).
    { destruct (live !! apply_id u) as [l|]; [|rewrite missing_not_found]; do 2 eexists; (split; [reflexivity|]); [|done].
      by intros l' [= <-]. }
    rewrite E. cbn [fst snd app]. rewrite exec_bind. cbn [exec do_call server cl_live cl_claim app].
    set (u' := server_apply (live !! apply_id u) u).
    set (found1 := if true && (negb existed || negb (sameOwnership before (controllerOwnership u')))
                   then found ++ [mkCorrection (GetKind u') (objectRef u') (negb existed)] else found).
    destruct (IH (S i) found1 (<[apply_id u := u']> live)) as (tr & found' & Hex & Hrec & Hsame). rewrite Hex.
    do 2 eexists. split; [cbn [length]; rewrite <- plus_n_Sm; reflexivity|]. split; [exact Hrec|].
    intros Happ. inversion Happ as [|? ? (l & Hlu & Hlu') Hus]; subst.
    destruct (Hl l Hlu) as [-> ->]. assert (u' = l) as Hu' by (unfold u'; by rewrite Hlu).
    assert (found1 = found) as Hf by (unfold found1; rewrite Hu', sameOwnership_refl; done).
    rewrite <- Hf. apply Hsame. by rewrite Hu', insert_id.
Qed.

Lemma exec_reportDrift now recorder claim found w :
  exists tr, exec (server prometheus rollout now) (reportDrift recorder claim found) w = (tr, tt, w).
Proof.
  induction found as [|c found (tr & IH)]; [by exists []|]. cbn [reportDrift]. rewrite exec_bind.
  destruct recorder; cbn [exec do_call server]; rewrite IH; eauto.
Qed.
End applying.

(** *** The bodies of a set of objects are different to the API server *)
Section bodies.
Context {type_gvk : object_kind -> GroupVersionKind}.
Context `{UnicodePrint, UnstructuredLaws, ObjectConverter, !ObjectConverterLaws type_gvk}.

Lemma toApplyObject_id obj u : toApplyObject obj = Ok u ->
  apply_id u = (match obj with OUnstructured v => GVK v | _ => type_gvk (kind_of obj) end, ObjectKeyFromObject obj).
Proof.
  unfold toApplyObject. destruct (ToUnstructured obj) as [v|e] eqn:E; [|done]. intros [= <-].
  rewrite !RemoveNestedField_id by (rewrite !elem_of_cons; auto). by apply ToUnstructured_id.
Qed.

Lemma bodies_exist objects : exists us, Forall2 (fun obj u => toApplyObject obj = Ok u) objects us.
Proof.
  induction objects as [|obj objects (us & IH)]; [by exists []|]. unfold toApplyObject in *.
  pose proof (ToUnstructured_ok obj) as Hok. destruct (ToUnstructured obj) as [v|e] eqn:E; [|done].
  eexists (_ :: us). constructor; [by rewrite E|exact IH].
Qed.

Lemma bodies_NoDup sc storage objects us :
  Build sc storage = Ok objects -> Forall2 (fun obj u => toApplyObject obj = Ok u) objects us ->
  NoDup (map apply_id us).
Proof.
  intros HB Hus. pose proof (Build_watched sc storage objects HB) as Hw.
  apply Build_inv in HB as (rule & dashboard & runbook & _ & Hd & Hb & ->).
  pose proof (object_set_NoDup sc storage rule dashboard runbook Hd Hb) as Hnd.
  set (f obj := (match obj with OUnstructured v => GVK v | _ => type_gvk (kind_of obj) end, ObjectKeyFromObject obj)).
  assert (map apply_id us = map f (object_set sc storage rule dashboard runbook)) as ->.
  { clear Hnd Hw. induction Hus as [|obj u objects us Hu _ IH]; [done|]. cbn [map]. by rewrite IH, (toApplyObject_id obj u Hu). }
  refine (finer_keys _ f identity _ _ Hw Hnd). clear Hnd Hw Hus. intros x y Hx Hy Hne E. apply Hne. clear Hne.
  unfold f in E. apply pair_eq in E as [Eg Ek]. unfold identity. rewrite Ek.
  assert (KUnstructured ∉ ManagedTypes) as Hnm by by apply (bool_decide_unpack _).
  assert (forall o, kind_of o = KUnstructured -> exists v, o = OUnstructured v) as Hun by (intros []; try done; eauto).
  destruct (decide (kind_of x = KUnstructured)) as [Ex|Ex], (decide (kind_of y = KUnstructured)) as [Ey|Ey].
  - destruct (Hun x Ex) as [v ->], (Hun y Ey) as [v' ->]. by rewrite Eg.
  - destruct (Hun x Ex) as [v ->]. destruct Hx as [Hx|[_ Hx]]; [by apply Hnm in Hx|].
    exfalso. apply (type_gvk_not_ack _ Ey). cbn in Hx. destruct y; try done; by rewrite <- Eg.
  - destruct (Hun y Ey) as [v ->]. destruct Hy as [Hy|[_ Hy]]; [by apply Hnm in Hy|].
    exfalso. apply (type_gvk_not_ack _ Ex). cbn in Hy. destruct x; try done; by rewrite Eg.
  - assert (type_gvk (kind_of x) = type_gvk (kind_of y)) as Eg' by (destruct x, y; done).
    apply type_gvk_inj in Eg'; [|done|done]. rewrite Eg'. by destruct x, y.
Qed.
End bodies.

(** *** The status *)
Lemma with_conditions_self claim : with_conditions claim (Conditions (Status claim)) = claim.
Proof. by destruct claim as [? ? ? ? ? ? ? ? []]. Qed.

Definition set_all `{StatusConditions} (now : Z) (set cs : list Condition) : list Condition :=
  foldl (fun cs c => SetStatusCondition cs c now) cs set.

Section status.
Context {type_gvk : object_kind -> GroupVersionKind}.
Context `{UnicodePrint, UnstructuredLaws, StatusConditionsLaws, ApiErrors, FinalizerUtil, ObjectConverter, AckConverter,
          !ObjectConverterLaws type_gvk, !ApiServer, !ApiServerLaws}.
Context (prometheus : string -> result float64) (rollout : LiveRollout).

Lemma exec_set_conditions now set : forall cs w, exists tr,
  exec (server prometheus rollout now) (set_conditions cs set) w = (tr, set_all now set cs, w) /\ omap recorded tr = [].
Proof.
  induction set as [|c set IH]; intros cs w; [by exists []|]. cbn [set_conditions]. rewrite exec_bind.
  cbn [exec do_call server]. destruct (IH (SetStatusCondition cs c now) w) as (tr & E & Hr). rewrite E.
  eexists. split; [reflexivity|exact Hr].
Qed.

Lemma set_all_says now set cs : NoDup (map cond_Type set) -> Forall (says (set_all now set cs)) set.
Proof.
  intros Hnd. destruct (exec_set_conditions now set cs (mkCluster sample_claim ∅)) as (tr & E & _).
  pose proof (exec_runs (server prometheus rollout now) (set_conditions cs set) (mkCluster sample_claim ∅)) as Hr.
  rewrite E in Hr. by apply (set_conditions_says set cs tr).
Qed.

Lemma conditions_convert cs :
  exists js, collect (fun c => match ConditionToUnstructured c with
                               | Err err => Err (WrapError (Sprintf ["converting condition "; Quote (cond_Type c); ": "; Error err]) err)
                               | Ok j => Ok j end) cs = Ok js /\ Forall2 (fun c j => ConditionToUnstructured c = Ok j) cs js.
Proof.
  destruct (collect _ cs) as [js|e] eqn:E.
  - exists js. split; [done|]. apply collect_Ok in E. eapply Forall2_impl; [exact E|]. intros c j. simpl.
    by destruct (ConditionToUnstructured c).
  - exfalso. assert (is_ok (collect (fun c => match ConditionToUnstructured c with
      | Err err => Err (WrapError (Sprintf ["converting condition "; Quote (cond_Type c); ": "; Error err]) err)
      | Ok j => Ok j end) cs) = true) as Hok.
    { apply collect_is_ok. intros c _. pose proof (ConditionToUnstructured_ok c) as Hc. by destruct (ConditionToUnstructured c). }
    by rewrite E in Hok.
Qed.

Lemma exec_applyStatus now claim managed report storage set w :
  exists tr, exec (server prometheus rollout now) (applyStatus claim managed report storage set) w =
    (tr, None, mkCluster (with_conditions (cl_claim w) (set_all now set (Conditions (Status claim)))) (cl_live w)) /\
  omap recorded tr = [].
Proof.
  unfold applyStatus. rewrite exec_bind. destruct (exec_set_conditions now set (Conditions (Status claim)) w) as (tr & E & Hr).
  rewrite E. destruct (conditions_convert (set_all now set (Conditions (Status claim)))) as (js & Hc & Hjs). rewrite Hc.
  rewrite !exec_bind. cbn [exec do_call server]. rewrite exec_bind. cbn [exec do_call server cl_live cl_claim].
  rewrite (stored_conditions_sent _ _ _ _ _ _ _ Hjs). eexists. split; [reflexivity|]. by rewrite omap_app, Hr.
Qed.

Lemma evaluateSLO_asks configured claim : every asks (evaluateSLO configured claim).
Proof. by apply evaluateSLO_every. Qed.

Lemma evaluateStorage_asks api_reader storage claim : every asks (evaluateStorage api_reader storage claim).
Proof. by apply evaluateStorage_every. Qed.

Lemma storage_absent api_reader storage claim tr rep :
  runs (evaluateStorage api_reader storage claim) tr rep -> storage_condition rep = None <-> Storage (Spec claim) = false.
Proof.
  unfold evaluateStorage. destruct (Storage (Spec claim)); cbn [negb]; [|by intros [_ ->]].
  destruct storage as [config|]; [|by intros [_ ->]]. by intros (tr1 & tr2 & observed & _ & _ & [_ ->])%runs_bind.
Qed.

(** The conditions a reconcile sets once every object is applied. *)
Definition conditions_set (claim : ServiceClaim) (n : nat) (report : sloReport) (storage : storageReport) : list Condition :=
  let synced := synced_condition claim n n None in
  [synced; rep_condition report; freezeCondition claim report] ++
  match storage_condition storage with Some c => [c] | None => [] end ++
  [readyCondition claim synced (storage_condition storage) rollout None].

(** What is measured does not depend on the conditions the claim has. *)
Lemma exec_reconcile_status r claim n live :
  exists report storage,
    (forall cs, NoDup (map cond_Type (conditions_set (with_conditions claim cs) n report storage))) /\
    cond_Type (rep_condition report) = ConditionSLOHealthy /\
    (storage_condition storage = None <-> Storage (Spec claim) = false) /\
    forall cs now, exists tr,
      exec (server prometheus rollout now) (reconcile_status r (with_conditions claim cs) n n None)
        (mkCluster (with_conditions claim cs) live) =
        (tr, mkOutcome sloRefreshInterval None,
         mkCluster (with_conditions claim (set_all now (conditions_set (with_conditions claim cs) n report storage) cs)) live) /\
      omap recorded tr = [].
Proof.
  destruct (exec_asks prometheus rollout _ live (evaluateSLO_asks (r_Prometheus r) claim)) as (tr1 & report & Hr1 & E1).
  destruct (exec_asks prometheus rollout _ live (evaluateStorage_asks (r_APIReader r) (r_Storage r) claim)) as (tr2 & storage & Hr2 & E2).
  pose proof (exec_runs (server prometheus rollout 0) (evaluateSLO (r_Prometheus r) claim) (mkCluster claim live)) as Hslo. rewrite E1 in Hslo.
  pose proof (exec_runs (server prometheus rollout 0) (evaluateStorage (r_APIReader r) (r_Storage r) claim)
    (mkCluster claim live)) as Hsto. rewrite E2 in Hsto.
  exists report, storage. split; [|split; [by eapply evaluateSLO_type|split]].
  - intros cs. apply reconcile_types_NoDup; [done|by eapply evaluateSLO_type| |apply readyCondition_type].
    intros c. by eapply evaluateStorage_type.
  - exact (storage_absent _ _ _ _ _ Hsto).
  - intros cs now. unfold reconcile_status. rewrite exec_bind.
    change (evaluateSLO (r_Prometheus r) (with_conditions claim cs)) with (evaluateSLO (r_Prometheus r) claim).
    rewrite E1, exec_bind.
    change (evaluateStorage (r_APIReader r) (r_Storage r) (with_conditions claim cs)) with
      (evaluateStorage (r_APIReader r) (r_Storage r) claim).
    rewrite E2, exec_bind. cbn [exec do_call server mbind prog_mbind prog_bind fst snd].
    rewrite exec_bind.
    destruct (exec_applyStatus now (with_conditions claim cs) n report (storage_status storage)
      (conditions_set (with_conditions claim cs) n report storage) (mkCluster (with_conditions claim cs) live)) as (tr3 & E3 & Hr3).
    unfold conditions_set, synced_condition in E3 |- *. rewrite E3. cbn [exec errorsJoin omap].
    eexists. split; [reflexivity|]. by rewrite !omap_app, Hr1, Hr2, Hr3.
Qed.

(** Stored and read back, the freeze decides the same again. *)
Lemma freeze_again claim cs cs' report :
  says cs' (freezeCondition (with_conditions claim cs) report) ->
  freezeCondition (with_conditions claim cs') report = freezeCondition (with_conditions claim cs) report.
Proof.
  intros (c' & Hf & Hs & _). rewrite freezeCondition_type in Hf.
  assert (was_frozen (with_conditions claim cs') =
          String.eqb (cond_Status (freezeCondition (with_conditions claim cs) report)) ConditionTrue) as Hw.
  { unfold was_frozen. cbn [Status with_conditions Conditions]. by rewrite Hf, Hs. }
  unfold freezeCondition in Hw |- *. rewrite Hw. destruct (was_frozen (with_conditions claim cs)), (measured report);
    cbn [negb andb]; try done; destruct (fleb (remaining_ report) fzero); try done;
    destruct (fltb (remaining_ report) UnfreezeBudget) eqn:E; cbn; rewrite ?E; done.
Qed.

Lemma conditions_again claim n report storage cs cs' :
  Forall (says cs') (conditions_set (with_conditions claim cs) n report storage) ->
  conditions_set (with_conditions claim cs') n report storage = conditions_set (with_conditions claim cs) n report storage.
Proof.
  intros Hs. unfold conditions_set in *. cbn [app] in *. apply Forall_cons in Hs as [_ Hs].
  apply Forall_cons in Hs as [_ Hs]. apply Forall_cons in Hs as [Hf _].
  by rewrite (freeze_again claim cs cs' report Hf).
Qed.

(** *** One reconcile *)
Context (r : Reconciler) (req : NamespacedName) (claim : ServiceClaim) (objects : list Object) (us : list json).
Hypotheses (Hbuild : Build claim (r_Storage r) = Ok objects) (Hus : Forall2 (fun obj u => toApplyObject obj = Ok u) objects us)
  (Hlive : DeletionTimestamp claim = None) (Hfin : ContainsFinalizer (Finalizers claim) Finalizer = true)
  (Hreader : r_APIReader r = true).

Lemma exec_Reconcile live' :
  exists report storage,
    (forall cs, NoDup (map cond_Type (conditions_set (with_conditions claim cs) (length objects) report storage))) /\
    cond_Type (rep_condition report) = ConditionSLOHealthy /\
    (storage_condition storage = None <-> Storage (Spec claim) = false) /\
    forall live cs now, apply_all us live = live' -> exists tr,
      exec (server prometheus rollout now) (Reconcile r req) (mkCluster (with_conditions claim cs) live) =
        (tr, mkOutcome sloRefreshInterval None,
         mkCluster (with_conditions claim
           (set_all now (conditions_set (with_conditions claim cs) (length objects) report storage) cs)) live') /\
      (Forall (as_applied live) us -> omap recorded tr = []).
Proof.
  destruct (exec_reconcile_status r claim (length objects) live') as (report & storage & Hnd & Htype & Hsto & Hstatus).
  exists report, storage. do 3 (split; [done|]). intros live cs now <-.
  unfold Reconcile. rewrite exec_bind. cbn [exec do_call server cl_claim].
  change (DeletionTimestamp (with_conditions claim cs)) with (DeletionTimestamp claim). rewrite Hlive.
  change (Finalizers (with_conditions claim cs)) with (Finalizers claim). rewrite Hfin. cbn [negb].
  rewrite exec_bind. cbn [exec]. unfold reconcile_live.
  change (Build (with_conditions claim cs) (r_Storage r)) with (Build claim (r_Storage r)). rewrite Hbuild.
  unfold reconcile_objects, applyObjects. rewrite Hreader, exec_bind.
  destruct (exec_applyObjects prometheus rollout now (with_conditions claim cs) objects us Hus 0 [] live)
    as (tr1 & found & E1 & Hr1 & Hfound). rewrite E1, exec_bind.
  destruct (exec_reportDrift prometheus rollout now (r_Recorder r) (with_conditions claim cs) found
    (mkCluster (with_conditions claim cs) (apply_all us live))) as (tr2 & E2).
  destruct (Hstatus cs now) as (tr3 & E3 & Hr3).
  assert (exists tr, exec (server prometheus rollout now)
    (if inSyncAtGeneration (with_conditions claim cs) then reportDrift (r_Recorder r) (with_conditions claim cs) found else Ret tt)
    (mkCluster (with_conditions claim cs) (apply_all us live)) =
      (tr, tt, mkCluster (with_conditions claim cs) (apply_all us live)) /\
    (found = [] -> tr = [])) as (tr4 & E4 & Hr4).
  { destruct (inSyncAtGeneration _); [|by exists []]. exists tr2. split; [done|]. intros ->. cbn in E2. by injection E2. }
  rewrite E4. cbn [Nat.add]. rewrite E3. eexists. split; [reflexivity|].
  intros Happ. rewrite (Hr4 (Hfound Happ)), !omap_app, Hr1, Hr3. done.
Qed.
End status.

(** ** The property *)

Section rounds.
Context `{Unstructured, UnicodePrint, StatusConditions, ApiErrors, FinalizerUtil, ObjectConverter, AckConverter, ApiServer}.
Context (prometheus : string -> result float64) (rollout : LiveRollout) (r : Reconciler) (req : NamespacedName).

(** One reconcile at the time [now]: its calls, its outcome, and the cluster after it. *)
Definition reconcile_at (now : Z) (w : cluster) : list event * outcome * cluster :=
  exec (server prometheus rollout now) (Reconcile r req) w.

(** The cluster after reconciles at those times. *)
Definition reconciled (times : list Z) (w : cluster) : cluster :=
  foldl (fun w now => (reconcile_at now w).2) w times.
End rounds.

Lemma conditions_set_types `{UnicodePrint, StatusConditions} rollout claim total report storage :
  cond_Type (rep_condition report) = ConditionSLOHealthy ->
  [ConditionResourcesSynced; ConditionSLOHealthy; ConditionDeploysFrozen; ConditionReady] ⊆
    map cond_Type (conditions_set rollout claim total report storage).
Proof.
  intros Hslo. unfold conditions_set. rewrite !map_app. cbn [map app]. rewrite Hslo, freezeCondition_type, readyCondition_type.
  intros t Ht%list_elem_of_In. apply list_elem_of_In. cbn [In] in *. rewrite in_app_iff. cbn [In].
  unfold synced_condition. cbn [cond_Type condition_of]. intuition congruence.
Qed.

Lemma ready_in_set `{UnicodePrint, StatusConditions} rollout claim total report storage :
  storage_condition storage = None ->
  In (readyCondition claim (synced_condition claim total total None) None rollout None)
    (conditions_set rollout claim total report storage).
Proof. intros Hstorage. unfold conditions_set. rewrite Hstorage. cbn [app In]. tauto. Qed.

(** C8: A live claim settles after one reconcile. In a cluster nobody else writes to, whatever
    objects it holds at first, drifted, foreign or none, the first reconcile of a claim that holds
    the finalizer leaves every object of the set as an apply of its body would leave it; after it,
    however many more follow, the objects stay as they are, the conditions say the same, among them
    that the resources are synced and, for a claim without storage whose Rollout is healthy, that
    it is ready, no drift Event is recorded, and each reconcile succeeds and asks to run again in
    a minute. *)
Theorem reconcile_settles {type_gvk : object_kind -> GroupVersionKind}
  `{UnicodePrint, UnstructuredLaws, StatusConditionsLaws, ApiErrors, FinalizerUtil, ObjectConverter, AckConverter,
    !ObjectConverterLaws type_gvk, !ApiServer, !ApiServerLaws}
  (prometheus : string -> result float64) (rollout : LiveRollout) (r : Reconciler) (req : NamespacedName)
  (claim : ServiceClaim) (objects : list Object) (live : gmap (GroupVersionKind * NamespacedName) json)
  (Hbuild : Build claim (r_Storage r) = Ok objects) (Hlive : DeletionTimestamp claim = None)
  (Hfin : ContainsFinalizer (Finalizers claim) Finalizer = true) (Hreader : r_APIReader r = true) :
  exists settled said,
    (forall obj, In obj objects -> exists u, toApplyObject obj = Ok u /\ as_applied settled u) /\
    [ConditionResourcesSynced; ConditionSLOHealthy; ConditionDeploysFrozen; ConditionReady] ⊆ map cond_Type said /\
    forall now times,
      let w := reconciled prometheus rollout r req (now :: times) (mkCluster claim live) in
      let conditions := Conditions (Status (cl_claim w)) in
      cl_live w = settled /\ Forall (says conditions) said /\
      IsStatusConditionTrue conditions ConditionResourcesSynced = true /\
      (Storage (Spec claim) = false -> ro_ObservedGeneration rollout = Itoa (ro_Generation rollout) ->
       ro_Phase rollout = RolloutPhaseHealthy -> IsStatusConditionTrue conditions ConditionReady = true) /\
      forall later, let '(tr, out, _) := reconcile_at prometheus rollout r req later w in
        out = mkOutcome sloRefreshInterval None /\ omap recorded tr = [].
Proof.
  destruct (bodies_exist objects) as (us & Hus). pose proof (bodies_NoDup claim _ objects us Hbuild Hus) as Hnd.
  set (settled := apply_all us live).
  destruct (exec_Reconcile prometheus rollout r req claim objects us Hbuild Hus Hlive Hfin Hreader settled)
    as (report & storage & Htypes & Hslo & Hsto & Hround).
  pose proof (apply_all_applied us live Hnd) as Happ. fold settled in Happ.
  set (said := conditions_set rollout (with_conditions claim (Conditions (Status claim))) (length objects) report storage).
  exists settled, said. split; [|split].
  - intros obj Hin. apply list_elem_of_In in Hin as Hin'. destruct (list_elem_of_lookup_1 _ _ Hin') as (i & Hi).
    destruct (Forall2_lookup_l _ _ _ _ _ Hus Hi) as (u & Hu & Ho). exists u. split; [done|].
    apply (proj1 (Forall_forall _ _) Happ). by apply (list_elem_of_lookup_2 _ i).
  - exact (conditions_set_types rollout _ _ _ _ Hslo).
  - assert (forall live cs now, apply_all us live = settled ->
      conditions_set rollout (with_conditions claim cs) (length objects) report storage = said ->
      exists tr cs', reconcile_at prometheus rollout r req now (mkCluster (with_conditions claim cs) live) =
        (tr, mkOutcome sloRefreshInterval None, mkCluster (with_conditions claim cs') settled) /\
        Forall (says cs') said /\ (Forall (as_applied live) us -> omap recorded tr = [])) as Hone.
    { intros l cs now Hl Hcs. destruct (Hround l cs now Hl) as (tr & E & Hr). do 2 eexists. split; [exact E|]. split; [|exact Hr].
      rewrite Hcs. apply (set_all_says prometheus rollout). rewrite <- Hcs. apply Htypes. }
    assert (forall times cs, Forall (says cs) said -> exists cs',
      reconciled prometheus rollout r req times (mkCluster (with_conditions claim cs) settled) =
        mkCluster (with_conditions claim cs') settled /\ Forall (says cs') said) as Hmany.
    { pose proof (apply_as_applied us settled Happ) as Hstay.
      induction times as [|now times IH]; intros cs Hcs; [by exists cs|]. unfold reconciled. cbn [foldl].
      destruct (Hone settled cs now Hstay (conditions_again rollout claim _ report storage _ _ Hcs)) as (tr & cs' & -> & Hcs' & _).
      by apply IH. }
    intros now times. unfold reconciled. cbn [foldl].
    destruct (Hone live (Conditions (Status claim)) now eq_refl eq_refl) as (tr & cs & E & Hcs & _).
    rewrite with_conditions_self in E. rewrite E. cbn [snd].
    destruct (Hmany times cs Hcs) as (cs' & E' & Hcs'). unfold reconciled in E'. rewrite E'. cbn [cl_live cl_claim].
    split; [done|]. split; [exact Hcs'|]. cbn [with_conditions Status Conditions].
    split; [|split].
    + apply Forall_cons in Hcs' as [Hsynced _]. exact (says_true cs' _ Hsynced).
    + intros Hstorage Hobserved Hphase. apply Hsto in Hstorage.
      pose proof (ready_in_set rollout (with_conditions claim (Conditions (Status claim))) (length objects) report storage Hstorage) as Hin.
      rewrite with_conditions_self in Hin. apply (proj1 (List.Forall_forall _ _) Hcs') in Hin as Hready.
      pose proof (says_true cs' _ Hready) as Ht.
      rewrite readyCondition_type in Ht. rewrite Ht. apply String.eqb_eq, readyCondition_True_iff. done.
    + intros later. pose proof (apply_as_applied us settled Happ) as Hstay.
      destruct (Hone settled cs' later Hstay (conditions_again rollout claim _ report storage _ _ Hcs')) as (tr' & cs'' & E'' & _ & Hr).
      rewrite E''. split; [done|]. by apply Hr.
Qed.

(** ** A concrete cluster *)

(** Kinds by their names. *)
Definition kind_name (k : object_kind) : string :=
  match k with
  | KNamespace => "Namespace" | KServiceAccount => "ServiceAccount" | KUnstructured => "" | KAnalysisTemplate => "AnalysisTemplate"
  | KRollout => "Rollout" | KNetworkPolicy => "NetworkPolicy" | KPrometheusRule => "PrometheusRule"
  | KServiceMonitor => "ServiceMonitor" | KConfigMap => "ConfigMap" | KService => "Service" | KHPA => "HorizontalPodAutoscaler"
  | KPodDisruptionBudget => "PodDisruptionBudget" | KIngress => "Ingress"
  end.
Definition named_gvk (k : object_kind) : GroupVersionKind := mkGVK "" "v1" (kind_name k).

(** A condition with all its fields, and back. *)
Definition condition_json (c : Condition) : json :=
  JObject [("type", JString (cond_Type c)); ("status", JString (cond_Status c)); ("reason", JString (cond_Reason c));
           ("message", JString (cond_Message c)); ("observedGeneration", JInt (cond_ObservedGeneration c));
           ("lastTransitionTime", JInt (cond_LastTransitionTime c))].
Definition json_condition (j : json) : Condition :=
  let number k := match member k j with Some (JInt n) => n | _ => 0 end in
  mkCondition (get_text "type" j) (get_text "status" j) (get_text "reason" j) (get_text "message" j)
    (number "observedGeneration") (number "lastTransitionTime").

#[local] Instance metadata_converter : ObjectConverter := {
  ToUnstructured := fun obj =>
    Ok (match obj with
        | OUnstructured v => v
        | _ => let m := object_meta obj in
               SetLabels (SetNamespace (SetName (newUnstructured (named_gvk (kind_of obj))) (meta_Name m)) (meta_Namespace m))
                 (meta_Labels m)
        end);
  ConditionToUnstructured := fun c => Ok (condition_json c);
  type_text := fun obj => "*v1." +:+ kind_name (kind_of obj)
}.

(** An apply replaces the object and records its owner. *)
Definition owner_entry : json :=
  JObject [("manager", JString FieldOwner); ("operation", JString ManagedFieldsOperationApply); ("time", JInt 1)].
#[local] Instance replacing_server : ApiServer := {
  server_apply := fun _ u => put_meta "managedFields" (JArray [owner_entry]) u;
  stored_conditions := fun u =>
    match member "conditions" (get_or_null "status" u) with Some (JArray js) => map json_condition js | _ => [] end;
  missing := not_found
}.

#[local] Instance metadata_converter_laws : ObjectConverterLaws named_gvk.
Proof.
  split.
  - done.
  - intros obj u [= <-]. unfold apply_id, key_of. destruct obj; try done;
      by rewrite !GVK_SetLabels, !GVK_SetNamespace, !GVK_SetName, !GVK_new,
        !GetNamespace_SetLabels, !GetNamespace_SetNamespace, !GetName_SetLabels, !GetName_SetNamespace, !GetName_SetName.
  - intros u path Hpath. destruct (removed_identity u path Hpath) as (Eg & En & Ens).
    unfold apply_id, key_of. by rewrite Eg, En, Ens.
  - intros k k' _ _ [= E]. by destruct k, k'.
  - intros k Hk. destruct k; try done; by apply (bool_decide_unpack _).
  - done.
Qed.

Lemma json_condition_json c : json_condition (condition_json c) = c.
Proof. by destruct c. Qed.

Lemma replacing_laws `{ObjectConverter} :
  (forall c, ConditionToUnstructured c = Ok (condition_json c)) -> ApiServerLaws.
Proof.
  intros Hconvert. split; [done| |done]. intros claim managed report storage conds js now Hjs.
  assert (js = map condition_json conds) as ->.
  { induction Hjs as [|c j conds js Hj _ IH]; [done|]. rewrite Hconvert in Hj. injection Hj as <-. by rewrite IH. }
  assert (stored_conditions (status_body claim managed report storage (map condition_json conds) now) =
          map json_condition (map condition_json conds)) as ->.
  { unfold status_body, optional_text. repeat case_match; reflexivity. }
  rewrite map_map. rewrite <- (map_id conds) at 2. apply map_ext, json_condition_json.
Qed.

#[local] Instance replacing_server_laws : ApiServerLaws.
Proof. by apply replacing_laws. Qed.

#[local] Instance no_ack_conditions : AckConverter := fun _ => Ok [].
#[local] Instance ascii_print : UnicodePrint := no_rune.

Definition finalized_claim : ServiceClaim :=
  let sp := Spec sample_claim in
  mkServiceClaim "shortlink" "team-a" ∅ ∅ 1 None [Finalizer]
    (mkServiceClaimSpec (Owner sp) (Image sp) (Port sp) (Tier sp) (SLI sp) (SLO sp) (Scale sp) false) empty_status.
Definition healthy_rollout : LiveRollout := mkLiveRollout 1 "1" RolloutPhaseHealthy "".
Definition silent_prometheus : string -> result float64 := fun _ => Err (SentinelError "no data").
Definition unlinked : Reconciler := mkReconciler true true true None.

Lemma reconcile_settles_witness :
  let w := reconciled silent_prometheus healthy_rollout unlinked claim_req [1; 2; 3] (mkCluster finalized_claim ∅) in
  IsStatusConditionTrue (Conditions (Status (cl_claim w))) ConditionReady = true /\
  omap recorded (reconcile_at silent_prometheus healthy_rollout unlinked claim_req 4 w).1.1 = [].
Proof.
  assert (is_ok (Build finalized_claim None) = true) as Hok by (vm_compute; reflexivity).
  destruct (Build finalized_claim None) as [objects|e] eqn:E; [|discriminate Hok].
  destruct (reconcile_settles (type_gvk := named_gvk) silent_prometheus healthy_rollout unlinked claim_req finalized_claim
    objects ∅ E eq_refl eq_refl eq_refl) as (settled & said & _ & _ & Hw).
  destruct (Hw 1 [2; 3]) as (_ & _ & _ & Hready & Hagain). split; [exact (Hready eq_refl eq_refl eq_refl)|].
  specialize (Hagain 4). destruct (reconcile_at _ _ _ _ 4 _) as [[tr out] w']. exact (proj2 Hagain).
Defined.
