(* ===== verification/EndToEnd.v ===== *)
(** * From Prometheus to the API server's answer

    The controller decides the freeze and stores it in the claim's status; the webhook, another
    process, reads it back from the stored claim. This file ties the two. *)
From Stdlib Require Import ZArith QArith Lia Ascii String SpecFloat.
From S2P Require Import Prelude GoFloat GoStrings GoRat GoJson Api Budget Kubernetes Instances Meta Storage Workload.
From S2P Require Import Monitoring Build Effects SloStatus Freeze Webhook StorageStatus Controller ControllerSafety.
From S2P Require Import ControllerStatus.
Local Open Scope Z_scope.
Local Open Scope stdpp_scope.

(** ** Lemmas *)

(** An update of a frozen claim that changes its image without a fresh reason. *)
Lemma frozen_update_rejected `{StatusConditions} recorder request stored next tr v :
  IsStatusConditionTrue (Conditions (Status stored)) ConditionDeploysFrozen = true ->
  changes_image stored next = true -> breakGlassReason stored next = None ->
  runs (ValidateUpdate recorder request stored next) tr v -> (exists e, v = Frozen e) /\ tr = [].
Proof.
  intros Hf Hi Hb Hr%ValidateUpdate_runs. cbv zeta in Hr. rewrite Hf, Hi in Hr.
  destruct Hr as [(_ & _ & ?)|(_ & [(-> & _ & ?)|(reason & Hsome & _)])]; [done|done|congruence].
Qed.

Lemma thawed_update_admitted `{StatusConditions} recorder request stored next tr v :
  IsStatusConditionTrue (Conditions (Status stored)) ConditionDeploysFrozen = false ->
  runs (ValidateUpdate recorder request stored next) tr v -> v = Allowed [] /\ tr = [].
Proof.
  intros Hf Hr%ValidateUpdate_runs. cbv zeta in Hr. rewrite Hf in Hr.
  by destruct Hr as [(-> & -> & _)|(? & _)].
Qed.

(** The answers of the two queries determine the measurement. *)
Lemma evaluateSLO_measures `{UnicodePrint} configured claim tr report budget ratio hour :
  runs (evaluateSLO configured claim) tr report -> omap query_answer tr = [Ok ratio; hour] ->
  unreadable hour = None -> ErrorBudget (Objective (SLO (Spec claim))) = Ok budget ->
  is_finite ratio = true -> (0 < budget)%Q ->
  measurement report = Some (remaining (rate_of ratio (Float64 budget))).
Proof.
  intros [(-> & _)|(b & q & w & Hb & _ & [(e & _ & -> & _)|(h & Hw & -> & Hc)])]%evaluateSLO_runs Hq Hh Hb' F Hp;
    [done|done|].
  cbn in Hq. injection Hq as -> ->. rewrite Hb' in Hb. injection Hb as <-.
  destruct Hc as [(e & m & Hh' & _)|[(m & _ & Hv & _)|(r & _ & [= <-] & ->)]]; [congruence|done|].
  pose proof (SpendBudget_eq ratio budget Hp F) as Hs.
  unfold measurement, measured_report. rewrite Hs.
  destruct (value hour) as [h|]; [destruct (Budget.BurnRate h (Some budget)) as [burn|e]|]; cbn [measured remaining_ Budget.Remaining];
    [destruct (fleb (remaining _) fzero); [|destruct (fleb page_rate burn)]| |destruct (fleb (remaining _) fzero)]; done.
Qed.

(** Nothing remains exactly when the ratio has reached the budget. *)
Lemma remaining_exhausted `{UnicodePrint} objective budget ratio :
  ErrorBudget objective = Ok budget -> len objective <= 300 -> valid ratio = true -> is_finite ratio = true ->
  fleb (remaining (rate_of ratio (Float64 budget))) fzero = fleb (Float64 budget) ratio.
Proof.
  intros Hb Hl V F. pose proof (ErrorBudget_fpos _ _ Hb Hl) as Hf.
  pose proof (rate_nonneg ratio _ V F Hf) as Hn. rewrite <- (rate_ge_one ratio _ V F Hf).
  destruct (remaining_cases _ Hn) as [[-> [s ->]]|(-> & _ & P & _)]; [by destruct s|].
  destruct (fpos_inv _ P) as (VV & FF & PP & _). by apply fleb_false.
Qed.

(** ** Properties *)

(** C1: The error budget gates deploys end to end. Take any reconcile in which Prometheus answered
    the SLO window's query with a finite error ratio and did not fail on the other, and any claim
    as stored with the conditions that reconcile wrote. If the ratio has reached the budget, the
    webhook rejects every later image change that has no fresh break-glass reason, whoever makes
    it; if the claim was not frozen before and the ratio is below the budget, it admits every
    update. *)
Theorem budget_gates_deploys
  `{Unstructured, UnicodePrint, StatusConditionsLaws, ApiErrors, FinalizerUtil, ObjectConverter, AckConverter}
  (r : Reconciler) (claim : ServiceClaim) (objects : list Object) (tr : list event) (out : outcome)
  (budget : Q) (ratio : float64) (hour : result float64) (e : event) (u : json) :
  Build claim (r_Storage r) = Ok objects -> runs (reconcile_live r claim) tr out ->
  ErrorBudget (Objective (SLO (Spec claim))) = Ok budget -> len (Objective (SLO (Spec claim))) <= 300 ->
  omap query_answer tr = [Ok ratio; hour] -> unreadable hour = None -> valid ratio = true -> is_finite ratio = true ->
  In e tr -> status_applied e = Some u ->
  exists conds managed report storage js now,
    u = status_body claim managed report storage js now /\
    Forall2 (fun c j => ConditionToUnstructured c = Ok j) conds js /\
    forall recorder request next tr' v,
      let stored := with_conditions claim conds in
      runs (ValidateUpdate recorder request stored next) tr' v ->
      if fleb (Float64 budget) ratio then
        changes_image stored next = true -> breakGlassReason stored next = None -> exists err, v = Frozen err
      else was_frozen claim = false -> v = Allowed [].
Proof.
  intros HB Hr Hb Hl Hq Hh V F Hin Hu. destruct (ErrorBudget_Ok_bounds _ _ Hb) as (Hp & _ & _).
  apply (reconcile_live_writes _ _ _ _ _ HB) in Hr as (pre & slo & post & report & storage & rollout &
    rolloutErr & conds & applyErr & _ & Hslo & _ & Hqs & _ & _ & Hsays & Hw).
  rewrite Hq in Hqs. destruct (Hw e u Hin Hu) as (js & now & Hjs & ->).
  exists conds, (applied_ok tr), report, (storage_status storage), js, now. split; [done|]. split; [done|].
  intros recorder request next tr' v stored Hv.
  rewrite !Forall_cons in Hsays. destruct Hsays as (_ & _ & Hfrz & _).
  pose proof (says_true _ _ Hfrz) as Ef. rewrite freezeCondition_type in Ef.
  pose proof (freezeCondition_step claim report) as Hstep.
  rewrite (evaluateSLO_measures _ _ _ _ _ _ _ Hslo (eq_sym Hqs) Hh Hb F Hp) in Hstep.
  pose proof (remaining_exhausted _ _ _ Hb Hl V F) as Hrem.
  destruct (fleb (Float64 budget) ratio).
  - intros Hi Hbg. refine (proj1 (frozen_update_rejected recorder request stored next tr' v _ Hi Hbg Hv)).
    change (Conditions (Status stored)) with conds. rewrite Ef. inversion Hstep; congruence.
  - intros Hwf. refine (proj1 (thawed_update_admitted recorder request stored next tr' v _ Hv)).
    change (Conditions (Status stored)) with conds. rewrite Ef. rewrite Hwf in Hstep. inversion Hstep; congruence.
Qed.

#[local] Existing Instance plain_converter.
#[local] Existing Instance no_conditions.
#[local] Existing Instance plain_print.

(** A service failing one request in a hundred against an objective of 99.5. *)
Definition failing : result float64 := Ok (float_of_quot false 1 100).
Definition failing_cluster : env unit := fun X c s =>
  match c in call X' return X' * unit with
  | Query _ => (failing, s)
  | c => quiet_cluster _ c s
  end.

(** Its claim is frozen by the reconcile that sees it, and a new image is rejected. *)
Lemma budget_gates_deploys_witness :
  exists conds, forall tr' v,
    runs (ValidateUpdate true (Ok (mkAdmissionRequest "kim" None)) (with_conditions sample_claim conds)
      (with_image sample_claim "img:2" "")) tr' v -> exists err, v = Frozen err.
Proof.
  pose proof (exec_runs failing_cluster (reconcile_live all_parts sample_claim) tt) as Hr.
  assert (existsb (fun e => match status_applied e with Some _ => true | None => false end)
    (exec failing_cluster (reconcile_live all_parts sample_claim) tt).1.1 = true) as Hw by (vm_compute; reflexivity).
  assert (omap query_answer (exec failing_cluster (reconcile_live all_parts sample_claim) tt).1.1 = [failing; failing]) as Hq
    by (vm_compute; reflexivity).
  assert (is_ok (Build sample_claim (r_Storage all_parts)) = true) as Hb by (vm_compute; reflexivity).
  destruct (Build sample_claim (r_Storage all_parts)) as [objects|e] eqn:E; [|discriminate Hb].
  destruct (exec failing_cluster (reconcile_live all_parts sample_claim) tt) as [[tr out] s].
  apply existsb_exists in Hw as (e & Hin & Hu). destruct (status_applied e) as [u|] eqn:Eu; [|discriminate Hu].
  destruct (budget_gates_deploys all_parts sample_claim objects tr out (1 - 99.5 / 100)%Q (float_of_quot false 1 100)
    failing e u E Hr eq_refl ltac:(vm_compute; discriminate) Hq eq_refl ltac:(vm_compute; reflexivity) ltac:(vm_compute; reflexivity)
    Hin Eu) as (conds & managed & report & storage & js & now & _ & _ & Hgate).
  exists conds. intros tr' v Hv. pose proof (Hgate _ _ _ _ _ Hv) as Hg.
  assert (fleb (Float64 (1 - 99.5 / 100)%Q) (float_of_quot false 1 100) = true) as Hf by (vm_compute; reflexivity).
  rewrite Hf in Hg. apply Hg; vm_compute; reflexivity.
Defined.
