(* ===== verification/Manager.v ===== *)
(** * What the manager caches and watches ([cmd/main.go], [SetupWithManager] of
      [internal/controller/serviceclaim_controller.go])

    The manager's cache holds only objects the platform labelled, and only of the managed kinds;
    the controller is woken by their events. Whether the ACK kinds are among them is decided at
    start-up, from the environment and from what the API server serves. *)
From Stdlib Require Import ZArith Lia Ascii String.
From S2P Require Import Prelude GoStrings GoJson Api Kubernetes Instances Meta Storage Workload Monitoring Build.
From S2P Require Import Effects StorageStatus Controller.
Local Open Scope Z_scope.
Local Open Scope stdpp_scope.

(** ** Definitions *)

(** An empty object a cache or a watch is configured with: a Go type, or an unstructured object's
    group-version-kind. *)
Inductive watched :=
  | Typed (k : object_kind)
  | Dynamic (gvk : GroupVersionKind).

#[export] Instance gvk_eq_dec : EqDecision GroupVersionKind.
Proof. solve_decision. Defined.
#[export] Instance watched_eq_dec : EqDecision watched.
Proof. solve_decision. Defined.

Section manager.
Context `{Unstructured}.

(** The kind an object is watched as. *)
Definition watched_as (obj : Object) : watched :=
  match obj with OUnstructured u => Dynamic (GVK u) | _ => Typed (kind_of obj) end.

(** [append(builders.ManagedTypes(), builders.StorageTypes()...)] when [storage]. *)
Definition managed_kinds (storage : bool) : list watched :=
  map Typed ManagedTypes ++ if storage then map (fun u => Dynamic (GVK u)) StorageTypes else [].

(** [cache.Options.ByObject]: each kind with its label selector. *)
Definition managedObjectCache (storage : bool) : list (watched * gmap string string) :=
  let managed := map_of [(LabelManagedBy, ManagedBy)] in
  map (fun obj => (obj, managed)) (managed_kinds storage).

(** The kinds [SetupWithManager] watches, each with [claimForObject] as its map function. *)
Definition SetupWithManager (storage : option StorageConfig) : list (watched * (gmap string string -> list NamespacedName)) :=
  map (fun obj => (obj, claimForObject)) (managed_kinds (match storage with Some _ => true | None => false end)).

(** [new_client] is the error [client.New] returned, if any; [IsNoMatchError] is apimachinery's. *)
Definition storageForCluster `{UnicodePrint, RESTMapper} (IsNoMatchError : error -> bool) (getenv : string -> string)
    (new_client : option error) : result (option StorageConfig) :=
  storage ← StorageConfigFromEnv getenv;
  match storage with
  | None => Ok None
  | Some storage =>
      match new_client with
      | Some err => Err (WrapError (Sprintf ["creating a client to look for the ACK CRDs: "; Error err]) err)
      | None =>
          match ServesStorageKinds with
          | Some err => if negb (IsNoMatchError err) then Err err else Ok None
          | None => Ok (Some storage)
          end
      end
  end.

(** ** Lemmas *)

Lemma managed_selected sc labels : Labels sc ⊆ labels -> selects (map_of [(LabelManagedBy, ManagedBy)]) labels = true.
Proof.
  intros Hl. apply bool_decide_eq_true. etransitivity; [|exact Hl].
  apply map_subseteq_spec. intros k v Hk. unfold Labels. revert Hk. unfold map_of. cbn [foldl fst snd].
  rewrite lookup_insert_Some, lookup_empty. by intros [[<- <-]|[_ ?]].
Qed.

Lemma typed_watched storage obj :
  (forall u, obj <> OUnstructured u) -> In (watched_as obj) (managed_kinds storage).
Proof.
  intros Hu. apply in_app_iff. left. apply in_map_iff. exists (kind_of obj).
  split; [by destruct obj; try done; destruct (Hu u)|]. destruct obj; cbn; tauto || by destruct (Hu u).
Qed.

Lemma ack_watched `{UnicodePrint} `{!UnstructuredLaws} sc storage objects u :
  Build sc storage = Ok objects -> In (OUnstructured u) objects ->
  exists config, storage = Some config /\ (GVK u = RoleGVK \/ GVK u = BucketGVK).
Proof.
  intros (rule & dashboard & runbook & _ & _ & _ & ->)%Build_inv Hin. unfold object_set, HasStorage in Hin.
  repeat first [apply in_app_iff in Hin as [Hin|Hin] | destruct Hin as [E|Hin]; [try done|] | destruct Hin]; try done;
    try by repeat case_match; simpl in Hin; intuition discriminate.
  - destruct (Storage (Spec sc)); [|done]. destruct storage as [config|]; [|done]. exists config. split; [done|].
    cbn [BuildStorageRole] in Hin. unfold BuildStorageBucket in Hin.
    destruct Hin as [[= <-]|[[= <-]|[]]]; rewrite storage_object_gvk; auto.
Qed.

Lemma Build_kinds `{UnicodePrint} `{!UnstructuredLaws} sc storage objects obj :
  Build sc storage = Ok objects -> In obj objects ->
  In (watched_as obj) (managed_kinds (match storage with Some _ => true | None => false end)).
Proof.
  intros HB Hin. destruct obj as [| |u| | | | | | | | | |]; try by apply typed_watched.
  destruct (ack_watched _ _ _ _ HB Hin) as (config & -> & Hg). apply in_app_iff. right. apply in_map_iff.
  exists (newUnstructured (GVK u)). rewrite GVK_new. split; [done|]. destruct Hg as [->| ->]; cbn; auto.
Qed.

(** Cache and watches configured from the same storage cover what is built with it. *)
Lemma kinds_cached_and_watched `{UnicodePrint} `{!UnstructuredLaws} sc storage objects obj :
  Build sc storage = Ok objects -> In obj objects ->
  In (watched_as obj) (map fst (managedObjectCache (match storage with Some _ => true | None => false end))) /\
  In (watched_as obj) (map fst (SetupWithManager storage)).
Proof.
  intros HB Hin. pose proof (Build_kinds _ _ _ _ HB Hin). unfold managedObjectCache, SetupWithManager.
  by rewrite !map_map, !map_id.
Qed.
End manager.

(** ** Properties *)

(** C25: The controller sees everything it creates. Every object [Build] returns is of a kind the
    manager caches and watches for the same link to AWS, matches the cache's label selector, so
    that a cached read finds it, and its events wake up exactly the claim it was built for. *)
Theorem manager_sees_its_objects `{UnicodePrint, UnstructuredLaws} (sc : ServiceClaim)
    (storage : option StorageConfig) (objects : list Object) :
  Build sc storage = Ok objects -> Name sc <> "" -> Namespace sc <> "" ->
  Forall (fun obj =>
    (exists selector, In (watched_as obj, selector) (managedObjectCache (match storage with Some _ => true | None => false end)) /\
       selects selector (meta_Labels (object_meta obj)) = true) /\
    exists map_function, In (watched_as obj, map_function) (SetupWithManager storage) /\
      map_function (meta_Labels (object_meta obj)) = [mkNamespacedName (Namespace sc) (Name sc)]) objects.
Proof.
  intros HB Hn Hns. pose proof (Build_labels _ _ _ HB) as Hl. rewrite List.Forall_forall in *. intros obj Hin.
  destruct (Hl obj Hin) as [Hsub _].
  pose proof (Build_kinds _ _ _ _ HB Hin) as Hk.
  split.
  - eexists. split; [apply in_map_iff; by eexists|]. by eapply managed_selected.
  - exists claimForObject. split; [apply in_map_iff; by eexists|].
    unfold claimForObject.
    rewrite (lookup_weaken _ _ _ _ (Labels_claim sc) Hsub), (lookup_weaken _ _ _ _ (Labels_claim_namespace sc) Hsub).
    cbn [from_option id]. by rewrite (proj2 (String.eqb_neq _ _) Hn), (proj2 (String.eqb_neq _ _) Hns).
Qed.

Lemma manager_sees_its_objects_witness :
  exists obj map_function, In (watched_as obj, map_function) (SetupWithManager (Some sample_storage)) /\
    map_function (meta_Labels (object_meta obj)) = [mkNamespacedName "team-a" "shortlink"].
Proof.
  assert (match @Build no_rune _ sample_claim (Some sample_storage) with Ok (_ :: _) => true | _ => false end = true) as Hb
    by (vm_compute; reflexivity).
  destruct (@Build no_rune _ sample_claim (Some sample_storage)) as [[|obj objects]|e] eqn:E; try discriminate Hb.
  pose proof (@manager_sees_its_objects no_rune _ _ sample_claim (Some sample_storage) (obj :: objects) E
    ltac:(discriminate) ltac:(discriminate)) as Hf.
  exists obj. exact (proj2 (Forall_inv Hf)).
Defined.

(** Storage is on exactly when the environment gives a complete, valid link to AWS and the API
    server serves both ACK kinds. It is silently off only when the environment has no setting at
    all or the server says it has no such kind; settings that are wrong, and a server that cannot
    be asked, are errors. *)
Theorem storageForCluster_decision `{UnicodePrint, UnstructuredLaws, RESTMapper} (IsNoMatchError : error -> bool)
    (getenv : string -> string) (new_client : option error) :
  match storageForCluster IsNoMatchError getenv new_client with
  | Ok (Some c) => StorageConfigFromEnv getenv = Ok (Some c) /\ new_client = None /\
      RESTMapping RoleGVK = None /\ RESTMapping BucketGVK = None
  | Ok None => StorageConfigFromEnv getenv = Ok None \/
      (new_client = None /\ exists gvk cause m, In gvk [RoleGVK; BucketGVK] /\ RESTMapping gvk = Some cause /\
         IsNoMatchError (WrapError m cause) = true)
  | Err _ => is_ok (StorageConfigFromEnv getenv) = false \/
      (exists c, StorageConfigFromEnv getenv = Ok (Some c)) /\
      (new_client <> None \/ exists gvk cause m, In gvk [RoleGVK; BucketGVK] /\ RESTMapping gvk = Some cause /\
         IsNoMatchError (WrapError m cause) = false)
  end.
Proof.
  unfold storageForCluster. destruct (StorageConfigFromEnv getenv) as [[c|]|e]; cbn [mbind result_bind]; [|by left|by left].
  destruct new_client as [e|]; [right; split; [by eexists|by left]|].
  unfold ServesStorageKinds, StorageTypes, firstError. cbn [map]. rewrite !GVK_new.
  destruct (RESTMapping RoleGVK) as [cause|] eqn:Hr; [|destruct (RESTMapping BucketGVK) as [cause|] eqn:Hb]; cbn; [| |done].
  - destruct (IsNoMatchError _) eqn:Hm; cbn [negb]; right; [split; [done|]|split; [by eexists|right]];
      exists RoleGVK, cause; eexists; (split; [by left|]); by split; [|exact Hm].
  - destruct (IsNoMatchError _) eqn:Hm; cbn [negb]; right; [split; [done|]|split; [by eexists|right]];
      exists BucketGVK, cause; eexists; (split; [by right; left|]); by split; [|exact Hm].
Qed.

(** Every kind is served, and the environment names an account. *)
#[local] Instance serves_all : RESTMapper := fun _ => None.
Definition sample_env (name : string) : string :=
  if String.eqb name EnvAWSAccountID then AccountID sample_storage
  else if String.eqb name EnvAWSRegion then Region sample_storage
  else if String.eqb name EnvAWSOIDCIssuer then Issuer sample_storage
  else PermissionsBoundaryARN sample_storage.

Lemma storageForCluster_decision_witness :
  @StorageConfigFromEnv no_rune sample_env = Ok (Some sample_storage) /\ RESTMapping BucketGVK = None.
Proof.
  pose proof (@storageForCluster_decision no_rune _ _ _ (fun _ => true) sample_env None) as Hd.
  assert (@storageForCluster _ no_rune _ (fun _ => true) sample_env None = Ok (Some sample_storage)) as E
    by (vm_compute; reflexivity).
  rewrite E in Hd. destruct Hd as (Henv & _ & _ & Hb). split; [exact Henv|exact Hb].
Defined.
