(* ===== verification/Rbac.v ===== *)
(** * What the controller is allowed to do (the [+kubebuilder:rbac] markers of
      [internal/controller/serviceclaim_controller.go])

    The manager's ClusterRole is generated from markers written by hand over [Reconcile]. Nothing
    ties them to the calls [Reconcile] makes: a call they do not cover fails at run time only. This
    file gives each call the permissions the API server asks for and checks every run against the
    markers. *)
From Stdlib Require Import ZArith Lia Ascii String.
From S2P Require Import Prelude GoStrings GoJson Api Kubernetes Instances Meta Storage Workload Monitoring Build.
From S2P Require Import Effects SloStatus Freeze StorageStatus Controller ControllerCalls ControllerSafety ControllerStatus.
From S2P Require Import Convergence Webhook Manager.
Local Open Scope Z_scope.
Local Open Scope stdpp_scope.

(** ** Definitions *)

(** [rbacv1.PolicyRule], as controller-gen writes a marker. *)
Record PolicyRule := mkPolicyRule { rule_APIGroups : list string; rule_Resources : list string; rule_Verbs : list string }.

Definition all_verbs : list string := ["get"; "list"; "watch"; "create"; "update"; "patch"; "delete"].

Definition rbac_rules : list PolicyRule :=
  [mkPolicyRule ["platform.paved.dev"] ["serviceclaims"] all_verbs;
   mkPolicyRule ["platform.paved.dev"] ["serviceclaims/status"] ["get"; "update"; "patch"];
   mkPolicyRule ["platform.paved.dev"] ["serviceclaims/finalizers"] ["update"];
   mkPolicyRule [""] ["namespaces"; "serviceaccounts"; "services"; "configmaps"] all_verbs;
   mkPolicyRule ["networking.k8s.io"] ["networkpolicies"; "ingresses"] all_verbs;
   mkPolicyRule ["autoscaling"] ["horizontalpodautoscalers"] all_verbs;
   mkPolicyRule ["policy"] ["poddisruptionbudgets"] all_verbs;
   mkPolicyRule ["argoproj.io"] ["rollouts"; "analysistemplates"] all_verbs;
   mkPolicyRule ["monitoring.coreos.com"] ["servicemonitors"; "prometheusrules"] all_verbs;
   mkPolicyRule ["iam.services.k8s.aws"] ["roles"] all_verbs;
   mkPolicyRule ["s3.services.k8s.aws"] ["buckets"] all_verbs;
   mkPolicyRule ["events.k8s.io"] ["events"] ["create"; "patch"]].

(** A resource is a group and a plural name, with [/status] for a subresource. *)
Definition resource : Type := string * string.

(** RBAC is additive: a request is allowed when one rule has its group, its resource and its verb. *)
Definition rule_grants (res : resource) (verb : string) (rule : PolicyRule) : bool :=
  existsb (String.eqb res.1) (rule_APIGroups rule) && existsb (String.eqb res.2) (rule_Resources rule) &&
  existsb (String.eqb verb) (rule_Verbs rule).
Definition grants (rules : list PolicyRule) (request : resource * string) : bool :=
  existsb (rule_grants request.1 request.2) rules.

(** The resource a kind is served as ([meta.RESTMapper]); the group-version-kind the scheme has for
    a Go type; the one an object's [apiVersion] and [kind] name ([schema.FromAPIVersionAndKind]). *)
Class ApiKinds := {
  resource_of : GroupVersionKind -> resource;
  scheme_gvk : object_kind -> GroupVersionKind;
  FromAPIVersionAndKind : string -> string -> GroupVersionKind
}.

Definition claim_gvk : GroupVersionKind := mkGVK "platform.paved.dev" "v1alpha1" claimKind.
Definition event_gvk : GroupVersionKind := mkGVK "events.k8s.io" "v1" "Event".

(** The documented names of the kinds the program uses: the Go type, if there is one, and the resource. *)
Definition documented_kinds : list (option object_kind * GroupVersionKind * string) :=
  [(Some KNamespace, mkGVK "" "v1" "Namespace", "namespaces");
   (Some KServiceAccount, mkGVK "" "v1" "ServiceAccount", "serviceaccounts");
   (Some KService, mkGVK "" "v1" "Service", "services");
   (Some KConfigMap, mkGVK "" "v1" "ConfigMap", "configmaps");
   (Some KNetworkPolicy, mkGVK "networking.k8s.io" "v1" "NetworkPolicy", "networkpolicies");
   (Some KIngress, mkGVK "networking.k8s.io" "v1" "Ingress", "ingresses");
   (Some KHPA, mkGVK "autoscaling" "v2" "HorizontalPodAutoscaler", "horizontalpodautoscalers");
   (Some KPodDisruptionBudget, mkGVK "policy" "v1" "PodDisruptionBudget", "poddisruptionbudgets");
   (Some KRollout, mkGVK "argoproj.io" "v1alpha1" "Rollout", "rollouts");
   (Some KAnalysisTemplate, mkGVK "argoproj.io" "v1alpha1" "AnalysisTemplate", "analysistemplates");
   (Some KServiceMonitor, mkGVK "monitoring.coreos.com" "v1" "ServiceMonitor", "servicemonitors");
   (Some KPrometheusRule, mkGVK "monitoring.coreos.com" "v1" "PrometheusRule", "prometheusrules");
   (None, RoleGVK, "roles"); (None, BucketGVK, "buckets");
   (None, claim_gvk, "serviceclaims"); (None, event_gvk, "events")].

Definition has_slash (s : string) : bool := existsb (Ascii.eqb "/"%char) (list_ascii_of_string s).

Class ApiKindsLaws `{ApiKinds} : Prop := {
  resource_of_documented ty gvk plural : In (ty, gvk, plural) documented_kinds -> resource_of gvk = (gvk_Group gvk, plural);
  scheme_gvk_documented k gvk plural : In (Some k, gvk, plural) documented_kinds -> scheme_gvk k = gvk;
  from_core v kind : has_slash v = false -> FromAPIVersionAndKind v kind = mkGVK "" v kind;
  from_group g v kind : has_slash g = false -> has_slash v = false ->
    FromAPIVersionAndKind (g +:+ "/" +:+ v) kind = mkGVK g v kind
}.

(** The [TypeMeta] a builder wrote into its object. *)
Definition object_type (obj : Object) : TypeMeta :=
  match obj with
  | ONamespace o => namespace_TypeMeta o
  | OServiceAccount o => sa_TypeMeta o
  | OUnstructured _ => mkTypeMeta "" ""
  | OAnalysisTemplate o => at_TypeMeta o
  | ORollout o => rollout_TypeMeta o
  | ONetworkPolicy o => np_TypeMeta o
  | OPrometheusRule o => pr_TypeMeta o
  | OServiceMonitor o => sm_TypeMeta o
  | OConfigMap o => cm_TypeMeta o
  | OService o => service_TypeMeta o
  | OHPA o => hpa_TypeMeta o
  | OPodDisruptionBudget o => pdb_TypeMeta o
  | OIngress o => ingress_TypeMeta o
  end.

Section kinds.
Context `{Unstructured, ApiKinds}.

Definition object_gvk (obj : Object) : GroupVersionKind :=
  match obj with
  | OUnstructured u => GVK u
  | _ => FromAPIVersionAndKind (APIVersion (object_type obj)) (Kind (object_type obj))
  end.

(** The converter writes an object's [apiVersion] and [kind] from its [TypeMeta], an unstructured
    object's kind is read from those two fields, and removing other fields keeps it. *)
Class TypedConverterLaws `{ObjectConverter} : Prop := {
  ToUnstructured_gvk obj u : ToUnstructured obj = Ok u -> GVK u = object_gvk obj;
  RemoveNestedField_gvk u path :
    path ∈ [["metadata"; "creationTimestamp"]; ["spec"; "template"; "metadata"; "creationTimestamp"]; ["status"]] ->
    GVK (RemoveNestedField u path) = GVK u;
  claim_body_gvk claim extra rest : rest = [] \/ (exists status, rest = [("status", status)]) ->
    GVK (claim_body claim extra rest) = FromAPIVersionAndKind GroupVersion claimKind
}.

(** What the API server asks for: a read past the cache gets; a cached one is served by an informer,
    which lists and watches, and gets where the cache does not hold the kind. *)
Definition read_requests (reader : Reader) (res : resource) : list (resource * string) :=
  match reader with
  | APIReader => [(res, "get")]
  | CachedClient => [(res, "get"); (res, "list"); (res, "watch")]
  end.

(** Server-side apply is a patch, and a creation where the object does not exist. The recorder creates
    an Event, and patches it into a series when it repeats. *)
Definition requests (e : event) : list (resource * string) :=
  match e with
  | Ev (GetClaim _) _ => read_requests CachedClient (resource_of claim_gvk)
  | Ev (GetNamespaceObject _) _ => read_requests CachedClient (resource_of (scheme_gvk KNamespace))
  | Ev (GetRollout reader _) _ => read_requests reader (resource_of (scheme_gvk KRollout))
  | Ev (GetUnstructured reader gvk _) _ => read_requests reader (resource_of gvk)
  | Ev (Apply u) _ => [(resource_of (GVK u), "create"); (resource_of (GVK u), "patch")]
  | Ev (ApplyStatus u) _ => [(((resource_of (GVK u)).1, (resource_of (GVK u)).2 +:+ "/status"), "patch")]
  | Ev (DeleteNamespace _) _ => [(resource_of (scheme_gvk KNamespace), "delete")]
  | Ev (Eventf _ _ _ _ _) _ => [(resource_of event_gvk, "create"); (resource_of event_gvk, "patch")]
  | Ev (Query _) _ | Ev Now _ => []
  end.

Definition permitted (rules : list PolicyRule) (e : event) : bool := forallb (grants rules) (requests e).

(** The kind a watch is of. *)
Definition watched_gvk (w : watched) : GroupVersionKind :=
  match w with Typed k => scheme_gvk k | Dynamic gvk => gvk end.
End kinds.

(** ** Lemmas *)

#[local] Instance gvk_name_eq_dec : EqDecision (option object_kind * GroupVersionKind * string).
Proof. solve_decision. Defined.

Section permissions.
Context `{UnicodePrint, UnstructuredLaws, StatusConditions, ApiErrors, FinalizerUtil, ObjectConverter, AckConverter}.
Context `{!ApiKinds, !ApiKindsLaws, !TypedConverterLaws}.

Lemma from_version v kind g w :
  v = (if String.eqb g "" then w else g +:+ "/" +:+ w) -> has_slash g = false -> has_slash w = false ->
  FromAPIVersionAndKind v kind = mkGVK g w kind.
Proof.
  intros -> Hg Hw. destruct (String.eqb_spec g "") as [->|_]; [by apply from_core|by apply from_group].
Qed.

Lemma documented ty gvk plural :
  bool_decide ((ty, gvk, plural) ∈ documented_kinds) = true -> resource_of gvk = (gvk_Group gvk, plural).
Proof. intros Hin%bool_decide_eq_true. apply (resource_of_documented ty). by apply list_elem_of_In. Qed.

Lemma documented_type k gvk plural :
  bool_decide ((Some k, gvk, plural) ∈ documented_kinds) = true -> scheme_gvk k = gvk.
Proof. intros Hin%bool_decide_eq_true. apply (scheme_gvk_documented k gvk plural). by apply list_elem_of_In. Qed.

(** The kinds an apply may be of. *)
Definition writable (gvk : GroupVersionKind) : Prop :=
  exists plural, resource_of gvk = (gvk_Group gvk, plural) /\
    forallb (fun verb => grants rbac_rules ((gvk_Group gvk, plural), verb)) ["get"; "list"; "watch"; "create"; "patch"] = true.

Lemma writable_documented ty gvk plural :
  bool_decide ((ty, gvk, plural) ∈ documented_kinds) = true ->
  forallb (fun verb => grants rbac_rules ((gvk_Group gvk, plural), verb)) ["get"; "list"; "watch"; "create"; "patch"] = true ->
  writable gvk.
Proof. intros Hd Hg. exists plural. split; [by apply (documented ty)|exact Hg]. Qed.

Lemma claim_writable : writable claim_gvk.
Proof. by apply (writable_documented None claim_gvk "serviceclaims"); vm_compute. Qed.

Lemma ack_writable gvk : gvk = RoleGVK \/ gvk = BucketGVK -> writable gvk.
Proof.
  intros [->| ->]; [apply (writable_documented None RoleGVK "roles")|apply (writable_documented None BucketGVK "buckets")];
    by vm_compute.
Qed.

(** A managed Go type, by its documented kind. *)
Definition kind_plural (k : object_kind) : GroupVersionKind * string :=
  match List.find (fun d => bool_decide (d.1.1 = Some k)) documented_kinds with
  | Some (_, gvk, plural) => (gvk, plural)
  | None => (mkGVK "" "" "", "")
  end.

Lemma kind_documented k : k <> KUnstructured ->
  bool_decide ((Some k, (kind_plural k).1, (kind_plural k).2) ∈ documented_kinds) = true /\
  forallb (fun verb => grants rbac_rules ((gvk_Group (kind_plural k).1, (kind_plural k).2), verb))
    ["get"; "list"; "watch"; "create"; "patch"] = true.
Proof. intros Hk. destruct k; try done; split; vm_compute; reflexivity. Qed.

Lemma kind_writable k : k <> KUnstructured -> writable (kind_plural k).1.
Proof. intros [Hd Hg]%kind_documented. exact (writable_documented _ _ _ Hd Hg). Qed.

Lemma kind_scheme k : k <> KUnstructured -> scheme_gvk k = (kind_plural k).1.
Proof. intros [Hd _]%kind_documented. exact (documented_type k _ _ Hd). Qed.

Lemma kind_permitted k verbs : k <> KUnstructured ->
  forallb (fun verb => grants rbac_rules ((gvk_Group (kind_plural k).1, (kind_plural k).2), verb)) verbs = true ->
  forallb (grants rbac_rules) (map (fun verb => (resource_of (scheme_gvk k), verb)) verbs) = true.
Proof.
  intros Hk Hv. destruct (kind_documented k Hk) as [Hd _]. rewrite (kind_scheme k Hk), (documented _ _ _ Hd).
  rewrite <- Hv. clear. by induction verbs as [|v verbs IH]; [|cbn [map forallb]; rewrite IH].
Qed.

Lemma writable_verbs gvk verbs : writable gvk -> forallb (fun v => existsb (String.eqb v) ["get"; "list"; "watch"; "create"; "patch"]) verbs = true ->
  forallb (grants rbac_rules) (map (fun verb => (resource_of gvk, verb)) verbs) = true.
Proof.
  intros (plural & -> & Hg) Hv. rewrite forallb_forall in Hg, Hv. apply forallb_forall.
  intros req (v & <- & Hin)%in_map_iff. apply Hg. apply Hv, existsb_exists in Hin as (v' & Hin & ->%String.eqb_eq). done.
Qed.

Lemma apply_permitted u x : writable (GVK u) -> permitted rbac_rules (Ev (Apply u) x) = true.
Proof. intros Hw. exact (writable_verbs _ ["create"; "patch"] Hw eq_refl). Qed.

Lemma read_permitted reader gvk key x : writable gvk -> permitted rbac_rules (Ev (GetUnstructured reader gvk key) x) = true.
Proof.
  intros Hw. destruct reader; [exact (writable_verbs _ ["get"; "list"; "watch"] Hw eq_refl)|exact (writable_verbs _ ["get"] Hw eq_refl)].
Qed.

Lemma event_permitted claim ty reason action note x : permitted rbac_rules (Ev (Eventf claim ty reason action note) x) = true.
Proof. unfold permitted, requests. rewrite (documented None event_gvk "events") by (vm_compute; reflexivity). reflexivity. Qed.

Lemma claim_body_writable claim extra rest : rest = [] \/ (exists status, rest = [("status", status)]) ->
  GVK (claim_body claim extra rest) = claim_gvk.
Proof. intros Hrest. rewrite claim_body_gvk by done. by apply (from_version GroupVersion claimKind "platform.paved.dev" "v1alpha1"). Qed.

(** *** Every object of a set is of a kind the rules cover *)

(** The [apiVersion] and [kind] that name a group-version-kind. *)
Definition type_meta_of (gvk : GroupVersionKind) : TypeMeta :=
  mkTypeMeta (if String.eqb (gvk_Group gvk) "" then gvk_Version gvk else gvk_Group gvk +:+ "/" +:+ gvk_Version gvk) (gvk_Kind gvk).

Definition well_typed (obj : Object) : Prop :=
  kind_of obj <> KUnstructured -> object_type obj = type_meta_of (kind_plural (kind_of obj)).1.

Lemma BuildPrometheusRule_type sc rule : BuildPrometheusRule sc = Ok rule -> well_typed (OPrometheusRule rule).
Proof.
  unfold BuildPrometheusRule. destruct (Rules.RecordingRules _ _); [|done]. by destruct (Alerts.AlertRules _ _); intros [= <-].
Qed.

Lemma BuildDashboard_type sc cm : BuildDashboard sc = Ok cm -> well_typed (OConfigMap cm).
Proof. unfold BuildDashboard. by intros (m & _ & [= <-])%bind_Ok. Qed.

Lemma BuildRunbook_type sc cm : BuildRunbook sc = Ok cm -> well_typed (OConfigMap cm).
Proof. unfold BuildRunbook. by destruct (runbookText sc); intros [= <-]. Qed.

Lemma Build_types sc storage objects : Build sc storage = Ok objects -> Forall well_typed objects.
Proof.
  intros (rule & dashboard & runbook & Hr%BuildPrometheusRule_type & Hd%BuildDashboard_type & Hb%BuildRunbook_type & ->)%Build_inv.
  unfold object_set. repeat (apply Forall_app; split); repeat apply Forall_cons_2; try apply Forall_nil_2; try done.
  - destruct (HasStorage sc storage); [destruct (BuildStorageRole _ _)|]; repeat constructor; by intros [].
  - destruct (HasCanaryAnalysis sc); repeat constructor.
  - destruct (HasAutoscaling sc); repeat constructor.
  - destruct (String.eqb _ _); repeat constructor.
Qed.

Lemma kind_type_gvk k : k <> KUnstructured ->
  FromAPIVersionAndKind (APIVersion (type_meta_of (kind_plural k).1)) (Kind (type_meta_of (kind_plural k).1)) = (kind_plural k).1.
Proof.
  intros Hk. destruct (kind_plural k).1 as [g v kind] eqn:E. apply from_version; [done| |];
    destruct k; try done; vm_compute in E; by injection E as <- <- <-.
Qed.

(** The kinds of what is applied. *)
Definition managed_gvks : list GroupVersionKind := map (fun k => (kind_plural k).1) ManagedTypes ++ [RoleGVK; BucketGVK].

Lemma managed_gvk_writable gvk : gvk ∈ managed_gvks -> writable gvk.
Proof.
  unfold managed_gvks. rewrite elem_of_app, !elem_of_cons. intros [(k & -> & Hk%list_elem_of_In)%list_elem_of_fmap|[->|[->|[]%elem_of_nil]]];
    [|apply ack_writable; auto..].
  apply kind_writable. intros ->. cbn in Hk. intuition discriminate.
Qed.

Lemma Build_gvks sc storage objects obj :
  Build sc storage = Ok objects -> In obj objects -> object_gvk obj ∈ managed_gvks.
Proof.
  intros HB Hin. pose proof (proj1 (List.Forall_forall _ _) (Build_types _ _ _ HB) obj Hin) as Ht.
  unfold managed_gvks. rewrite elem_of_app. destruct (decide (kind_of obj = KUnstructured)) as [Hu|Hu].
  - right. rewrite !elem_of_cons. destruct obj as [| |u| | | | | | | | | |]; try done.
    destruct (ack_watched _ _ _ _ HB Hin) as (_ & _ & Hg). cbn [object_gvk]. tauto.
  - left. assert (object_gvk obj = (kind_plural (kind_of obj)).1) as ->.
    { rewrite <- (kind_type_gvk _ Hu), <- (Ht Hu). by destruct obj. }
    apply list_elem_of_In, (in_map (fun k => (kind_plural k).1)). destruct obj; try done; cbn; tauto.
Qed.

Lemma toApplyObject_gvk obj u : toApplyObject obj = Ok u -> GVK u = object_gvk obj.
Proof.
  unfold toApplyObject. destruct (ToUnstructured obj) as [v|e] eqn:E; [|done]. intros [= <-].
  rewrite !RemoveNestedField_gvk by (rewrite !elem_of_cons; auto). by apply ToUnstructured_gvk.
Qed.

Lemma body_gvk sc storage objects obj u :
  Build sc storage = Ok objects -> In obj objects -> toApplyObject obj = Ok u -> GVK u ∈ managed_gvks.
Proof. intros HB Hin ->%toApplyObject_gvk. by eapply Build_gvks. Qed.

(** *** The calls of every part of [Reconcile] *)

Lemma status_permitted claim : status_calls (permitted rbac_rules) claim.
Proof.
  split; [done|done| | |].
  - intros reader kind x Hkind. apply read_permitted, ack_writable.
    destruct Hkind as [<-|[<-|[]]]; rewrite GVK_new; auto.
  - intros reader x. destruct reader; [by apply (kind_permitted KRollout ["get"; "list"; "watch"])|by apply (kind_permitted KRollout ["get"])].
  - intros managed report storage js now x. unfold permitted, requests, status_body. cbn [forallb].
    rewrite claim_body_writable by eauto. rewrite (documented None claim_gvk "serviceclaims") by (vm_compute; reflexivity). reflexivity.
Qed.

Lemma live_permitted storage claim : live_calls (permitted rbac_rules) storage claim.
Proof.
  split; [apply status_permitted|intros c x; apply event_permitted|].
  intros objects obj u HB Hobj Hu. assert (writable (GVK u)) as Hw by (by eapply managed_gvk_writable, body_gvk).
  split; intros x; [by apply read_permitted|by apply apply_permitted].
Qed.

Lemma reconcile_permitted r req : all_calls (permitted rbac_rules) r req.
Proof.
  split.
  - intros x. exact (writable_verbs _ ["get"; "list"; "watch"] claim_writable eq_refl).
  - intros claim. apply live_permitted.
  - intros claim present x. apply apply_permitted. rewrite claim_body_writable by auto. apply claim_writable.
  - intros claim x. by apply (kind_permitted KNamespace ["get"; "list"; "watch"]).
  - intros ns x. by apply (kind_permitted KNamespace ["delete"]).
Qed.

Lemma ValidateUpdate_allowed recorder request oldClaim newClaim : every (permitted rbac_rules) (ValidateUpdate recorder request oldClaim newClaim).
Proof.
  unfold ValidateUpdate. every_step; [apply every_ret|]. every_step; [|apply every_ret]. every_step; [|apply every_ret].
  every_step; [|apply every_ret]. every_step; [|apply every_ret]. every_step. apply event_permitted.
Qed.
End permissions.

(** The resources the rules name. *)
Definition rule_resources (rules : list PolicyRule) : list resource :=
  flat_map (fun rule => list_prod (rule_APIGroups rule) (rule_Resources rule)) rules.

Lemma grants_resources rules res verb : grants rules (res, verb) = true -> In res (rule_resources rules).
Proof.
  intros (rule & Hin & Hg)%existsb_exists. apply in_flat_map. exists rule. split; [done|].
  unfold rule_grants in Hg. cbn [fst snd] in Hg. apply andb_true_iff in Hg as [[Hg Hr]%andb_true_iff _].
  apply existsb_exists in Hg as (g & Hg & Eg%String.eqb_eq), Hr as (r & Hr & Er%String.eqb_eq).
  destruct res as [rg rr]. cbn in *. subst. by apply in_prod.
Qed.

(** The resources of the managed kinds, ACK's two among them. *)
Definition kind_resource (k : object_kind) : resource := (gvk_Group (kind_plural k).1, (kind_plural k).2).
Definition managed_resources : list resource :=
  map kind_resource ManagedTypes ++ [(gvk_Group RoleGVK, "roles"); (gvk_Group BucketGVK, "buckets")].

Lemma rule_resources_known res : In res (rule_resources rbac_rules) ->
  res ∈ map (fun sub => ("platform.paved.dev", "serviceclaims" +:+ sub)) [""; "/status"; "/finalizers"] ++
        [("events.k8s.io", "events")] ++ managed_resources.
Proof.
  assert (bool_decide (Forall (fun res =>
    res ∈ map (fun sub => ("platform.paved.dev", "serviceclaims" +:+ sub)) [""; "/status"; "/finalizers"] ++
          [("events.k8s.io", "events")] ++ managed_resources) (rule_resources rbac_rules)) = true) as Hall
    by (vm_compute; reflexivity).
  apply bool_decide_eq_true in Hall. apply (proj1 (List.Forall_forall _ _) Hall).
Qed.

Section watches.
Context `{UnstructuredLaws, ApiKindsLaws}.

Lemma managed_kind_writable storage w : In w (managed_kinds storage) -> writable (watched_gvk w).
Proof.
  unfold managed_kinds. intros [(k & <- & Hk)%in_map_iff|Hw]%in_app_iff.
  - assert (k <> KUnstructured) as Hu by (intros ->; cbn in Hk; intuition discriminate).
    cbn [watched_gvk]. rewrite (kind_scheme k Hu). by apply kind_writable.
  - destruct storage; [|done]. apply in_map_iff in Hw as (u & <- & Hu). apply ack_writable.
    destruct Hu as [<-|[<-|[]]]; cbn [watched_gvk]; rewrite GVK_new; auto.
Qed.

Lemma watch_granted storage w : In w (Dynamic claim_gvk :: map fst (SetupWithManager storage)) ->
  forallb (grants rbac_rules) (read_requests CachedClient (resource_of (watched_gvk w))) = true.
Proof.
  intros Hw. assert (writable (watched_gvk w)) as Hwr; [|exact (writable_verbs _ ["get"; "list"; "watch"] Hwr eq_refl)].
  destruct Hw as [<-|Hw]; [apply claim_writable|]. unfold SetupWithManager in Hw. rewrite map_map, map_id in Hw.
  by eapply managed_kind_writable.
Qed.

Lemma managed_resource_watched res : res ∈ managed_resources ->
  exists w, In w (managed_kinds true) /\ res = resource_of (watched_gvk w).
Proof.
  unfold managed_resources, managed_kinds. rewrite elem_of_app. intros [(k & -> & Hk)%list_elem_of_fmap|Ha].
  - exists (Typed k). apply list_elem_of_In in Hk. split; [apply in_app_iff; left; by apply in_map|]. cbn [watched_gvk].
    assert (k <> KUnstructured) as Hu by (intros ->; cbn in Hk; intuition discriminate).
    destruct (kind_documented k Hu) as [Hd _]. by rewrite (kind_scheme k Hu), (documented _ _ _ Hd).
  - rewrite !elem_of_cons in Ha. destruct Ha as [->|[->|[]%elem_of_nil]].
    + exists (Dynamic RoleGVK). split; [apply in_app_iff; right; cbn [map StorageTypes]; rewrite !GVK_new; by left|].
      cbn [watched_gvk]. by rewrite (documented None RoleGVK "roles") by (vm_compute; reflexivity).
    + exists (Dynamic BucketGVK). split; [apply in_app_iff; right; cbn [map StorageTypes]; rewrite !GVK_new; by right; left|].
      cbn [watched_gvk]. by rewrite (documented None BucketGVK "buckets") by (vm_compute; reflexivity).
Qed.
End watches.

(** ** Properties *)

(** C9: The controller is allowed to do what it does, and no more kinds than that. In whatever state
    the cluster is and whatever fails, every call of every run of [Reconcile] and of the webhook
    needs only permissions the RBAC markers grant, and so does every watch and cached kind of the
    manager, with storage or without; and a resource the markers grant anything on is the claim's,
    one of its subresources, an Event's, or that of a managed kind. *)
Theorem rbac_fits
    `{UnicodePrint, UnstructuredLaws, StatusConditions, ApiErrors, FinalizerUtil, ObjectConverter, AckConverter,
      !ApiKinds, !ApiKindsLaws, !TypedConverterLaws} :
  (forall r req tr out, runs (Reconcile r req) tr out -> forallb (permitted rbac_rules) tr = true) /\
  (forall recorder request oldClaim newClaim tr v,
     runs (ValidateUpdate recorder request oldClaim newClaim) tr v -> forallb (permitted rbac_rules) tr = true) /\
  (forall storage w, In w (Dynamic claim_gvk :: map fst (SetupWithManager storage)) ->
     forallb (grants rbac_rules) (read_requests CachedClient (resource_of (watched_gvk w))) = true) /\
  forall res verb, grants rbac_rules (res, verb) = true ->
    (exists sub, In sub [""; "/status"; "/finalizers"] /\
       res = ((resource_of claim_gvk).1, (resource_of claim_gvk).2 +:+ sub)) \/
    res = resource_of event_gvk \/
    exists w, In w (managed_kinds true) /\ res = resource_of (watched_gvk w).
Proof.
  split; [intros r req tr out; by apply Reconcile_every, reconcile_permitted|]. split; [intros recorder request o n tr v; by apply ValidateUpdate_allowed|].
  split; [intros storage w; apply watch_granted|]. intros res verb Hin%grants_resources%rule_resources_known.
  rewrite (documented None claim_gvk "serviceclaims"), (documented None event_gvk "events") by (vm_compute; reflexivity).
  rewrite !elem_of_app in Hin. destruct Hin as [(sub & -> & Hsub%list_elem_of_In)%list_elem_of_fmap|[->%list_elem_of_singleton|Hin]].
  - left. by exists sub.
  - right. by left.
  - right. right. by apply managed_resource_watched.
Qed.

(** *** A concrete mapping *)
#[local] Instance documented_names : ApiKinds := {
  resource_of := fun gvk =>
    match List.find (fun d => bool_decide (d.1.2 = gvk)) documented_kinds with
    | Some (_, _, plural) => (gvk_Group gvk, plural)
    | None => (gvk_Group gvk, "")
    end;
  scheme_gvk := fun k => (kind_plural k).1;
  FromAPIVersionAndKind := parse_gvk
}.

Lemma split_slash_none s : has_slash s = false -> split_slash s = None.
Proof.
  unfold has_slash. induction s as [|c s IH]; [done|]. cbn [list_ascii_of_string existsb split_slash].
  intros [-> Hs]%orb_false_iff. by rewrite (IH Hs).
Qed.

Lemma split_slash_some g v : has_slash g = false -> split_slash (g +:+ "/" +:+ v) = Some (g, v).
Proof.
  unfold has_slash. induction g as [|c g IH]; [done|]. cbn [list_ascii_of_string existsb].
  intros [Hc Hg]%orb_false_iff. specialize (IH Hg). cbn [String.append split_slash] in IH |- *. by rewrite Hc, IH.
Qed.

#[local] Instance documented_names_laws : ApiKindsLaws.
Proof.
  split.
  - intros ty gvk plural Hin. cbn in Hin. repeat destruct Hin as [[= <- <- <-]|Hin]; try done; vm_compute; reflexivity.
  - intros k gvk plural Hin. cbn in Hin. repeat destruct Hin as [[= <- <- <-]|Hin]; try done; vm_compute; reflexivity.
  - intros v kind Hv. change (parse_gvk v kind = mkGVK "" v kind). unfold parse_gvk. by rewrite split_slash_none.
  - intros g v kind Hg Hv. change (parse_gvk (g +:+ "/" +:+ v) kind = mkGVK g v kind). unfold parse_gvk. by rewrite split_slash_some.
Qed.

#[local] Instance typed_converter : ObjectConverter := {
  ToUnstructured := fun obj =>
    Ok (match obj with
        | OUnstructured v => v
        | _ => let m := object_meta obj in
               SetLabels (SetNamespace (SetName (newUnstructured (object_gvk obj)) (meta_Name m)) (meta_Namespace m)) (meta_Labels m)
        end);
  ConditionToUnstructured := fun c => Ok (condition_json c);
  type_text := fun _ => "*v1.Object"
}.

#[local] Instance typed_converter_laws : TypedConverterLaws.
Proof.
  split.
  - intros obj u [= <-]. destruct obj; try done;
      match goal with |- GVK _ = ?g => by destruct g end.
  - intros u path Hpath. by apply removed_identity.
  - intros claim extra rest [->|[status ->]]; reflexivity.
Qed.
#[local] Existing Instance no_conditions.
#[local] Existing Instance plain_print.

(** The quiet cluster sees a reconcile of a public claim with storage make only calls it may. *)
Lemma rbac_fits_witness :
  forallb (permitted rbac_rules) (exec quiet_cluster (Reconcile all_parts claim_req) tt).1.1 = true /\
  grants rbac_rules (("", "namespaces"), "delete") = true /\ grants rbac_rules (("apps", "deployments"), "get") = false.
Proof.
  pose proof (exec_runs quiet_cluster (Reconcile all_parts claim_req) tt) as Hr.
  destruct (exec quiet_cluster (Reconcile all_parts claim_req) tt) as [[tr out] s].
  split; [exact (proj1 rbac_fits _ _ _ _ Hr)|]. split; reflexivity.
Defined.
