(* ===== verification/Isolation.v ===== *)
(** * Claims and their objects

    A claim owns what its name spells: itself, the namespace named after it, and the managed objects
    in that namespace. This file gives each call of [Reconcile] the object of the API server it reads
    or writes, and checks every run against what its claim owns: two claims of different names never
    meet, two claims of the same name share everything but themselves. *)
From Stdlib Require Import ZArith Lia Ascii String.
From S2P Require Import Prelude GoStrings GoJson Api Kubernetes Instances Meta Storage Workload Monitoring Build.
From S2P Require Import Effects Footprint SloStatus Freeze StorageStatus Controller ControllerCalls ControllerSafety ControllerStatus.
From S2P Require Import Convergence Webhook Manager Rbac.
Local Open Scope Z_scope.
Local Open Scope stdpp_scope.

(** ** Definitions *)

(** What the API server knows an object by. *)
Definition object_id : Type := GroupVersionKind * NamespacedName.

Definition claim_key (claim : ServiceClaim) : NamespacedName := mkNamespacedName (Namespace claim) (Name claim).

(** The object a call reads or writes. A query, the clock and an Event, which is a new object of the
    claim's namespace, are none. *)
Definition touch `{Unstructured, ApiKinds} (X : Type) (c : call X) : option object_id :=
  match c with
  | GetClaim key => Some (claim_gvk, key)
  | GetNamespaceObject name => Some (scheme_gvk KNamespace, mkNamespacedName "" name)
  | GetRollout _ key => Some (scheme_gvk KRollout, key)
  | GetUnstructured _ gvk key => Some (gvk, key)
  | Apply u | ApplyStatus u => Some (apply_id u)
  | DeleteNamespace ns => Some (scheme_gvk KNamespace, mkNamespacedName "" (ns_Name ns))
  | Eventf _ _ _ _ _ | Query _ | Now => None
  end.
Definition touched `{Unstructured, ApiKinds} (e : event) : option object_id := match e with @Ev X c _ => touch X c end.

(** The API server answers a read with the object that was asked for. *)
Definition as_asked (e : event) : bool :=
  match e with
  | @Ev X c answer =>
      match c in call X' return X' -> bool with
      | GetClaim key => fun a => match a with Ok claim => bool_decide (claim_key claim = key) | Err _ => true end
      | GetNamespaceObject name => fun a => match a with Ok ns => String.eqb (ns_Name ns) name | Err _ => true end
      | _ => fun _ => true
      end answer
  end.

(** What a claim of this key owns. *)
Definition owns `{ApiKinds} (key : NamespacedName) (id : object_id) : Prop :=
  id = (claim_gvk, key) \/
  id = (scheme_gvk KNamespace, mkNamespacedName "" (namespacePrefix +:+ nn_Name key)) \/
  (id.1 ∈ managed_gvks /\ nn_Namespace id.2 = namespacePrefix +:+ nn_Name key).

#[export] Instance owns_dec `{ApiKinds} key id : Decision (owns key id).
Proof. unfold owns. apply _. Defined.

Definition within `{Unstructured, ApiKinds} (key : NamespacedName) (e : event) : bool :=
  match touched e with Some id => bool_decide (owns key id) | None => true end.

(** An object keeps its key on its way to the API server: the converter writes the metadata it was
    given, the fields removed are not part of the key, and the body of a write to a claim is read
    back as that claim's. *)
Class KeyLaws `{Unstructured, ObjectConverter} : Prop := {
  ToUnstructured_key obj u : ToUnstructured obj = Ok u -> key_of u = ObjectKeyFromObject obj;
  RemoveNestedField_key u path :
    path ∈ [["metadata"; "creationTimestamp"]; ["spec"; "template"; "metadata"; "creationTimestamp"]; ["status"]] ->
    key_of (RemoveNestedField u path) = key_of u;
  claim_body_key claim extra rest :
    extra = [] \/ extra = [("finalizers", JArray [JString Finalizer])] ->
    rest = [] \/ (exists status, rest = [("status", status)]) ->
    key_of (claim_body claim extra rest) = claim_key claim
}.

(** ** Lemmas *)

Section isolation.
Context `{UnicodePrint, UnstructuredLaws, StatusConditions, ApiErrors, FinalizerUtil, ObjectConverter, AckConverter}.
Context `{!ApiKinds, !ApiKindsLaws, !TypedConverterLaws, !KeyLaws}.

Lemma scheme_managed k : In k ManagedTypes -> scheme_gvk k ∈ managed_gvks.
Proof.
  intros Hk. assert (k <> KUnstructured) as Hu by (intros ->; cbn in Hk; intuition discriminate).
  rewrite (kind_scheme k Hu). unfold managed_gvks. apply elem_of_app. left.
  by apply (list_elem_of_fmap_2 (fun k => (kind_plural k).1)), list_elem_of_In.
Qed.

Lemma ack_managed kind : In kind StorageTypes -> GVK kind ∈ managed_gvks.
Proof.
  intros Hk. unfold managed_gvks. apply elem_of_app. right. rewrite !elem_of_cons.
  destruct Hk as [<-|[<-|[]]]; rewrite GVK_new; auto.
Qed.

(** Nothing is owned under two names. *)
Lemma owns_disjoint key key' id : nn_Name key <> nn_Name key' -> owns key id -> owns key' id -> False.
Proof.
  assert (claim_gvk ∉ managed_gvks) as Hc by by apply (bool_decide_unpack _).
  assert (scheme_gvk KNamespace <> claim_gvk) as Hns by (rewrite kind_scheme by done; vm_compute; discriminate).
  intros Hne [->|[->|[Hm Hn]]] [E|[E|[Hm' Hn']]]; cbn [fst snd nn_Namespace] in *; try congruence.
  - by injection E.
  - discriminate.
  - by subst id.
  - by subst id.
  - rewrite Hn in Hn'. by apply append_inj_l in Hn'.
Qed.

Lemma claim_body_id claim extra rest :
  extra = [] \/ extra = [("finalizers", JArray [JString Finalizer])] -> rest = [] \/ (exists status, rest = [("status", status)]) ->
  apply_id (claim_body claim extra rest) = (claim_gvk, claim_key claim).
Proof. intros He Hr. unfold apply_id. by rewrite claim_body_writable, claim_body_key. Qed.

Lemma applied_object_id obj u : toApplyObject obj = Ok u -> apply_id u = (object_gvk obj, ObjectKeyFromObject obj).
Proof.
  intros Hu. unfold apply_id. rewrite (toApplyObject_gvk obj u Hu). f_equal. revert Hu.
  unfold toApplyObject. destruct (ToUnstructured obj) as [v|e] eqn:E; [|done]. intros [= <-].
  rewrite !RemoveNestedField_key by (rewrite !elem_of_cons; auto). by apply ToUnstructured_key.
Qed.

(** The keys of a set: the namespace is cluster-wide, everything else lies in it. *)
Lemma Build_key sc storage objects obj : Build sc storage = Ok objects -> In obj objects ->
  if decide (kind_of obj = KNamespace) then ObjectKeyFromObject obj = mkNamespacedName "" (NamespaceName sc)
  else nn_Namespace (ObjectKeyFromObject obj) = NamespaceName sc.
Proof.
  intros HB Hin. pose proof (Build_labels sc storage objects HB) as Hl. rewrite List.Forall_forall in Hl.
  apply Hl in Hin as Hobj. destruct (decide (kind_of obj = KNamespace)) as [Hk|Hk]; [|by destruct Hobj as [_ [?|?]]].
  apply Build_inv in HB as (rule & dashboard & runbook & Hr & Hd & Hb & ->).
  pose proof (object_set_meta sc storage rule dashboard runbook Hr Hd Hb) as Hm. rewrite List.Forall_forall in Hm.
  unfold ObjectKeyFromObject. rewrite (Hm obj Hin). unfold expected_meta. by rewrite Hk.
Qed.

Lemma Build_owned sc storage objects obj u :
  Build sc storage = Ok objects -> In obj objects -> toApplyObject obj = Ok u -> owns (claim_key sc) (apply_id u).
Proof.
  intros HB Hin Hu. pose proof (Build_key _ _ _ _ HB Hin) as Hk. pose proof (body_gvk _ _ _ _ _ HB Hin Hu) as Hg.
  rewrite (applied_object_id obj u Hu). unfold owns. cbn [fst snd nn_Name claim_key].
  rewrite (toApplyObject_gvk obj u Hu) in Hg. destruct (decide (kind_of obj = KNamespace)) as [Hns|Hns]; [|auto].
  right. left. f_equal; [|exact Hk]. pose proof (Build_types sc storage objects HB) as Ht. rewrite List.Forall_forall in Ht.
  specialize (Ht obj Hin). rewrite kind_scheme, <- (kind_type_gvk KNamespace) by done. rewrite <- Hns, <- Ht by (by rewrite Hns).
  by destruct obj.
Qed.

(** *** Every run stays within what its claim owns *)

Lemma live_within storage claim : live_calls (within (claim_key claim)) storage claim.
Proof.
  split; [split; try done| |].
  - intros reader kind x Hkind. apply bool_decide_eq_true. right. right. split; [by apply ack_managed|done].
  - intros reader x. apply bool_decide_eq_true. right. right. split; [by apply scheme_managed; cbn; tauto|done].
  - intros managed report storage' js now x. apply bool_decide_eq_true. left. unfold status_body.
    apply claim_body_id; eauto.
  - by intros c x.
  - intros objects obj u HB Hin Hu. split; intros x; apply bool_decide_eq_true; by eapply Build_owned.
Qed.

Lemma Reconcile_within r req tr out :
  runs (Reconcile r req) tr out -> forallb as_asked tr = true -> forallb (within req) tr = true.
Proof.
  intros (answer & rest & -> & Hcases)%Reconcile_runs [Hask Hasked]%andb_true_iff.
  apply andb_true_iff. split; [apply bool_decide_eq_true; by left|].
  assert (forall claim extra x, claim_key claim = req -> extra = [] \/ extra = [("finalizers", JArray [JString Finalizer])] ->
    within req (Ev (Apply (claim_body claim extra [])) x) = true) as Hbody.
  { intros claim extra x <- He. apply bool_decide_eq_true. left. apply claim_body_id; auto. }
  destruct Hcases as [(err & -> & ->)|[(claim & -> & Hd & Hfin)|(claim & -> & Hd & Hcases)]]; [done| |];
    cbn in Hask; apply bool_decide_eq_true in Hask as Hkey.
  - assert (forall name x, name = NamespaceName claim -> within req (Ev (GetNamespaceObject name) x) = true) as Hget.
    { intros name x ->. apply bool_decide_eq_true. right. left. by rewrite <- Hkey. }
    apply finalize_runs in Hfin as [[-> _]|(Hf & ans & [(-> & _)|[(resp & -> & _)|(ns & -> & Hb & [[-> _]|(a & -> & Hts)])]])];
      [done| | | |]; cbn [forallb] in *; rewrite Hget by done; [done|by rewrite Hbody by auto|done|].
    apply andb_true_iff in Hasked as [Hns _]. cbn in Hns. apply String.eqb_eq in Hns. cbn [andb]. rewrite andb_true_r.
    apply bool_decide_eq_true. right. left. by rewrite Hns, <- Hkey.
  - destruct Hcases as [[_ Hl]|(_ & resp & rest' & -> & Hl)].
    + subst req. by eapply reconcile_live_every; [apply live_within|exact Hl].
    + cbn [forallb]. rewrite Hbody by auto. destruct resp; [|by destruct Hl as [-> _]].
      subst req. by eapply reconcile_live_every; [apply live_within|exact Hl].
Qed.

Lemma Reconcile_confined r req : confined touch as_asked (owns req) (Reconcile r req).
Proof.
  intros tr out Hr Ha. pose proof (Reconcile_within _ _ _ _ Hr Ha) as Hw. rewrite forallb_forall in Hw.
  apply List.Forall_forall. intros [X c x] Hin. specialize (Hw _ Hin). unfold within, touched in Hw. cbn [inside].
  destruct (touch X c); [by apply bool_decide_eq_true in Hw|done].
Qed.
End isolation.

(** ** Properties *)

(** C11: A claim's name is its boundary. The sets built for two claims have an object in common exactly
    when the claims have the same name; so claims of different names never meet: in no run of
    [Reconcile] of one, whatever the cluster answers and whatever fails, is an object read, applied
    or deleted that a run of the other reads, applies or deletes. On a server where a call is about
    one object, and the clock and Prometheus answer the same throughout, running both call by call
    in whatever schedule gives each the calls, the answers and the outcome it has when they run one
    after the other, and the same final state. Claims of the same name in different namespaces do
    meet, and each labels the objects they share as its own. *)
Theorem claims_isolated_by_name
    `{UnicodePrint, UnstructuredLaws, StatusConditions, ApiErrors, FinalizerUtil, ObjectConverter, AckConverter,
      !ApiKinds, !ApiKindsLaws, !TypedConverterLaws, !KeyLaws} :
  (forall sc sc' storage storage' objects objects',
     Build sc storage = Ok objects -> Build sc' storage' = Ok objects' ->
     ((exists obj obj', In obj objects /\ In obj' objects' /\ identity obj = identity obj') <-> Name sc = Name sc') /\
     (Namespace sc <> Namespace sc' -> forall obj obj', In obj objects -> In obj' objects' ->
        meta_Labels (object_meta obj) !! LabelClaimNamespace <> meta_Labels (object_meta obj') !! LabelClaimNamespace)) /\
  (forall r r' req req' tr tr' out out',
     runs (Reconcile r req) tr out -> runs (Reconcile r' req') tr' out' ->
     forallb as_asked tr = true -> forallb as_asked tr' = true -> nn_Name req <> nn_Name req' ->
     forall e e' id, In e tr -> In e' tr' -> touched e = Some id -> touched e' <> Some id) /\
  (forall O (server : local_server O) r r' req req' schedule s,
     honest touch as_asked server -> nn_Name req <> nn_Name req' ->
     interleave (local_env touch server) schedule (Reconcile r req) (Reconcile r' req') s =
     interleave (local_env touch server) [] (Reconcile r req) (Reconcile r' req') s).
Proof.
  split; [|split].
  - intros sc sc' storage storage' objects objects' HB HB'. split; [split|].
    + intros (obj & obj' & Hin & Hin' & E). pose proof (f_equal (fun i => i.1.1) E) as Hkind. pose proof (f_equal snd E) as Hkey.
      cbn [identity fst snd] in Hkind, Hkey. pose proof (Build_key _ _ _ _ HB Hin) as Hk.
      pose proof (Build_key _ _ _ _ HB' Hin') as Hk'. rewrite <- Hkind, <- Hkey in Hk'. apply NamespaceName_inj.
      destruct (decide (kind_of obj = KNamespace)); [rewrite Hk in Hk'; exact (f_equal nn_Name Hk')|congruence].
    + intros Hname. exists (ONamespace (BuildNamespace sc)), (ONamespace (BuildNamespace sc')).
      apply Build_inv in HB as (? & ? & ? & _ & _ & _ & ->), HB' as (? & ? & ? & _ & _ & _ & ->).
      split; [by left|]. split; [by left|]. unfold identity, ObjectKeyFromObject, NamespaceName. cbn. by rewrite Hname.
    + intros Hns obj obj' Hin Hin'. pose proof (Build_labels _ _ _ HB) as Hl. pose proof (Build_labels _ _ _ HB') as Hl'.
      rewrite List.Forall_forall in Hl, Hl'. apply Hl in Hin as [Hin _]. apply Hl' in Hin' as [Hin' _].
      rewrite (lookup_weaken _ _ _ _ (Labels_claim_namespace sc) Hin), (lookup_weaken _ _ _ _ (Labels_claim_namespace sc') Hin').
      congruence.
  - intros r r' req req' tr tr' out out' Hr Hr' Ha Ha' Hne e e' id Hin Hin' He He'.
    pose proof (Reconcile_within _ _ _ _ Hr Ha) as Hw. pose proof (Reconcile_within _ _ _ _ Hr' Ha') as Hw'.
    rewrite forallb_forall in Hw, Hw'. specialize (Hw e Hin). specialize (Hw' e' Hin'). unfold within in Hw, Hw'.
    rewrite He in Hw. rewrite He' in Hw'. apply bool_decide_eq_true in Hw, Hw'. by eapply owns_disjoint.
  - intros O server r r' req req' schedule s Hhonest Hne.
    apply (interleave_sequential touch as_asked server Hhonest (owns req) (owns req')); [|apply Reconcile_confined..].
    intros id. by apply owns_disjoint.
Qed.

(** *** Two claims, each reconciled *)
#[local] Existing Instance documented_names.
#[local] Existing Instance documented_names_laws.
#[local] Existing Instance typed_converter.
#[local] Existing Instance typed_converter_laws.
#[local] Existing Instance no_conditions.
#[local] Existing Instance plain_print.

#[local] Instance typed_converter_keys : KeyLaws.
Proof.
  split.
  - intros obj u [= <-]. unfold key_of. destruct obj; try done;
      by rewrite !GetNamespace_SetLabels, !GetNamespace_SetNamespace, !GetName_SetLabels, !GetName_SetNamespace, !GetName_SetName.
  - intros u path Hpath. destruct (removed_identity u path Hpath) as (_ & En & Ens). unfold key_of. by rewrite En, Ens.
  - intros claim extra rest [->| ->] [->|[status ->]]; reflexivity.
Qed.

Definition checkout_claim : ServiceClaim :=
  let c := sample_claim in
  mkServiceClaim "checkout" (Namespace c) (claim_Labels c) (Annotations c) (Generation c) None [Finalizer] (Spec c) (Status c).

(** A cluster that has this claim and its namespace. *)
Definition cluster_of (claim : ServiceClaim) : env unit := fun X c s =>
  match c in call X' return X' * unit with
  | GetClaim _ => (Ok claim, s)
  | GetNamespaceObject name => (Ok (mkLiveNamespace name (Labels claim) None), s)
  | c => quiet_cluster _ c s
  end.
Definition trace_of (claim : ServiceClaim) : list event :=
  (exec (cluster_of claim) (Reconcile all_parts (claim_key claim)) tt).1.1.

(** A server that keeps what is applied; every claim asked for is like the sample one. *)
Definition claim_at (key : NamespacedName) : ServiceClaim :=
  let c := sample_claim in
  mkServiceClaim (nn_Name key) (nn_Namespace key) (claim_Labels c) (Annotations c) (Generation c) None [Finalizer] (Spec c) (Status c).

Definition keeping_server : local_server json := {|
  at_key := fun X c o =>
    match c in call X' return X' * option json with
    | GetClaim key => (Ok (claim_at key), o)
    | GetNamespaceObject name => (Ok (mkLiveNamespace name ∅ None), o)
    | GetRollout _ _ => (Err not_found, o)
    | GetUnstructured _ _ _ => (match o with Some u => Ok u | None => Err not_found end, o)
    | Apply u => (Ok u, Some u)
    | ApplyStatus u => (None, Some u)
    | DeleteNamespace _ => (None, None)
    | Query _ => (Err (SentinelError "no data"), o)
    | Eventf _ _ _ _ _ => (tt, o)
    | Now => (0, o)
    end;
  elsewhere := fun X c => (quiet_cluster X c tt).1
|}.

Lemma keeping_server_honest : honest touch as_asked keeping_server.
Proof.
  intros X c s. unfold local_env. destruct c; try done; cbn; [|by rewrite String.eqb_refl].
  apply bool_decide_eq_true. by destruct key.
Qed.

(** The two reconciles call in turns: each applies its fifteen objects, as if alone. *)
Definition taking_turns : list bool := concat (repeat [true; false] 40).
Definition together (schedule : list bool) :=
  interleave (local_env touch keeping_server) schedule
    (Reconcile all_parts (claim_key sample_claim)) (Reconcile all_parts (claim_key checkout_claim)) ∅.

Lemma claims_isolated_by_name_witness :
  length (omap touched (trace_of sample_claim)) = 36%nat /\
  (forall e e' id, In e (trace_of sample_claim) -> In e' (trace_of checkout_claim) -> touched e = Some id -> touched e' <> Some id) /\
  together taking_turns = together [] /\ length (omap applied (together []).1.2.1) = 15%nat.
Proof.
  split; [vm_compute; reflexivity|]. split; [|split; [|vm_compute; reflexivity]].
  - pose proof (exec_runs (cluster_of sample_claim) (Reconcile all_parts (claim_key sample_claim)) tt) as Hr.
    pose proof (exec_runs (cluster_of checkout_claim) (Reconcile all_parts (claim_key checkout_claim)) tt) as Hr'.
    assert (forallb as_asked (trace_of sample_claim) = true) as Ha by (vm_compute; reflexivity).
    assert (forallb as_asked (trace_of checkout_claim) = true) as Ha' by (vm_compute; reflexivity).
    unfold trace_of in *.
    destruct (exec (cluster_of sample_claim) _ tt) as [[tr out] s], (exec (cluster_of checkout_claim) _ tt) as [[tr' out'] s'].
    exact (proj1 (proj2 claims_isolated_by_name) _ _ (claim_key sample_claim) (claim_key checkout_claim) _ _ _ _ Hr Hr' Ha Ha' ltac:(discriminate)).
  - exact (proj2 (proj2 claims_isolated_by_name) json keeping_server all_parts all_parts (claim_key sample_claim)
      (claim_key checkout_claim) taking_turns ∅ keeping_server_honest ltac:(discriminate)).
Defined.
