(* ===== verification/Gate.v ===== *)
(** * The deploy gate as a whole

    The freeze is decided by one process, stored in the claim's status, and enforced by another, while
    users update, delete and recreate the claim. This file runs them together: the API server with
    the webhook's registration, the reconciler one call at a time and from a cache that may be behind,
    and users in between; and relates them to the gate they are meant to be. *)
From Stdlib Require Import ZArith Lia Ascii String.
From S2P Require Import Prelude GoFloat GoStrings GoJson Api Kubernetes Instances Meta Storage Workload Build.
From S2P Require Import Effects SloStatus Freeze StorageStatus Controller ControllerCalls ControllerSafety ControllerStatus.
From S2P Require Import Convergence Webhook Manager Rbac.
Local Open Scope Z_scope.
Local Open Scope stdpp_scope.

(** ** Definitions *)

(** *** The webhook's registration ([internal/webhook/v1alpha1/serviceclaim_webhook.go]) *)

(** The [+kubebuilder:webhook] marker: which requests the API server sends to the webhook, and what
    becomes of them when it cannot answer. *)
Record WebhookMarker := mkWebhookMarker {
  marker_groups : list string;
  marker_resources : list string;
  marker_verbs : list string;
  failurePolicy : string
}.
Definition serviceclaim_webhook : WebhookMarker :=
  mkWebhookMarker ["platform.paved.dev"] ["serviceclaims"] ["create"; "update"] "fail".

(** A resource named without a subresource does not match its subresources. *)
Definition intercepts (hook : WebhookMarker) (res : resource) (verb : string) : bool :=
  existsb (String.eqb res.1) (marker_groups hook) && existsb (String.eqb res.2) (marker_resources hook) &&
  existsb (String.eqb verb) (marker_verbs hook).

Record ServiceClaimValidator := mkServiceClaimValidator { v_Recorder : bool }.

(** The manager's event recorder is there. *)
Definition SetupServiceClaimWebhookWithManager : ServiceClaimValidator := {| v_Recorder := true |}.

(** A write to a claim. *)
Inductive claim_write :=
  | WriteCreate (claim : ServiceClaim)
  | WriteUpdate (oldClaim newClaim : ServiceClaim)
  | WriteDelete (claim : ServiceClaim).
Definition write_verb (w : claim_write) : string :=
  match w with WriteCreate _ => "create" | WriteUpdate _ _ => "update" | WriteDelete _ => "delete" end.

(** [resource.GroupResource] of the claim and of its status. *)
Definition claims : resource := ("platform.paved.dev", "serviceclaims").
Definition claim_statuses : resource := ("platform.paved.dev", "serviceclaims/status").

Section gate.
Context `{UnicodePrint, Unstructured, StatusConditions, ApiErrors, FinalizerUtil, ObjectConverter, AckConverter}.

(** The typed validator by the operation of the request. *)
Definition validate (v : ServiceClaimValidator) (request : result AdmissionRequest) (w : claim_write) : prog verdict :=
  match w with
  | WriteCreate claim => ValidateCreate claim
  | WriteUpdate oldClaim newClaim => ValidateUpdate (v_Recorder v) request oldClaim newClaim
  | WriteDelete claim => ValidateDelete claim
  end.

(** What the API server does with a write: [admission request res w tr ok] says it may be admitted
    or not, after the webhook made the calls [tr]. *)
Inductive admission (request : result AdmissionRequest) (res : resource) (w : claim_write) : list event -> bool -> Prop :=
  | not_intercepted : intercepts serviceclaim_webhook res (write_verb w) = false -> admission request res w [] true
  | webhook_answers tr v :
      intercepts serviceclaim_webhook res (write_verb w) = true ->
      runs (validate SetupServiceClaimWebhookWithManager request w) tr v ->
      admission request res w tr (admits_update v)
  | webhook_unreachable :
      intercepts serviceclaim_webhook res (write_verb w) = true ->
      admission request res w [] (negb (String.eqb (failurePolicy serviceclaim_webhook) "fail")).

(** *** The store *)

(** A change of a stored claim's image: who made it, and the claim before and after. *)
Record deploy := mkDeploy { d_user : string; d_old : ServiceClaim; d_new : ServiceClaim }.

(** One claim's place in the API server: what is stored there, the versions a cache may still show,
    the notes of the BreakGlassUsed Events, and the image changes so far. *)
Record store := mkStore {
  st_claim : option ServiceClaim;
  st_past : list ServiceClaim;
  st_audit : list string;
  st_deploys : list deploy
}.

Definition audit_note (e : event) : option string :=
  match e with
  | Ev (Eventf _ _ reason _ note) _ => if String.eqb reason ReasonBreakGlassUsed then Some note else None
  | _ => None
  end.

Definition put_claim (claim : ServiceClaim) (s : store) : store :=
  mkStore (Some claim) (st_past s ++ [claim]) (st_audit s) (st_deploys s).
Definition remove_claim (s : store) : store := mkStore None (st_past s) (st_audit s) (st_deploys s).
Definition record_events (tr : list event) (s : store) : store :=
  mkStore (st_claim s) (st_past s) (st_audit s ++ omap audit_note tr) (st_deploys s).
Definition deploying (user : string) (oldClaim newClaim : ServiceClaim) (s : store) : store :=
  if changes_image oldClaim newClaim
  then mkStore (st_claim s) (st_past s) (st_audit s) (st_deploys s ++ [mkDeploy user oldClaim newClaim])
  else s.

Definition mark_deleted (claim : ServiceClaim) (now : Z) : ServiceClaim :=
  mkServiceClaim (Name claim) (Namespace claim) (claim_Labels claim) (Annotations claim) (Generation claim) (Some now)
    (Finalizers claim) (Spec claim) (Status claim).

(** Server-side apply to the claim and to its status. *)
Class ClaimServer := {
  claim_applied : json -> ServiceClaim -> ServiceClaim -> Prop;
  claim_status_applied : json -> ServiceClaim -> ServiceClaim -> Prop
}.
Context `{!ClaimServer}.

Definition username (request : result AdmissionRequest) : string :=
  match request with Ok req => Username req | Err _ => "" end.
Definition is_dry_run (request : result AdmissionRequest) : bool :=
  match request with Ok req => dry_run req | Err _ => false end.

(** *** The answers to the reconciler's calls *)

Definition answers {X} (c : call X) : X -> store -> store -> Prop :=
  match c in call X' return X' -> store -> store -> Prop with
  | GetClaim _ => fun x s s' => s' = s /\ match x with Ok claim => In claim (st_past s) | Err _ => True end
  | Apply u => fun x s s' =>
      if bool_decide (GVK u = claim_gvk) then
        (s' = s /\ is_ok x = false) \/
        exists request tr ok oldClaim newClaim, st_claim s = Some oldClaim /\ claim_applied u oldClaim newClaim /\
          admission request claims (WriteUpdate oldClaim newClaim) tr ok /\ (is_ok x = true -> ok = true) /\
          s' = if is_ok x then put_claim newClaim (record_events tr s) else record_events tr s
      else s' = s
  | ApplyStatus u => fun x s s' =>
      match x with
      | None => exists request tr oldClaim newClaim, st_claim s = Some oldClaim /\ claim_status_applied u oldClaim newClaim /\
          admission request claim_statuses (WriteUpdate oldClaim newClaim) tr true /\
          s' = put_claim newClaim (record_events tr s)
      | Some _ => s' = s
      end
  | Eventf claim etype reason action note => fun x s s' => s' = record_events [Ev (Eventf claim etype reason action note) x] s
  | _ => fun _ s s' => s' = s
  end.

(** *** Everyone together *)

(** The workqueue runs one reconcile of a claim at a time: the calls it has made and the rest of it. *)
Record world := mkWorld { w_store : store; w_running : option (list event * prog outcome) }.

Context (r : Reconciler) (req : NamespacedName).

Inductive step : world -> world -> Prop :=
  | user_creates request claim tr s p :
      st_claim s = None -> DeletionTimestamp claim = None -> Status claim = empty_status ->
      admission request claims (WriteCreate claim) tr true ->
      step (mkWorld s p) (mkWorld (put_claim claim (record_events tr s)) p)
  | user_updates request oldClaim newClaim tr ok s p :
      st_claim s = Some oldClaim -> Status newClaim = Status oldClaim ->
      admission request claims (WriteUpdate oldClaim newClaim) tr ok ->
      step (mkWorld s p) (mkWorld (record_events tr s) p)
  | user_update_lands request oldClaim newClaim tr s p :
      st_claim s = Some oldClaim -> Status newClaim = Status oldClaim -> is_dry_run request = false ->
      admission request claims (WriteUpdate oldClaim newClaim) tr true ->
      step (mkWorld s p) (mkWorld (deploying (username request) oldClaim newClaim (put_claim newClaim (record_events tr s))) p)
  | user_deletes request claim now tr s p :
      st_claim s = Some claim -> admission request claims (WriteDelete claim) tr true -> Finalizers claim <> [] ->
      step (mkWorld s p) (mkWorld (put_claim (mark_deleted claim now) (record_events tr s)) p)
  | user_deletes_now request claim tr s p :
      st_claim s = Some claim -> admission request claims (WriteDelete claim) tr true -> Finalizers claim = [] ->
      step (mkWorld s p) (mkWorld (remove_claim (record_events tr s)) p)
  | claim_is_gone claim s p :
      st_claim s = Some claim -> DeletionTimestamp claim <> None -> Finalizers claim = [] ->
      step (mkWorld s p) (mkWorld (remove_claim s) p)
  | reconcile_starts s : step (mkWorld s None) (mkWorld s (Some ([], Reconcile r req)))
  | reconcile_calls X (c : call X) k x s s' tr :
      answers c x s s' ->
      step (mkWorld s (Some (tr, Call c k))) (mkWorld s' (Some (tr ++ [Ev c x], k x)))
  | reconcile_ends s tr out : step (mkWorld s (Some (tr, Ret out))) (mkWorld s None)
  | controller_dies s p : step (mkWorld s p) (mkWorld s None).

Definition initial : world := mkWorld (mkStore None [] [] []) None.
Definition reachable (w : world) : Prop := rtc step initial w.

(** *** The gate they are meant to be

    An image, frozen or not, and the log of the overrides. *)
Record gate := mkGate { g_claim : option (string * bool); g_audit : list string }.

Inductive gate_step : gate -> gate -> Prop :=
  | gate_created image log : gate_step (mkGate None log) (mkGate (Some (image, false)) log)
  | gate_removed image frozen log : gate_step (mkGate (Some (image, frozen)) log) (mkGate None log)
  | gate_deploy image image' log : gate_step (mkGate (Some (image, false)) log) (mkGate (Some (image', false)) log)
  | gate_override image image' note log :
      gate_step (mkGate (Some (image, true)) log) (mkGate (Some (image', true)) (log ++ [note]))
  | gate_verdict image frozen frozen' log :
      gate_step (mkGate (Some (image, frozen)) log) (mkGate (Some (image, frozen')) log).

Definition is_frozen (claim : ServiceClaim) : bool := IsStatusConditionTrue (Conditions (Status claim)) ConditionDeploysFrozen.
Definition gate_of (s : store) : gate :=
  mkGate (match st_claim s with Some claim => Some (Image (Spec claim), is_frozen claim) | None => None end) (st_audit s).

(** The note of an override, and whether a deploy needed one. *)
Definition override_note (d : deploy) : string :=
  truncate (Sprintf [d_user d; " changed the image from "; Image (Spec (d_old d)); " to "; Image (Spec (d_new d));
                     " during a deploy freeze: "; default "" (breakGlassReason (d_old d) (d_new d))]) eventNoteLimit.
Definition during_freeze (d : deploy) : bool := is_frozen (d_old d).
End gate.

(** What an apply does not mention it leaves alone; the claim's status is only written through its
    subresource, which writes nothing else. The conditions are stored as [ApiServer] has it. *)
Class ClaimServerLaws `{ClaimServer, ApiServer} : Prop := {
  claim_applied_spec u oldClaim newClaim : claim_applied u oldClaim newClaim -> member "spec" u = None -> Spec newClaim = Spec oldClaim;
  claim_applied_status u oldClaim newClaim : claim_applied u oldClaim newClaim -> Status newClaim = Status oldClaim;
  claim_status_applied_spec u oldClaim newClaim : claim_status_applied u oldClaim newClaim -> Spec newClaim = Spec oldClaim;
  claim_status_applied_conditions u oldClaim newClaim : claim_status_applied u oldClaim newClaim ->
    Conditions (Status newClaim) = stored_conditions u
}.

(** ** Lemmas *)

(** A program can always go on: some run of it exists. *)
Lemma some_run `{Unstructured} {A} (p : prog A) : exists tr a, runs p tr a.
Proof.
  pose proof (exec_runs quiet_cluster p tt) as Hr. destruct (exec quiet_cluster p tt) as [[tr a] s]. eauto.
Qed.

Lemma unfrozen_update `{StatusConditions} recorder request oldClaim newClaim tr v :
  is_frozen oldClaim && changes_image oldClaim newClaim = false ->
  runs (ValidateUpdate recorder request oldClaim newClaim) tr v -> tr = [] /\ v = Allowed [].
Proof.
  unfold changes_image, ValidateUpdate, is_frozen. intros Hg Hr.
  destruct (IsStatusConditionTrue _ _), (String.eqb _ _); try done; by destruct Hr as [-> ->].
Qed.

(** What the webhook records of an update that a freeze gates. *)
Lemma frozen_update_notes `{StatusConditions} request oldClaim newClaim tr v :
  is_frozen oldClaim && changes_image oldClaim newClaim = true ->
  runs (ValidateUpdate true request oldClaim newClaim) tr v ->
  match breakGlassReason oldClaim newClaim with
  | None => tr = [] /\ admits_update v = false
  | Some _ =>
      if admits_update v && negb (is_dry_run request)
      then omap audit_note tr = [override_note (mkDeploy (username request) oldClaim newClaim)]
      else tr = []
  end.
Proof.
  unfold changes_image, ValidateUpdate, is_frozen. intros [-> Hi%negb_true_iff]%andb_true_iff Hr. rewrite Hi in Hr. cbn [negb orb] in Hr.
  destruct (breakGlassReason oldClaim newClaim) as [reason|] eqn:Hb; [|destruct Hr as [-> ->]; by split].
  destruct request as [req|err]; [|by destruct Hr as [-> ->]]. unfold is_dry_run. cbn [andb] in Hr |- *.
  destruct (dry_run req); cbn [negb] in *; [destruct Hr as [-> ->]; done|].
  destruct Hr as (u & tr' & -> & [-> ->]). unfold override_note. cbn [omap d_old d_new d_user username admits_update andb]. by rewrite Hb.
Qed.

Section gate_proofs.
Context `{UnicodePrint, UnstructuredLaws, StatusConditionsLaws, ApiErrors, FinalizerUtil, ObjectConverter, AckConverter}.
Context `{!ApiKinds, !ApiKindsLaws, !TypedConverterLaws, !ApiServer, !ApiServerLaws, !ClaimServer, !ClaimServerLaws}.
Context (r : Reconciler) (req : NamespacedName).

(** *** The webhook's registration *)

Lemma admission_update request oldClaim newClaim tr ok :
  admission request claims (WriteUpdate oldClaim newClaim) tr ok ->
  if is_frozen oldClaim && changes_image oldClaim newClaim then
    (omap audit_note tr = [] /\ (ok = true -> is_dry_run request = true)) \/
    (omap audit_note tr = [override_note (mkDeploy (username request) oldClaim newClaim)] /\
     is_Some (breakGlassReason oldClaim newClaim))
  else omap audit_note tr = [].
Proof.
  intros Ha. destruct Ha as [Hn|tr v _ Hr|_]; [done| |by destruct (_ && _); [left|]].
  change (validate _ request _) with (ValidateUpdate true request oldClaim newClaim) in Hr.
  destruct (is_frozen oldClaim && changes_image oldClaim newClaim) eqn:Hg.
  - apply (frozen_update_notes request) in Hr; [|done]. destruct (breakGlassReason oldClaim newClaim) as [reason|].
    + destruct (admits_update v); cbn [andb] in Hr; [|by rewrite Hr; left].
      destruct (is_dry_run request); cbn [negb] in Hr; [left; by rewrite Hr|right; eauto].
    + destruct Hr as [-> ->]. by left.
  - by apply unfrozen_update in Hr as [-> _].
Qed.

Lemma admission_create request claim tr ok : admission request claims (WriteCreate claim) tr ok -> omap audit_note tr = [].
Proof. intros Ha. destruct Ha as [Hn|tr v _ [-> _]|_]; done. Qed.

Lemma admission_delete request claim tr ok : admission request claims (WriteDelete claim) tr ok -> omap audit_note tr = [].
Proof. intros Ha. destruct Ha as [Hn|tr v _ [-> _]|_]; done. Qed.

Lemma admission_status request w tr ok : admission request claim_statuses w tr ok -> omap audit_note tr = [].
Proof. intros Ha. destruct Ha as [Hn|tr v Hi _|Hi]; [done|exfalso; revert Hi..]; by destruct w. Qed.

Lemma same_image_admission request oldClaim newClaim tr ok :
  admission request claims (WriteUpdate oldClaim newClaim) tr ok -> Spec newClaim = Spec oldClaim -> omap audit_note tr = [].
Proof.
  intros Ha%admission_update Hs. unfold changes_image in Ha. by rewrite Hs, String.eqb_refl, andb_false_r in Ha.
Qed.

Lemma record_none tr s : omap audit_note tr = [] -> record_events tr s = s.
Proof. intros Hn. unfold record_events. rewrite Hn, app_nil_r. by destruct s. Qed.

(** *** The reconciler never deploys *)

(** It applies to no claim's spec and records no override. *)
Definition spares (e : event) : bool :=
  match e with
  | Ev (Apply u) _ => negb (bool_decide (GVK u = claim_gvk)) || match member "spec" u with None => true | Some _ => false end
  | Ev (Eventf _ _ reason _ _) _ => negb (String.eqb reason ReasonBreakGlassUsed)
  | _ => true
  end.

Lemma managed_not_claim gvk : gvk ∈ managed_gvks -> gvk <> claim_gvk.
Proof. intros Hg ->. by assert (claim_gvk ∉ managed_gvks) as Hn by by apply (bool_decide_unpack _). Qed.

Lemma reconcile_spares : all_calls spares r req.
Proof.
  split; [done| |intros claim [] x; apply orb_true_iff; by right|done|done].
  intros claim. split; [done|done|]. intros objects obj u HB Hobj Hu. split; [done|]. intros x.
  apply orb_true_iff. left. rewrite bool_decide_eq_false_2; [done|]. by eapply managed_not_claim, body_gvk.
Qed.

(** *** What is running is always the rest of a reconcile *)
Definition runs_a_reconcile (w : world) : Prop :=
  match w_running w with
  | None => True
  | Some (done_so_far, rest) => forall tr out, runs rest tr out -> runs (Reconcile r req) (done_so_far ++ tr) out
  end.

Lemma running_invariant w : reachable r req w -> runs_a_reconcile w.
Proof.
  unfold reachable. revert w. apply rtc_ind_r; [done|]. intros w w' _ Hs IH.
  destruct Hs as [| | | | | | |X c k x s s' tr Ha| |]; try exact IH; try done; [by intros tr out|].
  intros tr2 out Hr2. unfold runs_a_reconcile in IH. cbn [w_running] in IH.
  change (runs (Reconcile r req) ((tr ++ [Ev c x]) ++ tr2) out). rewrite <- app_assoc. apply IH. by exists x, tr2.
Qed.

Lemma next_call {X} w (c : call X) k x tr : reachable r req w -> w_running w = Some (tr, Call c k) ->
  exists tr' out, runs (Reconcile r req) (tr ++ Ev c x :: tr') out.
Proof.
  intros Hw%running_invariant Hrun. unfold runs_a_reconcile in Hw. rewrite Hrun in Hw.
  destruct (some_run (k x)) as (tr' & out & Hr). exists tr', out. apply Hw. by exists x, tr'.
Qed.

Lemma next_call_spares {X} w (c : call X) k x tr : reachable r req w -> w_running w = Some (tr, Call c k) ->
  spares (Ev c x) = true.
Proof.
  intros Hw Hrun. destruct (next_call w c k x tr Hw Hrun) as (tr' & out & Hr). eapply every_In; [apply Reconcile_every, reconcile_spares|exact Hr|].
  apply in_app_iff. right. by left.
Qed.

(** The effect of a call on the store: none, a write to the claim that leaves its image alone, or a
    status write. *)
Lemma call_effect {X} w (c : call X) k x tr s' : reachable r req w -> w_running w = Some (tr, Call c k) ->
  answers c x (w_store w) s' ->
  s' = w_store w \/
  exists oldClaim newClaim, st_claim (w_store w) = Some oldClaim /\ s' = put_claim newClaim (w_store w) /\
    Spec newClaim = Spec oldClaim /\
    (Status newClaim = Status oldClaim \/
     exists u answer, Ev c x = Ev (ApplyStatus u) answer /\ claim_status_applied u oldClaim newClaim).
Proof.
  intros Hw Hrun Ha. pose proof (next_call_spares w c k x tr Hw Hrun) as Hsp.
  destruct c; cbn [answers] in Ha; try (left; by destruct Ha); try (left; exact Ha).
  - case_bool_decide as Hg; [|by left]. destruct Ha as [[-> _]|(request & tr1 & ok & o & n & Ho & Hap & Had & _ & ->)]; [by left|].
    assert (Spec n = Spec o) as Hspec.
    { apply (claim_applied_spec u); [done|]. unfold spares in Hsp. rewrite bool_decide_eq_true_2 in Hsp by done.
      cbn [negb orb] in Hsp. by destruct (member "spec" u). }
    rewrite (record_none tr1) by (by eapply same_image_admission). destruct (is_ok x); [right|by left].
    exists o, n. repeat split; [done..|]. left. by eapply claim_applied_status.
  - destruct x as [err|]; [by left|]. right. destruct Ha as (request & tr1 & o & n & Ho & Hap & Had & ->).
    exists o, n. rewrite (record_none tr1) by (by eapply admission_status).
    repeat split; [done|by eapply claim_status_applied_spec|]. right. eauto.
  - left. subst s'. apply record_none. cbn [omap list_omap audit_note]. cbn in Hsp. apply negb_true_iff in Hsp. by rewrite Hsp.
Qed.

(** *** Refinement *)

Lemma gate_update oldClaim newClaim s s' :
  st_claim s = Some oldClaim -> st_claim s' = Some newClaim -> st_audit s' = st_audit s -> Spec newClaim = Spec oldClaim ->
  gate_of s' = gate_of s \/ gate_step (gate_of s) (gate_of s').
Proof.
  intros Ho Hn Ha Hs. right. unfold gate_of. rewrite Ho, Hn, Ha, Hs. constructor.
Qed.

(** An update during a freeze that changes the image: one note at most, and none unless it may land. *)
Lemma gate_admission request oldClaim newClaim tr ok s :
  st_claim s = Some oldClaim -> admission request claims (WriteUpdate oldClaim newClaim) tr ok ->
  record_events tr s = s \/ gate_step (gate_of s) (gate_of (record_events tr s)).
Proof.
  intros Ho Ha%admission_update. destruct (is_frozen oldClaim && changes_image oldClaim newClaim) eqn:Hg; [|left; by apply record_none].
  destruct Ha as [[Hn _]|[Hn _]]; [left; by apply record_none|right].
  apply andb_true_iff in Hg as [Hf _]. unfold gate_of, record_events. cbn [st_claim st_audit]. rewrite Ho, Hn, Hf. constructor.
Qed.

Lemma gate_landing request oldClaim newClaim tr s :
  st_claim s = Some oldClaim -> Status newClaim = Status oldClaim -> is_dry_run request = false ->
  admission request claims (WriteUpdate oldClaim newClaim) tr true ->
  gate_step (gate_of s) (gate_of (deploying (username request) oldClaim newClaim (put_claim newClaim (record_events tr s)))).
Proof.
  intros Ho Hst Hdry Ha%admission_update.
  assert (gate_of (deploying (username request) oldClaim newClaim (put_claim newClaim (record_events tr s))) =
          mkGate (Some (Image (Spec newClaim), is_frozen newClaim)) (st_audit s ++ omap audit_note tr)) as ->
    by (unfold deploying; by destruct (changes_image oldClaim newClaim)).
  unfold gate_of. rewrite Ho. assert (is_frozen newClaim = is_frozen oldClaim) as -> by (unfold is_frozen; by rewrite Hst).
  destruct (is_frozen oldClaim); cbn [andb] in Ha; [|rewrite Ha, app_nil_r; constructor].
  unfold changes_image in Ha. destruct (String.eqb_spec (Image (Spec oldClaim)) (Image (Spec newClaim))) as [<-|Hi]; cbn [negb] in Ha.
  - rewrite Ha, app_nil_r. constructor.
  - destruct Ha as [[_ Hd]|[-> _]]; [by rewrite Hd in Hdry|constructor].
Qed.

Lemma step_refines w w' : reachable r req w -> step r req w w' ->
  gate_of (w_store w') = gate_of (w_store w) \/ gate_step (gate_of (w_store w)) (gate_of (w_store w')).
Proof.
  intros Hw Hs. destruct Hs as [request claim tr s p Hn Hd Hst Ha|request o n tr ok s p Ho Hst Ha|request o n tr s p Ho Hst Hdry Ha
    |request claim now tr s p Ho Ha _|request claim tr s p Ho Ha _|claim s p Ho _ _|s|X c k x s s' tr Ha|s tr out|s p]; cbn [w_store]; try by left.
  - right. rewrite (record_none tr) by (by eapply admission_create). unfold gate_of, is_frozen. rewrite Hn.
    cbn [put_claim st_claim st_audit]. rewrite Hst, IsStatusConditionTrue_spec. cbn [Conditions empty_status]. rewrite find_nil. constructor.
  - pose proof (gate_admission request o n tr ok s Ho Ha) as [->|Hg]; [by left|by right].
  - right. by apply (gate_landing request o n tr s).
  - rewrite (record_none tr) by (by eapply admission_delete). by apply (gate_update claim (mark_deleted claim now)).
  - rewrite (record_none tr) by (by eapply admission_delete). right. unfold gate_of. rewrite Ho. constructor.
  - right. unfold gate_of. rewrite Ho. constructor.
  - destruct (call_effect _ c k x tr s' Hw eq_refl Ha) as [->|(o & n & Ho & -> & Hs & _)]; [by left|].
    by apply (gate_update o n).
Qed.

(** *** The audit log is complete *)
Definition audited (s : store) : Prop :=
  sublist (map override_note (List.filter during_freeze (st_deploys s))) (st_audit s) /\
  Forall (fun d => during_freeze d = true -> is_Some (breakGlassReason (d_old d) (d_new d))) (st_deploys s).

Lemma audited_record tr s : audited s -> audited (record_events tr s).
Proof. intros [Hsub Hall]. split; [|exact Hall]. by apply sublist_inserts_r. Qed.

Lemma audited_landing request oldClaim newClaim tr s :
  is_dry_run request = false -> admission request claims (WriteUpdate oldClaim newClaim) tr true -> audited s ->
  audited (deploying (username request) oldClaim newClaim (put_claim newClaim (record_events tr s))).
Proof.
  intros Hdry Ha%admission_update [Hsub Hall]. unfold deploying.
  destruct (changes_image oldClaim newClaim); [|by apply (audited_record tr s)]. split; cbn [st_audit st_deploys put_claim record_events].
  - rewrite List.filter_app, map_app. cbn [List.filter]. unfold during_freeze at 2. cbn [d_old].
    destruct (is_frozen oldClaim); cbn [andb] in Ha; [|rewrite app_nil_r; by apply sublist_inserts_r].
    destruct Ha as [[_ Hd]|[-> _]]; [by rewrite Hd in Hdry|]. by apply sublist_app.
  - apply Forall_app. split; [exact Hall|]. rewrite Forall_singleton. unfold during_freeze. cbn [d_old d_new]. intros Hf.
    rewrite Hf in Ha. cbn [andb] in Ha. destruct Ha as [[_ Hd]|[_ Hb]]; [by rewrite Hd in Hdry|done].
Qed.

Lemma step_audited w w' : reachable r req w -> step r req w w' -> audited (w_store w) -> audited (w_store w').
Proof.
  intros Hw Hs. destruct Hs as [request claim tr s p|request o n tr ok s p|request o n tr s p Ho Hst Hdry Ha
    |request claim now tr s p|request claim tr s p|claim s p|s|X c k x s s' tr Ha|s tr out|s p]; cbn [w_store]; try done;
    intros Hau; try exact (audited_record tr s Hau).
  - by apply audited_landing.
  - by destruct (call_effect _ c k x tr s' Hw eq_refl Ha) as [->|(o & n & _ & -> & _)].
Qed.

Lemma reachable_audited w : reachable r req w -> audited (w_store w).
Proof.
  enough (forall w, reachable r req w -> reachable r req w /\ audited (w_store w)) as He by (intros Hr; by apply He).
  unfold reachable at 1. apply rtc_ind_r; [by split; [apply rtc_refl|split; constructor]|].
  intros w1 w2 Hw Hs [_ IH]. split; [by eapply rtc_r|by eapply step_audited].
Qed.

(** *** What moves the freeze *)

Lemma is_frozen_was claim : is_frozen claim = was_frozen claim.
Proof. unfold is_frozen, was_frozen. apply IsStatusConditionTrue_spec. Qed.

(** The calls before a status write, when none of [p] is one. *)
Lemma before_status tr e u tr' p q :
  tr ++ e :: tr' = p ++ q -> status_applied e = Some u -> (forall e' u', In e' p -> status_applied e' = Some u' -> False) ->
  exists m, tr = p ++ m /\ q = m ++ e :: tr'.
Proof.
  intros [(k & -> & ->)|(k & -> & Hk)]%app_eq_inv Hu Hp; [by exists k|].
  destruct k as [|e' k]; [exists []; rewrite !app_nil_r; by cbn in Hk|]. injection Hk as -> ->.
  destruct (Hp e' u); [|done]. apply in_app_iff. right. by left.
Qed.

(** A status write of a live reconcile is of one claim, read first, and of one measurement. *)
Lemma live_status_write claim tr e u tr' out :
  runs (reconcile_live r claim) (tr ++ e :: tr') out -> status_applied e = Some u ->
  exists conds managed report storage js now m,
    Forall2 (fun c j => ConditionToUnstructured c = Ok j) conds js /\ u = status_body claim managed report storage js now /\
    freeze_step (was_frozen claim) m (IsStatusConditionTrue conds ConditionDeploysFrozen) /\
    forall left, m = Some left -> exists pre slo post, tr = pre ++ slo ++ post /\ runs (evaluateSLO (r_Prometheus r) claim) slo report /\
      measurement report = Some left.
Proof.
  intros Hr Hu. assert (In e (tr ++ e :: tr')) as Hin by (apply in_app_iff; right; by left).
  destruct (Build claim (r_Storage r)) as [objects|err] eqn:HB.
  - apply (reconcile_live_writes _ _ _ _ _ HB) in Hr as (pre & slo & post & report & storage & rollout & rolloutErr & conds &
      applyErr & Htr & Hslo & Hno & _ & _ & _ & Hsays & Hw).
    destruct (Hw e u Hin Hu) as (js & now & Hjs & ->). rewrite !Forall_cons in Hsays. destruct Hsays as (_ & _ & Hfrz & _).
    pose proof (says_true _ _ Hfrz) as Ef. rewrite freezeCondition_type in Ef.
    exists conds. do 5 eexists. exists (measurement report). split; [exact Hjs|]. split; [reflexivity|].
    split; [rewrite Ef; apply freezeCondition_step|]. intros left Hleft.
    rewrite app_assoc in Htr. destruct (before_status _ _ _ _ _ _ Htr Hu Hno) as (m & -> & _).
    exists pre, slo, m. by rewrite <- app_assoc.
  - unfold reconcile_live in Hr. rewrite HB in Hr. unfold reconcile_invalid in Hr.
    apply runs_bind in Hr as (t1 & t2 & failed & Ht & Hst & [-> _]). rewrite app_nil_r in Ht. subst t1.
    apply applyStatus_writes in Hst as (sub & conds & Hset & _ & Hw). destruct (Hw e u Hin Hu) as (js & now & Hjs & ->).
    apply set_conditions_says in Hset as [Hsays _].
    2:{ apply (reconcile_types_NoDup claim _ _ None); [done..|apply readyCondition_type]. }
    rewrite !Forall_cons in Hsays. destruct Hsays as (_ & _ & Hfrz & _).
    pose proof (says_true _ _ Hfrz) as Ef. rewrite freezeCondition_type in Ef.
    exists conds. do 5 eexists. exists None. split; [exact Hjs|]. split; [reflexivity|].
    split; [rewrite Ef; exact (freezeCondition_step claim (unmeasured claim ReasonInvalidSpec _))|done].
Qed.

Lemma finalize_no_status claim tr out e u : runs (finalize claim) tr out -> In e tr -> status_applied e = Some u -> False.
Proof.
  assert (every (fun e => match status_applied e with None => true | Some _ => false end) (finalize claim)) as He.
  { unfold finalize, applyFinalizer, fail, done_. by repeat every_step. }
  intros Hr Hin Hu. apply (every_In _ _ _ _ _ He Hr) in Hin. by rewrite Hu in Hin.
Qed.

Lemma Reconcile_status_write tr e u tr' out :
  runs (Reconcile r req) (tr ++ e :: tr') out -> status_applied e = Some u ->
  exists snapshot t1 t2, tr = Ev (GetClaim req) (Ok snapshot) :: t1 ++ t2 /\
    runs (reconcile_live r snapshot) (t2 ++ e :: tr') out.
Proof.
  intros (answer & rest & Htr & Hr)%Reconcile_runs Hu.
  destruct (before_status tr e u tr' [Ev (GetClaim req) answer] rest Htr Hu) as (m & -> & ->).
  { intros e' u' [<-|[]]. done. }
  destruct Hr as [(err & -> & Hr)|[(claim & -> & _ & Hr)|(claim & -> & _ & [[_ Hr]|(_ & response & rest & Hrest & Hr)])]].
  - by destruct m.
  - exfalso. eapply (finalize_no_status claim _ out e u Hr); [apply in_app_iff; right; by left|done].
  - by exists claim, [], m.
  - destruct (before_status m e u tr' [Ev (Apply (claim_body claim [("finalizers", JArray [JString Finalizer])] [])) response] rest Hrest Hu)
      as (m' & -> & ->); [by intros e' u' [<-|[]]|].
    destruct response; [|by destruct Hr, m']. by exists claim, [Ev (Apply (claim_body claim [("finalizers", JArray [JString Finalizer])] [])) (Ok a)], m'.
Qed.

(** A step that moves the freeze of a claim that stays is a status write of the reconcile. *)
Lemma freeze_moved_by w w' oldClaim newClaim : reachable r req w -> step r req w w' ->
  st_claim (w_store w) = Some oldClaim -> st_claim (w_store w') = Some newClaim -> is_frozen newClaim <> is_frozen oldClaim ->
  exists tr u k, w_running w = Some (tr, Call (ApplyStatus u) k) /\ claim_status_applied u oldClaim newClaim.
Proof.
  intros Hw Hs Ho Hn Hne. assert (Status newClaim = Status oldClaim -> False) as Hstatus.
  { intros Hst. apply Hne. unfold is_frozen. by rewrite Hst. }
  destruct Hs as [request claim tr s p Hnone|request o n tr ok s p|request o n tr s p Ho' Hst _ _
    |request claim now tr s p Ho'|request claim tr s p|claim s p|s|X c k x s s' tr Ha|s tr out|s p]; cbn [w_store w_running] in *.
  - congruence.
  - destruct Hstatus. cbn in Hn. congruence.
  - destruct Hstatus. assert (newClaim = n) as ->; [|congruence]. revert Hn. unfold deploying.
    destruct (changes_image o n); cbn; congruence.
  - destruct Hstatus. cbn in Hn. injection Hn as <-. rewrite Ho in Ho'. by injection Ho' as <-.
  - done.
  - done.
  - destruct Hstatus. congruence.
  - destruct (call_effect _ c k x tr s' Hw eq_refl Ha) as [->|(o & n & Ho' & -> & _ & [Hst|(u & answer & Hev & Hap)])]; cbn [w_store] in *.
    + destruct Hstatus. congruence.
    + destruct Hstatus. cbn in Hn. congruence.
    + cbn in Hn. assert (o = oldClaim) as -> by congruence. assert (n = newClaim) as -> by congruence.
      destruct c; try done. injection Hev as -> _. by exists tr, u, k.
  - destruct Hstatus. congruence.
  - destruct Hstatus. congruence.
Qed.
End gate_proofs.

(** ** Properties *)

(** C2: The deploy gate, run as a system, is a gate. Users create, update and delete the claim in any
    order, their requests dry runs or not, landing or not after they were admitted; the reconciler
    runs in between, one call at a time, reading versions of the claim as old as its cache may be,
    and dies when it likes; the webhook answers or cannot be reached. Every step any of them takes is
    one of the abstract gate, or none: while frozen, the stored image moves only together with a new
    note in the audit log; the freeze only moves by a status write, which leaves the image alone; and
    the log only grows. *)
Theorem deploy_gate_refines
  `{UnicodePrint, UnstructuredLaws, StatusConditionsLaws, ApiErrors, FinalizerUtil, ObjectConverter, AckConverter,
    !ApiKinds, !ApiKindsLaws, !TypedConverterLaws, !ApiServer, !ApiServerLaws, !ClaimServer, !ClaimServerLaws}
  (r : Reconciler) (req : NamespacedName) (w w' : world) :
  reachable r req w -> step r req w w' ->
  gate_of (w_store w') = gate_of (w_store w) \/ gate_step (gate_of (w_store w)) (gate_of (w_store w')).
Proof. apply step_refines. Qed.

(** C3: The audit log misses no override. In every reachable state, the notes of the deploys that went
    through a freeze, each naming the user, both images and the reason, are in the audit log, in
    the order they were made; and each of them carried a fresh reason. *)
Theorem overrides_are_audited
  `{UnicodePrint, UnstructuredLaws, StatusConditionsLaws, ApiErrors, FinalizerUtil, ObjectConverter, AckConverter,
    !ApiKinds, !ApiKindsLaws, !TypedConverterLaws, !ApiServer, !ApiServerLaws, !ClaimServer, !ClaimServerLaws}
  (r : Reconciler) (req : NamespacedName) (w : world) :
  reachable r req w ->
  sublist (map override_note (List.filter during_freeze (st_deploys (w_store w)))) (st_audit (w_store w)) /\
  Forall (fun d => during_freeze d = true -> is_Some (breakGlassReason (d_old d) (d_new d))) (st_deploys (w_store w)).
Proof. apply reachable_audited. Qed.

(** C4: The freeze moves on a measurement, or on a stale read. Whatever else happens in between, the
    only step that changes whether a stored claim is frozen is the status write of a running
    reconcile; and either the version of the claim that reconcile read at its start was itself not
    as the stored one, or Prometheus's answers in that very reconcile left a share of the budget that is none,
    to freeze, or at least 5%, to thaw. *)
Theorem freeze_moves_on_measurement
  `{UnicodePrint, UnstructuredLaws, StatusConditionsLaws, ApiErrors, FinalizerUtil, ObjectConverter, AckConverter,
    !ApiKinds, !ApiKindsLaws, !TypedConverterLaws, !ApiServer, !ApiServerLaws, !ClaimServer, !ClaimServerLaws}
  (r : Reconciler) (req : NamespacedName) (w w' : world) (oldClaim newClaim : ServiceClaim) :
  reachable r req w -> step r req w w' ->
  st_claim (w_store w) = Some oldClaim -> st_claim (w_store w') = Some newClaim -> is_frozen newClaim <> is_frozen oldClaim ->
  exists tr rest snapshot, w_running w = Some (tr, rest) /\ In (Ev (GetClaim req) (Ok snapshot)) tr /\
    (is_frozen snapshot <> is_frozen oldClaim \/
     exists pre slo post report left, tr = pre ++ slo ++ post /\ runs (evaluateSLO (r_Prometheus r) snapshot) slo report /\
       measurement report = Some left /\
       if is_frozen newClaim then fleb left fzero = true else fltb left UnfreezeBudget = false).
Proof.
  intros Hw Hs Ho Hn Hne. destruct (freeze_moved_by r req w w' oldClaim newClaim Hw Hs Ho Hn Hne) as (tr & u & k & Hrun & Hap).
  destruct (next_call r req w (ApplyStatus u) k None tr Hw Hrun) as (tr' & out & Hr).
  destruct (Reconcile_status_write r req tr _ u tr' out Hr eq_refl) as (snapshot & t1 & t2 & -> & Hlive).
  exists (Ev (GetClaim req) (Ok snapshot) :: t1 ++ t2), (Call (ApplyStatus u) k), snapshot. split; [done|]. split; [by left|].
  destruct (live_status_write r snapshot t2 _ u tr' out Hlive eq_refl) as (conds & managed & report & storage & js & now & m &
    Hjs & -> & Hstep & Hm).
  assert (is_frozen newClaim = IsStatusConditionTrue conds ConditionDeploysFrozen) as Hf.
  { unfold is_frozen. by rewrite (claim_status_applied_conditions _ _ _ Hap), (stored_conditions_sent _ _ _ _ _ _ _ Hjs). }
  destruct (Bool.bool_dec (is_frozen snapshot) (is_frozen oldClaim)) as [Hsame|Hstale]; [right|by left].
  rewrite <- Hf, <- is_frozen_was, Hsame in Hstep.
  destruct (freeze_step_change _ _ _ Hstep (not_eq_sym Hne)) as (left & -> & Hleft).
  destruct (Hm left eq_refl) as (pre & slo & post & -> & Hslo & Hmeas).
  exists (Ev (GetClaim req) (Ok snapshot) :: t1 ++ pre), slo, post, report, left. split; [cbn [app]; by rewrite <- !app_assoc|].
  split; [exact Hslo|]. split; [exact Hmeas|]. destruct (is_frozen newClaim); [exact Hleft|by destruct Hleft].
Qed.

(** *** A concrete cluster, and its reconciles *)
#[local] Existing Instance plain_print.
#[local] Existing Instance no_conditions.
#[local] Existing Instance documented_names.
#[local] Existing Instance documented_names_laws.
#[local] Existing Instance typed_converter.
#[local] Existing Instance typed_converter_laws.
#[local] Existing Instance replacing_server.

#[local] Instance typed_server_laws : ApiServerLaws.
Proof. by apply replacing_laws. Qed.

#[local] Instance conditions_server : ClaimServer := {
  claim_applied := fun _ oldClaim newClaim => Spec newClaim = Spec oldClaim /\ Status newClaim = Status oldClaim;
  claim_status_applied := fun u oldClaim newClaim => newClaim = with_conditions oldClaim (stored_conditions u)
}.
#[local] Instance conditions_server_laws : ClaimServerLaws.
Proof. split; [by intros u o n [? _]|by intros u o n [_ ?]|by intros u o n ->|by intros u o n ->]. Qed.

(** A cache that still shows the first version of the claim, and what Prometheus answers. *)
Definition stale_cluster (prometheus : result float64) : env store := fun X c s =>
  match c in call X' return X' * store with
  | GetClaim _ => (match st_past s with claim :: _ => Ok claim | [] => Err not_found end, s)
  | Apply u => ((if bool_decide (GVK u = claim_gvk) then Err not_found else Ok u), s)
  | ApplyStatus u =>
      match st_claim s with
      | Some claim => (None, put_claim (with_conditions claim (stored_conditions u)) s)
      | None => (Some not_found, s)
      end
  | Eventf claim etype reason action note => (tt, record_events [Ev (Eventf claim etype reason action note) tt] s)
  | Query _ => (prometheus, s)
  | c => ((quiet_cluster _ c tt).1, s)
  end.

Lemma stale_cluster_answers prometheus X (c : call X) s x s' : stale_cluster prometheus X c s = (x, s') -> answers c x s s'.
Proof.
  destruct c; cbn [stale_cluster answers]; try by intros [= <- <-].
  - destruct (st_past s) as [|claim past] eqn:E; intros [= <- <-]; (split; [done|]); [done|by left].
  - intros [= <- <-]. repeat case_bool_decide; try done. by left.
  - destruct (st_claim s) as [claim|] eqn:E; intros [= <- <-]; [|done].
    exists (Err not_found), [], claim, (with_conditions claim (stored_conditions u)). split; [done|]. split; [done|].
    split; [by apply not_intercepted|]. by rewrite record_none.
Qed.

(** The next call of the running reconcile, answered. *)
Definition one_call (h : env store) (w : world) : world :=
  match w_running w with
  | Some (tr, Call c k) => let '(x, s') := h _ c (w_store w) in mkWorld s' (Some (tr ++ [Ev c x], k x))
  | _ => w
  end.

Lemma calls_steps r req prometheus n w : rtc (step r req) w (Nat.iter n (one_call (stale_cluster prometheus)) w).
Proof.
  induction n as [|n IH]; [apply rtc_refl|]. etransitivity; [exact IH|]. rewrite Nat.iter_succ.
  set (w' := Nat.iter n _ w). unfold one_call. destruct w' as [s [[tr [out|X c k]]|]]; try apply rtc_refl. cbn [w_running w_store].
  destruct (stale_cluster prometheus X c s) as [x s'] eqn:E. apply rtc_once. constructor. by eapply stale_cluster_answers.
Qed.

(** A claim is created, and reconciled from that first version: once while Prometheus answers with
    the ratio, and again when it does not answer. *)
Definition created : store := put_claim finalized_claim (mkStore None [] [] []).
Definition start_reconcile (w : world) : world := mkWorld (w_store w) (Some ([], Reconcile unlinked claim_req)).
Definition calling (n : nat) (prometheus : result float64) (w : world) : world :=
  Nat.iter n (one_call (stale_cluster prometheus)) w.
Definition failing_ratio : result float64 := Ok (float_of_quot false 1 100).
Definition no_answer : result float64 := Err (ForeignError "connection refused" 111).

Definition frozen_world (w : world) : bool := match st_claim (w_store w) with Some claim => is_frozen claim | None => false end.
Definition finished (w : world) : option (list event) := match w_running w with Some (tr, Ret _) => Some tr | _ => None end.


(** The claim is created, and a reconcile sees its budget used up. *)
Definition new_world : world := mkWorld created None.
Definition frozen_store : store := w_store (calling 36 failing_ratio (start_reconcile new_world)).
Definition frozen_now : ServiceClaim := default finalized_claim (st_claim frozen_store).

Lemma new_world_reachable : reachable unlinked claim_req new_world.
Proof.
  apply rtc_once. apply (user_creates unlinked claim_req (Err not_found) finalized_claim [] (mkStore None [] [] []) None); [done..|].
  apply (webhook_answers (Err not_found) claims (WriteCreate finalized_claim) [] (Allowed [])); [done|by split].
Qed.

Lemma calling_reachable n prometheus w : reachable unlinked claim_req w -> w_running w = None ->
  reachable unlinked claim_req (calling n prometheus (start_reconcile w)).
Proof.
  intros Hw Hn. unfold reachable in *. etransitivity; [exact Hw|]. etransitivity; [|apply calls_steps].
  apply rtc_once. destruct w as [s p]. cbn in Hn. rewrite Hn. constructor.
Qed.

Lemma frozen_reachable : reachable unlinked claim_req (mkWorld frozen_store None).
Proof.
  eapply rtc_r; [exact (calling_reachable 36 failing_ratio new_world new_world_reachable eq_refl)|].
  unfold frozen_store. destruct (calling 36 failing_ratio (start_reconcile new_world)) as [s p]. apply controller_dies.
Qed.

(** A hotfix goes through the freeze. *)
Definition hotfix : ServiceClaim := with_image frozen_now "img:2" "incident 7".
Definition hotfix_request : result AdmissionRequest := Ok (mkAdmissionRequest "kim" None).
Definition hotfix_review := exec quiet_cluster (ValidateUpdate true hotfix_request frozen_now hotfix) tt.
Definition hotfix_world : world :=
  mkWorld (deploying "kim" frozen_now hotfix (put_claim hotfix (record_events hotfix_review.1.1 frozen_store))) None.

Lemma hotfix_step : step unlinked claim_req (mkWorld frozen_store None) hotfix_world.
Proof.
  apply (user_update_lands unlinked claim_req hotfix_request frozen_now hotfix hotfix_review.1.1 frozen_store None);
    [vm_compute; reflexivity|reflexivity|reflexivity|].
  assert (admits_update hotfix_review.1.2 = true) as Ha by (vm_compute; reflexivity).
  pose proof (exec_runs quiet_cluster (ValidateUpdate true hotfix_request frozen_now hotfix) tt) as Hr.
  unfold hotfix_review in *. destruct (exec quiet_cluster _ tt) as [[tr v] s]. cbn [fst snd] in *. rewrite <- Ha.
  by apply webhook_answers.
Qed.

Lemma deploy_gate_refines_witness :
  gate_step (gate_of frozen_store) (gate_of (w_store hotfix_world)) /\ length (g_audit (gate_of (w_store hotfix_world))) = 1%nat.
Proof.
  split; [|vm_compute; reflexivity].
  destruct (deploy_gate_refines unlinked claim_req _ _ frozen_reachable hotfix_step) as [He|Hg]; [|exact Hg].
  exfalso. apply (f_equal (fun g => length (g_audit g))) in He. vm_compute in He. discriminate He.
Defined.

Lemma overrides_are_audited_witness :
  sublist (map override_note (List.filter during_freeze (st_deploys (w_store hotfix_world)))) (st_audit (w_store hotfix_world)) /\
  length (List.filter during_freeze (st_deploys (w_store hotfix_world))) = 1%nat.
Proof.
  split; [|vm_compute; reflexivity].
  exact (proj1 (overrides_are_audited unlinked claim_req hotfix_world (rtc_r _ _ _ frozen_reachable hotfix_step))).
Defined.

Lemma one_call_step w prometheus : (match w_running w with Some (_, Call _ _) => true | _ => false end) = true ->
  step unlinked claim_req w (one_call (stale_cluster prometheus) w).
Proof.
  destruct w as [s [[tr [out|X c k]]|]]; try done. intros _. unfold one_call. cbn [w_running w_store].
  destruct (stale_cluster prometheus X c s) as [x s'] eqn:E. constructor. by eapply stale_cluster_answers.
Qed.

(** The status write that freezes the claim. *)
Lemma freeze_moves_on_measurement_witness :
  exists tr rest snapshot, w_running (calling 35 failing_ratio (start_reconcile new_world)) = Some (tr, rest) /\
    In (Ev (GetClaim claim_req) (Ok snapshot)) tr.
Proof.
  destruct (freeze_moves_on_measurement unlinked claim_req (calling 35 failing_ratio (start_reconcile new_world))
    (one_call (stale_cluster failing_ratio) (calling 35 failing_ratio (start_reconcile new_world))) finalized_claim frozen_now)
    as (tr & rest & snapshot & Hrun & Hin & _).
  - exact (calling_reachable 35 failing_ratio new_world new_world_reachable eq_refl).
  - apply one_call_step. vm_compute. reflexivity.
  - vm_compute. reflexivity.
  - vm_compute. reflexivity.
  - vm_compute. discriminate.
  - exists tr, rest, snapshot. split; [exact Hrun|exact Hin].
Defined.

(** C10: A stale read lifts a freeze that was to stay. There is an execution in which a reconcile reads
    the claim from a cache that does not show the freeze yet, Prometheus answers none of its
    queries, and its status write turns the freeze off: nothing ties the write to the version read. *)
Theorem stale_read_lifts_freeze :
  exists w w' tr out, reachable unlinked claim_req w /\ w_running w = None /\ frozen_world w = true /\
    rtc (step unlinked claim_req) w w' /\ w_running w' = Some (tr, Ret out) /\ omap query_answer tr = [no_answer] /\
    frozen_world w' = false.
Proof.
  set (w' := calling 100 no_answer (start_reconcile (mkWorld frozen_store None))).
  assert (match w_running w' with Some (_, Ret _) => true | _ => false end = true) as Hf by (vm_compute; reflexivity).
  assert (match w_running w' with Some (tr, _) => omap query_answer tr | None => [] end = [no_answer]) as Hq
    by (vm_compute; reflexivity).
  assert (frozen_world w' = false) as Ht by (vm_compute; reflexivity).
  assert (rtc (step unlinked claim_req) (mkWorld frozen_store None) w') as Hs
    by (eapply rtc_l; [apply reconcile_starts|apply calls_steps]).
  clearbody w'. destruct (w_running w') as [[tr [out|X c k]]|] eqn:E; try discriminate Hf.
  exists (mkWorld frozen_store None), w', tr, out. split; [exact frozen_reachable|]. split; [done|].
  split; [vm_compute; reflexivity|]. auto.
Qed.
