(* ===== verification/Scheme.v ===== *)
(** * The types the manager knows ([addToScheme] of [cmd/main.go], [groupversion_info.go])

    A scheme maps kinds to Go types; a typed read, watch or apply of a kind it does not know fails.
    The scheme and the registrations of the libraries are a class; the program's own group and the
    order of all of them are modelled. *)
From Stdlib Require Import ZArith Lia Ascii String.
From S2P Require Import Prelude GoStrings Api Kubernetes Build Controller Manager Rbac.
Local Open Scope stdpp_scope.

(** ** Definitions *)

Definition SchemeGroupVersion : string * string := ("platform.paved.dev", "v1alpha1").

Class SchemeTypes := {
  scheme : Type;                                          (* runtime.Scheme *)
  NewScheme : scheme;
  Recognizes : scheme -> GroupVersionKind -> bool;
  AddToGroupVersion : scheme -> string * string -> scheme;
  AddKnownTypes : scheme -> string * string -> list string -> scheme;   (* the Go types, by name *)
  clientgo_AddToScheme : scheme -> scheme * option error;
  rollouts_AddToScheme : scheme -> scheme * option error;
  monitoring_AddToScheme : scheme -> scheme * option error
}.

(** The groups of client-go's scheme that the program uses. *)
Definition clientgo_groups : list string := [""; "networking.k8s.io"; "autoscaling"; "policy"].

(** Registering only adds; a type is known by its name; each library registers the kinds of its groups. *)
Class SchemeLaws `{SchemeTypes} : Prop := {
  AddKnownTypes_recognizes s g v kinds kind : In kind kinds -> Recognizes (AddKnownTypes s (g, v) kinds) (mkGVK g v kind) = true;
  AddKnownTypes_keeps s gv kinds gvk : Recognizes s gvk = true -> Recognizes (AddKnownTypes s gv kinds) gvk = true;
  AddToGroupVersion_keeps s gv gvk : Recognizes s gvk = true -> Recognizes (AddToGroupVersion s gv) gvk = true;
  clientgo_keeps s gvk : Recognizes s gvk = true -> Recognizes (clientgo_AddToScheme s).1 gvk = true;
  rollouts_keeps s gvk : Recognizes s gvk = true -> Recognizes (rollouts_AddToScheme s).1 gvk = true;
  monitoring_keeps s gvk : Recognizes s gvk = true -> Recognizes (monitoring_AddToScheme s).1 gvk = true;
  clientgo_recognizes s k gvk plural : In (Some k, gvk, plural) documented_kinds -> In (gvk_Group gvk) clientgo_groups ->
    (clientgo_AddToScheme s).2 = None -> Recognizes (clientgo_AddToScheme s).1 gvk = true;
  rollouts_recognizes s k gvk plural : In (Some k, gvk, plural) documented_kinds -> gvk_Group gvk = "argoproj.io" ->
    (rollouts_AddToScheme s).2 = None -> Recognizes (rollouts_AddToScheme s).1 gvk = true;
  monitoring_recognizes s k gvk plural : In (Some k, gvk, plural) documented_kinds -> gvk_Group gvk = "monitoring.coreos.com" ->
    (monitoring_AddToScheme s).2 = None -> Recognizes (monitoring_AddToScheme s).1 gvk = true
}.

Section scheme.
Context `{SchemeTypes}.

(** One registration after the other, up to the first error ([runtime.SchemeBuilder.AddToScheme]
    and the loop of [addToScheme]). *)
Fixpoint register_all (adds : list (scheme -> scheme * option error)) (s : scheme) : scheme * option error :=
  match adds with
  | [] => (s, None)
  | add :: adds => match add s with (s', Some err) => (s', Some err) | (s', None) => register_all adds s' end
  end.

(** [NewSchemeBuilder]'s function, and the one [init] of [serviceclaim_types.go] registers. *)
Definition register_group (s : scheme) : scheme * option error := (AddToGroupVersion s SchemeGroupVersion, None).
Definition register_types (s : scheme) : scheme * option error :=
  (AddKnownTypes s SchemeGroupVersion ["ServiceClaim"; "ServiceClaimList"], None).
Definition SchemeBuilder : list (scheme -> scheme * option error) := [register_group; register_types].
Definition AddToScheme : scheme -> scheme * option error := register_all SchemeBuilder.

Definition registrations : list (scheme -> scheme * option error) :=
  [clientgo_AddToScheme; AddToScheme; rollouts_AddToScheme; monitoring_AddToScheme].
Definition addToScheme : scheme -> scheme * option error := register_all registrations.

(** ** Lemmas *)

(** What a later registration keeps. *)
Lemma register_all_keeps gvk adds :
  (forall add s, In add adds -> Recognizes s gvk = true -> Recognizes (add s).1 gvk = true) ->
  forall s, Recognizes s gvk = true -> Recognizes (register_all adds s).1 gvk = true.
Proof.
  induction adds as [|add adds IH]; intros Hk s Hs; [done|]. cbn [register_all].
  pose proof (Hk add s (or_introl eq_refl) Hs) as Ha. destruct (add s) as [s' [err|]]; [done|].
  apply IH; [|done]. intros add' s'' Hin. apply Hk. by right.
Qed.

(** Each registration succeeded and its kinds are still known at the end. *)
Lemma register_all_knows gvk adds add : In add adds ->
  (forall s, (add s).2 = None -> Recognizes (add s).1 gvk = true) ->
  (forall add s, In add adds -> Recognizes s gvk = true -> Recognizes (add s).1 gvk = true) ->
  forall s s', register_all adds s = (s', None) -> Recognizes s' gvk = true.
Proof.
  intros Hin Hadd. revert Hin. induction adds as [|add' adds IH]; intros Hin Hk s s'; [done|]. cbn [register_all].
  destruct (add' s) as [s1 [err|]] eqn:E; [done|]. intros Hr. destruct Hin as [->|Hin].
  - assert (Recognizes s1 gvk = true) as H1 by (specialize (Hadd s); rewrite E in Hadd; by apply Hadd).
    replace s' with (register_all adds s1).1 by by rewrite Hr. apply register_all_keeps; [|done].
    intros add2 s2 Hin2. apply Hk. by right.
  - eapply IH; [done| |exact Hr]. intros add2 s2 Hin2. apply Hk. by right.
Qed.

Context `{!SchemeLaws}.

Lemma AddToScheme_keeps gvk s : Recognizes s gvk = true -> Recognizes (AddToScheme s).1 gvk = true.
Proof.
  apply register_all_keeps. intros add s' [<-|[<-|[]]]; [apply AddToGroupVersion_keeps|apply AddKnownTypes_keeps].
Qed.

Lemma AddToScheme_recognizes kind s : In kind ["ServiceClaim"; "ServiceClaimList"] ->
  Recognizes (AddToScheme s).1 (mkGVK "platform.paved.dev" "v1alpha1" kind) = true.
Proof. intros Hk. by apply AddKnownTypes_recognizes. Qed.

Lemma addToScheme_keeps gvk add s :
  In add registrations -> Recognizes s gvk = true -> Recognizes (add s).1 gvk = true.
Proof.
  intros [<-|[<-|[<-|[<-|[]]]]]; [apply clientgo_keeps|apply AddToScheme_keeps|apply rollouts_keeps|apply monitoring_keeps].
Qed.

(** The scheme knows the claim, its list and the kind of every Go type an object is built of. *)
Lemma addToScheme_claims s s' kind : addToScheme s = (s', None) -> In kind ["ServiceClaim"; "ServiceClaimList"] ->
  Recognizes s' (mkGVK "platform.paved.dev" "v1alpha1" kind) = true.
Proof.
  intros Hs Hk. eapply (register_all_knows _ registrations AddToScheme); [right; by left| |apply addToScheme_keeps|exact Hs].
  intros s1 _. by apply AddToScheme_recognizes.
Qed.

Lemma addToScheme_kinds s s' k : addToScheme s = (s', None) -> k <> KUnstructured -> Recognizes s' (kind_plural k).1 = true.
Proof.
  intros Hs Hk. destruct (kind_documented k Hk) as [Hd _]. apply bool_decide_eq_true, list_elem_of_In in Hd.
  assert (In (gvk_Group (kind_plural k).1) clientgo_groups \/ gvk_Group (kind_plural k).1 = "argoproj.io" \/
          gvk_Group (kind_plural k).1 = "monitoring.coreos.com") as [Hg|[Hg|Hg]].
  { destruct k; try done; vm_compute; auto 10. }
  - eapply (register_all_knows _ registrations clientgo_AddToScheme); [by left| |apply addToScheme_keeps|exact Hs].
    intros s1. by eapply clientgo_recognizes.
  - eapply (register_all_knows _ registrations rollouts_AddToScheme); [right; right; by left| |apply addToScheme_keeps|exact Hs].
    intros s1. by eapply rollouts_recognizes.
  - eapply (register_all_knows _ registrations monitoring_AddToScheme); [right; right; right; by left| |apply addToScheme_keeps|exact Hs].
    intros s1. by eapply monitoring_recognizes.
Qed.
End scheme.

(** A scheme as the list of what was registered. *)
Definition registered (groups : list string) : list GroupVersionKind :=
  omap (fun d => match d with (Some _, gvk, _) => if existsb (String.eqb (gvk_Group gvk)) groups then Some gvk else None | _ => None end)
    documented_kinds.

#[export] Instance kind_list : SchemeTypes := {
  scheme := list GroupVersionKind;
  NewScheme := [];
  Recognizes s gvk := bool_decide (gvk ∈ s);
  AddToGroupVersion s _ := s;
  AddKnownTypes s gv kinds := map (fun kind => mkGVK gv.1 gv.2 kind) kinds ++ s;
  clientgo_AddToScheme s := (registered clientgo_groups ++ s, None);
  rollouts_AddToScheme s := (registered ["argoproj.io"] ++ s, None);
  monitoring_AddToScheme s := (registered ["monitoring.coreos.com"] ++ s, None)
}.

Lemma registered_in groups k gvk plural :
  In (Some k, gvk, plural) documented_kinds -> In (gvk_Group gvk) groups -> gvk ∈ registered groups.
Proof.
  intros Hd Hg. unfold registered. apply list_elem_of_omap. exists (Some k, gvk, plural). split; [by apply list_elem_of_In|].
  by rewrite (proj2 (existsb_exists _ _) (ex_intro _ _ (conj Hg (String.eqb_refl _)))).
Qed.

#[export] Instance kind_list_laws : SchemeLaws.
Proof.
  split; cbn [Recognizes AddKnownTypes AddToGroupVersion clientgo_AddToScheme rollouts_AddToScheme monitoring_AddToScheme kind_list fst snd];
    intros; rewrite ?bool_decide_eq_true in *; try done; rewrite elem_of_app; try (by right); left.
  - apply list_elem_of_In. by apply (in_map (fun kind => mkGVK g v kind)).
  - by eapply registered_in.
  - eapply registered_in; [done|]. rewrite H0. by left.
  - eapply registered_in; [done|]. rewrite H0. by left.
Qed.
