(* ===== verification/Main.v ===== *)
(** * Starting the manager ([main] of [cmd/main.go])

    [main] as a program that acts on the outside in order and may exit at each step. What the
    libraries and the cluster answer is a class, [Runtime]; the actions are recorded in order. *)
From Stdlib Require Import ZArith Lia Ascii String.
From S2P Require Import Prelude GoStrings GoFlag Api Kubernetes Instances Meta Storage Workload Build Prometheus.
From S2P Require Import Effects StorageStatus Controller Manager Rbac Scheme.
Local Open Scope Z_scope.
Local Open Scope stdpp_scope.

(** ** Definitions *)

(** [webhook.Options] and [metricsserver.Options]. A TLS option is known by the protocols it leaves
    a server to negotiate; an unset certificate field is empty. *)
Record WebhookOptions := mkWebhookOptions {
  wh_Port : Z;
  wh_TLSOpts : list (list string);
  wh_CertDir : string;
  wh_CertName : string;
  wh_KeyName : string
}.

Record MetricsOptions := mkMetricsOptions {
  ms_BindAddress : string;
  ms_SecureServing : bool;
  ms_TLSOpts : list (list string);
  ms_FilterProvider : bool;              (* authentication and authorization *)
  ms_CertDir : string;
  ms_CertName : string;
  ms_KeyName : string
}.

Record ManagerOptions `{SchemeTypes} := mkManagerOptions {
  mgr_Scheme : scheme;
  mgr_Cache : list (watched * gmap string string);
  mgr_Metrics : MetricsOptions;
  mgr_Webhook : WebhookOptions;
  mgr_HealthProbeBindAddress : string;
  mgr_LeaderElection : bool;
  mgr_LeaderElectionID : string
}.

Inductive action `{SchemeTypes} :=
  | RegisterTypes
  | ReadConfig
  | NewManager (o : ManagerOptions)
  | SetupController (r : Reconciler) (prometheus : PrometheusClient)
  | SetupWebhook
  | AddHealthz
  | AddReadyz
  | Start.

(** What the libraries answer: [None] is a nil error. *)
Class Runtime `{SchemeTypes} := {
  config_found : bool;                                  (* GetConfigOrDie returns *)
  client_error : option error;                          (* client.New *)
  IsNoMatchError : error -> bool;
  new_manager : ManagerOptions -> option error;
  new_api_client : string -> Z -> option error;         (* promapi.NewClient *)
  complete_controller : list (watched * (gmap string string -> list NamespacedName)) -> option error;
  complete_webhook : option error;
  add_healthz : option error;
  add_readyz : option error;
  run_manager : option error;                           (* mgr.Start *)
  library_flag : string -> option flag_kind             (* zap's and controller-runtime's flags *)
}.

(** A program that acts and may exit with a code. *)
Definition startup `{SchemeTypes} (A : Type) : Type := list action * (A + Z).

#[export] Instance startup_ret `{SchemeTypes} : MRet startup := fun A a => ([], inl a).
#[export] Instance startup_bind `{SchemeTypes} : MBind startup :=
  fun A B f m => match m with
                 | (tr, inl a) => let '(tr', r) := f a in (tr ++ tr', r)
                 | (tr, inr code) => (tr, inr code)
                 end.
Definition exit `{SchemeTypes} {A} (code : Z) : startup A := ([], inr code).
Definition act `{SchemeTypes} (a : action) : startup unit := ([a], inl tt).

(** [if err != nil { setupLog.Error(...); os.Exit(1) }] *)
Definition must `{SchemeTypes} (err : option error) : startup unit := match err with Some _ => exit 1 | None => mret tt end.
Definition must_result `{SchemeTypes} {A} (r : result A) : startup A := match r with Ok a => mret a | Err _ => exit 1 end.

Definition manager_flag `{Runtime} (name : string) : option flag_kind :=
  if existsb (String.eqb name) ["metrics-bind-address"; "health-probe-bind-address"; "webhook-cert-path";
       "webhook-cert-name"; "webhook-cert-key"; "metrics-cert-path"; "metrics-cert-name"; "metrics-cert-key";
       "prometheus-url"] then Some StringFlag
  else if existsb (String.eqb name) ["leader-elect"; "metrics-secure"; "enable-http2"] then Some BoolFlag
  else if String.eqb name "webhook-port" then Some IntFlag
  else library_flag name.

Definition LeaderElectionID : string := "4ff88f17.paved.dev".

Section main.
Context `{UnicodePrint, Unstructured, RESTMapper, SchemeTypes, !Runtime}.

(** The TLS options: [disableHTTP2] leaves HTTP/1.1 only. *)
Definition tlsOpts (settings : list (string * string)) : list (list string) :=
  if bool_value settings "enable-http2" false then [] else [["http/1.1"]].

Definition webhookServerOptions (settings : list (string * string)) : WebhookOptions :=
  let path := string_value settings "webhook-cert-path" "" in
  let given := 0 <? len path in
  {| wh_Port := int_value settings "webhook-port" 9443;
     wh_TLSOpts := tlsOpts settings;
     wh_CertDir := if given then path else "";
     wh_CertName := if given then string_value settings "webhook-cert-name" "tls.crt" else "";
     wh_KeyName := if given then string_value settings "webhook-cert-key" "tls.key" else "" |}.

Definition metricsServerOptions (settings : list (string * string)) : MetricsOptions :=
  let path := string_value settings "metrics-cert-path" "" in
  let given := 0 <? len path in
  let secureMetrics := bool_value settings "metrics-secure" true in
  {| ms_BindAddress := string_value settings "metrics-bind-address" "0";
     ms_SecureServing := secureMetrics;
     ms_TLSOpts := tlsOpts settings;
     ms_FilterProvider := secureMetrics;
     ms_CertDir := if given then path else "";
     ms_CertName := if given then string_value settings "metrics-cert-name" "tls.crt" else "";
     ms_KeyName := if given then string_value settings "metrics-cert-key" "tls.key" else "" |}.

Definition managerOptions (types : scheme) (settings : list (string * string)) (storage : option StorageConfig) : ManagerOptions :=
  {| mgr_Scheme := types;
     mgr_Cache := managedObjectCache (match storage with Some _ => true | None => false end);
     mgr_Metrics := metricsServerOptions settings;
     mgr_Webhook := webhookServerOptions settings;
     mgr_HealthProbeBindAddress := string_value settings "health-probe-bind-address" ":8081";
     mgr_LeaderElection := bool_value settings "leader-elect" false;
     mgr_LeaderElectionID := LeaderElectionID |}.

(** [main] after [flag.Parse]. *)
Definition main_with (settings : list (string * string)) (getenv : string -> string) : startup unit :=
  _ ← act RegisterTypes;
  let '(types, err) := addToScheme NewScheme in
  _ ← must err;
  _ ← act ReadConfig;
  _ ← (if config_found then mret tt else exit 1);
  storage ← must_result (storageForCluster IsNoMatchError getenv client_error);
  let options := managerOptions types settings storage in
  _ ← act (NewManager options);
  _ ← must (new_manager options);
  prometheus ← must_result (NewPrometheusClient new_api_client (string_value settings "prometheus-url" DefaultPrometheusURL));
  let reconciler := mkReconciler true true true storage in
  _ ← act (SetupController reconciler prometheus);
  _ ← must (complete_controller (SetupWithManager (r_Storage reconciler)));
  _ ← (if negb (String.eqb (getenv "ENABLE_WEBHOOKS") "false")
       then _ ← act SetupWebhook; must complete_webhook else mret tt);
  _ ← act AddHealthz;
  _ ← must add_healthz;
  _ ← act AddReadyz;
  _ ← must add_readyz;
  _ ← act Start;
  must run_manager.

(** The actions of the process and its exit code. *)
Definition main (args : list string) (getenv : string -> string) : list action * Z :=
  match Parse manager_flag args with
  | HelpRequested => ([], 0)
  | Malformed => ([], 2)
  | Flags settings _ =>
      match main_with settings getenv with
      | (tr, inl _) => (tr, 0)
      | (tr, inr code) => (tr, code)
      end
  end.

(** ** Lemmas *)

(** The actions of a process that came to start its manager. *)
Definition started (types : scheme) (settings : list (string * string)) (storage : option StorageConfig) (prometheus : PrometheusClient)
    (webhooks : bool) : list action :=
  [RegisterTypes; ReadConfig; NewManager (managerOptions types settings storage);
   SetupController (mkReconciler true true true storage) prometheus] ++
  (if webhooks then [SetupWebhook] else []) ++ [AddHealthz; AddReadyz; Start].

(** A start-up either exits with 1 before the manager starts, or runs it: [P] holds of its actions
    and of the error the manager came back with. *)
Definition reaches (P : list action -> option error -> Prop) (m : startup unit) : Prop :=
  (exists tr, m = (tr, inr 1) /\ ~ In Start tr) \/
  (exists tr r, m = (tr, match r with Some _ => inr 1 | None => inl tt end) /\ P tr r).

Lemma reaches_act P a (f : unit -> startup unit) :
  a <> Start -> reaches (fun tr => P (a :: tr)) (f tt) -> reaches P (act a ≫= f).
Proof.
  intros Ha. unfold act, mbind, startup_bind. intros [(tr & -> & Hn)|(tr & r & -> & Hp)]; [left|right; eauto].
  exists (a :: tr). split; [done|]. by intros [?|?].
Qed.

Lemma reaches_ret {A} P (a : A) (f : A -> startup unit) : reaches P (f a) -> reaches P (mret a ≫= f).
Proof. unfold mret, startup_ret, mbind, startup_bind. by destruct (f a). Qed.

Lemma reaches_exit {A} P (f : A -> startup unit) : reaches P (exit 1 ≫= f).
Proof. left. exists []. split; [done|]. by intros []. Qed.

Lemma reaches_must P err (f : unit -> startup unit) :
  (err = None -> reaches P (f tt)) -> reaches P (must err ≫= f).
Proof. destruct err; intros Hf; [apply reaches_exit|by apply reaches_ret, Hf]. Qed.

Lemma reaches_result {A} P (r : result A) (f : A -> startup unit) :
  (forall a, r = Ok a -> reaches P (f a)) -> reaches P (must_result r ≫= f).
Proof. destruct r; intros Hf; [by apply reaches_ret, Hf|apply reaches_exit]. Qed.

Lemma reaches_start P err : P [Start] err -> reaches P (act Start ≫= fun _ => must err).
Proof. intros Hp. right. exists [Start], err. by destruct err. Qed.

Lemma reaches_bind P (m : startup unit) (f : unit -> startup unit) (g : unit -> startup unit) :
  reaches P (m ≫= fun x => f x ≫= g) -> reaches P ((m ≫= f) ≫= g).
Proof.
  destruct m as [tr [a|code]]; unfold mbind, startup_bind; [|done]. destruct (f a) as [tr2 [b|code]]; [|done].
  destruct (g b). by rewrite app_assoc.
Qed.

Lemma typed_watches storage k : In (Typed k) (map fst (SetupWithManager storage)) -> k <> KUnstructured.
Proof.
  unfold SetupWithManager, managed_kinds. rewrite map_map, map_id. intros Hin ->. apply in_app_iff in Hin as [Hin|Hin].
  - apply in_map_iff in Hin as (k & [= ->] & Hk). cbn in Hk. intuition discriminate.
  - destruct storage; [|done]. by apply in_map_iff in Hin as (u & ? & _).
Qed.

Lemma main_reaches settings getenv :
  reaches (fun tr r => exists types storage prometheus,
     addToScheme NewScheme = (types, None) /\
     storageForCluster IsNoMatchError getenv client_error = Ok storage /\
     tr = started types settings storage prometheus (negb (String.eqb (getenv "ENABLE_WEBHOOKS") "false")) /\
     r = run_manager) (main_with settings getenv).
Proof.
  unfold main_with. apply reaches_act; [done|]. destruct (addToScheme NewScheme) as [types err] eqn:Htypes.
  apply reaches_must; intros ->. apply reaches_act; [done|].
  destruct config_found; [apply reaches_ret|apply reaches_exit]. apply reaches_result. intros storage Hs.
  cbv zeta. apply reaches_act; [done|]. apply reaches_must; intros _. apply reaches_result. intros prometheus _.
  apply reaches_act; [done|]. apply reaches_must; intros _.
  destruct (negb (String.eqb _ _)).
  - apply reaches_bind, reaches_act; [done|]. apply reaches_must; intros _.
    apply reaches_act; [done|]. apply reaches_must; intros _. apply reaches_act; [done|]. apply reaches_must; intros _.
    apply reaches_start. eauto 10.
  - apply reaches_ret. apply reaches_act; [done|]. apply reaches_must; intros _.
    apply reaches_act; [done|]. apply reaches_must; intros _. apply reaches_start. eauto 10.
Qed.
End main.

(** ** Properties *)

(** C26: The manager starts whole or not at all. A process that starts its manager did every step
    of [main] before it, once and in order, with no error: its scheme knows the claim, the list of
    claims and the kind of every Go type that is watched; one decision about storage configures
    the cache, the watches and the reconciler, so that every object the reconciler builds is of a
    kind that is cached and watched; the webhook is set up unless ENABLE_WEBHOOKS is "false". A
    process that does not get there exits with 1, with 2 for a malformed command line, and with 0
    only when help was asked for. *)
Theorem main_starts `{UnicodePrint, UnstructuredLaws, RESTMapper, SchemeLaws, !Runtime} (args : list string) (getenv : string -> string) :
  let '(tr, code) := main args getenv in
  (In Start tr ->
   exists settings rest types storage prometheus,
     Parse manager_flag args = Flags settings rest /\
     tr = started types settings storage prometheus (negb (String.eqb (getenv "ENABLE_WEBHOOKS") "false")) /\
     storageForCluster IsNoMatchError getenv client_error = Ok storage /\
     code = match run_manager with Some _ => 1 | None => 0 end /\
     (forall kind, In kind [claimKind; "ServiceClaimList"] -> Recognizes types (mkGVK "platform.paved.dev" "v1alpha1" kind) = true) /\
     (forall k, In (Typed k) (map fst (SetupWithManager storage)) -> Recognizes types (kind_plural k).1 = true) /\
     forall sc objects obj, Build sc storage = Ok objects -> In obj objects ->
       In (watched_as obj) (map fst (mgr_Cache (managerOptions types settings storage))) /\
       In (watched_as obj) (map fst (SetupWithManager storage))) /\
  (~ In Start tr ->
   match Parse manager_flag args with HelpRequested => code = 0 /\ tr = [] | Malformed => code = 2 /\ tr = [] | _ => code = 1 end).
Proof.
  unfold main. destruct (Parse manager_flag args) as [settings rest| |] eqn:HP; [|by split|by split].
  destruct (main_reaches settings getenv) as [(tr & -> & Hn)|(tr & r & -> & types & storage & prometheus & Ht & Hs & -> & ->)].
  { split; [done|]. done. }
  assert (forall webhooks, In Start (started types settings storage prometheus webhooks)) as Hin by (intros []; cbn; tauto).
  assert (forall k, In (Typed k) (map fst (SetupWithManager storage)) -> k <> KUnstructured) as Htyped by apply typed_watches.
  destruct run_manager; (split; [|by intros []]); intros _; exists settings, rest, types, storage, prometheus;
    repeat (split; [done|]); (split; [intros kind; by apply (addToScheme_claims NewScheme)|]);
    (split; [intros k Hk%Htyped; by apply (addToScheme_kinds NewScheme)|]);
    intros sc objects obj HB Ho; by apply kinds_cached_and_watched with sc objects.
Qed.

#[local] Instance all_well : Runtime := {|
  config_found := true; client_error := None; IsNoMatchError _ := true;
  new_manager _ := None; new_api_client _ _ := None; complete_controller _ := None; complete_webhook := None;
  add_healthz := None; add_readyz := None; run_manager := None; library_flag _ := None
|}.
#[local] Instance all_served : RESTMapper := fun _ => None.

Lemma main_starts_witness :
  exists types prometheus, (main (H := no_rune) ["--leader-elect"; "-webhook-port"; "0x24a3"] sample_env).1 =
    started types [("leader-elect", "true"); ("webhook-port", "0x24a3")] (Some sample_storage) prometheus true.
Proof.
  set (args := ["--leader-elect"; "-webhook-port"; "0x24a3"]).
  assert (Parse manager_flag args = Flags [("leader-elect", "true"); ("webhook-port", "0x24a3")] []) as HP
    by (vm_compute; reflexivity).
  assert (storageForCluster (H0 := no_rune) IsNoMatchError sample_env client_error = Ok (Some sample_storage)) as Hs
    by (vm_compute; reflexivity).
  assert (In Start (main (H := no_rune) args sample_env).1) as Hin by (vm_compute; tauto).
  pose proof (main_starts (H := no_rune) args sample_env) as Hm.
  destruct (main (H := no_rune) args sample_env) as [tr code].
  destruct (proj1 Hm Hin) as (settings & rest & types & storage & prometheus & HP' & -> & Hs' & _).
  rewrite HP in HP'. injection HP' as <- <-. rewrite Hs in Hs'. injection Hs' as <-. by exists types, prometheus.
Defined.
