(* ===== verification/Http.v ===== *)
(** * Routing in [net/http]: the part of [http.ServeMux] the example services use

    A mux is the list of the patterns it was given with their handlers. Matching follows the
    standard library's routing tree: the request's method first ([GET] also serves [HEAD]), then,
    segment by segment, literals before wildcards before a trailing slash. Host names in patterns,
    [{$}] and multi-segment wildcards do not occur and are left out. *)
From Stdlib Require Import ZArith Lia Ascii String.
From S2P Require Import Prelude GoStrings GoStrconv GoJson.
Local Open Scope Z_scope.
Local Open Scope stdpp_scope.

(** ** Definitions *)

Definition slash : ascii := "/"%char.

(** *** Patterns *)

Inductive segment :=
  | Literal (s : string)
  | Wildcard (name : string)
  | TrailingSlash.

Record pattern := mkPattern { pat_method : string; pat_segments : list segment }.

Definition parse_segment (s : string) : segment :=
  if String.eqb s "" then TrailingSlash
  else if HasPrefix s "{" && HasSuffix s "}" then Wildcard (take_bytes (String.length s - 2) (drop_bytes 1 s))
  else Literal s.

(** [parsePattern], for patterns of the forms ["/path"] and ["METHOD /path"]. *)
Definition parsePattern (s : string) : pattern :=
  match split_on " " s with
  | [path] => mkPattern "" (map parse_segment (split_on slash (drop_bytes 1 path)))
  | method :: path :: _ => mkPattern method (map parse_segment (split_on slash (drop_bytes 1 path)))
  | [] => mkPattern "" []
  end.

(** *** Paths *)

(** [url.PathUnescape], with the text itself when an escape is malformed ([net/http.pathUnescape]). *)
Fixpoint unescape (skip : nat) (s : string) : option string :=
  match s with
  | EmptyString => Some EmptyString
  | String c s' =>
      match skip with
      | S k => unescape k s'
      | O =>
          if Ascii.eqb c "%" then
            match s' with
            | String h (String l _) =>
                match hex_value h, hex_value l with
                | Some a, Some b => String (byte_of (16 * a + b)) <$> unescape 2 s'
                | _, _ => None
                end
            | _ => None
            end
          else String c <$> unescape 0 s'
      end
  end.
Definition pathUnescape (s : string) : string := default s (unescape 0 s).

(** The segments [firstSegment] peels off a path: a trailing slash is the segment ["/"]. *)
Fixpoint mark_last (xs : list string) : list string :=
  match xs with
  | [] => []
  | [x] => [if String.eqb x "" then "/" else pathUnescape x]
  | x :: xs => pathUnescape x :: mark_last xs
  end.
Definition path_segments (path : string) : list string :=
  if String.eqb path "" then [] else mark_last (split_on slash (drop_bytes 1 path)).

(** [path.Clean] of a rooted path, on its elements: [acc] is what is kept so far, last first. *)
Fixpoint clean_elements (acc xs : list string) : list string :=
  match xs with
  | [] => rev acc
  | x :: xs =>
      if String.eqb x "" || String.eqb x "." then clean_elements acc xs
      else if String.eqb x ".." then clean_elements (tail acc) xs
      else clean_elements (x :: acc) xs
  end.
Definition Clean (path : string) : string := "/" +:+ Join (clean_elements [] (split_on slash path)) "/".

Definition cleanPath (p : string) : string :=
  if String.eqb p "" then "/"
  else
    let p := if HasPrefix p "/" then p else "/" +:+ p in
    let np := Clean p in
    if HasSuffix p "/" && negb (String.eqb np "/") then np +:+ "/" else np.

(** *** Matching *)

(** A pattern with what is left of its segments, the handler, and the wildcards matched so far. *)
Record candidate (H : Type) := mkCandidate {
  left_segments : list segment;
  cand_handler : H;
  cand_size : nat;
  cand_values : list (string * string)
}.
Arguments mkCandidate {H}.
Arguments left_segments {H}.
Arguments cand_handler {H}.
Arguments cand_size {H}.
Arguments cand_values {H}.

Section mux.
Context {H : Type}.

Definition step_literal (s : string) (c : candidate H) : option (candidate H) :=
  match left_segments c with
  | Literal l :: rest =>
      if String.eqb l s then Some (mkCandidate rest (cand_handler c) (cand_size c) (cand_values c)) else None
  | _ => None
  end.
Definition step_wildcard (s : string) (c : candidate H) : option (candidate H) :=
  match left_segments c with
  | Wildcard name :: rest =>
      Some (mkCandidate rest (cand_handler c) (cand_size c) (cand_values c ++ [(name, s)]))
  | _ => None
  end.
Definition at_leaf (c : candidate H) : bool := match left_segments c with [] => true | _ => false end.
Definition at_slash (c : candidate H) : bool := match left_segments c with [TrailingSlash] => true | _ => false end.

(** [routingNode.matchPath]: a node of the tree is the list of the patterns below it. *)
Fixpoint matchPath (cs : list (candidate H)) (path : list string) : option (candidate H) :=
  match path with
  | [] => List.find at_leaf cs
  | s :: rest =>
      match matchPath (omap (step_literal s) cs) rest with
      | Some c => Some c
      | None =>
          match (if String.eqb s "/" then None else matchPath (omap (step_wildcard s) cs) rest) with
          | Some c => Some c
          | None => List.find at_slash cs
          end
      end
  end.

Definition candidates (mux : list (string * H)) (method : string) : list (candidate H) :=
  omap (fun '(p, h) =>
    let p := parsePattern p in
    if String.eqb (pat_method p) method
    then Some (mkCandidate (pat_segments p) h (length (pat_segments p)) []) else None) mux.

(** [routingNode.matchMethodAndPath] *)
Definition match_request (mux : list (string * H)) (method path : string) : option (candidate H) :=
  let at_method m := matchPath (candidates mux m) (path_segments path) in
  match at_method method with
  | Some c => Some c
  | None =>
      match (if String.eqb method "HEAD" then at_method "GET" else None) with
      | Some c => Some c
      | None => at_method ""
      end
  end.

Definition exactMatch (c : option (candidate H)) (path : string) : bool :=
  match c with
  | None => false
  | Some c =>
      if negb (HasSuffix path "/") then true
      else Nat.eqb (cand_size c) (length (split_on slash path) - 1)
  end.

(** The methods another request for this path could use ([mux.matchingMethods]), sorted. *)
Definition matchingMethods (mux : list (string * H)) (path : string) : list string :=
  let serves path m := match matchPath (candidates mux m) (path_segments path) with Some _ => true | None => false end in
  let ms := List.filter (fun m => negb (String.eqb m "") && (serves path m || (negb (HasSuffix path "/") && serves (path +:+ "/") m)))
    (map (fun '(p, _) => pat_method (parsePattern p)) mux) in
  let ms := if existsb (String.eqb "GET") ms then "HEAD" :: ms else ms in
  map fst (sorted_entries (map (fun m => (m, tt)) ms)).

(** A request's method and the escaped path of its URL. *)
Record Request := mkRequest { Method : string; EscapedPath : string }.

Inductive dispatch :=
  | MovedPermanently (path : string)
  | MethodNotAllowed (allowed : list string)
  | PageNotFound
  | Dispatch (h : H) (values : list (string * string)).

(** [mux.findHandler] *)
Definition findHandler (mux : list (string * H)) (r : Request) : dispatch :=
  let connect := String.eqb (Method r) "CONNECT" in
  let path := if connect then EscapedPath r else cleanPath (EscapedPath r) in
  let n := match_request mux (Method r) path in
  if negb (exactMatch n path) && negb (HasSuffix path "/")
     && exactMatch (match_request mux (Method r) (path +:+ "/")) (path +:+ "/")
  then MovedPermanently (path +:+ "/")
  else if negb connect && negb (String.eqb path (EscapedPath r)) then MovedPermanently path
  else match n with
       | Some c => Dispatch (cand_handler c) (cand_values c)
       | None =>
           match matchingMethods mux path with
           | [] => PageNotFound
           | allowed => MethodNotAllowed allowed
           end
       end.

(** [r.PathValue(name)] *)
Definition PathValue (values : list (string * string)) (name : string) : string :=
  match List.find (fun kv => String.eqb kv.1 name) values with Some (_, v) => v | None => "" end.
End mux.
Arguments dispatch : clear implicits.

(** ** Lemmas *)

(** A path element that needs no cleaning and no unescaping. *)
Definition element_char (c : ascii) : bool :=
  is_digit c || ((65 <=? code c) && (code c <=? 90)) || ((97 <=? code c) && (code c <=? 122)).
Definition is_element (s : string) : bool :=
  negb (String.eqb s "") && forallb element_char (list_ascii_of_string s).

Lemma element_char_not c d : element_char c = true -> element_char d = false -> Ascii.eqb c d = false.
Proof. intros Hc Hd. apply Ascii.eqb_neq. intros ->. by rewrite Hc in Hd. Qed.

Lemma is_element_cons c s : is_element (String c s) = true -> element_char c = true.
Proof. unfold is_element. cbn. by intros [? _]%andb_true_iff. Qed.

Lemma element_split s : is_element s = true -> split_on slash s = [s].
Proof.
  intros [_ Hs]%andb_true_iff. apply split_on_none. eapply forallb_impl; [|exact Hs].
  intros c Hc. by rewrite (element_char_not c slash Hc eq_refl).
Qed.

Lemma element_unescape s : forallb element_char (list_ascii_of_string s) = true -> unescape 0 s = Some s.
Proof.
  induction s as [|c s IH]; [done|]. cbn. intros [Hc Hs]%andb_true_iff.
  by rewrite (element_char_not c "%" Hc eq_refl), (IH Hs).
Qed.

Lemma element_last s : is_element s = true -> HasSuffix ("/" +:+ s) "/" = false.
Proof.
  intros Hs. apply not_true_iff_false. intros [t Ht]%HasSuffix_spec. unfold is_element in Hs.
  apply andb_true_iff in Hs as [Hne Hs].
  assert (In slash (list_ascii_of_string s)) as Hin.
  { destruct t as [|c t]; [injection Ht as ->; done|]. injection Ht as _ ->.
    clear. induction t as [|c t IH]; cbn; auto. }
  by apply (proj1 (forallb_forall _ _) Hs) in Hin.
Qed.

Lemma element_clean s : is_element s = true -> cleanPath ("/" +:+ s) = "/" +:+ s.
Proof.
  intros Hs. unfold cleanPath. change (String.eqb ("/" +:+ s) "") with false.
  rewrite (proj2 (HasPrefix_spec ("/" +:+ s) "/") (ex_intro _ s eq_refl)). cbv iota zeta.
  rewrite (element_last s Hs). unfold Clean.
  change (split_on slash ("/" +:+ s)) with ("" :: split_on slash s). rewrite (element_split s Hs).
  destruct s as [|c s]; [done|]. apply is_element_cons in Hs. cbn.
  by rewrite (element_char_not c "." Hs eq_refl).
Qed.

Lemma element_segments s : is_element s = true -> path_segments ("/" +:+ s) = [s].
Proof.
  intros Hs. unfold path_segments. cbn [String.append String.eqb drop_bytes].
  replace (drop_bytes 0 s) with s by (by destruct s). rewrite (element_split s Hs). cbn [mark_last].
  apply andb_true_iff in Hs as [Hne Hs]. apply negb_true_iff in Hne. rewrite Hne.
  unfold pathUnescape. by rewrite element_unescape.
Qed.

(** A match is one of the candidates. *)
Lemma omap_handler {H} (f : candidate H -> option (candidate H)) cs h :
  (forall c c', f c = Some c' -> cand_handler c' = cand_handler c) ->
  In h (map cand_handler (omap f cs)) -> In h (map cand_handler cs).
Proof.
  intros Hf. rewrite !in_map_iff. intros (c' & <- & Hc'). apply list_elem_of_In, list_elem_of_omap in Hc' as (c & Hc & Hfc).
  exists c. split; [by rewrite (Hf c c' Hfc)|by apply list_elem_of_In].
Qed.

Lemma matchPath_handler {H} path : forall (cs : list (candidate H)) c,
  matchPath cs path = Some c -> In (cand_handler c) (map cand_handler cs).
Proof.
  induction path as [|s path IH]; intros cs c; cbn [matchPath].
  - intros [Hc _]%find_some. by apply in_map.
  - destruct (matchPath (omap (step_literal s) cs) path) as [c1|] eqn:E1; [|destruct (String.eqb s "/");
      [|destruct (matchPath (omap (step_wildcard s) cs) path) as [c2|] eqn:E2]].
    + intros [= <-]. eapply omap_handler; [|by apply IH]. intros d d'. unfold step_literal. intros Hd.
      repeat case_match; simplify_eq; done.
    + intros [Hc _]%find_some. by apply in_map.
    + intros [= <-]. eapply omap_handler; [|by apply IH]. intros d d'. unfold step_wildcard. intros Hd.
      repeat case_match; simplify_eq; done.
    + intros [Hc _]%find_some. by apply in_map.
Qed.

(** A request is dispatched to the handler of a pattern for its method. *)
Lemma findHandler_method {H} (mux : list (string * H)) r h values :
  findHandler mux r = Dispatch h values ->
  exists p, In (p, h) mux /\ (pat_method (parsePattern p) = Method r \/ pat_method (parsePattern p) = "" \/
                             (Method r = "HEAD" /\ pat_method (parsePattern p) = "GET")).
Proof.
  assert (forall m path c, matchPath (candidates mux m) path = Some c ->
            exists p, In (p, cand_handler c) mux /\ pat_method (parsePattern p) = m) as Hm.
  { intros m path c Hc. apply matchPath_handler in Hc. apply in_map_iff in Hc as (c' & <- & Hc').
    apply list_elem_of_In, list_elem_of_omap in Hc' as ([p h'] & Hp & Hc'). apply list_elem_of_In in Hp.
    cbn zeta beta iota in Hc'. destruct (String.eqb_spec (pat_method (parsePattern p)) m); [|discriminate].
    injection Hc' as <-. eauto. }
  unfold findHandler. destruct (_ && _ && exactMatch _ _); [done|]. destruct (_ && _); [done|].
  destruct (match_request _ _ _) as [c|] eqn:Hc; [|by destruct (matchingMethods _ _)].
  intros [= <- _]. unfold match_request in Hc.
  destruct (matchPath (candidates mux (Method r)) _) as [c1|] eqn:E1.
  - injection Hc as <-. destruct (Hm _ _ _ E1) as (p & Hp & Hpm). eauto.
  - destruct (String.eqb_spec (Method r) "HEAD") as [Hh|]; [|destruct (Hm _ _ _ Hc) as (p & Hp & Hpm); eauto 6].
    destruct (matchPath (candidates mux "GET") _) as [c2|] eqn:E2.
    + injection Hc as <-. destruct (Hm _ _ _ E2) as (p & Hp & Hpm). eauto 8.
    + destruct (Hm _ _ _ Hc) as (p & Hp & Hpm). eauto 6.
Qed.
