(* ===== verification/Telemetry.v ===== *)
(** * Request metrics of the example services

    The services count their application requests with [client_golang], which is not in this
    repository: a vector of metrics by status code and method is a class with its documented
    behaviour. What is modelled here is what both services do with it before they serve. *)
From Stdlib Require Import ZArith Lia Ascii String.
From S2P Require Import Prelude GoStrings.
Local Open Scope Z_scope.
Local Open Scope stdpp_scope.

(** ** Interface *)

(** [CounterVec] and [HistogramVec] with the labels code and method. [Series v (code, method)] is
    how many requests the series counted, when it is exposed at all. [Instrument v status method]
    is [v] after [promhttp]'s middleware saw a request answered. *)
Class MetricVec := {
  Vec : Type;
  NewVec : Vec;
  GetMetricWithLabelValues : Vec -> string -> string -> result Vec;
  Instrument : Vec -> Z -> string -> Vec;
  Series : Vec -> string * string -> option Z;
  methodLabel : string -> string
}.

Class MetricVecLaws `{MetricVec} := {
  series_new k : Series NewVec k = None;
  series_get v code method v' k : GetMetricWithLabelValues v code method = Ok v' ->
    Series v' k = if decide (k = (code, method)) then Some (default 0 (Series v k)) else Series v k;
  series_instrument v status method k :
    Series (Instrument v status method) k =
    if decide (k = (Itoa status, methodLabel method)) then Some (default 0 (Series v k) + 1) else Series v k;
  label_get : methodLabel "GET" = "get";
  label_head : methodLabel "HEAD" = "head";
  label_post : methodLabel "POST" = "post"
}.

(** ** Definitions *)

Section telemetry.
Context `{MetricVec}.

Record metrics := mkMetrics { requests : Vec; latency : Vec }.

(** What [registry.Register] returned for the counter and for the histogram. *)
Record registration := mkRegistration { reg_requests : option error; reg_latency : option error }.

Definition register (r : registration) : option error :=
  match reg_requests r, reg_latency r with
  | Some err, _ | None, Some err => Some (WrapError (Sprintf ["registering metrics: "; Error err]) err)
  | None, None => None
  end.

(** The loop over [GetMetricWithLabelValues]; [describe] words its errors. *)
Fixpoint createSeries (describe : string -> string -> string -> string) (keys : list (string * string)) (m : metrics)
  : result metrics :=
  match keys with
  | [] => Ok m
  | (code, method) :: keys =>
      match GetMetricWithLabelValues (requests m) code method with
      | Err err => Err (WrapError (Sprintf [describe code method "request"; Error err]) err)
      | Ok requests' =>
          match GetMetricWithLabelValues (latency m) code method with
          | Err err => Err (WrapError (Sprintf [describe code method "latency"; Error err]) err)
          | Ok latency' => createSeries describe keys (mkMetrics requests' latency')
          end
      end
  end.

(** An instrumented handler that answered [status]. *)
Definition instrument (m : metrics) (status : Z) (method : string) : metrics :=
  mkMetrics (Instrument (requests m) status method) (Instrument (latency m) status method).

(** ** Lemmas *)

(** The series both vectors expose. *)
Definition exposes (m : metrics) (keys : list (string * string)) : Prop :=
  forall k, (is_Some (Series (requests m) k) <-> In k keys) /\ (is_Some (Series (latency m) k) <-> In k keys).

Context `{!MetricVecLaws}.

(** A series is created at zero, and one that exists is left as it is. *)
Lemma createSeries_series describe keys : forall m m' k,
  createSeries describe keys m = Ok m' ->
  Series (requests m') k = (if decide (k ∈ keys) then Some (default 0 (Series (requests m) k)) else Series (requests m) k) /\
  Series (latency m') k = (if decide (k ∈ keys) then Some (default 0 (Series (latency m) k)) else Series (latency m) k).
Proof.
  induction keys as [|[code method] keys IH]; intros m m' k; cbn [createSeries].
  - intros [= <-]. by rewrite !decide_False by apply not_elem_of_nil.
  - destruct (GetMetricWithLabelValues (requests m) code method) as [r|e] eqn:Hr; [|done].
    destruct (GetMetricWithLabelValues (latency m) code method) as [l|e] eqn:Hl; [|done].
    intros [Ha Hb]%(IH _ _ k). cbn [requests latency] in *. rewrite Ha, Hb.
    rewrite (series_get _ _ _ _ k Hr), (series_get _ _ _ _ k Hl). clear.
    repeat case_decide; (done || (exfalso; set_solver)).
Qed.

Lemma createSeries_exposes describe keys m k :
  createSeries describe keys (mkMetrics NewVec NewVec) = Ok m ->
  (is_Some (Series (requests m) k) <-> In k keys) /\ (is_Some (Series (latency m) k) <-> In k keys).
Proof.
  intros [Ha Hb]%(fun Hc => createSeries_series _ _ _ _ k Hc). rewrite Ha, Hb. cbn [requests latency].
  rewrite series_new, <- list_elem_of_In. case_decide as Hk; split; (split; [by intros []|intros; done || by eexists]).
Qed.

(** A request whose series exists adds to it and exposes no other. *)
Lemma instrument_exposes m keys status method :
  exposes m keys -> In (Itoa status, methodLabel method) keys -> exposes (instrument m status method) keys.
Proof.
  intros Hm Hin k. destruct (Hm k) as [Hr Hl]. cbn [instrument requests latency]. rewrite !series_instrument.
  case_decide as Hk; [|done]. subst k. split; (split; [done|by eexists]).
Qed.
End telemetry.
Arguments metrics {_}.

(** ** Vectors as finite maps *)

#[export] Instance map_vec : MetricVec := {|
  Vec := gmap (string * string) Z;
  NewVec := ∅;
  GetMetricWithLabelValues v code method := Ok (<[(code, method) := default 0 (v !! (code, method))]> v);
  Instrument v status method :=
    let label := if String.eqb method "GET" then "get" else if String.eqb method "HEAD" then "head" else
                 if String.eqb method "POST" then "post" else method in
    <[(Itoa status, label) := default 0 (v !! (Itoa status, label)) + 1]> v;
  Series v k := v !! k;
  methodLabel method :=
    if String.eqb method "GET" then "get" else if String.eqb method "HEAD" then "head" else
    if String.eqb method "POST" then "post" else method
|}.

#[export] Instance map_vec_laws : MetricVecLaws.
Proof.
  split; try done.
  - intros v code method v' k [= <-]. cbn [Series map_vec]. case_decide as Hk; [subst; by rewrite lookup_insert_eq|].
    by rewrite lookup_insert_ne.
  - intros v status method k. cbn [Series map_vec Instrument methodLabel]. case_decide as Hk.
    + subst. by rewrite lookup_insert_eq.
    + by rewrite lookup_insert_ne.
Qed.
