(* ===== verification/JsonDecode.v ===== *)
(** * Decoding a request's body ([json.Decoder] and [http.MaxBytesReader])

    [Decode] into a struct with one string field: the decoder finds the first JSON value of the
    body, checks it whole, and then assigns what it can. Any JSON value is read here, with Go's
    treatment of numbers, surrogates, bytes that are not UTF-8, nesting and trailing data. *)
From Stdlib Require Import ZArith Lia Ascii String.
From S2P Require Import Prelude GoStrings Utf8 GoStrconv GoJson JsonReader.
Local Open Scope Z_scope.
Local Open Scope stdpp_scope.

(** ** Definitions *)

(** What a handler can read of a body: its bytes, and whether they end in [io.EOF] or in an error. *)
Record Body := mkBody { body_text : string; body_complete : bool }.

(** [http.MaxBytesReader]: one byte more than [n] makes it fail after [n]. *)
Definition MaxBytesReader (b : Body) (n : Z) : Body :=
  if len (body_text b) <=? n then b else mkBody (take_bytes (Z.to_nat n) (body_text b)) false.

(** *** Strings *)

(** [utf8.AppendRune], for runes outside the basic plane too. *)
Definition encode_rune (r : Z) : string :=
  if r <? 0x10000 then EncodeRune r
  else char (Z.lor 0xF0 (Z.shiftr r 18)) +:+ char (Z.lor 0x80 (Z.land (Z.shiftr r 12) 0x3F)) +:+
       char (Z.lor 0x80 (Z.land (Z.shiftr r 6) 0x3F)) +:+ char (Z.lor 0x80 (Z.land r 0x3F)).
Definition replacement : string := encode_rune RuneError.

(** The second half of a surrogate pair, if the text goes on with one. *)
Definition low_surrogate (s : string) : option Z :=
  match s with
  | String b (String u (String h1 (String h2 (String h3 (String h4 _))))) =>
      if (code b =? 92) && (code u =? 117) then
        match hex4 h1 h2 h3 h4 with
        | Some r => if (0xDC00 <=? r) && (r <=? 0xDFFF) then Some r else None
        | None => None
        end
      else None
  | _ => None
  end.
Definition utf16_DecodeRune (hi lo : Z) : Z := Z.lor (Z.shiftl (hi - 0xD800) 10) (lo - 0xDC00) + 0x10000.

(** The rest of a string after its opening quote, unquoted; [skip] bytes of it are read already. *)
Fixpoint unquote (skip : nat) (s : string) : option (string * string) :=
  match s with
  | EmptyString => None
  | String c s' =>
      match skip with
      | S k => unquote k s'
      | O =>
          if code c =? 34 then Some (EmptyString, s')
          else if code c =? 92 then
            match s' with
            | EmptyString => None
            | String e t =>
                if code e =? 117 then
                  match t with
                  | String h1 (String h2 (String h3 (String h4 t'))) =>
                      match hex4 h1 h2 h3 h4 with
                      | Some r =>
                          if (0xD800 <=? r) && (r <=? 0xDFFF) then
                            match (if r <=? 0xDBFF then low_surrogate t' else None) with
                            | Some lo => '(x, rest) ← unquote 6 t'; Some (encode_rune (utf16_DecodeRune r lo) +:+ x, rest)
                            | None => '(x, rest) ← unquote 0 t'; Some (replacement +:+ x, rest)
                            end
                          else '(x, rest) ← unquote 0 t'; Some (encode_rune r +:+ x, rest)
                      | None => None
                      end
                  | _ => None
                  end
                else
                  match read_escape e with
                  | Some y => '(x, rest) ← unquote 0 t; Some (y +:+ x, rest)
                  | None => None
                  end
            end
          else if code c <? 0x20 then None
          else if code c <? 0x80 then '(x, rest) ← unquote 0 s'; Some (String c x, rest)
          else
            let '(r, width) := DecodeRune s in
            if (r =? RuneError) && Nat.eqb width 1 then '(x, rest) ← unquote 0 s'; Some (replacement +:+ x, rest)
            else '(x, rest) ← unquote (width - 1) s'; Some (take_bytes width s +:+ x, rest)
      end
  end.

(** *** Numbers *)

(** At least one digit. *)
Definition scan_digits (s : string) : option string :=
  match read_digits s with (EmptyString, _) => None | (_, rest) => Some rest end.

Definition scan_fraction (s : string) : option string :=
  match s with String c t => if code c =? 46 then scan_digits t else Some s | EmptyString => Some s end.
Definition scan_exponent (s : string) : option string :=
  match s with
  | String e t =>
      if lower e =? 101 then
        match t with
        | String c u => if (code c =? 43) || (code c =? 45) then scan_digits u else scan_digits t
        | EmptyString => None
        end
      else Some s
  | EmptyString => Some s
  end.
Definition scan_number (s : string) : option string :=
  let t := match s with String c t => if code c =? 45 then t else s | EmptyString => s end in
  rest ← match t with String c u => if code c =? 48 then Some u else scan_digits t | EmptyString => None end;
  rest ← scan_fraction rest;
  scan_exponent rest.

(** *** Values *)

(** What the decoder distinguishes in a value it has no field for. *)
Inductive value :=
  | NullValue
  | StringValue (s : string)
  | ObjectValue (fields : list (string * value))
  | OtherValue.

Definition maxNestingDepth : Z := 10000.

(** [depth] is the number of arrays and objects that are open. *)
Fixpoint scan_value (fuel : nat) (depth : Z) (s : string) : option (value * string) :=
  match fuel with
  | O => None
  | S fuel =>
      match skip_space s with
      | EmptyString => None
      | String c t as s =>
          if code c =? 34 then '(x, rest) ← unquote 0 t; Some (StringValue x, rest)
          else if code c =? 91 then
            if maxNestingDepth <? depth + 1 then None
            else
              match skip_space t with
              | String d u as t' =>
                  if code d =? 93 then Some (OtherValue, u)
                  else rest ← scan_elements fuel (depth + 1) t'; Some (OtherValue, rest)
              | EmptyString => None
              end
          else if code c =? 123 then
            if maxNestingDepth <? depth + 1 then None
            else
              match skip_space t with
              | String d u as t' =>
                  if code d =? 125 then Some (ObjectValue [], u)
                  else '(fields, rest) ← scan_fields fuel (depth + 1) t'; Some (ObjectValue fields, rest)
              | EmptyString => None
              end
          else if code c =? 110 then rest ← after "null" s; Some (NullValue, rest)
          else if code c =? 116 then rest ← after "true" s; Some (OtherValue, rest)
          else if code c =? 102 then rest ← after "false" s; Some (OtherValue, rest)
          else rest ← scan_number s; Some (OtherValue, rest)
      end
  end
with scan_elements (fuel : nat) (depth : Z) (s : string) : option string :=
  match fuel with
  | O => None
  | S fuel =>
      '(_, rest) ← scan_value fuel depth s;
      match skip_space rest with
      | String c t => if code c =? 44 then scan_elements fuel depth t else if code c =? 93 then Some t else None
      | EmptyString => None
      end
  end
with scan_fields (fuel : nat) (depth : Z) (s : string) : option (list (string * value) * string) :=
  match fuel with
  | O => None
  | S fuel =>
      match skip_space s with
      | String q s' =>
          if code q =? 34 then
            '(k, rest) ← unquote 0 s';
            match skip_space rest with
            | String colon t =>
                if code colon =? 58 then
                  '(v, rest) ← scan_value fuel depth t;
                  match skip_space rest with
                  | String c t =>
                      if code c =? 44 then '(fields, rest) ← scan_fields fuel depth t; Some ((k, v) :: fields, rest)
                      else if code c =? 125 then Some ([(k, v)], t) else None
                  | EmptyString => None
                  end
                else None
            | EmptyString => None
            end
          else None
      | EmptyString => None
      end
  end.

Definition enough (s : string) : nat := 2 * String.length s + 1.

(** *** The struct *)

(** Field names match with ASCII letters of either case. [foldName] also folds the few runes whose
    fold is an ASCII letter: the long s and the Kelvin sign, for names with an s or a k. *)
Definition ascii_lower (c : ascii) : Z := if (65 <=? code c) && (code c <=? 90) then code c + 32 else code c.
Fixpoint equal_fold (s t : string) : bool :=
  match s, t with
  | EmptyString, EmptyString => true
  | String c s', String d t' => (ascii_lower c =? ascii_lower d) && equal_fold s' t'
  | _, _ => false
  end.

(** The fields of the object in order: a string is assigned, null leaves the field alone, and
    anything else is an error, reported once the object is read. *)
Fixpoint assign (name : string) (fields : list (string * value)) (current : string) (failed : bool) : option string :=
  match fields with
  | [] => if failed then None else Some current
  | (k, v) :: rest =>
      if equal_fold k name then
        match v with
        | StringValue s => assign name rest s failed
        | NullValue => assign name rest current failed
        | _ => assign name rest current true
        end
      else assign name rest current failed
  end.

(** [json.NewDecoder(b).Decode(&v)], for a [v] whose one field is a string called [name]: the field,
    or [None] for an error. What follows the value is not looked at; a literal ends with the byte
    after it, or with the body. *)
Definition Decode (name : string) (b : Body) : option string :=
  match scan_value (enough (body_text b)) 0 (body_text b) with
  | Some (ObjectValue fields, _) => assign name fields "" false
  | Some (NullValue, EmptyString) => if body_complete b then Some EmptyString else None
  | Some (NullValue, _) => Some EmptyString
  | _ => None
  end.

(** ** Lemmas *)

(** *** The fuel is enough *)

Lemma skip_space_length s : (String.length (skip_space s) <= String.length s)%nat.
Proof. induction s as [|c s IH]; [done|]. cbn. destruct (is_space c); cbn; lia. Qed.

Lemma unquote_length s : forall skip x rest, unquote skip s = Some (x, rest) -> (String.length rest < String.length s)%nat.
Proof.
  remember (String.length s) as n eqn:Hn. revert s Hn. induction n as [n IH] using lt_wf_ind. intros s -> skip x rest.
  assert (forall s' skip' (y : string) x rest, (String.length s' < String.length s)%nat ->
    ('(x, rest) ← unquote skip' s'; Some (y +:+ x, rest)) = Some (x, rest) -> (String.length rest < String.length s)%nat) as Hstep.
  { intros s' skip' y x' rest' Hl ([x1 rest1] & Hu & [= <- <-])%bind_Some. apply (IH _ Hl s' eq_refl) in Hu. lia. }
  destruct s as [|c s']; [done|]. destruct skip as [|k]; cbn [unquote].
  2:{ intros Hu. apply (IH (String.length s')) in Hu; [|cbn; lia|done]. cbn. lia. }
  destruct (code c =? 34); [intros [= _ <-]; cbn; lia|].
  destruct (code c =? 92); [|destruct (code c <? 0x20); [done|destruct (code c <? 0x80)]].
  - destruct s' as [|e t]; [done|]. destruct (code e =? 117).
    + destruct t as [|h1 [|h2 [|h3 [|h4 t']]]]; try done. destruct (hex4 h1 h2 h3 h4) as [r|]; [|done].
      destruct ((0xD800 <=? r) && (r <=? 0xDFFF)); [destruct (if r <=? 0xDBFF then low_surrogate t' else None)|];
        apply Hstep; cbn; lia.
    + destruct (read_escape e); [|done]. apply Hstep. cbn. lia.
  - intros ([x1 rest1] & Hu & [= _ <-])%bind_Some. apply (IH (String.length s')) in Hu; [cbn; lia|cbn; lia|done].
  - destruct (DecodeRune (String c s')) as [r w]. destruct ((r =? RuneError) && Nat.eqb w 1); apply Hstep; cbn; lia.
Qed.

Lemma read_digits_length s : forall d rest, read_digits s = (d, rest) -> (String.length s = String.length d + String.length rest)%nat.
Proof.
  induction s as [|c s IH]; cbn; [by intros d rest [= <- <-]|]. destruct (is_digit c).
  - destruct (read_digits s) as [d' rest'] eqn:E. intros d rest [= <- <-]. cbn. by rewrite (IH d' rest').
  - by intros d rest [= <- <-].
Qed.

Lemma scan_digits_length s rest : scan_digits s = Some rest -> (String.length rest < String.length s)%nat.
Proof.
  unfold scan_digits. destruct (read_digits s) as [[|c d] rest'] eqn:E; [done|]. intros [= <-].
  apply read_digits_length in E. cbn in E. lia.
Qed.

Lemma scan_number_length s rest : scan_number s = Some rest -> (String.length rest < String.length s)%nat.
Proof.
  unfold scan_number. intros (r1 & H1 & (r2 & H2 & H3)%bind_Some)%bind_Some.
  assert (String.length r1 < String.length s)%nat as L1.
  { set (t := match s with String c t => if code c =? 45 then t else s | EmptyString => s end) in *.
    assert (String.length t <= String.length s)%nat as Ht by (unfold t; destruct s as [|c u]; [done|]; destruct (code c =? 45); cbn; lia).
    destruct t as [|c u]; [done|]. destruct (code c =? 48); [injection H1 as <-; cbn in Ht; lia|apply scan_digits_length in H1; lia]. }
  assert (String.length r2 <= String.length r1)%nat as L2.
  { destruct r1 as [|c u]; cbn in H2; [by injection H2 as <-|]. destruct (code c =? 46); [apply scan_digits_length in H2; cbn; lia|by injection H2 as <-]. }
  destruct r2 as [|e t]; cbn in H3; [injection H3 as <-; lia|]. destruct (lower e =? 101); [|injection H3 as <-; lia].
  destruct t as [|c u]; [done|]. destruct (_ || _); apply scan_digits_length in H3; cbn in *; lia.
Qed.

Lemma after_length word s rest : after word s = Some rest -> word <> "" -> (String.length rest < String.length s)%nat.
Proof.
  unfold after. destruct (HasPrefix s word) eqn:Hp; [|done]. intros [= <-] Hw. apply HasPrefix_spec in Hp as (u & ->).
  rewrite drop_append, length_append. destruct word; [done|]. cbn. lia.
Qed.

(** What is left of a text after a value, the elements of an array or the fields of an object. *)
Lemma scan_length fuel :
  (forall depth s v rest, scan_value fuel depth s = Some (v, rest) -> (String.length rest < String.length s)%nat) /\
  (forall depth s rest, scan_elements fuel depth s = Some rest -> (String.length rest < String.length s)%nat) /\
  (forall depth s fields rest, scan_fields fuel depth s = Some (fields, rest) -> (String.length rest < String.length s)%nat).
Proof.
  induction fuel as [|fuel (IHv & IHe & IHf)]; [done|]. split; [|split]; intros depth s.
  - intros v rest. cbn [scan_value]. pose proof (skip_space_length s) as Hs. destruct (skip_space s) as [|c t]; [done|].
    cbn [String.length] in Hs. pose proof (skip_space_length t) as Ht.
    repeat match goal with |- (if ?b then _ else _) = _ -> _ => destruct b; try done end.
    + intros ([x r] & Hu%unquote_length & [= _ <-])%bind_Some. lia.
    + destruct (skip_space t) as [|d u]; [done|]. cbn [String.length] in Ht. destruct (code d =? 93); [intros [= _ <-]; lia|].
      intros (r & He%IHe & [= _ <-])%bind_Some. cbn [String.length] in He. lia.
    + destruct (skip_space t) as [|d u]; [done|]. cbn [String.length] in Ht. destruct (code d =? 125); [intros [= _ <-]; lia|].
      intros ([fields r] & Hf%IHf & [= _ <-])%bind_Some. cbn [String.length] in Hf. lia.
    + intros (r & Ha & [= _ <-])%bind_Some. apply after_length in Ha; [|done]. cbn [String.length] in Ha. lia.
    + intros (r & Ha & [= _ <-])%bind_Some. apply after_length in Ha; [|done]. cbn [String.length] in Ha. lia.
    + intros (r & Ha & [= _ <-])%bind_Some. apply after_length in Ha; [|done]. cbn [String.length] in Ha. lia.
    + intros (r & Ha%scan_number_length & [= _ <-])%bind_Some. cbn [String.length] in Ha. lia.
  - intros rest. cbn [scan_elements]. intros ([v r] & Hv%IHv & He)%bind_Some. pose proof (skip_space_length r) as Hr.
    destruct (skip_space r) as [|c t]; [done|]. cbn [String.length] in Hr. destruct (code c =? 44); [apply IHe in He; lia|].
    destruct (code c =? 93); [injection He as <-; lia|done].
  - intros fields rest. cbn [scan_fields]. pose proof (skip_space_length s) as Hs. destruct (skip_space s) as [|q s']; [done|].
    cbn [String.length] in Hs. destruct (code q =? 34); [|done]. intros ([k r] & Hk%unquote_length & Hr)%bind_Some.
    pose proof (skip_space_length r) as Hl. destruct (skip_space r) as [|colon t]; [done|]. cbn [String.length] in Hl.
    destruct (code colon =? 58); [|done]. apply bind_Some in Hr as ([v r2] & Hv%IHv & Hr). pose proof (skip_space_length r2) as Hl2.
    destruct (skip_space r2) as [|c u]; [done|]. cbn [String.length] in Hl2.
    destruct (code c =? 44); [apply bind_Some in Hr as ([fs r3] & Hf%IHf & [= _ <-]); lia|].
    destruct (code c =? 125); [injection Hr as _ <-; lia|done].
Qed.

(** With more fuel than that nothing changes: running out never cuts a value short. *)
Lemma scan_fuel fuel : forall fuel', (fuel <= fuel')%nat ->
  (forall depth s, (2 * String.length s < fuel)%nat -> scan_value fuel' depth s = scan_value fuel depth s) /\
  (forall depth s, (2 * String.length s + 1 < fuel)%nat -> scan_elements fuel' depth s = scan_elements fuel depth s) /\
  (forall depth s, (2 * String.length s + 1 < fuel)%nat -> scan_fields fuel' depth s = scan_fields fuel depth s).
Proof.
  induction fuel as [|fuel IH]; [intros fuel' _; split; [|split]; intros depth s Hf; lia|].
  intros [|fuel'] Hle; [lia|]. destruct (IH fuel' ltac:(lia)) as (IHv & IHe & IHf). split; [|split]; intros depth s Hf.
  - cbn [scan_value]. pose proof (skip_space_length s) as Hs. destruct (skip_space s) as [|c t]; [done|]. cbn [String.length] in Hs.
    pose proof (skip_space_length t) as Ht. destruct (skip_space t) as [|d u]; [done|].
    cbn [String.length] in Ht. rewrite IHe, IHf by (cbn [String.length]; lia). done.
  - cbn [scan_elements]. rewrite IHv by lia. destruct (scan_value fuel depth s) as [[v r]|] eqn:E; [|done].
    apply scan_length in E. pose proof (skip_space_length r) as Hr. cbn. destruct (skip_space r) as [|c t]; [done|].
    cbn [String.length] in Hr. by rewrite IHe by lia.
  - cbn [scan_fields]. pose proof (skip_space_length s) as Hs. destruct (skip_space s) as [|q s']; [done|]. cbn [String.length] in Hs.
    destruct (code q =? 34); [|done]. destruct (unquote 0 s') as [[k r]|] eqn:Ek; [|done]. apply unquote_length in Ek. cbn.
    pose proof (skip_space_length r) as Hl. destruct (skip_space r) as [|colon t]; [done|]. cbn [String.length] in Hl.
    destruct (code colon =? 58); [|done]. rewrite IHv by lia. destruct (scan_value fuel depth t) as [[v r2]|] eqn:Ev; [|done].
    apply scan_length in Ev. cbn. pose proof (skip_space_length r2) as Hl2. destruct (skip_space r2) as [|c u]; [done|].
    cbn [String.length] in Hl2. by rewrite IHf by lia.
Qed.

(** *** A JSON text, however it is laid out, is decoded as what it says *)

Fixpoint shape (j : json) : value :=
  match j with
  | JNull => NullValue
  | JString s => StringValue s
  | JObject fields => ObjectValue (map (fun kv => (kv.1, shape kv.2)) fields)
  | _ => OtherValue
  end.

Fixpoint nesting (j : json) : Z :=
  match j with
  | JArray xs => 1 + foldr Z.max 0 (map nesting xs)
  | JObject fields => 1 + foldr Z.max 0 (map (fun kv => nesting kv.2) fields)
  | _ => 0
  end.
Definition nesting_elements (xs : list json) : Z := foldr Z.max 0 (map nesting xs).
Definition nesting_fields (fields : list (string * json)) : Z := foldr Z.max 0 (map (fun kv => nesting kv.2) fields).

Lemma encode_rune_basic r : r < 0x10000 -> encode_rune r = EncodeRune r.
Proof. intros Hr. unfold encode_rune. by rewrite (proj2 (Z.ltb_lt _ _) Hr). Qed.

Lemma unquote_skip k : forall s t, (k <= String.length s)%nat -> unquote k (take_bytes k s +:+ t) = unquote 0 t.
Proof.
  induction k as [|k IH]; intros [|c s] t Hk; try (cbn in Hk; lia); try done. cbn in Hk.
  change (take_bytes (S k) (String c s) +:+ t) with (String c (take_bytes k s +:+ t)). cbn [unquote]. apply IH. lia.
Qed.

Lemma unquote_safe c s : json_safe c = true -> code c < 0x80 ->
  unquote 0 (String c s) = '(x, rest) ← unquote 0 s; Some (String c x, rest).
Proof.
  intros Hc Hlt. unfold json_safe in Hc. cbn [unquote]. replace (code c =? 34) with false by lia.
  replace (code c =? 92) with false by lia. replace (code c <? 0x20) with false by lia.
  by replace (code c <? 0x80) with true by lia.
Qed.

Lemma unquote_escaped c s :
  json_safe c = false -> code c < 0x80 ->
  unquote 0 (json_escape c +:+ s) = '(x, rest) ← unquote 0 s; Some (String c x, rest).
Proof.
  intros Hs Hc. destruct c as [[] [] [] [] [] [] [] []]; try (by exfalso; vm_compute in Hc); try discriminate Hs; reflexivity.
Qed.

(** The rest of a rune, copied. *)
Lemma unquote_rune c k s t r : DecodeRune (String c s) = (r, S k) -> (r =? RuneError) && Nat.eqb (S k) 1 = false ->
  (0x80 <=? code c) = true -> (k <= String.length s)%nat ->
  unquote 0 (take_bytes (S k) (String c s) +:+ t) =
  '(x, rest) ← unquote 0 t; Some (take_bytes (S k) (String c s) +:+ x, rest).
Proof.
  intros Hd Hbad Hc Hk. destruct (DecodeRune_width c s r (S k) Hd Hbad) as (k' & [= <-] & Hcont & Hagree).
  change (take_bytes (S k) (String c s) +:+ t) with (String c (take_bytes k s +:+ t)).
  assert (agree k s (take_bytes k s +:+ t)) as Ha.
  { split; [rewrite length_append, length_take_bytes; lia|]. rewrite <- (length_take_bytes k s) at 2 by done.
    by rewrite take_append. }
  specialize (Hagree _ Ha). cbn [unquote]. replace (code c =? 34) with false by lia. replace (code c =? 92) with false by lia.
  replace (code c <? 0x20) with false by lia. replace (code c <? 0x80) with false by lia. rewrite Hagree, Hbad.
  replace (S k - 1)%nat with k by lia. rewrite unquote_skip by done.
  assert (take_bytes (S k) (String c (take_bytes k s +:+ t)) = take_bytes (S k) (String c s)) as ->; [|done].
  cbn [take_bytes]. destruct Ha as [_ <-]. done.
Qed.

Lemma unquote_separator r s : r = 0x2028 \/ r = 0x2029 ->
  unquote 0 (backslash +:+ "u202" +:+ hex_fixed 1 (Z.land r 0xF) +:+ s) = '(x, rest) ← unquote 0 s; Some (encode_rune r +:+ x, rest).
Proof. by intros [->| ->]. Qed.

Lemma unquote_json_body s : forall rest,
  valid_utf8 s = true -> unquote 0 (json_body 0 s +:+ dquote +:+ rest) = Some (s, rest).
Proof.
  remember (String.length s) as n eqn:Hn. revert s Hn.
  induction n as [n IH] using lt_wf_ind. intros [|c s] -> rest Hv; [done|].
  cbn [json_body]. destruct (Z.ltb_spec (code c) 0x80) as [Hc|Hc].
  - assert (valid_utf8 s = true) as Hs.
    { unfold valid_utf8 in Hv. cbn [valid_utf8_go DecodeRune] in Hv. rewrite (proj2 (Z.ltb_lt _ _) Hc) in Hv.
      by destruct ((code c =? RuneError) && Nat.eqb 1 1). }
    specialize (IH (String.length s) ltac:(cbn; lia) s eq_refl rest Hs). rewrite <- append_assoc.
    destruct (json_safe c) eqn:E.
    + change (String c "" +:+ ?t) with (String c t). by rewrite unquote_safe, IH.
    + by rewrite unquote_escaped, IH.
  - unfold valid_utf8 in Hv. cbn [valid_utf8_go] in Hv. destruct (DecodeRune (String c s)) as [r w] eqn:E.
    destruct ((r =? RuneError) && Nat.eqb w 1) eqn:Hbad; [done|].
    destruct (DecodeRune_width c s r w E Hbad) as (k & -> & Hk & _). replace (S k - 1)%nat with k in * by lia.
    rewrite (valid_utf8_skip k s Hk) in Hv. rewrite json_body_skip.
    pose proof (drop_length k s). destruct (continues_high k s Hk) as [_ Hl].
    specialize (IH (String.length (drop_bytes k s)) ltac:(cbn; lia) _ eq_refl rest Hv).
    assert (take_bytes (S k) (String c s) +:+ drop_bytes k s = String c s) as Hsplit by exact (take_drop_bytes (S k) (String c s)).
    destruct ((r =? 0x2028) || (r =? 0x2029)) eqn:Hsep.
    + destruct (DecodeRune_separator _ _ _ E) as [Hw He]; [lia|]. rewrite Hw in *. rewrite He in Hsplit. rewrite <- !append_assoc.
      rewrite unquote_separator, encode_rune_basic by lia. rewrite IH. cbn. by rewrite Hsplit.
    + rewrite <- append_assoc, (unquote_rune c k s _ r E Hbad), IH by (done || lia). cbn -[take_bytes]. by rewrite Hsplit.
Qed.

Lemma unquote_json_string s rest : valid_utf8 s = true ->
  exists t, json_string s +:+ rest = dquote +:+ t /\ unquote 0 t = Some (s, rest).
Proof.
  intros Hs. eexists. split; [|by apply (unquote_json_body s rest)]. unfold json_string. by rewrite <- !append_assoc.
Qed.

(** What may follow an integer without becoming part of it. *)
Definition number_ends (rest : string) : Prop :=
  match rest with String c _ => is_digit c = false /\ code c <> 46 /\ lower c <> 101 | EmptyString => True end.

Lemma dec_head n : 0 < n -> exists c s, dec n = String c s /\ is_digit c = true /\ code c <> 48.
Proof.
  unfold dec, num_digits. intros Hn. assert (n < 2 ^ Z.of_nat (S (Z.to_nat (Z.log2 n)))) as Hb.
  { rewrite Nat2Z.inj_succ, Z2Nat.id by apply Z.log2_nonneg. apply Z.log2_spec. lia. }
  revert Hb. generalize (S (Z.to_nat (Z.log2 n))). intros fuel. revert n Hn. induction fuel as [|fuel IH]; intros n Hn Hb.
  { change (2 ^ Z.of_nat 0) with 1 in Hb. lia. }
  cbn [num_digits_go]. destruct (Z.ltb_spec n 10) as [Hlt|Hge].
  - cbn [digits_fixed]. rewrite Z.mod_small by lia. exists (digit_char n), EmptyString. split; [done|].
    pose proof (code_digit_char n ltac:(lia)). split; [by rewrite is_digit_digit_char by lia|lia].
  - rewrite Nat2Z.inj_succ, Z.pow_succ_r in Hb by lia.
    destruct (IH (n / 10)) as (c & s & E & Hc); [apply Z.div_str_pos; lia|apply Z.div_lt_upper_bound; lia|].
    cbn [digits_fixed]. rewrite E. eauto.
Qed.

Lemma scan_dec n rest : 0 <= n -> number_ends rest ->
  exists c u, dec n +:+ rest = String c u /\ is_digit c = true /\
    (if code c =? 48 then Some u else scan_digits (String c u)) = Some rest.
Proof.
  intros Hn Hr. destruct (Z.eq_dec n 0) as [->|Hne]; [by exists (byte_of 48), rest|].
  destruct (dec_head n) as (c & s & E & Hd & Hc); [lia|]. exists c, (s +:+ rest). rewrite E. split; [done|]. split; [done|].
  rewrite (proj2 (Z.eqb_neq _ _) Hc). unfold scan_digits. change (String c (s +:+ rest)) with (String c s +:+ rest).
  rewrite read_digits_all; [done|rewrite <- E; apply dec_all_digits|]. by destruct rest as [|d rest]; [|destruct Hr].
Qed.

Lemma scan_ends rest : number_ends rest -> (r ← scan_fraction rest; scan_exponent r) = Some rest.
Proof.
  destruct rest as [|c rest]; [done|]. intros (_ & Hdot & He). unfold scan_fraction. rewrite (proj2 (Z.eqb_neq _ _) Hdot). cbn.
  by rewrite (proj2 (Z.eqb_neq _ _) He).
Qed.

Lemma scan_Itoa n rest : number_ends rest -> scan_number (Itoa n +:+ rest) = Some rest.
Proof.
  intros Hr. unfold Itoa, scan_number. destruct (Z.ltb_spec n 0).
  - destruct (scan_dec (- n) rest ltac:(lia) Hr) as (c & u & E & _ & Hs).
    change ((char 45 +:+ dec (- n)) +:+ rest) with (String (byte_of 45) (dec (- n) +:+ rest)).
    cbv iota beta. rewrite (code_byte_of 45), Z.eqb_refl by lia. rewrite E, Hs. cbn [mbind option_bind]. by apply scan_ends.
  - destruct (scan_dec n rest ltac:(lia) Hr) as (c & u & E & Hd%is_digit_code & Hs). rewrite E. cbv iota beta.
    replace (code c =? 45) with false by lia. rewrite Hs. cbn [mbind option_bind]. by apply scan_ends.
Qed.

Lemma scan_value_app fuel depth w s : space w = true -> scan_value fuel depth (w +:+ s) = scan_value fuel depth s.
Proof. intros Hw. destruct fuel; [done|]. cbn [scan_value]. by rewrite skip_space_app. Qed.
Lemma scan_value_space fuel depth s : scan_value fuel depth (skip_space s) = scan_value fuel depth s.
Proof. destruct fuel; [done|]. cbn [scan_value]. by rewrite skip_space_twice. Qed.
Lemma scan_elements_space fuel depth s : scan_elements fuel depth (skip_space s) = scan_elements fuel depth s.
Proof. destruct fuel; [done|]. cbn [scan_elements]. by rewrite scan_value_space. Qed.
Lemma scan_fields_space fuel depth s : scan_fields fuel depth (skip_space s) = scan_fields fuel depth s.
Proof. destruct fuel; [done|]. cbn [scan_fields]. by rewrite skip_space_twice. Qed.

Lemma scan_string fuel depth s rest :
  valid_utf8 s = true -> scan_value (S fuel) depth (json_string s +:+ rest) = Some (StringValue s, rest).
Proof.
  intros Hs. destruct (unquote_json_string s rest Hs) as (t & -> & Hr).
  change (scan_value (S fuel) depth (dquote +:+ t)) with ('(x, rest) ← unquote 0 t; Some (StringValue x, rest)). by rewrite Hr.
Qed.

Lemma scan_array fuel depth t rest :
  depth + 1 <= maxNestingDepth -> opens 93 t -> scan_elements fuel (depth + 1) (t +:+ rest) = Some rest ->
  scan_value (S fuel) depth (("[" +:+ t) +:+ rest) = Some (OtherValue, rest).
Proof.
  intros Hd Ho Hr. destruct (Ho rest) as (c & u & E & Hc). rewrite <- scan_elements_space, E in Hr.
  change (("[" +:+ t) +:+ rest) with (String "[" (t +:+ rest)). cbn [scan_value skip_space]. known_byte.
  rewrite (proj2 (Z.ltb_ge _ _) Hd), E. rewrite (proj2 (Z.eqb_neq _ _) Hc). by rewrite Hr.
Qed.

Lemma scan_object fuel depth t rest fields :
  depth + 1 <= maxNestingDepth -> opens 125 t -> scan_fields fuel (depth + 1) (t +:+ rest) = Some (fields, rest) ->
  scan_value (S fuel) depth (("{" +:+ t) +:+ rest) = Some (ObjectValue fields, rest).
Proof.
  intros Hd Ho Hr. destruct (Ho rest) as (c & u & E & Hc). rewrite <- scan_fields_space, E in Hr.
  change (("{" +:+ t) +:+ rest) with (String "{" (t +:+ rest)). cbn [scan_value skip_space]. known_byte.
  rewrite (proj2 (Z.ltb_ge _ _) Hd), E. rewrite (proj2 (Z.eqb_neq _ _) Hc). by rewrite Hr.
Qed.

Lemma scan_int fuel depth n rest :
  number_ends rest -> scan_value (S fuel) depth (Itoa n +:+ rest) = Some (OtherValue, rest).
Proof.
  intros Hr. destruct (Itoa_cons n) as (c & u & E & Hc). pose proof (scan_Itoa n rest Hr) as Hi. rewrite E in *.
  change (String c u +:+ rest) with (String c (u +:+ rest)) in *. cbn [scan_value skip_space].
  assert (is_space c = false /\ code c <> 34 /\ code c <> 91 /\ code c <> 123 /\ code c <> 110 /\ code c <> 116 /\ code c <> 102)
    as (Hs & H1 & H2 & H3 & H4 & H5 & H6).
  { destruct Hc as [->|Hc%is_digit_code]; [by vm_compute|]. unfold is_space. repeat split; lia. }
  rewrite Hs. rewrite !(proj2 (Z.eqb_neq _ _)) by done. by rewrite Hi.
Qed.

Lemma scan_word fuel depth word rest :
  In word ["null"; "true"; "false"] ->
  scan_value (S fuel) depth (word +:+ rest) = Some (if String.eqb word "null" then NullValue else OtherValue, rest).
Proof.
  intros Hw. assert (after word (word +:+ rest) = Some rest) as Ha.
  { unfold after. by rewrite (proj2 (HasPrefix_spec _ _) (ex_intro _ rest eq_refl)), drop_append. }
  repeat destruct Hw as [<-|Hw]; [| | |done].
  - change (scan_value _ _ _) with (rest' ← after "null" ("null" +:+ rest); Some (NullValue, rest')). by rewrite Ha.
  - change (scan_value _ _ _) with (rest' ← after "true" ("true" +:+ rest); Some (OtherValue, rest')). by rewrite Ha.
  - change (scan_value _ _ _) with (rest' ← after "false" ("false" +:+ rest); Some (OtherValue, rest')). by rewrite Ha.
Qed.

Lemma scan_field_key fuel depth w k s :
  valid_utf8 k = true -> space w = true ->
  scan_fields (S fuel) depth (w +:+ json_string k +:+ ":" +:+ s) =
  ('(v, rest) ← scan_value fuel depth s;
   match skip_space rest with
   | String c t =>
       if code c =? 44 then '(fields, rest) ← scan_fields fuel depth t; Some ((k, v) :: fields, rest)
       else if code c =? 125 then Some ([(k, v)], t) else None
   | EmptyString => None
   end).
Proof.
  intros Hk Hw. cbn [scan_fields]. rewrite skip_space_app by done.
  destruct (unquote_json_string k (":" +:+ s) Hk) as (u & -> & Hu).
  change (skip_space (dquote +:+ u)) with (String (byte_of 34) u). cbv iota beta.
  rewrite (code_byte_of 34), Z.eqb_refl by lia. by rewrite Hu.
Qed.

Lemma number_ends_space w c s :
  space w = true -> is_digit c = false -> code c <> 46 -> lower c <> 101 -> number_ends (w +:+ String c s).
Proof.
  destruct w as [|d w]; [done|]. unfold space. cbn. intros [Hd _]%andb_true_iff _ _ _.
  unfold is_space in Hd. split; [unfold is_digit; lia|]. split; [lia|]. unfold lower.
  destruct (Z.eqb_spec (code d) 32) as [->|]; [done|]. destruct (Z.eqb_spec (code d) 9) as [->|]; [done|].
  destruct (Z.eqb_spec (code d) 10) as [->|]; [done|]. destruct (Z.eqb_spec (code d) 13) as [->|]; [done|]. done.
Qed.

Lemma max_nonneg ns : 0 <= foldr Z.max 0 ns.
Proof. induction ns; cbn; lia. Qed.

(** What is rendered is scanned, with fuel twice its length, whatever comes after it. *)
Lemma scan_renders :
  (forall j t, renders j t -> forall fuel depth rest, (2 * String.length t <= fuel)%nat -> number_ends rest ->
     depth + nesting j <= maxNestingDepth -> scan_value fuel depth (t +:+ rest) = Some (shape j, rest)) /\
  (forall xs t, renders_elements xs t -> forall fuel depth rest, (2 * String.length t <= fuel)%nat ->
     depth + nesting_elements xs <= maxNestingDepth -> scan_elements fuel depth (t +:+ rest) = Some rest) /\
  (forall fields t, renders_fields fields t -> forall fuel depth rest, (2 * String.length t <= fuel)%nat ->
     depth + nesting_fields fields <= maxNestingDepth ->
     scan_fields fuel depth (t +:+ rest) = Some (map (fun kv => (kv.1, shape kv.2)) fields, rest)).
Proof.
  apply renders_ind_all.
  - intros [|fuel] depth rest Hf _ _; [cbn in Hf; lia|]. by apply (scan_word fuel depth "null"); left.
  - intros b [|fuel] depth rest Hf _ _; [by destruct b; cbn in Hf; lia|].
    by destruct b; [apply (scan_word fuel depth "true"); right; left|apply (scan_word fuel depth "false"); right; right; left].
  - intros n [|fuel] depth rest Hf Hr _; [|by apply scan_int].
    destruct (Itoa_cons n) as (c & u & E & _). rewrite E in Hf. cbn in Hf. lia.
  - intros s Hs [|fuel] depth rest Hf Hr _; [cbn in Hf; lia|by apply scan_string].
  - intros [|fuel] depth rest Hf _ Hd; [cbn in Hf; lia|]. cbn [nesting foldr map] in Hd.
    cbn [scan_value skip_space append]. known_byte. by rewrite (proj2 (Z.ltb_ge _ _)) by lia.
  - intros [|fuel] depth rest Hf _ Hd; [cbn in Hf; lia|]. cbn [nesting foldr map] in Hd.
    cbn [scan_value skip_space append]. known_byte. by rewrite (proj2 (Z.ltb_ge _ _)) by lia.
  - intros xs t Ht IH [|fuel] depth rest Hf _ Hd; [cbn in Hf; lia|]. cbn [nesting] in Hd. change (foldr _ _ _) with (nesting_elements xs) in Hd.
    pose proof (max_nonneg (map nesting xs)). fold (nesting_elements xs) in *.
    apply scan_array; [lia|by eapply renders_elements_opens|]. apply IH; [cbn in Hf; lia|lia].
  - intros fields t Ht IH [|fuel] depth rest Hf _ Hd; [cbn in Hf; lia|]. cbn [nesting] in Hd. change (foldr _ _ _) with (nesting_fields fields) in Hd.
    pose proof (max_nonneg (map (fun kv => nesting kv.2) fields)). fold (nesting_fields fields) in *.
    apply scan_object; [lia|by eapply renders_fields_opens|]. apply IH; [cbn in Hf; lia|lia].
  - intros x t w w' Hx IH Hw Hw' fuel depth rest Hf Hd. rewrite !length_append in Hf. cbn in Hf, Hd.
    destruct fuel as [|fuel]; [lia|]. cbn [scan_elements]. rewrite <- !append_assoc, scan_value_app by done.
    rewrite IH; [|lia|by apply number_ends_space|lia]. cbn. by rewrite skip_space_app.
  - intros x t w xs ts Hx IHx Hw Hts IHs fuel depth rest Hf Hd. rewrite !length_append in Hf. cbn in Hf.
    unfold nesting_elements in Hd. cbn [map foldr] in Hd. fold (nesting_elements xs) in Hd.
    destruct fuel as [|fuel]; [lia|]. cbn [scan_elements]. rewrite <- !append_assoc, scan_value_app by done.
    rewrite IHx; [|lia|by apply (number_ends_space "")|lia]. cbn -[skip_space is_space code Z.eqb].
    known_byte. by rewrite IHs by lia.
  - intros k v t w w' w'' Hk Hv IH Hw Hw' Hw'' fuel depth rest Hf Hd. rewrite !length_append in Hf. cbn in Hf, Hd.
    destruct fuel as [|fuel]; [lia|]. rewrite <- !append_assoc, scan_field_key, scan_value_app by done.
    rewrite IH; [|lia|by apply number_ends_space|lia]. cbn. by rewrite skip_space_app.
  - intros k v t w w' fields ts Hk Hv IHv Hw Hw' Hts IHs fuel depth rest Hf Hd. rewrite !length_append in Hf. cbn in Hf.
    unfold nesting_fields in Hd. cbn [map foldr snd] in Hd. fold (nesting_fields fields) in Hd.
    destruct fuel as [|fuel]; [lia|]. rewrite <- !append_assoc, scan_field_key, scan_value_app by done.
    rewrite IHv; [|lia|by apply (number_ends_space "")|lia]. cbn -[skip_space is_space code Z.eqb].
    known_byte. by rewrite IHs by lia.
Qed.

(** A body that starts with an object decodes to the fields of that object, whatever follows it. *)
Lemma Decode_object name w t rest complete fields :
  renders (JObject fields) t -> nesting (JObject fields) <= maxNestingDepth -> space w = true ->
  Decode name (mkBody (w +:+ t +:+ rest) complete) = assign name (map (fun kv => (kv.1, shape kv.2)) fields) "" false.
Proof.
  intros Ht Hn Hw. unfold Decode. cbn [body_text].
  assert (scan_value (enough (w +:+ t +:+ rest)) 0 (w +:+ t +:+ rest) =
          Some (ObjectValue (map (fun kv => (kv.1, shape kv.2)) fields), rest)) as ->; [|done].
  rewrite scan_value_app by done. unfold enough. rewrite !length_append. cbn [nesting] in Hn.
  change (foldr _ _ _) with (nesting_fields fields) in Hn. pose proof (max_nonneg (map (fun kv => nesting kv.2) fields)).
  fold (nesting_fields fields) in *. inversion Ht as [| | | | | | |? t' Hf]; subst.
  - rewrite Nat.add_1_r. cbn [scan_value skip_space append]. known_byte. by rewrite (proj2 (Z.ltb_ge _ _)).
  - rewrite Nat.add_1_r. apply scan_object; [lia|by eapply renders_fields_opens|].
    apply (proj2 (proj2 scan_renders)); [done| |lia]. cbn [String.length append]. lia.
Qed.

(** Reading through the limit leaves a value within it alone. *)
Lemma MaxBytesReader_prefix n s rest complete : len s <= n ->
  exists rest' complete', MaxBytesReader (mkBody (s +:+ rest) complete) n = mkBody (s +:+ rest') complete'.
Proof.
  intros Hs. unfold MaxBytesReader. cbn [body_text]. destruct (len (s +:+ rest) <=? n); [by exists rest, complete|].
  exists (take_bytes (Z.to_nat n - String.length s) rest), false. f_equal. unfold len in Hs.
  assert (String.length s <= Z.to_nat n)%nat as Hl by lia. clear Hs. revert Hl. generalize (Z.to_nat n). clear.
  intros k. revert s. induction k as [|k IH]; intros [|c s] Hl; cbn in *; try lia; [done..|].
  by rewrite IH by lia.
Qed.
