(* ===== verification/Shortlink.v ===== *)
(** * The example service shortlink ([services/shortlink/store.go], [handler.go])

    A store of short links shared by every request of a server: requests run concurrently, and an
    add looks for an unused random code before it stores its link. The steps of an add are
    interleaved with those of all the others; one step is one hold of the store's lock, or one read
    of random bytes. *)
From Stdlib Require Import ZArith Lia Ascii String.
From stdpp Require Import relations.
From S2P Require Import Prelude GoStrings GoUrl Utf8 GoJson JsonReader Http JsonDecode.
Local Open Scope Z_scope.
Local Open Scope stdpp_scope.

(** ** Definitions *)

Definition codeLength : nat := 7.
Definition codeAlphabet : string := "abcdefghijkmnopqrstuvwxyzABCDEFGHJKLMNPQRSTUVWXYZ23456789".
Definition codeAttempts : nat := 5.

Abbreviation links_map := (gmap string string).
Definition newStore : links_map := ∅.

(** [codeAlphabet[int(b)%len(codeAlphabet)]]; the index is in range, so the default is not used. *)
Definition code_char (b : Z) : ascii :=
  default zero (String.get (Z.to_nat (b mod len codeAlphabet)) codeAlphabet).

(** [random] is what [rand.Read] returned: the filled buffer, or an error. *)
Definition randomCode (random : result (list Z)) : result string :=
  match random with
  | Err err => Err (WrapError (Sprintf ["reading random bytes: "; Error err]) err)
  | Ok buf => Ok (string_of_list_ascii (map code_char buf))
  end.

(** A call of [add], run alone; [randoms k] is what its [k]-th read of random bytes returned. *)
Fixpoint add_from (attempts : nat) (randoms : nat -> result (list Z)) (k : nat) (links : links_map) (target : string)
  : links_map * result string :=
  match attempts with
  | O => (links, Err (ErrorString "no unused code found"))
  | S attempts' =>
      match randomCode (randoms k) with
      | Err err => (links, Err err)
      | Ok code =>
          match links !! code with
          | None => (<[code := target]> links, Ok code)
          | Some _ => add_from attempts' randoms (S k) links target
          end
      end
  end.
Definition add (randoms : nat -> result (list Z)) (links : links_map) (target : string) : links_map * result string :=
  add_from codeAttempts randoms 0 links target.

Definition get (links : links_map) (code : string) : option string := links !! code.

(** *** Interleaved *)

(** Where a call of [add] is: about to draw a code with this many attempts left, holding a code it
    drew, or returned. *)
Inductive add_state :=
  | Drawing (target : string) (tries : nat)
  | Holding (target code : string) (tries : nat)
  | Returned (target : string) (r : result string).

Definition add_step (random : result (list Z)) (links : links_map) (st : add_state) : links_map * add_state :=
  match st with
  | Drawing target O => (links, Returned target (Err (ErrorString "no unused code found")))
  | Drawing target (S tries) =>
      match randomCode random with
      | Err err => (links, Returned target (Err err))
      | Ok code => (links, Holding target code tries)
      end
  | Holding target code tries =>
      match links !! code with
      | None => (<[code := target]> links, Returned target (Ok code))
      | Some _ => (links, Drawing target tries)
      end
  | Returned _ _ => (links, st)
  end.

Record server := mkServer { links : links_map; calls : list add_state }.

(** [rand.Read] fills the whole buffer with bytes, or fails. *)
Definition fills (random : result (list Z)) : Prop :=
  match random with Ok buf => length buf = codeLength /\ Forall (fun b => 0 <= b < 256) buf | Err _ => True end.

Inductive server_step : server -> server -> Prop :=
  | step_call s i st random links' st' :
      calls s !! i = Some st -> fills random -> add_step random (links s) st = (links', st') ->
      server_step s (mkServer links' (<[i := st']> (calls s)))
  | step_request s target : server_step s (mkServer (links s) (calls s ++ [Drawing target codeAttempts])).

(** *** The specification of concurrent adds

    A server whose adds happen at once: a call waits, then its whole [add] is one step. *)
Inductive atomic_call :=
  | Waiting (target : string)
  | Answered (target : string) (r : result string).

Record atomic_server := mkAtomic { atomic_links : links_map; atomic_calls : list atomic_call }.

Inductive atomic_step : atomic_server -> atomic_server -> Prop :=
  | atomic_add s i target randoms links' r :
      atomic_calls s !! i = Some (Waiting target) -> (forall k, fills (randoms k)) ->
      add randoms (atomic_links s) target = (links', r) ->
      atomic_step s (mkAtomic links' (<[i := Answered target r]> (atomic_calls s)))
  | atomic_request s target : atomic_step s (mkAtomic (atomic_links s) (atomic_calls s ++ [Waiting target])).

(** What a client sees of a call, and of the server. *)
Definition observe_call (st : add_state) : atomic_call :=
  match st with
  | Drawing target _ | Holding target _ _ => Waiting target
  | Returned target r => Answered target r
  end.
Definition observe (s : server) : atomic_server := mkAtomic (links s) (map observe_call (calls s)).

(** The steps a call has left, at most. *)
Definition steps_left (st : add_state) : nat :=
  match st with
  | Drawing _ tries => S (tries + tries)
  | Holding _ _ tries => S (S (tries + tries))
  | Returned _ _ => O
  end.

(** *** The handlers *)

Inductive response :=
  | Created (code short url : string)
  | BadRequest (message : string)
  | ServerError (message : string)
  | NotFound
  | Found (target : string).

Definition status (r : response) : Z :=
  match r with
  | Created _ _ _ => 201 | BadRequest _ => 400 | ServerError _ => 500 | NotFound => 404 | Found _ => 302
  end.

Definition maxBodyBytes : Z := Z.shiftl 1 16.

(** The JSON name of the field of [createRequest]. *)
Definition createRequest_url : string := "url".

Definition decodeRequest (body : Body) : option string := Decode createRequest_url (MaxBytesReader body maxBodyBytes).

(** Only an absolute http or https URL is stored, as [URL.String] writes it. *)
Definition check_url `{HostRules} (u : string) : response + string :=
  let bad := inl (BadRequest "url must be an absolute http or https URL") in
  match Parse u with
  | None => bad
  | Some target =>
      if (negb (String.eqb (Scheme target) "http") && negb (String.eqb (Scheme target) "https"))
         || String.eqb (Host target) "" then bad
      else inr (URL_String target)
  end.

Definition not_json : response :=
  BadRequest (Sprintf ["the body must be JSON like {"; dquote; "url"; dquote; ": "; dquote; "https://example.com"; dquote; "}"]).

(** The first half of [createLink]. *)
Definition link_target `{HostRules} (body : Body) : response + string :=
  match decodeRequest body with
  | None => inl not_json
  | Some u => check_url u
  end.

(** The second half: what [add] returned, answered. *)
Definition created (target : string) (added : result string) : response :=
  match added with
  | Err _ => ServerError "could not create a link"
  | Ok code => Created code ("/" +:+ code) target
  end.

(** The fields of [createResponse] under their JSON names, and the text [json.Encoder] writes of it. *)
Definition createResponse (code short url : string) : json :=
  JObject [("code", JString code); ("short", JString short); ("url", JString url)].
Definition created_text (code short url : string) : string := Marshal (createResponse code short url) +:+ newline.

Definition createLink `{HostRules} (randoms : nat -> result (list Z)) (links : links_map) (body : Body)
  : links_map * response :=
  match link_target body with
  | inl r => (links, r)
  | inr target => let '(links', added) := add randoms links target in (links', created target added)
  end.

(** The [Location] header [http.Redirect] sets: [path] is the request's, which starts with a slash. *)
Fixpoint hexEscapeNonASCII (s : string) : string :=
  match s with
  | EmptyString => EmptyString
  | String c s' => (if 0x80 <=? code c then "%" +:+ hex_fixed 2 (code c) else String c EmptyString) +:+ hexEscapeNonASCII s'
  end.

Definition relative_location (path url : string) : string :=
  let oldpath := if String.eqb path "" then "/" else path in
  let olddir := match cut_last "/" oldpath with Some (dir, _) => dir +:+ "/" | None => EmptyString end in
  let url := if HasPrefix url "/" then url else olddir +:+ url in
  let '(url, query) := cut "?" url in
  let query := match query with Some q => "?" +:+ q | None => EmptyString end in
  let cleaned := Clean url in
  (if HasSuffix url "/" && negb (HasSuffix cleaned "/") then cleaned +:+ "/" else cleaned) +:+ query.

Definition Redirect `{HostRules} (path url : string) : string :=
  let relative := match Parse url with
                  | Some u => String.eqb (Scheme u) "" && String.eqb (Host u) ""
                  | None => false
                  end in
  hexEscapeNonASCII (if relative then relative_location path url else url).

(** The [Location] header of an answer to a request of this path. *)
Definition Location `{HostRules} (path : string) (r : response) : option string :=
  match r with
  | Created code _ _ => Some ("/" +:+ code)
  | Found target => Some (Redirect path target)
  | _ => None
  end.

Definition followLink (links : links_map) (code : string) : response :=
  match get links code with None => NotFound | Some target => Found target end.

(** ** Lemmas *)

Definition in_alphabet (c : ascii) : bool := existsb (Ascii.eqb c) (list_ascii_of_string codeAlphabet).
Definition is_code (s : string) : bool :=
  Nat.eqb (String.length s) codeLength && forallb in_alphabet (list_ascii_of_string s).

Lemma code_char_ok b : in_alphabet (code_char b) = true.
Proof.
  unfold code_char. pose proof (Z.mod_pos_bound b (len codeAlphabet) ltac:(reflexivity)) as Hb.
  change (len codeAlphabet) with 57 in *.
  assert (forallb (fun i => in_alphabet (default zero (String.get i codeAlphabet))) (seq 0 57) = true) as Hall
    by (vm_compute; reflexivity).
  apply (proj1 (forallb_forall _ _) Hall). apply in_seq. lia.
Qed.

Lemma randomCode_ok random code : fills random -> randomCode random = Ok code -> is_code code = true.
Proof.
  destruct random as [buf|e]; [|done]. intros [Hl _] [= <-]. unfold is_code.
  rewrite list_ascii_of_string_of_list_ascii. apply andb_true_iff. split.
  - apply Nat.eqb_eq. rewrite <- Hl. clear Hl. induction buf as [|b buf IH]; [done|]. simpl. by rewrite IH.
  - apply forallb_forall. intros c (b & <- & _)%in_map_iff. apply code_char_ok.
Qed.

(** A call of [add] run on its own, step by step: a new code is drawn after a collision. *)
Fixpoint run_alone (fuel : nat) (randoms : nat -> result (list Z)) (k : nat) (links : links_map) (st : add_state)
  : links_map * add_state :=
  match fuel with
  | O => (links, st)
  | S fuel' =>
      let '(links', st') := add_step (randoms k) links st in
      run_alone fuel' randoms (match st with Holding _ _ _ => S k | _ => k end) links' st'
  end.

Lemma run_alone_returned fuel randoms : forall k links target r,
  run_alone fuel randoms k links (Returned target r) = (links, Returned target r).
Proof. induction fuel as [|fuel IH]; intros k links target r; [done|]. simpl. apply IH. Qed.

(** It does what [add] does, in at most two steps per attempt and one more. *)
Lemma run_alone_add attempts : forall randoms k links target,
  run_alone (S (attempts + attempts)) randoms k links (Drawing target attempts) =
  ((add_from attempts randoms k links target).1, Returned target (add_from attempts randoms k links target).2).
Proof.
  induction attempts as [|n IH]; intros randoms k links target; [done|].
  replace (S (S n + S n)) with (S (S (S (n + n)))) by lia. remember (S (n + n)) as m eqn:Em.
  cbn [run_alone add_step add_from]. destruct (randomCode (randoms k)) as [code|e]; [|cbn; by rewrite run_alone_returned].
  cbn [add_step]. destruct (links !! code); [|cbn; by rewrite run_alone_returned]. subst m. apply IH.
Qed.

(** What holds of a server that started empty: the links are exactly those returned, each under
    its own call's code. *)
Definition served (s : server) : Prop :=
  (forall i target code, calls s !! i = Some (Returned target (Ok code)) -> links s !! code = Some target) /\
  (forall code target, links s !! code = Some target ->
     exists i, calls s !! i = Some (Returned target (Ok code))) /\
  (forall i j ti tj code, calls s !! i = Some (Returned ti (Ok code)) -> calls s !! j = Some (Returned tj (Ok code)) -> i = j) /\
  (forall i target code tries, calls s !! i = Some (Holding target code tries) -> is_code code = true) /\
  (forall i target code, calls s !! i = Some (Returned target (Ok code)) -> is_code code = true).

(** What one step of a call does to the links. *)
Lemma add_step_cases random links st links' st' :
  fills random -> add_step random links st = (links', st') ->
  (links' = links /\ match st' with
                     | Returned target (Ok code) => st = st'
                     | Holding _ code _ => is_code code = true
                     | _ => True
                     end /\ (forall target code, st = Returned target (Ok code) -> st' = st)) \/
  (exists target code tries, st = Holding target code tries /\ links !! code = None /\
     links' = <[code := target]> links /\ st' = Returned target (Ok code)).
Proof.
  intros Hf. destruct st as [target [|n]|target code n|target r]; cbn [add_step].
  - intros [= <- <-]. by left.
  - destruct (randomCode random) as [code|e] eqn:E; intros [= <- <-]; left; [|done].
    split; [done|]. split; [by eapply randomCode_ok|done].
  - destruct (links !! code) eqn:E; intros [= <- <-]; [by left|]. right. eauto 10.
  - intros [= <- <-]. left. split; [done|]. split; [by destruct r|done].
Qed.

Lemma server_step_links s s' : server_step s s' -> links s ⊆ links s'.
Proof.
  destruct 1 as [s i st random links' st' _ Hf Hst|s target]; [|done].
  apply add_step_cases in Hst as [(-> & _)|(target & code & tries & _ & Hn & -> & _)]; [done| |done].
  cbn [links]. by apply insert_subseteq.
Qed.

Lemma served_empty : served (mkServer newStore []).
Proof. repeat split; intros; simpl in *; try done; by rewrite lookup_empty in *. Qed.

(** A step that returns no new code and stores nothing. *)
Lemma served_same s calls' :
  (forall i target code, calls' !! i = Some (Returned target (Ok code)) <-> calls s !! i = Some (Returned target (Ok code))) ->
  (forall i target code tries, calls' !! i = Some (Holding target code tries) -> is_code code = true) ->
  served s -> served (mkServer (links s) calls').
Proof.
  intros Hret Hhold (H1 & H2 & H3 & _ & H5). repeat split; cbn [links calls].
  - intros i target code. rewrite Hret. apply H1.
  - intros code target Hl. destruct (H2 code target Hl) as [i Hi]. exists i. by apply Hret.
  - intros i j ti tj code. rewrite !Hret. apply H3.
  - done.
  - intros i target code. rewrite Hret. apply H5.
Qed.

(** The step that stores a link under a code that was free. *)
Lemma served_store s i target code tries :
  calls s !! i = Some (Holding target code tries) -> links s !! code = None -> served s ->
  served (mkServer (<[code := target]> (links s)) (<[i := Returned target (Ok code)]> (calls s))).
Proof.
  intros Hi Hfree (H1 & H2 & H3 & H4 & H5).
  assert (forall j t c, calls s !! j = Some (Returned t (Ok c)) -> c <> code) as Hne.
  { intros j t c Hj ->. apply H1 in Hj. congruence. }
  repeat split; cbn [links calls].
  - intros j t c [(-> & [= <- <-] & _)|[_ Hj]]%list_lookup_insert_Some; [by rewrite lookup_insert_eq|].
    rewrite lookup_insert_ne by (symmetry; by eapply Hne). by eapply H1.
  - intros c t [[<- <-]|[Hc Hl]]%lookup_insert_Some.
    + exists i. apply list_lookup_insert_Some. left. repeat split. by eapply lookup_lt_Some.
    + destruct (H2 c t Hl) as [j Hj]. exists j. apply list_lookup_insert_Some. right. split; [|done].
      intros ->. congruence.
  - intros j k tj tk c [(-> & [= <- <-] & _)|[Hij Hj]]%list_lookup_insert_Some
      [(-> & [= <-] & _)|[Hik Hk]]%list_lookup_insert_Some; [done|by eapply Hne in Hk| |by eapply H3].
    subst. by eapply Hne in Hj.
  - intros j t c n [(_ & ? & _)|[_ Hj]]%list_lookup_insert_Some; [done|by eapply H4].
  - intros j t c [(-> & [= <- <-] & _)|[_ Hj]]%list_lookup_insert_Some; [by eapply H4|by eapply H5].
Qed.

Lemma served_step s s' : server_step s s' -> served s -> served s'.
Proof.
  destruct 1 as [s i st random links' st' Hi Hf Hst|s target]; intros Hs.
  - apply add_step_cases in Hst as [(-> & Hst' & Hkeep)|(target & code & tries & -> & Hfree & -> & ->)];
      [|by eapply served_store|done].
    pose proof Hs as (_ & _ & _ & H4 & _). apply served_same; [| |done].
    + intros j t c. rewrite list_lookup_insert_Some. split.
      * intros [(-> & -> & _)|[_ Hj]]; [|done]. by rewrite <- Hst'.
      * intros Hj. destruct (decide (i = j)) as [->|]; [left|by right].
        rewrite Hj in Hi. injection Hi as <-. repeat split; [by eapply Hkeep|by eapply lookup_lt_Some].
    + intros j t c n [(-> & -> & _)|[_ Hj]]%list_lookup_insert_Some; [done|by eapply H4].
  - pose proof Hs as (_ & _ & _ & H4 & _). apply served_same; [| |done].
    + intros j t c. rewrite lookup_snoc_Some. split; [intros [[_ ?]|[_ ?]]; done|].
      intros Hj. left. split; [by eapply lookup_lt_Some|done].
    + intros j t c n [[_ Hj]|[_ ?]]%lookup_snoc_Some; [by eapply H4|done].
Qed.

Lemma served_reachable s s' : rtc server_step s s' -> served s -> served s'.
Proof. induction 1 as [|s1 s2 s3 H12 _ IH]; [done|]. intros Hs. by eapply IH, served_step. Qed.

Lemma reachable_links s s' : rtc server_step s s' -> links s ⊆ links s'.
Proof. induction 1 as [|s1 s2 s3 H12 _ IH]; [done|]. by etransitivity; [apply server_step_links|]. Qed.

(** *** Atomicity

    A code found taken stays taken, so a call that is about to return can be replayed at once: it
    would draw the same codes, find the same ones taken and return the same. *)

Definition taken (links : links_map) (random : result (list Z)) : Prop :=
  fills random /\ exists code, randomCode random = Ok code /\ is_Some (links !! code).

(** What a call has drawn so far. *)
Definition tried (links : links_map) (st : add_state) : Prop :=
  match st with
  | Drawing _ tries => exists drawn, (length drawn + tries)%nat = codeAttempts /\ Forall (taken links) drawn
  | Holding _ code tries =>
      exists drawn random, (length drawn + S tries)%nat = codeAttempts /\ Forall (taken links) drawn /\
        fills random /\ randomCode random = Ok code
  | Returned _ _ => True
  end.

Lemma taken_mono links links' random : links ⊆ links' -> taken links random -> taken links' random.
Proof. intros Hl (Hf & code & Hc & t & Ht). split; [done|]. exists code. split; [done|]. exists t. by eapply lookup_weaken. Qed.

Lemma tried_mono links links' st : links ⊆ links' -> tried links st -> tried links' st.
Proof.
  intros Hl. destruct st as [target n|target code n|target r]; simpl; [| |done].
  - intros (drawn & Hn & Hd). exists drawn. split; [done|]. eapply Forall_impl; [exact Hd|]. intros b. by apply taken_mono.
  - intros (drawn & b & Hn & Hd & Hb). exists drawn, b. split; [done|]. split; [|done].
    eapply Forall_impl; [exact Hd|]. intros b'. by apply taken_mono.
Qed.

Lemma tried_step random links st links' st' :
  fills random -> add_step random links st = (links', st') -> tried links st -> tried links' st'.
Proof.
  intros Hf. destruct st as [target [|n]|target code n|target r]; cbn [add_step].
  - by intros [= <- <-].
  - destruct (randomCode random) as [code|e] eqn:E; intros [= <- <-]; [|done].
    intros (drawn & Hn & Hd). by exists drawn, random.
  - destruct (links !! code) as [t|] eqn:E; intros [= <- <-]; [|done].
    intros (drawn & b & Hn & Hd & Hb & Hc). exists (drawn ++ [b]). rewrite length_app. split; [simpl; lia|].
    apply Forall_app. split; [done|]. repeat constructor; [done|]. by exists code.
  - by intros [= <- <-].
Qed.

Lemma tried_reachable s : rtc server_step (mkServer newStore []) s -> Forall (tried (links s)) (calls s).
Proof.
  intros Hs. apply (rtc_ind_r (R := server_step) (fun s => Forall (tried (links s)) (calls s)) (mkServer newStore []));
    [constructor| |exact Hs].
  intros s1 s2 _ H12 IH. pose proof (server_step_links _ _ H12) as Hl.
  destruct H12 as [s1 i st random links' st' Hi Hf Hst|s1 target]; cbn [links calls] in *.
  - assert (Forall (tried links') (calls s1)) as Hall by (eapply Forall_impl; [exact IH|]; intros st1; by apply tried_mono).
    apply Forall_insert; [exact Hall|]. eapply tried_step; [done|exact Hst|]. by eapply Forall_lookup_1.
  - apply Forall_app. split; [exact IH|]. repeat constructor. by exists [].
Qed.

(** The draws of taken codes are passed over. *)
Lemma add_from_taken links target n randoms drawn : forall k,
  Forall (taken links) drawn -> (forall i b, drawn !! i = Some b -> randoms (k + i)%nat = b) ->
  add_from (length drawn + n) randoms k links target = add_from n randoms (k + length drawn) links target.
Proof.
  induction drawn as [|b drawn IH]; intros k Hd Hr; [by rewrite Nat.add_0_r|].
  inversion Hd as [|? ? (_ & code & Hc & t & Ht) Hd']; subst. cbn [length Nat.add add_from].
  pose proof (Hr O b eq_refl) as Hb. rewrite Nat.add_0_r in Hb. rewrite Hb, Hc, Ht.
  rewrite IH; [f_equal; lia|done|]. intros i b' Hi. rewrite <- (Hr (S i) b' Hi). f_equal. lia.
Qed.

(** A call that drew taken codes, then [random], replayed. *)
Lemma add_replayed links target n drawn random :
  (length drawn + n)%nat = codeAttempts -> Forall (taken links) drawn -> fills random ->
  exists randoms, (forall k, fills (randoms k)) /\ randoms (length drawn) = random /\
    add randoms links target = add_from n randoms (length drawn) links target.
Proof.
  intros Hn Hd Hf. exists (fun k => default random (drawn !! k)). split; [|split].
  - intros k. destruct (drawn !! k) as [b|] eqn:E; [|done]. simpl. rewrite Forall_forall in Hd.
    by apply (Hd b), list_elem_of_lookup_2 with k.
  - by rewrite lookup_ge_None_2.
  - unfold add. rewrite <- Hn. apply add_from_taken; [done|]. intros k b Hk. cbn. by rewrite Hk.
Qed.

Lemma return_replayed random links st links' target r :
  fills random -> tried links st -> observe_call st = Waiting target ->
  add_step random links st = (links', Returned target r) ->
  exists randoms, (forall k, fills (randoms k)) /\ add randoms links target = (links', r).
Proof.
  intros Hf Ht Ho Hst. destruct st as [target' [|n]|target' code n|target' r']; cbn [observe_call add_step] in *;
    try injection Ho as ->; [| | |done].
  - injection Hst as <- <-. destruct Ht as (drawn & Hn & Hd).
    destruct (add_replayed _ target _ _ random Hn Hd Hf) as (randoms & Hall & _ & Ha). by exists randoms.
  - destruct (randomCode random) as [code|e] eqn:E; [discriminate|]. injection Hst as <- <-. destruct Ht as (drawn & Hn & Hd).
    destruct (add_replayed _ target _ _ random Hn Hd Hf) as (randoms & Hall & Hlast & Ha).
    exists randoms. split; [done|]. rewrite Ha. cbn [add_from]. by rewrite Hlast, E.
  - destruct (links !! code) as [t|] eqn:E; [discriminate|]. injection Hst as <- <-.
    destruct Ht as (drawn & b & Hn & Hd & Hb & Hc). destruct (add_replayed _ target _ _ b Hn Hd Hb) as (randoms & Hall & Hlast & Ha).
    exists randoms. split; [done|]. rewrite Ha. cbn [add_from]. by rewrite Hlast, Hc, E.
Qed.

(** A step that does not return leaves the links and what is seen of its call. *)
Lemma add_step_silent random links st links' st' :
  add_step random links st = (links', st') ->
  (links' = links /\ observe_call st' = observe_call st) \/
  (exists target r, observe_call st = Waiting target /\ st' = Returned target r).
Proof.
  destruct st as [target [|n]|target code n|target r]; cbn [add_step].
  - intros [= <- <-]. right. by exists target, (Err (ErrorString "no unused code found")).
  - destruct (randomCode random) as [code|e]; intros [= <- <-]; [by left|]. right. by exists target, (Err e).
  - destruct (links !! code); intros [= <- <-]; [by left|]. right. by exists target, (Ok code).
  - intros [= <- <-]. by left.
Qed.

Lemma map_observe_id i st st' calls :
  calls !! i = Some st -> observe_call st' = observe_call st -> map observe_call (<[i := st']> calls) = map observe_call calls.
Proof.
  intros Hi Ho. change (observe_call <$> <[i := st']> calls = observe_call <$> calls). rewrite list_fmap_insert, Ho.
  apply list_insert_id. by rewrite list_lookup_fmap, Hi.
Qed.

(** One call run alone, as steps of the server: what [run_alone] does at place [i]. *)
Lemma run_alone_steps fuel randoms i : (forall k, fills (randoms k)) -> forall k ls cs st links' st',
  cs !! i = Some st -> run_alone fuel randoms k ls st = (links', st') ->
  rtc server_step (mkServer ls cs) (mkServer links' (<[i := st']> cs)).
Proof.
  intros Hf. induction fuel as [|fuel IH]; intros k ls cs st links' st' Hi Hr; cbn [run_alone] in Hr.
  - injection Hr as <- <-. by rewrite list_insert_id.
  - destruct (add_step (randoms k) ls st) as [links1 st1] eqn:Hst.
    eapply rtc_l; [by apply (step_call (mkServer ls cs) i st (randoms k))|]. cbn [calls].
    eapply IH in Hr; [|apply list_lookup_insert_eq; by eapply lookup_lt_Some].
    by rewrite list_insert_insert_eq in Hr.
Qed.

(** A server between requests: every call is about to start, or has returned. *)
Definition fresh (st : add_state) : Prop :=
  match st with Drawing _ tries => tries = codeAttempts | Holding _ _ _ => False | Returned _ _ => True end.

Lemma atomic_step_interleaved s a :
  Forall fresh (calls s) -> atomic_step (observe s) a ->
  exists s', rtc server_step s s' /\ observe s' = a /\ Forall fresh (calls s').
Proof.
  intros Hfresh Hstep. remember (observe s) as a1 eqn:E. destruct Hstep as [a1 i target randoms links' r Hi Hf Ha|a1 target]; subst a1.
  - cbn [observe atomic_calls atomic_links] in Hi, Ha. apply list_lookup_fmap_Some in Hi as (st & Hobs & Hi).
    pose proof (Forall_lookup_1 _ _ _ _ Hfresh Hi) as Hst. destruct st as [t n|t c n|t r']; [|done|done].
    injection Hobs as <-. cbn in Hst. subst n. exists (mkServer links' (<[i := Returned target r]> (calls s))).
    pose proof (run_alone_add codeAttempts randoms 0 (links s) target) as Hrun. unfold add in Ha. rewrite Ha in Hrun. cbn [fst snd] in Hrun.
    split; [destruct s; by eapply run_alone_steps|]. split; [|by apply Forall_insert].
    unfold observe. cbn [links calls]. f_equal. apply (list_fmap_insert observe_call).
  - exists (mkServer (links s) (calls s ++ [Drawing target codeAttempts])).
    split; [apply rtc_once, step_request|]. split; [unfold observe; cbn; by rewrite map_app|].
    apply Forall_app. split; [done|]. by repeat constructor.
Qed.

(** ** Properties *)

(** C32: However requests interleave, a link that was answered is kept. Once a call of [add] for a
    target has returned a code, following that code redirects to that target in every state the
    server reaches from there; no other call ever returns the same code, which is seven characters
    of the alphabet; and following anything that was not returned is a 404. *)
Theorem links_are_kept (s later : server) (i : nat) (target code : string) :
  rtc server_step (mkServer newStore []) s -> rtc server_step s later ->
  calls s !! i = Some (Returned target (Ok code)) ->
  followLink (links later) code = Found target /\ is_code code = true /\
  (forall j target', calls later !! j = Some (Returned target' (Ok code)) -> target' = target) /\
  (forall j k tj tk, calls later !! j = Some (Returned tj (Ok code)) -> calls later !! k = Some (Returned tk (Ok code)) -> j = k) /\
  (forall other, (forall j t, calls later !! j <> Some (Returned t (Ok other))) -> followLink (links later) other = NotFound).
Proof.
  intros Hs Hlater Hi. pose proof (served_reachable _ _ Hs served_empty) as Hserved.
  pose proof (served_reachable _ _ Hlater Hserved) as (L1 & L2 & L3 & _).
  destruct Hserved as (S1 & _ & _ & _ & S5).
  assert (links later !! code = Some target) as Hl by (eapply lookup_weaken; [by eapply S1|by apply reachable_links]).
  unfold followLink, get. rewrite Hl. split; [done|]. split; [by eapply S5|].
  split; [intros j t Hj; apply L1 in Hj; congruence|].
  split; [intros j k tj tk; apply L3|].
  intros other Hno. destruct (links later !! other) as [t|] eqn:E; [|done].
  destruct (L2 _ _ E) as [j Hj]. by destruct (Hno j t).
Qed.

(** Two calls that draw the same code: the second one draws again. *)
Definition first_bytes : result (list Z) := Ok [0; 1; 2; 3; 4; 5; 6].
Definition other_bytes : result (list Z) := Ok [57; 58; 59; 60; 61; 62; 255].

Lemma links_are_kept_witness :
  exists s, rtc server_step (mkServer newStore []) s /\ followLink (links s) "abcdefg" = Found "https://a.example".
Proof.
  set (one := mkServer {["abcdefg" := "https://a.example"]} [Returned "https://a.example" (Ok "abcdefg")]).
  assert (rtc server_step (mkServer newStore []) one) as Hs.
  { eapply rtc_l; [apply (step_request _ "https://a.example")|].
    eapply rtc_l; [apply (step_call _ 0 (Drawing "https://a.example" 5) first_bytes newStore
      (Holding "https://a.example" "abcdefg" 4)); [reflexivity|split; [reflexivity|repeat constructor; lia]|vm_compute; reflexivity]|].
    eapply rtc_l; [apply (step_call _ 0 (Holding "https://a.example" "abcdefg" 4) first_bytes
      {["abcdefg" := "https://a.example"]} (Returned "https://a.example" (Ok "abcdefg")));
      [reflexivity|split; [reflexivity|repeat constructor; lia]|vm_compute; reflexivity]|].
    apply rtc_refl. }
  exists one. split; [exact Hs|].
  exact (proj1 (links_are_kept one one 0 "https://a.example" "abcdefg" Hs (rtc_refl _ _) eq_refl)).
Defined.

(** C31: Concurrent adds are atomic. Seen from outside, a server that interleaves the draws, the
    lock holds and the returns of its calls is one in which every call of [add] runs whole, at the
    moment it returns: each step shows nothing, or is exactly one atomic [add] of the call that
    returns there, or one new request; whatever sequence of whole adds there is, some interleaving
    shows it. And every call returns within eleven steps of its own, whatever the others do. *)
Theorem adds_are_atomic :
  (forall s s', rtc server_step (mkServer newStore []) s -> server_step s s' ->
     observe s' = observe s \/ atomic_step (observe s) (observe s')) /\
  (forall a, rtc atomic_step (mkAtomic newStore []) a ->
     exists s, rtc server_step (mkServer newStore []) s /\ observe s = a) /\
  (forall random links st, steps_left st = O \/ (steps_left (add_step random links st).2 < steps_left st)%nat) /\
  (forall target, steps_left (Drawing target codeAttempts) = 11%nat) /\
  (forall st, steps_left st = O <-> exists target r, st = Returned target r).
Proof.
  split; [|split; [|split; [|split; [done|]]]].
  - intros s s' Hs Hstep. pose proof (tried_reachable s Hs) as Htried.
    destruct Hstep as [s i st random links' st' Hi Hf Hst|s target].
    + unfold observe; cbn [links calls].
      destruct (add_step_silent _ _ _ _ _ Hst) as [(-> & Ho)|(target & r & Ho & ->)]; [left; by rewrite (map_observe_id i st)|right].
      destruct (return_replayed _ _ _ _ _ _ Hf (Forall_lookup_1 _ _ _ _ Htried Hi) Ho Hst) as (randoms & Hall & Ha).
      rewrite (list_fmap_insert observe_call).
      refine (atomic_add (mkAtomic (links s) (observe_call <$> calls s)) i target randoms links' r _ Hall Ha).
      cbn [atomic_calls]. by rewrite list_lookup_fmap, Hi, <- Ho.
    + right. unfold observe; cbn [links calls]. rewrite map_app. apply (atomic_request (mkAtomic (links s) (map observe_call (calls s)))).
  - intros a Ha. enough (exists s, rtc server_step (mkServer newStore []) s /\ observe s = a /\ Forall fresh (calls s))
      as (s & Hs & Ho & _) by (by exists s).
    apply (rtc_ind_r (R := atomic_step)
      (fun a => exists s, rtc server_step (mkServer newStore []) s /\ observe s = a /\ Forall fresh (calls s))
      (mkAtomic newStore [])); [by exists (mkServer newStore [])| |exact Ha].
    intros a1 a2 _ Hstep (s & Hs & <- & Hfresh). destruct (atomic_step_interleaved _ _ Hfresh Hstep) as (s' & Hs' & Ho & Hf').
    exists s'. split; [by etransitivity|done].
  - intros random links [target [|n]|target code n|target r]; cbn [add_step steps_left]; [right| |right|by left].
    + simpl. lia.
    + right. destruct (randomCode random); simpl; lia.
    + destruct (links !! code); simpl; lia.
  - intros [target n|target code n|target r]; split; try done; try (by intros (? & ? & ?)). by exists target, r.
Qed.

(** Two calls that hold the same code at once: the one that stores it first is the one whose add
    happened. *)
Lemma adds_are_atomic_witness :
  atomic_step (mkAtomic newStore [Waiting "https://a.example"; Waiting "https://b.example"])
    (mkAtomic {["abcdefg" := "https://b.example"]}
       [Waiting "https://a.example"; Answered "https://b.example" (Ok "abcdefg")]).
Proof.
  set (a := "https://a.example"). set (b := "https://b.example").
  assert (fills first_bytes) as Hf by (split; [reflexivity|repeat constructor; lia]).
  set (racing := mkServer newStore [Holding a "abcdefg" 4; Holding b "abcdefg" 4]).
  assert (rtc server_step (mkServer newStore []) racing) as Hs.
  { eapply rtc_l; [apply (step_request _ a)|]. eapply rtc_l; [apply (step_request _ b)|].
    eapply rtc_l; [apply (step_call _ 0 (Drawing a 5) first_bytes newStore (Holding a "abcdefg" 4)); [reflexivity|exact Hf|vm_compute; reflexivity]|].
    eapply rtc_l; [apply (step_call _ 1 (Drawing b 5) first_bytes newStore (Holding b "abcdefg" 4)); [reflexivity|exact Hf|vm_compute; reflexivity]|].
    apply rtc_refl. }
  assert (server_step racing (mkServer {["abcdefg" := b]} [Holding a "abcdefg" 4; Returned b (Ok "abcdefg")])) as Hstep
    by (apply (step_call racing 1 (Holding b "abcdefg" 4) first_bytes); [reflexivity|exact Hf|vm_compute; reflexivity]).
  destruct (proj1 adds_are_atomic racing _ Hs Hstep) as [E|Hatomic]; [|exact Hatomic].
  apply (f_equal (fun v => atomic_links v !! "abcdefg")) in E. vm_compute in E. discriminate E.
Defined.
