(* ===== verification/ShortlinkHandler.v ===== *)
(** * The routes of the example service shortlink ([services/shortlink/handler.go])

    [newHandler] registers the metrics, creates every series it means to count and sets the
    routes; [serve] is one request through the mux, its middleware and its handler. *)
From Stdlib Require Import ZArith Lia Ascii String.
From stdpp Require Import relations.
From S2P Require Import Prelude GoStrings GoUrl Utf8 GoJson JsonReader Http JsonDecode Telemetry Shortlink.
Local Open Scope Z_scope.
Local Open Scope stdpp_scope.

(** ** Definitions *)

Definition statuses : list (string * list string) := [("post", ["201"; "400"; "500"]); ("get", ["302"; "404"])].

(** The handlers behind the routes: an instrumented one counts its requests. *)
Inductive app_handler := CreateLink | FollowLink.
Inductive route := Instrumented (h : app_handler) | Probe | MetricsPage.

Definition routes : list (string * route) :=
  [("POST /links", Instrumented CreateLink); ("GET /{code}", Instrumented FollowLink);
   ("GET /healthz", Probe); ("GET /readyz", Probe); ("GET /metrics", MetricsPage)].

Inductive answer :=
  | App (r : response)
  | ProbeAnswer                (* 200, "ok" *)
  | MetricsAnswer              (* 200, the registry's text *)
  | MuxRedirect (path : string)
  | MuxMethodNotAllowed (allowed : list string)
  | MuxNotFound.

Definition no_body : Body := mkBody "" true.

Section handler.
Context `{MetricVec}.

(** [for method, codes := range statuses]: a Go map is ranged over in some [order]. *)
Definition series_keys (order : list (string * list string)) : list (string * string) :=
  flat_map (fun '(method, codes) => map (fun code => (code, method)) codes) order.

Definition describe_series (code method kind : string) : string :=
  Sprintf ["creating the "; method; " "; code; " "; kind; " series: "].

Definition newHandler (order : list (string * list string)) (r : registration) : result metrics :=
  match register r with
  | Some err => Err err
  | None => createSeries describe_series (series_keys order) (mkMetrics NewVec NewVec)
  end.

Record shortlink := mkShortlink { sl_links : links_map; sl_metrics : metrics }.

Context `{HostRules}.

(** One request, with its body; [randoms] is what the reads of random bytes returned. *)
Definition serve (randoms : nat -> result (list Z)) (r : Request) (body : Body) (s : shortlink)
  : shortlink * answer :=
  match findHandler routes r with
  | Dispatch (Instrumented h) values =>
      let '(links', resp) :=
        match h with
        | CreateLink => createLink randoms (sl_links s) body
        | FollowLink => (sl_links s, followLink (sl_links s) (PathValue values "code"))
        end in
      (mkShortlink links' (instrument (sl_metrics s) (status resp) (Method r)), App resp)
  | Dispatch Probe _ => (s, ProbeAnswer)
  | Dispatch MetricsPage _ => (s, MetricsAnswer)
  | MovedPermanently path => (s, MuxRedirect path)
  | MethodNotAllowed allowed => (s, MuxMethodNotAllowed allowed)
  | PageNotFound => (s, MuxNotFound)
  end.

(** Some request whose method is in [methods], served. *)
Definition serves (methods : list string) (s s' : shortlink) : Prop :=
  exists randoms r body, (forall k, fills (randoms k)) /\ In (Method r) methods /\ s' = (serve randoms r body s).1.

(** ** Lemmas *)

Lemma add_from_ok n randoms : (forall k, fills (randoms k)) -> forall k links target,
  links ⊆ (add_from n randoms k links target).1 /\
  match (add_from n randoms k links target).2 with
  | Ok code => (add_from n randoms k links target).1 !! code = Some target /\ is_code code = true
  | Err _ => True
  end.
Proof.
  intros Hf. induction n as [|n IH]; intros k links target; [done|]. cbn [add_from].
  destruct (randomCode (randoms k)) as [code|e] eqn:Hc; [|done].
  destruct (links !! code) as [t|] eqn:Hl; [apply IH|]. cbn [fst snd].
  split; [by apply insert_subseteq|]. split; [by rewrite lookup_insert_eq|by eapply randomCode_ok].
Qed.

Lemma createLink_ok randoms links body :
  (forall k, fills (randoms k)) ->
  links ⊆ (createLink randoms links body).1 /\
  match (createLink randoms links body).2 with
  | Created code short url =>
      short = "/" +:+ code /\ (createLink randoms links body).1 !! code = Some url /\ is_code code = true
  | r => In (status r) [400; 500]
  end.
Proof.
  intros Hf. unfold createLink. destruct (link_target body) as [r|target] eqn:Ht.
  - cbn [fst snd]. split; [done|]. unfold link_target, check_url, not_json in Ht.
    repeat case_match; try discriminate; injection Ht as <-; cbn; tauto.
  - unfold add. pose proof (add_from_ok codeAttempts randoms Hf 0%nat links target) as [Hl Hr].
    destruct (add_from codeAttempts randoms 0 links target) as [links' [code|e]]; cbn in *; [tauto|].
    split; [done|tauto].
Qed.

Lemma serve_links methods s s' : serves methods s s' -> sl_links s ⊆ sl_links s'.
Proof.
  intros (randoms & r & body & Hf & _ & ->). unfold serve.
  destruct (findHandler routes r) as [| | |[[]| |] values]; try done.
  pose proof (createLink_ok randoms (sl_links s) body Hf) as [Hl _].
  by destruct (createLink randoms (sl_links s) body).
Qed.

Lemma serves_links methods s s' : rtc (serves methods) s s' -> sl_links s ⊆ sl_links s'.
Proof. induction 1 as [|s1 s2 s3 H12 _ IH]; [done|]. etransitivity; [by eapply serve_links|done]. Qed.

Lemma in_alphabet_element c : in_alphabet c = true -> element_char c = true.
Proof.
  intros Hc. unfold in_alphabet in Hc. apply existsb_exists in Hc as (d & Hd & ->%Ascii.eqb_eq).
  assert (forallb element_char (list_ascii_of_string codeAlphabet) = true) as Hall by (vm_compute; reflexivity).
  by apply (proj1 (forallb_forall _ _) Hall).
Qed.

Lemma is_code_element code : is_code code = true -> is_element code = true.
Proof.
  intros [Hl Hc]%andb_true_iff. apply andb_true_iff. split.
  - by destruct code.
  - eapply forallb_impl; [|exact Hc]. apply in_alphabet_element.
Qed.

(** What a GET of one clean path element is dispatched to. *)
Lemma get_element s :
  is_element s = true ->
  findHandler routes (mkRequest "GET" ("/" +:+ s)) =
  if String.eqb "healthz" s then Dispatch Probe []
  else if String.eqb "readyz" s then Dispatch Probe []
  else if String.eqb "metrics" s then Dispatch MetricsPage []
  else Dispatch (Instrumented FollowLink) [("code", s)].
Proof.
  intros Hs. unfold findHandler. cbn [Method EscapedPath]. change (String.eqb "GET" "CONNECT") with false. cbv iota.
  rewrite (element_clean s Hs), (element_last s Hs), String.eqb_refl. unfold match_request.
  rewrite (element_segments s Hs).
  change (candidates routes "GET") with
    [mkCandidate [Wildcard "code"] (Instrumented FollowLink) 1 []; mkCandidate [Literal "healthz"] Probe 1 [];
     mkCandidate [Literal "readyz"] Probe 1 []; mkCandidate [Literal "metrics"] MetricsPage 1 []].
  assert (String.eqb s "/" = false) as Hslash.
  { apply String.eqb_neq. intros ->. discriminate. }
  cbn [matchPath omap list_omap step_literal left_segments].
  destruct (String.eqb_spec "healthz" s); [by subst|].
  destruct (String.eqb_spec "readyz" s); [by subst|].
  destruct (String.eqb_spec "metrics" s); [by subst|].
  cbn [List.find]. rewrite Hslash. cbn [exactMatch step_wildcard left_segments List.find at_leaf cand_handler cand_values cand_size].
  by rewrite (element_last _ Hs).
Qed.
Lemma instrumented_method r h values :
  findHandler routes r = Dispatch (Instrumented h) values ->
  match h with CreateLink => Method r = "POST" | FollowLink => Method r = "GET" \/ Method r = "HEAD" end.
Proof.
  intros (p & Hp & Hm)%findHandler_method. unfold routes in Hp.
  repeat destruct Hp as [[= <- <-]|Hp]; [| |done]; cbn in Hm; destruct Hm as [<-|[?|[? ?]]]; auto; discriminate.
Qed.

Lemma createLink_status randoms links body :
  (forall k, fills (randoms k)) ->
  In (Itoa (status (createLink randoms links body).2), "post") (series_keys statuses).
Proof.
  intros Hf. pose proof (createLink_ok randoms links body Hf) as [_ Hc].
  destruct (createLink randoms links body) as [links' []]; cbn in *; intuition (subst; auto); discriminate.
Qed.

Lemma serve_exposes `{!MetricVecLaws} s s' :
  serves ["GET"; "POST"] s s' -> exposes (sl_metrics s) (series_keys statuses) ->
  exposes (sl_metrics s') (series_keys statuses).
Proof.
  intros (randoms & r & body & Hf & Hmethod & ->) Hex. unfold serve.
  destruct (findHandler routes r) as [| | |[h| |] values] eqn:Hd; try done. apply instrumented_method in Hd.
  destruct h.
  - pose proof (createLink_status randoms (sl_links s) body Hf) as Hin.
    destruct (createLink randoms (sl_links s) body) as [links' resp]. cbn [sl_metrics fst snd] in *.
    apply instrument_exposes; [done|]. rewrite Hd, label_post. done.
  - cbn [sl_metrics fst]. apply instrument_exposes; [done|].
    assert (Method r = "GET") as ->.
    { destruct Hd as [?|Hh]; [done|]. rewrite Hh in Hmethod. cbn in Hmethod. intuition discriminate. }
    rewrite label_get. unfold followLink. destruct (get _ _); cbn; auto 10.
Qed.

(** A HEAD request for an unknown path element is followed like a GET. *)
Lemma head_serve randoms body s :
  (serve randoms (mkRequest "HEAD" "/x") body s).1 =
  mkShortlink (sl_links s) (instrument (sl_metrics s) (status (followLink (sl_links s) "x")) "HEAD").
Proof.
  unfold serve.
  replace (findHandler routes (mkRequest "HEAD" "/x")) with (Dispatch (Instrumented FollowLink) [("code", "x")])
    by (vm_compute; reflexivity). done.
Qed.
End handler.

(** *** Where a redirect goes *)

Definition visible (c : ascii) : bool := (0x20 <=? code c) && (code c <? 0x7F).

Lemma hexEscape_app s t : hexEscapeNonASCII (s +:+ t) = hexEscapeNonASCII s +:+ hexEscapeNonASCII t.
Proof. induction s as [|c s IH]; [done|]. cbn [append hexEscapeNonASCII]. by rewrite IH, append_assoc. Qed.

Lemma hexEscape_visible s : all_bytes printable s = true -> all_bytes visible (hexEscapeNonASCII s) = true.
Proof.
  induction s as [|c s IH]; [done|]. intros [Hc Hs]%andb_true_iff. cbn [hexEscapeNonASCII]. rewrite all_bytes_app.
  apply andb_true_iff. split; [|by apply IH].
  assert (implb (printable c) (all_bytes visible (if 0x80 <=? code c then "%" +:+ hex_fixed 2 (code c) else String c EmptyString)) = true) as Hall.
  { revert c Hc. intros c _. revert c. apply every_byte. vm_compute. reflexivity. }
  by rewrite Hc in Hall.
Qed.

Lemma check_url_parsed `{HostRules} u target : check_url u = inr target ->
  exists v, Parse u = Some v /\ absolute v /\ In (Scheme v) ["http"; "https"] /\ target = URL_String v.
Proof.
  unfold check_url. destruct (Parse u) as [v|] eqn:Hp; [|done]. destruct (_ || _) eqn:E; [done|]. intros [= <-].
  apply orb_false_iff in E as [Hs Hh%String.eqb_neq].
  assert (In (Scheme v) ["http"; "https"]) as Hin.
  { apply andb_false_iff in Hs as [Hs%negb_false_iff%String.eqb_eq|Hs%negb_false_iff%String.eqb_eq]; rewrite Hs; cbn; auto. }
  exists v. split; [done|]. split; [|done]. eapply Parse_absolute; [done| |done]. by destruct Hin as [<-|[<-|[]]].
Qed.

(** What is stored was accepted, and stays so. *)
Definition all_accepted `{HostRules} (links : links_map) : Prop :=
  forall code target, links !! code = Some target -> exists u, check_url u = inr target.

Lemma add_from_accepted `{HostRules} n randoms target : (exists u, check_url u = inr target) -> forall k links,
  all_accepted links -> all_accepted (add_from n randoms k links target).1.
Proof.
  intros Ht. induction n as [|n IH]; intros k links Hl; [done|]. cbn [add_from].
  destruct (randomCode (randoms k)); [|done]. destruct (links !! a) eqn:E; [by apply IH|]. intros code t.
  cbn [fst]. rewrite lookup_insert_Some. intros [[<- <-]|[_ Hc]]; [done|by eapply Hl].
Qed.

Lemma serves_accepted `{MetricVec, HostRules} methods s s' : rtc (serves methods) s s' ->
  all_accepted (sl_links s) -> all_accepted (sl_links s').
Proof.
  induction 1 as [|s1 s2 s3 (randoms & r & body & _ & _ & ->) _ IH]; [done|]. intros Hl. apply IH. unfold serve.
  destruct (findHandler routes r) as [| | |[[]| |] values]; try done. unfold createLink, add.
  destruct (link_target body) as [resp|target] eqn:Ht; [done|].
  assert (exists u, check_url u = inr target) as Hc.
  { unfold link_target in Ht. destruct (decodeRequest body) as [u|]; [by exists u|done]. }
  pose proof (add_from_accepted codeAttempts randoms target Hc 0%nat (sl_links s1) Hl) as Ha.
  by destruct (add_from codeAttempts randoms 0 (sl_links s1) target).
Qed.

Lemma answer_pair {A B} (p : A * B) b : p.2 = b -> p = (p.1, b).
Proof. destruct p. by intros <-. Qed.

Lemma valid_utf8_ascii s : forallb (fun c => code c <? 0x80) (list_ascii_of_string s) = true -> valid_utf8 s = true.
Proof.
  intros Hs. induction s as [|c s IH]; [done|]. cbn [list_ascii_of_string forallb] in Hs.
  apply andb_true_iff in Hs as [Hc Hs]. unfold valid_utf8. cbn [valid_utf8_go DecodeRune]. rewrite Hc.
  replace (code c =? RuneError) with false by (unfold RuneError; lia). by apply IH.
Qed.

Lemma is_code_utf8 code : is_code code = true -> valid_utf8 code = true /\ valid_utf8 ("/" +:+ code) = true.
Proof.
  intros [_ Hc]%andb_true_iff.
  assert (forallb (fun c => GoStrings.code c <? 0x80) (list_ascii_of_string codeAlphabet) = true) as Hall by (vm_compute; reflexivity).
  assert (forallb (fun c => GoStrings.code c <? 0x80) (list_ascii_of_string code) = true) as Hascii.
  { eapply forallb_impl; [|exact Hc]. intros c (d & Hd & ->%Ascii.eqb_eq)%existsb_exists.
    by apply (proj1 (forallb_forall _ _) Hall). }
  split; apply valid_utf8_ascii; [done|]. exact Hascii.
Qed.

Lemma created_text_read code short url :
  valid_utf8 code = true -> valid_utf8 short = true -> valid_utf8 url = true ->
  Unmarshal (created_text code short url) = Some (createResponse code short url).
Proof.
  intros Hc Hs Hu. unfold created_text, Unmarshal.
  assert (renders (createResponse code short url) (Marshal (createResponse code short url))) as Hr.
  { apply Marshal_renders. cbn. by rewrite Hc, Hs, Hu. }
  rewrite length_append. rewrite (proj1 read_renders _ _ Hr); [done|lia|done].
Qed.

(** ** Properties *)

(** C33: A link comes back. Once POST /links answered 201 with a short path, a GET of that path is
    redirected to the stored URL, whatever requests were served in between; the one exception is
    the code "metrics", which the alphabet allows: the metrics page hides that link. *)
Theorem link_round_trip `{MetricVec, HostRules} randoms post body body' randoms' methods
    (s s1 s2 : shortlink) (code short url : string) :
  (forall k, fills (randoms k)) ->
  serve randoms post body s = (s1, App (Created code short url)) ->
  rtc (serves methods) s1 s2 ->
  short = "/" +:+ code /\
  (serve randoms' (mkRequest "GET" short) body' s2).2 =
    (if String.eqb "metrics" code then MetricsAnswer else App (Found url)).
Proof.
  intros Hf Hpost Hlater. unfold serve at 1 in Hpost.
  destruct (findHandler routes post) as [| | |[[]| |] values]; try discriminate Hpost.
  2:{ injection Hpost as _ Hr. unfold followLink in Hr. by destruct (get _ _). }
  pose proof (createLink_ok randoms (sl_links s) body Hf) as [_ Hc].
  destruct (createLink randoms (sl_links s) body) as [links' resp]. injection Hpost as <- ->.
  cbn [fst snd] in Hc. destruct Hc as (-> & Hl & Hcode). split; [done|].
  pose proof (is_code_element code Hcode) as He. unfold serve. rewrite (get_element code He).
  assert (String.eqb "healthz" code = false) as -> by (apply String.eqb_neq; by intros <-).
  assert (String.eqb "readyz" code = false) as -> by (apply String.eqb_neq; by intros <-).
  destruct (String.eqb "metrics" code); [done|]. unfold followLink, get.
  change (PathValue [("code", code)] "code") with code.
  apply serves_links in Hlater. cbn [sl_links] in Hlater. by rewrite (lookup_weaken _ _ _ _ Hl Hlater).
Qed.

(** One colon at most, and no addresses in brackets. *)
#[local] Instance strict_hosts : HostRules := {| several_colons := fun _ => false; ip_literal := fun _ _ => false |}.

Definition example_body : Body := mkBody (Marshal (JObject [("url", JString "https://example.com")])) true.

Lemma link_round_trip_witness :
  (serve (fun _ => Err (ErrorString "unused")) (mkRequest "GET" "/abcdefg") no_body
     (serve (fun _ => first_bytes) (mkRequest "POST" "/links") example_body
        (mkShortlink newStore (mkMetrics NewVec NewVec))).1).2 = App (Found "https://example.com").
Proof.
  refine (proj2 (link_round_trip (fun _ => first_bytes) (mkRequest "POST" "/links") example_body no_body _ []
    (mkShortlink newStore (mkMetrics NewVec NewVec)) _ _ "abcdefg" "/abcdefg" "https://example.com" _ _ (rtc_refl _ _))).
  - intros _. split; [reflexivity|repeat constructor; lia].
  - apply answer_pair. vm_compute. reflexivity.
Defined.

(** C36: No request is lost to a missing series. Once [newHandler] succeeded, whatever order it
    went through [statuses] in, the series exposed are exactly those of [statuses], and serving any
    GET and POST requests never exposes another: each answer adds to a series that existed before
    the first request. A HEAD request is answered by the GET routes and does create one. *)
Theorem series_fixed `{MetricVecLaws, HostRules} (order : list (string * list string)) (r : registration)
    (m : metrics) (links : links_map) (s : shortlink) :
  order ≡ₚ statuses -> newHandler order r = Ok m ->
  rtc (serves ["GET"; "POST"]) (mkShortlink links m) s ->
  exposes (sl_metrics s) (series_keys statuses) /\
  exists code, Series (requests (sl_metrics s)) (code, "head") = None /\
    is_Some (Series (requests (sl_metrics (serve (fun _ => first_bytes) (mkRequest "HEAD" "/x") no_body s).1)) (code, "head")).
Proof.
  intros Hperm Hnew Hs.
  assert (exposes (sl_metrics s) (series_keys statuses)) as Hex.
  { revert Hs. cut (exposes m (series_keys statuses)).
    { intros Hm. apply (rtc_ind_r (fun s => exposes (sl_metrics s) (series_keys statuses)) (mkShortlink links m)); [done|].
      intros s1 s2 _ Hstep Hs1. by eapply serve_exposes. }
    unfold newHandler in Hnew. destruct (register r); [done|]. intros k.
    pose proof (createSeries_exposes _ _ _ k Hnew) as Hk. unfold series_keys in *. by rewrite Hperm in Hk. }
  split; [done|].
  exists (Itoa (status (followLink (sl_links s) "x"))). split.
  - destruct (Series (requests (sl_metrics s)) (Itoa (status (followLink (sl_links s) "x")), "head")) eqn:E; [|done].
    assert (In (Itoa (status (followLink (sl_links s) "x")), "head") (series_keys statuses)) as Hin
      by (apply (proj1 (Hex _)); rewrite E; by eexists).
    unfold series_keys, statuses in Hin. cbn [flat_map map app In] in Hin.
    repeat destruct Hin as [[= _ Hin]|Hin]; done.
  - rewrite head_serve. cbn [sl_metrics instrument requests]. rewrite series_instrument, label_head.
    by rewrite decide_True.
Qed.

Lemma series_fixed_witness :
  exists m, newHandler statuses (mkRegistration None None) = Ok m /\ exposes m (series_keys statuses).
Proof.
  eexists. split; [reflexivity|].
  exact (proj1 (series_fixed statuses (mkRegistration None None) _ newStore (mkShortlink newStore _)
    (Permutation_refl _) eq_refl (rtc_refl _ _))).
Defined.

(** C35: A posted link in JSON, and the answer in JSON. A body that holds an object, in any layout
    within the limit and with anything after it, is answered as its url fields say: the last string
    under that name, letters of either case, is the URL, and without a usable one nothing is stored;
    the text of the answer reads back as the code, its path and the URL. *)
Theorem posted_json `{HostRules} randoms links fields w t rest complete code url :
  renders (JObject fields) t -> nesting (JObject fields) <= maxNestingDepth -> space w = true ->
  len (w +:+ t) <= 65536 -> is_code code = true -> valid_utf8 url = true ->
  createLink randoms links (mkBody (w +:+ t +:+ rest) complete) =
    match assign "url" (map (fun kv => (kv.1, shape kv.2)) fields) "" false with
    | None => (links, not_json)
    | Some u =>
        match check_url u with
        | inl refused => (links, refused)
        | inr target => let '(links', added) := add randoms links target in (links', created target added)
        end
    end /\
  Unmarshal (created_text code ("/" +:+ code) url) =
    Some (JObject [("code", JString code); ("short", JString ("/" +:+ code)); ("url", JString url)]).
Proof.
  intros Ht Hn Hw Hl Hcode Hurl. split.
  - unfold createLink, link_target, decodeRequest. rewrite append_assoc.
    destruct (MaxBytesReader_prefix maxBodyBytes (w +:+ t) rest complete Hl) as (rest' & complete' & ->).
    rewrite <- append_assoc, (Decode_object _ w t rest' complete' fields Ht Hn Hw).
    destruct (assign _ _ _ _) as [u|]; [|done]. by destruct (check_url u).
  - apply is_code_utf8 in Hcode as [Hc Hs]. by apply created_text_read.
Qed.

(** Spaces and a line break before the object, a number the handler ignores, a name in capitals and
    a second text after it. *)
Definition example_fields : list (string * json) := [("n", JInt 5); ("URL", JString "https://example.com")].

Lemma posted_json_witness :
  (createLink (fun _ => first_bytes) newStore
     (mkBody ((" " +:+ newline) +:+ MarshalIndent (JObject example_fields) "  " +:+ "trailing") true)).2 =
  Created "abcdefg" "/abcdefg" "https://example.com".
Proof.
  rewrite (proj1 (posted_json (fun _ => first_bytes) newStore example_fields (" " +:+ newline)
    (MarshalIndent (JObject example_fields) "  ") "trailing" true "abcdefg" "https://example.com"
    ltac:(apply MarshalIndent_renders; reflexivity) ltac:(vm_compute; discriminate) eq_refl
    ltac:(vm_compute; discriminate) eq_refl eq_refl)).
  vm_compute. reflexivity.
Defined.

(** C34: A short link leads to the web and nowhere else. Whatever was posted to a server since it started
    empty, a link it follows is an http or https URL, and the Location header of the redirect is
    that URL with the bytes that are not ASCII escaped: only visible ASCII and spaces, so no header
    can be broken up. What is stored is in normal form: posted again it is accepted and stored as it
    is, unless its host may be an address in brackets, in whose zone an escape can hide a bracket. *)
Theorem redirects_are_safe `{MetricVec, HostRules} methods randoms m (s : shortlink) (r : Request) (body : Body) (target : string) :
  rtc (serves methods) (mkShortlink newStore m) s ->
  (serve randoms r body s).2 = App (Found target) ->
  (exists scheme rest, In scheme ["http"; "https"] /\ target = scheme +:+ "://" +:+ rest /\
     all_bytes visible (hexEscapeNonASCII rest) = true /\
     forall path, Location path (Found target) = Some (scheme +:+ "://" +:+ hexEscapeNonASCII rest)) /\
  (free "[" target = true -> check_url target = inr target).
Proof.
  intros Hs Hserve. assert (all_accepted (sl_links s)) as Hacc by (eapply serves_accepted; [exact Hs|by intros code t]).
  assert (exists code, sl_links s !! code = Some target) as [code Hl].
  { unfold serve in Hserve. destruct (findHandler routes r) as [| | |[[]| |] values]; try done.
    - destruct (createLink randoms (sl_links s) body) as [links' resp] eqn:Hc. injection Hserve as ->.
      unfold createLink in Hc. unfold link_target, check_url, not_json in Hc. repeat case_match; simplify_eq.
      all: by unfold created in *; repeat case_match.
    - injection Hserve as Hf. unfold followLink, get in Hf. destruct (sl_links s !! _) eqn:E; [|done]. injection Hf as ->. eauto. }
  destruct (Hacc code target Hl) as (u & Hu). destruct (check_url_parsed u target Hu) as (v & Hp & Habs & Hscheme & ->).
  split.
  - destruct (URL_String_bytes v Habs Hscheme) as (rest & -> & Hb). exists (Scheme v), rest. split; [done|]. split; [done|].
    split; [by apply hexEscape_visible|]. intros path. cbn [Location]. unfold Redirect.
    assert (match Parse (Scheme v +:+ "://" +:+ rest) with
            | Some u0 => String.eqb (Scheme u0) "" && String.eqb (Host u0) "" | None => false end = false) as ->.
    { destruct (Parse (Scheme v +:+ "://" +:+ rest)) as [w|] eqn:E; [|done]. rewrite (Parse_scheme _ _ _ Hscheme E).
      by destruct Hscheme as [<-|[<-|[]]]. }
    rewrite !hexEscape_app. by destruct Hscheme as [<-|[<-|[]]].
  - intros Hf. destruct (Parse_again v Habs Hscheme) as (v' & Hp' & Hs' & Hh' & Ht').
    { destruct (absolute_path v Habs) as [_ Hpath]. destruct (scheme_bytes _ Hscheme) as (_ & Hne & _).
      rewrite (URL_String_absolute v (abs_Opaque v Habs) (abs_OmitHost v Habs) (abs_Host v Habs) Hpath Hne) in Hf.
      unfold authority_part in Hf. rewrite !free_app in Hf. apply andb_true_iff in Hf as [_ [_ [[_ Hf]%andb_true_iff _]%andb_true_iff]%andb_true_iff].
      by rewrite escape_bracket in Hf. }
    unfold check_url. rewrite Hp', Hs', Hh', Ht'. pose proof (abs_Host v Habs) as Hhost. apply String.eqb_neq in Hhost as ->.
    by destruct Hscheme as [<-|[<-|[]]].
Qed.

(** Capitals in the scheme, letters outside ASCII, spaces and a fragment. *)
Definition odd_body : Body := mkBody (Marshal (JObject [("url", JString "HTTP://é.example:80/a b?q#f g")])) true.
Definition after_odd : shortlink :=
  (serve (fun _ => first_bytes) (mkRequest "POST" "/links") odd_body (mkShortlink newStore (mkMetrics NewVec NewVec))).1.

Lemma redirects_are_safe_witness :
  (serve (fun _ => first_bytes) (mkRequest "GET" "/abcdefg") no_body after_odd).2 =
    App (Found "http://%C3%A9.example:80/a%20b?q#f%20g") /\
  check_url "http://%C3%A9.example:80/a%20b?q#f%20g" = inr "http://%C3%A9.example:80/a%20b?q#f%20g".
Proof.
  assert ((serve (fun _ => first_bytes) (mkRequest "GET" "/abcdefg") no_body after_odd).2 =
    App (Found "http://%C3%A9.example:80/a%20b?q#f%20g")) as Hget by (vm_compute; reflexivity).
  split; [exact Hget|].
  refine (proj2 (redirects_are_safe ["POST"] _ _ after_odd _ _ _ _ Hget) eq_refl).
  apply rtc_once. exists (fun _ => first_bytes), (mkRequest "POST" "/links"), odd_body.
  split; [|split; [by left|reflexivity]]. intros _. split; [reflexivity|repeat constructor; lia].
Defined.
