(* ===== verification/Testsvc.v ===== *)
(** * The example service testsvc ([examples/testsvc/main.go])

    A service that answers 200, or 500 on request: the same metrics as shortlink, other routes. *)
From Stdlib Require Import ZArith Lia Ascii String.
From stdpp Require Import relations.
From S2P Require Import Prelude GoStrings GoJson Http Telemetry.
Local Open Scope Z_scope.
Local Open Scope stdpp_scope.

(** ** Definitions *)

Inductive page := OkPage | BoomPage.

Inductive testsvc_route :=
  | Counted (p : page)
  | Uncounted
  | MetricsText.

(** The routes for a value of the build-time variable [broken]. *)
Definition testsvc_routes (broken : string) : list (string * testsvc_route) :=
  let root := if String.eqb broken "true" then BoomPage else OkPage in
  [("/", Counted root); ("/boom", Counted BoomPage); ("/healthz", Uncounted); ("/readyz", Uncounted);
   ("/metrics", MetricsText)].

(** [ok] and [boom]: the status and the body they write. *)
Definition write_page (p : page) : Z * string :=
  match p with
  | OkPage => (200, "ok" +:+ newline)
  | BoomPage => (500, "boom" +:+ newline)
  end.

Definition testsvc_keys : list (string * string) := [("200", "get"); ("500", "get")].

Inductive reply :=
  | Page (status : Z) (body : string)
  | MetricsPage
  | MuxReply (status : Z).

Section testsvc.
Context `{MetricVec}.

Definition describe_code (code method kind : string) : string :=
  Sprintf ["creating the code="; code; " "; kind; " series: "].

Definition testsvc_newHandler (r : registration) : result metrics :=
  match register r with
  | Some err => Err err
  | None => createSeries describe_code testsvc_keys (mkMetrics NewVec NewVec)
  end.

(** One request. *)
Definition testsvc_serve (broken : string) (r : Request) (m : metrics) : metrics * reply :=
  match findHandler (testsvc_routes broken) r with
  | Dispatch (Counted p) _ =>
      let '(status, body) := write_page p in (instrument m status (Method r), Page status body)
  | Dispatch Uncounted _ => let '(status, body) := write_page OkPage in (m, Page status body)
  | Dispatch MetricsText _ => (m, MetricsPage)
  | MovedPermanently _ => (m, MuxReply 301)
  | MethodNotAllowed _ => (m, MuxReply 405)
  | PageNotFound => (m, MuxReply 404)
  end.

(** A run of requests. *)
Fixpoint serve_all (broken : string) (rs : list Request) (m : metrics) : metrics * list reply :=
  match rs with
  | [] => (m, [])
  | r :: rs =>
      let '(m', a) := testsvc_serve broken r m in
      let '(m'', answers) := serve_all broken rs m' in (m'', a :: answers)
  end.

(** ** Lemmas *)

(** Whether a request is one of the application's, and the status it gets. *)
Definition counted (broken : string) (r : Request) : option Z :=
  match findHandler (testsvc_routes broken) r with
  | Dispatch (Counted p) _ => Some (write_page p).1
  | _ => None
  end.

(** How many application GET requests of a run got this status. *)
Definition answered (broken : string) (rs : list Request) (status : Z) : Z :=
  Z.of_nat (length (List.filter (fun r => match counted broken r with Some s => Z.eqb s status | None => false end) rs)).

Context `{!MetricVecLaws}.

Definition counts (m : metrics) (status n : Z) : Prop :=
  Series (requests m) (Itoa status, "get") = Some n /\ Series (latency m) (Itoa status, "get") = Some n.

Lemma counts_instrument m status n s :
  In s [200; 500] -> In status [200; 500] -> counts m status n ->
  counts (instrument m s "GET") status (if Z.eqb s status then n + 1 else n).
Proof.
  intros Hs Hst [Hr Hl]. unfold counts, instrument. cbn [requests latency].
  rewrite !series_instrument, label_get, Hr, Hl.
  repeat destruct Hs as [<-|Hs]; try done; repeat destruct Hst as [<-|Hst]; done.
Qed.

Lemma serve_counts broken r m status n :
  Method r = "GET" -> In status [200; 500] -> counts m status n ->
  counts (testsvc_serve broken r m).1 status
    (match counted broken r with Some s => if Z.eqb s status then n + 1 else n | None => n end).
Proof.
  intros Hm Hst Hc. unfold testsvc_serve, counted.
  destruct (findHandler (testsvc_routes broken) r) as [| | |[p| |] values]; try done.
  destruct p; cbn [write_page fst]; rewrite Hm; apply counts_instrument; cbn; tauto.
Qed.

Lemma serve_all_counts broken rs : forall m status n,
  Forall (fun r => Method r = "GET") rs -> In status [200; 500] -> counts m status n ->
  counts (serve_all broken rs m).1 status (n + answered broken rs status).
Proof.
  induction rs as [|r rs IH]; intros m status n Hm Hst Hc.
  - cbn. by rewrite Z.add_0_r.
  - inversion Hm as [|? ? Hr Hrs]; subst. pose proof (serve_counts broken r m status n Hr Hst Hc) as Hc1.
    cbn [serve_all]. destruct (testsvc_serve broken r m) as [m1 a]. cbn [fst] in Hc1.
    specialize (IH m1 status _ Hrs Hst Hc1). destruct (serve_all broken rs m1) as [m2 answers]. cbn [fst] in *.
    revert IH. unfold answered. cbn [List.filter].
    destruct (counted broken r) as [s|]; [|done]. destruct (Z.eqb s status); [|done].
    cbn [length]. intros H2. replace (n + Z.of_nat (S _)) with (n + 1 + Z.of_nat
      (length (List.filter (fun r0 => match counted broken r0 with Some s => Z.eqb s status | None => false end) rs))) by lia.
    exact H2.
Qed.

(** A path element outside the fixed routes goes to "/". *)
Lemma root_element broken s :
  is_element s = true -> ~ In s ["boom"; "healthz"; "readyz"; "metrics"] ->
  counted broken (mkRequest "GET" ("/" +:+ s)) = Some (if String.eqb broken "true" then 500 else 200).
Proof.
  intros Hs Hn. unfold counted, findHandler. cbn [Method EscapedPath]. change (String.eqb "GET" "CONNECT") with false.
  cbv iota. rewrite (element_clean s Hs), (element_last s Hs), String.eqb_refl. unfold match_request.
  rewrite (element_segments s Hs).
  change (candidates (testsvc_routes broken) "GET") with (@nil (candidate testsvc_route)).
  set (root := if String.eqb broken "true" then BoomPage else OkPage).
  change (candidates (testsvc_routes broken) "") with
    [mkCandidate [TrailingSlash] (Counted root) 1 []; mkCandidate [Literal "boom"] (Counted BoomPage) 1 [];
     mkCandidate [Literal "healthz"] Uncounted 1 []; mkCandidate [Literal "readyz"] Uncounted 1 [];
     mkCandidate [Literal "metrics"] MetricsText 1 []].
  assert (String.eqb s "/" = false) as Hslash by (apply String.eqb_neq; by intros ->).
  cbn [matchPath omap list_omap step_literal left_segments List.find]. rewrite Hslash.
  change (String.eqb "GET" "HEAD") with false.
  rewrite !(proj2 (String.eqb_neq _ s)) by (intros <-; apply Hn; cbn; tauto).
  cbn [matchPath step_wildcard omap list_omap List.find at_leaf at_slash left_segments exactMatch cand_handler cand_values cand_size].
  rewrite (element_last s Hs). cbn. unfold root. by destruct (String.eqb broken "true").
Qed.
(** A POST to "/" is answered by the same page as a GET. *)
Lemma post_root broken m :
  testsvc_serve broken (mkRequest "POST" "/") m =
  let status := if String.eqb broken "true" then 500 else 200 in
  (instrument m status "POST", Page status (write_page (if String.eqb broken "true" then BoomPage else OkPage)).2).
Proof.
  unfold testsvc_serve, testsvc_routes. cbn [Method]. destruct (String.eqb broken "true").
  - by replace (findHandler _ _) with (Dispatch (Counted BoomPage) []) by (vm_compute; reflexivity).
  - by replace (findHandler _ _) with (Dispatch (Counted OkPage) []) by (vm_compute; reflexivity).
Qed.
End testsvc.

(** ** Properties *)

(** testsvc's metrics are exact for GET requests: the series for 200 and 500 exist from the
    start, and after any run of GET requests they hold how many application requests got each
    status, in the counter and in the histogram; probes and scrapes count nowhere. GET /boom and,
    in a broken build, every page outside the probes and the metrics fail. A POST to "/" is
    answered too, and counted in a series that did not exist before. *)
Theorem testsvc_counts `{MetricVecLaws} (broken : string) (r : registration) (m : metrics) (rs : list Request) (s : string) :
  testsvc_newHandler r = Ok m -> Forall (fun r => Method r = "GET") rs ->
  (forall status, In status [200; 500] -> counts (serve_all broken rs m).1 status (answered broken rs status)) /\
  counted broken (mkRequest "GET" "/healthz") = None /\ counted broken (mkRequest "GET" "/readyz") = None /\
  counted broken (mkRequest "GET" "/metrics") = None /\ counted broken (mkRequest "GET" "/boom") = Some 500 /\
  (is_element s = true -> ~ In s ["boom"; "healthz"; "readyz"; "metrics"] ->
   counted broken (mkRequest "GET" ("/" +:+ s)) = Some (if String.eqb broken "true" then 500 else 200)) /\
  (exists status, Series (requests m) (Itoa status, "post") = None /\
     Series (requests (testsvc_serve broken (mkRequest "POST" "/") m).1) (Itoa status, "post") = Some 1).
Proof.
  intros Hnew Hget. unfold testsvc_newHandler in Hnew. destruct (register r); [done|].
  assert (forall k, Series (requests m) k = (if decide (k ∈ testsvc_keys) then Some 0 else None) /\
                    Series (latency m) k = (if decide (k ∈ testsvc_keys) then Some 0 else None)) as Hzero.
  { intros k. pose proof (createSeries_series _ _ _ _ k Hnew) as Hk. cbn [requests latency] in Hk.
    by rewrite series_new in Hk. }
  split; [|split; [done|split; [done|split; [done|split; [done|split; [apply root_element|]]]]]].
  - intros status Hst. rewrite <- (Z.add_0_l (answered broken rs status)). apply serve_all_counts; [done|done|].
    unfold counts. rewrite !(proj1 (Hzero _)), !(proj2 (Hzero _)). by repeat destruct Hst as [<-|Hst].
  - exists (if String.eqb broken "true" then 500 else 200). rewrite (proj1 (Hzero _)), post_root.
    cbn [fst requests instrument]. rewrite series_instrument, (proj1 (Hzero _)), label_post.
    by destruct (String.eqb broken "true").
Qed.

Lemma testsvc_counts_witness :
  exists m, testsvc_newHandler (mkRegistration None None) = Ok m /\
    counts (serve_all "false" [mkRequest "GET" "/boom"; mkRequest "GET" "/"; mkRequest "GET" "/metrics"] m).1 500 1.
Proof.
  eexists. split; [reflexivity|].
  refine (proj1 (testsvc_counts "false" (mkRegistration None None) _ _ "x" eq_refl _) 500 _).
  - repeat constructor.
  - right. by left.
Defined.
