(* ===== verification/Serve.v ===== *)
(** * Serving and stopping ([main] and [run] of [services/shortlink/main.go] and [examples/testsvc/main.go])

    [run] listens in a goroutine, waits for that goroutine's error or for a signal, and then shuts
    the server down with ten seconds for open requests. It is a step relation over the state its
    goroutine, the signal, the server and the clock share: the steps of all of them interleave. *)
From Stdlib Require Import ZArith Lia Ascii String.
From stdpp Require Import relations.
From S2P Require Import Prelude GoStrings GoStrconv GoFlag Http Telemetry ShortlinkHandler Testsvc.
Local Open Scope Z_scope.
Local Open Scope stdpp_scope.

(** ** Definitions *)

Definition ErrServerClosed : error := SentinelError "http: Server closed".
Definition DeadlineExceeded : error := SentinelError "context deadline exceeded".

Definition serving (err : error) : error := WrapError (Sprintf ["serving: "; Error err]) err.
Definition shutting_down (err : error) : error := WrapError (Sprintf ["shutting down: "; Error err]) err.

(** Where [run] is. [Finished] carries what it returned. *)
Inductive run_pc :=
  | Selecting
  | ShuttingDown
  | Receiving
  | Finished (err : option error).

(** The goroutine: inside [ListenAndServe], about to send its error, or gone. *)
Inductive listener_pc :=
  | Listening
  | Sending (err : error)
  | Gone.

Record process := mkProcess {
  run_at : run_pc;
  listener_at : listener_pc;
  serveErr : option error;     (* the channel: its buffer holds one error *)
  signalled : bool;            (* ctx is done *)
  inShutdown : bool;           (* Shutdown was called *)
  open_requests : nat;
  seconds_left : nat           (* of the shutdown's deadline *)
}.

Definition shutdownSeconds : nat := 10.

Definition run_start : process := mkProcess Selecting Listening None false false 0 shutdownSeconds.

(** [ListenAndServe] never returns nil; its error is [ErrServerClosed] only once [Shutdown] was
    called, and from then on no request is accepted: the call is one step with the select that
    leads to it. [Shutdown] returns nil when no request is open, or the error of closing a
    listener, or that of its context. A signal matters only to the select. *)
Inductive step (s : process) : process -> Prop :=
  (* the environment: requests, the signal *)
  | step_accept : listener_at s = Listening -> inShutdown s = false ->
      step s (mkProcess (run_at s) (listener_at s) (serveErr s) (signalled s) (inShutdown s) (S (open_requests s)) (seconds_left s))
  | step_answer n : open_requests s = S n ->
      step s (mkProcess (run_at s) (listener_at s) (serveErr s) (signalled s) (inShutdown s) n (seconds_left s))
  | step_signal : run_at s = Selecting -> signalled s = false ->
      step s (mkProcess (run_at s) (listener_at s) (serveErr s) true (inShutdown s) (open_requests s) (seconds_left s))
  (* the goroutine *)
  | step_listen err : listener_at s = Listening -> inShutdown s = false -> errorsIs err (Error ErrServerClosed) = false ->
      step s (mkProcess (run_at s) (Sending err) (serveErr s) (signalled s) (inShutdown s) (open_requests s) (seconds_left s))
  | step_closed err : listener_at s = Listening -> inShutdown s = true ->
      err = ErrServerClosed \/ errorsIs err (Error ErrServerClosed) = false ->
      step s (mkProcess (run_at s) (Sending err) (serveErr s) (signalled s) (inShutdown s) (open_requests s) (seconds_left s))
  | step_send err : listener_at s = Sending err -> serveErr s = None ->
      step s (mkProcess (run_at s) Gone (Some err) (signalled s) (inShutdown s) (open_requests s) (seconds_left s))
  (* run: the select *)
  | step_select_error err : run_at s = Selecting -> serveErr s = Some err ->
      step s (mkProcess (Finished (Some (serving err))) (listener_at s) None (signalled s) (inShutdown s) (open_requests s) (seconds_left s))
  | step_select_signal : run_at s = Selecting -> signalled s = true ->
      step s (mkProcess ShuttingDown (listener_at s) (serveErr s) (signalled s) true (open_requests s) shutdownSeconds)
  (* run: Shutdown *)
  | step_second n : run_at s = ShuttingDown -> seconds_left s = S n ->
      step s (mkProcess (run_at s) (listener_at s) (serveErr s) (signalled s) (inShutdown s) (open_requests s) n)
  | step_idle : run_at s = ShuttingDown -> open_requests s = 0%nat ->
      step s (mkProcess Receiving (listener_at s) (serveErr s) (signalled s) (inShutdown s) (open_requests s) (seconds_left s))
  | step_close_failed err : run_at s = ShuttingDown -> open_requests s = 0%nat ->
      step s (mkProcess (Finished (Some (shutting_down err))) (listener_at s) (serveErr s) (signalled s) (inShutdown s) (open_requests s) (seconds_left s))
  | step_deadline : run_at s = ShuttingDown -> seconds_left s = 0%nat ->
      step s (mkProcess (Finished (Some (shutting_down DeadlineExceeded))) (listener_at s) (serveErr s) (signalled s) (inShutdown s) (open_requests s) (seconds_left s))
  (* run: the last receive *)
  | step_receive err : run_at s = Receiving -> serveErr s = Some err ->
      step s (mkProcess (Finished (if negb (errorsIs err (Error ErrServerClosed)) then Some (serving err) else None))
                (listener_at s) None (signalled s) (inShutdown s) (open_requests s) (seconds_left s)).

(** [run]: nothing is served when the handler could not be made. *)
Definition start {A} (handler : result A) : process :=
  match handler with
  | Err err => mkProcess (Finished (Some err)) Gone None false false 0 shutdownSeconds
  | Ok _ => run_start
  end.

Definition shortlink_run `{MetricVec} (order : list (string * list string)) (r : registration) : process :=
  start (newHandler order r).
Definition testsvc_run `{MetricVec} (r : registration) : process := start (testsvc_newHandler r).

(** *** The commands *)

Definition command_flag (name : string) : option flag_kind := if String.eqb name "addr" then Some StringFlag else None.

(** What [main] does with a command line: exit at once, or run, listening on an address. *)
Inductive command := Exits (code : Z) | Serving (addr : string) (p : process).

Definition command_main {A} (handler : result A) (args : list string) : command :=
  match Parse command_flag args with
  | HelpRequested => Exits 0
  | Malformed => Exits 2
  | Flags settings _ => Serving (string_value settings "addr" ":8080") (start handler)
  end.

Definition shortlink_main `{MetricVec} (order : list (string * list string)) (r : registration) (args : list string) : command :=
  command_main (newHandler order r) args.
Definition testsvc_main `{MetricVec} (r : registration) (args : list string) : command :=
  command_main (testsvc_newHandler r) args.

(** [log.Fatal] exits with 1, a [main] that returns with 0, whatever its goroutines do. *)
Definition exit_status (s : process) : option Z :=
  match run_at s with Finished (Some _) => Some 1 | Finished None => Some 0 | _ => None end.

(** ** Lemmas *)

(** What every reachable state satisfies. An error is in the channel only once the goroutine that
    sent it is gone, so the send never blocks. *)
Definition consistent (s : process) : Prop :=
  (is_Some (serveErr s) -> listener_at s = Gone) /\
  match run_at s with
  | Selecting => inShutdown s = false /\ (listener_at s = Gone -> is_Some (serveErr s))
  | ShuttingDown => inShutdown s = true /\ signalled s = true /\ (listener_at s = Gone -> is_Some (serveErr s))
  | Receiving => inShutdown s = true /\ signalled s = true /\ (listener_at s = Gone -> is_Some (serveErr s)) /\ open_requests s = 0%nat
  | Finished None => inShutdown s = true /\ signalled s = true /\ listener_at s = Gone /\ open_requests s = 0%nat
  | Finished (Some _) => inShutdown s = true \/ listener_at s = Gone
  end.

Lemma consistent_step s s' : step s s' -> consistent s -> consistent s'.
Proof.
  intros Hs (H1 & H2). destruct s as [pc l c sig sd n t].
  destruct Hs; cbn in *; subst; split; cbn; try naive_solver.
  all: try (destruct pc as [| | |[]]; naive_solver).
  destruct (errorsIs err _); cbn; naive_solver.
Qed.

Lemma consistent_reachable s s' : rtc step s s' -> consistent s -> consistent s'.
Proof. induction 1 as [|s1 s2 s3 H12 _ IH]; [done|]. intros Hs. by eapply IH, consistent_step. Qed.

Lemma consistent_start {A} (handler : result A) : consistent (start handler).
Proof. destruct handler; (split; [by intros []|]); [by split|by right]. Qed.

Lemma reachable_result {A} (handler : result A) s e :
  rtc step (start handler) s -> run_at s = Finished (Some e) ->
  handler = Err e \/ exists err, e = serving err \/ e = shutting_down err.
Proof.
  intros Hs. revert e. revert Hs. apply (rtc_ind_r (fun s => forall e, run_at s = Finished (Some e) ->
    handler = Err e \/ exists err, e = serving err \/ e = shutting_down err) (start handler)).
  - by intros e; destruct handler as [a|err]; [|intros [= <-]; left].
  - intros s1 s2 _ Hs IH e. destruct Hs; cbn; try done; try (apply IH; congruence).
    all: try (intros [= <-]; right; eauto).
    destruct (errorsIs err _); cbn; [done|]. intros [= <-]. right. eauto.
Qed.

(** The server still takes requests. *)
Definition accepting (s : process) : bool :=
  match listener_at s with Listening => negb (inShutdown s) | _ => false end.

Lemma accepting_step s s' : step s s' -> accepting s = false -> accepting s' = false.
Proof.
  destruct s as [pc l c sig sd n t]. intros []; unfold accepting in *; cbn in *; subst; try done.
  by destruct l.
Qed.

(** Once it does not, every step uses some of this up. *)
Definition rank (s : process) : nat :=
  20 * match run_at s with Selecting => 3 | ShuttingDown => 2 | Receiving => 1 | Finished _ => 0 end
  + seconds_left s + open_requests s
  + match listener_at s with Listening => 2 | Sending _ => 1 | Gone => 0 end
  + if signalled s then 0 else 1.

Lemma rank_step s s' : step s s' -> accepting s = false -> (rank s' < rank s)%nat.
Proof.
  destruct s as [pc l c sig sd n t]. unfold accepting, rank. intros [] Ha; cbn in *; subst; cbn in *; try discriminate; lia.
Qed.

Lemma stops s : accepting s = false -> Acc (fun s2 s1 => step s1 s2) s.
Proof.
  intros Ha. remember (rank s) as n eqn:Hn. revert s Ha Hn.
  induction n as [n IH] using lt_wf_ind. intros s Ha ->. constructor. intros s' Hs.
  eapply IH; [by apply rank_step|by eapply accepting_step|done].
Qed.

Lemma accepting_reachable s s' : rtc step s s' -> accepting s = false -> accepting s' = false.
Proof. induction 1 as [|s1 s2 s3 H12 _ IH]; [done|]. intros Hs. by eapply IH, accepting_step. Qed.

(** What can not go on has returned and has no goroutine left. *)
Lemma stuck_finished s :
  consistent s -> ~ (exists s', step s s') -> accepting s = false ->
  listener_at s = Gone /\ exists r, run_at s = Finished r.
Proof.
  intros Hc Hn Ha. destruct s as [pc l c sig sd n t]. unfold accepting in Ha.
  assert (l = Gone) as ->.
  { destruct l as [|err|]; [|exfalso|done]; cbn in *.
    - destruct sd; [|done]. exfalso. apply Hn. eexists. eapply (step_closed _ ErrServerClosed); auto.
    - apply Hn. eexists. apply (step_send _ err); [done|]. cbn. destruct Hc as [Hc _]. cbn in Hc.
      destruct c; [|done]. by specialize (Hc ltac:(by eexists)). }
  split; [done|]. destruct Hc as [_ Hc]. cbn in *.
  destruct pc as [| | |r]; [| | |by eexists]; exfalso; apply Hn.
  - destruct Hc as (_ & [err ->]); [done|]. eexists. by eapply (step_select_error _ err).
  - destruct n as [|n]; [eexists; by apply step_idle|eexists; by eapply step_answer].
  - destruct Hc as (_ & _ & [err ->] & _); [done|]. eexists. by eapply (step_receive _ err).
Qed.

(** ** Properties *)

(** C29: The services stop, and stop clean. From any state a server can reach in which it no longer
    takes requests, because a signal started the shutdown or the listener failed, every schedule
    of its goroutine, its open requests, its clock and the shutdown is finite and ends with [run]
    returned and the goroutine gone. It exits with 0 only after a signal, with no request cut off, and
    otherwise with 1: for the error of making the handler, or an error of the listener or of the
    shutdown, wrapped. *)
Theorem run_terminates {A} (handler : result A) (args : list string) (addr : string) (p s : process) :
  command_main handler args = Serving addr p -> rtc step p s ->
  (accepting s = false ->
   Acc (fun s2 s1 => step s1 s2) s /\
   forall s', rtc step s s' -> ~ (exists s'', step s' s'') -> listener_at s' = Gone /\ is_Some (exit_status s')) /\
  (exit_status s = Some 0 -> signalled s = true /\ open_requests s = 0%nat) /\
  (forall code, exit_status s = Some code -> code <> 0 -> code = 1 /\
     exists e, run_at s = Finished (Some e) /\ (handler = Err e \/ exists err, e = serving err \/ e = shutting_down err)).
Proof.
  intros Hmain Hs. assert (p = start handler) as -> by (unfold command_main in Hmain; by destruct (Parse _ _); simplify_eq).
  pose proof (consistent_reachable _ _ Hs (consistent_start handler)) as Hc. unfold exit_status. split; [|split].
  - intros Ha. split; [by apply stops|]. intros s' Hs' Hn.
    destruct (stuck_finished s') as [Hl [r ->]]; [by eapply consistent_reachable|done|by eapply accepting_reachable|].
    split; [done|]. destruct r; by eexists.
  - intros Hr. destruct Hc as [_ Hc]. destruct (run_at s) as [| | |[e|]]; try done. tauto.
  - intros code Hr Hne. destruct (run_at s) as [| | |[e|]] eqn:E; try done; injection Hr as <-; [|done].
    split; [done|]. exists e. split; [done|]. by eapply reachable_result.
Qed.

(** shortlink is signalled with one request open, answers it and stops. *)
Lemma run_terminates_witness :
  exists s, rtc step (shortlink_run statuses (mkRegistration None None)) s /\ run_at s = Finished None /\
    Acc (fun s2 s1 => step s1 s2) s.
Proof.
  set (s := mkProcess (Finished None) Gone None true true 0 10).
  assert (rtc step (shortlink_run statuses (mkRegistration None None)) s) as Hs.
  { change (shortlink_run statuses (mkRegistration None None)) with run_start.
    eapply rtc_l; [by apply step_accept|]. eapply rtc_l; [by apply step_signal|].
    eapply rtc_l; [by apply step_select_signal|]. eapply rtc_l; [by eapply step_answer|].
    eapply rtc_l; [by apply step_idle|]. eapply rtc_l; [by apply (step_closed _ ErrServerClosed); auto|].
    eapply rtc_l; [by eapply step_send|]. eapply rtc_l; [by eapply step_receive|]. apply rtc_refl. }
  exists s. split; [exact Hs|]. split; [reflexivity|].
  exact (proj1 (proj1 (run_terminates (newHandler statuses (mkRegistration None None)) ["-addr"; ":9090"] ":9090" _ s eq_refl Hs) eq_refl)).
Defined.
