(* ===== verification/TestUtils.v ===== *)
(** * The helpers of the end-to-end tests ([test/utils/utils.go])

    Commands, files and the environment belong to the host: [Host] answers for them. *)
From Stdlib Require Import ZArith Lia Ascii String.
From S2P Require Import Prelude GoStrings.
Local Open Scope Z_scope.
Local Open Scope stdpp_scope.

(** ** Definitions *)

Definition certmanagerVersion : string := "v1.21.1".
Definition certmanagerURL : string :=
  Sprintf ["https://github.com/cert-manager/cert-manager/releases/download/"; certmanagerVersion; "/cert-manager.yaml"].
Definition defaultKindBinary : string := "kind".
Definition defaultKindCluster : string := "kind".

(** [strings.TrimPrefix], [strings.Index]. *)
Definition TrimPrefix (s p : string) : string := if HasPrefix s p then drop_bytes (String.length p) s else s.
Fixpoint Index (s sub : string) : option nat :=
  if HasPrefix s sub then Some 0%nat
  else match s with String _ s' => S <$> Index s' sub | EmptyString => None end.

(** *** [bufio.Scanner] with its default split function *)

(** A line of this many bytes or more does not fit in the scanner's buffer. *)
Definition MaxScanTokenSize : Z := 65536.
Definition carriage_return : string := String (ascii_of_nat 13) EmptyString.
Definition lf : ascii := ascii_of_nat 10.

(** The lines [Scan] comes to, up to the first that is too long: there it stops without a word,
    unless [Err] is asked. *)
Fixpoint short_lines (ls : list string) : list string :=
  match ls with
  | [] => []
  | l :: ls => if len l <? MaxScanTokenSize then TrimSuffix l carriage_return :: short_lines ls else []
  end.

(** The text after the last newline is a line only when there is some. *)
Fixpoint drop_last_empty (ls : list string) : list string :=
  match ls with
  | [] => []
  | [l] => if String.eqb l "" then [] else [l]
  | l :: ls => l :: drop_last_empty ls
  end.
Definition scan_lines (text : string) : list string := short_lines (drop_last_empty (split_on lf text)).

(** *** The helpers *)

Definition GetNonEmptyLines (output : string) : list string :=
  List.filter (fun element => negb (String.eqb element "")) (split_on lf output).

Class Host := {
  Getwd : string * option error;
  (* CombinedOutput of a command run in a directory *)
  CombinedOutput : string -> list string -> string * option error;
  LookupEnv : string -> option string
}.

Section utils.
Context `{UnicodePrint, Host}.

Definition GetProjectDir : string * option error :=
  match Getwd with
  | (wd, Some err) => (wd, Some (WrapError (Sprintf ["failed to get current working directory: "; Error err]) err))
  | (wd, None) => (ReplaceAll wd "/test/e2e" "", None)
  end.

(** [Run]: the command's output comes back even when it failed. It also moves the process to the
    directory it found, which is where the command runs in any case; [Getwd] is what the call reads. *)
Definition Run (args : list string) : string * option error :=
  let '(dir, _) := GetProjectDir in
  let command := Join args " " in
  let '(output, err) := CombinedOutput dir args in
  match err with
  | Some err =>
      (output, Some (WrapError (Sprintf [Quote command; " failed with error "; Quote output; ": "; Error err]) err))
  | None => (output, None)
  end.

(** The errors [UninstallCertManager] warns about; it goes on after each. *)
Definition UninstallCertManager : list error :=
  omap (fun args => (Run args).2)
    (["kubectl"; "delete"; "-f"; certmanagerURL] ::
     map (fun lease => ["kubectl"; "delete"; "lease"; lease; "-n"; "kube-system"; "--ignore-not-found"; "--force"; "--grace-period=0"])
       ["cert-manager-cainjector-leader-election"; "cert-manager-controller"]).

Definition InstallCertManager : option error :=
  match Run ["kubectl"; "apply"; "-f"; certmanagerURL] with
  | (_, Some err) => Some err
  | (_, None) =>
      (Run ["kubectl"; "wait"; "deployment.apps/cert-manager-webhook"; "--for"; "condition=Available";
            "--namespace"; "cert-manager"; "--timeout"; "5m"]).2
  end.

Definition certManagerCRDs : list string :=
  ["certificates.cert-manager.io"; "issuers.cert-manager.io"; "clusterissuers.cert-manager.io";
   "certificaterequests.cert-manager.io"; "orders.acme.cert-manager.io"; "challenges.acme.cert-manager.io"].

Definition IsCertManagerCRDsInstalled : bool :=
  match Run ["kubectl"; "get"; "crds"] with
  | (_, Some _) => false
  | (output, None) =>
      let crdList := GetNonEmptyLines output in
      existsb (fun crd => existsb (fun line => Contains line crd) crdList) certManagerCRDs
  end.

Definition LoadImageToKindClusterWithName (name : string) : option error :=
  let cluster := default defaultKindCluster (LookupEnv "KIND_CLUSTER") in
  let kindBinary := default defaultKindBinary (LookupEnv "KIND") in
  (Run [kindBinary; "load"; "docker-image"; name; "--name"; cluster]).2.

(** What replaces the target: the lines scanned, without the prefix. *)
Definition uncommented (target prefix : string) : string :=
  Join (map (fun line => TrimPrefix line prefix) (scan_lines target)) newline.

(** The files are a map from names to contents; [read_failed] and [write_failed] are what the file
    system objects to. The result is the files afterwards and the error. *)
Definition UncommentCode (read_failed write_failed : option error) (files : gmap string string)
    (filename target prefix : string) : gmap string string * option error :=
  match read_failed, files !! filename with
  | Some err, _ => (files, Some (WrapError (Sprintf ["failed to read file "; Quote filename; ": "; Error err]) err))
  | None, None =>
      let err := SentinelError "file does not exist" in
      (files, Some (WrapError (Sprintf ["failed to read file "; Quote filename; ": "; Error err]) err))
  | None, Some content =>
      match Index content target with
      | None => (files, Some (ErrorString (Sprintf ["unable to find the code "; Quote target; " to be uncommented"])))
      | Some idx =>
          match scan_lines target with
          | [] => (files, None)
          | _ =>
              match write_failed with
              | Some err => (files, Some (WrapError (Sprintf ["failed to write file "; Quote filename; ": "; Error err]) err))
              | None =>
                  (<[filename := take_bytes idx content +:+ uncommented target prefix +:+
                                 drop_bytes (idx + String.length target) content]> files, None)
              end
          end
      end
  end.
End utils.

(** ** Lemmas *)

(** One line of a file. *)
Definition is_line (s : string) : bool :=
  forallb (fun c => negb (Ascii.eqb c lf)) (list_ascii_of_string s) && negb (HasSuffix s carriage_return).

Lemma split_on_app sep s t :
  forallb (fun c => negb (Ascii.eqb c sep)) (list_ascii_of_string s) = true ->
  split_on sep (s +:+ String sep t) = s :: split_on sep t.
Proof.
  induction s as [|c s IH]; cbn.
  - intros _. by rewrite Ascii.eqb_refl.
  - intros [Hc Hs]%andb_true_iff. apply negb_true_iff in Hc. by rewrite Hc, (IH Hs).
Qed.

Lemma split_on_Join ls :
  ls <> [] -> forallb (fun s => forallb (fun c => negb (Ascii.eqb c lf)) (list_ascii_of_string s)) ls = true ->
  split_on lf (Join ls newline) = ls.
Proof.
  induction ls as [|l ls IH]; [done|]. intros _. cbn [forallb]. intros [Hl Hls]%andb_true_iff.
  destruct ls as [|l' ls]; [by apply split_on_none|].
  change (Join (l :: l' :: ls) newline) with (l +:+ (newline +:+ Join (l' :: ls) newline)).
  change (newline +:+ Join (l' :: ls) newline) with (String lf (Join (l' :: ls) newline)).
  by rewrite split_on_app, IH.
Qed.

(** The lines before the first whose commented form does not fit in the scanner. *)
Fixpoint kept_lines (prefix : string) (ls : list string) : list string :=
  match ls with
  | [] => []
  | l :: ls => if len (prefix +:+ l) <? MaxScanTokenSize then l :: kept_lines prefix ls else []
  end.

Definition comment (prefix : string) (ls : list string) : string := Join (map (String.append prefix) ls) newline.

Lemma drop_last_empty_id ls : Forall (fun l => l <> "") ls -> drop_last_empty ls = ls.
Proof.
  induction 1 as [|l ls Hl Hls IH]; [done|]. cbn [drop_last_empty].
  destruct ls; [by rewrite (proj2 (String.eqb_neq _ _) Hl)|by rewrite IH].
Qed.

Lemma TrimSuffix_none s p : HasSuffix s p = false -> TrimSuffix s p = s.
Proof. unfold TrimSuffix. by intros ->. Qed.

Lemma TrimPrefix_append p s : TrimPrefix (p +:+ s) p = s.
Proof.
  unfold TrimPrefix. rewrite (proj2 (HasPrefix_spec _ _) (ex_intro _ s eq_refl)). apply drop_append.
Qed.

Lemma scan_commented prefix ls :
  Forall (fun l => is_line (prefix +:+ l) = true) ls -> prefix <> "" ->
  scan_lines (comment prefix ls) = map (String.append prefix) (kept_lines prefix ls).
Proof.
  intros Hls Hp. unfold scan_lines, comment. destruct ls as [|l0 ls0]; [done|].
  remember (l0 :: ls0) as ls eqn:E. rewrite split_on_Join; [| |].
  - rewrite drop_last_empty_id.
    2:{ apply Forall_forall. intros l Hl. apply list_elem_of_In, in_map_iff in Hl as (l' & <- & _).
        intros Hn. by destruct prefix. }
    clear E l0 ls0. induction Hls as [|l ls Hl Hls IH]; [done|]. cbn [map short_lines kept_lines].
    destruct (_ <? _); [|done]. cbn [map]. rewrite IH, TrimSuffix_none; [done|].
    apply andb_true_iff in Hl as [_ Hl]. by apply negb_true_iff.
  - by rewrite E.
  - apply forallb_forall. intros l Hl. apply in_map_iff in Hl as (l' & <- & Hl').
    apply list_elem_of_In in Hl'. apply (proj1 (Forall_forall _ _) Hls) in Hl'. by apply andb_true_iff in Hl' as [? _].
Qed.

Lemma kept_all prefix ls :
  kept_lines prefix ls = ls <-> Forall (fun l => len (prefix +:+ l) < MaxScanTokenSize) ls.
Proof.
  induction ls as [|l ls IH]; [split; [constructor|done]|]. cbn [kept_lines]. rewrite Forall_cons, <- IH.
  destruct (Z.ltb_spec (len (prefix +:+ l)) MaxScanTokenSize); split.
  - intros [= ->]. done.
  - by intros [_ ->].
  - done.
  - intros [? _]. lia.
Qed.

(** ** Properties *)

(** UncommentCode undoes commenting. When the first occurrence of a block of lines, each
    commented with the prefix, is the target, the file afterwards is the file with the lines
    themselves in place of the block, and nothing else is touched. This holds of every line up to
    the first whose commented form has 65536 bytes: that one and the ones after it are dropped
    from the file without an error, so the file is right exactly when all lines are shorter. *)
Theorem UncommentCode_round_trip `{UnicodePrint} (files : gmap string string) (filename pre post prefix : string)
    (ls : list string) :
  files !! filename = Some (pre +:+ comment prefix ls +:+ post) ->
  Index (pre +:+ comment prefix ls +:+ post) (comment prefix ls) = Some (String.length pre) ->
  Forall (fun l => is_line (prefix +:+ l) = true) ls -> prefix <> "" ->
  let kept := kept_lines prefix ls in
  UncommentCode None None files filename (comment prefix ls) prefix =
    (match kept with [] => files | _ => <[filename := pre +:+ Join kept newline +:+ post]> files end, None) /\
  (kept = ls <-> Forall (fun l => len (prefix +:+ l) < MaxScanTokenSize) ls).
Proof.
  intros Hf Hi Hls Hp kept. split; [|apply kept_all]. unfold UncommentCode. rewrite Hf, Hi.
  unfold uncommented. rewrite (scan_commented _ _ Hls Hp). fold kept.
  rewrite map_map, (map_ext (fun l => TrimPrefix (prefix +:+ l) prefix) id) by (intros; apply TrimPrefix_append).
  rewrite map_id, take_append.
  replace (drop_bytes _ _) with post.
  - by destruct kept.
  - rewrite append_assoc, <- length_append. symmetry. apply drop_append.
Qed.

Lemma UncommentCode_round_trip_witness :
  let file := {["kustomization.yaml" := "a" +:+ newline +:+ "#b" +:+ newline +:+ "#c" +:+ newline +:+ "d"]} in
  @UncommentCode no_rune None None file "kustomization.yaml" ("#b" +:+ newline +:+ "#c") "#" =
  (<["kustomization.yaml" := "a" +:+ newline +:+ "b" +:+ newline +:+ "c" +:+ newline +:+ "d"]> file, None).
Proof.
  refine (proj1 (@UncommentCode_round_trip no_rune _ _ ("a" +:+ newline) (newline +:+ "d") "#" ["b"; "c"] _ _ _ _)).
  - reflexivity.
  - vm_compute. reflexivity.
  - repeat constructor.
  - discriminate.
Defined.
