(* ===== verification/GoMemory.v ===== *)
(** * Memory: slices, pointers and what a deep copy promises

    A heap maps locations to cells; a cell holds an array of some type. A slice is a window into
    an array, a pointer the location of an array of one element. [DeepCopyLaws] is the contract of
    a [DeepCopyInto] method: it only allocates, what it returns denotes the same value, and nothing
    it returns can reach a cell that existed before. The contract is closed under the shapes the
    generated code uses: plain values, structs, slices and pointers. *)
From Stdlib Require Import ZArith Lia.
From S2P Require Import Prelude.
Local Open Scope stdpp_scope.

Abbreviation loc := positive.

Section memory.
Context {cell : Type}.

Abbreviation heap := (gmap loc cell).

Definition alloc (h : heap) (c : cell) : heap * loc := let l := fresh (dom h) in (<[l := c]> h, l).

(** ** Interfaces *)

(** [copy_into h x] is [x.DeepCopyInto(out)] for a struct value [x]: the heap afterwards and what
    [*out] is. [denote] is the value with its references followed; [reach] the cells followed. *)
Class DeepCopyInto (T V : Type) := {
  copy_into : heap -> T -> heap * T;
  denote : heap -> T -> V;
  reach : heap -> T -> gset loc;
  valid_in : heap -> T -> Prop
}.

Class DeepCopyLaws (T V : Type) `{!DeepCopyInto T V} := {
  copy_grows h x : valid_in h x -> h ⊆ (copy_into h x).1;
  copy_valid h x : valid_in h x -> valid_in (copy_into h x).1 (copy_into h x).2;
  copy_denote h x : valid_in h x -> denote (copy_into h x).1 (copy_into h x).2 = denote h x;
  copy_fresh h x : valid_in h x -> reach (copy_into h x).1 (copy_into h x).2 ## dom h;
  reach_dom h x : valid_in h x -> reach h x ⊆ dom h;
  frame_all h h2 x : valid_in h x -> (forall l, l ∈ reach h x -> h2 !! l = h !! l) ->
    valid_in h2 x /\ denote h2 x = denote h x /\ reach h2 x = reach h x
}.

(** Arrays of [T] as cells. *)
Class Stored (T : Type) := {
  to_cell : list T -> cell;
  of_cell : cell -> option (list T);
  of_to_cell xs : of_cell (to_cell xs) = Some xs;
  zero_value : T
}.

Definition read_array {T} `{Stored T} (h : heap) (l : loc) : option (list T) := h !! l ≫= of_cell.

(** ** Plain values *)

(** A struct without references: [*out = *in]. *)
Definition plain_copy {T : Type} : DeepCopyInto T T := {|
  copy_into h x := (h, x); denote _ x := x; reach _ _ := ∅; valid_in _ _ := True
|}.

Lemma plain_laws {T : Type} : @DeepCopyLaws T T plain_copy.
Proof. split; cbn; set_solver. Qed.

(** ** Structs *)

(** Fields are copied one after the other. *)
#[export] Instance pair_copy {T1 V1 T2 V2} `{DeepCopyInto T1 V1, DeepCopyInto T2 V2} : DeepCopyInto (T1 * T2) (V1 * V2) := {|
  copy_into h x :=
    let '(h1, y1) := copy_into h x.1 in
    let '(h2, y2) := copy_into h1 x.2 in (h2, (y1, y2));
  denote h x := (denote h x.1, denote h x.2);
  reach h x := reach h x.1 ∪ reach h x.2;
  valid_in h x := valid_in h x.1 /\ valid_in h x.2
|}.

Lemma frame_grows {T V} `{DeepCopyLaws T V} h h2 x :
  valid_in h x -> h ⊆ h2 -> valid_in h2 x /\ denote h2 x = denote h x /\ reach h2 x = reach h x.
Proof.
  intros Hx Hsub. apply frame_all; [done|]. intros l Hl. apply (reach_dom h x Hx) in Hl.
  apply elem_of_dom in Hl as [c Hc]. rewrite Hc. by eapply lookup_weaken.
Qed.

#[export] Instance pair_laws {T1 V1 T2 V2} `{DeepCopyLaws T1 V1, DeepCopyLaws T2 V2} : DeepCopyLaws (T1 * T2) (V1 * V2).
Proof.
  split; intros h.
  all: try (intros [x1 x2] [V1' V2']; cbn in *;
    pose proof (copy_grows h x1 V1') as G1; pose proof (copy_valid h x1 V1') as Y1;
    pose proof (copy_denote h x1 V1') as D1; pose proof (copy_fresh h x1 V1') as F1;
    destruct (copy_into h x1) as [h1 y1]; cbn in *;
    destruct (frame_grows h h1 x2 V2' G1) as (V3 & D3 & R3);
    pose proof (copy_grows h1 x2 V3) as G2; pose proof (copy_valid h1 x2 V3) as Y2;
    pose proof (copy_denote h1 x2 V3) as D2; pose proof (copy_fresh h1 x2 V3) as F2;
    destruct (copy_into h1 x2) as [h2 y2]; cbn in *;
    destruct (frame_grows h1 h2 y1 Y1 G2) as (Y1' & D1' & R1')).
  - by etransitivity.
  - done.
  - by rewrite D1', D1, D2, D3.
  - rewrite R1'. apply subseteq_dom in G1. set_solver.
  - pose proof (reach_dom h x1 V1'). pose proof (reach_dom h x2 V2'). set_solver.
  - intros h2 [x1 x2] [Ha Hb] Hl. cbn in *.
    destruct (frame_all h h2 x1 Ha) as (? & -> & ->); [set_solver|].
    destruct (frame_all h h2 x2 Hb) as (? & -> & ->); [set_solver|]. done.
Qed.

(** A struct is copied like the tuple of its fields. *)
Definition copies_as {T A VA V} `{DeepCopyInto A VA} (fields : T -> A) (make : A -> T) (value : VA -> V) : DeepCopyInto T V := {|
  copy_into h x := let '(h', a) := copy_into h (fields x) in (h', make a);
  denote h x := value (denote h (fields x));
  reach h x := reach h (fields x);
  valid_in h x := valid_in h (fields x)
|}.

Lemma copies_as_laws {T A VA V} `{DeepCopyLaws A VA} (fields : T -> A) (make : A -> T) (value : VA -> V) :
  (forall h x, fields (make (copy_into h (fields x)).2) = (copy_into h (fields x)).2) ->
  @DeepCopyLaws T V (copies_as fields make value).
Proof.
  intros Hf. split; intros h.
  all: try (intros x Hx; specialize (Hf h x); cbn in *; pose proof (copy_grows h (fields x) Hx); pose proof (copy_valid h (fields x) Hx);
    pose proof (copy_denote h (fields x) Hx) as Hd; pose proof (copy_fresh h (fields x) Hx);
    pose proof (reach_dom h (fields x) Hx);
    destruct (copy_into h (fields x)) as [h' a]; cbn in *; rewrite ?Hf; try done; by rewrite Hd).
  intros h2 x Hx Hl. cbn in *. by destruct (frame_all h h2 (fields x) Hx Hl) as (? & -> & ->).
Qed.

Lemma copies_as_fields {T A VA V} `{DeepCopyLaws A VA} (fields : T -> A) (make : A -> T) (value : VA -> V) :
  (forall a, fields (make a) = a) -> @DeepCopyLaws T V (copies_as fields make value).
Proof. intros Hf. apply copies_as_laws. intros h x. apply Hf. Qed.

(** A method that does what the fields' methods do keeps the contract. *)
Definition with_copy {T V} (f : heap -> T -> heap * T) (D : DeepCopyInto T V) : DeepCopyInto T V := {|
  copy_into := f; denote := @denote _ _ D; reach := @reach _ _ D; valid_in := @valid_in _ _ D
|}.

Lemma with_copy_laws {T V} (f : heap -> T -> heap * T) (D : DeepCopyInto T V) :
  @DeepCopyLaws T V D -> (forall h x, valid_in h x -> f h x = copy_into h x) -> @DeepCopyLaws T V (with_copy f D).
Proof.
  intros L Hf. split; cbn; intros h.
  1-4: intros x Hx; rewrite (Hf h x Hx).
  - by apply copy_grows.
  - by apply copy_valid.
  - by apply copy_denote.
  - by apply copy_fresh.
  - apply reach_dom.
  - apply frame_all.
Qed.

(** ** Slices *)

Record window := mkWindow { array : loc; offset : nat; length_of : nat }.

(** A nil slice is [None]. *)
Definition slice (T : Type) : Type := option window.

Definition elements {T} `{Stored T} (h : heap) (w : window) : list T :=
  take (length_of w) (drop (offset w) (default [] (read_array h (array w)))).

(** [for i := range *in { ( *in)[i].DeepCopyInto(&( *out)[i]) }] into the array at [l]: [ys] are the
    elements written, [xs] those to come. Copies only allocate, so that the array they are read
    from stays as it was. *)
Fixpoint copy_elements {T V} `{Stored T, DeepCopyInto T V} (h : heap) (l : loc) (ys xs : list T) : heap :=
  match xs with
  | [] => h
  | x :: xs =>
      let '(h1, y) := copy_into h x in
      copy_elements (<[l := to_cell (ys ++ y :: replicate (length xs) zero_value)]> h1) l (ys ++ [y]) xs
  end.

(** [if in.F != nil { *out = make([]T, len( *in)); for ... }] *)
Definition slice_copy_into {T V} `{Stored T, DeepCopyInto T V} (h : heap) (s : slice T) : heap * slice T :=
  match s with
  | None => (h, None)
  | Some w =>
      let xs := elements h w in
      let '(h1, l) := alloc h (to_cell (replicate (length_of w) zero_value)) in
      (copy_elements h1 l [] xs, Some (mkWindow l 0 (length_of w)))
  end.

Definition slice_copy {T V} `{Stored T, DeepCopyInto T V} : DeepCopyInto (slice T) (option (list V)) := {|
  copy_into := slice_copy_into (T := T);
  denote h s := match s with None => None | Some w => Some (map (denote h) (elements (T := T) h w)) end;
  reach h s := match s with None => ∅ | Some w => {[array w]} ∪ ⋃ (map (reach h) (elements (T := T) h w)) end;
  valid_in h s :=
    match s with
    | None => True
    | Some w => exists xs, read_array (T := T) h (array w) = Some xs /\ offset w + length_of w <= length xs /\
                  Forall (valid_in h) (elements (T := T) h w)
    end
|}.

(** An element of the new array: it shares nothing with [h0] and does not reach the array. *)
Definition copied {T V} `{DeepCopyInto T V} (h0 h : heap) (l : loc) (y : T) : Prop :=
  valid_in h y /\ reach h y ## dom h0 /\ l ∉ reach h y.

Lemma copied_later {T V} `{DeepCopyLaws T V} h0 h h1 c l y :
  h ⊆ h1 -> copied h0 h l y -> copied h0 (<[l := c]> h1) l y /\ denote (<[l := c]> h1) y = denote h y.
Proof.
  intros Hsub (Hv & Hr & Hl). destruct (frame_grows h h1 y Hv Hsub) as (Hv1 & Hd1 & Hr1).
  destruct (frame_all h1 (<[l := c]> h1) y Hv1) as (Hv2 & Hd2 & Hr2).
  { intros l' Hl'. rewrite lookup_insert_ne; [done|]. intros ->. by rewrite Hr1 in Hl'. }
  unfold copied. rewrite Hr2, Hr1, Hd2, Hd1. done.
Qed.

Lemma copied_all_later {T V} `{DeepCopyLaws T V} h0 h h1 c l ys :
  Forall (copied h0 h l) ys -> h ⊆ h1 ->
  Forall (copied h0 (<[l := c]> h1) l) ys /\ map (denote (<[l := c]> h1)) ys = map (denote h) ys.
Proof.
  intros Hys G. induction Hys as [|z zs Hz _ [IH E]]; [done|].
  destruct (copied_later h0 h h1 c l z G Hz) as [? E2]. cbn. by rewrite E, E2; auto using Forall_cons_2.
Qed.

(** What the loop leaves: the array filled with copies, everything else as it was. *)
Lemma copy_elements_spec {T V} `{Stored T, DeepCopyLaws T V} (h0 : heap) l xs : forall h ys,
  h0 ⊆ h -> h0 !! l = None -> Forall (valid_in h0) xs -> Forall (copied h0 h l) ys ->
  read_array h l = Some (ys ++ replicate (length xs) zero_value) ->
  let h' := copy_elements h l ys xs in
  h0 ⊆ h' /\ exists zs, read_array h' l = Some zs /\ length zs = length ys + length xs /\
    Forall (copied h0 h' l) zs /\ map (denote h') zs = map (denote h) ys ++ map (denote h0) xs.
Proof.
  induction xs as [|x xs IH]; intros h ys Hsub Hl Hxs Hys Hread; cbn [copy_elements].
  - split; [done|]. exists ys. rewrite Hread. cbn. by rewrite !app_nil_r, Nat.add_0_r.
  - apply Forall_cons in Hxs as [Hx Hxs]. destruct (frame_grows h0 h x Hx Hsub) as (Hv & Hd & _).
    pose proof (copy_grows h x Hv) as G. pose proof (copy_valid h x Hv) as Y.
    pose proof (copy_denote h x Hv) as D. pose proof (copy_fresh h x Hv) as F.
    destruct (copy_into h x) as [h1 y]. cbn [fst snd] in *. set (c := to_cell _).
    assert (is_Some (h !! l)) as Hdom.
    { unfold read_array in Hread. destruct (h !! l); [by eexists|done]. }
    assert (copied h0 h1 l y) as Hy.
    { split; [done|]. split; [apply subseteq_dom in Hsub; set_solver|]. apply elem_of_dom in Hdom. set_solver. }
    destruct (copied_later h0 h1 h1 c l y (reflexivity _) Hy) as [Hy' Hdy].
    assert (Forall (copied h0 (<[l := c]> h1) l) ys /\ map (denote (<[l := c]> h1)) ys = map (denote h) ys) as [Hys' Hdys]
      by (exact (copied_all_later h0 h h1 c l ys Hys G)).
    specialize (IH (<[l := c]> h1) (ys ++ [y])). cbn zeta in IH.
    destruct IH as (Hsub' & zs & Hz1 & Hz2 & Hz3 & Hz4).
    + apply insert_subseteq_r; [done|]. by etransitivity.
    + done.
    + done.
    + apply Forall_app. split; [done|by apply Forall_singleton].
    + unfold read_array. rewrite lookup_insert_eq. cbn. unfold c. rewrite of_to_cell. by rewrite <- app_assoc.
    + split; [done|]. exists zs. split; [done|]. split; [rewrite Hz2, length_app; cbn; lia|].
      split; [done|]. rewrite Hz4, map_app, Hdys. cbn. by rewrite Hdy, D, Hd, <- app_assoc.
Qed.

Lemma union_map_dom {T V} `{DeepCopyLaws T V} (h : heap) xs :
  Forall (valid_in h) xs -> ⋃ (map (reach h) xs) ⊆ dom h.
Proof.
  induction 1 as [|x xs Hx _ IH]; cbn; [set_solver|]. pose proof (reach_dom h x Hx). set_solver.
Qed.

Lemma frame_list {T V} `{DeepCopyLaws T V} (h h2 : heap) xs :
  Forall (valid_in h) xs -> (forall l, l ∈ ⋃ (map (reach h) xs) -> h2 !! l = h !! l) ->
  Forall (valid_in h2) xs /\ map (denote h2) xs = map (denote h) xs /\ map (reach h2) xs = map (reach h) xs.
Proof.
  induction 1 as [|x xs Hx _ IH]; [done|]. cbn. intros Hl.
  destruct (frame_all h h2 x Hx) as (Hv & Hd & Hr); [set_solver|].
  destruct IH as (Hvs & Hds & Hrs); [set_solver|]. by rewrite Hd, Hr, Hds, Hrs; auto using Forall_cons_2.
Qed.

Lemma elements_whole {T} `{Stored T} (h : heap) l zs :
  read_array h l = Some zs -> elements h (mkWindow l 0 (length zs)) = zs.
Proof. intros Hr. unfold elements. cbn [array offset length_of]. rewrite Hr. cbn. by rewrite drop_0, firstn_all. Qed.

Lemma slice_spec {T V} `{Stored T, DeepCopyLaws T V} (h : heap) w :
  @valid_in _ _ slice_copy h (Some w) ->
  exists h' l zs, slice_copy_into (T := T) h (Some w) = (h', Some (mkWindow l 0 (length zs))) /\
    h ⊆ h' /\ h !! l = None /\ read_array h' l = Some zs /\ Forall (copied h h' l) zs /\
    map (denote h') zs = map (denote h) (elements h w).
Proof.
  intros (xs & Hr & Hlen & Hv). unfold slice_copy_into, alloc. set (l := fresh (dom h)).
  assert (h !! l = None) as Hl by (apply not_elem_of_dom, is_fresh).
  assert (length (elements (T := T) h w) = length_of w) as Hn.
  { unfold elements. rewrite Hr. cbn. rewrite length_take, length_drop. lia. }
  destruct (copy_elements_spec h l (elements h w) (<[l := to_cell (replicate (length_of w) zero_value)]> h) [])
    as (Hsub & zs & Hz1 & Hz2 & Hz3 & Hz4).
  - by apply insert_subseteq.
  - done.
  - done.
  - constructor.
  - unfold read_array. rewrite lookup_insert_eq. cbn. by rewrite of_to_cell, Hn.
  - exists (copy_elements (<[l := to_cell (replicate (length_of w) zero_value)]> h) l [] (elements h w)), l, zs.
    cbn in Hz2. rewrite Hn in Hz2. rewrite Hz2. done.
Qed.

Lemma slice_laws {T V} `{Stored T, DeepCopyLaws T V} : @DeepCopyLaws (slice T) (option (list V)) slice_copy.
Proof.
  split; intros h.
  all: try (intros [w|] Hw; [|cbn; set_solver]; change (@copy_into _ _ slice_copy) with (slice_copy_into (T := T));
    destruct (slice_spec h w Hw) as (h' & l & zs & -> & Hsub & Hl & Hz1 & Hz2 & Hz3);
    cbn [fst snd denote reach valid_in slice_copy array]; rewrite ?(elements_whole _ _ _ Hz1)).
  - done.
  - exists zs. cbn. split; [done|]. split; [lia|]. eapply Forall_impl; [exact Hz2|]. by intros y [? _].
  - by rewrite Hz3.
  - apply disjoint_union_l. split; [apply not_elem_of_dom in Hl; set_solver|].
    clear Hz1 Hz3. induction Hz2 as [|z zs (_ & Hz & _) _ IH]; cbn; set_solver.
  - intros [w|] Hw; [|cbn; set_solver]. destruct Hw as (xs & Hr & Hlen & Hv). cbn.
    pose proof (union_map_dom h (elements h w) Hv) as Hu.
    assert (array w ∈ dom h); [|set_solver]. apply elem_of_dom. unfold read_array in Hr.
    destruct (h !! array w); [by eexists|done].
  - intros h2 [w|] Hw Hf; [|done]. destruct Hw as (xs & Hr & Hlen & Hv). cbn in *.
    assert (elements (T := T) h2 w = elements h w) as He.
    { unfold elements, read_array. rewrite Hf by set_solver. done. }
    destruct (frame_list h h2 (elements h w) Hv) as (Hv2 & Hd2 & Hr2); [set_solver|].
    rewrite He, Hd2, Hr2. split; [|done]. exists xs. split; [|done]. unfold read_array. by rewrite Hf by set_solver.
Qed.

(** The built-in [copy] of plain elements does what the loop does. *)
Lemma copy_elements_plain {T} `{Stored T} l xs : forall (h : heap) ys,
  h !! l = Some (to_cell (ys ++ replicate (length xs) zero_value)) ->
  @copy_elements T T _ plain_copy h l ys xs = <[l := to_cell (ys ++ xs)]> h.
Proof.
  induction xs as [|x xs IH]; intros h ys Hl; cbn [copy_elements].
  - cbn in Hl. by rewrite insert_id.
  - cbn [copy_into plain_copy]. rewrite IH.
    + by rewrite insert_insert_eq, <- app_assoc.
    + by rewrite lookup_insert_eq, <- app_assoc.
Qed.

(** ** Pointers *)

(** A non-nil pointer is a window of one element. *)
Definition pointer (T : Type) : Type := option loc.
Definition deref {T} `{Stored T} (h : heap) (l : loc) : option T := read_array h l ≫= head.

(** [if in == nil { return nil }; out := new(T); in.DeepCopyInto(out); return out] *)
Definition deep_copy {T V} `{Stored T, DeepCopyInto T V} (h : heap) (p : pointer T) : heap * pointer T :=
  match p with
  | None => (h, None)
  | Some l =>
      match deref h l with
      | None => (h, None)
      | Some x =>
          let '(h1, out) := alloc h (to_cell [zero_value]) in
          let '(h2, y) := copy_into h1 x in
          (<[out := to_cell [y]]> h2, Some out)
      end
  end.

Definition pointer_copy {T V} `{Stored T, DeepCopyInto T V} : DeepCopyInto (pointer T) (option V) :=
  @copies_as (pointer T) (slice T) (option (list V)) (option V) slice_copy
    (fmap (fun l => mkWindow l 0 1)) (fmap array) (fun vs => vs ≫= head).

Lemma pointer_laws {T V} `{Stored T, DeepCopyLaws T V} : @DeepCopyLaws (pointer T) (option V) pointer_copy.
Proof.
  apply (@copies_as_laws (pointer T) (slice T) _ _ _ slice_laws). intros h [l|]; [|done].
  done.
Qed.

(** A pointer to a value of its type. *)
Lemma pointer_valid {T V} `{Stored T, DeepCopyInto T V} h l :
  @valid_in _ _ pointer_copy h (Some l : pointer T) <->
  exists x xs, read_array h l = Some (x :: xs) /\ deref h l = Some x /\ valid_in h x.
Proof.
  cbn. unfold deref, elements. cbn. split.
  - intros (xs & Hr & Hlen & Hv). rewrite Hr in *. destruct xs as [|x xs]; [cbn in Hlen; lia|].
    cbn in Hv. apply Forall_cons in Hv as [Hv _]. by exists x, xs.
  - intros (x & xs & Hr & _ & Hv). exists (x :: xs). rewrite Hr. cbn. split; [done|]. split; [lia|]. by apply Forall_singleton.
Qed.

(** [DeepCopy] is what copying the pointer means. *)
Lemma deep_copy_pointer {T V} `{Stored T, DeepCopyInto T V} h (p : pointer T) :
  @valid_in _ _ pointer_copy h p -> deep_copy h p = @copy_into _ _ pointer_copy h p.
Proof.
  destruct p as [l|]; [|done]. intros (x & xs & Hr & Hd & _)%pointer_valid. unfold deep_copy. rewrite Hd.
  cbn [copy_into pointer_copy copies_as slice_copy slice_copy_into fmap option_fmap option_map].
  assert (elements (T := T) h (mkWindow l 0 1) = [x]) as He by (unfold elements; cbn; by rewrite Hr).
  change (length_of (mkWindow l 0 1)) with 1. rewrite He. cbn [replicate]. destruct (alloc h _) as [h1 out].
  cbn. by destruct (copy_into h1 x).
Qed.

(** What isolation means: the copy denotes the same value, whatever is written to the cells there
    were before leaves the copy alone, and whatever is written to the new ones the original. *)
Definition isolated {T V} `{DeepCopyInto T V} (h h' : heap) (x y : T) : Prop :=
  denote h' y = denote h x /\
  (forall h2, (forall l, l ∉ dom h -> h2 !! l = h' !! l) -> denote h2 y = denote h x) /\
  (forall h2, (forall l, l ∈ dom h -> h2 !! l = h' !! l) -> denote h2 x = denote h x).

Lemma copy_isolated {T V} `{DeepCopyLaws T V} h x :
  valid_in h x -> isolated h (copy_into h x).1 x (copy_into h x).2.
Proof.
  intros Hx. pose proof (copy_grows h x Hx) as G. pose proof (copy_valid h x Hx) as Y.
  pose proof (copy_denote h x Hx) as D. pose proof (copy_fresh h x Hx) as F.
  destruct (copy_into h x) as [h' y]. cbn in *. split; [done|]. split; intros h2 Hh2.
  - destruct (frame_all h' h2 y Y) as (_ & -> & _); [|done]. intros l Hl. apply Hh2. set_solver.
  - apply (frame_all h h2 x Hx). intros l Hl. apply (reach_dom h x Hx) in Hl. rewrite (Hh2 l Hl).
    apply elem_of_dom in Hl as [c Hc]. rewrite Hc. by eapply lookup_weaken.
Qed.

Lemma deep_copy_isolated {T V} `{Stored T, DeepCopyLaws T V} h (p : pointer T) :
  @valid_in _ _ pointer_copy h p ->
  @isolated _ _ pointer_copy h (deep_copy h p).1 p (deep_copy h p).2.
Proof. intros Hp. rewrite (deep_copy_pointer h p Hp). apply (@copy_isolated _ _ _ pointer_laws). exact Hp. Qed.
End memory.

(** A record made of the parts of a tuple has these parts. *)
Ltac by_fields := intros a; repeat match goal with x : (_ * _)%type |- _ => destruct x end; reflexivity.
