(* ===== verification/DeepCopy.v ===== *)
(** * The generated deep copies ([api/v1alpha1/zz_generated.deepcopy.go])

    The claim's types as Go lays them out: structs by value, slices and pointers into memory. The
    copies of [metav1]'s types are not in this repository; they are parameters that keep the
    contract of [GoMemory]. *)
From Stdlib Require Import ZArith Lia Ascii String.
From S2P Require Import Prelude GoStrings Api GoMemory.
Local Open Scope stdpp_scope.

(** ** Definitions *)

Section types.
(** [metav1.ObjectMeta], [metav1.ListMeta] and [metav1.Condition], and what their cells hold. *)
Context {ObjectMeta ListMeta MetaCondition Ext : Type}.

Record SLISpec_mem := mkSLISpec_mem {
  sli_Type_mem : string;
  GoodStatuses_mem : slice Z;
  LatencyThreshold_mem : string
}.

Record ServiceClaimSpec_mem := mkSpec_mem {
  Owner_mem : string;
  Image_mem : string;
  Port_mem : Z;
  Tier_mem : string;
  SLI_mem : SLISpec_mem;
  SLO_mem : SLOSpec;
  Scale_mem : ScaleSpec;
  Storage_mem : bool
}.

(** A [*metav1.Time] is the location of a time. *)
Record ServiceClaimStatus_mem := mkStatus_mem {
  Conditions_mem : slice MetaCondition;
  ErrorBudgetRemaining_mem : string;
  BurnRate1h_mem : string;
  ManagedResources_mem : Z;
  status_ObservedGeneration_mem : Z;
  LastReconcileTime_mem : pointer Z;
  status_Storage_mem : pointer StorageStatus
}.

Record TypeMeta_mem := mkTypeMeta_mem { Kind_mem : string; APIVersion_mem : string }.

Record ServiceClaim_mem := mkClaim_mem {
  claim_TypeMeta : TypeMeta_mem;
  claim_ObjectMeta : ObjectMeta;
  Spec_mem : ServiceClaimSpec_mem;
  Status_mem : ServiceClaimStatus_mem
}.

Record ServiceClaimList_mem := mkList_mem {
  list_TypeMeta : TypeMeta_mem;
  list_ListMeta : ListMeta;
  Items_mem : slice ServiceClaim_mem
}.

Inductive cell :=
  | IntCell (xs : list Z)
  | TimeCell (xs : list Z)
  | ConditionCell (xs : list MetaCondition)
  | StorageCell (xs : list StorageStatus)
  | SLICell (xs : list SLISpec_mem)
  | SLOCell (xs : list SLOSpec)
  | ScaleCell (xs : list ScaleSpec)
  | SpecCell (xs : list ServiceClaimSpec_mem)
  | StatusCell (xs : list ServiceClaimStatus_mem)
  | ClaimCell (xs : list ServiceClaim_mem)
  | ListCell (xs : list ServiceClaimList_mem)
  | MetaCell (x : Ext).

(** Zero values; [zero_meta] and the like are those of the library's types. *)
Context (zero_meta : ObjectMeta) (zero_list_meta : ListMeta) (zero_condition : MetaCondition).

Definition zero_SLI : SLISpec_mem := mkSLISpec_mem "" None "".
Definition zero_Spec : ServiceClaimSpec_mem :=
  mkSpec_mem "" "" 0 "" zero_SLI (mkSLOSpec "" "") (mkScaleSpec 0 0) false.
Definition zero_Status : ServiceClaimStatus_mem := mkStatus_mem None "" "" 0 0 None None.
Definition zero_Claim : ServiceClaim_mem := mkClaim_mem (mkTypeMeta_mem "" "") zero_meta zero_Spec zero_Status.

(** Times and int32s are both numbers here, in cells of their own. *)
Definition stored_time : @Stored cell Z.
Proof. refine {| to_cell := TimeCell; of_cell c := match c with TimeCell xs => Some xs | _ => None end; zero_value := 0%Z |}; done. Defined.
#[local] Instance stored_int : @Stored cell Z.
Proof. refine {| to_cell := IntCell; of_cell c := match c with IntCell xs => Some xs | _ => None end; zero_value := 0%Z |}; done. Defined.
#[local] Instance stored_condition : @Stored cell MetaCondition.
Proof. refine {| to_cell := ConditionCell; of_cell c := match c with ConditionCell xs => Some xs | _ => None end; zero_value := zero_condition |}; done. Defined.
#[local] Instance stored_storage : @Stored cell StorageStatus.
Proof. refine {| to_cell := StorageCell; of_cell c := match c with StorageCell xs => Some xs | _ => None end; zero_value := mkStorageStatus "" "" |}; done. Defined.
#[local] Instance stored_sli : @Stored cell SLISpec_mem.
Proof. refine {| to_cell := SLICell; of_cell c := match c with SLICell xs => Some xs | _ => None end; zero_value := zero_SLI |}; done. Defined.
#[local] Instance stored_slo : @Stored cell SLOSpec.
Proof. refine {| to_cell := SLOCell; of_cell c := match c with SLOCell xs => Some xs | _ => None end; zero_value := mkSLOSpec "" "" |}; done. Defined.
#[local] Instance stored_scale : @Stored cell ScaleSpec.
Proof. refine {| to_cell := ScaleCell; of_cell c := match c with ScaleCell xs => Some xs | _ => None end; zero_value := mkScaleSpec 0 0 |}; done. Defined.
#[local] Instance stored_spec : @Stored cell ServiceClaimSpec_mem.
Proof. refine {| to_cell := SpecCell; of_cell c := match c with SpecCell xs => Some xs | _ => None end; zero_value := zero_Spec |}; done. Defined.
#[local] Instance stored_status : @Stored cell ServiceClaimStatus_mem.
Proof. refine {| to_cell := StatusCell; of_cell c := match c with StatusCell xs => Some xs | _ => None end; zero_value := zero_Status |}; done. Defined.
#[local] Instance stored_claim : @Stored cell ServiceClaim_mem.
Proof. refine {| to_cell := ClaimCell; of_cell c := match c with ClaimCell xs => Some xs | _ => None end; zero_value := zero_Claim |}; done. Defined.
#[local] Instance stored_list : @Stored cell ServiceClaimList_mem.
Proof. refine {| to_cell := ListCell; of_cell c := match c with ListCell xs => Some xs | _ => None end;
  zero_value := mkList_mem (mkTypeMeta_mem "" "") zero_list_meta None |}; done. Defined.

Abbreviation heap := (gmap loc cell).

(** The library's own copies. *)
Context {MetaValue ListMetaValue : Type}.
Context `{!@DeepCopyInto cell ObjectMeta MetaValue, !@DeepCopyInto cell ListMeta ListMetaValue,
          !@DeepCopyInto cell MetaCondition Condition}.

Definition SLISpec_DeepCopyInto (h : heap) (sli : SLISpec_mem) : heap * SLISpec_mem :=
  let '(h, statuses) :=
    match GoodStatuses_mem sli with
    | None => (h, None)
    | Some w =>
        let '(h1, l) := alloc h (IntCell (replicate (length_of w) 0%Z)) in
        (<[l := IntCell (elements (T := Z) h w)]> h1, Some (mkWindow l 0 (length_of w)))
    end in
  (h, mkSLISpec_mem (sli_Type_mem sli) statuses (LatencyThreshold_mem sli)).

Definition SLOSpec_DeepCopyInto (h : heap) (slo : SLOSpec) : heap * SLOSpec := (h, slo).
Definition ScaleSpec_DeepCopyInto (h : heap) (scale : ScaleSpec) : heap * ScaleSpec := (h, scale).
Definition StorageStatus_DeepCopyInto (h : heap) (storage : StorageStatus) : heap * StorageStatus := (h, storage).

Definition ServiceClaimSpec_DeepCopyInto (h : heap) (spec : ServiceClaimSpec_mem) : heap * ServiceClaimSpec_mem :=
  let '(h, sli) := SLISpec_DeepCopyInto h (SLI_mem spec) in
  (h, mkSpec_mem (Owner_mem spec) (Image_mem spec) (Port_mem spec) (Tier_mem spec) sli (SLO_mem spec) (Scale_mem spec)
        (Storage_mem spec)).

#[local] Instance copy_storage_status : @DeepCopyInto cell StorageStatus StorageStatus := plain_copy.
#[local] Instance copy_time : @DeepCopyInto cell Z Z := plain_copy.

Definition ServiceClaimStatus_DeepCopyInto (h : heap) (status : ServiceClaimStatus_mem) : heap * ServiceClaimStatus_mem :=
  let '(h, conditions) := slice_copy_into (T := MetaCondition) h (Conditions_mem status) in
  let '(h, time) := @deep_copy _ _ _ stored_time _ h (LastReconcileTime_mem status) in
  let '(h, storage) := deep_copy (T := StorageStatus) h (status_Storage_mem status) in
  (h, mkStatus_mem conditions (ErrorBudgetRemaining_mem status) (BurnRate1h_mem status) (ManagedResources_mem status)
        (status_ObservedGeneration_mem status) time storage).

Definition ServiceClaim_DeepCopyInto (h : heap) (claim : ServiceClaim_mem) : heap * ServiceClaim_mem :=
  let '(h, meta) := copy_into h (claim_ObjectMeta claim) in
  let '(h, spec) := ServiceClaimSpec_DeepCopyInto h (Spec_mem claim) in
  let '(h, status) := ServiceClaimStatus_DeepCopyInto h (Status_mem claim) in
  (h, mkClaim_mem (claim_TypeMeta claim) meta spec status).

(** *** What they denote *)

(** Two parts of a value: what [Api] sees, and whether its slice is nil. *)
Definition is_nil {A} (xs : option A) : bool := match xs with None => true | Some _ => false end.

Definition SLI_value (v : (string * string) * option (list Z)) : SLISpec * bool :=
  (mkSLISpec v.1.1 (default [] v.2) v.1.2, is_nil v.2).
#[local] Instance int_copy : @DeepCopyInto cell Z Z := plain_copy.
#[local] Instance SLI_copy : @DeepCopyInto cell SLISpec_mem (SLISpec * bool) :=
  with_copy SLISpec_DeepCopyInto
    (@copies_as _ _ _ _ _ (@pair_copy _ _ _ _ _ (plain_copy (T := string * string)) (slice_copy (T := Z)))
       (fun x => ((sli_Type_mem x, LatencyThreshold_mem x), GoodStatuses_mem x))
       (fun a => mkSLISpec_mem a.1.1 a.2 a.1.2) SLI_value).

Definition Spec_value (v : (string * string * Z * string * SLOSpec * ScaleSpec * bool) * (SLISpec * bool))
  : ServiceClaimSpec * bool :=
  let '(owner, image, port, tier, slo, scale, storage) := v.1 in
  (mkServiceClaimSpec owner image port tier v.2.1 slo scale storage, v.2.2).
#[local] Instance Spec_copy : @DeepCopyInto cell ServiceClaimSpec_mem (ServiceClaimSpec * bool) :=
  with_copy ServiceClaimSpec_DeepCopyInto
    (@copies_as _ _ _ _ _ (@pair_copy _ _ _ _ _ (plain_copy (T := string * string * Z * string * SLOSpec * ScaleSpec * bool)) SLI_copy)
       (fun x => ((Owner_mem x, Image_mem x, Port_mem x, Tier_mem x, SLO_mem x, Scale_mem x, Storage_mem x), SLI_mem x))
       (fun a => let '(owner, image, port, tier, slo, scale, storage) := a.1 in
                 mkSpec_mem owner image port tier a.2 slo scale storage) Spec_value).

Definition Status_value (v : (string * string * Z * Z) * (option (list Condition) * (option Z * option StorageStatus)))
  : ServiceClaimStatus * bool :=
  let '(remaining, rate, managed, observed) := v.1 in
  (mkServiceClaimStatus (default [] v.2.1) remaining rate managed observed v.2.2.1 v.2.2.2, is_nil v.2.1).
#[local] Instance Status_copy : @DeepCopyInto cell ServiceClaimStatus_mem (ServiceClaimStatus * bool) :=
  with_copy ServiceClaimStatus_DeepCopyInto
    (@copies_as _ _ _ _ _
       (@pair_copy _ _ _ _ _ (plain_copy (T := string * string * Z * Z))
          (@pair_copy _ _ _ _ _ (slice_copy (T := MetaCondition))
             (@pair_copy _ _ _ _ _ (@pointer_copy _ Z Z stored_time copy_time) (pointer_copy (T := StorageStatus)))))
       (fun x => ((ErrorBudgetRemaining_mem x, BurnRate1h_mem x, ManagedResources_mem x, status_ObservedGeneration_mem x),
                  (Conditions_mem x, (LastReconcileTime_mem x, status_Storage_mem x))))
       (fun a => let '(remaining, rate, managed, observed) := a.1 in
                 mkStatus_mem a.2.1 remaining rate managed observed a.2.2.1 a.2.2.2) Status_value).

#[local] Instance Claim_copy
  : @DeepCopyInto cell ServiceClaim_mem (TypeMeta_mem * (MetaValue * ((ServiceClaimSpec * bool) * (ServiceClaimStatus * bool)))) :=
  with_copy ServiceClaim_DeepCopyInto
    (@copies_as _ _ _ _ _
       (@pair_copy _ _ _ _ _ (plain_copy (T := TypeMeta_mem)) _)
       (fun x => (claim_TypeMeta x, (claim_ObjectMeta x, (Spec_mem x, Status_mem x))))
       (fun a => mkClaim_mem a.1 a.2.1 a.2.2.1 a.2.2.2) id).

Definition ServiceClaimList_DeepCopyInto (h : heap) (list : ServiceClaimList_mem) : heap * ServiceClaimList_mem :=
  let '(h, meta) := copy_into h (list_ListMeta list) in
  let '(h, items) := slice_copy_into (T := ServiceClaim_mem) h (Items_mem list) in
  (h, mkList_mem (list_TypeMeta list) meta items).

#[local] Instance List_copy : @DeepCopyInto cell ServiceClaimList_mem
    (TypeMeta_mem * (ListMetaValue * option (list (TypeMeta_mem * (MetaValue * ((ServiceClaimSpec * bool) * (ServiceClaimStatus * bool))))))) :=
  with_copy ServiceClaimList_DeepCopyInto
    (@copies_as _ _ _ _ _
       (@pair_copy _ _ _ _ _ (plain_copy (T := TypeMeta_mem)) (@pair_copy _ _ _ _ _ _ (slice_copy (T := ServiceClaim_mem))))
       (fun x => (list_TypeMeta x, (list_ListMeta x, Items_mem x)))
       (fun a => mkList_mem a.1 a.2.1 a.2.2) id).

(** *** [DeepCopy] and [DeepCopyObject] *)

#[local] Instance SLO_copy : @DeepCopyInto cell SLOSpec SLOSpec := with_copy SLOSpec_DeepCopyInto plain_copy.
#[local] Instance Scale_copy : @DeepCopyInto cell ScaleSpec ScaleSpec := with_copy ScaleSpec_DeepCopyInto plain_copy.

Definition SLISpec_DeepCopy (h : heap) (p : pointer SLISpec_mem) := deep_copy h p.
Definition SLOSpec_DeepCopy (h : heap) (p : pointer SLOSpec) := deep_copy h p.
Definition ScaleSpec_DeepCopy (h : heap) (p : pointer ScaleSpec) := deep_copy h p.
Definition StorageStatus_DeepCopy (h : heap) (p : pointer StorageStatus) := deep_copy h p.
Definition ServiceClaimSpec_DeepCopy (h : heap) (p : pointer ServiceClaimSpec_mem) := deep_copy h p.
Definition ServiceClaimStatus_DeepCopy (h : heap) (p : pointer ServiceClaimStatus_mem) := deep_copy h p.
Definition ServiceClaim_DeepCopy (h : heap) (p : pointer ServiceClaim_mem) := deep_copy h p.
Definition ServiceClaimList_DeepCopy (h : heap) (p : pointer ServiceClaimList_mem) := deep_copy h p.

(** [runtime.Object]: nil stays nil instead of becoming an interface that holds a nil pointer. *)
Inductive runtime_Object :=
  | NilObject
  | ClaimObject (p : loc)
  | ListObject (p : loc).
Definition ServiceClaim_DeepCopyObject (h : heap) (p : pointer ServiceClaim_mem) : heap * runtime_Object :=
  match ServiceClaim_DeepCopy h p with (h, Some c) => (h, ClaimObject c) | (h, None) => (h, NilObject) end.
Definition ServiceClaimList_DeepCopyObject (h : heap) (p : pointer ServiceClaimList_mem) : heap * runtime_Object :=
  match ServiceClaimList_DeepCopy h p with (h, Some c) => (h, ListObject c) | (h, None) => (h, NilObject) end.

(** ** Lemmas *)

Context `{!DeepCopyLaws ObjectMeta MetaValue, !DeepCopyLaws ListMeta ListMetaValue, !DeepCopyLaws MetaCondition Condition}.

#[local] Existing Instances plain_laws slice_laws pointer_laws.

#[local] Instance SLI_laws : DeepCopyLaws SLISpec_mem (SLISpec * bool).
Proof.
  apply with_copy_laws.
  - apply copies_as_fields. by_fields.
  - intros h [type [w|] threshold]; [|done]. intros [_ (xs & Hr & Hlen & _)]. cbn in *.
    unfold SLISpec_DeepCopyInto. cbn [GoodStatuses_mem]. unfold alloc. cbn. set (l := fresh (dom h)).
    assert (length (elements (T := Z) h w) = length_of w) as Hn.
    { unfold elements. rewrite Hr. cbn. rewrite length_take, length_drop. lia. }
    unfold int_copy. rewrite (copy_elements_plain l (elements (T := Z) h w)) by (rewrite lookup_insert_eq, Hn; done). done.
Qed.

#[local] Instance Spec_laws : DeepCopyLaws ServiceClaimSpec_mem (ServiceClaimSpec * bool).
Proof.
  apply with_copy_laws.
  - apply copies_as_fields. by_fields.
  - intros h [] _. cbn. unfold ServiceClaimSpec_DeepCopyInto. cbn. by destruct (SLISpec_DeepCopyInto h _).
Qed.

#[local] Instance Status_laws : DeepCopyLaws ServiceClaimStatus_mem (ServiceClaimStatus * bool).
Proof.
  apply with_copy_laws.
  - apply copies_as_fields. by_fields.
  - intros h [conditions remaining rate managed observed time storage] (_ & Hc & Ht & Hs). cbn [fst snd] in *.
    unfold ServiceClaimStatus_DeepCopyInto. cbn [Conditions_mem LastReconcileTime_mem status_Storage_mem].
    cbn [copy_into copies_as pair_copy plain_copy fst snd ErrorBudgetRemaining_mem BurnRate1h_mem ManagedResources_mem
         status_ObservedGeneration_mem Conditions_mem LastReconcileTime_mem status_Storage_mem] in *.
    pose proof (@copy_grows _ _ _ _ (slice_laws (T := MetaCondition)) h conditions Hc) as G1.
    change (@copy_into _ _ _ slice_copy h conditions) with (slice_copy_into (T := MetaCondition) h conditions) in *.
    destruct (slice_copy_into (T := MetaCondition) h conditions) as [h1 conditions']. cbn [fst] in G1.
    destruct (@frame_grows _ _ _ _ (@pointer_laws _ Z Z stored_time copy_time plain_laws) h h1 time Ht G1) as (Ht1 & _ & _).
    rewrite (@deep_copy_pointer _ Z Z stored_time copy_time h1 time Ht1).
    pose proof (@copy_grows _ _ _ _ (@pointer_laws _ Z Z stored_time copy_time plain_laws) h1 time Ht1) as G2.
    destruct (@copy_into _ _ _ pointer_copy h1 time) as [h2 time']. cbn [fst] in G2.
    destruct (@frame_grows _ _ _ _ (pointer_laws (T := StorageStatus)) h h2 storage Hs ltac:(by etransitivity)) as (Hs2 & _ & _).
    rewrite (deep_copy_pointer h2 storage Hs2). by destruct (@copy_into _ _ _ pointer_copy h2 storage).
Qed.

#[local] Instance Claim_laws : DeepCopyLaws ServiceClaim_mem
    (TypeMeta_mem * (MetaValue * ((ServiceClaimSpec * bool) * (ServiceClaimStatus * bool)))).
Proof.
  apply with_copy_laws.
  - apply copies_as_fields. by_fields.
  - intros h [type meta spec status] _. cbn. unfold ServiceClaim_DeepCopyInto. cbn.
    destruct (copy_into h meta) as [h1 meta']. destruct (ServiceClaimSpec_DeepCopyInto h1 spec) as [h2 spec'].
    by destruct (ServiceClaimStatus_DeepCopyInto h2 status).
Qed.

#[local] Instance List_laws : DeepCopyLaws ServiceClaimList_mem
    (TypeMeta_mem * (ListMetaValue * option (list (TypeMeta_mem * (MetaValue * ((ServiceClaimSpec * bool) * (ServiceClaimStatus * bool))))))).
Proof.
  apply with_copy_laws.
  - apply copies_as_fields. by_fields.
  - intros h [type meta items] _. cbn. unfold ServiceClaimList_DeepCopyInto. cbn.
    destruct (copy_into h meta) as [h1 meta']. by destruct (slice_copy_into h1 items).
Qed.

(** ** Properties *)

(** C28: The generated copies are deep. For a pointer to a claim, or to a list of claims, whose
    cells are in memory, DeepCopy returns nil exactly for nil, and otherwise a pointer to an equal
    value that shares no cell with it: whatever is written afterwards to the memory there was
    leaves the copy as it is, and whatever is written to new memory leaves the original. It holds
    for any deep copies of the library's metadata and conditions. *)
Theorem DeepCopy_isolated (h : heap) (p : pointer ServiceClaim_mem) (q : pointer ServiceClaimList_mem) :
  @valid_in cell _ _ pointer_copy h p -> @valid_in cell _ _ pointer_copy h q ->
  @isolated cell _ _ pointer_copy h (ServiceClaim_DeepCopy h p).1 p (ServiceClaim_DeepCopy h p).2 /\
  @isolated cell _ _ pointer_copy h (ServiceClaimList_DeepCopy h q).1 q (ServiceClaimList_DeepCopy h q).2 /\
  ((ServiceClaim_DeepCopyObject h p).2 = NilObject <-> p = None) /\
  ((ServiceClaimList_DeepCopyObject h q).2 = NilObject <-> q = None).
Proof.
  intros Hp Hq. split; [by apply (deep_copy_isolated h p)|]. split; [by apply (deep_copy_isolated h q)|].
  unfold ServiceClaim_DeepCopyObject, ServiceClaim_DeepCopy, ServiceClaimList_DeepCopyObject, ServiceClaimList_DeepCopy.
  split.
  - destruct p as [l|]; [|done]. apply pointer_valid in Hp as (x & xs & _ & Hd & _). unfold deep_copy. rewrite Hd.
    by destruct (alloc h _), (copy_into _ x).
  - destruct q as [l|]; [|done]. apply pointer_valid in Hq as (x & xs & _ & Hd & _). unfold deep_copy. rewrite Hd.
    by destruct (alloc h _), (copy_into _ x).
Qed.
End types.

(** A claim on the heap, with a window into an array of statuses; the library's types plain. *)
Definition no_condition : Condition := mkCondition "" "" "" "" 0 0.
Abbreviation plain_cell := (@cell unit unit Condition unit).
#[local] Instance meta_copy : @DeepCopyInto plain_cell unit unit := plain_copy.
#[local] Instance condition_copy : @DeepCopyInto plain_cell Condition Condition := plain_copy.
#[local] Instance sample_claim_copy : @DeepCopyInto plain_cell (@ServiceClaim_mem unit Condition)
    (TypeMeta_mem * (unit * ((ServiceClaimSpec * bool) * (ServiceClaimStatus * bool)))) :=
  @Claim_copy unit unit Condition unit no_condition unit meta_copy condition_copy.
#[local] Instance sample_claim_stored : @Stored plain_cell (@ServiceClaim_mem unit Condition) := @stored_claim unit unit Condition unit tt.

Definition mem_claim : @ServiceClaim_mem unit Condition :=
  mkClaim_mem (mkTypeMeta_mem "ServiceClaim" GroupVersion) tt
    (mkSpec_mem "team" "img" 8080 "batch" (mkSLISpec_mem "http-availability" (Some (mkWindow 1 1 2)) "250ms")
       (mkSLOSpec "99.5" "28d") (mkScaleSpec 1 2) false) zero_Status.
Definition mem_heap : gmap loc plain_cell :=
  <[2%positive := ClaimCell [mem_claim]]> {[1%positive := IntCell [100; 200; 404]%Z]}.

Lemma mem_claim_valid : @valid_in plain_cell _ _ (@pointer_copy _ _ _ sample_claim_stored sample_claim_copy) mem_heap (Some 2%positive : pointer (@ServiceClaim_mem unit Condition)).
Proof.
  apply pointer_valid. exists mem_claim, []. split; [reflexivity|]. split; [reflexivity|]. repeat split.
  exists [100; 200; 404]%Z. split; [reflexivity|]. split; [cbn; lia|]. repeat constructor.
Qed.

Definition mem_copy : gmap loc plain_cell * pointer (@ServiceClaim_mem unit Condition) :=
  @ServiceClaim_DeepCopy unit unit Condition unit tt no_condition unit meta_copy condition_copy mem_heap (Some 2%positive).

Lemma DeepCopy_isolated_witness :
  @isolated plain_cell _ _ (@pointer_copy _ _ _ sample_claim_stored sample_claim_copy) mem_heap mem_copy.1 (Some 2%positive : pointer (@ServiceClaim_mem unit Condition)) mem_copy.2.
Proof.
  exact (proj1 (@DeepCopy_isolated unit unit Condition unit tt tt no_condition unit unit meta_copy meta_copy condition_copy
    plain_laws plain_laws plain_laws mem_heap (Some 2%positive) None mem_claim_valid I)).
Defined.
